(* ===== verification/_CoqProject ===== *)
-Q . S2P
Prelude.v
Fairness.v
Objects.v
ApiTypes.v
GoHeap.v
GoCopy.v
ApiLayout.v
BootstrapCopy.v
ControlPlaneCopy.v
DeepCopySpec.v
Effects.v
Libs.v
Calendar.v
Duration.v
Expiration.v
RefLibs.v
ApiServer.v
RefServer.v
Json.v
JsonStruct.v
Secrets.v
InitLock.v
Inplace.v
SharedField.v
UpgradeLock.v
Proxy.v
Token.v
Workload.v
Kubeconfig.v
NodeConfig.v
CloudInit.v
MachineUpgrade.v
Orchestrate.v
OrchestratedMD.v
RolloutLiveness.v
MachineFilters.v
ControlPlane.v
Scale.v
AgentConditions.v
Remediation.v
OrchestratedCP.v
ControlPlaneLiveness.v
CertRefresh.v
KcpReconcile.v
KcpSpec.v
Rollout.v
KcpLiveness.v
ConfigReconcile.v
ClusterInit.v
MachineHook.v
Webhook.v
Managers.v
ReleaseNotes.v
