(* ===== verification/Prelude.v ===== *)
(** * The controllers of cluster-api-k8s

    A model of the bootstrap and control plane providers of Cluster API for
    Canonical Kubernetes (the Go code under src/), and the theorems that make them
    correct.  Everything is a shallow embedding: a Go function is a Rocq function of
    the same name, pure functions as they are, the others as programs of the monad
    of [Effects].

    ** The system

    Two managers watch objects of a management cluster.  The bootstrap provider
    turns a [CK8sConfig] into the user data of one machine; the control plane
    provider keeps the machines of a [CK8sControlPlane] at the wanted number and
    specification.  They communicate through the management cluster alone: objects
    with their annotations and conditions, two config maps used as locks, and
    secrets for tokens, certificates and user data.  The workload cluster is reached
    through its API server and through k8sd proxies on its nodes.

    ** How code is represented

    [Effects.sysE] lists the calls that leave the process: API server calls, HTTP
    exchanges, clock, randomness, the order in which [range] visits a map, the
    scheduling of two goroutines, and a run-time panic.  A program [prog A] is a
    finite tree of such calls, so a function of the model always terminates when
    its calls return; no definition uses fuel except the JSON printer and parser
    ([Json]), duration parsing and the text functions of [ReleaseNotes], whose fuel
    is the length of the text, and loops of the source are loops over finite lists.
    [go S R A] is the body of a function that assigns to objects of type [S] and may
    return an [R] early.  [wp p g Q] says that [p],
    started in the environment state [g], meets its calls' preconditions and ends
    in [Q], whatever the environment answers; with the environment [trace_env],
    where a panic has precondition [False], a [wp] also excludes panics, and with
    [panic_env] it does not.  [ApiServer] is the contract of a server with stored
    objects, [RefServer] an executable one that satisfies it, and [psteps]
    interleaves programs call by call ([psteps_rely_guar] and [psteps_rg] are the
    rely-guarantee rules for it).  [reads], [writes_post], [only] and [count_env] restrict or count calls;
    [chain] follows a server through the calls of a trace, so that what is proved of
    traces carries over to stored objects ([exec_trace]).

    Go memory is modelled where the code is about memory: [GoHeap] is a heap of typed
    cells that pointers, slices and maps refer to, and the generated deep copies are
    programs on it.  Everywhere else an object is a value; [DeepCopySpec] says why the
    copies that the controllers take justify that.

    Integers have their width: [wrap32] and [wrap64] where Go's [int32] and [int]
    may overflow.  Go errors are values of [Objects.error], tested by the library
    calls the source uses.  A nil dereference or the assignment to a nil map is a
    [Panic].

    ** Files, from the base upwards

    - [Prelude], [Fairness], [Objects], [ApiTypes]: results, machine integers, strings;
      progress along infinite executions; the Kubernetes objects; the two API packages
      (src/bootstrap/api/v1beta2, src/controlplane/api/v1beta2).
    - [GoHeap], [GoCopy]: Go memory; deep equality, the memory that a value owns, and
      what it means for a function to copy.  [ApiLayout], [BootstrapCopy],
      [ControlPlaneCopy], [DeepCopySpec]: every type of both API packages with its
      references, and both zz_generated.deepcopy.go.
    - [Effects], [ApiServer], [RefServer]: as above.
    - [Libs], [RefLibs]: third-party functions as classes of operations and classes
      of laws, and instances that satisfy the laws, in which the witnesses run.
    - [Calendar], [Duration] and [Expiration] (src/pkg/time), [Json] and [JsonStruct] (the part of encoding/json
      that is used).
    - [Secrets] (src/pkg/secret), [Kubeconfig] (src/pkg/kubeconfig), [Token]
      (src/pkg/token).
    - [InitLock] (src/pkg/locking), [UpgradeLock] and [Inplace]
      (src/pkg/upgrade/inplace), [Proxy] (src/pkg/proxy); [SharedField]: methods of an
      object that several goroutines may use, whose every access to a field is a step.
    - [Workload], [AgentConditions], [ControlPlane], [NodeConfig] (src/pkg/ck8s);
      [MachineFilters] (src/pkg/machinefilters); [CloudInit] (src/pkg/cloudinit).
    - [ConfigReconcile], [MachineUpgrade], [CertRefresh], [OrchestratedMD]
      (src/bootstrap/controllers).
    - [Scale], [Remediation], [OrchestratedCP], [KcpReconcile], [MachineHook]
      (src/controlplane/controllers), with [Orchestrate] for what the two
      orchestrated upgrades share, [KcpSpec] for the guarantees of the control plane
      reconciler and [Rollout] for its abstract specification.
    - [Managers] (src/bootstrap/main.go, src/controlplane/main.go and every
      SetupWithManager).
    - Compositions of several controllers: [ClusterInit] (the bootstrap reconcilers of
      all machines of a cluster and the init lock), [RolloutLiveness] and
      [ControlPlaneLiveness] (an orchestrator and the controllers of its machines),
      [KcpLiveness] (the reconciler of a control plane and everybody else on one server).
    - [Webhook] (the admission webhooks of both API packages).
    - [ReleaseNotes] (src/hack/tools/release/notes.go).

    ** What the theorems show

    - Locks.  [Lock_exclusive] and [UpgradeLock.Lock_excludes]: in every
      interleaving of concurrent callers at most one holds the lock.  The upgrade lock
      needs a lock object of its own for each caller: [Lock_shared_object] shows two
      calls on one object that go wrong.
      [Lock_refines]: the init lock implements an abstract lock on every branch.
      [Lock_recovers]: a stale init lock is recovered.  [init_under_lock] composes
      the init lock with the bootstrap reconciler: a cluster is initialised only by
      the machine that holds it.  [one_first_node] composes all bootstrap reconcilers
      of a cluster, interleaved call by call: at most one machine becomes the initial
      node.
    - Bootstrapping.  [ready_means_bootstrapped]: a configuration is ready only
      after its user data were stored, and these follow the kind of node.
      [cloud_config_spec] and [GenerateInitControlPlaneConfig_spec] say what the
      user data and the configuration of the first node are, file by file and field
      by field; [release_equivalence] that the in-place upgrade and the bootstrap of a
      joining machine accept the same releases and install the same snap.
    - Machines of a control plane.  [Rollout.plan] is the abstract decision;
      [scale_or_rollout_refines] shows that the reconciler performs it, and
      [rollout_terminates] that performing it repeatedly ends in the wanted machines
      with the number of machines within bounds on the way.  [rollout_completes] is the
      same for stored machines: in every fair execution on a server the rollout
      completes.  [reconcile_one_machine],
      [scale_down_safe], [remediation_safe], [initialize_once],
      [clone_all_or_nothing] and [reconcileDelete_spec] bound what one
      reconciliation may do; [rollout_partition], [pick_for_deletion_spec],
      [filters_order_irrelevant] and [new_machine_matches] are about its choices;
      [retries_bounded] and [remediation_data_roundtrip] about the remediation
      counter; [Reconcile_finalizer_first] and [Reconcile_watches] about the object.
    - In-place upgrades.  [machine_upgrade_refines] and [cert_refresh_refines]: the
      controllers of single machines are the state machines of their annotations.
      [cp_reconcile_refines] and [md_reconcile_refines]: the orchestrators perform
      the actions of an abstract rolling upgrade.  [cp_rollout_exclusive] and
      [md_rollout_serial] compose the two: in every run at most one machine is
      upgraded at a time.  [cp_rollout_completes] and [md_rollout_completes]: in every
      fair execution with finitely many failures the upgrade completes.
    - Secrets.  [LookupOrGenerate_spec], [secret_name_roundtrip],
      [Token.Reconcile_spec], [EnsureNodeToken_spec] and
      [CreateSecretWithOwner_spec]: what is stored stays, and what is missing is
      generated from it.  [EnsureNodeToken_replaces]: a token that cannot be read is
      overwritten.
    - Memory.  [api_objects_isolated]: the deep copy of every kind of object never
      panics, equals the original and shares nothing with it; [bootstrap_spec_copied]
      and [matching_config_spec] apply this to the copies that the control plane
      controller hands out and edits.
    - k8sd.  [RefreshWorkerCertificates_complete] (two goroutines, every schedule)
      and [RemoveMachineFromCluster_other_node].
    - [defaults_complete] and [hook_released]: the webhook and the machine hook;
      [DialContext_spec]: dialling through the proxy leaks no connection.
    - Managers.  [bootstrap_main_spec] and [controlplane_main_spec]: what a manager runs,
      with all that it dereferences; [own_machine_wakes]: the changes of a control
      plane's machines wake its controllers; [dial_timeouts]: which of them have the
      time limit of the command line.
    - [expiration_bounds]: expiration dates and the calendar.
      [notes_schedule_independent]: the release notes do not depend on the schedule of
      the workers that process the commits, but for the order of several contributions
      to the documentation ([documentation_order_varies]); [workers_finish]: the
      workers neither block nor run forever.

    ** Idealisations

    Reads through the controller's cache answer the current objects.  In the
    specification of a configuration, which [reflect.DeepEqual] compares, a nil and an
    empty slice or map are two values ([ApiTypes.ControlPlaneConfigEmpties] and
    [ConfigSpecEmpties]; [DeepEqual_value]: deep equality is equality of these values),
    and a stored configuration may have lost the empty ones to the JSON encoding
    ([ApiTypes.encoded], [ApiServer.stored_as]).  [rollout_completes] assumes, as the
    webhook provides, that the control plane has none; [untidy_never_matches] shows what
    happens to one that has.  In other objects nil and empty are one value where no
    code tells them apart.  The reconciler of control planes passes an object and a structure that
    points to it; they are one value.  The owner of a token secret is a
    CK8sControlPlane.  JSON text is valid UTF-8, and U+2028 and U+2029 are not
    escaped.  [RefServer] merges the annotations of a patch and nothing else; the
    theorems do not depend on it.  A deleted object is gone at once, where a real server
    may keep it until its finalizers are removed; machines that are being deleted
    appear in the rollout all the same.  In [GoHeap] a pointer refers to a whole
    allocation and a slice to a part of one; the capacity of a slice is left out.
    Dates are in UTC, and their year is not bounded by
    the range of [time.Time].  Logging is left out, and so is the cancellation
    of a context.

    ** Parameters

    Code that is not under src/ is a parameter: Cluster API and API machinery
    ([Libs]), the k8sd request types ([Workload.K8sdApi]), YAML, the version parser
    ([CloudInit.CloudInitLib], [ConfigReconcile.RenderLib]), the kubeconfig writer
    ([Kubeconfig.ClientcmdLib]) and the certificate library ([Libs.CertsLib]).  The
    commands that the release notes tool runs, [sort.Slice] and the tables of [unicode]
    are [ReleaseNotes.Tools].  The types of other packages in API objects and their deep
    copies are [ApiLayout.ExtTypes] and [BootstrapCopy.ExtCopies], the order in which a
    copy visits a map [ApiLayout.RangeOrder], controller-runtime
    [Managers.ControllerRuntime], and the infrastructure providers that a rollout relies
    on [KcpLiveness.Infrastructure].

    ** Not modelled

    The registration of API types with a scheme, conversion hubs and the parsing of the
    command line, the SPDY protocol below src/pkg/proxy, the random identifiers of
    src/pkg/trace that only appear in log lines, the shell scripts that run on the nodes,
    the scripts under hack/ that publish a release and the tests: declarations, code
    outside Go or without an effect on what the controllers do.  The hashes of
    certificates, which nothing uses, are outside the model as well. *)

From stdpp Require Export base tactics list strings gmap fin_maps pretty numbers.
From Stdlib Require Export ZArith Ascii Lia.

#[export] Set Default Goal Selector "!".

(** ** Results of fallible Go calls *)

(** [(T, error)] with Go's convention that exactly one of the two is
    meaningful. *)
Inductive result (E A : Type) : Type :=
  | Ok (a : A)
  | Err (e : E).
Arguments Ok {E A} _.
Arguments Err {E A} _.

Definition is_ok {E A} (r : result E A) : bool :=
  match r with Ok _ => true | Err _ => false end.

Definition res_map {E A B} (f : A → B) (r : result E A) : result E B :=
  match r with Ok a => Ok (f a) | Err e => Err e end.

(** ** Machine integers *)

(** Two's complement wrap-around of Go's [int32] and of [int]/[int64]. *)
Definition wrap (w : Z) (z : Z) : Z :=
  ((z + 2 ^ (w - 1)) `mod` 2 ^ w - 2 ^ (w - 1))%Z.
Definition wrap32 (z : Z) : Z := wrap 32 z.
Definition wrap64 (z : Z) : Z := wrap 64 z.

Definition fits (w z : Z) : Prop := (- 2 ^ (w - 1) ≤ z < 2 ^ (w - 1))%Z.

#[export] Instance fits_dec w z : Decision (fits w z).
Proof. unfold fits. apply _. Defined.

Section Wrap.
#[local] Open Scope Z_scope.
Context (w : Z) (Hw : 0 < w).

Lemma pow_half : 2 ^ w = 2 * 2 ^ (w - 1).
Proof. rewrite <- Z.pow_succ_r by lia. f_equal. lia. Qed.

Lemma wrap_id z : fits w z → wrap w z = z.
Proof.
  intros [Hlo Hhi]. unfold wrap. pose proof pow_half.
  rewrite Z.mod_small by lia. lia.
Qed.

Lemma wrap_fits z : fits w (wrap w z).
Proof.
  unfold fits, wrap. pose proof pow_half.
  assert (0 < 2 ^ (w - 1)) by (apply Z.pow_pos_nonneg; lia).
  pose proof (Z.mod_pos_bound (z + 2 ^ (w - 1)) (2 ^ w)). lia.
Qed.

Lemma wrap_cong z : ∃ k, wrap w z = z - k * 2 ^ w.
Proof.
  unfold wrap. pose proof pow_half.
  assert (0 < 2 ^ (w - 1)) by (apply Z.pow_pos_nonneg; lia).
  exists ((z + 2 ^ (w - 1)) `div` 2 ^ w).
  pose proof (Z.div_mod (z + 2 ^ (w - 1)) (2 ^ w)). lia.
Qed.
End Wrap.

(** ** Strings: the part of Go's [strings] package the program uses *)

Module GoStrings.
(** Go strings are byte sequences; [s[n:]] and [s[:n]]. *)
Fixpoint drop (n : nat) (s : string) : string :=
  match n, s with
  | 0, _ => s
  | S n, String _ s => drop n s
  | S _, EmptyString => EmptyString
  end.

Fixpoint take (n : nat) (s : string) : string :=
  match n, s with
  | 0, _ => EmptyString
  | S n, String c s => String c (take n s)
  | S _, EmptyString => EmptyString
  end.

(** [strings.HasPrefix] *)
Definition HasPrefix (s p : string) : bool :=
  bool_decide (take (String.length p) s = p).

(** [strings.HasSuffix] *)
Definition HasSuffix (s p : string) : bool :=
  (String.length p <=? String.length s) &&
  bool_decide (drop (String.length s - String.length p) s = p).

(** [strings.TrimPrefix] *)
Definition TrimPrefix (s p : string) : string :=
  if HasPrefix s p then drop (String.length p) s else s.

(** [strings.Split(s, sep)] for a separator of one byte: never empty. *)
Fixpoint Split (s : string) (sep : ascii) : list string :=
  match s with
  | EmptyString => [EmptyString]
  | String c s =>
      if bool_decide (c = sep) then EmptyString :: Split s sep
      else match Split s sep with
           | [] => [String c EmptyString]
           | x :: xs => String c x :: xs
           end
  end.

(** [strings.LastIndex(s, sep)] for a separator of one byte ([None] is -1). *)
Fixpoint LastIndex (s : string) (sep : ascii) : option nat :=
  match s with
  | EmptyString => None
  | String c s =>
      match LastIndex s sep with
      | Some n => Some (S n)
      | None => if bool_decide (c = sep) then Some 0 else None
      end
  end.

(** [strings.Join] *)
Definition Join (l : list string) (sep : string) : string := String.concat sep l.

(** [strings.ToLower] on one ASCII byte. *)
Definition lower (c : ascii) : ascii :=
  let n := nat_of_ascii c in
  if (65 <=? n) && (n <=? 90) then ascii_of_nat (n + 32) else c.

Fixpoint ToLower (s : string) : string :=
  match s with
  | EmptyString => EmptyString
  | String c s => String (lower c) (ToLower s)
  end.

(** The bytes of a string contain [c]. *)
Fixpoint contains (c : ascii) (s : string) : bool :=
  match s with
  | EmptyString => false
  | String c' s => bool_decide (c' = c) || contains c s
  end.

Lemma drop_app p s : drop (String.length p) (p +:+ s) = s.
Proof. induction p; simpl; auto. Qed.

Lemma take_app p s : take (String.length p) (p +:+ s) = p.
Proof. induction p as [|c p IH]; simpl; [done|]. by f_equal. Qed.

Lemma app_nil_r s : s +:+ "" = s.
Proof. induction s as [|c s IH]; [done|]. unfold String.append in *. by f_equal. Qed.

Lemma app_assoc s t u : (s +:+ t) +:+ u = s +:+ (t +:+ u).
Proof. induction s as [|c s IH]; [done|]. unfold String.append in *. by f_equal. Qed.

Lemma length_app s t : String.length (s +:+ t) = String.length s + String.length t.
Proof. induction s; simpl; auto. Qed.

Lemma take_drop n s : take n s +:+ drop n s = s.
Proof.
  revert s. induction n as [|n IH]; intros [|c s]; simpl; try done.
  unfold String.append in *. by f_equal.
Qed.

Lemma last_inj s t a b :
  s +:+ String a "" = t +:+ String b "" → s = t ∧ a = b.
Proof.
  revert t. induction s as [|c s IH]; intros [|c' t] He; simpl in *.
  - by simplify_eq.
  - injection He as -> He. by destruct t.
  - injection He as -> He. by destruct s.
  - injection He as -> He. by apply IH in He as [-> ->].
Qed.

(** A string ends in at most one byte. *)
Lemma HasSuffix_last s a p b :
  a ≠ b → HasSuffix (s +:+ String a "") (p +:+ String b "") = false.
Proof.
  intros Hab. apply not_true_iff_false. unfold HasSuffix.
  rewrite andb_true_iff, bool_decide_eq_true. intros [_ Hd].
  pose proof (take_drop (String.length (s +:+ String a "") - String.length (p +:+ String b ""))
    (s +:+ String a "")) as Ht.
  rewrite Hd, <- app_assoc in Ht. by apply last_inj in Ht as [_ ->].
Qed.

Lemma HasPrefix_app p s : HasPrefix (p +:+ s) p = true.
Proof. unfold HasPrefix. by rewrite take_app, bool_decide_true. Qed.

Lemma HasSuffix_app s p : HasSuffix (s +:+ p) p = true.
Proof.
  unfold HasSuffix. rewrite length_app.
  replace (String.length s + String.length p - String.length p)
    with (String.length s) by lia.
  rewrite drop_app, bool_decide_true by done.
  rewrite andb_true_r. apply Nat.leb_le. lia.
Qed.

Lemma TrimPrefix_app p s : TrimPrefix (p +:+ s) p = s.
Proof. unfold TrimPrefix. by rewrite HasPrefix_app, drop_app. Qed.

Lemma Split_nonempty s c : Split s c ≠ [].
Proof. destruct s; simpl; [done|]. repeat case_match; done. Qed.

Lemma Split_clean s c : contains c s = false → Split s c = [s].
Proof.
  induction s as [|c' s IH]; simpl; [done|].
  rewrite orb_false_iff, bool_decide_eq_false. intros [Hne Hs].
  by rewrite bool_decide_false, IH.
Qed.

Lemma Split_app s c t :
  contains c s = false → Split (s +:+ String c t) c = s :: Split t c.
Proof.
  induction s as [|c' s IH]; simpl.
  - by rewrite bool_decide_true.
  - rewrite orb_false_iff, bool_decide_eq_false. intros [Hne Hs].
    by rewrite bool_decide_false, IH.
Qed.

Lemma LastIndex_clean s c : contains c s = false → LastIndex s c = None.
Proof.
  induction s as [|c' s IH]; simpl; [done|].
  rewrite orb_false_iff, bool_decide_eq_false. intros [Hne Hs].
  by rewrite IH, bool_decide_false.
Qed.

Lemma LastIndex_app s c t :
  contains c t = false → LastIndex (s +:+ String c t) c = Some (String.length s).
Proof.
  intros Ht. induction s as [|c' s IH]; simpl.
  - by rewrite LastIndex_clean, bool_decide_true.
  - by rewrite IH.
Qed.
End GoStrings.

(** A double quote, which no string literal of the library contains. *)
Definition dquote : string := String "034"%char EmptyString.

(** [%q] on a string without characters that need escaping. *)
Definition quote (s : string) : string := dquote +:+ s +:+ dquote.

(** Insertion of a string into a list sorted by bytes. *)
Fixpoint insert_sorted (s : string) (l : list string) : list string :=
  match l with
  | [] => [s]
  | s' :: l => if String.ltb s' s then s' :: insert_sorted s l else s :: s' :: l
  end.

(** The keys of a map in byte order, as [encoding/json] and [sets.String] list
    them. *)
Definition sorted_keys {A} (m : gmap string A) : list string :=
  foldr insert_sorted [] (map_to_list m).*1.

(** ** Automation *)

(** Lemmas that the common goals need. *)
Create HintDb go.

(** Case analysis on the scrutinee of the first [match] or [if] of the goal. *)
Ltac case_goal :=
  match goal with
  | |- context [match ?x with _ => _ end] => destruct x eqn:?
  end.

Ltac case_hyp H :=
  match type of H with
  | context [match ?x with _ => _ end] => destruct x eqn:?
  end.

(** ** Option and list lemmas shared by the components *)

Definition or_else {A} (o : option A) (d : A) : A := default d o.

Lemma Forall_app_2 {A} (P : A → Prop) l k : Forall P l → Forall P k → Forall P (l ++ k).
Proof. intros. by apply Forall_app. Qed.
#[export] Hint Resolve Forall_app_2 Forall_nil_2 Forall_cons_2 : go.
