(* ===== verification/Fairness.v ===== *)
(** Progress along infinite executions.  An execution is a function from [nat]; what
    steps achieve is measured in a well-founded order that no step climbs, and
    fairness says for every point that a step which descends follows.  The liveness
    theorems use these two lemmas; neither needs classical logic, since fairness is
    given for every point. *)

From S2P Require Import Prelude.

Section Reaches.
Context {B : Type} (R : relation B) `{!Transitive R} (Hwf : well_founded R).
Context (measure : nat → B) (done : nat → Prop) (N : nat).

Hypothesis descends : ∀ n, N ≤ n → measure (S n) = measure n ∨ R (measure (S n)) (measure n).
Hypothesis fair : ∀ n, N ≤ n → ∃ m, n ≤ m ∧ (done m ∨ R (measure (S m)) (measure m)).

Lemma descends_to n m : N ≤ n → n ≤ m → measure m = measure n ∨ R (measure m) (measure n).
Proof using Type*.
  intros Hn. induction 1 as [|m Hm IH]; [by left|].
  destruct (descends m) as [->|?]; [lia|exact IH|]. right. destruct IH as [<-|?]; [done|by etrans].
Qed.

(** A fair execution reaches a point where nothing is left to do. *)
Lemma fair_reaches : ∃ M, N ≤ M ∧ done M.
Proof using Type*.
  assert (∀ b n, N ≤ n → measure n = b → ∃ M, N ≤ M ∧ done M) as Hex; [|by eapply (Hex _ N)].
  intros b. induction (Hwf b) as [b _ IH]. intros n Hn <-.
  destruct (fair n Hn) as (m & Hm & [Hdone|Hlt]); [exists m; split; [lia|done]|].
  apply (IH (measure (S m))) with (n := S m); [|lia|done].
  destruct (descends_to n m Hn Hm) as [<-|?]; [done|by etrans].
Qed.
End Reaches.

(** ** A measure in the natural numbers *)

Section Descent.
Context {A : Type} (state : nat → A) (measure : A → nat) (N : nat).

(** From [N] on a step changes the state only by decreasing the measure, and a
    later step decreases it unless the state has changed before. *)
Hypothesis descends : ∀ n, N ≤ n → state (S n) = state n ∨ measure (state (S n)) < measure (state n).
Hypothesis fair : ∀ n, N ≤ n → 0 < measure (state n) →
  ∃ m, n ≤ m ∧ (state m = state n → measure (state (S m)) < measure (state m)).

Lemma descends_from n m :
  N ≤ n → n ≤ m → state m = state n ∨ measure (state m) < measure (state n).
Proof.
  intros Hn. induction 1 as [|m Hm IH]; [by left|].
  destruct (descends m) as [Heq|Hlt]; [lia| |].
  - rewrite Heq. exact IH.
  - right. destruct IH as [Heq|?]; [by rewrite <- Heq|lia].
Qed.

Lemma fair_descent : ∃ M, N ≤ M ∧ ∀ n, M ≤ n → measure (state n) = 0.
Proof.
  destruct (fair_reaches lt lt_wf (λ n, measure (state n)) (λ n, measure (state n) = 0) N) as (M & HM & H0).
  - intros n Hn. destruct (descends n Hn) as [->|?]; auto.
  - intros n Hn. destruct (decide (measure (state n) = 0)) as [?|Hpos]; [by exists n; auto|].
    destruct (fair n Hn) as (m & Hm & Hdec); [lia|].
    destruct (descends_from n m Hn Hm) as [Heq|Hlt]; [exists m; auto|].
    (* the measure has decreased on the way to [m] *)
    assert (∃ k, n ≤ k ∧ measure (state (S k)) < measure (state k)) as (k & Hk & Hdk); [|by exists k; auto].
    clear Hdec. revert Hlt. induction Hm as [|m Hm IH]; intros Hlt; [lia|].
    destruct (descends m) as [Heq|?]; [lia| |by exists m]. rewrite Heq in Hlt. by apply IH.
  - exists M. split; [done|]. intros n Hn.
    destruct (descends_from M n HM Hn) as [Heq|?]; [by rewrite Heq|lia].
Qed.
End Descent.
