(* ===== verification/Objects.v ===== *)
(** Data of the Kubernetes and Cluster API objects the controllers read and
    write: metadata, conditions, machines, clusters, secrets, config maps,
    nodes and pods, with the fields the program uses.  Times are nanoseconds
    since the epoch; a nil or zero [metav1.Time] is [None].  A Go map that the
    program may find nil is an [option] of a [gmap] (writing to [None] panics). *)

From S2P Require Import Prelude.

Abbreviation strmap := (gmap string string).

Record ObjectKey := mkKey { key_ns : string; key_name : string }.

#[export] Instance ObjectKey_eq_dec : EqDecision ObjectKey.
Proof. solve_decision. Defined.

#[export] Instance ObjectKey_countable : Countable ObjectKey.
Proof.
  refine (inj_countable' (λ k, (key_ns k, key_name k)) (λ p, mkKey p.1 p.2) _).
  by intros [].
Defined.

(** ** Errors *)

(** The machine-readable reasons of API server status errors the program
    distinguishes. *)
Inductive StatusReason := NotFound | AlreadyExists | Conflict | OtherReason (s : string).

#[export] Instance StatusReason_eq_dec : EqDecision StatusReason.
Proof. solve_decision. Defined.

(** Go error values.  [ErrStatus] is an API server status error, [ErrSentinel]
    a package-level [errors.New] compared by identity, [ErrNew] any other
    error without a cause, [ErrWrap] a [fmt.Errorf] with one [%w] between a
    prefix and a suffix, [ErrAggregate] an aggregate or joined error and
    [ErrRemote] a [ck8s.RemoteClusterConnectionError]. *)
Inductive error :=
  | ErrStatus (r : StatusReason) (msg : string)
  | ErrSentinel (id : string)
  | ErrNew (msg : string)
  | ErrWrap (pre : string) (e : error) (post : string)
  | ErrAggregate (es : list error)
  | ErrRemote (name : string) (e : error).

(** [err.Error()] *)
Fixpoint error_text (e : error) : string :=
  match e with
  | ErrStatus _ m => m
  | ErrSentinel m => m
  | ErrNew m => m
  | ErrWrap p e q => p +:+ error_text e +:+ q
  | ErrAggregate es => String.concat ", " (map error_text es)
  | ErrRemote n e => n +:+ ": " +:+ error_text e
  end.

(** [fmt.Errorf("msg: %w", err)] *)
Definition wrapf (msg : string) (e : error) : error := ErrWrap (msg +:+ ": ") e "".

(** [fmt.Errorf("msg: %v", err)]: the cause is flattened into the text. *)
Definition flatf (msg : string) (e : error) : error := ErrNew (msg +:+ ": " +:+ error_text e).

Abbreviation gores := (result error).

(** [errors.Is] against a sentinel: it unwraps [%w] and aggregates. *)
Fixpoint errors_Is (e : error) (id : string) : bool :=
  match e with
  | ErrSentinel id' => bool_decide (id' = id)
  | ErrWrap _ e _ => errors_Is e id
  | ErrAggregate es => existsb (λ e, errors_Is e id) es
  | ErrRemote _ e => errors_Is e id
  | ErrStatus _ _ | ErrNew _ => false
  end.

(** [errors.As] to a [*RemoteClusterConnectionError]: [%w] is unwrapped. *)
Fixpoint errors_As_Remote (e : error) : bool :=
  match e with
  | ErrRemote _ _ => true
  | ErrWrap _ e _ => errors_As_Remote e
  | _ => false
  end.

(** ** Metadata *)

Record OwnerReference := mkOwnerRef {
  or_APIVersion : string;
  or_Kind : string;
  or_Name : string;
  or_UID : string;
  or_Controller : option bool;
}.

#[export] Instance OwnerReference_eq_dec : EqDecision OwnerReference.
Proof. solve_decision. Defined.

Record ObjectMeta := mkMeta {
  om_Name : string;
  om_Namespace : string;
  om_UID : string;
  om_Labels : strmap;
  om_Annotations : option strmap;
  om_OwnerReferences : list OwnerReference;
  om_Finalizers : list string;
  om_CreationTimestamp : Z;
  om_DeletionTimestamp : option Z;
}.

#[export] Instance ObjectMeta_eq_dec : EqDecision ObjectMeta.
Proof. solve_decision. Defined.

(** [client.ObjectKeyFromObject] / [util.ObjectKey] *)
Definition key_of (m : ObjectMeta) : ObjectKey := mkKey (om_Namespace m) (om_Name m).

Definition set_Annotations (a : option strmap) (m : ObjectMeta) : ObjectMeta :=
  match m with mkMeta n ns u l _ o f c d => mkMeta n ns u l a o f c d end.
Definition set_OwnerReferences (o : list OwnerReference) (m : ObjectMeta) : ObjectMeta :=
  match m with mkMeta n ns u l a _ f c d => mkMeta n ns u l a o f c d end.
Definition set_Finalizers (f : list string) (m : ObjectMeta) : ObjectMeta :=
  match m with mkMeta n ns u l a o _ c d => mkMeta n ns u l a o f c d end.

(** Reading a Go map: [m[k]] with the comma-ok result, and with the zero value. *)
Definition ann (m : ObjectMeta) (k : string) : option string :=
  om_Annotations m ≫= λ a, a !! k.
Definition ann0 (m : ObjectMeta) (k : string) : string := default "" (ann m k).

(** [!obj.GetDeletionTimestamp().IsZero()] *)
Definition deleting (m : ObjectMeta) : bool :=
  match om_DeletionTimestamp m with Some _ => true | None => false end.

Record ObjectReference := mkRef {
  ref_APIVersion : string;
  ref_Kind : string;
  ref_Namespace : string;
  ref_Name : string;
  ref_UID : string;
}.

#[export] Instance ObjectReference_eq_dec : EqDecision ObjectReference.
Proof. solve_decision. Defined.

(** ** Conditions *)

Abbreviation ConditionType := string (only parsing).

Inductive ConditionStatus := ConditionTrue | ConditionFalse | ConditionUnknown.
Inductive ConditionSeverity := SeverityError | SeverityWarning | SeverityInfo | SeverityNone.

Record Condition := mkCond {
  cond_Type : string;
  cond_Status : ConditionStatus;
  cond_Severity : ConditionSeverity;
  cond_Reason : string;
  cond_Message : string;
}.

#[export] Instance ConditionStatus_eq_dec : EqDecision ConditionStatus.
Proof. solve_decision. Defined.
#[export] Instance ConditionSeverity_eq_dec : EqDecision ConditionSeverity.
Proof. solve_decision. Defined.
#[export] Instance Condition_eq_dec : EqDecision Condition.
Proof. solve_decision. Defined.

Abbreviation Conditions := (list Condition).

(** ** Cluster API objects *)

Record Machine := mkMachine {
  m_meta : ObjectMeta;
  m_ClusterName : string;
  m_Version : option string;
  m_InfrastructureRef : ObjectReference;
  m_ConfigRef : option ObjectReference;
  m_FailureDomain : option string;
  m_NodeDrainTimeout : option Z;
  m_NodeVolumeDetachTimeout : option Z;
  m_NodeDeletionTimeout : option Z;
  m_NodeRef : option ObjectReference;
  m_Conditions : Conditions;
}.

Definition set_m_meta (x : ObjectMeta) (m : Machine) : Machine :=
  match m with mkMachine _ a b c d e f g h i j => mkMachine x a b c d e f g h i j end.
Definition set_m_Conditions (x : Conditions) (m : Machine) : Machine :=
  match m with mkMachine n a b c d e f g h i _ => mkMachine n a b c d e f g h i x end.
Definition m_Name (m : Machine) : string := om_Name (m_meta m).
Definition set_m_Annotations (a : option strmap) (m : Machine) : Machine :=
  set_m_meta (set_Annotations a (m_meta m)) m.

(** [collections.Machines]: machines by name. *)
Abbreviation Machines := (gmap string Machine).

Record APIEndpoint := mkEndpoint { ep_Host : string; ep_Port : Z }.

Record NetworkRanges := mkRanges { CIDRBlocks : list string }.

Record ClusterNetwork := mkClusterNetwork {
  cn_APIServerPort : option Z;
  cn_Pods : option NetworkRanges;
  cn_Services : option NetworkRanges;
  cn_ServiceDomain : string;
}.

Record FailureDomainSpec := mkFailureDomain { fd_ControlPlane : bool }.
Abbreviation FailureDomains := (gmap string FailureDomainSpec).

Record Cluster := mkCluster {
  cl_meta : ObjectMeta;
  cl_ControlPlaneEndpoint : APIEndpoint;
  cl_ControlPlaneRef : option ObjectReference;
  cl_ClusterNetwork : option ClusterNetwork;
  cl_InfrastructureReady : bool;
  cl_FailureDomains : option FailureDomains;
  cl_Conditions : Conditions;
}.
Definition cl_Name (c : Cluster) : string := om_Name (cl_meta c).
Definition cl_Namespace (c : Cluster) : string := om_Namespace (cl_meta c).

Record MachineDeployment := mkMachineDeployment {
  md_meta : ObjectMeta;
  md_ClusterName : string;
}.

Record MachineSet := mkMachineSet { ms_meta : ObjectMeta }.

(** ** Core objects *)

Record Secret := mkSecret {
  s_meta : ObjectMeta;
  s_Data : option strmap;
  s_Type : string;
}.

#[export] Instance Secret_eq_dec : EqDecision Secret.
Proof. solve_decision. Defined.

Record ConfigMap := mkConfigMap {
  cm_meta : ObjectMeta;
  cm_Data : option strmap;
}.

Record Taint := mkTaint { taint_Key : string; taint_Effect : string }.
Record NodeAddress := mkAddress { addr_Type : string; addr_Address : string }.
Record NodeCondition := mkNodeCondition { nc_Type : string; nc_Status : ConditionStatus }.

Record Node := mkNode {
  n_meta : ObjectMeta;
  n_Taints : list Taint;
  n_Addresses : list NodeAddress;
  n_Conditions : list NodeCondition;
}.
Definition n_Name (n : Node) : string := om_Name (n_meta n).

Record Pod := mkPod {
  p_meta : ObjectMeta;
  p_NodeName : string;
  p_Conditions : list NodeCondition;
}.
Definition p_Name (p : Pod) : string := om_Name (p_meta p).

(** A resource read through the unstructured client. *)
Record Unstructured := mkUnstructured {
  u_meta : ObjectMeta;
  u_Kind : string;
  u_APIVersion : string;
}.

(** [bsutil.ConfigOwner]: what its accessors answer about the machine or
    machine pool that owns a bootstrap config.  [co_AsMachine] is the result
    of converting the unstructured object to a [Machine]. *)
Record ConfigOwner := mkConfigOwner {
  co_Kind : string;
  co_Namespace : string;
  co_ClusterName : string;
  co_IsControlPlaneMachine : bool;
  co_DataSecretName : option string;
  co_AsMachine : gores Machine;
}.

(** [certs.KeyPair] *)
Record KeyPair := mkKeyPair { kp_Cert : string; kp_Key : string }.

(** ** Requests and results of a reconciliation *)

(** [ctrl.Result]; durations in nanoseconds. *)
Record Result := mkResult { Requeue : bool; RequeueAfter : Z }.

#[export] Instance Result_eq_dec : EqDecision Result.
Proof. solve_decision. Defined.

Definition Result0 : Result := mkResult false 0.
Definition RequeueNow : Result := mkResult true 0.
Definition After (d : Z) : Result := mkResult false d.

(** [res.IsZero()] *)
Definition Result_IsZero (r : Result) : bool := bool_decide (r = Result0).

(** What [Reconcile] returns: a result and an error. *)
Abbreviation outcome := (Result * option error)%type.

Module Time.
#[local] Open Scope Z_scope.
Definition Second : Z := 1000000000.
Definition Minute : Z := 60 * Second.
Definition Hour : Z := 60 * Minute.
End Time.

(** ** The reading of an annotation map *)

Lemma ann_set m k a : ann (set_Annotations (Some a) m) k = a !! k.
Proof. by destruct m. Qed.

Lemma meta_set_m x m : m_meta (set_m_meta x m) = x.
Proof. by destruct m. Qed.

Lemma meta_set_conditions x m : m_meta (set_m_Conditions x m) = m_meta m.
Proof. by destruct m. Qed.

Lemma annotations_set a m : om_Annotations (set_Annotations a m) = a.
Proof. by destruct m. Qed.

#[export] Hint Rewrite ann_set meta_set_m meta_set_conditions annotations_set : go.

(** ** Decidable equality of the stored objects *)

#[export] Instance Machine_eq_dec : EqDecision Machine.
Proof. solve_decision. Defined.
#[export] Instance APIEndpoint_eq_dec : EqDecision APIEndpoint.
Proof. solve_decision. Defined.
#[export] Instance NetworkRanges_eq_dec : EqDecision NetworkRanges.
Proof. solve_decision. Defined.
#[export] Instance ClusterNetwork_eq_dec : EqDecision ClusterNetwork.
Proof. solve_decision. Defined.
#[export] Instance FailureDomainSpec_eq_dec : EqDecision FailureDomainSpec.
Proof. solve_decision. Defined.
#[export] Instance Cluster_eq_dec : EqDecision Cluster.
Proof. solve_decision. Defined.
#[export] Instance MachineDeployment_eq_dec : EqDecision MachineDeployment.
Proof. solve_decision. Defined.
#[export] Instance MachineSet_eq_dec : EqDecision MachineSet.
Proof. solve_decision. Defined.
#[export] Instance ConfigMap_eq_dec : EqDecision ConfigMap.
Proof. solve_decision. Defined.
#[export] Instance Taint_eq_dec : EqDecision Taint.
Proof. solve_decision. Defined.
#[export] Instance NodeAddress_eq_dec : EqDecision NodeAddress.
Proof. solve_decision. Defined.
#[export] Instance NodeCondition_eq_dec : EqDecision NodeCondition.
Proof. solve_decision. Defined.
#[export] Instance Node_eq_dec : EqDecision Node.
Proof. solve_decision. Defined.
