(* ===== verification/ApiTypes.v ===== *)
(** The resources this repository defines: [CK8sConfig]
    (src/bootstrap/api/v1beta2/ck8sconfig_types.go) and [CK8sControlPlane]
    (src/controlplane/api/v1beta2/ck8scontrolplane_types.go), with their
    accessors, and the names of the conditions, reasons, annotations and events
    the two API packages declare.  Slices and maps tagged [omitempty] come back
    from the API server as nil when they are empty, so a plain list or map
    represents both. *)

From S2P Require Import Prelude Objects.

(** ** src/bootstrap/api/v1beta2/ck8sconfig_types.go *)

Record SecretRef := mkSecretRef { sr_Name : string; sr_Key : string }.
Record SecretFileSource := mkSecretFileSource { sfs_Name : string; sfs_Key : string }.
Record FileSource := mkFileSource { fs_Secret : SecretFileSource }.

(** [Encoding]: the empty string when unset. *)
Abbreviation Encoding := string (only parsing).
Definition Base64 : Encoding := "base64".
Definition Gzip : Encoding := "gzip".
Definition GzipBase64 : Encoding := "gzip+base64".

Record File := mkFile {
  f_Path : string;
  f_Owner : string;
  f_Permissions : string;
  f_Encoding : Encoding;
  f_Content : string;
  f_ContentFrom : option FileSource;
}.

Record BootstrapConfig := mkBootstrapConfig {
  bc_Content : string;
  bc_ContentFrom : option FileSource;
}.

Abbreviation extra_args := (gmap string (option string)).

(** The slices and maps of a structure that are empty without being nil.
    [reflect.DeepEqual] tells the two apart, and the typed client leaves both out of
    what it writes; nothing else that the code does depends on it. *)
Record ControlPlaneConfigEmpties := mkControlPlaneConfigEmpties {
  empty_ExtraSANs : bool;
  empty_NodeTaints : bool;
  empty_ExtraKubeAPIServerArgs : bool;
  empty_ExtraKubeControllerManagerArgs : bool;
  empty_ExtraKubeSchedulerArgs : bool;
}.
Record ConfigSpecEmpties := mkConfigSpecEmpties {
  empty_Files : bool;
  empty_BootCommands : bool;
  empty_PreRunCommands : bool;
  empty_AdditionalUserData : bool;
  empty_PostRunCommands : bool;
  empty_ExtraKubeProxyArgs : bool;
  empty_ExtraKubeletArgs : bool;
  empty_ExtraContainerdArgs : bool;
  empty_ExtraK8sAPIServerProxyArgs : bool;
}.
Definition no_cp_empties : ControlPlaneConfigEmpties := mkControlPlaneConfigEmpties false false false false false.
Definition no_empties : ConfigSpecEmpties :=
  mkConfigSpecEmpties false false false false false false false false false.

Record CK8sControlPlaneConfig := mkControlPlaneConfig {
  ExtraSANs : list string;
  CloudProvider : string;
  NodeTaints : list string;
  DatastoreType : string;
  DatastoreServersSecretRef : SecretRef;
  EtcdPort : Z;
  EtcdPeerPort : Z;
  MicroclusterAddress : string;
  MicroclusterPort : option Z;
  ExtraKubeAPIServerArgs : extra_args;
  ExtraKubeControllerManagerArgs : extra_args;
  ExtraKubeSchedulerArgs : extra_args;
  cpc_Empties : ControlPlaneConfigEmpties;
}.

Record CK8sInitConfiguration := mkInitConfiguration {
  ic_Annotations : option strmap;
  EnableDefaultDNS : option bool;
  EnableDefaultLoadBalancer : option bool;
  EnableDefaultGateway : option bool;
  EnableDefaultIngress : option bool;
  EnableDefaultLocalStorage : option bool;
  EnableDefaultMetricsServer : option bool;
  EnableDefaultNetwork : option bool;
}.

Record CK8sConfigSpec := mkConfigSpec {
  Version : string;
  Files : list File;
  spec_BootstrapConfig : option BootstrapConfig;
  BootCommands : list string;
  PreRunCommands : list string;
  AdditionalUserData : strmap;
  PostRunCommands : list string;
  AirGapped : bool;
  SnapstoreProxyScheme : string;
  SnapstoreProxyDomain : string;
  SnapstoreProxyID : string;
  HTTPSProxy : string;
  HTTPProxy : string;
  NoProxy : string;
  Channel : string;
  Revision : string;
  LocalPath : string;
  ControlPlaneConfig : CK8sControlPlaneConfig;
  InitConfig : CK8sInitConfiguration;
  NodeName : string;
  ExtraKubeProxyArgs : extra_args;
  ExtraKubeletArgs : extra_args;
  ExtraContainerdArgs : extra_args;
  ExtraK8sAPIServerProxyArgs : extra_args;
  spec_Empties : ConfigSpecEmpties;
}.

Record CK8sConfigStatus := mkConfigStatus {
  cs_Ready : bool;
  cs_BootstrapData : string;
  cs_DataSecretName : option string;
  cs_FailureReason : string;
  cs_FailureMessage : string;
  cs_ObservedGeneration : Z;
  cs_Conditions : Conditions;
}.

Record CK8sConfig := mkConfig {
  cfg_meta : ObjectMeta;
  cfg_Spec : CK8sConfigSpec;
  cfg_Status : CK8sConfigStatus;
}.

#[export] Instance SecretRef_eq_dec : EqDecision SecretRef.
Proof. solve_decision. Defined.
#[export] Instance SecretFileSource_eq_dec : EqDecision SecretFileSource.
Proof. solve_decision. Defined.
#[export] Instance FileSource_eq_dec : EqDecision FileSource.
Proof. solve_decision. Defined.
#[export] Instance File_eq_dec : EqDecision File.
Proof. solve_decision. Defined.
#[export] Instance BootstrapConfig_eq_dec : EqDecision BootstrapConfig.
Proof. solve_decision. Defined.
#[export] Instance ControlPlaneConfigEmpties_eq_dec : EqDecision ControlPlaneConfigEmpties.
Proof. solve_decision. Defined.
#[export] Instance ConfigSpecEmpties_eq_dec : EqDecision ConfigSpecEmpties.
Proof. solve_decision. Defined.
#[export] Instance CK8sControlPlaneConfig_eq_dec : EqDecision CK8sControlPlaneConfig.
Proof. solve_decision. Defined.
#[export] Instance CK8sInitConfiguration_eq_dec : EqDecision CK8sInitConfiguration.
Proof. solve_decision. Defined.
#[export] Instance CK8sConfigSpec_eq_dec : EqDecision CK8sConfigSpec.
Proof. solve_decision. Defined.

(** [func (c *CK8sConfigSpec) IsEtcdManaged() bool] *)
Definition IsEtcdManaged (c : CK8sConfigSpec) : bool :=
  bool_decide (DatastoreType (ControlPlaneConfig c) = "") ||
  bool_decide (DatastoreType (ControlPlaneConfig c) = "etcd").

(** [func (c *CK8sControlPlaneConfig) GetMicroclusterPort() int] *)
Definition GetMicroclusterPort (c : CK8sControlPlaneConfig) : Z :=
  match MicroclusterPort c with None => 2380 | Some p => p end.

(** The feature switches of [CK8sInitConfiguration]. *)
Definition GetEnableDefaultNetwork (c : CK8sInitConfiguration) : bool :=
  match EnableDefaultNetwork c with None => true | Some b => b end.
Definition GetEnableDefaultDNS (c : CK8sInitConfiguration) : bool :=
  match EnableDefaultDNS c with None => true | Some b => b end.
Definition GetEnableDefaultLoadBalancer (c : CK8sInitConfiguration) : bool :=
  match EnableDefaultLoadBalancer c with None => GetEnableDefaultNetwork c | Some b => b end.
Definition GetEnableDefaultGateway (c : CK8sInitConfiguration) : bool :=
  match EnableDefaultGateway c with None => GetEnableDefaultNetwork c | Some b => b end.
Definition GetEnableDefaultIngress (c : CK8sInitConfiguration) : bool :=
  match EnableDefaultIngress c with None => GetEnableDefaultNetwork c | Some b => b end.
Definition GetEnableDefaultLocalStorage (c : CK8sInitConfiguration) : bool :=
  match EnableDefaultLocalStorage c with None => true | Some b => b end.
Definition GetEnableDefaultMetricsServer (c : CK8sInitConfiguration) : bool :=
  match EnableDefaultMetricsServer c with None => true | Some b => b end.

(** [config.Spec.Version = v] *)
Definition set_Version (v : string) (s : CK8sConfigSpec) : CK8sConfigSpec :=
  match s with
  | mkConfigSpec _ a b c d e f g h i j k l m n o p q r s t u v' w x =>
      mkConfigSpec v a b c d e f g h i j k l m n o p q r s t u v' w x
  end.

(** The configuration after encoding and decoding: every slice and map has [omitempty]. *)
Definition encoded_init (c : CK8sInitConfiguration) : CK8sInitConfiguration :=
  match c with
  | mkInitConfiguration a b d e f g h i =>
      mkInitConfiguration (if bool_decide (a = Some ∅) then None else a) b d e f g h i
  end.
Definition encoded_cp (c : CK8sControlPlaneConfig) : CK8sControlPlaneConfig :=
  match c with
  | mkControlPlaneConfig a b d e f g h i j k l m _ => mkControlPlaneConfig a b d e f g h i j k l m no_cp_empties
  end.
Definition encoded (s : CK8sConfigSpec) : CK8sConfigSpec :=
  match s with
  | mkConfigSpec v a b c d e f g h i j k l m n o p cp init r s t u v' _ =>
      mkConfigSpec v a b c d e f g h i j k l m n o p (encoded_cp cp) (encoded_init init) r s t u v' no_empties
  end.

(** No slice or map is empty without being nil. *)
Definition tidy (s : CK8sConfigSpec) : Prop := encoded s = s.

Definition set_cfg_Spec (s : CK8sConfigSpec) (c : CK8sConfig) : CK8sConfig :=
  match c with mkConfig m _ st => mkConfig m s st end.
Definition set_cfg_Status (s : CK8sConfigStatus) (c : CK8sConfig) : CK8sConfig :=
  match c with mkConfig m sp _ => mkConfig m sp s end.
Definition cfg_Name (c : CK8sConfig) : string := om_Name (cfg_meta c).
Definition cfg_Namespace (c : CK8sConfig) : string := om_Namespace (cfg_meta c).

(** [func (c *CK8sConfig) GetConditions()] and [SetConditions] *)
Definition cfg_GetConditions (c : CK8sConfig) : Conditions := cs_Conditions (cfg_Status c).
Definition cfg_SetConditions (x : Conditions) (c : CK8sConfig) : CK8sConfig :=
  match cfg_Status c with
  | mkConfigStatus a b d e f g _ => set_cfg_Status (mkConfigStatus a b d e f g x) c
  end.

(** ** src/controlplane/api/v1beta2/ck8scontrolplane_types.go *)

Definition CK8sControlPlaneFinalizer : string := "ck8s.controlplane.cluster.x-k8s.io".
Definition CK8sServerConfigurationAnnotation : string :=
  "controlplane.cluster.x-k8s.io/ck8s-server-configuration".
Definition RemediationInProgressAnnotation : string :=
  "controlplane.cluster.x-k8s.io/remediation-in-progress".
Definition RemediationForAnnotation : string :=
  "controlplane.cluster.x-k8s.io/remediation-for".
Definition DefaultMinHealthyPeriod : Z := (1 * Time.Hour)%Z.

Record CK8sControlPlaneMachineTemplate := mkMachineTemplate {
  mt_Labels : strmap;
  mt_Annotations : strmap;
  mt_InfrastructureRef : ObjectReference;
  mt_NodeDrainTimeout : option Z;
  mt_NodeVolumeDetachTimeout : option Z;
  mt_NodeDeletionTimeout : option Z;
}.

(** [intstr.IntOrString]: an API machinery type. *)
Inductive IntOrString := IntVal (z : Z) | StrVal (s : string).

Record RollingUpdate := mkRollingUpdate { MaxSurge : option IntOrString }.
Record RolloutStrategy := mkRolloutStrategy { rs_RollingUpdate : option RollingUpdate }.

Record RemediationStrategy := mkRemediationStrategy {
  MaxRetry : option Z;
  RetryPeriod : Z;
  MinHealthyPeriod : option Z;
}.

Record CK8sControlPlaneSpec := mkControlPlaneSpec {
  Replicas : option Z;
  kcp_Version : string;
  kcp_CK8sConfigSpec : CK8sConfigSpec;
  RolloutAfter : option Z;
  MachineTemplate : CK8sControlPlaneMachineTemplate;
  kcp_RemediationStrategy : option RemediationStrategy;
  kcp_RolloutStrategy : option RolloutStrategy;
}.

Record LastRemediationStatus := mkLastRemediationStatus {
  lrs_Machine : string;
  lrs_Timestamp : option Z;
  lrs_RetryCount : Z;
}.

Record CK8sControlPlaneStatus := mkControlPlaneStatus {
  st_Selector : string;
  st_Replicas : Z;
  st_Version : option string;
  st_UpdatedReplicas : Z;
  st_ReadyReplicas : Z;
  st_UnavailableReplicas : Z;
  st_Initialized : bool;
  st_Ready : bool;
  st_FailureReason : string;
  st_FailureMessage : option string;
  st_ObservedGeneration : Z;
  st_Conditions : Conditions;
  st_LastRemediation : option LastRemediationStatus;
}.

Record CK8sControlPlane := mkControlPlane {
  kcp_meta : ObjectMeta;
  kcp_Spec : CK8sControlPlaneSpec;
  kcp_Status : CK8sControlPlaneStatus;
}.

Definition kcp_Name (k : CK8sControlPlane) : string := om_Name (kcp_meta k).
Definition kcp_Namespace (k : CK8sControlPlane) : string := om_Namespace (kcp_meta k).

Definition set_kcp_meta (x : ObjectMeta) (k : CK8sControlPlane) : CK8sControlPlane :=
  match k with mkControlPlane _ s t => mkControlPlane x s t end.
Definition set_kcp_Spec (x : CK8sControlPlaneSpec) (k : CK8sControlPlane) : CK8sControlPlane :=
  match k with mkControlPlane m _ t => mkControlPlane m x t end.
Definition set_kcp_Status (x : CK8sControlPlaneStatus) (k : CK8sControlPlane) : CK8sControlPlane :=
  match k with mkControlPlane m s _ => mkControlPlane m s x end.
Definition set_kcp_Annotations (a : option strmap) (k : CK8sControlPlane) : CK8sControlPlane :=
  set_kcp_meta (set_Annotations a (kcp_meta k)) k.

(** [GetConditions] and [SetConditions] of [CK8sControlPlane]. *)
Definition kcp_GetConditions (k : CK8sControlPlane) : Conditions := st_Conditions (kcp_Status k).
Definition kcp_SetConditions (x : Conditions) (k : CK8sControlPlane) : CK8sControlPlane :=
  match kcp_Status k with
  | mkControlPlaneStatus a b c d e f g h i j l _ m =>
      set_kcp_Status (mkControlPlaneStatus a b c d e f g h i j l x m) k
  end.

(** ** src/bootstrap/api/v1beta2/*_consts.go *)

Definition InPlaceUpgradeToAnnotation : string := "v1beta2.k8sd.io/in-place-upgrade-to".
Definition InPlaceUpgradeStatusAnnotation : string := "v1beta2.k8sd.io/in-place-upgrade-status".
Definition InPlaceUpgradeReleaseAnnotation : string := "v1beta2.k8sd.io/in-place-upgrade-release".
Definition InPlaceUpgradeChangeIDAnnotation : string := "v1beta2.k8sd.io/in-place-upgrade-change-id".
Definition InPlaceUpgradeLastFailedAttemptAtAnnotation : string :=
  "v1beta2.k8sd.io/in-place-upgrade-last-failed-attempt-at".

Definition InPlaceUpgradeInProgressStatus : string := "in-progress".
Definition InPlaceUpgradeDoneStatus : string := "done".
Definition InPlaceUpgradeFailedStatus : string := "failed".

Definition InPlaceUpgradeInProgressEvent : string := "InPlaceUpgradeInProgress".
Definition InPlaceUpgradeDoneEvent : string := "InPlaceUpgradeDone".
Definition InPlaceUpgradeFailedEvent : string := "InPlaceUpgradeFailed".

Definition CertificatesRefreshAnnotation : string := "v1beta2.k8sd.io/refresh-certificates".
Definition CertificatesRefreshStatusAnnotation : string :=
  "v1beta2.k8sd.io/refresh-certificates-status".
Definition CertificatesRefreshInProgressStatus : string := "in-progress".
Definition CertificatesRefreshDoneStatus : string := "done".
Definition CertificatesRefreshFailedStatus : string := "failed".
Definition CertificatesRefreshInProgressEvent : string := "CertificatesRefreshInProgress".
Definition CertificatesRefreshDoneEvent : string := "CertificatesRefreshDone".
Definition CertificatesRefreshFailedEvent : string := "CertificatesRefreshFailed".
Definition MachineCertificatesExpiryDateAnnotation : string :=
  "machine.cluster.x-k8s.io/certificates-expiry".

Module BootstrapConditions.
Definition DataSecretAvailableCondition : ConditionType := "DataSecretAvailable".
Definition WaitingForClusterInfrastructureReason : string := "WaitingForClusterInfrastructure".
Definition DataSecretGenerationFailedReason : string := "DataSecretGenerationFailed".
Definition CertificatesAvailableCondition : ConditionType := "CertificatesAvailable".
Definition CertificatesGenerationFailedReason : string := "CertificatesGenerationFailed".
Definition SnapInstallDataValidatedCondition : ConditionType := "SnapInstallDataValidated".
Definition SnapInstallValidationFailedReason : string := "SnapInstallValidationFailed".
End BootstrapConditions.

(** ** src/controlplane/api/v1beta2/condition_consts.go *)

Module ControlPlaneConditions.
Definition MachinesReadyCondition : ConditionType := "MachinesReady".
Definition CertificatesAvailableCondition : ConditionType := "CertificatesAvailable".
Definition CertificatesGenerationFailedReason : string := "CertificatesGenerationFailed".
Definition AvailableCondition : ConditionType := "Available".
Definition WaitingForCK8sServerReason : string := "WaitingForCK8sServer".
Definition MachinesSpecUpToDateCondition : ConditionType := "MachinesSpecUpToDate".
Definition RollingUpdateInProgressReason : string := "RollingUpdateInProgress".
Definition ResizedCondition : ConditionType := "Resized".
Definition ScalingUpReason : string := "ScalingUp".
Definition ScalingDownReason : string := "ScalingDown".
Definition ControlPlaneComponentsHealthyCondition : ConditionType := "ControlPlaneComponentsHealthy".
Definition ControlPlaneComponentsUnhealthyReason : string := "ControlPlaneComponentsUnhealthy".
Definition ControlPlaneComponentsUnknownReason : string := "ControlPlaneComponentsUnknown".
Definition ControlPlaneComponentsInspectionFailedReason : string :=
  "ControlPlaneComponentsInspectionFailed".
Definition MachineAgentHealthyCondition : ConditionType := "AgentHealthy".
Definition PodMissingReason : string := "PodMissing".
Definition PodFailedReason : string := "PodFailed".
Definition PodInspectionFailedReason : string := "PodInspectionFailed".
Definition TokenAvailableCondition : ConditionType := "TokenAvailable".
Definition TokenGenerationFailedReason : string := "TokenGenerationFailed".
End ControlPlaneConditions.

(** ** Decidable equality of the stored objects *)

#[export] Instance CK8sConfigStatus_eq_dec : EqDecision CK8sConfigStatus.
Proof. solve_decision. Defined.
#[export] Instance CK8sConfig_eq_dec : EqDecision CK8sConfig.
Proof. solve_decision. Defined.
#[export] Instance CK8sControlPlaneMachineTemplate_eq_dec : EqDecision CK8sControlPlaneMachineTemplate.
Proof. solve_decision. Defined.
#[export] Instance IntOrString_eq_dec : EqDecision IntOrString.
Proof. solve_decision. Defined.
#[export] Instance RollingUpdate_eq_dec : EqDecision RollingUpdate.
Proof. solve_decision. Defined.
#[export] Instance RolloutStrategy_eq_dec : EqDecision RolloutStrategy.
Proof. solve_decision. Defined.
#[export] Instance RemediationStrategy_eq_dec : EqDecision RemediationStrategy.
Proof. solve_decision. Defined.
#[export] Instance CK8sControlPlaneSpec_eq_dec : EqDecision CK8sControlPlaneSpec.
Proof. solve_decision. Defined.
#[export] Instance LastRemediationStatus_eq_dec : EqDecision LastRemediationStatus.
Proof. solve_decision. Defined.
#[export] Instance CK8sControlPlaneStatus_eq_dec : EqDecision CK8sControlPlaneStatus.
Proof. solve_decision. Defined.
#[export] Instance CK8sControlPlane_eq_dec : EqDecision CK8sControlPlane.
Proof. solve_decision. Defined.
