(* ===== verification/GoHeap.v ===== *)
(** Go memory: a heap of typed cells, with the pointers, slices and maps that refer
    to them, for the code whose point is sharing, the deep copies.  The last part are
    the patterns that controller-gen emits for the fields of a structure. *)

From S2P Require Import Prelude.

Abbreviation loc := positive (only parsing).

(** ** Types that are stored behind a pointer *)

(** The names of the types, the values of a type and its zero value; pointers mention
    names only, so the values may contain pointers to any of them.  [visit] is the
    order in which [range] visits a map. *)
Class GoTypes := {
  tag : Type;
  tag_eq_dec :: EqDecision tag;
  content : tag → Type;
  zero t : content t;
  visit {A} (m : gmap string A) : list (string * A);
  visit_perm {A} (m : gmap string A) : visit m ≡ₚ map_to_list m;
}.

(** [*T]; [[]T], a window of a backing array; [map[string]T]. *)
Inductive ptr {T : Type} (t : T) := Nil | Ptr (l : loc).
Inductive slice {T : Type} (t : T) := NilSlice | Slice (l : loc) (off len : nat).
Inductive gomap {T : Type} (t : T) := NilMap | Map (l : loc).
Arguments Nil {T t}.
Arguments Ptr {T t} l.
Arguments NilSlice {T t}.
Arguments Slice {T t} l off len.
Arguments NilMap {T t}.
Arguments Map {T t} l.

Section Heap.
Context `{!GoTypes}.
Implicit Types (t : tag) (l : loc).

Inductive cell :=
  | CVal t (v : content t)
  | CArr t (vs : list (content t))
  | CMap t (m : gmap string (content t)).

Abbreviation heap := (gmap loc cell).
Implicit Types (h : heap).

(** Reading a cell at its type. *)
Definition cast {F : tag → Type} t t' (x : F t') : option (F t) :=
  match decide (t' = t) with left E => Some (eq_rect t' F x t E) | right _ => None end.

Definition val_at h l t : option (content t) :=
  match h !! l with Some (CVal t' v) => cast t t' v | _ => None end.
Definition arr_at h l t : option (list (content t)) :=
  match h !! l with Some (CArr t' vs) => cast (F := λ t, list (content t)) t t' vs | _ => None end.
Definition map_at h l t : option (gmap string (content t)) :=
  match h !! l with Some (CMap t' m) => cast (F := λ t, gmap string (content t)) t t' m | _ => None end.

Lemma cast_eq {F : tag → Type} t (x : F t) : cast t t x = Some x.
Proof. unfold cast. destruct (decide (t = t)) as [E|]; [|done]. by rewrite (proof_irrel E eq_refl). Qed.

(** *** Programs *)

(** [None] is a nil dereference, an index out of range or a read at the wrong type. *)
Definition hprog (A : Type) : Type := heap → option (heap * A).
#[global] Instance hprog_ret : MRet hprog := λ A a h, Some (h, a).
#[global] Instance hprog_bind : MBind hprog := λ A B f m h, '(h', a) ← m h; f a h'.

Lemma hbind_run {A B} (m : hprog A) (f : A → hprog B) h h' a : m h = Some (h', a) → (m ≫= f) h = f a h'.
Proof. intros Hm. unfold mbind, hprog_bind. by rewrite Hm. Qed.

Definition hfail {A} : hprog A := λ _, None.
Definition hlift {A} (f : heap → option A) : hprog A := λ h, a ← f h; Some (h, a).

Definition alloc (c : cell) : hprog loc := λ h, let l := fresh (dom h) in Some (<[l := c]> h, l).

Definition put l (c : cell) : hprog unit := λ h, Some (<[l := c]> h, ()).

(** [new(T)], [*p] and [*p = v] *)
Definition new t : hprog (ptr t) := l ← alloc (CVal t (zero t)); mret (Ptr l).
Definition load {t} (p : ptr t) : hprog (content t) :=
  match p with Nil => hfail | Ptr l => hlift (λ h, val_at h l t) end.
Definition store {t} (p : ptr t) (v : content t) : hprog unit :=
  match p with
  | Nil => hfail
  | Ptr l => hlift (λ h, val_at h l t) ≫= λ _, put l (CVal t v)
  end.

(** [make([]T, n)], [len(s)], [s[i]] and [s[i] = v] *)
Definition make t (n : nat) : hprog (slice t) := l ← alloc (CArr t (replicate n (zero t))); mret (Slice l 0 n).
Definition slen {t} (s : slice t) : nat := match s with NilSlice => 0 | Slice _ _ n => n end.

Definition window h l t (off n : nat) : option (list (content t)) :=
  vs ← arr_at h l t;
  if decide (off + n ≤ length vs) then Some (take n (drop off vs)) else None.

Definition index {t} (s : slice t) (i : nat) : hprog (content t) :=
  match s with
  | NilSlice => hfail
  | Slice l off n => hlift (λ h, vs ← window h l t off n; vs !! i)
  end.
Definition set_index {t} (s : slice t) (i : nat) (v : content t) : hprog unit :=
  match s with
  | NilSlice => hfail
  | Slice l off n =>
      if decide (i < n) then
        hlift (λ h, arr_at h l t) ≫= λ vs, put l (CArr t (<[off + i := v]> vs))
      else hfail
  end.

(** [make(map[string]T)], [m[k] = v] and [range m] *)
Definition make_map t : hprog (gomap t) := l ← alloc (CMap t ∅); mret (Map l).
Definition set_key {t} (m : gomap t) (k : string) (v : content t) : hprog unit :=
  match m with
  | NilMap => hfail
  | Map l => hlift (λ h, map_at h l t) ≫= λ x, put l (CMap t (<[k := v]> x))
  end.
Definition entries {t} (m : gomap t) : hprog (list (string * content t)) :=
  match m with
  | NilMap => mret []
  | Map l => hlift (λ h, visit <$> map_at h l t)
  end.

(** [for _, x := range l { body }] *)
Fixpoint hfor {A} (l : list A) (body : A → hprog unit) : hprog unit :=
  match l with
  | [] => mret ()
  | x :: l => body x ≫= λ _, hfor l body
  end.

(** *** What controller-gen emits *)

(** A type and its [DeepCopyInto]: the fields of [out] after the call. *)
Definition copier (T : Type) : Type := T → hprog T.

(** [if in != nil { *out = new(T); **out = **in }] *)
Definition copy_ptr {t} (p : ptr t) : hprog (ptr t) :=
  match p with
  | Nil => mret p
  | _ => out ← new t; v ← load p; store out v ;; mret out
  end.

(** [if in != nil { *out = new(T); ( *in).DeepCopyInto( *out) }] *)
Definition copy_ptr_into {t} (DeepCopyInto : copier (content t)) (p : ptr t) : hprog (ptr t) :=
  match p with
  | Nil => mret p
  | _ => out ← new t; v ← load p; v' ← DeepCopyInto v; store out v' ;; mret out
  end.

(** [if in != nil { *out = make([]T, len( *in)); copy( *out, *in) }] *)
Definition copy_slice {t} (s : slice t) : hprog (slice t) :=
  match s with
  | NilSlice => mret s
  | _ =>
      out ← make t (slen s);
      hfor (seq 0 (slen s)) (λ i, v ← index s i; set_index out i v) ;;
      mret out
  end.

(** [... for i := range *in { ( *in)[i].DeepCopyInto(&( *out)[i]) }] *)
Definition copy_slice_into {t} (DeepCopyInto : copier (content t)) (s : slice t) : hprog (slice t) :=
  match s with
  | NilSlice => mret s
  | _ =>
      out ← make t (slen s);
      hfor (seq 0 (slen s)) (λ i, v ← index s i; v' ← DeepCopyInto v; set_index out i v') ;;
      mret out
  end.

(** [... for key, val := range *in { ( *out)[key] = val }], with the copy of the value
    instead when it is a pointer. *)
Definition copy_map_into {t} (copy : copier (content t)) (m : gomap t) : hprog (gomap t) :=
  match m with
  | NilMap => mret m
  | _ =>
      out ← make_map t;
      es ← entries m;
      hfor es (λ '(key, val), outVal ← copy val; set_key out key outVal) ;;
      mret out
  end.
Definition copy_map {t} (m : gomap t) : hprog (gomap t) := copy_map_into mret m.

(** [func (in *T) DeepCopy() *T] and [func (in *T) DeepCopyObject() runtime.Object]:
    an interface value is nil or a pointer with its type. *)
Definition deep_copy {t} (DeepCopyInto : copier (content t)) (p : ptr t) : hprog (ptr t) :=
  match p with
  | Nil => mret Nil
  | _ => out ← new t; v ← load p; v' ← DeepCopyInto v; store out v' ;; mret out
  end.

(** The same for a receiver that is a field of a structure. *)
Definition deep_copy_field {t} (DeepCopyInto : copier (content t)) (x : content t) : hprog (ptr t) :=
  out ← new t; v' ← DeepCopyInto x; store out v' ;; mret out.

Inductive Object := NilObject | AnObject t (p : ptr t).
Definition deep_copy_object {t} (DeepCopy : ptr t → hprog (ptr t)) (p : ptr t) : hprog Object :=
  c ← DeepCopy p;
  match c with Nil => mret NilObject | _ => mret (AnObject t c) end.
End Heap.

Abbreviation heap := (gmap loc cell).
