(* ===== verification/GoCopy.v ===== *)
(** What a deep copy function promises, and that the patterns of [GoHeap] keep it.

    [same] is deep equality across two heaps, with nil told apart from empty, and
    [owns] says which cells a value consists of, each reached once.  [copies] is the
    promise; a structure whose [DeepCopyInto] applies the patterns to its fields keeps
    it ([copies_struct], [copy_fields]). *)

From S2P Require Import Prelude GoHeap.

(** ** Deep equality and ownership *)

Section Deep.
Context `{!GoTypes}.
Implicit Types (h : heap) (F : gset loc) (t : tag).

(** [same h x h' y]: [x] in [h] is deeply equal to [y] in [h'].  [owns h x F]: the
    cells that [x] reaches in [h] are those of [F], and it reaches each once. *)
Class Deep (T : Type) := {
  same : heap → T → heap → T → Prop;
  owns : heap → T → gset loc → Prop;
}.

Definition readable `{!Deep T} h (x : T) : Prop := same h x h x.

(** The cells of [F] are as in the other heap. *)
Definition agree F h h' : Prop := ∀ l, l ∈ F → h' !! l = h !! l.

Class DeepLaws (T : Type) `{!Deep T} := {
  same_mono h1 h1' h2 h2' (x y : T) : h1 ⊆ h1' → h2 ⊆ h2' → same h1 x h2 y → same h1' x h2' y;
  same_back h1 h1' h2 (x y : T) : h1 ⊆ h1' → readable h1 x → same h1' x h2 y → same h1 x h2 y;
  same_frame h1 h2 h2' (x y : T) F : agree F h2 h2' → owns h2 y F → same h1 x h2 y → same h1 x h2' y;
  owns_frame h h' (x : T) F : agree F h h' → owns h x F → owns h' x F;
  owns_dom h (x : T) F : owns h x F → F ⊆ dom h;
}.

Lemma readable_mono `{!Deep T, !DeepLaws T} h h' (x : T) : h ⊆ h' → readable h x → readable h' x.
Proof. intros Hh. by apply same_mono. Qed.

Lemma agree_sub F F' h h' : F' ⊆ F → agree F h h' → agree F' h h'.
Proof. intros Hs Ha l Hl. apply Ha. set_solver. Qed.

Lemma agree_subseteq F h h' : h ⊆ h' → F ⊆ dom h → agree F h h'.
Proof.
  intros Hh Hd l Hl. apply Hd, elem_of_dom in Hl as [c Hc]. rewrite Hc. by eapply lookup_weaken.
Qed.

Lemma agree_insert F h l c : l ∉ F → agree F h (<[l := c]> h).
Proof. intros Hl l' Hl'. apply lookup_insert_ne. congruence. Qed.

Lemma val_at_mono h h' l t v : h ⊆ h' → val_at h l t = Some v → val_at h' l t = Some v.
Proof.
  intros Hh. unfold val_at. destruct (h !! l) as [c|] eqn:Hl; [|done]. by rewrite (lookup_weaken _ _ _ _ Hl Hh).
Qed.
Lemma arr_at_mono h h' l t v : h ⊆ h' → arr_at h l t = Some v → arr_at h' l t = Some v.
Proof.
  intros Hh. unfold arr_at. destruct (h !! l) as [c|] eqn:Hl; [|done]. by rewrite (lookup_weaken _ _ _ _ Hl Hh).
Qed.
Lemma map_at_mono h h' l t v : h ⊆ h' → map_at h l t = Some v → map_at h' l t = Some v.
Proof.
  intros Hh. unfold map_at. destruct (h !! l) as [c|] eqn:Hl; [|done]. by rewrite (lookup_weaken _ _ _ _ Hl Hh).
Qed.
Lemma window_mono h h' l t o n v : h ⊆ h' → window h l t o n = Some v → window h' l t o n = Some v.
Proof.
  intros Hh. unfold window. destruct (arr_at h l t) as [vs|] eqn:Ha; [|done].
  by rewrite (arr_at_mono _ _ _ _ _ Hh Ha).
Qed.

(** *** Values without pointers *)

Definition flat {T} : Deep T := {| same _ x _ y := x = y; owns _ _ F := F = ∅ |}.
Lemma flat_laws {T} : @DeepLaws T flat.
Proof. split; simpl; intros; by subst. Qed.

Class Flat (T : Type) `{!Deep T} := {
  flat_same h (x : T) h' y : same h x h' y ↔ x = y;
  flat_owns h (x : T) : owns h x ∅;
}.
Lemma flat_flat {T} : @Flat T flat.
Proof. by split. Qed.

#[export] Instance deep_unit : Deep () := flat.
#[export] Instance deep_unit_laws : DeepLaws () := flat_laws.
#[export] Instance flat_unit : Flat () := flat_flat.
#[export] Instance deep_string : Deep string := flat.
#[export] Instance deep_string_laws : DeepLaws string := flat_laws.
#[export] Instance flat_string : Flat string := flat_flat.
#[export] Instance deep_bool : Deep bool := flat.
#[export] Instance deep_bool_laws : DeepLaws bool := flat_laws.
#[export] Instance flat_bool : Flat bool := flat_flat.
#[export] Instance deep_Z : Deep Z := flat.
#[export] Instance deep_Z_laws : DeepLaws Z := flat_laws.
#[export] Instance flat_Z : Flat Z := flat_flat.

(** *** Several values *)

#[export] Instance deep_prod `{!Deep A, !Deep B} : Deep (A * B) := {|
  same h x h' y := same h x.1 h' y.1 ∧ same h x.2 h' y.2;
  owns h x F := ∃ F1 F2, F = F1 ∪ F2 ∧ F1 ## F2 ∧ owns h x.1 F1 ∧ owns h x.2 F2;
|}.

#[export] Instance deep_prod_laws `{!Deep A, !DeepLaws A, !Deep B, !DeepLaws B} : DeepLaws (A * B).
Proof.
  split; simpl.
  - intros h1 h1' h2 h2' x y ? ? []. split; by eapply same_mono.
  - intros h1 h1' h2 x y ? [] []. split; by eapply same_back.
  - intros h1 h2 h2' x y F Ha (F1 & F2 & -> & _ & Ho1 & Ho2) [].
    split; (eapply same_frame; [|done..]); (eapply agree_sub; [|done]); set_solver.
  - intros h h' x F Ha (F1 & F2 & -> & Hd & Ho1 & Ho2). exists F1, F2.
    split_and!; [done..| |]; (eapply owns_frame; [|done]); (eapply agree_sub; [|done]); set_solver.
  - intros h x F (F1 & F2 & -> & _ & Ho1%owns_dom & Ho2%owns_dom). set_solver.
Qed.

Fixpoint owns_list `{!Deep A} h (l : list A) F : Prop :=
  match l with
  | [] => F = ∅
  | x :: l => ∃ F1 F2, F = F1 ∪ F2 ∧ F1 ## F2 ∧ owns h x F1 ∧ owns_list h l F2
  end.

#[export] Instance deep_list `{!Deep A} : Deep (list A) := {|
  same h x h' y := Forall2 (λ x y, same h x h' y) x y;
  owns := owns_list;
|}.

#[export] Instance deep_list_laws `{!Deep A, !DeepLaws A} : DeepLaws (list A).
Proof.
  split; simpl.
  - intros h1 h1' h2 h2' x y ? ? Hs. induction Hs; constructor; [by eapply same_mono|done].
  - intros h1 h1' h2 x y ? Hr Hs. unfold readable in Hr. simpl in Hr.
    induction Hs as [|a b x y Hab _ IH]; [by constructor|]. inversion_clear Hr.
    constructor; [by eapply same_back|by apply IH].
  - intros h1 h2 h2' x y F Ha Ho Hs. revert F Ha Ho.
    induction Hs as [|a b x y Hab _ IH]; intros F Ha Ho; [by constructor|].
    destruct Ho as (F1 & F2 & -> & _ & Ho1 & Ho2). constructor.
    + eapply same_frame; [|done..]. eapply agree_sub; [|done]. set_solver.
    + eapply IH; [|done]. eapply agree_sub; [|done]. set_solver.
  - intros h h' x. induction x as [|a x IH]; intros F Ha; [done|]. intros (F1 & F2 & -> & Hd & Ho1 & Ho2).
    exists F1, F2. split_and!; try done.
    + eapply owns_frame; [|done]. eapply agree_sub; [|done]. set_solver.
    + eapply IH; [|done]. eapply agree_sub; [|done]. set_solver.
  - intros h x. induction x as [|a x IH]; intros F; [by intros ->|].
    intros (F1 & F2 & -> & Hd & Ho1%owns_dom & Ho2%IH). set_solver.
Qed.

Lemma owns_snoc `{!Deep A} h (l : list A) x F1 F2 :
  owns h l F1 → owns h x F2 → F1 ## F2 → owns h (l ++ [x]) (F1 ∪ F2).
Proof.
  simpl. revert F1. induction l as [|a l IH]; intros F1; simpl.
  - intros -> Hx _. exists F2, ∅. split_and!; [set_solver..|done|done].
  - intros (G1 & G2 & -> & Hd & Ha & Hl) Hx Hdd. exists G1, (G2 ∪ F2).
    split_and!; [set_solver|set_solver|done|]. apply IH; [done|done|set_solver].
Qed.

(** *** References *)

(** The cell [l] and the cells of [F]. *)
Definition owns_cell (l : loc) F F' : Prop := (l ∉ F) ∧ F' = {[l]} ∪ F.

#[export] Instance deep_ptr t `{!Deep (content t)} : Deep (ptr t) := {|
  same h p h' q :=
    match p, q with
    | Nil, Nil => True
    | Ptr l, Ptr l' => ∃ x y, val_at h l t = Some x ∧ val_at h' l' t = Some y ∧ same h x h' y
    | _, _ => False
    end;
  owns h p F :=
    match p with
    | Nil => F = ∅
    | Ptr l => ∃ x G, val_at h l t = Some x ∧ owns h x G ∧ owns_cell l G F
    end;
|}.

#[export] Instance deep_slice t `{!Deep (content t)} : Deep (slice t) := {|
  same h p h' q :=
    match p, q with
    | NilSlice, NilSlice => True
    | Slice l o n, Slice l' o' n' =>
        ∃ x y, window h l t o n = Some x ∧ window h' l' t o' n' = Some y ∧ same h x h' y
    | _, _ => False
    end;
  owns h p F :=
    match p with
    | NilSlice => F = ∅
    | Slice l o n => ∃ x G, window h l t o n = Some x ∧ owns h x G ∧ owns_cell l G F
    end;
|}.

(** Maps are equal key by key. *)
#[export] Instance deep_gomap t `{!Deep (content t)} : Deep (gomap t) := {|
  same h p h' q :=
    match p, q with
    | NilMap, NilMap => True
    | Map l, Map l' =>
        ∃ x y, map_at h l t = Some x ∧ map_at h' l' t = Some y ∧
               ∀ k, option_Forall2 (λ v w, same h v h' w) (x !! k) (y !! k)
    | _, _ => False
    end;
  owns h p F :=
    match p with
    | NilMap => F = ∅
    | Map l => ∃ x es G, map_at h l t = Some x ∧ es ≡ₚ map_to_list x ∧ owns h es.*2 G ∧ owns_cell l G F
    end;
|}.

Lemma val_at_agree F h h' l t : agree F h h' → l ∈ F → val_at h' l t = val_at h l t.
Proof. intros Ha Hl. unfold val_at. by rewrite (Ha l Hl). Qed.
Lemma window_agree F h h' l t o n : agree F h h' → l ∈ F → window h' l t o n = window h l t o n.
Proof. intros Ha Hl. unfold window, arr_at. by rewrite (Ha l Hl). Qed.
Lemma map_at_agree F h h' l t : agree F h h' → l ∈ F → map_at h' l t = map_at h l t.
Proof. intros Ha Hl. unfold map_at. by rewrite (Ha l Hl). Qed.

Lemma val_at_dom h l t v : val_at h l t = Some v → l ∈ dom h.
Proof. unfold val_at. intros Hv. apply elem_of_dom. destruct (h !! l); [by eexists|done]. Qed.
Lemma window_dom h l t o n v : window h l t o n = Some v → l ∈ dom h.
Proof. unfold window, arr_at. intros Hv. apply elem_of_dom. destruct (h !! l); [by eexists|done]. Qed.
Lemma map_at_dom h l t v : map_at h l t = Some v → l ∈ dom h.
Proof. unfold map_at. intros Hv. apply elem_of_dom. destruct (h !! l); [by eexists|done]. Qed.

#[local] Hint Resolve val_at_mono window_mono map_at_mono : core.

#[export] Instance deep_ptr_laws t `{!Deep (content t), !DeepLaws (content t)} : DeepLaws (ptr t).
Proof.
  split; simpl.
  - intros h1 h1' h2 h2' [|l] [|l'] ? ? Hs; try done. destruct Hs as (x & y & ? & ? & Hs).
    exists x, y. split_and!; eauto using same_mono.
  - intros h1 h1' h2 [|l] [|l'] Hh Hr Hs; try done. destruct Hs as (x & y & Hx & ? & Hs).
    destruct Hr as (x1 & x2 & Hx1 & Hx2 & Hr). assert (x2 = x1) as -> by congruence.
    assert (x = x1) as -> by (eapply val_at_mono in Hx1; [|exact Hh]; congruence). exists x1, y. eauto using same_back.
  - intros h1 h2 h2' [|l] [|l'] F Ha Ho Hs; try done. destruct Hs as (x & y & Hx & Hy & Hs).
    destruct Ho as (y' & G & Hy' & Ho & _ & ->).
    assert (y' = y) as -> by congruence. exists x, y. split_and!; [done| |].
    + erewrite val_at_agree; [exact Hy|exact Ha|set_solver].
    + eapply (same_frame _ _ _ _ _ G); [eapply agree_sub; [|exact Ha]; set_solver|done..].
  - intros h h' [|l] F Ha Ho; [done|]. destruct Ho as (x & G & Hx & Ho & Hn & ->).
    exists x, G. split_and!; [| |done].
    + erewrite val_at_agree; [exact Hx|exact Ha|set_solver].
    + eapply (owns_frame _ _ _ G); [eapply agree_sub; [|exact Ha]; set_solver|done].
  - intros h [|l] F; [set_solver|]. intros (x & G & Hx%val_at_dom & Ho%owns_dom & _ & ->). set_solver.
Qed.

#[export] Instance deep_slice_laws t `{!Deep (content t), !DeepLaws (content t)} : DeepLaws (slice t).
Proof.
  split; simpl.
  - intros h1 h1' h2 h2' [|l o n] [|l' o' n'] ? ? Hs; try done. destruct Hs as (x & y & ? & ? & Hs).
    exists x, y. split_and!; eauto. by eapply (same_mono (Deep0 := deep_list)).
  - intros h1 h1' h2 [|l o n] [|l' o' n'] Hh Hr Hs; try done. destruct Hs as (x & y & Hx & ? & Hs).
    destruct Hr as (x1 & x2 & Hx1 & Hx2 & Hr). assert (x2 = x1) as -> by congruence.
    assert (x = x1) as -> by (eapply window_mono in Hx1; [|exact Hh]; congruence). exists x1, y. split_and!; [done..|].
    by eapply (same_back (Deep0 := deep_list)).
  - intros h1 h2 h2' [|l o n] [|l' o' n'] F Ha Ho Hs; try done. destruct Hs as (x & y & Hx & Hy & Hs).
    destruct Ho as (y' & G & Hy' & Ho & _ & ->).
    assert (y' = y) as -> by congruence. exists x, y. split_and!; [done| |].
    + erewrite window_agree; [exact Hy|exact Ha|set_solver].
    + eapply (same_frame (Deep0 := deep_list) _ _ _ _ _ G); [eapply agree_sub; [|exact Ha]; set_solver|done..].
  - intros h h' [|l o n] F Ha Ho; [done|]. destruct Ho as (x & G & Hx & Ho & Hn & ->).
    exists x, G. split_and!; [| |done].
    + erewrite window_agree; [exact Hx|exact Ha|set_solver].
    + eapply (owns_frame (Deep0 := deep_list) _ _ _ G); [eapply agree_sub; [|exact Ha]; set_solver|done].
  - intros h [|l o n] F; [set_solver|]. intros (x & G & Hx%window_dom & Ho & _ & ->).
    apply (owns_dom (Deep0 := deep_list)) in Ho. set_solver.
Qed.

(** Owning the values of a map, each of them is owned. *)
Lemma owns_elem `{!Deep A} h (l : list A) x F : owns h l F → x ∈ l → ∃ G, G ⊆ F ∧ owns h x G.
Proof.
  simpl. revert F. induction l as [|a l IH]; intros F; [by intros _ ?%not_elem_of_nil|].
  intros (F1 & F2 & -> & _ & Ha & Hl) [->|Hx]%elem_of_cons; [exists F1; set_solver|].
  destruct (IH F2 Hl Hx) as (G & ? & ?). exists G. set_solver.
Qed.

#[export] Instance deep_gomap_laws t `{!Deep (content t), !DeepLaws (content t)} : DeepLaws (gomap t).
Proof.
  split; simpl.
  - intros h1 h1' h2 h2' [|l] [|l'] ? ? Hs; try done. destruct Hs as (x & y & ? & ? & Hs).
    exists x, y. split_and!; [eauto..|]. intros k. destruct (Hs k); constructor. by eapply same_mono.
  - intros h1 h1' h2 [|l] [|l'] Hh Hr Hs; try done. destruct Hs as (x & y & Hx & ? & Hs).
    destruct Hr as (x1 & x2 & Hx1 & Hx2 & Hr). assert (x2 = x1) as -> by congruence.
    assert (x = x1) as -> by (eapply map_at_mono in Hx1; [|exact Hh]; congruence). exists x1, y. split_and!; [done..|].
    intros k. specialize (Hr k). destruct (Hs k); constructor. inversion_clear Hr. by eapply same_back.
  - intros h1 h2 h2' [|l] [|l'] F Ha Ho Hs; try done. destruct Hs as (x & y & Hx & Hy & Hs).
    destruct Ho as (y' & es & G & Hy' & Hes & Ho & _ & ->).
    assert (y' = y) as -> by congruence. exists x, y. split_and!; [done| |].
    + erewrite map_at_agree; [exact Hy|exact Ha|set_solver].
    + intros k. pose proof (Hs k) as Hk. destruct (y !! k) as [w|] eqn:Hw; inversion Hk; constructor.
      destruct (owns_elem h2 es.*2 w G Ho) as (G' & HG & Hw').
      { rewrite Hes. apply list_elem_of_fmap. exists (k, w). split; [done|]. by apply elem_of_map_to_list. }
      eapply (same_frame _ _ _ _ _ G'); [eapply agree_sub; [|exact Ha]; set_solver|done..].
  - intros h h' [|l] F Ha Ho; [done|]. destruct Ho as (x & es & G & Hx & Hes & Ho & Hn & ->).
    exists x, es, G. split_and!; [|done| |done].
    + erewrite map_at_agree; [exact Hx|exact Ha|set_solver].
    + eapply (owns_frame (Deep0 := deep_list) _ _ _ G); [eapply agree_sub; [|exact Ha]; set_solver|done].
  - intros h [|l] F; [set_solver|]. intros (x & es & G & Hx%map_at_dom & _ & Ho & _ & ->).
    apply (owns_dom (Deep0 := deep_list)) in Ho. set_solver.
Qed.

(** Readable values, cell by cell. *)
Lemma readable_ptr t `{!Deep (content t)} h l x : val_at h l t = Some x → readable h x → readable h (Ptr (t := t) l).
Proof. intros Hx Hr. by exists x, x. Qed.
Lemma readable_slice t `{!Deep (content t)} h l o n xs :
  window h l t o n = Some xs → Forall (readable h) xs → readable h (Slice (t := t) l o n).
Proof.
  intros Hx Hr. exists xs, xs. split_and!; [done..|]. by apply Forall_Forall2_diag.
Qed.
Lemma readable_map t `{!Deep (content t)} h l m :
  map_at h l t = Some m → Forall (readable h) (map_to_list m).*2 → readable h (Map (t := t) l).
Proof.
  intros Hx Hr. exists m, m. split_and!; [done..|]. intros k. destruct (m !! k) as [v|] eqn:Hk; constructor.
  rewrite list.Forall_forall in Hr. apply Hr, list_elem_of_fmap. exists (k, v). split; [done|].
  by apply elem_of_map_to_list.
Qed.

(** *** Structures *)

(** A structure is its references [refs] and the rest. *)
Class Struct (T B : Type) := {
  refs : T → B;
  build : T → B → T;
  refs_build x ys : refs (build x ys) = ys;
  build_refs x : build x (refs x) = x;
}.

Definition deep_struct `{!Struct T B, !Deep B} : Deep T := {|
  same h x h' y := y = build x (refs y) ∧ same h (refs x) h' (refs y);
  owns h x F := owns h (refs x) F;
|}.

Lemma deep_struct_laws `{!Struct T B, !Deep B, !DeepLaws B} : @DeepLaws T deep_struct.
Proof.
  split; simpl.
  - intros h1 h1' h2 h2' x y ? ? []. split; [done|]. by eapply same_mono.
  - intros h1 h1' h2 x y Hh [_ Hr] []. split; [done|]. by eapply same_back.
  - intros h1 h2 h2' x y F Ha Ho []. split; [done|]. by eapply same_frame.
  - intros h h' x F. apply owns_frame.
  - intros h x F. apply owns_dom.
Qed.
End Deep.

(** ** Copying *)

Section Copy.
Context `{!GoTypes}.
Implicit Types (h : heap) (F : gset loc) (t : tag).

(** [m] runs in [h] without a run-time panic, changes no cell of [h], and returns
    [f] of a deep copy of [xs] that consists of new cells. *)
Definition yields `{!Deep B} {T} h (m : hprog T) (xs : B) (f : B → T) : Prop :=
  ∃ h' ys F, m h = Some (h', f ys) ∧ h ⊆ h' ∧ F ## dom h ∧ same h xs h' ys ∧ owns h' ys F.

Definition copies `{!Deep T} (c : copier T) : Prop := ∀ h x, readable h x → yields h (c x) x id.

Lemma yields_ret {T} h (f : () → T) a : a = f () → yields h (mret a) () f.
Proof. intros ->. exists h, (), ∅. split_and!; done || set_solver. Qed.

(** Copying one component and then the others. *)
Lemma yields_bind `{!Deep A, !DeepLaws A, !Deep B, !DeepLaws B} {T} (c : copier A) x (xs : B) (k : A → hprog T) f h :
  copies c → readable h x → readable h xs →
  (∀ y h1, readable h1 xs → yields h1 (k y) xs (λ ys, f (y, ys))) →
  yields h (c x ≫= k) (x, xs) f.
Proof.
  intros Hc Hx Hxs Hk. destruct (Hc h x Hx) as (h1 & y & F1 & Hr & Hh & Hf & Hs & Ho).
  destruct (Hk y h1) as (h2 & ys & F2 & Hr2 & Hh2 & Hf2 & Hs2 & Ho2); [by eapply readable_mono|].
  pose proof (owns_dom _ _ _ Ho) as Hd. pose proof (subseteq_dom _ _ Hh) as Hdd.
  pose proof (agree_subseteq F1 h1 h2 Hh2 Hd) as Ha.
  exists h2, (y, ys), (F1 ∪ F2). split_and!.
  - unfold mbind, hprog_bind. rewrite Hr. exact Hr2.
  - by trans h1.
  - set_solver.
  - split; simpl; [by eapply same_frame|by eapply same_back].
  - exists F1, F2. split_and!; [done|set_solver| |done]. by eapply owns_frame.
Qed.

(** A structure whose [DeepCopyInto] copies the references. *)
Lemma copies_struct `{!Struct T B, !Deep B} (c : copier T) :
  (∀ h x, readable h (refs x) → yields h (c x) (refs x) (build x)) → @copies T deep_struct c.
Proof.
  intros Hc h x [_ Hx]. destruct (Hc h x Hx) as (h' & ys & F & Hr & Hh & Hf & Hs & Ho).
  exists h', (build x ys), F. simpl. rewrite refs_build. by split_and!.
Qed.

(** *** The patterns *)

Lemma copies_mret `{!Deep T, !Flat T} : copies (mret (M := hprog) (A := T)).
Proof.
  intros h x _. exists h, x, ∅. split_and!; [done|done|set_solver|by apply flat_same|apply flat_owns].
Qed.

Lemma fresh_cell h (c : cell) : (fresh (dom h) ∉ dom h) ∧ h ⊆ <[fresh (dom h) := c]> h.
Proof.
  assert (fresh (dom h) ∉ dom h) as Hn by apply is_fresh. split; [done|].
  apply insert_subseteq. by apply not_elem_of_dom.
Qed.

Lemma val_at_insert h l t v : val_at (<[l := CVal t v]> h) l t = Some v.
Proof. unfold val_at. rewrite lookup_insert_eq. apply cast_eq. Qed.
Lemma arr_at_insert h l t v : arr_at (<[l := CArr t v]> h) l t = Some v.
Proof. unfold arr_at. rewrite lookup_insert_eq. apply (cast_eq (F := λ t, list (content t))). Qed.
Lemma map_at_insert h l t v : map_at (<[l := CMap t v]> h) l t = Some v.
Proof. unfold map_at. rewrite lookup_insert_eq. apply (cast_eq (F := λ t, gmap string (content t))). Qed.

(** Overwriting a new cell. *)
Lemma overwrite h h' l c : l ∉ dom h → h ⊆ h' → h ⊆ <[l := c]> h'.
Proof.
  intros Hl Hh. apply map_subseteq_spec. intros l' c' Hl'.
  rewrite lookup_insert_ne; [by eapply lookup_weaken|]. intros ->. by apply elem_of_dom_2 in Hl'.
Qed.

Lemma new_copy t `{!Deep (content t), !DeepLaws (content t)} (c : copier (content t)) h x :
  copies c → readable h x →
  ∃ h' l y F, deep_copy_field c x h = Some (h', Ptr l) ∧ h ⊆ h' ∧ (l ∉ dom h) ∧ F ## dom h ∧
    val_at h' l t = Some y ∧ same h x h' y ∧ owns h' y F ∧ l ∉ F.
Proof.
  intros Hc Hr. destruct (fresh_cell h (CVal t (zero t))) as [Hn Hh]. set (l := fresh (dom h)) in *.
  set (h1 := <[l := CVal t (zero t)]> h) in *.
  destruct (Hc h1 x) as (h2 & y & F & Hrun & Hh2 & Hf & Hs & Ho); [by eapply readable_mono|].
  assert (val_at h2 l t = Some (zero t)) as Hl2 by (eapply val_at_mono; [exact Hh2|apply val_at_insert]).
  unfold h1 in Hf. rewrite dom_insert_L in Hf. assert (l ∉ F) as HlF by set_solver.
  pose proof (agree_insert F h2 l (CVal t y) HlF) as Ha.
  exists (<[l := CVal t y]> h2), l, y, F. split_and!; [| |done|set_solver|apply val_at_insert| | |done].
  - unfold deep_copy_field. assert (new t h = Some (h1, Ptr l)) as Hnew by done.
    rewrite (hbind_run _ _ _ _ _ Hnew), (hbind_run _ _ _ _ _ Hrun).
    unfold store, mbind, hprog_bind, hlift, put. by rewrite Hl2.
  - apply overwrite; [done|]. by trans h1.
  - eapply same_frame; [exact Ha|done|]. by eapply same_back.
  - by eapply owns_frame.
Qed.

Lemma copy_ptr_field t (c : copier (content t)) h l x :
  val_at h l t = Some x → copy_ptr_into c (Ptr l) h = deep_copy_field c x h.
Proof.
  intros Hx. destruct (fresh_cell h (CVal t (zero t))) as [_ Hh]. unfold copy_ptr_into, deep_copy_field.
  erewrite !hbind_run by reflexivity. erewrite hbind_run; [done|].
  unfold load, hlift. by rewrite (val_at_mono _ _ _ _ _ Hh Hx).
Qed.

Lemma copies_ptr_into t `{!Deep (content t), !DeepLaws (content t)} (c : copier (content t)) :
  copies c → copies (copy_ptr_into c).
Proof.
  intros Hc h [|l] Hx; [exists h, Nil, ∅; split_and!; done || set_solver|].
  destruct Hx as (x & x' & Hx & Hx' & Hr). assert (x' = x) as -> by congruence.
  destruct (new_copy t c h x Hc Hr) as (h' & l' & y & F & Hrun & Hh & Hn & Hd & Hy & Hs & Ho & HlF).
  exists h', (Ptr l'), ({[l']} ∪ F). rewrite (copy_ptr_field t c h l x Hx). split_and!; [done|done|set_solver| |].
  - by exists x, y.
  - by exists y, F.
Qed.

Lemma copies_ptr t `{!Deep (content t), !DeepLaws (content t), !Flat (content t)} : copies (copy_ptr (t := t)).
Proof. exact (copies_ptr_into t mret copies_mret). Qed.

Lemma deep_copy_into t (c : copier (content t)) p : deep_copy c p = copy_ptr_into c p.
Proof. by destruct p. Qed.

(** *** Loops over new arrays *)

(** A partial copy in the new cell [l]: [got] has been copied so far, in [F]. *)
Definition partial `{!Deep A} h h1 (l : loc) (xs got : list A) F : Prop :=
  h ⊆ h1 ∧ l ∈ dom h1 ∧ F ## dom h ∧ (l ∉ F) ∧ same h xs h1 got ∧ owns h1 got F.

(** One more element: the copier runs, and the cell is overwritten. *)
Lemma partial_step `{!Deep A, !DeepLaws A} (c : copier A) h h1 l xs got F x :
  copies c → l ∉ dom h → readable h x → partial h h1 l xs got F →
  ∃ h2 y F2, c x h1 = Some (h2, y) ∧ h1 ⊆ h2 ∧
    ∀ cl, partial h (<[l := cl]> h2) l (xs ++ [x]) (got ++ [y]) (F ∪ F2).
Proof.
  intros Hc Hl Hx (Hh & Hd & Hf & HlF & Hs & Ho).
  destruct (Hc h1 x) as (h2 & y & F2 & Hr & Hh2 & Hf2 & Hs2 & Ho2); [by eapply readable_mono|].
  exists h2, y, F2. do 2 (split; [done|]). intros cl.
  pose proof (owns_dom h1 got F Ho) as HFd.
  assert (agree F h1 (<[l := cl]> h2)) as Ha.
  { intros l' Hl'. rewrite lookup_insert_ne by congruence. by apply (agree_subseteq F h1 h2 Hh2). }
  assert (agree F2 h2 (<[l := cl]> h2)) as Ha2 by (apply agree_insert; set_solver).
  pose proof (subseteq_dom _ _ Hh). split_and!.
  - apply overwrite; [done|]. by trans h1.
  - rewrite dom_insert_L. set_solver.
  - set_solver.
  - set_solver.
  - apply Forall2_app.
    + by apply (same_frame (Deep0 := deep_list) h h1 _ xs got F).
    + constructor; [|constructor]. eapply same_frame; [exact Ha2|done|]. by eapply same_back.
  - apply owns_snoc; [by apply (owns_frame (Deep0 := deep_list) h1)|by eapply owns_frame|set_solver].
Qed.

Lemma window_length h l t o n vs : window h l t o n = Some vs → length vs = n.
Proof.
  unfold window. destruct (arr_at h l t) as [ws|]; simpl; [|done]. case_decide; [|done].
  intros [= <-]. rewrite length_take, length_drop. lia.
Qed.

Lemma insert_middle {A} (l l' : list A) x y : <[length l := y]> (l ++ x :: l') = (l ++ [y]) ++ l'.
Proof. rewrite <- (Nat.add_0_r (length l)), insert_app_r, <- (assoc_L (++)). done. Qed.

Section Slices.
Context t `{!Deep (content t), !DeepLaws (content t)} (c : copier (content t)) (Hc : copies c).
Context h (l0 l : loc) (o n : nat) (xs : list (content t)).
Hypothesis Hxs : window h l0 t o n = Some xs.
Hypothesis Hr : readable h xs.
Hypothesis Hl : l ∉ dom h.

Lemma slice_loop k i hi got F :
  i + k = n → length got = i → partial h hi l (take i xs) got F →
  arr_at hi l t = Some (got ++ replicate k (zero t)) →
  ∃ h' ys G,
    hfor (seq i k) (λ i, v ← index (Slice l0 o n) i; v' ← c v; set_index (Slice l 0 n) i v') hi = Some (h', ()) ∧
    partial h h' l xs ys G ∧ arr_at h' l t = Some ys.
Proof.
  pose proof (window_length _ _ _ _ _ _ Hxs) as Hlen.
  revert i hi got F. induction k as [|k IH]; intros i hi got F Hik Hgot Hp Ha.
  - exists hi, got, F. rewrite take_ge in Hp by lia. rewrite app_nil_r in Ha. done.
  - destruct (lookup_lt_is_Some_2 xs i) as [x Hx]; [lia|].
    destruct (partial_step c h hi l (take i xs) got F x Hc Hl) as (h2 & y & F2 & Hrun & Hh2 & Hnext); [|done|].
    { unfold readable in Hr. simpl in Hr. by apply (Forall2_lookup_lr _ _ _ _ _ _ Hr Hx). }
    destruct (IH (S i) (<[l := CArr t (<[i := y]> (got ++ replicate (S k) (zero t)))]> h2) (got ++ [y]) (F ∪ F2))
      as (h' & ys & G & Hloop & Hp' & Ha').
    { lia. }
    { rewrite length_app. simpl. lia. }
    { rewrite (take_S_r _ _ x) by done. apply Hnext. }
    { rewrite arr_at_insert. subst i. simpl replicate. by rewrite insert_middle. }
    exists h', ys, G. split_and!; [|done..].
    assert (index (Slice l0 o n) i hi = Some (hi, x)) as Hget.
    { unfold index, hlift. rewrite (window_mono h hi l0 t o n xs); [|by apply Hp|done]. simpl. by rewrite Hx. }
    assert (set_index (Slice l 0 n) i y h2 =
            Some (<[l := CArr t (<[i := y]> (got ++ replicate (S k) (zero t)))]> h2, ())) as Hset.
    { unfold set_index. rewrite decide_True by lia. unfold put, mbind, hprog_bind, hlift.
      by rewrite (arr_at_mono hi h2 l t _ Hh2 Ha). }
    cbn [seq hfor]. erewrite hbind_run; [exact Hloop|].
    by rewrite (hbind_run _ _ _ _ _ Hget), (hbind_run _ _ _ _ _ Hrun).
Qed.
End Slices.

Lemma copies_slice_into t `{!Deep (content t), !DeepLaws (content t)} (c : copier (content t)) :
  copies c → copies (copy_slice_into c).
Proof.
  intros Hc h [|l0 o n] Hx; [exists h, NilSlice, ∅; split_and!; done || set_solver|].
  destruct Hx as (xs & xs' & Hx & Hx' & Hr). assert (xs' = xs) as -> by congruence.
  destruct (fresh_cell h (CArr t (replicate n (zero t)))) as [Hn Hh]. set (l := fresh (dom h)) in *.
  set (h1 := <[l := _]> h) in *.
  destruct (slice_loop t c Hc h l0 l o n xs Hx Hr Hn n 0 h1 [] ∅) as (h' & ys & G & Hrun & Hp & Ha); [done..| | |].
  { unfold partial. split_and!; [done| |set_solver|set_solver|constructor|done].
    unfold h1. rewrite dom_insert_L. set_solver. }
  { apply arr_at_insert. }
  destruct Hp as (Hh' & _ & Hd & HlG & Hs & Ho).
  assert (window h' l t 0 n = Some ys) as Hw.
  { assert (length ys = n) as Hlen.
    { assert (length xs = length ys) as <- by exact (Forall2_length Hs). by eapply window_length. }
    unfold window. rewrite Ha. simpl. rewrite drop_0, decide_True, take_ge by lia. done. }
  exists h', (Slice l 0 n), ({[l]} ∪ G). split_and!; [|done|set_solver| |].
  - unfold copy_slice_into. cbn [slen].
    assert (make t n h = Some (h1, Slice l 0 n)) as Hmake by done.
    by rewrite (hbind_run _ _ _ _ _ Hmake), (hbind_run _ _ _ _ _ Hrun).
  - by exists xs, ys.
  - by exists ys, G.
Qed.

Lemma copies_slice t `{!Deep (content t), !DeepLaws (content t), !Flat (content t)} : copies (copy_slice (t := t)).
Proof. exact (copies_slice_into t mret copies_mret). Qed.

(** *** Loops over maps *)

Lemma zip_map_rel {A B} (R : A → B → Prop) (es : list (string * A)) ys k :
  Forall2 R es.*2 ys →
  option_Forall2 R ((list_to_map es : gmap string A) !! k) ((list_to_map (zip es.*1 ys) : gmap string B) !! k).
Proof.
  revert ys. induction es as [|[k' x] es IH]; intros ys Hf; inversion Hf as [|? y ? ys' Hxy Hf']; subst; simpl.
  - rewrite !lookup_empty. constructor.
  - destruct (decide (k = k')) as [->|Hne].
    + rewrite !lookup_insert_eq. by constructor.
    + rewrite !lookup_insert_ne by done. by apply IH.
Qed.

Section Maps.
Context t `{!Deep (content t), !DeepLaws (content t)} (c : copier (content t)) (Hc : copies c).
Context h (l : loc).
Hypothesis Hl : l ∉ dom h.

Lemma map_loop es2 es1 hi got F :
  NoDup (es1 ++ es2).*1 → readable h es2.*2 → partial h hi l es1.*2 got F →
  map_at hi l t = Some (list_to_map (zip es1.*1 got)) →
  ∃ h' ys G,
    hfor es2 (λ '(key, val), outVal ← c val; set_key (Map l) key outVal) hi = Some (h', ()) ∧
    partial h h' l (es1 ++ es2).*2 ys G ∧ map_at h' l t = Some (list_to_map (zip (es1 ++ es2).*1 ys)).
Proof.
  revert es1 hi got F. induction es2 as [|[k x] es2 IH]; intros es1 hi got F Hnd Hr Hp Hm.
  - exists hi, got, F. by rewrite app_nil_r.
  - inversion Hr as [|? ? ? ? Hx Hr']; subst.
    destruct (partial_step c h hi l es1.*2 got F x Hc Hl Hx Hp) as (h2 & y & F2 & Hrun & Hh2 & Hnext).
    set (m2 := <[k := y]> (list_to_map (zip es1.*1 got) : gmap string (content t))).
    assert (length es1.*1 = length got) as Hlen.
    { destruct Hp as (_ & _ & _ & _ & Hs & _). rewrite length_fmap. rewrite <- (Forall2_length Hs). by rewrite length_fmap. }
    destruct (IH (es1 ++ [(k, x)]) (<[l := CMap t m2]> h2) (got ++ [y]) (F ∪ F2)) as (h' & ys & G & Hloop & Hp' & Hm').
    { by rewrite <- (assoc_L (++)). }
    { done. }
    { rewrite fmap_app. apply Hnext. }
    { rewrite map_at_insert, fmap_app, zip_with_app by done. simpl. rewrite list_to_map_snoc; [done|].
      rewrite fst_zip by lia. rewrite fmap_app in Hnd. apply list.NoDup_app in Hnd as (_ & Hd & _). intros Hk.
      apply (Hd k Hk). simpl. apply elem_of_cons. by left. }
    rewrite <- (assoc_L (++)) in Hp', Hm'. exists h', ys, G. split_and!; [|done..].
    assert (set_key (Map l) k y h2 = Some (<[l := CMap t m2]> h2, ())) as Hset.
    { unfold set_key, put, mbind, hprog_bind, hlift. by rewrite (map_at_mono hi h2 l t _ Hh2 Hm). }
    cbn [hfor]. erewrite hbind_run; [exact Hloop|]. by rewrite (hbind_run _ _ _ _ _ Hrun).
Qed.
End Maps.

Lemma copies_map_into t `{!Deep (content t), !DeepLaws (content t)} (c : copier (content t)) :
  copies c → copies (copy_map_into c).
Proof.
  intros Hc h [|l0] Hx; [exists h, NilMap, ∅; split_and!; done || set_solver|].
  destruct Hx as (m & m' & Hm & Hm' & Hr). assert (m' = m) as -> by congruence.
  destruct (fresh_cell h (CMap t ∅)) as [Hn Hh]. set (l := fresh (dom h)) in *.
  set (h1 := <[l := _]> h) in *. set (es := visit m). pose proof (visit_perm m : es ≡ₚ map_to_list m) as Hes.
  assert (m = list_to_map es) as Heq.
  { rewrite (list_to_map_proper es (map_to_list m)); [by rewrite list_to_map_to_list| |done].
    rewrite Hes. apply NoDup_fst_map_to_list. }
  assert (NoDup es.*1) as Hnd by (rewrite Hes; apply NoDup_fst_map_to_list).
  destruct (map_loop t c Hc h l Hn es [] h1 [] ∅) as (h' & ys & G & Hrun & Hp & Ha); [done| | | |].
  { apply Forall_Forall2_diag, list.Forall_forall. intros v ([k v'] & -> & Hin)%list_elem_of_fmap.
    rewrite Hes in Hin. apply elem_of_map_to_list in Hin. specialize (Hr k). rewrite Hin in Hr. by inversion Hr. }
  { unfold partial. split_and!; [done| |set_solver|set_solver|constructor|done].
    unfold h1. rewrite dom_insert_L. set_solver. }
  { apply map_at_insert. }
  destruct Hp as (Hh' & _ & Hd & HlG & Hs & Ho). simpl in Hs.
  assert (length es.*1 = length ys) as Hlen by (rewrite length_fmap, <- (Forall2_length Hs); by rewrite length_fmap).
  exists h', (Map l), ({[l]} ∪ G). split_and!; [|done|set_solver| |].
  - unfold copy_map_into. assert (make_map t h = Some (h1, Map l)) as Hmake by done.
    rewrite (hbind_run _ _ _ _ _ Hmake). erewrite hbind_run.
    2: { unfold entries, hlift. rewrite (map_at_mono _ _ _ _ _ Hh Hm). done. }
    by rewrite (hbind_run _ _ _ _ _ Hrun).
  - exists m, (list_to_map (zip es.*1 ys)). split_and!; [done..|]. intros k. rewrite Heq. by apply zip_map_rel.
  - exists (list_to_map (zip es.*1 ys)), (zip es.*1 ys), G. split_and!; [done| | |done].
    + symmetry. apply map_to_list_to_map. rewrite fst_zip by lia. done.
    + rewrite snd_zip by lia. done.
Qed.

Lemma copies_map t `{!Deep (content t), !DeepLaws (content t), !Flat (content t)} : copies (copy_map (t := t)).
Proof. apply (copies_map_into t mret copies_mret). Qed.

(** ** What a deep copy is good for *)

(** The copy is deeply equal to the original, and the two are independent: whatever is
    written to memory that the copy did not allocate, through the original or
    otherwise, the copy stays, and whatever is written to memory that did not exist
    before the copy, the original stays. *)
Definition isolated `{!Deep T} h (x : T) (r : option (heap * T)) : Prop :=
  ∃ h' y, r = Some (h', y) ∧ h ⊆ h' ∧ same h x h' y ∧
    (∀ h2, (∀ l, l ∈ dom h' → l ∉ dom h → h2 !! l = h' !! l) → same h x h2 y) ∧
    (∀ h2, (∀ l, l ∈ dom h → h2 !! l = h !! l) → same h x h2 x).

Lemma grown h h2 : (∀ l, l ∈ dom h → h2 !! l = h !! l) → h ⊆ h2.
Proof.
  intros Ha. apply map_subseteq_spec. intros l c Hl. rewrite Ha; [done|]. by eapply elem_of_dom_2.
Qed.

Lemma yields_isolated `{!Deep T, !DeepLaws T} h (m : hprog T) (x : T) :
  readable h x → yields h m x id → isolated h x (m h).
Proof.
  intros Hx (h' & y & F & Hr & Hh & Hd & Hs & Ho). exists h', y. split_and!; [done..| |].
  - intros h2 Ha. eapply same_frame; [|exact Ho|exact Hs]. intros l Hl.
    apply Ha; [by apply (owns_dom _ _ _ Ho)|set_solver].
  - intros h2 Ha. eapply same_mono; [done|by apply grown|exact Hx].
Qed.

Lemma deep_copy_isolated t `{!Deep (content t), !DeepLaws (content t)} (c : copier (content t)) h (p : ptr t) :
  copies c → readable h p → isolated h p (deep_copy c p h).
Proof. intros Hc Hp. rewrite deep_copy_into. apply yields_isolated; [done|]. by apply copies_ptr_into. Qed.
End Copy.

(** The references of a structure, as nested pairs. *)
Notation "A × B" := (prod A B%type) (at level 60, right associativity) : type_scope.
Notation "⟨ x , .. , y ⟩" := (pair x .. (pair y tt) ..) (at level 0, x at level 99, y at level 99).

(** The obligations of [Struct]. *)
Ltac struct_solver :=
  intros; simpl in *; repeat match goal with
                        | u : () |- _ => destruct u
                        | p : _ * _ |- _ => destruct p
                        end; try done; lazymatch goal with |- _ = ?x => by destruct x end.

(** The lemmas on the [DeepCopyInto] of structures, and the patterns on top of them. *)
Create HintDb deep_copy.

Ltac copy_solve :=
  lazymatch goal with
  | |- copies (@copy_ptr ?G ?t) => apply (@copies_ptr G t _ _ _)
  | |- copies (@copy_slice ?G ?t) => apply (@copies_slice G t _ _ _)
  | |- copies (@copy_map ?G ?t) => apply (@copies_map G t _ _ _)
  | |- copies (@copy_ptr_into ?G ?t _) => apply (@copies_ptr_into G t _ _); copy_solve
  | |- copies (@copy_slice_into ?G ?t _) => apply (@copies_slice_into G t _ _); copy_solve
  | |- copies (@copy_map_into ?G ?t _) => apply (@copies_map_into G t _ _); copy_solve
  | |- _ => solve [auto with deep_copy]
  end.

(** Proves that a structure's [DeepCopyInto] copies it, field by field in the order of
    the code. *)
Ltac copy_fields c :=
  apply copies_struct; let h := fresh "h" in let x := fresh "x" in intros h x; unfold c;
  let r := eval hnf in (refs x) in change (refs x) with r;
  let rec go :=
    lazymatch goal with
    | |- readable _ () → _ => intros _; apply yields_ret; reflexivity
    | |- readable _ (_, _) → _ =>
        intros [? ?]; eapply yields_bind; [copy_solve|assumption|assumption|intros ? ?; go]
    end in go.
