(* ===== verification/ApiLayout.v ===== *)
(** The structures of the two API packages as they are in memory, with their pointers,
    slices and maps: the layout that the deep copies work on.  [ApiTypes] has the
    values of those that the controllers use.  A structure without references is
    the one of [ApiTypes]. *)

From S2P Require Import Prelude Objects ApiTypes GoHeap.

(** ** The types behind pointers *)

Inductive type_name := | TString | TBool | TInt | TInt32 | TByte | TDuration | TTime | TIntOrString
  | TStringPtr | TCondition | TSecretRef | TSecretFileSource | TFileSource | TFile
  | TBootstrapConfig | TCK8sControlPlaneConfig | TCK8sInitConfiguration | TCK8sConfigSpec
  | TCK8sConfigStatus | TCK8sConfig | TCK8sConfigList | TCK8sConfigTemplateResource
  | TCK8sConfigTemplateSpec | TCK8sConfigTemplate | TCK8sConfigTemplateList
  | TCK8sControlPlaneMachineTemplate | TRollingUpdate | TRolloutStrategy | TRemediationStrategy
  | TLastRemediationStatus | TCK8sControlPlaneSpec | TCK8sControlPlaneStatus | TCK8sControlPlane
  | TCK8sControlPlaneList | TCK8sControlPlaneTemplateResourceSpec
  | TCK8sControlPlaneTemplateResource | TCK8sControlPlaneTemplateSpec | TCK8sControlPlaneTemplate
  | TCK8sControlPlaneTemplateList | Ext (n : string).

#[export] Instance type_name_eq_dec : EqDecision type_name.
Proof. solve_decision. Defined.

(** The types of the API machinery and of Cluster API, and types behind pointers in
    them. *)
Class ExtTypes := {
  GoTypeMeta : Type;
  GoObjectMeta : Type;
  GoListMeta : Type;
  GoClusterObjectMeta : Type;
  GoCondition : Type;
  GoTime : Type;
  GoExt : string → Type;
  zero_GoTypeMeta : GoTypeMeta;
  zero_GoObjectMeta : GoObjectMeta;
  zero_GoListMeta : GoListMeta;
  zero_GoClusterObjectMeta : GoClusterObjectMeta;
  zero_GoCondition : GoCondition;
  zero_GoTime : GoTime;
  zero_GoExt n : GoExt n;
}.

(** The order in which [range] visits a map. *)
Class RangeOrder := {
  range_order {A} (m : gmap string A) : list (string * A);
  range_order_perm {A} (m : gmap string A) : range_order m ≡ₚ map_to_list m;
}.

Definition zero_SecretRef : SecretRef := mkSecretRef "" "".
Definition zero_ObjectReference : ObjectReference := mkRef "" "" "" "" "".

Section Layout.
Context `{!ExtTypes}.

(** ** src/bootstrap/api/v1beta2 *)

Record GoFile := mkGoFile {
  gf_Path : string;
  gf_Owner : string;
  gf_Permissions : string;
  gf_Encoding : string;
  gf_Content : string;
  gf_ContentFrom : ptr TFileSource;
}.
Definition zero_GoFile : GoFile := mkGoFile "" "" "" "" "" Nil.

Record GoBootstrapConfig := mkGoBootstrapConfig {
  gbc_Content : string;
  gbc_ContentFrom : ptr TFileSource;
}.
Definition zero_GoBootstrapConfig : GoBootstrapConfig := mkGoBootstrapConfig "" Nil.

Record GoCK8sControlPlaneConfig := mkGoCK8sControlPlaneConfig {
  gcpc_ExtraSANs : slice TString;
  gcpc_CloudProvider : string;
  gcpc_NodeTaints : slice TString;
  gcpc_DatastoreType : string;
  gcpc_DatastoreServersSecretRef : SecretRef;
  gcpc_EtcdPort : Z;
  gcpc_EtcdPeerPort : Z;
  gcpc_MicroclusterAddress : string;
  gcpc_MicroclusterPort : ptr TInt;
  gcpc_ExtraKubeAPIServerArgs : gomap TStringPtr;
  gcpc_ExtraKubeControllerManagerArgs : gomap TStringPtr;
  gcpc_ExtraKubeSchedulerArgs : gomap TStringPtr;
}.
Definition zero_GoCK8sControlPlaneConfig : GoCK8sControlPlaneConfig := mkGoCK8sControlPlaneConfig
  NilSlice "" NilSlice "" zero_SecretRef 0%Z 0%Z "" Nil NilMap NilMap NilMap.

Record GoCK8sInitConfiguration := mkGoCK8sInitConfiguration {
  gic_Annotations : gomap TString;
  gic_EnableDefaultDNS : ptr TBool;
  gic_EnableDefaultLoadBalancer : ptr TBool;
  gic_EnableDefaultGateway : ptr TBool;
  gic_EnableDefaultIngress : ptr TBool;
  gic_EnableDefaultLocalStorage : ptr TBool;
  gic_EnableDefaultMetricsServer : ptr TBool;
  gic_EnableDefaultNetwork : ptr TBool;
}.
Definition zero_GoCK8sInitConfiguration : GoCK8sInitConfiguration := mkGoCK8sInitConfiguration
  NilMap Nil Nil Nil Nil Nil Nil Nil.

Record GoCK8sConfigSpec := mkGoCK8sConfigSpec {
  gspec_Version : string;
  gspec_Files : slice TFile;
  gspec_BootstrapConfig : ptr TBootstrapConfig;
  gspec_BootCommands : slice TString;
  gspec_PreRunCommands : slice TString;
  gspec_AdditionalUserData : gomap TString;
  gspec_PostRunCommands : slice TString;
  gspec_AirGapped : bool;
  gspec_SnapstoreProxyScheme : string;
  gspec_SnapstoreProxyDomain : string;
  gspec_SnapstoreProxyID : string;
  gspec_HTTPSProxy : string;
  gspec_HTTPProxy : string;
  gspec_NoProxy : string;
  gspec_Channel : string;
  gspec_Revision : string;
  gspec_LocalPath : string;
  gspec_ControlPlaneConfig : GoCK8sControlPlaneConfig;
  gspec_InitConfig : GoCK8sInitConfiguration;
  gspec_NodeName : string;
  gspec_ExtraKubeProxyArgs : gomap TStringPtr;
  gspec_ExtraKubeletArgs : gomap TStringPtr;
  gspec_ExtraContainerdArgs : gomap TStringPtr;
  gspec_ExtraK8sAPIServerProxyArgs : gomap TStringPtr;
}.
Definition zero_GoCK8sConfigSpec : GoCK8sConfigSpec := mkGoCK8sConfigSpec "" NilSlice Nil NilSlice
  NilSlice NilMap NilSlice false "" "" "" "" "" "" "" "" "" zero_GoCK8sControlPlaneConfig
  zero_GoCK8sInitConfiguration "" NilMap NilMap NilMap NilMap.

Record GoCK8sConfigStatus := mkGoCK8sConfigStatus {
  gcs_Ready : bool;
  gcs_BootstrapData : slice TByte;
  gcs_DataSecretName : ptr TString;
  gcs_FailureReason : string;
  gcs_FailureMessage : string;
  gcs_ObservedGeneration : Z;
  gcs_Conditions : slice TCondition;
}.
Definition zero_GoCK8sConfigStatus : GoCK8sConfigStatus := mkGoCK8sConfigStatus false NilSlice Nil
  "" "" 0%Z NilSlice.

Record GoCK8sConfig := mkGoCK8sConfig {
  gcfg_TypeMeta : GoTypeMeta;
  gcfg_ObjectMeta : GoObjectMeta;
  gcfg_Spec : GoCK8sConfigSpec;
  gcfg_Status : GoCK8sConfigStatus;
}.
Definition zero_GoCK8sConfig : GoCK8sConfig := mkGoCK8sConfig zero_GoTypeMeta zero_GoObjectMeta
  zero_GoCK8sConfigSpec zero_GoCK8sConfigStatus.

Record GoCK8sConfigList := mkGoCK8sConfigList {
  gcfgl_TypeMeta : GoTypeMeta;
  gcfgl_ListMeta : GoListMeta;
  gcfgl_Items : slice TCK8sConfig;
}.
Definition zero_GoCK8sConfigList : GoCK8sConfigList := mkGoCK8sConfigList zero_GoTypeMeta
  zero_GoListMeta NilSlice.

Record GoCK8sConfigTemplateResource := mkGoCK8sConfigTemplateResource {
  gcftr_Spec : GoCK8sConfigSpec;
}.
Definition zero_GoCK8sConfigTemplateResource : GoCK8sConfigTemplateResource := mkGoCK8sConfigTemplateResource
  zero_GoCK8sConfigSpec.

Record GoCK8sConfigTemplateSpec := mkGoCK8sConfigTemplateSpec {
  gcfts_Template : GoCK8sConfigTemplateResource;
}.
Definition zero_GoCK8sConfigTemplateSpec : GoCK8sConfigTemplateSpec := mkGoCK8sConfigTemplateSpec
  zero_GoCK8sConfigTemplateResource.

Record GoCK8sConfigTemplate := mkGoCK8sConfigTemplate {
  gcft_TypeMeta : GoTypeMeta;
  gcft_ObjectMeta : GoObjectMeta;
  gcft_Spec : GoCK8sConfigTemplateSpec;
}.
Definition zero_GoCK8sConfigTemplate : GoCK8sConfigTemplate := mkGoCK8sConfigTemplate
  zero_GoTypeMeta zero_GoObjectMeta zero_GoCK8sConfigTemplateSpec.

Record GoCK8sConfigTemplateList := mkGoCK8sConfigTemplateList {
  gcftl_TypeMeta : GoTypeMeta;
  gcftl_ListMeta : GoListMeta;
  gcftl_Items : slice TCK8sConfigTemplate;
}.
Definition zero_GoCK8sConfigTemplateList : GoCK8sConfigTemplateList := mkGoCK8sConfigTemplateList
  zero_GoTypeMeta zero_GoListMeta NilSlice.

(** ** src/controlplane/api/v1beta2 *)

Record GoCK8sControlPlaneMachineTemplate := mkGoCK8sControlPlaneMachineTemplate {
  gmt_ObjectMeta : GoClusterObjectMeta;
  gmt_InfrastructureRef : ObjectReference;
  gmt_NodeDrainTimeout : ptr TDuration;
  gmt_NodeVolumeDetachTimeout : ptr TDuration;
  gmt_NodeDeletionTimeout : ptr TDuration;
}.
Definition zero_GoCK8sControlPlaneMachineTemplate : GoCK8sControlPlaneMachineTemplate := mkGoCK8sControlPlaneMachineTemplate
  zero_GoClusterObjectMeta zero_ObjectReference Nil Nil Nil.

Record GoRollingUpdate := mkGoRollingUpdate {
  gru_MaxSurge : ptr TIntOrString;
}.
Definition zero_GoRollingUpdate : GoRollingUpdate := mkGoRollingUpdate Nil.

Record GoRolloutStrategy := mkGoRolloutStrategy {
  grs_RollingUpdate : ptr TRollingUpdate;
}.
Definition zero_GoRolloutStrategy : GoRolloutStrategy := mkGoRolloutStrategy Nil.

Record GoRemediationStrategy := mkGoRemediationStrategy {
  grem_MaxRetry : ptr TInt32;
  grem_RetryPeriod : Z;
  grem_MinHealthyPeriod : ptr TDuration;
}.
Definition zero_GoRemediationStrategy : GoRemediationStrategy := mkGoRemediationStrategy Nil 0%Z
  Nil.

Record GoLastRemediationStatus := mkGoLastRemediationStatus {
  glrs_Machine : string;
  glrs_Timestamp : GoTime;
  glrs_RetryCount : Z;
}.
Definition zero_GoLastRemediationStatus : GoLastRemediationStatus := mkGoLastRemediationStatus ""
  zero_GoTime 0%Z.

Record GoCK8sControlPlaneSpec := mkGoCK8sControlPlaneSpec {
  gkcps_Replicas : ptr TInt32;
  gkcps_Version : string;
  gkcps_CK8sConfigSpec : GoCK8sConfigSpec;
  gkcps_RolloutAfter : ptr TTime;
  gkcps_MachineTemplate : GoCK8sControlPlaneMachineTemplate;
  gkcps_RemediationStrategy : ptr TRemediationStrategy;
  gkcps_RolloutStrategy : ptr TRolloutStrategy;
}.
Definition zero_GoCK8sControlPlaneSpec : GoCK8sControlPlaneSpec := mkGoCK8sControlPlaneSpec Nil ""
  zero_GoCK8sConfigSpec Nil zero_GoCK8sControlPlaneMachineTemplate Nil Nil.

Record GoCK8sControlPlaneStatus := mkGoCK8sControlPlaneStatus {
  gst_Selector : string;
  gst_Replicas : Z;
  gst_Version : ptr TString;
  gst_UpdatedReplicas : Z;
  gst_ReadyReplicas : Z;
  gst_UnavailableReplicas : Z;
  gst_Initialized : bool;
  gst_Ready : bool;
  gst_FailureReason : string;
  gst_FailureMessage : ptr TString;
  gst_ObservedGeneration : Z;
  gst_Conditions : slice TCondition;
  gst_LastRemediation : ptr TLastRemediationStatus;
}.
Definition zero_GoCK8sControlPlaneStatus : GoCK8sControlPlaneStatus := mkGoCK8sControlPlaneStatus
  "" 0%Z Nil 0%Z 0%Z 0%Z false false "" Nil 0%Z NilSlice Nil.

Record GoCK8sControlPlane := mkGoCK8sControlPlane {
  gkcp_TypeMeta : GoTypeMeta;
  gkcp_ObjectMeta : GoObjectMeta;
  gkcp_Spec : GoCK8sControlPlaneSpec;
  gkcp_Status : GoCK8sControlPlaneStatus;
}.
Definition zero_GoCK8sControlPlane : GoCK8sControlPlane := mkGoCK8sControlPlane zero_GoTypeMeta
  zero_GoObjectMeta zero_GoCK8sControlPlaneSpec zero_GoCK8sControlPlaneStatus.

Record GoCK8sControlPlaneList := mkGoCK8sControlPlaneList {
  gkcpl_TypeMeta : GoTypeMeta;
  gkcpl_ListMeta : GoListMeta;
  gkcpl_Items : slice TCK8sControlPlane;
}.
Definition zero_GoCK8sControlPlaneList : GoCK8sControlPlaneList := mkGoCK8sControlPlaneList
  zero_GoTypeMeta zero_GoListMeta NilSlice.

Record GoCK8sControlPlaneTemplateResourceSpec := mkGoCK8sControlPlaneTemplateResourceSpec {
  gctrs_CK8sConfigSpec : GoCK8sConfigSpec;
  gctrs_RolloutAfter : ptr TTime;
  gctrs_MachineTemplate : GoCK8sControlPlaneMachineTemplate;
  gctrs_RemediationStrategy : ptr TRemediationStrategy;
  gctrs_RolloutStrategy : ptr TRolloutStrategy;
}.
Definition zero_GoCK8sControlPlaneTemplateResourceSpec : GoCK8sControlPlaneTemplateResourceSpec := mkGoCK8sControlPlaneTemplateResourceSpec
  zero_GoCK8sConfigSpec Nil zero_GoCK8sControlPlaneMachineTemplate Nil Nil.

Record GoCK8sControlPlaneTemplateResource := mkGoCK8sControlPlaneTemplateResource {
  gctr_ObjectMeta : GoObjectMeta;
  gctr_Spec : GoCK8sControlPlaneTemplateResourceSpec;
}.
Definition zero_GoCK8sControlPlaneTemplateResource : GoCK8sControlPlaneTemplateResource := mkGoCK8sControlPlaneTemplateResource
  zero_GoObjectMeta zero_GoCK8sControlPlaneTemplateResourceSpec.

Record GoCK8sControlPlaneTemplateSpec := mkGoCK8sControlPlaneTemplateSpec {
  gcts_Template : GoCK8sControlPlaneTemplateResource;
}.
Definition zero_GoCK8sControlPlaneTemplateSpec : GoCK8sControlPlaneTemplateSpec := mkGoCK8sControlPlaneTemplateSpec
  zero_GoCK8sControlPlaneTemplateResource.

Record GoCK8sControlPlaneTemplate := mkGoCK8sControlPlaneTemplate {
  gct_TypeMeta : GoTypeMeta;
  gct_ObjectMeta : GoObjectMeta;
  gct_Spec : GoCK8sControlPlaneTemplateSpec;
}.
Definition zero_GoCK8sControlPlaneTemplate : GoCK8sControlPlaneTemplate := mkGoCK8sControlPlaneTemplate
  zero_GoTypeMeta zero_GoObjectMeta zero_GoCK8sControlPlaneTemplateSpec.

Record GoCK8sControlPlaneTemplateList := mkGoCK8sControlPlaneTemplateList {
  gctl_TypeMeta : GoTypeMeta;
  gctl_ListMeta : GoListMeta;
  gctl_Items : slice TCK8sControlPlaneTemplate;
}.
Definition zero_GoCK8sControlPlaneTemplateList : GoCK8sControlPlaneTemplateList := mkGoCK8sControlPlaneTemplateList
  zero_GoTypeMeta zero_GoListMeta NilSlice.

(** ** Their values *)

Definition go_content (t : type_name) : Type :=
  match t with
  | TString => string
  | TBool => bool
  | TInt => Z
  | TInt32 => Z
  | TByte => ascii
  | TDuration => Z
  | TTime => GoTime
  | TIntOrString => IntOrString
  | TStringPtr => ptr TString
  | TCondition => GoCondition
  | TSecretRef => SecretRef
  | TSecretFileSource => SecretFileSource
  | TFileSource => FileSource
  | TFile => GoFile
  | TBootstrapConfig => GoBootstrapConfig
  | TCK8sControlPlaneConfig => GoCK8sControlPlaneConfig
  | TCK8sInitConfiguration => GoCK8sInitConfiguration
  | TCK8sConfigSpec => GoCK8sConfigSpec
  | TCK8sConfigStatus => GoCK8sConfigStatus
  | TCK8sConfig => GoCK8sConfig
  | TCK8sConfigList => GoCK8sConfigList
  | TCK8sConfigTemplateResource => GoCK8sConfigTemplateResource
  | TCK8sConfigTemplateSpec => GoCK8sConfigTemplateSpec
  | TCK8sConfigTemplate => GoCK8sConfigTemplate
  | TCK8sConfigTemplateList => GoCK8sConfigTemplateList
  | TCK8sControlPlaneMachineTemplate => GoCK8sControlPlaneMachineTemplate
  | TRollingUpdate => GoRollingUpdate
  | TRolloutStrategy => GoRolloutStrategy
  | TRemediationStrategy => GoRemediationStrategy
  | TLastRemediationStatus => GoLastRemediationStatus
  | TCK8sControlPlaneSpec => GoCK8sControlPlaneSpec
  | TCK8sControlPlaneStatus => GoCK8sControlPlaneStatus
  | TCK8sControlPlane => GoCK8sControlPlane
  | TCK8sControlPlaneList => GoCK8sControlPlaneList
  | TCK8sControlPlaneTemplateResourceSpec => GoCK8sControlPlaneTemplateResourceSpec
  | TCK8sControlPlaneTemplateResource => GoCK8sControlPlaneTemplateResource
  | TCK8sControlPlaneTemplateSpec => GoCK8sControlPlaneTemplateSpec
  | TCK8sControlPlaneTemplate => GoCK8sControlPlaneTemplate
  | TCK8sControlPlaneTemplateList => GoCK8sControlPlaneTemplateList
  | Ext n => GoExt n
  end.

Definition go_zero (t : type_name) : go_content t :=
  match t with
  | TString => ""
  | TBool => false
  | TInt => 0%Z
  | TInt32 => 0%Z
  | TByte => "000"%char
  | TDuration => 0%Z
  | TTime => zero_GoTime
  | TIntOrString => IntVal 0
  | TStringPtr => Nil
  | TCondition => zero_GoCondition
  | TSecretRef => zero_SecretRef
  | TSecretFileSource => mkSecretFileSource "" ""
  | TFileSource => mkFileSource (mkSecretFileSource "" "")
  | TFile => zero_GoFile
  | TBootstrapConfig => zero_GoBootstrapConfig
  | TCK8sControlPlaneConfig => zero_GoCK8sControlPlaneConfig
  | TCK8sInitConfiguration => zero_GoCK8sInitConfiguration
  | TCK8sConfigSpec => zero_GoCK8sConfigSpec
  | TCK8sConfigStatus => zero_GoCK8sConfigStatus
  | TCK8sConfig => zero_GoCK8sConfig
  | TCK8sConfigList => zero_GoCK8sConfigList
  | TCK8sConfigTemplateResource => zero_GoCK8sConfigTemplateResource
  | TCK8sConfigTemplateSpec => zero_GoCK8sConfigTemplateSpec
  | TCK8sConfigTemplate => zero_GoCK8sConfigTemplate
  | TCK8sConfigTemplateList => zero_GoCK8sConfigTemplateList
  | TCK8sControlPlaneMachineTemplate => zero_GoCK8sControlPlaneMachineTemplate
  | TRollingUpdate => zero_GoRollingUpdate
  | TRolloutStrategy => zero_GoRolloutStrategy
  | TRemediationStrategy => zero_GoRemediationStrategy
  | TLastRemediationStatus => zero_GoLastRemediationStatus
  | TCK8sControlPlaneSpec => zero_GoCK8sControlPlaneSpec
  | TCK8sControlPlaneStatus => zero_GoCK8sControlPlaneStatus
  | TCK8sControlPlane => zero_GoCK8sControlPlane
  | TCK8sControlPlaneList => zero_GoCK8sControlPlaneList
  | TCK8sControlPlaneTemplateResourceSpec => zero_GoCK8sControlPlaneTemplateResourceSpec
  | TCK8sControlPlaneTemplateResource => zero_GoCK8sControlPlaneTemplateResource
  | TCK8sControlPlaneTemplateSpec => zero_GoCK8sControlPlaneTemplateSpec
  | TCK8sControlPlaneTemplate => zero_GoCK8sControlPlaneTemplate
  | TCK8sControlPlaneTemplateList => zero_GoCK8sControlPlaneTemplateList
  | Ext n => zero_GoExt n
  end.

#[export] Instance api_types `{!RangeOrder} : GoTypes := {|
  tag := type_name;
  content := go_content;
  zero := go_zero;
  visit := @range_order _;
  visit_perm := @range_order_perm _;
|}.
End Layout.
