(* ===== verification/BootstrapCopy.v ===== *)
(** src/bootstrap/api/v1beta2/zz_generated.deepcopy.go: the deep copies of the bootstrap
    API.  In [T_DeepCopyInto] the state are the fields of [out], which start as those of
    [in]; the patterns of [GoHeap] copy what they refer to, in the order of the code. *)

From S2P Require Import Prelude Objects ApiTypes GoHeap GoCopy ApiLayout.

(** ** Deep copies of other packages *)

(** The functions of API machinery and Cluster API, and what they document: they are
    deep copies, too. *)
Class ExtCopies `{!ExtTypes, !RangeOrder} := {
  ObjectMeta_DeepCopyInto : copier GoObjectMeta;
  ListMeta_DeepCopyInto : copier GoListMeta;
  ClusterObjectMeta_DeepCopyInto : copier GoClusterObjectMeta;
  Condition_DeepCopyInto : copier GoCondition;
  Time_DeepCopyInto : copier GoTime;
  Time_DeepCopy : ptr TTime → hprog (ptr TTime);
  deep_ObjectMeta :: Deep GoObjectMeta;
  deep_ListMeta :: Deep GoListMeta;
  deep_ClusterObjectMeta :: Deep GoClusterObjectMeta;
  deep_Condition :: Deep GoCondition;
  deep_Time :: Deep GoTime;
}.

#[export] Instance deep_content_Time `{!ExtTypes, !RangeOrder, !ExtCopies} : Deep (content TTime) := deep_Time.
#[export] Instance deep_content_Condition `{!ExtTypes, !RangeOrder, !ExtCopies} : Deep (content TCondition) :=
  deep_Condition.

Class ExtCopiesLaws `{!ExtTypes, !RangeOrder, !ExtCopies} := {
  deep_ObjectMeta_laws :: DeepLaws GoObjectMeta;
  deep_ListMeta_laws :: DeepLaws GoListMeta;
  deep_ClusterObjectMeta_laws :: DeepLaws GoClusterObjectMeta;
  deep_Condition_laws :: DeepLaws GoCondition;
  deep_Time_laws :: DeepLaws GoTime;
  ObjectMeta_copies : copies ObjectMeta_DeepCopyInto;
  ListMeta_copies : copies ListMeta_DeepCopyInto;
  ClusterObjectMeta_copies : copies ClusterObjectMeta_DeepCopyInto;
  Condition_copies : copies (T := content TCondition) Condition_DeepCopyInto;
  Time_copies : copies Time_DeepCopyInto;
  Time_ptr_copies : copies Time_DeepCopy;
}.
#[export] Hint Resolve ObjectMeta_copies ListMeta_copies ClusterObjectMeta_copies Condition_copies
  Time_copies Time_ptr_copies : deep_copy.

Section Instances.
Context `{!ExtTypes, !RangeOrder, !ExtCopies, !ExtCopiesLaws}.

#[export] Instance deep_content_Time_laws : DeepLaws (content TTime) := deep_Time_laws.
#[export] Instance deep_content_Condition_laws : DeepLaws (content TCondition) := deep_Condition_laws.
End Instances.

(** ** Types without references *)

Section Flat.
Context `{!ExtTypes, !RangeOrder}.

#[export] Instance deep_content_String : Deep (content TString) := flat.
#[export] Instance deep_content_String_laws : DeepLaws (content TString) := flat_laws.
#[export] Instance flat_content_String : Flat (content TString) := flat_flat.
#[export] Instance deep_content_Bool : Deep (content TBool) := flat.
#[export] Instance deep_content_Bool_laws : DeepLaws (content TBool) := flat_laws.
#[export] Instance flat_content_Bool : Flat (content TBool) := flat_flat.
#[export] Instance deep_content_Int : Deep (content TInt) := flat.
#[export] Instance deep_content_Int_laws : DeepLaws (content TInt) := flat_laws.
#[export] Instance flat_content_Int : Flat (content TInt) := flat_flat.
#[export] Instance deep_content_Int32 : Deep (content TInt32) := flat.
#[export] Instance deep_content_Int32_laws : DeepLaws (content TInt32) := flat_laws.
#[export] Instance flat_content_Int32 : Flat (content TInt32) := flat_flat.
#[export] Instance deep_content_Byte : Deep (content TByte) := flat.
#[export] Instance deep_content_Byte_laws : DeepLaws (content TByte) := flat_laws.
#[export] Instance flat_content_Byte : Flat (content TByte) := flat_flat.
#[export] Instance deep_content_Duration : Deep (content TDuration) := flat.
#[export] Instance deep_content_Duration_laws : DeepLaws (content TDuration) := flat_laws.
#[export] Instance flat_content_Duration : Flat (content TDuration) := flat_flat.
#[export] Instance deep_content_IntOrString : Deep (content TIntOrString) := flat.
#[export] Instance deep_content_IntOrString_laws : DeepLaws (content TIntOrString) := flat_laws.
#[export] Instance flat_content_IntOrString : Flat (content TIntOrString) := flat_flat.
#[export] Instance deep_content_SecretRef : Deep (content TSecretRef) := flat.
#[export] Instance deep_content_SecretRef_laws : DeepLaws (content TSecretRef) := flat_laws.
#[export] Instance flat_content_SecretRef : Flat (content TSecretRef) := flat_flat.
#[export] Instance deep_content_SecretFileSource : Deep (content TSecretFileSource) := flat.
#[export] Instance deep_content_SecretFileSource_laws : DeepLaws (content TSecretFileSource) := flat_laws.
#[export] Instance flat_content_SecretFileSource : Flat (content TSecretFileSource) := flat_flat.
#[export] Instance deep_content_FileSource : Deep (content TFileSource) := flat.
#[export] Instance deep_content_FileSource_laws : DeepLaws (content TFileSource) := flat_laws.
#[export] Instance flat_content_FileSource : Flat (content TFileSource) := flat_flat.

(** Map values that are pointers. *)
#[export] Instance deep_content_StringPtr : Deep (content TStringPtr) := deep_ptr TString.
#[export] Instance deep_content_StringPtr_laws : DeepLaws (content TStringPtr) := deep_ptr_laws TString.

Definition copy_args : copier (gomap TStringPtr) := copy_map_into (t := TStringPtr) (copy_ptr (t := TString)).

Lemma copies_args : copies copy_args.
Proof. exact (copies_map_into TStringPtr _ (copies_ptr TString)). Qed.
End Flat.
#[export] Hint Resolve copies_args : deep_copy.

Section Copies.
Context `{!ExtTypes, !RangeOrder, !ExtCopies, !ExtCopiesLaws}.

Definition FileSource_DeepCopyInto (x : FileSource) : hprog FileSource := mret x.
Definition FileSource_DeepCopy : ptr TFileSource → hprog (ptr TFileSource) := deep_copy (t := TFileSource) FileSource_DeepCopyInto.

Definition SecretFileSource_DeepCopyInto (x : SecretFileSource) : hprog SecretFileSource := mret x.
Definition SecretFileSource_DeepCopy : ptr TSecretFileSource → hprog (ptr TSecretFileSource) := deep_copy (t := TSecretFileSource) SecretFileSource_DeepCopyInto.

Definition SecretRef_DeepCopyInto (x : SecretRef) : hprog SecretRef := mret x.
Definition SecretRef_DeepCopy : ptr TSecretRef → hprog (ptr TSecretRef) := deep_copy (t := TSecretRef) SecretRef_DeepCopyInto.

Definition File_DeepCopyInto (x : GoFile) : hprog GoFile :=
  ContentFrom ← copy_ptr (gf_ContentFrom x);
  mret (mkGoFile (gf_Path x) (gf_Owner x) (gf_Permissions x) (gf_Encoding x) (gf_Content x)
    ContentFrom).

#[export] Program Instance struct_File : Struct GoFile (ptr TFileSource × ()) := {|
  refs x := ⟨gf_ContentFrom x⟩;
  build x '⟨ContentFrom⟩ :=
    mkGoFile (gf_Path x) (gf_Owner x) (gf_Permissions x) (gf_Encoding x) (gf_Content x)
      ContentFrom;
|}.
Solve Obligations with struct_solver.
#[export] Instance deep_File : Deep GoFile := deep_struct.
#[export] Instance deep_File_laws : DeepLaws GoFile := deep_struct_laws.
#[export] Instance deep_content_File : Deep (content TFile) := deep_File.
#[export] Instance deep_content_File_laws : DeepLaws (content TFile) := deep_File_laws.
Lemma File_copies : copies File_DeepCopyInto.
Proof. copy_fields File_DeepCopyInto. Qed.
Definition File_DeepCopy : ptr TFile → hprog (ptr TFile) := deep_copy (t := TFile) File_DeepCopyInto.
#[local] Hint Resolve File_copies : deep_copy.

Definition BootstrapConfig_DeepCopyInto (x : GoBootstrapConfig) : hprog GoBootstrapConfig :=
  ContentFrom ← copy_ptr (gbc_ContentFrom x);
  mret (mkGoBootstrapConfig (gbc_Content x) ContentFrom).

#[export] Program Instance struct_BootstrapConfig : Struct GoBootstrapConfig (
    ptr TFileSource × ()) := {|
  refs x := ⟨gbc_ContentFrom x⟩;
  build x '⟨ContentFrom⟩ :=
    mkGoBootstrapConfig (gbc_Content x) ContentFrom;
|}.
Solve Obligations with struct_solver.
#[export] Instance deep_BootstrapConfig : Deep GoBootstrapConfig := deep_struct.
#[export] Instance deep_BootstrapConfig_laws : DeepLaws GoBootstrapConfig := deep_struct_laws.
#[export] Instance deep_content_BootstrapConfig : Deep (content TBootstrapConfig) := deep_BootstrapConfig.
#[export] Instance deep_content_BootstrapConfig_laws : DeepLaws (content TBootstrapConfig) := deep_BootstrapConfig_laws.
Lemma BootstrapConfig_copies : copies BootstrapConfig_DeepCopyInto.
Proof. copy_fields BootstrapConfig_DeepCopyInto. Qed.
Definition BootstrapConfig_DeepCopy : ptr TBootstrapConfig → hprog (ptr TBootstrapConfig) := deep_copy (t := TBootstrapConfig) BootstrapConfig_DeepCopyInto.
#[local] Hint Resolve BootstrapConfig_copies : deep_copy.

Definition CK8sControlPlaneConfig_DeepCopyInto (x : GoCK8sControlPlaneConfig) : hprog GoCK8sControlPlaneConfig :=
  ExtraSANs ← copy_slice (gcpc_ExtraSANs x);
  NodeTaints ← copy_slice (gcpc_NodeTaints x);
  MicroclusterPort ← copy_ptr (gcpc_MicroclusterPort x);
  ExtraKubeAPIServerArgs ← copy_args (gcpc_ExtraKubeAPIServerArgs x);
  ExtraKubeControllerManagerArgs ← copy_args (gcpc_ExtraKubeControllerManagerArgs x);
  ExtraKubeSchedulerArgs ← copy_args (gcpc_ExtraKubeSchedulerArgs x);
  mret (mkGoCK8sControlPlaneConfig ExtraSANs (gcpc_CloudProvider x) NodeTaints
    (gcpc_DatastoreType x) (gcpc_DatastoreServersSecretRef x) (gcpc_EtcdPort x)
    (gcpc_EtcdPeerPort x) (gcpc_MicroclusterAddress x) MicroclusterPort ExtraKubeAPIServerArgs
    ExtraKubeControllerManagerArgs ExtraKubeSchedulerArgs).

#[export] Program Instance struct_CK8sControlPlaneConfig : Struct GoCK8sControlPlaneConfig (
    slice TString × slice TString × ptr TInt × gomap TStringPtr × gomap TStringPtr ×
    gomap TStringPtr × ()) := {|
  refs x := ⟨gcpc_ExtraSANs x, gcpc_NodeTaints x, gcpc_MicroclusterPort x,
    gcpc_ExtraKubeAPIServerArgs x, gcpc_ExtraKubeControllerManagerArgs x,
    gcpc_ExtraKubeSchedulerArgs x⟩;
  build x '⟨ExtraSANs, NodeTaints, MicroclusterPort, ExtraKubeAPIServerArgs,
    ExtraKubeControllerManagerArgs, ExtraKubeSchedulerArgs⟩ :=
    mkGoCK8sControlPlaneConfig ExtraSANs (gcpc_CloudProvider x) NodeTaints (gcpc_DatastoreType x)
      (gcpc_DatastoreServersSecretRef x) (gcpc_EtcdPort x) (gcpc_EtcdPeerPort x)
      (gcpc_MicroclusterAddress x) MicroclusterPort ExtraKubeAPIServerArgs
      ExtraKubeControllerManagerArgs ExtraKubeSchedulerArgs;
|}.
Solve Obligations with struct_solver.
#[export] Instance deep_CK8sControlPlaneConfig : Deep GoCK8sControlPlaneConfig := deep_struct.
#[export] Instance deep_CK8sControlPlaneConfig_laws : DeepLaws GoCK8sControlPlaneConfig := deep_struct_laws.
#[export] Instance deep_content_CK8sControlPlaneConfig : Deep (content TCK8sControlPlaneConfig) := deep_CK8sControlPlaneConfig.
#[export] Instance deep_content_CK8sControlPlaneConfig_laws : DeepLaws (content TCK8sControlPlaneConfig) := deep_CK8sControlPlaneConfig_laws.
Lemma CK8sControlPlaneConfig_copies : copies CK8sControlPlaneConfig_DeepCopyInto.
Proof. copy_fields CK8sControlPlaneConfig_DeepCopyInto. Qed.
Definition CK8sControlPlaneConfig_DeepCopy : ptr TCK8sControlPlaneConfig → hprog (ptr TCK8sControlPlaneConfig) := deep_copy (t := TCK8sControlPlaneConfig) CK8sControlPlaneConfig_DeepCopyInto.
#[local] Hint Resolve CK8sControlPlaneConfig_copies : deep_copy.

Definition CK8sInitConfiguration_DeepCopyInto (x : GoCK8sInitConfiguration) : hprog GoCK8sInitConfiguration :=
  Annotations ← copy_map (gic_Annotations x);
  EnableDefaultDNS ← copy_ptr (gic_EnableDefaultDNS x);
  EnableDefaultLoadBalancer ← copy_ptr (gic_EnableDefaultLoadBalancer x);
  EnableDefaultGateway ← copy_ptr (gic_EnableDefaultGateway x);
  EnableDefaultIngress ← copy_ptr (gic_EnableDefaultIngress x);
  EnableDefaultLocalStorage ← copy_ptr (gic_EnableDefaultLocalStorage x);
  EnableDefaultMetricsServer ← copy_ptr (gic_EnableDefaultMetricsServer x);
  EnableDefaultNetwork ← copy_ptr (gic_EnableDefaultNetwork x);
  mret (mkGoCK8sInitConfiguration Annotations EnableDefaultDNS EnableDefaultLoadBalancer
    EnableDefaultGateway EnableDefaultIngress EnableDefaultLocalStorage EnableDefaultMetricsServer
    EnableDefaultNetwork).

#[export] Program Instance struct_CK8sInitConfiguration : Struct GoCK8sInitConfiguration (
    gomap TString × ptr TBool × ptr TBool × ptr TBool × ptr TBool × ptr TBool × ptr TBool ×
    ptr TBool × ()) := {|
  refs x := ⟨gic_Annotations x, gic_EnableDefaultDNS x, gic_EnableDefaultLoadBalancer x,
    gic_EnableDefaultGateway x, gic_EnableDefaultIngress x, gic_EnableDefaultLocalStorage x,
    gic_EnableDefaultMetricsServer x, gic_EnableDefaultNetwork x⟩;
  build x '⟨Annotations, EnableDefaultDNS, EnableDefaultLoadBalancer, EnableDefaultGateway,
    EnableDefaultIngress, EnableDefaultLocalStorage, EnableDefaultMetricsServer,
    EnableDefaultNetwork⟩ :=
    mkGoCK8sInitConfiguration Annotations EnableDefaultDNS EnableDefaultLoadBalancer
      EnableDefaultGateway EnableDefaultIngress EnableDefaultLocalStorage
      EnableDefaultMetricsServer EnableDefaultNetwork;
|}.
Solve Obligations with struct_solver.
#[export] Instance deep_CK8sInitConfiguration : Deep GoCK8sInitConfiguration := deep_struct.
#[export] Instance deep_CK8sInitConfiguration_laws : DeepLaws GoCK8sInitConfiguration := deep_struct_laws.
#[export] Instance deep_content_CK8sInitConfiguration : Deep (content TCK8sInitConfiguration) := deep_CK8sInitConfiguration.
#[export] Instance deep_content_CK8sInitConfiguration_laws : DeepLaws (content TCK8sInitConfiguration) := deep_CK8sInitConfiguration_laws.
Lemma CK8sInitConfiguration_copies : copies CK8sInitConfiguration_DeepCopyInto.
Proof. copy_fields CK8sInitConfiguration_DeepCopyInto. Qed.
Definition CK8sInitConfiguration_DeepCopy : ptr TCK8sInitConfiguration → hprog (ptr TCK8sInitConfiguration) := deep_copy (t := TCK8sInitConfiguration) CK8sInitConfiguration_DeepCopyInto.
#[local] Hint Resolve CK8sInitConfiguration_copies : deep_copy.

Definition CK8sConfigSpec_DeepCopyInto (x : GoCK8sConfigSpec) : hprog GoCK8sConfigSpec :=
  Files ← copy_slice_into (t := TFile) File_DeepCopyInto (gspec_Files x);
  BootstrapConfig ← copy_ptr_into (t := TBootstrapConfig) BootstrapConfig_DeepCopyInto (gspec_BootstrapConfig x);
  BootCommands ← copy_slice (gspec_BootCommands x);
  PreRunCommands ← copy_slice (gspec_PreRunCommands x);
  AdditionalUserData ← copy_map (gspec_AdditionalUserData x);
  PostRunCommands ← copy_slice (gspec_PostRunCommands x);
  ControlPlaneConfig ← CK8sControlPlaneConfig_DeepCopyInto (gspec_ControlPlaneConfig x);
  InitConfig ← CK8sInitConfiguration_DeepCopyInto (gspec_InitConfig x);
  ExtraKubeProxyArgs ← copy_args (gspec_ExtraKubeProxyArgs x);
  ExtraKubeletArgs ← copy_args (gspec_ExtraKubeletArgs x);
  ExtraContainerdArgs ← copy_args (gspec_ExtraContainerdArgs x);
  ExtraK8sAPIServerProxyArgs ← copy_args (gspec_ExtraK8sAPIServerProxyArgs x);
  mret (mkGoCK8sConfigSpec (gspec_Version x) Files BootstrapConfig BootCommands PreRunCommands
    AdditionalUserData PostRunCommands (gspec_AirGapped x) (gspec_SnapstoreProxyScheme x)
    (gspec_SnapstoreProxyDomain x) (gspec_SnapstoreProxyID x) (gspec_HTTPSProxy x)
    (gspec_HTTPProxy x) (gspec_NoProxy x) (gspec_Channel x) (gspec_Revision x) (gspec_LocalPath x)
    ControlPlaneConfig InitConfig (gspec_NodeName x) ExtraKubeProxyArgs ExtraKubeletArgs
    ExtraContainerdArgs ExtraK8sAPIServerProxyArgs).

#[export] Program Instance struct_CK8sConfigSpec : Struct GoCK8sConfigSpec (slice TFile ×
    ptr TBootstrapConfig × slice TString × slice TString × gomap TString × slice TString ×
    GoCK8sControlPlaneConfig × GoCK8sInitConfiguration × gomap TStringPtr ×
    gomap TStringPtr × gomap TStringPtr × gomap TStringPtr × ()) := {|
  refs x := ⟨gspec_Files x, gspec_BootstrapConfig x, gspec_BootCommands x,
    gspec_PreRunCommands x, gspec_AdditionalUserData x, gspec_PostRunCommands x,
    gspec_ControlPlaneConfig x, gspec_InitConfig x, gspec_ExtraKubeProxyArgs x,
    gspec_ExtraKubeletArgs x, gspec_ExtraContainerdArgs x, gspec_ExtraK8sAPIServerProxyArgs x⟩;
  build x '⟨Files, BootstrapConfig, BootCommands, PreRunCommands, AdditionalUserData,
    PostRunCommands, ControlPlaneConfig, InitConfig, ExtraKubeProxyArgs, ExtraKubeletArgs,
    ExtraContainerdArgs, ExtraK8sAPIServerProxyArgs⟩ :=
    mkGoCK8sConfigSpec (gspec_Version x) Files BootstrapConfig BootCommands PreRunCommands
      AdditionalUserData PostRunCommands (gspec_AirGapped x) (gspec_SnapstoreProxyScheme x)
      (gspec_SnapstoreProxyDomain x) (gspec_SnapstoreProxyID x) (gspec_HTTPSProxy x)
      (gspec_HTTPProxy x) (gspec_NoProxy x) (gspec_Channel x) (gspec_Revision x)
      (gspec_LocalPath x) ControlPlaneConfig InitConfig (gspec_NodeName x) ExtraKubeProxyArgs
      ExtraKubeletArgs ExtraContainerdArgs ExtraK8sAPIServerProxyArgs;
|}.
Solve Obligations with struct_solver.
#[export] Instance deep_CK8sConfigSpec : Deep GoCK8sConfigSpec := deep_struct.
#[export] Instance deep_CK8sConfigSpec_laws : DeepLaws GoCK8sConfigSpec := deep_struct_laws.
#[export] Instance deep_content_CK8sConfigSpec : Deep (content TCK8sConfigSpec) := deep_CK8sConfigSpec.
#[export] Instance deep_content_CK8sConfigSpec_laws : DeepLaws (content TCK8sConfigSpec) := deep_CK8sConfigSpec_laws.
Lemma CK8sConfigSpec_copies : copies CK8sConfigSpec_DeepCopyInto.
Proof. copy_fields CK8sConfigSpec_DeepCopyInto. Qed.
Definition CK8sConfigSpec_DeepCopy : ptr TCK8sConfigSpec → hprog (ptr TCK8sConfigSpec) := deep_copy (t := TCK8sConfigSpec) CK8sConfigSpec_DeepCopyInto.
#[local] Hint Resolve CK8sConfigSpec_copies : deep_copy.

Definition CK8sConfigStatus_DeepCopyInto (x : GoCK8sConfigStatus) : hprog GoCK8sConfigStatus :=
  BootstrapData ← copy_slice (gcs_BootstrapData x);
  DataSecretName ← copy_ptr (gcs_DataSecretName x);
  Conditions ← copy_slice_into (t := TCondition) Condition_DeepCopyInto (gcs_Conditions x);
  mret (mkGoCK8sConfigStatus (gcs_Ready x) BootstrapData DataSecretName (gcs_FailureReason x)
    (gcs_FailureMessage x) (gcs_ObservedGeneration x) Conditions).

#[export] Program Instance struct_CK8sConfigStatus : Struct GoCK8sConfigStatus (
    slice TByte × ptr TString × slice TCondition × ()) := {|
  refs x := ⟨gcs_BootstrapData x, gcs_DataSecretName x, gcs_Conditions x⟩;
  build x '⟨BootstrapData, DataSecretName, Conditions⟩ :=
    mkGoCK8sConfigStatus (gcs_Ready x) BootstrapData DataSecretName (gcs_FailureReason x)
      (gcs_FailureMessage x) (gcs_ObservedGeneration x) Conditions;
|}.
Solve Obligations with struct_solver.
#[export] Instance deep_CK8sConfigStatus : Deep GoCK8sConfigStatus := deep_struct.
#[export] Instance deep_CK8sConfigStatus_laws : DeepLaws GoCK8sConfigStatus := deep_struct_laws.
#[export] Instance deep_content_CK8sConfigStatus : Deep (content TCK8sConfigStatus) := deep_CK8sConfigStatus.
#[export] Instance deep_content_CK8sConfigStatus_laws : DeepLaws (content TCK8sConfigStatus) := deep_CK8sConfigStatus_laws.
Lemma CK8sConfigStatus_copies : copies CK8sConfigStatus_DeepCopyInto.
Proof. copy_fields CK8sConfigStatus_DeepCopyInto. Qed.
Definition CK8sConfigStatus_DeepCopy : ptr TCK8sConfigStatus → hprog (ptr TCK8sConfigStatus) := deep_copy (t := TCK8sConfigStatus) CK8sConfigStatus_DeepCopyInto.
#[local] Hint Resolve CK8sConfigStatus_copies : deep_copy.

Definition CK8sConfig_DeepCopyInto (x : GoCK8sConfig) : hprog GoCK8sConfig :=
  ObjectMeta ← ObjectMeta_DeepCopyInto (gcfg_ObjectMeta x);
  Spec ← CK8sConfigSpec_DeepCopyInto (gcfg_Spec x);
  Status ← CK8sConfigStatus_DeepCopyInto (gcfg_Status x);
  mret (mkGoCK8sConfig (gcfg_TypeMeta x) ObjectMeta Spec Status).

#[export] Program Instance struct_CK8sConfig : Struct GoCK8sConfig (GoObjectMeta ×
    GoCK8sConfigSpec × GoCK8sConfigStatus × ()) := {|
  refs x := ⟨gcfg_ObjectMeta x, gcfg_Spec x, gcfg_Status x⟩;
  build x '⟨ObjectMeta, Spec, Status⟩ :=
    mkGoCK8sConfig (gcfg_TypeMeta x) ObjectMeta Spec Status;
|}.
Solve Obligations with struct_solver.
#[export] Instance deep_CK8sConfig : Deep GoCK8sConfig := deep_struct.
#[export] Instance deep_CK8sConfig_laws : DeepLaws GoCK8sConfig := deep_struct_laws.
#[export] Instance deep_content_CK8sConfig : Deep (content TCK8sConfig) := deep_CK8sConfig.
#[export] Instance deep_content_CK8sConfig_laws : DeepLaws (content TCK8sConfig) := deep_CK8sConfig_laws.
Lemma CK8sConfig_copies : copies CK8sConfig_DeepCopyInto.
Proof. copy_fields CK8sConfig_DeepCopyInto. Qed.
Definition CK8sConfig_DeepCopy : ptr TCK8sConfig → hprog (ptr TCK8sConfig) := deep_copy (t := TCK8sConfig) CK8sConfig_DeepCopyInto.
#[local] Hint Resolve CK8sConfig_copies : deep_copy.
Definition CK8sConfig_DeepCopyObject : ptr TCK8sConfig → hprog Object := deep_copy_object CK8sConfig_DeepCopy.

Definition CK8sConfigList_DeepCopyInto (x : GoCK8sConfigList) : hprog GoCK8sConfigList :=
  ListMeta ← ListMeta_DeepCopyInto (gcfgl_ListMeta x);
  Items ← copy_slice_into (t := TCK8sConfig) CK8sConfig_DeepCopyInto (gcfgl_Items x);
  mret (mkGoCK8sConfigList (gcfgl_TypeMeta x) ListMeta Items).

#[export] Program Instance struct_CK8sConfigList : Struct GoCK8sConfigList (GoListMeta ×
    slice TCK8sConfig × ()) := {|
  refs x := ⟨gcfgl_ListMeta x, gcfgl_Items x⟩;
  build x '⟨ListMeta, Items⟩ :=
    mkGoCK8sConfigList (gcfgl_TypeMeta x) ListMeta Items;
|}.
Solve Obligations with struct_solver.
#[export] Instance deep_CK8sConfigList : Deep GoCK8sConfigList := deep_struct.
#[export] Instance deep_CK8sConfigList_laws : DeepLaws GoCK8sConfigList := deep_struct_laws.
#[export] Instance deep_content_CK8sConfigList : Deep (content TCK8sConfigList) := deep_CK8sConfigList.
#[export] Instance deep_content_CK8sConfigList_laws : DeepLaws (content TCK8sConfigList) := deep_CK8sConfigList_laws.
Lemma CK8sConfigList_copies : copies CK8sConfigList_DeepCopyInto.
Proof. copy_fields CK8sConfigList_DeepCopyInto. Qed.
Definition CK8sConfigList_DeepCopy : ptr TCK8sConfigList → hprog (ptr TCK8sConfigList) := deep_copy (t := TCK8sConfigList) CK8sConfigList_DeepCopyInto.
#[local] Hint Resolve CK8sConfigList_copies : deep_copy.
Definition CK8sConfigList_DeepCopyObject : ptr TCK8sConfigList → hprog Object := deep_copy_object CK8sConfigList_DeepCopy.

Definition CK8sConfigTemplateResource_DeepCopyInto (x : GoCK8sConfigTemplateResource) : hprog GoCK8sConfigTemplateResource :=
  Spec ← CK8sConfigSpec_DeepCopyInto (gcftr_Spec x);
  mret (mkGoCK8sConfigTemplateResource Spec).

#[export] Program Instance struct_CK8sConfigTemplateResource : Struct GoCK8sConfigTemplateResource (
    GoCK8sConfigSpec × ()) := {|
  refs x := ⟨gcftr_Spec x⟩;
  build x '⟨Spec⟩ :=
    mkGoCK8sConfigTemplateResource Spec;
|}.
Solve Obligations with struct_solver.
#[export] Instance deep_CK8sConfigTemplateResource : Deep GoCK8sConfigTemplateResource := deep_struct.
#[export] Instance deep_CK8sConfigTemplateResource_laws : DeepLaws GoCK8sConfigTemplateResource := deep_struct_laws.
#[export] Instance deep_content_CK8sConfigTemplateResource : Deep (content TCK8sConfigTemplateResource) := deep_CK8sConfigTemplateResource.
#[export] Instance deep_content_CK8sConfigTemplateResource_laws : DeepLaws (content TCK8sConfigTemplateResource) := deep_CK8sConfigTemplateResource_laws.
Lemma CK8sConfigTemplateResource_copies : copies CK8sConfigTemplateResource_DeepCopyInto.
Proof. copy_fields CK8sConfigTemplateResource_DeepCopyInto. Qed.
Definition CK8sConfigTemplateResource_DeepCopy : ptr TCK8sConfigTemplateResource → hprog (ptr TCK8sConfigTemplateResource) := deep_copy (t := TCK8sConfigTemplateResource) CK8sConfigTemplateResource_DeepCopyInto.
#[local] Hint Resolve CK8sConfigTemplateResource_copies : deep_copy.

Definition CK8sConfigTemplateSpec_DeepCopyInto (x : GoCK8sConfigTemplateSpec) : hprog GoCK8sConfigTemplateSpec :=
  Template ← CK8sConfigTemplateResource_DeepCopyInto (gcfts_Template x);
  mret (mkGoCK8sConfigTemplateSpec Template).

#[export] Program Instance struct_CK8sConfigTemplateSpec : Struct GoCK8sConfigTemplateSpec (
    GoCK8sConfigTemplateResource × ()) := {|
  refs x := ⟨gcfts_Template x⟩;
  build x '⟨Template⟩ :=
    mkGoCK8sConfigTemplateSpec Template;
|}.
Solve Obligations with struct_solver.
#[export] Instance deep_CK8sConfigTemplateSpec : Deep GoCK8sConfigTemplateSpec := deep_struct.
#[export] Instance deep_CK8sConfigTemplateSpec_laws : DeepLaws GoCK8sConfigTemplateSpec := deep_struct_laws.
#[export] Instance deep_content_CK8sConfigTemplateSpec : Deep (content TCK8sConfigTemplateSpec) := deep_CK8sConfigTemplateSpec.
#[export] Instance deep_content_CK8sConfigTemplateSpec_laws : DeepLaws (content TCK8sConfigTemplateSpec) := deep_CK8sConfigTemplateSpec_laws.
Lemma CK8sConfigTemplateSpec_copies : copies CK8sConfigTemplateSpec_DeepCopyInto.
Proof. copy_fields CK8sConfigTemplateSpec_DeepCopyInto. Qed.
Definition CK8sConfigTemplateSpec_DeepCopy : ptr TCK8sConfigTemplateSpec → hprog (ptr TCK8sConfigTemplateSpec) := deep_copy (t := TCK8sConfigTemplateSpec) CK8sConfigTemplateSpec_DeepCopyInto.
#[local] Hint Resolve CK8sConfigTemplateSpec_copies : deep_copy.

Definition CK8sConfigTemplate_DeepCopyInto (x : GoCK8sConfigTemplate) : hprog GoCK8sConfigTemplate :=
  ObjectMeta ← ObjectMeta_DeepCopyInto (gcft_ObjectMeta x);
  Spec ← CK8sConfigTemplateSpec_DeepCopyInto (gcft_Spec x);
  mret (mkGoCK8sConfigTemplate (gcft_TypeMeta x) ObjectMeta Spec).

#[export] Program Instance struct_CK8sConfigTemplate : Struct GoCK8sConfigTemplate (
    GoObjectMeta × GoCK8sConfigTemplateSpec × ()) := {|
  refs x := ⟨gcft_ObjectMeta x, gcft_Spec x⟩;
  build x '⟨ObjectMeta, Spec⟩ :=
    mkGoCK8sConfigTemplate (gcft_TypeMeta x) ObjectMeta Spec;
|}.
Solve Obligations with struct_solver.
#[export] Instance deep_CK8sConfigTemplate : Deep GoCK8sConfigTemplate := deep_struct.
#[export] Instance deep_CK8sConfigTemplate_laws : DeepLaws GoCK8sConfigTemplate := deep_struct_laws.
#[export] Instance deep_content_CK8sConfigTemplate : Deep (content TCK8sConfigTemplate) := deep_CK8sConfigTemplate.
#[export] Instance deep_content_CK8sConfigTemplate_laws : DeepLaws (content TCK8sConfigTemplate) := deep_CK8sConfigTemplate_laws.
Lemma CK8sConfigTemplate_copies : copies CK8sConfigTemplate_DeepCopyInto.
Proof. copy_fields CK8sConfigTemplate_DeepCopyInto. Qed.
Definition CK8sConfigTemplate_DeepCopy : ptr TCK8sConfigTemplate → hprog (ptr TCK8sConfigTemplate) := deep_copy (t := TCK8sConfigTemplate) CK8sConfigTemplate_DeepCopyInto.
#[local] Hint Resolve CK8sConfigTemplate_copies : deep_copy.
Definition CK8sConfigTemplate_DeepCopyObject : ptr TCK8sConfigTemplate → hprog Object := deep_copy_object CK8sConfigTemplate_DeepCopy.

Definition CK8sConfigTemplateList_DeepCopyInto (x : GoCK8sConfigTemplateList) : hprog GoCK8sConfigTemplateList :=
  ListMeta ← ListMeta_DeepCopyInto (gcftl_ListMeta x);
  Items ← copy_slice_into (t := TCK8sConfigTemplate) CK8sConfigTemplate_DeepCopyInto (gcftl_Items x);
  mret (mkGoCK8sConfigTemplateList (gcftl_TypeMeta x) ListMeta Items).

#[export] Program Instance struct_CK8sConfigTemplateList : Struct GoCK8sConfigTemplateList (
    GoListMeta × slice TCK8sConfigTemplate × ()) := {|
  refs x := ⟨gcftl_ListMeta x, gcftl_Items x⟩;
  build x '⟨ListMeta, Items⟩ :=
    mkGoCK8sConfigTemplateList (gcftl_TypeMeta x) ListMeta Items;
|}.
Solve Obligations with struct_solver.
#[export] Instance deep_CK8sConfigTemplateList : Deep GoCK8sConfigTemplateList := deep_struct.
#[export] Instance deep_CK8sConfigTemplateList_laws : DeepLaws GoCK8sConfigTemplateList := deep_struct_laws.
#[export] Instance deep_content_CK8sConfigTemplateList : Deep (content TCK8sConfigTemplateList) := deep_CK8sConfigTemplateList.
#[export] Instance deep_content_CK8sConfigTemplateList_laws : DeepLaws (content TCK8sConfigTemplateList) := deep_CK8sConfigTemplateList_laws.
Lemma CK8sConfigTemplateList_copies : copies CK8sConfigTemplateList_DeepCopyInto.
Proof. copy_fields CK8sConfigTemplateList_DeepCopyInto. Qed.
Definition CK8sConfigTemplateList_DeepCopy : ptr TCK8sConfigTemplateList → hprog (ptr TCK8sConfigTemplateList) := deep_copy (t := TCK8sConfigTemplateList) CK8sConfigTemplateList_DeepCopyInto.
#[local] Hint Resolve CK8sConfigTemplateList_copies : deep_copy.
Definition CK8sConfigTemplateList_DeepCopyObject : ptr TCK8sConfigTemplateList → hprog Object := deep_copy_object CK8sConfigTemplateList_DeepCopy.

End Copies.
#[export] Hint Resolve File_copies BootstrapConfig_copies CK8sControlPlaneConfig_copies
  CK8sInitConfiguration_copies CK8sConfigSpec_copies CK8sConfigStatus_copies
  CK8sConfig_copies CK8sConfigList_copies CK8sConfigTemplateResource_copies
  CK8sConfigTemplateSpec_copies CK8sConfigTemplate_copies CK8sConfigTemplateList_copies : deep_copy.
