(* ===== verification/ControlPlaneCopy.v ===== *)
(** src/controlplane/api/v1beta2/zz_generated.deepcopy.go: the deep copies of the control
    plane API, and what all deep copies guarantee. *)

From S2P Require Import Prelude Objects ApiTypes GoHeap GoCopy ApiLayout BootstrapCopy.

Section Copies.
Context `{!ExtTypes, !RangeOrder, !ExtCopies, !ExtCopiesLaws}.

Definition CK8sControlPlaneMachineTemplate_DeepCopyInto (x : GoCK8sControlPlaneMachineTemplate) : hprog GoCK8sControlPlaneMachineTemplate :=
  ObjectMeta ← ClusterObjectMeta_DeepCopyInto (gmt_ObjectMeta x);
  NodeDrainTimeout ← copy_ptr (gmt_NodeDrainTimeout x);
  NodeVolumeDetachTimeout ← copy_ptr (gmt_NodeVolumeDetachTimeout x);
  NodeDeletionTimeout ← copy_ptr (gmt_NodeDeletionTimeout x);
  mret (mkGoCK8sControlPlaneMachineTemplate ObjectMeta (gmt_InfrastructureRef x) NodeDrainTimeout
    NodeVolumeDetachTimeout NodeDeletionTimeout).

#[export] Program Instance struct_CK8sControlPlaneMachineTemplate : Struct GoCK8sControlPlaneMachineTemplate (
    GoClusterObjectMeta × ptr TDuration × ptr TDuration × ptr TDuration × ()) := {|
  refs x := ⟨gmt_ObjectMeta x, gmt_NodeDrainTimeout x, gmt_NodeVolumeDetachTimeout x,
    gmt_NodeDeletionTimeout x⟩;
  build x '⟨ObjectMeta, NodeDrainTimeout, NodeVolumeDetachTimeout, NodeDeletionTimeout⟩ :=
    mkGoCK8sControlPlaneMachineTemplate ObjectMeta (gmt_InfrastructureRef x) NodeDrainTimeout
      NodeVolumeDetachTimeout NodeDeletionTimeout;
|}.
Solve Obligations with struct_solver.
#[export] Instance deep_CK8sControlPlaneMachineTemplate : Deep GoCK8sControlPlaneMachineTemplate := deep_struct.
#[export] Instance deep_CK8sControlPlaneMachineTemplate_laws : DeepLaws GoCK8sControlPlaneMachineTemplate := deep_struct_laws.
#[export] Instance deep_content_CK8sControlPlaneMachineTemplate : Deep (content TCK8sControlPlaneMachineTemplate) := deep_CK8sControlPlaneMachineTemplate.
#[export] Instance deep_content_CK8sControlPlaneMachineTemplate_laws : DeepLaws (content TCK8sControlPlaneMachineTemplate) := deep_CK8sControlPlaneMachineTemplate_laws.
Lemma CK8sControlPlaneMachineTemplate_copies : copies CK8sControlPlaneMachineTemplate_DeepCopyInto.
Proof. copy_fields CK8sControlPlaneMachineTemplate_DeepCopyInto. Qed.
Definition CK8sControlPlaneMachineTemplate_DeepCopy : ptr TCK8sControlPlaneMachineTemplate → hprog (ptr TCK8sControlPlaneMachineTemplate) := deep_copy (t := TCK8sControlPlaneMachineTemplate) CK8sControlPlaneMachineTemplate_DeepCopyInto.
#[local] Hint Resolve CK8sControlPlaneMachineTemplate_copies : deep_copy.

Definition RollingUpdate_DeepCopyInto (x : GoRollingUpdate) : hprog GoRollingUpdate :=
  MaxSurge ← copy_ptr (gru_MaxSurge x);
  mret (mkGoRollingUpdate MaxSurge).

#[export] Program Instance struct_RollingUpdate : Struct GoRollingUpdate (ptr TIntOrString ×
    ()) := {|
  refs x := ⟨gru_MaxSurge x⟩;
  build x '⟨MaxSurge⟩ :=
    mkGoRollingUpdate MaxSurge;
|}.
Solve Obligations with struct_solver.
#[export] Instance deep_RollingUpdate : Deep GoRollingUpdate := deep_struct.
#[export] Instance deep_RollingUpdate_laws : DeepLaws GoRollingUpdate := deep_struct_laws.
#[export] Instance deep_content_RollingUpdate : Deep (content TRollingUpdate) := deep_RollingUpdate.
#[export] Instance deep_content_RollingUpdate_laws : DeepLaws (content TRollingUpdate) := deep_RollingUpdate_laws.
Lemma RollingUpdate_copies : copies RollingUpdate_DeepCopyInto.
Proof. copy_fields RollingUpdate_DeepCopyInto. Qed.
Definition RollingUpdate_DeepCopy : ptr TRollingUpdate → hprog (ptr TRollingUpdate) := deep_copy (t := TRollingUpdate) RollingUpdate_DeepCopyInto.
#[local] Hint Resolve RollingUpdate_copies : deep_copy.

Definition RolloutStrategy_DeepCopyInto (x : GoRolloutStrategy) : hprog GoRolloutStrategy :=
  RollingUpdate ← copy_ptr_into (t := TRollingUpdate) RollingUpdate_DeepCopyInto (grs_RollingUpdate x);
  mret (mkGoRolloutStrategy RollingUpdate).

#[export] Program Instance struct_RolloutStrategy : Struct GoRolloutStrategy (
    ptr TRollingUpdate × ()) := {|
  refs x := ⟨grs_RollingUpdate x⟩;
  build x '⟨RollingUpdate⟩ :=
    mkGoRolloutStrategy RollingUpdate;
|}.
Solve Obligations with struct_solver.
#[export] Instance deep_RolloutStrategy : Deep GoRolloutStrategy := deep_struct.
#[export] Instance deep_RolloutStrategy_laws : DeepLaws GoRolloutStrategy := deep_struct_laws.
#[export] Instance deep_content_RolloutStrategy : Deep (content TRolloutStrategy) := deep_RolloutStrategy.
#[export] Instance deep_content_RolloutStrategy_laws : DeepLaws (content TRolloutStrategy) := deep_RolloutStrategy_laws.
Lemma RolloutStrategy_copies : copies RolloutStrategy_DeepCopyInto.
Proof. copy_fields RolloutStrategy_DeepCopyInto. Qed.
Definition RolloutStrategy_DeepCopy : ptr TRolloutStrategy → hprog (ptr TRolloutStrategy) := deep_copy (t := TRolloutStrategy) RolloutStrategy_DeepCopyInto.
#[local] Hint Resolve RolloutStrategy_copies : deep_copy.

Definition RemediationStrategy_DeepCopyInto (x : GoRemediationStrategy) : hprog GoRemediationStrategy :=
  MaxRetry ← copy_ptr (grem_MaxRetry x);
  MinHealthyPeriod ← copy_ptr (grem_MinHealthyPeriod x);
  mret (mkGoRemediationStrategy MaxRetry (grem_RetryPeriod x) MinHealthyPeriod).

#[export] Program Instance struct_RemediationStrategy : Struct GoRemediationStrategy (
    ptr TInt32 × ptr TDuration × ()) := {|
  refs x := ⟨grem_MaxRetry x, grem_MinHealthyPeriod x⟩;
  build x '⟨MaxRetry, MinHealthyPeriod⟩ :=
    mkGoRemediationStrategy MaxRetry (grem_RetryPeriod x) MinHealthyPeriod;
|}.
Solve Obligations with struct_solver.
#[export] Instance deep_RemediationStrategy : Deep GoRemediationStrategy := deep_struct.
#[export] Instance deep_RemediationStrategy_laws : DeepLaws GoRemediationStrategy := deep_struct_laws.
#[export] Instance deep_content_RemediationStrategy : Deep (content TRemediationStrategy) := deep_RemediationStrategy.
#[export] Instance deep_content_RemediationStrategy_laws : DeepLaws (content TRemediationStrategy) := deep_RemediationStrategy_laws.
Lemma RemediationStrategy_copies : copies RemediationStrategy_DeepCopyInto.
Proof. copy_fields RemediationStrategy_DeepCopyInto. Qed.
Definition RemediationStrategy_DeepCopy : ptr TRemediationStrategy → hprog (ptr TRemediationStrategy) := deep_copy (t := TRemediationStrategy) RemediationStrategy_DeepCopyInto.
#[local] Hint Resolve RemediationStrategy_copies : deep_copy.

Definition LastRemediationStatus_DeepCopyInto (x : GoLastRemediationStatus) : hprog GoLastRemediationStatus :=
  Timestamp ← Time_DeepCopyInto (glrs_Timestamp x);
  mret (mkGoLastRemediationStatus (glrs_Machine x) Timestamp (glrs_RetryCount x)).

#[export] Program Instance struct_LastRemediationStatus : Struct GoLastRemediationStatus (
    GoTime × ()) := {|
  refs x := ⟨glrs_Timestamp x⟩;
  build x '⟨Timestamp⟩ :=
    mkGoLastRemediationStatus (glrs_Machine x) Timestamp (glrs_RetryCount x);
|}.
Solve Obligations with struct_solver.
#[export] Instance deep_LastRemediationStatus : Deep GoLastRemediationStatus := deep_struct.
#[export] Instance deep_LastRemediationStatus_laws : DeepLaws GoLastRemediationStatus := deep_struct_laws.
#[export] Instance deep_content_LastRemediationStatus : Deep (content TLastRemediationStatus) := deep_LastRemediationStatus.
#[export] Instance deep_content_LastRemediationStatus_laws : DeepLaws (content TLastRemediationStatus) := deep_LastRemediationStatus_laws.
Lemma LastRemediationStatus_copies : copies LastRemediationStatus_DeepCopyInto.
Proof. copy_fields LastRemediationStatus_DeepCopyInto. Qed.
Definition LastRemediationStatus_DeepCopy : ptr TLastRemediationStatus → hprog (ptr TLastRemediationStatus) := deep_copy (t := TLastRemediationStatus) LastRemediationStatus_DeepCopyInto.
#[local] Hint Resolve LastRemediationStatus_copies : deep_copy.

Definition CK8sControlPlaneSpec_DeepCopyInto (x : GoCK8sControlPlaneSpec) : hprog GoCK8sControlPlaneSpec :=
  Replicas ← copy_ptr (gkcps_Replicas x);
  CK8sConfigSpec ← CK8sConfigSpec_DeepCopyInto (gkcps_CK8sConfigSpec x);
  RolloutAfter ← Time_DeepCopy (gkcps_RolloutAfter x);
  MachineTemplate ← CK8sControlPlaneMachineTemplate_DeepCopyInto (gkcps_MachineTemplate x);
  RemediationStrategy ← copy_ptr_into (t := TRemediationStrategy) RemediationStrategy_DeepCopyInto (gkcps_RemediationStrategy x);
  RolloutStrategy ← copy_ptr_into (t := TRolloutStrategy) RolloutStrategy_DeepCopyInto (gkcps_RolloutStrategy x);
  mret (mkGoCK8sControlPlaneSpec Replicas (gkcps_Version x) CK8sConfigSpec RolloutAfter
    MachineTemplate RemediationStrategy RolloutStrategy).

#[export] Program Instance struct_CK8sControlPlaneSpec : Struct GoCK8sControlPlaneSpec (
    ptr TInt32 × GoCK8sConfigSpec × ptr TTime × GoCK8sControlPlaneMachineTemplate ×
    ptr TRemediationStrategy × ptr TRolloutStrategy × ()) := {|
  refs x := ⟨gkcps_Replicas x, gkcps_CK8sConfigSpec x, gkcps_RolloutAfter x,
    gkcps_MachineTemplate x, gkcps_RemediationStrategy x, gkcps_RolloutStrategy x⟩;
  build x '⟨Replicas, CK8sConfigSpec, RolloutAfter, MachineTemplate, RemediationStrategy,
    RolloutStrategy⟩ :=
    mkGoCK8sControlPlaneSpec Replicas (gkcps_Version x) CK8sConfigSpec RolloutAfter
      MachineTemplate RemediationStrategy RolloutStrategy;
|}.
Solve Obligations with struct_solver.
#[export] Instance deep_CK8sControlPlaneSpec : Deep GoCK8sControlPlaneSpec := deep_struct.
#[export] Instance deep_CK8sControlPlaneSpec_laws : DeepLaws GoCK8sControlPlaneSpec := deep_struct_laws.
#[export] Instance deep_content_CK8sControlPlaneSpec : Deep (content TCK8sControlPlaneSpec) := deep_CK8sControlPlaneSpec.
#[export] Instance deep_content_CK8sControlPlaneSpec_laws : DeepLaws (content TCK8sControlPlaneSpec) := deep_CK8sControlPlaneSpec_laws.
Lemma CK8sControlPlaneSpec_copies : copies CK8sControlPlaneSpec_DeepCopyInto.
Proof. copy_fields CK8sControlPlaneSpec_DeepCopyInto. Qed.
Definition CK8sControlPlaneSpec_DeepCopy : ptr TCK8sControlPlaneSpec → hprog (ptr TCK8sControlPlaneSpec) := deep_copy (t := TCK8sControlPlaneSpec) CK8sControlPlaneSpec_DeepCopyInto.
#[local] Hint Resolve CK8sControlPlaneSpec_copies : deep_copy.

Definition CK8sControlPlaneStatus_DeepCopyInto (x : GoCK8sControlPlaneStatus) : hprog GoCK8sControlPlaneStatus :=
  Version ← copy_ptr (gst_Version x);
  FailureMessage ← copy_ptr (gst_FailureMessage x);
  Conditions ← copy_slice_into (t := TCondition) Condition_DeepCopyInto (gst_Conditions x);
  LastRemediation ← copy_ptr_into (t := TLastRemediationStatus) LastRemediationStatus_DeepCopyInto (gst_LastRemediation x);
  mret (mkGoCK8sControlPlaneStatus (gst_Selector x) (gst_Replicas x) Version
    (gst_UpdatedReplicas x) (gst_ReadyReplicas x) (gst_UnavailableReplicas x) (gst_Initialized x)
    (gst_Ready x) (gst_FailureReason x) FailureMessage (gst_ObservedGeneration x) Conditions
    LastRemediation).

#[export] Program Instance struct_CK8sControlPlaneStatus : Struct GoCK8sControlPlaneStatus (
    ptr TString × ptr TString × slice TCondition × ptr TLastRemediationStatus × ()) := {|
  refs x := ⟨gst_Version x, gst_FailureMessage x, gst_Conditions x, gst_LastRemediation x⟩;
  build x '⟨Version, FailureMessage, Conditions, LastRemediation⟩ :=
    mkGoCK8sControlPlaneStatus (gst_Selector x) (gst_Replicas x) Version (gst_UpdatedReplicas x)
      (gst_ReadyReplicas x) (gst_UnavailableReplicas x) (gst_Initialized x) (gst_Ready x)
      (gst_FailureReason x) FailureMessage (gst_ObservedGeneration x) Conditions LastRemediation;
|}.
Solve Obligations with struct_solver.
#[export] Instance deep_CK8sControlPlaneStatus : Deep GoCK8sControlPlaneStatus := deep_struct.
#[export] Instance deep_CK8sControlPlaneStatus_laws : DeepLaws GoCK8sControlPlaneStatus := deep_struct_laws.
#[export] Instance deep_content_CK8sControlPlaneStatus : Deep (content TCK8sControlPlaneStatus) := deep_CK8sControlPlaneStatus.
#[export] Instance deep_content_CK8sControlPlaneStatus_laws : DeepLaws (content TCK8sControlPlaneStatus) := deep_CK8sControlPlaneStatus_laws.
Lemma CK8sControlPlaneStatus_copies : copies CK8sControlPlaneStatus_DeepCopyInto.
Proof. copy_fields CK8sControlPlaneStatus_DeepCopyInto. Qed.
Definition CK8sControlPlaneStatus_DeepCopy : ptr TCK8sControlPlaneStatus → hprog (ptr TCK8sControlPlaneStatus) := deep_copy (t := TCK8sControlPlaneStatus) CK8sControlPlaneStatus_DeepCopyInto.
#[local] Hint Resolve CK8sControlPlaneStatus_copies : deep_copy.

Definition CK8sControlPlane_DeepCopyInto (x : GoCK8sControlPlane) : hprog GoCK8sControlPlane :=
  ObjectMeta ← ObjectMeta_DeepCopyInto (gkcp_ObjectMeta x);
  Spec ← CK8sControlPlaneSpec_DeepCopyInto (gkcp_Spec x);
  Status ← CK8sControlPlaneStatus_DeepCopyInto (gkcp_Status x);
  mret (mkGoCK8sControlPlane (gkcp_TypeMeta x) ObjectMeta Spec Status).

#[export] Program Instance struct_CK8sControlPlane : Struct GoCK8sControlPlane (
    GoObjectMeta × GoCK8sControlPlaneSpec × GoCK8sControlPlaneStatus × ()) := {|
  refs x := ⟨gkcp_ObjectMeta x, gkcp_Spec x, gkcp_Status x⟩;
  build x '⟨ObjectMeta, Spec, Status⟩ :=
    mkGoCK8sControlPlane (gkcp_TypeMeta x) ObjectMeta Spec Status;
|}.
Solve Obligations with struct_solver.
#[export] Instance deep_CK8sControlPlane : Deep GoCK8sControlPlane := deep_struct.
#[export] Instance deep_CK8sControlPlane_laws : DeepLaws GoCK8sControlPlane := deep_struct_laws.
#[export] Instance deep_content_CK8sControlPlane : Deep (content TCK8sControlPlane) := deep_CK8sControlPlane.
#[export] Instance deep_content_CK8sControlPlane_laws : DeepLaws (content TCK8sControlPlane) := deep_CK8sControlPlane_laws.
Lemma CK8sControlPlane_copies : copies CK8sControlPlane_DeepCopyInto.
Proof. copy_fields CK8sControlPlane_DeepCopyInto. Qed.
Definition CK8sControlPlane_DeepCopy : ptr TCK8sControlPlane → hprog (ptr TCK8sControlPlane) := deep_copy (t := TCK8sControlPlane) CK8sControlPlane_DeepCopyInto.
#[local] Hint Resolve CK8sControlPlane_copies : deep_copy.
Definition CK8sControlPlane_DeepCopyObject : ptr TCK8sControlPlane → hprog Object := deep_copy_object CK8sControlPlane_DeepCopy.

Definition CK8sControlPlaneList_DeepCopyInto (x : GoCK8sControlPlaneList) : hprog GoCK8sControlPlaneList :=
  ListMeta ← ListMeta_DeepCopyInto (gkcpl_ListMeta x);
  Items ← copy_slice_into (t := TCK8sControlPlane) CK8sControlPlane_DeepCopyInto (gkcpl_Items x);
  mret (mkGoCK8sControlPlaneList (gkcpl_TypeMeta x) ListMeta Items).

#[export] Program Instance struct_CK8sControlPlaneList : Struct GoCK8sControlPlaneList (
    GoListMeta × slice TCK8sControlPlane × ()) := {|
  refs x := ⟨gkcpl_ListMeta x, gkcpl_Items x⟩;
  build x '⟨ListMeta, Items⟩ :=
    mkGoCK8sControlPlaneList (gkcpl_TypeMeta x) ListMeta Items;
|}.
Solve Obligations with struct_solver.
#[export] Instance deep_CK8sControlPlaneList : Deep GoCK8sControlPlaneList := deep_struct.
#[export] Instance deep_CK8sControlPlaneList_laws : DeepLaws GoCK8sControlPlaneList := deep_struct_laws.
#[export] Instance deep_content_CK8sControlPlaneList : Deep (content TCK8sControlPlaneList) := deep_CK8sControlPlaneList.
#[export] Instance deep_content_CK8sControlPlaneList_laws : DeepLaws (content TCK8sControlPlaneList) := deep_CK8sControlPlaneList_laws.
Lemma CK8sControlPlaneList_copies : copies CK8sControlPlaneList_DeepCopyInto.
Proof. copy_fields CK8sControlPlaneList_DeepCopyInto. Qed.
Definition CK8sControlPlaneList_DeepCopy : ptr TCK8sControlPlaneList → hprog (ptr TCK8sControlPlaneList) := deep_copy (t := TCK8sControlPlaneList) CK8sControlPlaneList_DeepCopyInto.
#[local] Hint Resolve CK8sControlPlaneList_copies : deep_copy.
Definition CK8sControlPlaneList_DeepCopyObject : ptr TCK8sControlPlaneList → hprog Object := deep_copy_object CK8sControlPlaneList_DeepCopy.

Definition CK8sControlPlaneTemplateResourceSpec_DeepCopyInto (x : GoCK8sControlPlaneTemplateResourceSpec) : hprog GoCK8sControlPlaneTemplateResourceSpec :=
  CK8sConfigSpec ← CK8sConfigSpec_DeepCopyInto (gctrs_CK8sConfigSpec x);
  RolloutAfter ← Time_DeepCopy (gctrs_RolloutAfter x);
  MachineTemplate ← CK8sControlPlaneMachineTemplate_DeepCopyInto (gctrs_MachineTemplate x);
  RemediationStrategy ← copy_ptr_into (t := TRemediationStrategy) RemediationStrategy_DeepCopyInto (gctrs_RemediationStrategy x);
  RolloutStrategy ← copy_ptr_into (t := TRolloutStrategy) RolloutStrategy_DeepCopyInto (gctrs_RolloutStrategy x);
  mret (mkGoCK8sControlPlaneTemplateResourceSpec CK8sConfigSpec RolloutAfter MachineTemplate
    RemediationStrategy RolloutStrategy).

#[export] Program Instance struct_CK8sControlPlaneTemplateResourceSpec : Struct GoCK8sControlPlaneTemplateResourceSpec (
    GoCK8sConfigSpec × ptr TTime × GoCK8sControlPlaneMachineTemplate ×
    ptr TRemediationStrategy × ptr TRolloutStrategy × ()) := {|
  refs x := ⟨gctrs_CK8sConfigSpec x, gctrs_RolloutAfter x, gctrs_MachineTemplate x,
    gctrs_RemediationStrategy x, gctrs_RolloutStrategy x⟩;
  build x '⟨CK8sConfigSpec, RolloutAfter, MachineTemplate, RemediationStrategy,
    RolloutStrategy⟩ :=
    mkGoCK8sControlPlaneTemplateResourceSpec CK8sConfigSpec RolloutAfter MachineTemplate
      RemediationStrategy RolloutStrategy;
|}.
Solve Obligations with struct_solver.
#[export] Instance deep_CK8sControlPlaneTemplateResourceSpec : Deep GoCK8sControlPlaneTemplateResourceSpec := deep_struct.
#[export] Instance deep_CK8sControlPlaneTemplateResourceSpec_laws : DeepLaws GoCK8sControlPlaneTemplateResourceSpec := deep_struct_laws.
#[export] Instance deep_content_CK8sControlPlaneTemplateResourceSpec : Deep (content TCK8sControlPlaneTemplateResourceSpec) := deep_CK8sControlPlaneTemplateResourceSpec.
#[export] Instance deep_content_CK8sControlPlaneTemplateResourceSpec_laws : DeepLaws (content TCK8sControlPlaneTemplateResourceSpec) := deep_CK8sControlPlaneTemplateResourceSpec_laws.
Lemma CK8sControlPlaneTemplateResourceSpec_copies : copies CK8sControlPlaneTemplateResourceSpec_DeepCopyInto.
Proof. copy_fields CK8sControlPlaneTemplateResourceSpec_DeepCopyInto. Qed.
Definition CK8sControlPlaneTemplateResourceSpec_DeepCopy : ptr TCK8sControlPlaneTemplateResourceSpec → hprog (ptr TCK8sControlPlaneTemplateResourceSpec) := deep_copy (t := TCK8sControlPlaneTemplateResourceSpec) CK8sControlPlaneTemplateResourceSpec_DeepCopyInto.
#[local] Hint Resolve CK8sControlPlaneTemplateResourceSpec_copies : deep_copy.

Definition CK8sControlPlaneTemplateResource_DeepCopyInto (x : GoCK8sControlPlaneTemplateResource) : hprog GoCK8sControlPlaneTemplateResource :=
  ObjectMeta ← ObjectMeta_DeepCopyInto (gctr_ObjectMeta x);
  Spec ← CK8sControlPlaneTemplateResourceSpec_DeepCopyInto (gctr_Spec x);
  mret (mkGoCK8sControlPlaneTemplateResource ObjectMeta Spec).

#[export] Program Instance struct_CK8sControlPlaneTemplateResource : Struct GoCK8sControlPlaneTemplateResource (
    GoObjectMeta × GoCK8sControlPlaneTemplateResourceSpec × ()) := {|
  refs x := ⟨gctr_ObjectMeta x, gctr_Spec x⟩;
  build x '⟨ObjectMeta, Spec⟩ :=
    mkGoCK8sControlPlaneTemplateResource ObjectMeta Spec;
|}.
Solve Obligations with struct_solver.
#[export] Instance deep_CK8sControlPlaneTemplateResource : Deep GoCK8sControlPlaneTemplateResource := deep_struct.
#[export] Instance deep_CK8sControlPlaneTemplateResource_laws : DeepLaws GoCK8sControlPlaneTemplateResource := deep_struct_laws.
#[export] Instance deep_content_CK8sControlPlaneTemplateResource : Deep (content TCK8sControlPlaneTemplateResource) := deep_CK8sControlPlaneTemplateResource.
#[export] Instance deep_content_CK8sControlPlaneTemplateResource_laws : DeepLaws (content TCK8sControlPlaneTemplateResource) := deep_CK8sControlPlaneTemplateResource_laws.
Lemma CK8sControlPlaneTemplateResource_copies : copies CK8sControlPlaneTemplateResource_DeepCopyInto.
Proof. copy_fields CK8sControlPlaneTemplateResource_DeepCopyInto. Qed.
Definition CK8sControlPlaneTemplateResource_DeepCopy : ptr TCK8sControlPlaneTemplateResource → hprog (ptr TCK8sControlPlaneTemplateResource) := deep_copy (t := TCK8sControlPlaneTemplateResource) CK8sControlPlaneTemplateResource_DeepCopyInto.
#[local] Hint Resolve CK8sControlPlaneTemplateResource_copies : deep_copy.

Definition CK8sControlPlaneTemplateSpec_DeepCopyInto (x : GoCK8sControlPlaneTemplateSpec) : hprog GoCK8sControlPlaneTemplateSpec :=
  Template ← CK8sControlPlaneTemplateResource_DeepCopyInto (gcts_Template x);
  mret (mkGoCK8sControlPlaneTemplateSpec Template).

#[export] Program Instance struct_CK8sControlPlaneTemplateSpec : Struct GoCK8sControlPlaneTemplateSpec (
    GoCK8sControlPlaneTemplateResource × ()) := {|
  refs x := ⟨gcts_Template x⟩;
  build x '⟨Template⟩ :=
    mkGoCK8sControlPlaneTemplateSpec Template;
|}.
Solve Obligations with struct_solver.
#[export] Instance deep_CK8sControlPlaneTemplateSpec : Deep GoCK8sControlPlaneTemplateSpec := deep_struct.
#[export] Instance deep_CK8sControlPlaneTemplateSpec_laws : DeepLaws GoCK8sControlPlaneTemplateSpec := deep_struct_laws.
#[export] Instance deep_content_CK8sControlPlaneTemplateSpec : Deep (content TCK8sControlPlaneTemplateSpec) := deep_CK8sControlPlaneTemplateSpec.
#[export] Instance deep_content_CK8sControlPlaneTemplateSpec_laws : DeepLaws (content TCK8sControlPlaneTemplateSpec) := deep_CK8sControlPlaneTemplateSpec_laws.
Lemma CK8sControlPlaneTemplateSpec_copies : copies CK8sControlPlaneTemplateSpec_DeepCopyInto.
Proof. copy_fields CK8sControlPlaneTemplateSpec_DeepCopyInto. Qed.
Definition CK8sControlPlaneTemplateSpec_DeepCopy : ptr TCK8sControlPlaneTemplateSpec → hprog (ptr TCK8sControlPlaneTemplateSpec) := deep_copy (t := TCK8sControlPlaneTemplateSpec) CK8sControlPlaneTemplateSpec_DeepCopyInto.
#[local] Hint Resolve CK8sControlPlaneTemplateSpec_copies : deep_copy.

Definition CK8sControlPlaneTemplate_DeepCopyInto (x : GoCK8sControlPlaneTemplate) : hprog GoCK8sControlPlaneTemplate :=
  ObjectMeta ← ObjectMeta_DeepCopyInto (gct_ObjectMeta x);
  Spec ← CK8sControlPlaneTemplateSpec_DeepCopyInto (gct_Spec x);
  mret (mkGoCK8sControlPlaneTemplate (gct_TypeMeta x) ObjectMeta Spec).

#[export] Program Instance struct_CK8sControlPlaneTemplate : Struct GoCK8sControlPlaneTemplate (
    GoObjectMeta × GoCK8sControlPlaneTemplateSpec × ()) := {|
  refs x := ⟨gct_ObjectMeta x, gct_Spec x⟩;
  build x '⟨ObjectMeta, Spec⟩ :=
    mkGoCK8sControlPlaneTemplate (gct_TypeMeta x) ObjectMeta Spec;
|}.
Solve Obligations with struct_solver.
#[export] Instance deep_CK8sControlPlaneTemplate : Deep GoCK8sControlPlaneTemplate := deep_struct.
#[export] Instance deep_CK8sControlPlaneTemplate_laws : DeepLaws GoCK8sControlPlaneTemplate := deep_struct_laws.
#[export] Instance deep_content_CK8sControlPlaneTemplate : Deep (content TCK8sControlPlaneTemplate) := deep_CK8sControlPlaneTemplate.
#[export] Instance deep_content_CK8sControlPlaneTemplate_laws : DeepLaws (content TCK8sControlPlaneTemplate) := deep_CK8sControlPlaneTemplate_laws.
Lemma CK8sControlPlaneTemplate_copies : copies CK8sControlPlaneTemplate_DeepCopyInto.
Proof. copy_fields CK8sControlPlaneTemplate_DeepCopyInto. Qed.
Definition CK8sControlPlaneTemplate_DeepCopy : ptr TCK8sControlPlaneTemplate → hprog (ptr TCK8sControlPlaneTemplate) := deep_copy (t := TCK8sControlPlaneTemplate) CK8sControlPlaneTemplate_DeepCopyInto.
#[local] Hint Resolve CK8sControlPlaneTemplate_copies : deep_copy.
Definition CK8sControlPlaneTemplate_DeepCopyObject : ptr TCK8sControlPlaneTemplate → hprog Object := deep_copy_object CK8sControlPlaneTemplate_DeepCopy.

Definition CK8sControlPlaneTemplateList_DeepCopyInto (x : GoCK8sControlPlaneTemplateList) : hprog GoCK8sControlPlaneTemplateList :=
  ListMeta ← ListMeta_DeepCopyInto (gctl_ListMeta x);
  Items ← copy_slice_into (t := TCK8sControlPlaneTemplate) CK8sControlPlaneTemplate_DeepCopyInto (gctl_Items x);
  mret (mkGoCK8sControlPlaneTemplateList (gctl_TypeMeta x) ListMeta Items).

#[export] Program Instance struct_CK8sControlPlaneTemplateList : Struct GoCK8sControlPlaneTemplateList (
    GoListMeta × slice TCK8sControlPlaneTemplate × ()) := {|
  refs x := ⟨gctl_ListMeta x, gctl_Items x⟩;
  build x '⟨ListMeta, Items⟩ :=
    mkGoCK8sControlPlaneTemplateList (gctl_TypeMeta x) ListMeta Items;
|}.
Solve Obligations with struct_solver.
#[export] Instance deep_CK8sControlPlaneTemplateList : Deep GoCK8sControlPlaneTemplateList := deep_struct.
#[export] Instance deep_CK8sControlPlaneTemplateList_laws : DeepLaws GoCK8sControlPlaneTemplateList := deep_struct_laws.
#[export] Instance deep_content_CK8sControlPlaneTemplateList : Deep (content TCK8sControlPlaneTemplateList) := deep_CK8sControlPlaneTemplateList.
#[export] Instance deep_content_CK8sControlPlaneTemplateList_laws : DeepLaws (content TCK8sControlPlaneTemplateList) := deep_CK8sControlPlaneTemplateList_laws.
Lemma CK8sControlPlaneTemplateList_copies : copies CK8sControlPlaneTemplateList_DeepCopyInto.
Proof. copy_fields CK8sControlPlaneTemplateList_DeepCopyInto. Qed.
Definition CK8sControlPlaneTemplateList_DeepCopy : ptr TCK8sControlPlaneTemplateList → hprog (ptr TCK8sControlPlaneTemplateList) := deep_copy (t := TCK8sControlPlaneTemplateList) CK8sControlPlaneTemplateList_DeepCopyInto.
#[local] Hint Resolve CK8sControlPlaneTemplateList_copies : deep_copy.
Definition CK8sControlPlaneTemplateList_DeepCopyObject : ptr TCK8sControlPlaneTemplateList → hprog Object := deep_copy_object CK8sControlPlaneTemplateList_DeepCopy.

End Copies.
#[export] Hint Resolve CK8sControlPlaneMachineTemplate_copies RollingUpdate_copies
  RolloutStrategy_copies RemediationStrategy_copies LastRemediationStatus_copies
  CK8sControlPlaneSpec_copies CK8sControlPlaneStatus_copies CK8sControlPlane_copies
  CK8sControlPlaneList_copies CK8sControlPlaneTemplateResourceSpec_copies
  CK8sControlPlaneTemplateResource_copies CK8sControlPlaneTemplateSpec_copies
  CK8sControlPlaneTemplate_copies CK8sControlPlaneTemplateList_copies : deep_copy.
