(* ===== verification/DeepCopySpec.v ===== *)
(** What the deep copies of both API packages guarantee: independence of copy and
    original, and that a bootstrap configuration keeps its value.  This is why the
    controllers, which hand out and edit copies, are modelled on values
    ([ControlPlane.JoinControlPlaneConfig], [MachineFilters]). *)

From S2P Require Import Prelude Objects ApiTypes GoHeap GoCopy ApiLayout BootstrapCopy ControlPlaneCopy.

Section Isolation.
Context `{!ExtTypes, !RangeOrder, !ExtCopies, !ExtCopiesLaws}.

Definition independent (t : type_name) `{!Deep (content t)} (DeepCopy : ptr t → hprog (ptr t)) : Prop :=
  ∀ h (p : ptr t), readable h p → isolated h p (DeepCopy p h).

Lemma deep_copy_independent (t : type_name) `{!Deep (content t), !DeepLaws (content t)} c :
  copies c → independent t (deep_copy (t := t) c).
Proof. intros Hc h p Hp. exact (@deep_copy_isolated _ t _ _ c h p Hc Hp). Qed.

(** C39: the deep copy of every kind of object of the two APIs returns
    without a run-time panic, leaves the original as it is and returns a deeply equal
    object, nil for nil; later writes to the original or to anything else that existed
    do not change the copy, and writes to the copy do not change the original. *)
Theorem api_objects_isolated :
  independent TCK8sConfig CK8sConfig_DeepCopy ∧
  independent TCK8sConfigList CK8sConfigList_DeepCopy ∧
  independent TCK8sConfigTemplate CK8sConfigTemplate_DeepCopy ∧
  independent TCK8sConfigTemplateList CK8sConfigTemplateList_DeepCopy ∧
  independent TCK8sControlPlane CK8sControlPlane_DeepCopy ∧
  independent TCK8sControlPlaneList CK8sControlPlaneList_DeepCopy ∧
  independent TCK8sControlPlaneTemplate CK8sControlPlaneTemplate_DeepCopy ∧
  independent TCK8sControlPlaneTemplateList CK8sControlPlaneTemplateList_DeepCopy.
Proof. split_and!; (apply deep_copy_independent; first [apply _|copy_solve]). Qed.

(** [DeepCopyObject] of nil is the nil interface, not an interface that holds a nil
    pointer. *)
Lemma deep_copy_object_nil (t : type_name) (c : copier (content t)) h :
  deep_copy_object (deep_copy (t := t) c) Nil h = Some (h, NilObject).
Proof. done. Qed.

(** ** The value of a bootstrap configuration *)

Section Value.
Context (h : heap).

Definition val_ptr {t : type_name} (p : ptr t) : option (content t) :=
  match p with Nil => None | Ptr l => val_at h l t end.
Definition val_slice {t : type_name} (s : slice t) : list (content t) :=
  match s with NilSlice => [] | Slice l o n => default [] (window h l t o n) end.
Definition val_map {t : type_name} (m : gomap t) : gmap string (content t) :=
  match m with NilMap => ∅ | Map l => default ∅ (map_at h l t) end.
Definition val_args (m : gomap TStringPtr) : extra_args := val_ptr <$> val_map m.

(** Empty, but not nil. *)
Definition empty_slice {t : type_name} (s : slice t) : bool :=
  match s with NilSlice => false | _ => Nat.eqb (length (val_slice s)) 0 end.
Definition empty_map {t : type_name} (m : gomap t) : bool :=
  match m with NilMap => false | _ => Nat.eqb (size (val_map m)) 0 end.

Definition val_File (x : GoFile) : File :=
  mkFile (gf_Path x) (gf_Owner x) (gf_Permissions x) (gf_Encoding x) (gf_Content x) (val_ptr (gf_ContentFrom x)).

Definition val_BootstrapConfig (x : GoBootstrapConfig) : BootstrapConfig :=
  mkBootstrapConfig (gbc_Content x) (val_ptr (gbc_ContentFrom x)).

Definition val_ControlPlaneConfig (x : GoCK8sControlPlaneConfig) : CK8sControlPlaneConfig :=
  mkControlPlaneConfig (val_slice (gcpc_ExtraSANs x)) (gcpc_CloudProvider x) (val_slice (gcpc_NodeTaints x))
    (gcpc_DatastoreType x) (gcpc_DatastoreServersSecretRef x) (gcpc_EtcdPort x) (gcpc_EtcdPeerPort x)
    (gcpc_MicroclusterAddress x) (val_ptr (gcpc_MicroclusterPort x)) (val_args (gcpc_ExtraKubeAPIServerArgs x))
    (val_args (gcpc_ExtraKubeControllerManagerArgs x)) (val_args (gcpc_ExtraKubeSchedulerArgs x))
    (mkControlPlaneConfigEmpties (empty_slice (gcpc_ExtraSANs x)) (empty_slice (gcpc_NodeTaints x))
       (empty_map (gcpc_ExtraKubeAPIServerArgs x)) (empty_map (gcpc_ExtraKubeControllerManagerArgs x))
       (empty_map (gcpc_ExtraKubeSchedulerArgs x))).

Definition val_InitConfiguration (x : GoCK8sInitConfiguration) : CK8sInitConfiguration :=
  mkInitConfiguration (match gic_Annotations x with NilMap => None | m => Some (val_map m) end)
    (val_ptr (gic_EnableDefaultDNS x)) (val_ptr (gic_EnableDefaultLoadBalancer x))
    (val_ptr (gic_EnableDefaultGateway x)) (val_ptr (gic_EnableDefaultIngress x))
    (val_ptr (gic_EnableDefaultLocalStorage x)) (val_ptr (gic_EnableDefaultMetricsServer x))
    (val_ptr (gic_EnableDefaultNetwork x)).

Definition val_ConfigSpec (x : GoCK8sConfigSpec) : CK8sConfigSpec :=
  mkConfigSpec (gspec_Version x) (val_File <$> val_slice (gspec_Files x))
    (val_BootstrapConfig <$> val_ptr (gspec_BootstrapConfig x)) (val_slice (gspec_BootCommands x))
    (val_slice (gspec_PreRunCommands x)) (val_map (gspec_AdditionalUserData x))
    (val_slice (gspec_PostRunCommands x)) (gspec_AirGapped x) (gspec_SnapstoreProxyScheme x)
    (gspec_SnapstoreProxyDomain x) (gspec_SnapstoreProxyID x) (gspec_HTTPSProxy x) (gspec_HTTPProxy x)
    (gspec_NoProxy x) (gspec_Channel x) (gspec_Revision x) (gspec_LocalPath x)
    (val_ControlPlaneConfig (gspec_ControlPlaneConfig x)) (val_InitConfiguration (gspec_InitConfig x))
    (gspec_NodeName x) (val_args (gspec_ExtraKubeProxyArgs x)) (val_args (gspec_ExtraKubeletArgs x))
    (val_args (gspec_ExtraContainerdArgs x)) (val_args (gspec_ExtraK8sAPIServerProxyArgs x))
    (mkConfigSpecEmpties (empty_slice (gspec_Files x)) (empty_slice (gspec_BootCommands x))
       (empty_slice (gspec_PreRunCommands x)) (empty_map (gspec_AdditionalUserData x))
       (empty_slice (gspec_PostRunCommands x)) (empty_map (gspec_ExtraKubeProxyArgs x))
       (empty_map (gspec_ExtraKubeletArgs x)) (empty_map (gspec_ExtraContainerdArgs x))
       (empty_map (gspec_ExtraK8sAPIServerProxyArgs x))).
End Value.

(** *** Deeply equal configurations have the same value *)

Implicit Types (h : heap) (t : type_name).

Lemma val_ptr_map_same {A} t `{!Deep (content t)} (f : heap → content t → A) h h' (p q : ptr t) :
  (∀ x y, same h x h' y → f h x = f h' y) → same h p h' q → f h <$> val_ptr h p = f h' <$> val_ptr h' q.
Proof.
  intros Hf. destruct p as [|l], q as [|l']; simpl; try done. intros (x & y & -> & -> & Hs). simpl.
  f_equal. by apply Hf.
Qed.

Lemma val_slice_map_same {A} t `{!Deep (content t)} (f : heap → content t → A) h h' (p q : slice t) :
  (∀ x y, same h x h' y → f h x = f h' y) → same h p h' q → f h <$> val_slice h p = f h' <$> val_slice h' q.
Proof.
  intros Hf. destruct p as [|l o n], q as [|l' o' n']; simpl; try done. intros (x & y & -> & -> & Hs). simpl.
  induction Hs; simpl; [done|]. f_equal; auto.
Qed.

Lemma val_map_map_same {A} t `{!Deep (content t)} (f : heap → content t → A) h h' (p q : gomap t) :
  (∀ x y, same h x h' y → f h x = f h' y) → same h p h' q → f h <$> val_map h p = f h' <$> val_map h' q.
Proof.
  intros Hf. destruct p as [|l], q as [|l']; simpl; try done.
  intros (x & y & -> & -> & Hs). simpl. apply map_eq. intros k. rewrite !lookup_fmap. specialize (Hs k).
  destruct Hs; simpl; [f_equal; by apply Hf|done].
Qed.

Lemma empty_slice_same t `{!Deep (content t)} h h' (p q : slice t) :
  same h p h' q → empty_slice h p = empty_slice h' q.
Proof.
  intros Hs. pose proof (val_slice_map_same t (λ _ _, ()) h h' p q (λ _ _ _, eq_refl) Hs) as Hv.
  apply (f_equal length) in Hv. rewrite !length_fmap in Hv. unfold empty_slice. rewrite Hv. by destruct p, q.
Qed.

Lemma empty_map_same t `{!Deep (content t)} h h' (p q : gomap t) :
  same h p h' q → empty_map h p = empty_map h' q.
Proof.
  intros Hs. pose proof (val_map_map_same t (λ _ _, ()) h h' p q (λ _ _ _, eq_refl) Hs) as Hv.
  apply (f_equal size) in Hv. rewrite !map_size_fmap in Hv. unfold empty_map. rewrite Hv. by destruct p, q.
Qed.

Section FlatValues.
Context t `{!Deep (content t), !Flat (content t)}.

Lemma val_ptr_same h h' (p q : ptr t) : same h p h' q → val_ptr h p = val_ptr h' q.
Proof.
  intros Hs. pose proof (val_ptr_map_same t (λ _, id) h h' p q) as Hv. cbv beta in Hv. rewrite !option_fmap_id in Hv.
  apply Hv; [|exact Hs]. intros x y. apply flat_same.
Qed.
Lemma val_slice_same h h' (p q : slice t) : same h p h' q → val_slice h p = val_slice h' q.
Proof.
  intros Hs. pose proof (val_slice_map_same t (λ _, id) h h' p q) as Hv. cbv beta in Hv. rewrite !list_fmap_id in Hv.
  apply Hv; [|exact Hs]. intros x y. apply flat_same.
Qed.
Lemma val_map_same h h' (p q : gomap t) : same h p h' q → val_map h p = val_map h' q.
Proof.
  intros Hs. pose proof (val_map_map_same t (λ _, id) h h' p q) as Hv. cbv beta in Hv. rewrite !map_fmap_id in Hv.
  apply Hv; [|exact Hs]. intros x y. apply flat_same.
Qed.
End FlatValues.

Lemma val_args_same h h' (p q : gomap TStringPtr) : same h p h' q → val_args h p = val_args h' q.
Proof. apply (val_map_map_same TStringPtr (λ h (x : ptr TString), val_ptr h x)). intros x y. apply (val_ptr_same TString). Qed.

Lemma val_File_same h h' (x y : GoFile) : same h x h' y → val_File h x = val_File h' y.
Proof. intros [-> [Hs _]]. unfold val_File. simpl in *. f_equal. by apply (val_ptr_same TFileSource). Qed.

Lemma val_BootstrapConfig_same h h' (x y : GoBootstrapConfig) :
  same h x h' y → val_BootstrapConfig h x = val_BootstrapConfig h' y.
Proof. intros [-> [Hs _]]. unfold val_BootstrapConfig. simpl in *. f_equal. by apply (val_ptr_same TFileSource). Qed.

Lemma val_ControlPlaneConfig_same h h' (x y : GoCK8sControlPlaneConfig) :
  same h x h' y → val_ControlPlaneConfig h x = val_ControlPlaneConfig h' y.
Proof.
  intros [-> (H1' & H2' & H3' & H4' & H5' & H6' & _)]. unfold val_ControlPlaneConfig. simpl in *.
  f_equal; try first [by apply (val_slice_same TString)|by apply (val_ptr_same TInt)|by apply val_args_same].
  f_equal; first [by apply (empty_slice_same TString)|by apply (empty_map_same TStringPtr)].
Qed.

Lemma val_InitConfiguration_same h h' (x y : GoCK8sInitConfiguration) :
  same h x h' y → val_InitConfiguration h x = val_InitConfiguration h' y.
Proof.
  intros [-> (Ha & H1' & H2' & H3' & H4' & H5' & H6' & H7' & _)]. unfold val_InitConfiguration. simpl in *.
  f_equal; try by apply (val_ptr_same TBool).
  pose proof (val_map_same TString h h' _ _ Ha) as Hm. destruct (gic_Annotations x), (gic_Annotations y); try done.
  by f_equal.
Qed.

Lemma val_ConfigSpec_same h h' (x y : GoCK8sConfigSpec) : same h x h' y → val_ConfigSpec h x = val_ConfigSpec h' y.
Proof.
  intros [-> (H1' & H2' & H3' & H4' & H5' & H6' & H7' & H8' & H9' & H10' & H11' & H12' & _)].
  unfold val_ConfigSpec. simpl in *.
  f_equal; try first [ by apply (val_slice_map_same TFile val_File); [apply val_File_same|]
                 | by apply (val_ptr_map_same TBootstrapConfig val_BootstrapConfig); [apply val_BootstrapConfig_same|]
                 | by apply (val_slice_same TString) | by apply (val_map_same TString)
                 | by apply val_ControlPlaneConfig_same | by apply val_InitConfiguration_same
                 | by apply val_args_same ].
  f_equal; first [ by apply (empty_slice_same TFile) | by apply (empty_slice_same TString)
                 | by apply (empty_map_same TString) | by apply (empty_map_same TStringPtr) ].
Qed.

(** *** Configurations of the same value are deeply equal *)

Lemma val_ptr_inj {A} t `{!Deep (content t)} (f : heap → content t → A) h h' (p q : ptr t) :
  (∀ x y, readable h x → readable h' y → f h x = f h' y → same h x h' y) → readable h p → readable h' q →
  f h <$> val_ptr h p = f h' <$> val_ptr h' q → same h p h' q.
Proof.
  intros Hf Hp Hq. destruct p as [|l], q as [|l']; simpl; [done|..].
  - destruct Hq as (y & ? & Hy & _). by rewrite Hy.
  - destruct Hp as (x & ? & Hx & _). by rewrite Hx.
  - destruct Hp as (x & x' & Hx & Hx' & Hsx), Hq as (y & y' & Hy & Hy' & Hsy).
    assert (x' = x) as -> by congruence. assert (y' = y) as -> by congruence. rewrite Hx, Hy. simpl. intros [= He].
    exists x, y. split_and!; [done..|]. by apply Hf.
Qed.

Lemma readable_list t `{!Deep (content t)} h (xs : list (content t)) :
  Forall2 (λ x y, same h x h y) xs xs → Forall (readable h) xs.
Proof. induction xs as [|x xs IH]; intros Hs; [constructor|]. inversion_clear Hs. constructor; [done|by apply IH]. Qed.

Lemma Forall2_same_inj {A} t `{!Deep (content t)} (f : heap → content t → A) h h' (xs ys : list (content t)) :
  (∀ x y, readable h x → readable h' y → f h x = f h' y → same h x h' y) →
  Forall (readable h) xs → Forall (readable h') ys → f h <$> xs = f h' <$> ys →
  Forall2 (λ x y, same h x h' y) xs ys.
Proof.
  intros Hf Hxs. revert ys. induction Hxs as [|x xs Hx _ IH]; intros [|y ys] Hys He; try done.
  inversion_clear Hys. injection He as He Hes. constructor; [by apply Hf|by apply IH].
Qed.

Lemma val_slice_inj {A} t `{!Deep (content t)} (f : heap → content t → A) h h' (p q : slice t) :
  (∀ x y, readable h x → readable h' y → f h x = f h' y → same h x h' y) → readable h p → readable h' q →
  f h <$> val_slice h p = f h' <$> val_slice h' q → empty_slice h p = empty_slice h' q → same h p h' q.
Proof.
  intros Hf Hp Hq Hv. pose proof (f_equal length Hv) as Hlen. rewrite !length_fmap in Hlen.
  unfold empty_slice. rewrite Hlen. destruct p as [|l o n], q as [|l' o' n']; simpl in *; try done.
  - rewrite <- Hlen. done.
  - intros _. destruct Hp as (x & x' & Hx & Hx' & Hsx), Hq as (y & y' & Hy & Hy' & Hsy).
    assert (x' = x) as -> by congruence. assert (y' = y) as -> by congruence. rewrite Hx, Hy in Hv. simpl in Hv.
    exists x, y. split_and!; [done..|]. by apply (Forall2_same_inj t f); [..|apply (readable_list t)|apply (readable_list t)|].
Qed.

Lemma val_map_inj {A} t `{!Deep (content t)} (f : heap → content t → A) h h' (p q : gomap t) :
  (∀ x y, readable h x → readable h' y → f h x = f h' y → same h x h' y) → readable h p → readable h' q →
  f h <$> val_map h p = f h' <$> val_map h' q → empty_map h p = empty_map h' q → same h p h' q.
Proof.
  intros Hf Hp Hq Hv. pose proof (f_equal size Hv) as Hlen. rewrite !map_size_fmap in Hlen.
  unfold empty_map. rewrite Hlen. destruct p as [|l], q as [|l']; simpl in *; try done.
  - rewrite <- Hlen, map_size_empty. done.
  - intros _. destruct Hp as (x & x' & Hx & Hx' & Hsx), Hq as (y & y' & Hy & Hy' & Hsy).
    assert (x' = x) as -> by congruence. assert (y' = y) as -> by congruence. rewrite Hx, Hy in Hv. simpl in Hv.
    exists x, y. split_and!; [done..|]. intros k. specialize (Hsx k). specialize (Hsy k).
    pose proof (f_equal (lookup k) Hv) as Hk. rewrite !lookup_fmap in Hk.
    destruct (x !! k) as [v|], (y !! k) as [v'|]; simpl in Hk; try done; constructor.
    inversion_clear Hsx. inversion_clear Hsy. injection Hk as Hk. by apply Hf.
Qed.

Section FlatInjective.
Context t `{!Deep (content t), !Flat (content t)}.

Lemma val_ptr_flat_inj h h' (p q : ptr t) :
  readable h p → readable h' q → val_ptr h p = val_ptr h' q → same h p h' q.
Proof.
  intros Hp Hq Hv. apply (val_ptr_inj t (λ _, id)); [|done|done|by rewrite !option_fmap_id].
  intros x y _ _ He. unfold id in He. by apply flat_same.
Qed.
Lemma val_slice_flat_inj h h' (p q : slice t) :
  readable h p → readable h' q → val_slice h p = val_slice h' q → empty_slice h p = empty_slice h' q → same h p h' q.
Proof.
  intros Hp Hq Hv. apply (val_slice_inj t (λ _, id)); [|done|done|by rewrite !list_fmap_id].
  intros x y _ _ He. unfold id in He. by apply flat_same.
Qed.
Lemma val_map_flat_inj h h' (p q : gomap t) :
  readable h p → readable h' q → val_map h p = val_map h' q → empty_map h p = empty_map h' q → same h p h' q.
Proof.
  intros Hp Hq Hv. apply (val_map_inj t (λ _, id)); [|done|done|by rewrite !map_fmap_id].
  intros x y _ _ He. unfold id in He. by apply flat_same.
Qed.
End FlatInjective.

Lemma val_args_inj h h' (p q : gomap TStringPtr) :
  readable h p → readable h' q → val_args h p = val_args h' q → empty_map h p = empty_map h' q → same h p h' q.
Proof.
  apply (val_map_inj TStringPtr (λ h (x : ptr TString), val_ptr h x)). intros x y. apply (val_ptr_flat_inj TString).
Qed.

(** Structures field by field, without looking behind the references. *)
Tactic Notation "fields" reference(d) reference(r) :=
  unfold readable in *;
  cbn [same deep_struct deep_prod deep_unit flat refs build fst snd d r] in *.

Lemma val_File_inj h h' (x y : GoFile) :
  readable h x → readable h' y → val_File h x = val_File h' y → same h x h' y.
Proof.
  intros [_ Hx] [_ Hy] He. destruct x, y. fields deep_File struct_File. destruct_and?. unfold val_File in He. cbn in He. simplify_eq.
  split; [done|]. fields deep_File struct_File. split; [by apply (val_ptr_flat_inj TFileSource)|done].
Qed.

Lemma val_BootstrapConfig_inj h h' (x y : GoBootstrapConfig) :
  readable h x → readable h' y → val_BootstrapConfig h x = val_BootstrapConfig h' y → same h x h' y.
Proof.
  intros [_ Hx] [_ Hy] He. destruct x, y. fields deep_BootstrapConfig struct_BootstrapConfig. destruct_and?. unfold val_BootstrapConfig in He. cbn in He. simplify_eq.
  split; [done|]. fields deep_BootstrapConfig struct_BootstrapConfig. split; [by apply (val_ptr_flat_inj TFileSource)|done].
Qed.

Lemma val_ControlPlaneConfig_inj h h' (x y : GoCK8sControlPlaneConfig) :
  readable h x → readable h' y → val_ControlPlaneConfig h x = val_ControlPlaneConfig h' y → same h x h' y.
Proof.
  intros [_ Hx] [_ Hy] He. destruct x, y. fields deep_CK8sControlPlaneConfig struct_CK8sControlPlaneConfig. destruct_and?. unfold val_ControlPlaneConfig in He. cbn in He.
  injection He. clear He. intros. subst. split; [done|]. fields deep_CK8sControlPlaneConfig struct_CK8sControlPlaneConfig. split_and!; first
    [ done | by apply (val_slice_flat_inj TString) | by apply (val_ptr_flat_inj TInt) | by apply val_args_inj ].
Qed.

Lemma val_InitConfiguration_inj h h' (x y : GoCK8sInitConfiguration) :
  readable h x → readable h' y → val_InitConfiguration h x = val_InitConfiguration h' y → same h x h' y.
Proof.
  intros [_ Hx] [_ Hy] He. destruct x as [a ? ? ? ? ? ? ?], y as [b ? ? ? ? ? ? ?]. fields deep_CK8sInitConfiguration struct_CK8sInitConfiguration. destruct_and?.
  unfold val_InitConfiguration in He. cbn in He. injection He as Ha ? ? ? ? ? ? ?.
  split; [done|]. fields deep_CK8sInitConfiguration struct_CK8sInitConfiguration. split_and!; try done; try by apply (val_ptr_flat_inj TBool).
  apply (val_map_flat_inj TString); [done|done|..]; destruct a, b; simplify_eq/=; congruence.
Qed.

(** [reflect.DeepEqual] on configurations, in whatever memory they are, is equality of
    their values. *)
Theorem DeepEqual_value h h' (x y : GoCK8sConfigSpec) :
  readable h x → readable h' y → same h x h' y ↔ val_ConfigSpec h x = val_ConfigSpec h' y.
Proof.
  intros [_ Hx] [_ Hy]. split; [apply val_ConfigSpec_same|]. intros He.
  assert (same h (gspec_ControlPlaneConfig x) h' (gspec_ControlPlaneConfig y)) as Hcp
    by (apply val_ControlPlaneConfig_inj; [apply Hx|apply Hy|exact (f_equal ControlPlaneConfig He)]).
  assert (same h (gspec_InitConfig x) h' (gspec_InitConfig y)) as Hin
    by (apply val_InitConfiguration_inj; [apply Hx|apply Hy|exact (f_equal InitConfig He)]).
  destruct x, y. fields deep_CK8sConfigSpec struct_CK8sConfigSpec. destruct_and?.
  unfold val_ConfigSpec in He. cbn in He.
  injection He. clear He. intros. subst. split; [done|]. fields deep_CK8sConfigSpec struct_CK8sConfigSpec.
  split_and!; first
    [ done | exact Hcp | exact Hin
    | by apply (val_slice_inj TFile val_File); [apply val_File_inj|..]
    | by apply (val_ptr_inj TBootstrapConfig val_BootstrapConfig); [apply val_BootstrapConfig_inj|..]
    | by apply (val_slice_flat_inj TString) | by apply (val_map_flat_inj TString) | by apply val_args_inj ].
Qed.

(** The value that a pointer refers to. *)
Definition config_value h (p : ptr TCK8sConfigSpec) : option CK8sConfigSpec := val_ConfigSpec h <$> val_ptr h p.

Lemma config_value_same h h' (p q : ptr TCK8sConfigSpec) : same h p h' q → config_value h p = config_value h' q.
Proof. apply (val_ptr_map_same TCK8sConfigSpec val_ConfigSpec). apply val_ConfigSpec_same. Qed.

(** ** The copies that the control plane controller makes *)

(** [func (c *ControlPlane) InitialControlPlaneConfig()] and [JoinControlPlaneConfig()]:
    a copy of a field of the control plane object. *)
Definition new_bootstrap_spec (kcp : ptr TCK8sControlPlane) : hprog (ptr TCK8sConfigSpec) :=
  k ← load kcp;
  deep_copy_field (t := TCK8sConfigSpec) CK8sConfigSpec_DeepCopyInto (gkcps_CK8sConfigSpec (gkcp_Spec k)).

(** [kcpConfig.Version = ""] *)
Definition clear_Version (x : GoCK8sConfigSpec) : GoCK8sConfigSpec :=
  match x with
  | mkGoCK8sConfigSpec _ a b c d e f g h i j k l m n o p q r s t u v w =>
      mkGoCK8sConfigSpec "" a b c d e f g h i j k l m n o p q r s t u v w
  end.

(** The configuration that [MatchesCK8sBootstrapConfig] compares with: a copy without
    the version. *)
Definition matching_config (kcp : ptr TCK8sControlPlane) : hprog (ptr TCK8sConfigSpec) :=
  kcpConfig ← new_bootstrap_spec kcp;
  v ← load kcpConfig;
  store (t := TCK8sConfigSpec) kcpConfig (clear_Version v) ;;
  mret kcpConfig.

(** The value of [kcp.Spec.CK8sConfigSpec]. *)
Definition kcp_config_value h (p : ptr TCK8sControlPlane) : option CK8sConfigSpec :=
  (λ k, val_ConfigSpec h (gkcps_CK8sConfigSpec (gkcp_Spec k))) <$> val_ptr h p.

Lemma kcp_config_value_same h h' (p q : ptr TCK8sControlPlane) :
  same h p h' q → kcp_config_value h p = kcp_config_value h' q.
Proof.
  apply (val_ptr_map_same TCK8sControlPlane (λ h k, val_ConfigSpec h (gkcps_CK8sConfigSpec (gkcp_Spec k)))).
  intros x y [-> (_ & [-> (_ & Hs & _)] & _)]. by apply val_ConfigSpec_same.
Qed.

Lemma val_clear_Version h x : val_ConfigSpec h (clear_Version x) = set_Version "" (val_ConfigSpec h x).
Proof. by destruct x. Qed.

(** The copy in memory, once the control plane has been read. *)
Lemma new_bootstrap_spec_run h kcp :
  readable h kcp → kcp ≠ Nil →
  ∃ x h' l y F, kcp_config_value h kcp = Some (val_ConfigSpec h x) ∧
    new_bootstrap_spec kcp h = Some (h', Ptr l) ∧ h ⊆ h' ∧ (l ∉ dom h) ∧ F ## dom h ∧
    val_at h' l TCK8sConfigSpec = Some y ∧ same h x h' y ∧ owns h' y F ∧ l ∉ F.
Proof.
  intros Hr Hne. destruct kcp as [|l0]; [done|]. destruct Hr as (k & k' & Hk & Hk' & Hr).
  assert (k' = k) as -> by congruence. destruct Hr as [_ (_ & [_ (_ & Hx & _)] & _)].
  exists (gkcps_CK8sConfigSpec (gkcp_Spec k)).
  destruct (@new_copy api_types TCK8sConfigSpec _ _ CK8sConfigSpec_DeepCopyInto h _ CK8sConfigSpec_copies Hx)
    as (h' & l & y & F & Hrun & Hrest).
  exists h', l, y, F. split_and!; try apply Hrest.
  - unfold kcp_config_value. simpl. by rewrite Hk.
  - unfold new_bootstrap_spec. erewrite hbind_run; [exact Hrun|]. simpl. unfold hlift. by rewrite Hk.
Qed.

(** C40: the bootstrap configurations that the control plane controller
    hands out are copies: each has the value in the control plane, and neither later
    writes to the control plane change it nor writes to it the control plane. *)
Theorem bootstrap_spec_copied h kcp :
  readable h kcp → kcp ≠ Nil →
  ∃ h' q, new_bootstrap_spec kcp h = Some (h', q) ∧ config_value h' q = kcp_config_value h kcp ∧
    (∀ h2, (∀ l, l ∈ dom h' → l ∉ dom h → h2 !! l = h' !! l) → config_value h2 q = kcp_config_value h kcp) ∧
    (∀ h2, (∀ l, l ∈ dom h → h2 !! l = h !! l) → kcp_config_value h2 kcp = kcp_config_value h kcp).
Proof.
  intros Hr Hne. destruct (new_bootstrap_spec_run h kcp Hr Hne)
    as (x & h' & l & y & F & Hv & Hrun & Hh & Hl & Hd & Hy & Hs & Ho & HlF).
  assert (∀ h2, (∀ l, l ∈ dom h' → l ∉ dom h → h2 !! l = h' !! l) →
                config_value h2 (Ptr l) = kcp_config_value h kcp) as Hval.
  { intros h2 Ha. assert (agree F h' h2) as HaF.
    { pose proof (owns_dom _ _ _ Ho) as Hdo. intros l' Hl'.
      apply Ha; [exact (Hdo l' Hl')|intros Hin; exact (Hd l' Hl' Hin)]. }
    assert (agree {[l]} h' h2) as Hal.
    { intros l' ->%elem_of_singleton. apply Ha; [by eapply val_at_dom|done]. }
    rewrite Hv. unfold config_value. simpl. rewrite (val_at_agree {[l]} h' h2 l TCK8sConfigSpec Hal), Hy by by apply elem_of_singleton.
    simpl. f_equal. symmetry. apply val_ConfigSpec_same. exact (same_frame _ _ _ _ _ F HaF Ho Hs). }
  exists h', (Ptr l). split_and!; [done|by apply Hval|exact Hval|].
  intros h2 Ha. symmetry. apply kcp_config_value_same. eapply same_mono; [done|by apply grown|exact Hr].
Qed.

(** Clearing the version of the copy that a machine is compared with
    leaves the version of the control plane alone. *)
Theorem matching_config_spec h kcp :
  readable h kcp → kcp ≠ Nil →
  ∃ h' q, matching_config kcp h = Some (h', q) ∧
    config_value h' q = set_Version "" <$> kcp_config_value h kcp ∧
    kcp_config_value h' kcp = kcp_config_value h kcp.
Proof.
  intros Hr Hne. destruct (new_bootstrap_spec_run h kcp Hr Hne)
    as (x & h' & l & y & F & Hv & Hrun & Hh & Hl & Hd & Hy & Hs & Ho & HlF).
  set (h2 := <[l := @CVal api_types TCK8sConfigSpec (clear_Version y)]> h').
  assert (agree F h' h2) as Ha by (by apply agree_insert).
  exists h2, (Ptr l). split_and!.
  - unfold matching_config. rewrite (hbind_run _ _ _ _ _ Hrun).
    unfold load, store, mbind, hprog_bind, hlift, put. rewrite Hy. simpl. by rewrite Hy.
  - pose proof (val_ConfigSpec_same h h2 x y (same_frame _ _ _ _ _ F Ha Ho Hs)) as Hval.
    trans (Some (val_ConfigSpec h2 (clear_Version y))); [unfold config_value; simpl; unfold h2 at 2; by rewrite val_at_insert|].
    by rewrite Hv, val_clear_Version, <- Hval.
  - symmetry. apply kcp_config_value_same. eapply same_mono; [done| |exact Hr]. by apply overwrite.
Qed.
End Isolation.

(** ** Witnesses *)

Module DeepCopyExamples.

(** Metadata with a name and labels; the other types of other packages have no
    references. *)
#[export] Instance ExampleTypes : ExtTypes := {|
  GoTypeMeta := string;
  GoObjectMeta := string * gomap TString;
  GoListMeta := string;
  GoClusterObjectMeta := string;
  GoCondition := string;
  GoTime := Z;
  GoExt _ := unit;
  zero_GoTypeMeta := "";
  zero_GoObjectMeta := ("", NilMap);
  zero_GoListMeta := "";
  zero_GoClusterObjectMeta := "";
  zero_GoCondition := "";
  zero_GoTime := 0%Z;
  zero_GoExt _ := tt;
|}.

#[export] Instance ExampleOrder : RangeOrder := {|
  range_order A m := map_to_list m;
  range_order_perm A m := reflexivity _;
|}.

Definition copy_meta (x : GoObjectMeta) : hprog GoObjectMeta := m ← copy_map x.2; mret (x.1, m).

#[export] Program Instance struct_meta : Struct GoObjectMeta (gomap TString × ()) := {|
  refs x := ⟨x.2⟩;
  build x '⟨m⟩ := (x.1, m);
|}.
Solve Obligations with struct_solver.

#[export] Instance ExampleCopies : ExtCopies := {|
  ObjectMeta_DeepCopyInto := copy_meta;
  ListMeta_DeepCopyInto := mret;
  ClusterObjectMeta_DeepCopyInto := mret;
  Condition_DeepCopyInto := mret;
  Time_DeepCopyInto := mret;
  Time_DeepCopy := copy_ptr;
  deep_ObjectMeta := deep_struct;
  deep_ListMeta := flat;
  deep_ClusterObjectMeta := flat;
  deep_Condition := flat;
  deep_Time := flat;
|}.

#[export] Instance ExampleLaws : ExtCopiesLaws.
Proof.
  split; try apply flat_laws; try exact (@copies_mret _ _ flat flat_flat).
  - apply deep_struct_laws.
  - copy_fields copy_meta.
  - apply (@copies_ptr api_types TTime flat flat_laws flat_flat).
Qed.

Definition file : GoFile := mkGoFile "/etc/motd" "root" "0644" "" "" (Ptr 6%positive).
Definition config : GoCK8sConfigSpec :=
  mkGoCK8sConfigSpec "v1.30.0" (Slice 3%positive 0 1) Nil NilSlice NilSlice NilMap NilSlice false
    "" "" "" "" "" "" "" "" "" zero_GoCK8sControlPlaneConfig zero_GoCK8sInitConfiguration ""
    NilMap (Map 4%positive) NilMap NilMap.
Definition object : GoCK8sControlPlane :=
  mkGoCK8sControlPlane "CK8sControlPlane" ("cp", Map 9%positive)
    (mkGoCK8sControlPlaneSpec (Ptr 2%positive) "v1.30.0" config Nil zero_GoCK8sControlPlaneMachineTemplate Nil
       (Ptr 5%positive)) zero_GoCK8sControlPlaneStatus.

(** A control plane object in memory. *)
Definition memory : heap :=
  list_to_map [
    (1%positive, @CVal api_types TCK8sControlPlane object);
    (2%positive, @CVal api_types TInt32 3%Z);
    (3%positive, @CArr api_types TFile [file]);
    (4%positive, @CMap api_types TStringPtr (list_to_map [("v", Ptr 7%positive); ("w", Nil)]));
    (5%positive, @CVal api_types TRolloutStrategy (mkGoRolloutStrategy (Ptr 8%positive)));
    (6%positive, @CVal api_types TFileSource (mkFileSource (mkSecretFileSource "motd" "text")));
    (7%positive, @CVal api_types TString "4");
    (8%positive, @CVal api_types TRollingUpdate (mkGoRollingUpdate Nil));
    (9%positive, @CMap api_types TString (list_to_map [("app", "k8s")]))].
Definition kcp : ptr TCK8sControlPlane := Ptr 1%positive.

(** The copy has the value of the original in nine new cells. *)
Example copy_runs :
  match CK8sControlPlane_DeepCopy kcp memory with
  | Some (h, q) =>
      (size h, bool_decide (kcp_config_value h q = kcp_config_value memory kcp),
       match q with Ptr l => Pos.eqb l 1 | Nil => true end)
  | None => (0, false, true)
  end = (18, true, false).
Proof. vm_compute. reflexivity. Qed.

Ltac read :=
  lazymatch goal with
  | |- readable ?h ?x =>
      let x := eval hnf in x in change (readable h x);
      lazymatch x with
      | @Ptr _ ?t _ => eapply (@readable_ptr api_types t); [vm_compute; reflexivity|read]
      | @Slice _ ?t _ _ _ => eapply (@readable_slice api_types t); [vm_compute; reflexivity|read]
      | @Map _ ?t _ => eapply (@readable_map api_types t); [vm_compute; reflexivity|read]
      | _ => hnf; read
      end
  | |- same ?h ?x ?h ?x => change (readable h x); read
  | |- Forall _ ?l => let l := eval vm_compute in l in change (Forall (readable memory) l); repeat constructor; read
  | |- _ ∧ _ => split; read
  | |- True => exact I
  | |- _ = _ => reflexivity
  end.

Lemma readable_kcp : readable memory kcp.
Proof. unfold kcp. read. Qed.

Lemma api_objects_isolated_witness :
  readable memory kcp ∧ isolated memory kcp (CK8sControlPlane_DeepCopy kcp memory).
Proof.
  split; [exact readable_kcp|].
  destruct api_objects_isolated as (_ & _ & _ & _ & Hkcp & _). exact (Hkcp memory kcp readable_kcp).
Defined.

Lemma bootstrap_spec_copied_witness :
  ∃ h' q, new_bootstrap_spec kcp memory = Some (h', q) ∧
    config_value h' q = kcp_config_value memory kcp ∧
    (∀ h2, (∀ l, l ∈ dom h' → l ∉ dom memory → h2 !! l = h' !! l) →
       config_value h2 q = kcp_config_value memory kcp) ∧
    (∀ h2, (∀ l, l ∈ dom memory → h2 !! l = memory !! l) → kcp_config_value h2 kcp = kcp_config_value memory kcp).
Proof. apply (bootstrap_spec_copied memory kcp); [exact readable_kcp|discriminate]. Defined.

Lemma matching_config_spec_witness :
  ∃ h' q, matching_config kcp memory = Some (h', q) ∧
    config_value h' q = set_Version "" <$> kcp_config_value memory kcp ∧
    kcp_config_value h' kcp = kcp_config_value memory kcp.
Proof. apply (matching_config_spec memory kcp); [exact readable_kcp|discriminate]. Defined.
End DeepCopyExamples.
