(* ===== verification/Effects.v ===== *)
(** How effectful Go code is modelled.  A program is a finite tree of calls to
    its environment ([sysE]: the API servers, the network, the clock, the
    random source, the order in which [range] visits a map, and a run-time
    panic), each with a continuation for every answer.  [go S R A] is the monad
    of Go function bodies: it threads the objects the body mutates ([S]) and
    supports early [return] ([R]).  [wp] is the weakest precondition of a
    program over an environment, and [gwp] its two-exit form for bodies. *)

From S2P Require Import Prelude Objects ApiTypes.

(** ** Calls to the environment *)

Inductive kind :=
  | KMachine | KCluster | KSecret | KConfigMap | KCK8sConfig | KControlPlane
  | KMachineDeployment | KMachineSet | KNode.

#[export] Instance kind_eq_dec : EqDecision kind.
Proof. solve_decision. Defined.

Definition obj (k : kind) : Type :=
  match k with
  | KMachine => Machine
  | KCluster => Cluster
  | KSecret => Secret
  | KConfigMap => ConfigMap
  | KCK8sConfig => CK8sConfig
  | KControlPlane => CK8sControlPlane
  | KMachineDeployment => MachineDeployment
  | KMachineSet => MachineSet
  | KNode => Node
  end.

#[export] Instance obj_eq_dec k : EqDecision (obj k).
Proof. destruct k; apply _. Defined.

(** [obj.GetObjectMeta()] *)
Definition meta_of (k : kind) : obj k → ObjectMeta :=
  match k with
  | KMachine => m_meta
  | KCluster => cl_meta
  | KSecret => s_meta
  | KConfigMap => cm_meta
  | KCK8sConfig => cfg_meta
  | KControlPlane => kcp_meta
  | KMachineDeployment => md_meta
  | KMachineSet => ms_meta
  | KNode => n_meta
  end.

(** [obj.SetObjectMeta()] *)
Definition set_meta (k : kind) (x : ObjectMeta) : obj k → obj k :=
  match k return obj k → obj k with
  | KMachine => set_m_meta x
  | KCluster => λ c, match c with mkCluster _ a b d e f g => mkCluster x a b d e f g end
  | KSecret => λ s, mkSecret x (s_Data s) (s_Type s)
  | KConfigMap => λ c, mkConfigMap x (cm_Data c)
  | KCK8sConfig => λ c, mkConfig x (cfg_Spec c) (cfg_Status c)
  | KControlPlane => set_kcp_meta x
  | KMachineDeployment => λ d, mkMachineDeployment x (md_ClusterName d)
  | KMachineSet => λ d, mkMachineSet x
  | KNode => λ n, mkNode x (n_Taints n) (n_Addresses n) (n_Conditions n)
  end.

Lemma meta_of_set k x o : meta_of k (set_meta k x o) = x.
Proof. by destruct k, o. Qed.

(** [obj.SetAnnotations(f(annotations))], where a nil map is made first. *)
Definition annotate (k : kind) (f : strmap → strmap) (o : obj k) : obj k :=
  set_meta k (set_Annotations (Some (f (default ∅ (om_Annotations (meta_of k o))))) (meta_of k o)) o.

Lemma ann_annotate k f o key :
  ann (meta_of k (annotate k f o)) key = f (default ∅ (om_Annotations (meta_of k o))) !! key.
Proof. unfold annotate. by rewrite meta_of_set, ann_set. Qed.

Lemma ann_default m key : (default ∅ (om_Annotations m) : strmap) !! key = ann m key.
Proof. unfold ann. destruct (om_Annotations m); simpl; [done|apply lookup_empty]. Qed.

Lemma key_of_annotate k f o : key_of (meta_of k (annotate k f o)) = key_of (meta_of k o).
Proof. unfold annotate. rewrite meta_of_set. by destruct (meta_of k o). Qed.

(** [external.CreateFromTemplateInput] without the client. *)
Record CloneInput := mkCloneInput {
  ci_TemplateRef : ObjectReference;
  ci_Namespace : string;
  ci_OwnerRef : OwnerReference;
  ci_ClusterName : string;
  ci_Labels : strmap;
}.

(** An HTTP exchange with a k8sd endpoint; the body is the marshalled request. *)
Record HttpRequest := mkHttpRequest {
  rq_Method : string;
  rq_URL : string;
  rq_Header : string * string;
  rq_Body : string;
}.

(** The answer: the status code, and what decoding the body as a wrapped response
    gives, its [error] and its [metadata] (nil when absent or null). *)
Record HttpResponse := mkHttpResponse {
  rs_StatusCode : Z;
  rs_Body : gores (string * option string);
}.

(** A stream of a multiplexed connection: its number on the connection and the
    headers it was created with.  Connections are numbered. *)
Record Stream := mkStream {
  st_Connection : nat;
  st_Identifier : Z;
  st_Headers : strmap;
}.

(** The fields [newSelfSignedCACert] sets of an [x509.Certificate] template. *)
Record CertTemplate := mkCertTemplate {
  ct_CommonName : string;
  ct_NotBefore : Z;
  ct_NotAfter : Z;
  ct_IsCA : bool;
}.

(** [certs.Config] without its alternative names; the only usage is client
    authentication. *)
Record CertConfig := mkCertConfig {
  cc_CommonName : string;
  cc_Organization : list string;
}.

Inductive EventType := EventNormal | EventWarning.

Inductive sysE : Type → Type :=
  (* management cluster, through [client.Client] *)
  | Get (k : kind) (key : ObjectKey) : sysE (gores (obj k))
  | ListObj (k : kind) (ns : string) (labels : strmap) : sysE (gores (list (obj k)))
  | Create (k : kind) (o : obj k) : sysE (gores (obj k))
  | Update (k : kind) (o : obj k) : sysE (gores (obj k))
  | Delete (k : kind) (key : ObjectKey) : sysE (gores unit)
  | DeleteRef (r : ObjectReference) : sysE (gores unit)
  (* [patch.NewHelper(o)]; the helper is the snapshot [o] *)
  | NewHelper (k : kind) (o : obj k) : sysE (gores unit)
  (* [helper.Patch(ctx, after)] of the helper created from [before] *)
  | Patch (k : kind) (before after : obj k) : sysE (gores unit)
  (* [client.Patch] with [StrategicMergeFrom(before, OptimisticLock)] *)
  | MergePatch (k : kind) (before after : obj k) : sysE (gores (obj k))
  (* Cluster API helpers that read the API server *)
  | GetConfigOwner (c : CK8sConfig) : sysE (gores (option ConfigOwner))
  | GetClusterByName (ns name : string) : sysE (gores Cluster)
  | GetOwnerCluster (m : ObjectMeta) : sysE (gores (option Cluster))
  | ExternalGet (r : ObjectReference) : sysE (gores Unstructured)
  | NewUnstructuredHelper (o : Unstructured) : sysE (gores unit)
  | PatchUnstructured (before after : Unstructured) : sysE (gores unit)
  | CreateFromTemplate (i : CloneInput) : sysE (gores ObjectReference)
  | GenerateName (base : string) : sysE string
  | Eventf (o : ObjectKey) (t : EventType) (reason msg : string) : sysE unit
  (* workload cluster *)
  | RESTConfig (cluster : ObjectKey) : sysE (gores unit)
  | NewRemoteClient (cluster : ObjectKey) : sysE (gores unit)
  | NewClientset (cluster : ObjectKey) : sysE (gores unit)
  | RoundTripperFor (cluster : ObjectKey) : sysE (gores unit)
  | WGet (cluster : ObjectKey) (k : kind) (key : ObjectKey) : sysE (gores (obj k))
  | WList (cluster : ObjectKey) (k : kind) (labels : strmap) : sysE (gores (list (obj k)))
  | WListPods (cluster : ObjectKey) (ns selector : string) : sysE (gores (list Pod))
  | HttpDo (pod : string) (r : HttpRequest) : sysE (gores HttpResponse)
  (* SPDY: dialling a subresource of a resource, streams of the connection *)
  | DialSpdy (cluster : ObjectKey) (resource ns name subresource protocol : string) : sysE (gores nat)
  | CreateStream (connection : nat) (headers : strmap) : sysE (gores Stream)
  | CloseStream (s : Stream) : sysE (option error)
  | CloseConnection (connection : nat) : sysE (option error)
  | StreamRead (s : Stream) (n : nat) : sysE (string * option error)
  | StreamWrite (s : Stream) (b : string) : sysE (Z * option error)
  (* cryptography *)
  | RandRead (n : nat) : sysE (gores (list ascii))
  | NewPrivateKey : sysE (gores string)
  | CreateCertificate (t : CertTemplate) (key : string) : sysE (gores string)
  | NewSignedCert (c : CertConfig) (key caCert caKey : string) : sysE (gores string)
  (* clock, scheduler and run time *)
  | Now : sysE Z
  | RangeKeys (ks : list string) : sysE (list string)
  (* which of two goroutines makes the next call *)
  | Schedule : sysE bool
  | Panic (msg : string) : sysE Empty_set.

(** What the language itself guarantees about an answer: [range] over a map
    visits every key once, in some order. *)
Definition lang_ok {X} (e : sysE X) : X → Prop :=
  match e in sysE X return X → Prop with
  | RangeKeys ks => λ ks', ks' ≡ₚ ks
  | _ => λ _, True
  end.

(** ** Programs *)

Inductive prog (A : Type) : Type :=
  | Ret (a : A)
  | Vis {X : Type} (e : sysE X) (k : X → prog A).
Arguments Ret {A} a.
Arguments Vis {A X} e k.

Fixpoint prog_bind {A B} (p : prog A) (f : A → prog B) : prog B :=
  match p with
  | Ret a => f a
  | Vis e k => Vis e (λ x, prog_bind (k x) f)
  end.

Definition trigger {X} (e : sysE X) : prog X := Vis e Ret.

(** Two goroutines: at each point the scheduler picks the one that makes its next
    call.  The last component says whether the left one returned first. *)
Fixpoint par {A B} (p : prog A) (q : prog B) : prog (A * B * bool) :=
  match p with
  | Ret a => prog_bind q (λ b, Ret (a, b, true))
  | Vis e k =>
      (fix right (q : prog B) : prog (A * B * bool) :=
         match q with
         | Ret b => prog_bind p (λ a, Ret (a, b, false))
         | Vis f l =>
             Vis Schedule (λ left : bool,
               if left then Vis e (λ x, par (k x) q) else Vis f (λ y, right (l y)))
         end) q
  end.

(** ** Function bodies *)

(** The body of a Go function that mutates the objects of [S] and returns an
    [R]: it either falls through with an [A] or has returned. *)
Definition go (S R A : Type) : Type := S → prog (S * (A + R)).

Section Go.
Context {S R : Type}.

#[global] Instance go_ret : MRet (go S R) := λ A a s, Ret (s, inl a).
#[global] Instance go_bind : MBind (go S R) := λ A B f m s,
  prog_bind (m s) (λ sr, match sr.2 with
                         | inl a => f a sr.1
                         | inr r => Ret (sr.1, inr r)
                         end).

(** [return r] *)
Definition return_ {A} (r : R) : go S R A := λ s, Ret (s, inr r).
(** A call to the environment, and to a function of the model. *)
Definition call {X} (e : sysE X) : go S R X := λ s, Vis e (λ x, Ret (s, inl x)).
Definition callp {X} (p : prog X) : go S R X :=
  λ s, prog_bind p (λ x, Ret (s, inl x)).
(** A call to a function that mutates the caller's objects. *)
Definition calls {X} (f : S → prog (S * X)) : go S R X :=
  λ s, prog_bind (f s) (λ sx, Ret (sx.1, inl sx.2)).
(** Reading and assigning the mutable objects. *)
Definition get : go S R S := λ s, Ret (s, inl s).
Definition gets {A} (f : S → A) : go S R A := λ s, Ret (s, inl (f s)).
Definition modify (f : S → S) : go S R unit := λ s, Ret (f s, inl tt).
(** [panic] *)
Definition panic {A} (msg : string) : go S R A :=
  λ s, Vis (Panic msg) (λ x : Empty_set, match x with end).

(** [if b { body }] *)
Definition when (b : bool) (body : go S R unit) : go S R unit :=
  if b then body else mret tt.

(** [x, err := m; if err != nil { return h(err) }] *)
Definition check {A} (m : go S R (gores A)) (h : error → R) : go S R A :=
  m ≫= λ r, match r with Ok a => mret a | Err e => return_ (h e) end.

(** [if err := m; err != nil { return h(err) }] *)
Definition check_err (m : go S R (option error)) (h : error → R) : go S R unit :=
  m ≫= λ r, match r with None => mret tt | Some e => return_ (h e) end.

(** [x, err := m; if err != nil { body }] where [body] returns. *)
Definition catch {A} (m : go S R (gores A)) (h : error → go S R A) : go S R A :=
  m ≫= λ r, match r with Ok a => mret a | Err e => h e end.

(** A nil dereference panics. *)
Definition deref {A} (o : option A) : go S R A :=
  match o with Some a => mret a | None => panic "nil pointer dereference" end.

(** [for _, x := range l { body }]; [continue] falls through. *)
Fixpoint for_each {A} (l : list A) (body : A → go S R unit) : go S R unit :=
  match l with
  | [] => mret tt
  | x :: l => body x ≫= λ _, for_each l body
  end.

(** The keys of a map in the order [range] visits them. *)
Definition range {A} (m : gmap string A) : go S R (list string) :=
  call (RangeKeys (map_to_list m).*1).

(** The machines of the collection in the order [range] visits them. *)
Definition range_machines (ms : Machines) : go S R (list Machine) :=
  range ms ≫= λ ks,
  mret (omap (λ n, ms !! n) ks).
End Go.

(** A function body as a function: with and without mutated objects. *)
Definition func_on {S R} (body : go S R R) (s : S) : prog (S * R) :=
  prog_bind (body s) (λ sr, Ret (sr.1, match sr.2 with inl r => r | inr r => r end)).
Definition func {R} (body : go unit R R) : prog R :=
  prog_bind (func_on body tt) (λ sr, Ret sr.2).

(** A function with local variables [s]. *)
Definition func_with {S R} (body : go S R R) (s : S) : prog R :=
  prog_bind (func_on body s) (λ sr, Ret sr.2).

(** Running a body on the part of the caller's objects that [into] selects. *)
Definition zoom {S S' R A} (into : S → S') (back : S' → S → S) (m : go S' R A) : go S R A :=
  λ s, prog_bind (m (into s)) (λ sr, Ret (back sr.1 s, sr.2)).

(** ** Environments and weakest preconditions *)

(** [env_pre] is what a call requires, [env_step e x g g'] that the
    environment may answer [x], moving its state from [g] to [g']. *)
Class Env (G : Type) := {
  env_pre : ∀ {X}, sysE X → G → Prop;
  env_step : ∀ {X}, sysE X → X → G → G → Prop;
}.

Section Wp.
Context {G : Type} `{!Env G}.

Fixpoint wp {A} (p : prog A) (g : G) (Q : G → A → Prop) : Prop :=
  match p with
  | Ret a => Q g a
  | Vis e k =>
      env_pre e g ∧
      ∀ x g', lang_ok e x → env_step e x g g' → wp (k x) g' Q
  end.

(** [exec p g g' a]: the program may run from [g] to [g'] and return [a]. *)
Fixpoint exec {A} (p : prog A) (g g' : G) (a : A) : Prop :=
  match p with
  | Ret a' => g' = g ∧ a = a'
  | Vis e k => ∃ x g1, lang_ok e x ∧ env_step e x g g1 ∧ exec (k x) g1 g' a
  end.

Lemma wp_sound {A} (p : prog A) g Q g' a : wp p g Q → exec p g g' a → Q g' a.
Proof.
  revert g. induction p as [a'|X e k IH]; intros g; simpl.
  - by intros HQ [-> ->].
  - intros [_ HQ] (x & g1 & Hx & Hs & He). eauto.
Qed.

Lemma wp_mono {A} (p : prog A) g (Q Q' : G → A → Prop) :
  wp p g Q → (∀ g' a, Q g' a → Q' g' a) → wp p g Q'.
Proof.
  intros HQ HQQ. revert g HQ. induction p as [a|X e k IH]; intros g; simpl; [auto|].
  intros [? HQ]; split; [done|]. eauto.
Qed.

Lemma wp_bind {A B} (p : prog A) (f : A → prog B) g Q :
  wp (prog_bind p f) g Q ↔ wp p g (λ g' a, wp (f a) g' Q).
Proof.
  revert g. induction p as [a|X e k IH]; intros g; simpl; [done|].
  by setoid_rewrite IH.
Qed.

Lemma wp_and {A} (p : prog A) g (Q Q' : G → A → Prop) :
  wp p g Q → wp p g Q' → wp p g (λ g' a, Q g' a ∧ Q' g' a).
Proof.
  revert g. induction p as [a|X e k IH]; intros g; simpl; [auto|].
  intros [? HQ] [_ HQ']; split; [done|]. eauto.
Qed.

(** The two-exit form for function bodies: [K] when the body falls through,
    [Rt] when it returns. *)
Definition gwp {S R A} (m : go S R A) (s : S) (g : G)
    (K : G → S → A → Prop) (Rt : G → S → R → Prop) : Prop :=
  wp (m s) g (λ g' sr, match sr.2 with inl a => K g' sr.1 a | inr r => Rt g' sr.1 r end).

Section Rules.
Context {S R : Type}.
Implicit Types (s : S) (g : G) (Rt : G → S → R → Prop).

Lemma gwp_mono {A} (m : go S R A) s g (K K' : G → S → A → Prop) Rt Rt' :
  gwp m s g K Rt → (∀ g s a, K g s a → K' g s a) → (∀ g s r, Rt g s r → Rt' g s r) →
  gwp m s g K' Rt'.
Proof.
  intros Hm HK HR. eapply wp_mono; [exact Hm|]. intros g' [s' [a|r]]; simpl; auto.
Qed.

Lemma gwp_ret {A} (a : A) s g (K : G → S → A → Prop) Rt :
  K g s a → gwp (mret a) s g K Rt.
Proof. done. Qed.

Lemma gwp_bind {A B} (m : go S R A) (f : A → go S R B) s g K Rt :
  gwp m s g (λ g s a, gwp (f a) s g K Rt) Rt → gwp (m ≫= f) s g K Rt.
Proof.
  intros Hm. unfold gwp, mbind, go_bind. apply wp_bind.
  eapply wp_mono; [exact Hm|]. by intros g' [s' [a|r]].
Qed.

Lemma gwp_return {A} (r : R) s g (K : G → S → A → Prop) Rt :
  Rt g s r → gwp (return_ r) s g K Rt.
Proof. done. Qed.

Lemma gwp_call {X} (e : sysE X) s g K Rt :
  env_pre e g → (∀ x g', lang_ok e x → env_step e x g g' → K g' s x) →
  gwp (call e) s g K Rt.
Proof. by split. Qed.

Lemma gwp_callp {X} (p : prog X) s g K Rt :
  wp p g (λ g' x, K g' s x) → gwp (callp p) s g K Rt.
Proof. intros Hp. unfold gwp, callp. apply wp_bind. exact Hp. Qed.

Lemma gwp_calls {X} (f : S → prog (S * X)) s g K Rt :
  wp (f s) g (λ g' sx, K g' sx.1 sx.2) → gwp (calls f) s g K Rt.
Proof. intros Hp. unfold gwp, calls. apply wp_bind. exact Hp. Qed.

Lemma gwp_get s g K Rt : K g s s → gwp get s g K Rt.
Proof. done. Qed.
Lemma gwp_gets {A} (f : S → A) s g K Rt : K g s (f s) → gwp (gets f) s g K Rt.
Proof. done. Qed.
Lemma gwp_modify f s g K Rt : K g (f s) tt → gwp (modify f) s g K Rt.
Proof. done. Qed.

Lemma gwp_when b body s g K Rt :
  (b = true → gwp body s g K Rt) → (b = false → K g s tt) →
  gwp (when b body) s g K Rt.
Proof. destruct b; intros Ht Hf; [auto|]. by apply gwp_ret, Hf. Qed.

Lemma gwp_panic {A} msg s g (K : G → S → A → Prop) Rt :
  env_pre (Panic msg) g → gwp (panic msg) s g K Rt.
Proof. intros Hp. by split; [|intros []]. Qed.

Lemma gwp_check {A} (m : go S R (gores A)) h s g K Rt :
  gwp m s g (λ g s r, match r with Ok a => K g s a | Err e => Rt g s (h e) end) Rt →
  gwp (check m h) s g K Rt.
Proof.
  intros Hm. apply gwp_bind. eapply gwp_mono; [exact Hm| |done].
  by intros g' s' [a|e].
Qed.

Lemma gwp_check_err (m : go S R (option error)) h s g K Rt :
  gwp m s g (λ g s r, match r with None => K g s tt | Some e => Rt g s (h e) end) Rt →
  gwp (check_err m h) s g K Rt.
Proof.
  intros Hm. apply gwp_bind. eapply gwp_mono; [exact Hm| |done].
  by intros g' s' [e|].
Qed.

Lemma gwp_catch {A} (m : go S R (gores A)) h s g K Rt :
  gwp m s g (λ g s r, match r with Ok a => K g s a | Err e => gwp (h e) s g K Rt end) Rt →
  gwp (catch m h) s g K Rt.
Proof.
  intros Hm. apply gwp_bind. eapply gwp_mono; [exact Hm| |done].
  by intros g' s' [a|e].
Qed.

Lemma gwp_deref {A} (o : option A) s g (K : G → S → A → Prop) Rt :
  (∀ a, o = Some a → K g s a) →
  (o = None → env_pre (Panic "nil pointer dereference") g) →
  gwp (deref o) s g K Rt.
Proof.
  destruct o as [a|]; simpl; intros HK HN; [by apply gwp_ret, HK|].
  by apply gwp_panic, HN.
Qed.

(** Loops: [I done rest] holds before each iteration. *)
Lemma gwp_for_each {A} (l : list A) (body : A → go S R unit)
    (I : list A → list A → G → S → Prop) s g (K : G → S → unit → Prop) Rt :
  I [] l g s →
  (∀ d x r g s, l = d ++ x :: r → I d (x :: r) g s →
    gwp (body x) s g (λ g s _, I (d ++ [x]) r g s) Rt) →
  (∀ g s, I l [] g s → K g s tt) →
  gwp (for_each l body) s g K Rt.
Proof.
  intros H0 Hstep Hend.
  assert (∀ r d g s, l = d ++ r → I d r g s → gwp (for_each r body) s g K Rt) as Hgen.
  { induction r as [|x r IH]; intros d g' s' Hl HI; simpl.
    - rewrite app_nil_r in Hl; subst. apply gwp_ret. auto.
    - apply gwp_bind. eapply gwp_mono; [by eapply Hstep| |done].
      intros g1 s1 u H1. apply (IH (d ++ [x])); [|done].
      by rewrite <- app_assoc. }
  by eapply (Hgen l []).
Qed.

(** The common case: an invariant that does not mention the list. *)
Lemma gwp_for_each_inv {A} (l : list A) (body : A → go S R unit)
    (I : G → S → Prop) s g (K : G → S → unit → Prop) Rt :
  I g s →
  (∀ x g s, x ∈ l → I g s → gwp (body x) s g (λ g s _, I g s) Rt) →
  (∀ g s, I g s → K g s tt) →
  gwp (for_each l body) s g K Rt.
Proof.
  intros H0 Hstep Hend. apply (gwp_for_each _ _ (λ _ _, I)); [done| |done].
  intros d x r g' s' Hl HI. apply Hstep; [|done]. rewrite Hl.
  set_solver.
Qed.

Lemma gwp_zoom {S' A} (into : S → S') (back : S' → S → S) (m : go S' R A) s g
    (K : G → S → A → Prop) Rt :
  gwp m (into s) g (λ g z a, K g (back z s) a) (λ g z r, Rt g (back z s) r) →
  gwp (zoom into back m) s g K Rt.
Proof. intros Hm. unfold gwp, zoom. apply wp_bind. exact Hm. Qed.
End Rules.

Lemma wp_func_on {S R} (body : go S R R) s g Q :
  gwp body s g (λ g s r, Q g (s, r)) (λ g s r, Q g (s, r)) → wp (func_on body s) g Q.
Proof.
  intros Hb. unfold func_on. apply wp_bind. eapply wp_mono; [exact Hb|].
  by intros g' [s' [r|r]].
Qed.

Lemma wp_func_with {S R} (body : go S R R) s g Q :
  gwp body s g (λ g _ r, Q g r) (λ g _ r, Q g r) → wp (func_with body s) g Q.
Proof. intros Hb. unfold func_with. apply wp_bind. by apply wp_func_on. Qed.

Lemma wp_func {R} (body : go unit R R) g Q :
  gwp body tt g (λ g _ r, Q g r) (λ g _ r, Q g r) → wp (func body) g Q.
Proof. intros Hb. unfold func. apply wp_bind. by apply wp_func_on. Qed.
End Wp.

(** ** Running a program against a handler *)

(** A deterministic environment: [None] models an answer that never comes. *)
Definition handler (W : Type) : Type := ∀ X, sysE X → W → option (X * W).

Fixpoint run {W A} (h : handler W) (p : prog A) (w : W) : option (A * W) :=
  match p with
  | Ret a => Some (a, w)
  | Vis e k => match h _ e w with
               | Some (x, w') => run h (k x) w'
               | None => None
               end
  end.

(** A handler that answers as the environment may yields an execution. *)
Lemma run_exec `{!Env W} (h : handler W) {A} (p : prog A) w w' a :
  (∀ X (e : sysE X) w x w', h X e w = Some (x, w') → lang_ok e x ∧ env_step e x w w') →
  run h p w = Some (a, w') → exec p w w' a.
Proof.
  intros Hh. revert w. induction p as [a'|X e k IH]; intros w; simpl; [naive_solver|].
  destruct (h X e w) as [[x w1]|] eqn:Hx; [|done]. intros Hr.
  apply Hh in Hx as [Hx1 Hx2]. exists x, w1. auto.
Qed.

(** ** Traces *)

(** The environment that answers anything and records the exchange. *)
Inductive obs : Type :=
  | Obs (X : Type) (e : sysE X) (x : X).
Arguments Obs {X} e x.
Abbreviation trace := (list obs).

(** Any answer is possible; a panic is not allowed. *)
#[export] Instance trace_env : Env trace := {|
  env_pre := λ _ e _, match e with Panic _ => False | _ => True end;
  env_step := λ _ e x t t', t' = t ++ [Obs e x];
|}.

(** What a program has done stays done: a postcondition that only asks for
    exchanges in the trace can be shown of each goroutine by itself. *)
Definition grows (Q : trace → Prop) : Prop := ∀ t t', (∀ o, o ∈ t → o ∈ t') → Q t → Q t'.

Lemma wp_trace_grows {A} (p : prog A) (t t' : trace) (Q : trace → A → Prop) :
  (∀ a, grows (λ t, Q t a)) → (∀ o, o ∈ t → o ∈ t') → wp p t Q → wp p t' Q.
Proof.
  intros HQ. revert t t'. induction p as [a|X e k IH]; intros t t' Ht; simpl.
  - by apply HQ.
  - intros [Hpre Hk]. split; [done|]. intros x t1 Hx ->. eapply IH; [|by apply Hk].
    intros o. rewrite !elem_of_app. naive_solver.
Qed.

Lemma wp_trace_frame {A} (p : prog A) (t : trace) (P : trace → A → Prop) (R : trace → Prop) :
  grows R → wp p t P → R t → wp p t (λ t' a, P t' a ∧ R t').
Proof.
  intros HR. revert t. induction p as [a|X e k IH]; intros t; simpl; [done|].
  intros [Hpre Hk] Ht. split; [done|]. intros x t' Hx ->. apply IH; [by apply Hk|].
  eapply HR; [|exact Ht]. intros o Ho. apply elem_of_app. by left.
Qed.

(** Two goroutines, each with its own postcondition, under every schedule. *)
Lemma wp_par {A B} (p : prog A) (q : prog B) (t : trace) (P : trace → A → Prop) (Q : trace → B → Prop) :
  (∀ a, grows (λ t, P t a)) → (∀ b, grows (λ t, Q t b)) →
  wp p t P → wp q t Q → wp (par p q) t (λ t r, P t r.1.1 ∧ Q t r.1.2).
Proof.
  intros HP HQ. revert t q. induction p as [a|X e k IHp]; intros t q Hp Hq.
  { apply wp_bind. eapply wp_mono; [by apply (wp_trace_frame q t Q _ (HP a))|]. simpl. tauto. }
  revert t Hp Hq. induction q as [b|Y f l IHq]; intros t Hp Hq.
  { change (par (Vis e k) (Ret b)) with (prog_bind (Vis e k) (λ a, Ret (a, b, false))).
    apply wp_bind. eapply wp_mono; [by apply (wp_trace_frame _ t P _ (HQ b))|]. done. }
  split; [done|]. intros left t1 _ ->.
  assert (∀ o o1 o2, o ∈ t ++ [o2] → o ∈ (t ++ [o1]) ++ [o2]) as Happ
    by (intros *; rewrite !elem_of_app; naive_solver).
  assert (∀ o o1 o2, o ∈ t → o ∈ (t ++ [o1]) ++ [o2]) as Happ'
    by (intros *; rewrite !elem_of_app; naive_solver).
  destruct left.
  - destruct Hp as [Hpre Hp]. split; [done|]. intros x t' Hx ->. apply IHp.
    + eapply wp_trace_grows; [done| |by apply Hp]. auto.
    + eapply wp_trace_grows; [done| |exact Hq]. auto.
  - destruct Hq as [Hpre Hq]. split; [done|]. intros y t' Hy ->. apply IHq.
    + eapply wp_trace_grows; [done| |exact Hp]. auto.
    + eapply wp_trace_grows; [done| |by apply Hq]. auto.
Qed.

(** ** Automation for [gwp] goals *)

Ltac wp_beta := cbv beta.

(** One step of symbolic execution, driven by the head of the program. *)
Ltac wp_step :=
  lazymatch goal with
  | |- gwp (mbind _ _) _ _ _ _ => apply gwp_bind
  | |- gwp (mret _) _ _ _ _ => apply gwp_ret
  | |- gwp (return_ _) _ _ _ _ => apply gwp_return
  | |- gwp get _ _ _ _ => apply gwp_get
  | |- gwp (gets _) _ _ _ _ => apply gwp_gets
  | |- gwp (modify _) _ _ _ _ => apply gwp_modify
  | |- gwp (when _ _) _ _ _ _ => apply gwp_when; intros ?
  | |- gwp (check _ _) _ _ _ _ => apply gwp_check
  | |- gwp (check_err _ _) _ _ _ _ => apply gwp_check_err
  | |- gwp (catch _ _) _ _ _ _ => apply gwp_catch
  | |- gwp (callp _) _ _ _ _ => apply gwp_callp
  | |- gwp (calls _) _ _ _ _ => apply gwp_calls
  | |- gwp (zoom _ _ _) _ _ _ _ => apply gwp_zoom
  | |- gwp (range _) _ _ _ _ => unfold range at 1
  | |- wp (func _) _ _ => apply wp_func
  | |- wp (func_on _ _) _ _ => apply wp_func_on
  | |- wp (func_with _ _) _ _ => apply wp_func_with
  | |- wp (Ret _) _ _ => red
  end; wp_beta.

(** Several steps, through the pairs that carry a function's result. *)
Ltac wp_run := repeat first [wp_step | progress cbn [fst snd]].
