(* ===== verification/Libs.v ===== *)
(** The pure functions of third-party packages the controllers call: API
    machinery errors, the Cluster API utilities for conditions, machine
    collections, failure domains and owner references, and controller-runtime's
    finalizers.  Each package is a class of operations, a parameter of every
    definition that uses it; the documented behaviour that a theorem relies on
    is a separate class of laws.  [RefLibs] shows that the laws can hold. *)

From S2P Require Import Prelude Objects ApiTypes.

(** ** Constants of sigs.k8s.io/cluster-api *)

Module Clusterv1.
Definition ClusterNameLabel : string := "cluster.x-k8s.io/cluster-name".
Definition MachineControlPlaneLabel : string := "cluster.x-k8s.io/control-plane".
Definition MachineControlPlaneNameLabel : string := "cluster.x-k8s.io/control-plane-name".
Definition MachineDeploymentNameLabel : string := "cluster.x-k8s.io/deployment-name".
Definition ClusterSecretType : string := "cluster.x-k8s.io/secret".
Definition TemplateSuffix : string := "Template".
Definition GroupVersion : string := "cluster.x-k8s.io/v1beta1".
Definition ClusterKind : string := "Cluster".
Definition DeleteMachineAnnotation : string := "cluster.x-k8s.io/delete-machine".
Definition TemplateClonedFromNameAnnotation : string := "cluster.x-k8s.io/cloned-from-name".
Definition TemplateClonedFromGroupKindAnnotation : string :=
  "cluster.x-k8s.io/cloned-from-groupkind".
Definition PreTerminateDeleteHookAnnotationPrefix : string :=
  "pre-terminate.delete.hook.machine.cluster.x-k8s.io".
Definition ReadyCondition : ConditionType := "Ready".
Definition ControlPlaneInitializedCondition : ConditionType := "ControlPlaneInitialized".
Definition MachineHealthCheckSucceededCondition : ConditionType := "HealthCheckSucceeded".
Definition MachineOwnerRemediatedCondition : ConditionType := "OwnerRemediated".
Definition PreTerminateDeleteHookSucceededCondition : ConditionType :=
  "PreTerminateDeleteHookSucceeded".
Definition DeletingReason : string := "Deleting".
Definition WaitingForRemediationReason : string := "WaitingForRemediation".
Definition RemediationFailedReason : string := "RemediationFailed".
Definition RemediationInProgressReason : string := "RemediationInProgress".
Definition WaitingForControlPlaneAvailableReason : string := "WaitingForControlPlaneAvailable".
End Clusterv1.

(** ** k8s.io/apimachinery: api/errors, util/errors, util/intstr *)

Class ApiErrors := {
  IsNotFound : error → bool;
  IsAlreadyExists : error → bool;
  NewAggregate : list error → option error;
  IntValue : IntOrString → Z;
}.

(** A status error is classified by its reason, through [%w] wrapping; other
    errors have no reason.  Aggregating no error gives nil. *)
Class ApiErrorsLaws `{!ApiErrors} : Prop := {
  IsNotFound_status r m : IsNotFound (ErrStatus r m) = bool_decide (r = NotFound);
  IsNotFound_wrap p e q : IsNotFound (ErrWrap p e q) = IsNotFound e;
  IsNotFound_new m : IsNotFound (ErrNew m) = false;
  IsAlreadyExists_status r m :
    IsAlreadyExists (ErrStatus r m) = bool_decide (r = AlreadyExists);
  NewAggregate_nil : NewAggregate [] = None;
  NewAggregate_cons e es : is_Some (NewAggregate (e :: es));
  IntValue_int z : IntValue (IntVal z) = z;
}.

(** ** sigs.k8s.io/cluster-api/util/conditions *)

(** The package works on the conditions of an object through its
    [GetConditions] and [SetConditions]. *)
Class ConditionsLib := {
  cGet : Conditions → ConditionType → option Condition;
  cSet : Condition → Conditions → Conditions;
  cDelete : ConditionType → Conditions → Conditions;
  (* [SetSummary(to, WithConditions(ts))] and
     [SetAggregate(to, t, froms, AddSourceRef(), WithStepCounterIf(false))] *)
  cSetSummary : list ConditionType → Conditions → Conditions;
  cSetAggregate : ConditionType → list (string * Conditions) → Conditions → Conditions;
}.

Section Conditions.
Context `{!ConditionsLib}.

(** [MarkTrue], [MarkFalse], [MarkUnknown]: [Set] of the corresponding
    condition. *)
Definition MarkTrue (t : ConditionType) (cs : Conditions) : Conditions :=
  cSet (mkCond t ConditionTrue SeverityNone "" "") cs.
Definition MarkFalse (t : ConditionType) (reason : string) (s : ConditionSeverity)
    (msg : string) (cs : Conditions) : Conditions :=
  cSet (mkCond t ConditionFalse s reason msg) cs.
Definition MarkUnknown (t : ConditionType) (reason msg : string) (cs : Conditions) : Conditions :=
  cSet (mkCond t ConditionUnknown SeverityNone reason msg) cs.

Definition cHas (cs : Conditions) (t : ConditionType) : bool :=
  match cGet cs t with Some _ => true | None => false end.
Definition cIsTrue (cs : Conditions) (t : ConditionType) : bool :=
  match cGet cs t with Some c => bool_decide (cond_Status c = ConditionTrue) | None => false end.
Definition cIsFalse (cs : Conditions) (t : ConditionType) : bool :=
  match cGet cs t with Some c => bool_decide (cond_Status c = ConditionFalse) | None => false end.
Definition cGetReason (cs : Conditions) (t : ConditionType) : string :=
  match cGet cs t with Some c => cond_Reason c | None => "" end.
End Conditions.

(** A set condition is read back; the others are left alone.  (The transition
    times, which the program does not read, are not part of the model.) *)
Class ConditionsLaws `{!ConditionsLib} : Prop := {
  cGet_Set_eq c cs : cGet (cSet c cs) (cond_Type c) = Some c;
  cGet_Set_ne c cs t : t ≠ cond_Type c → cGet (cSet c cs) t = cGet cs t;
  cGet_Delete_eq t cs : cGet (cDelete t cs) t = None;
  cGet_Delete_ne t t' cs : t' ≠ t → cGet (cDelete t cs) t' = cGet cs t';
  cGet_Summary ts cs t : t ≠ Clusterv1.ReadyCondition → cGet (cSetSummary ts cs) t = cGet cs t;
  cGet_Aggregate t' l cs t : t ≠ t' → cGet (cSetAggregate t' l cs) t = cGet cs t;
}.

(** ** sigs.k8s.io/cluster-api/util/collections and failuredomains *)

Class CollectionsLib := {
  (* [ms.Filter(f)], [ms.AnyFilter(fs...)], [ms.Difference(ms')] *)
  mFilter : (Machine → bool) → Machines → Machines;
  mAnyFilter : list (Machine → bool) → Machines → Machines;
  mDifference : Machines → Machines → Machines;
  mOldest : Machines → option Machine;
  mLowestVersion : Machines → option string;
  FromMachineList : list Machine → Machines;
  (* filters *)
  HasDeletionTimestamp : Machine → bool;
  HasNode : Machine → bool;
  IsUnhealthy : Machine → bool;
  IsReady : Machine → bool;
  HasAnnotationKey : string → Machine → bool;
  InFailureDomains : list (option string) → Machine → bool;
  OwnedMachines : ObjectMeta → Machine → bool;
  ControlPlaneMachines : string → Machine → bool;
  AdoptableControlPlaneMachines : string → Machine → bool;
  ShouldRolloutAfter : Z → option Z → Machine → bool;
  (* [FailureDomains.FilterControlPlane], [GetIDs], [PickMost], [PickFewest] *)
  FilterControlPlane : FailureDomains → FailureDomains;
  GetIDs : FailureDomains → list (option string);
  PickMost : FailureDomains → Machines → Machines → option string;
  PickFewest : FailureDomains → Machines → Machines → option string;
}.

Class CollectionsLaws `{!CollectionsLib} : Prop := {
  (* machines by name, when no two have the same *)
  FromMachineList_lookup l n m :
    NoDup (m_Name <$> l) → FromMachineList l !! n = Some m ↔ m ∈ l ∧ m_Name m = n;
  mFilter_lookup f ms n :
    mFilter f ms !! n = match ms !! n with
                        | Some m => if f m then Some m else None
                        | None => None
                        end;
  mAnyFilter_lookup fs ms n :
    mAnyFilter fs ms !! n = match ms !! n with
                            | Some m => if existsb (λ f, f m) fs then Some m else None
                            | None => None
                            end;
  mDifference_lookup ms ms' n :
    mDifference ms ms' !! n = match ms' !! n with Some _ => None | None => ms !! n end;
  (* the oldest machine of a collection is one of its machines, and a
     collection without one is empty *)
  mOldest_elem ms m : mOldest ms = Some m → ∃ n, ms !! n = Some m;
  mOldest_min ms m m' n :
    mOldest ms = Some m → ms !! n = Some m' →
    (om_CreationTimestamp (m_meta m) ≤ om_CreationTimestamp (m_meta m'))%Z;
  mOldest_none ms : mOldest ms = None → ms = ∅;
  HasDeletionTimestamp_spec m : HasDeletionTimestamp m = deleting (m_meta m);
  HasNode_spec m : HasNode m = match m_NodeRef m with Some _ => true | None => false end;
  HasAnnotationKey_spec k m :
    HasAnnotationKey k m = match ann (m_meta m) k with Some _ => true | None => false end;
  (* membership of the machine's failure domain in the given ones *)
  InFailureDomains_spec fds m : InFailureDomains fds m = bool_decide (m_FailureDomain m ∈ fds);
  (* [PickMost] answers a domain of some machine to pick from, and the one with
     most machines *)
  PickMost_elem fds all ms fd :
    ms ≠ ∅ → (∀ n m, ms !! n = Some m → m_FailureDomain m ∈ GetIDs fds) →
    PickMost fds all ms = fd → ∃ n m, ms !! n = Some m ∧ m_FailureDomain m = fd;
}.

(** ** Owner references, finalizers, pausing, readiness *)

Class MetaLib := {
  (* [metav1.NewControllerRef(owner, gvk)] *)
  NewControllerRef : ObjectMeta → string → string → OwnerReference;
  (* [metav1.IsControlledBy] / [util.IsControlledBy], [util.IsOwnedByObject] *)
  IsControlledBy : ObjectMeta → ObjectMeta → bool;
  IsOwnedByObject : ObjectMeta → ObjectMeta → bool;
  EnsureOwnerRef : list OwnerReference → OwnerReference → list OwnerReference;
  (* [controllerutil.SetControllerReference]: [None] when it fails *)
  SetControllerReference : ObjectMeta → ObjectMeta → option ObjectMeta;
  ContainsFinalizer : ObjectMeta → string → bool;
  AddFinalizer : ObjectMeta → string → ObjectMeta;
  RemoveFinalizer : ObjectMeta → string → ObjectMeta;
  IsPaused : Cluster → ObjectMeta → bool;
  HasWithPrefix : string → option strmap → bool;
  (* [endpoint.IsZero], [IsValid], [String] *)
  ep_IsZero : APIEndpoint → bool;
  ep_IsValid : APIEndpoint → bool;
  ep_String : APIEndpoint → string;
  (* [collections.ControlPlaneSelectorForCluster(name).String()] *)
  ControlPlaneSelector : string → string;
  (* [util.IsNodeReady], [podv1.IsPodReady] *)
  IsNodeReady : Node → bool;
  IsPodReady : Pod → bool;
}.

Class MetaLaws `{!MetaLib} : Prop := {
  ContainsFinalizer_spec m f : ContainsFinalizer m f = bool_decide (f ∈ om_Finalizers m);
  AddFinalizer_elem m f : f ∈ om_Finalizers (AddFinalizer m f);
  RemoveFinalizer_not m f : f ∉ om_Finalizers (RemoveFinalizer m f);
  NewControllerRef_controller m a k : or_Controller (NewControllerRef m a k) = Some true;
  NewControllerRef_UID m a k : or_UID (NewControllerRef m a k) = om_UID m;
  (* it sets the controller reference and nothing else *)
  SetControllerReference_spec o m m' :
    SetControllerReference o m = Some m' →
    key_of m' = key_of m ∧ IsControlledBy m' o = true;
  (* an object is controlled by the owner its controller reference names *)
  IsControlledBy_spec m o :
    IsControlledBy m o = true ↔
    ∃ r, find (λ r, bool_decide (or_Controller r = Some true)) (om_OwnerReferences m) = Some r ∧
         or_UID r = om_UID o;
}.

(** ** k8s.io/apimachinery: runtime/schema *)

Class SchemaLib := {
  (* [ref.GroupVersionKind().GroupKind().String()] *)
  GroupKindString : ObjectReference → string;
}.

(** ** Formatting of times *)

(** [t.Format(layout)] depends on the time zone of the process. *)
Class TimeFormat := {
  FormatRFC1123Z : Z → string;
  FormatRFC3339 : Z → string;
  (* [%s] of a [time.Time] *)
  time_String : Z → string;
}.

Class TimeFormatLaws `{!TimeFormat} : Prop := {
  FormatRFC1123Z_nonempty t : FormatRFC1123Z t ≠ EmptyString;
}.

(** [metav1.Time] as JSON: the text of a time that is not zero, and the time a
    text stands for. *)
Class MetaTimeLib := {
  MarshalTime : Z → string;
  UnmarshalTime : string → option Z;
}.

(** RFC 3339 in UTC keeps the whole seconds, up to the year 9999. *)
Definition whole_seconds (t : Z) : Z := (t - t `mod` Time.Second)%Z.

Class MetaTimeLaws `{!MetaTimeLib} : Prop := {
  UnmarshalTime_Marshal t :
    (0 ≤ t < 253402300800 * Time.Second)%Z → UnmarshalTime (MarshalTime t) = Some (whole_seconds t);
}.

(** ** Certificates: sigs.k8s.io/cluster-api/util/certs and crypto/x509 *)

(** Certificates and private keys are opaque; PEM blocks are their text. *)
Class CertsLib := {
  EncodeCertPEM : string → string;
  EncodePrivateKeyPEM : string → string;
  EncodePublicKeyPEM : string → gores string;
  (* a text without a PEM block of the kind gives a nil certificate or key *)
  DecodeCertPEM : string → gores (option string);
  DecodePrivateKeyPEM : string → gores (option string);
  ParseCertificate : string → gores string;
}.

(** What is encoded is decoded. *)
Class CertsLaws `{!CertsLib} : Prop := {
  DecodeCertPEM_Encode c : DecodeCertPEM (EncodeCertPEM c) = Ok (Some c);
  DecodePrivateKeyPEM_Encode k : DecodePrivateKeyPEM (EncodePrivateKeyPEM k) = Ok (Some k);
}.

(** ** Consequences of the laws *)

Section ConditionLemmas.
Context `{!ConditionsLib, !ConditionsLaws}.

Lemma cGet_MarkTrue t cs :
  cGet (MarkTrue t cs) t = Some (mkCond t ConditionTrue SeverityNone "" "").
Proof. apply (cGet_Set_eq (mkCond t _ _ _ _)). Qed.

Lemma cGet_MarkFalse t r s m cs :
  cGet (MarkFalse t r s m cs) t = Some (mkCond t ConditionFalse s r m).
Proof. apply (cGet_Set_eq (mkCond t _ _ _ _)). Qed.

Lemma cGet_MarkUnknown t r m cs :
  cGet (MarkUnknown t r m cs) t = Some (mkCond t ConditionUnknown SeverityNone r m).
Proof. apply (cGet_Set_eq (mkCond t _ _ _ _)). Qed.

Lemma cGet_MarkTrue_ne t t' cs : t' ≠ t → cGet (MarkTrue t cs) t' = cGet cs t'.
Proof. intros. by apply (cGet_Set_ne (mkCond t _ _ _ _)). Qed.

Lemma cGet_MarkFalse_ne t t' r s m cs : t' ≠ t → cGet (MarkFalse t r s m cs) t' = cGet cs t'.
Proof. intros. by apply (cGet_Set_ne (mkCond t _ _ _ _)). Qed.

Lemma cGet_MarkUnknown_ne t t' r m cs : t' ≠ t → cGet (MarkUnknown t r m cs) t' = cGet cs t'.
Proof. intros. by apply (cGet_Set_ne (mkCond t _ _ _ _)). Qed.

Lemma cIsTrue_MarkTrue t cs : cIsTrue (MarkTrue t cs) t = true.
Proof. unfold cIsTrue. by rewrite cGet_MarkTrue. Qed.

Lemma cIsFalse_MarkFalse t r s m cs : cIsFalse (MarkFalse t r s m cs) t = true.
Proof. unfold cIsFalse. by rewrite cGet_MarkFalse. Qed.
End ConditionLemmas.

Section CollectionLemmas.
Context `{!CollectionsLib, !CollectionsLaws}.
Implicit Types (ms : Machines) (f : Machine → bool).

Lemma mFilter_Some f ms n m : mFilter f ms !! n = Some m ↔ ms !! n = Some m ∧ f m = true.
Proof.
  rewrite mFilter_lookup. destruct (ms !! n) as [m'|]; [|naive_solver].
  destruct (f m') eqn:Hf; naive_solver congruence.
Qed.

Lemma mFilter_subseteq f ms : mFilter f ms ⊆ ms.
Proof. apply map_subseteq_spec. intros n m. rewrite mFilter_Some. tauto. Qed.

Lemma mFilter_none f ms n m : mFilter f ms = ∅ → ms !! n = Some m → f m = false.
Proof.
  intros He Hn. destruct (f m) eqn:Hf; [|done].
  assert (mFilter f ms !! n = Some m) as Hm by (by apply mFilter_Some).
  by rewrite He, lookup_empty in Hm.
Qed.

Lemma mOldest_Some ms n m : ms !! n = Some m → is_Some (mOldest ms).
Proof.
  intros Hn. destruct (mOldest ms) eqn:Ho; [done|].
  apply mOldest_none in Ho. by rewrite Ho, lookup_empty in Hn.
Qed.
End CollectionLemmas.

(** ** The machines of a collection in the order [range] visits them *)

Lemma lookup_range_elem (ms : Machines) ks m :
  ks ≡ₚ (map_to_list ms).*1 → m ∈ omap (λ n, ms !! n) ks ↔ ∃ n, ms !! n = Some m.
Proof.
  intros Hks. rewrite list_elem_of_omap. split; [naive_solver|]. intros [n Hn]. exists n.
  split; [|done]. rewrite Hks, list_elem_of_fmap. exists (n, m). split; [done|].
  by apply elem_of_map_to_list.
Qed.

Lemma lookup_range_length (ms : Machines) ks :
  ks ≡ₚ (map_to_list ms).*1 → length (omap (λ n, ms !! n) ks) = size ms.
Proof.
  intros Hks. assert (∀ n, n ∈ ks → is_Some (ms !! n)) as Hin.
  { intros n. rewrite Hks, list_elem_of_fmap. intros ([n' m] & -> & Hm%elem_of_map_to_list). by exists m. }
  transitivity (length ks).
  - clear Hks. induction ks as [|n ks IH]; simpl; [done|].
    destruct (Hin n) as [m Hm]; [by left|]. rewrite Hm. simpl. f_equal. apply IH.
    intros n' Hn'. apply Hin. by right.
  - rewrite Hks, length_fmap. apply length_map_to_list.
Qed.

Lemma lookup_range_NoDup (ms : Machines) ks :
  ks ≡ₚ (map_to_list ms).*1 → (∀ n m, ms !! n = Some m → m_Name m = n) →
  NoDup (m_Name <$> omap (λ n, ms !! n) ks).
Proof.
  intros Hks Hname. assert (NoDup ks) as Hnd by (rewrite Hks; apply NoDup_fst_map_to_list).
  clear Hks. induction Hnd as [|n ks Hn Hnd IH]; simpl; [constructor|].
  destruct (ms !! n) as [m|] eqn:Hm; simpl; [|done]. constructor; [|done].
  rewrite list_elem_of_fmap. intros (m' & Heq & (n' & Hn' & Hm')%list_elem_of_omap).
  apply Hname in Hm as <-. apply Hname in Hm' as <-. congruence.
Qed.
