(* ===== verification/Calendar.v ===== *)
(** The part of Go's [time] package that works with calendar dates, in UTC: the
    day number of a date, the date of a day number, [Date] with its
    normalisation, [AddDate], and dates written as 2006-01-02.  It is used by
    src/pkg/time/duration.go and src/hack/tools/release/notes.go.

    The calendar repeats after a cycle of 400 years. *)

From S2P Require Import Prelude Objects.

Module Calendar.
Open Scope Z_scope.

Definition leap (y : Z) : bool :=
  (y mod 4 =? 0) && (negb (y mod 100 =? 0) || (y mod 400 =? 0)).

Definition days_in (y m : Z) : Z :=
  match m with
  | 2 => if leap y then 29 else 28
  | 4 | 6 | 9 | 11 => 30
  | _ => 31
  end.

(** The days of the year before a month. *)
Definition days_before (y m : Z) : Z :=
  let plain := match m with
    | 1 => 0 | 2 => 31 | 3 => 59 | 4 => 90 | 5 => 120 | 6 => 151
    | 7 => 181 | 8 => 212 | 9 => 243 | 10 => 273 | 11 => 304 | _ => 334
    end in
  if (2 <? m) && leap y then plain + 1 else plain.

(** The days before a year, counted from January 1 of the year 1. *)
Definition year_start (y : Z) : Z :=
  365 * (y - 1) + (y - 1) / 4 - (y - 1) / 100 + (y - 1) / 400.

(** Days since January 1, 1970. *)
Definition epoch : Z := 719162.
Definition day_number (y m d : Z) : Z := year_start y + days_before y m + (d - 1) - epoch.

Definition valid (y m d : Z) : bool := (1 <=? m) && (m <=? 12) && (1 <=? d) && (d <=? days_in y m).

(** The month and day of a day of the year. *)
Fixpoint month_day (y : Z) (n : nat) (m doy : Z) : Z * Z :=
  match n with
  | O => (m, doy + 1)
  | S n => if doy <? days_in y m then (m, doy + 1)
           else month_day y n (m + 1) (doy - days_in y m)
  end.

Definition cycle : Z := 146097.

(** The date of a day of the cycle that starts with the year 1. *)
Definition cycle_date (r : Z) : Z * Z * Z :=
  let guess := Z.min 400 (r / 365 + 1) in
  let y := if r <? year_start guess then guess - 1 else guess in
  let '(m, d) := month_day y 11 1 (r - year_start y) in
  (y, m, d).

Definition date_of (z : Z) : Z * Z * Z :=
  let z := z + epoch in
  let '(y, m, d) := cycle_date (z mod cycle) in
  (y + 400 * (z / cycle), m, d).

(** ** The conversions are inverse to each other *)

(** Linear arithmetic with division by constants. *)
Ltac calendar := Z.to_euclidean_division_equations; lia.

Lemma leap_spec y : leap y = true ↔ y mod 4 = 0 ∧ (y mod 100 ≠ 0 ∨ y mod 400 = 0).
Proof.
  unfold leap. rewrite andb_true_iff, orb_true_iff, negb_true_iff, !Z.eqb_eq, Z.eqb_neq. tauto.
Qed.

Lemma leap_cycle y k : leap (y + 400 * k) = leap y.
Proof. apply eq_true_iff_eq. rewrite !leap_spec. calendar. Qed.

Definition year_days (y : Z) : Z := if leap y then 366 else 365.

Lemma year_start_next y : year_start (y + 1) = year_start y + year_days y.
Proof.
  unfold year_days, year_start. pose proof (leap_spec y) as Hl.
  destruct (leap y).
  - destruct Hl as [Hl _]. specialize (Hl eq_refl). calendar.
  - assert (¬ (y mod 4 = 0 ∧ (y mod 100 ≠ 0 ∨ y mod 400 = 0))) as Hn by (intros Hy; by apply Hl in Hy).
    clear Hl. calendar.
Qed.

Lemma year_start_cycle y k : year_start (y + 400 * k) = year_start y + cycle * k.
Proof. unfold year_start, cycle. calendar. Qed.

Lemma year_start_unique y1 y2 r :
  year_start y1 ≤ r < year_start (y1 + 1) → year_start y2 ≤ r < year_start (y2 + 1) → y1 = y2.
Proof. unfold year_start. calendar. Qed.

(** *** The day of the year *)

Lemma month_cases m : 1 ≤ m ≤ 12 →
  m = 1 ∨ m = 2 ∨ m = 3 ∨ m = 4 ∨ m = 5 ∨ m = 6 ∨ m = 7 ∨ m = 8 ∨ m = 9 ∨ m = 10 ∨ m = 11 ∨ m = 12.
Proof. lia. Qed.

Lemma valid_spec y m d : valid y m d = true ↔ 1 ≤ m ≤ 12 ∧ 1 ≤ d ≤ days_in y m.
Proof. unfold valid. rewrite !andb_true_iff, !Z.leb_le. lia. Qed.

(** Case analysis on the month of a date and the length of the year. *)
Ltac by_month H :=
  apply valid_spec in H as [?Hm ?Hd]; apply month_cases in Hm; destruct_or! Hm; subst.

Lemma days_before_valid y m d : valid y m d = true → 0 ≤ days_before y m + (d - 1) < year_days y.
Proof.
  intros Hv. by_month Hv; unfold days_before, days_in, year_days in *;
    destruct (leap y); simpl in *; lia.
Qed.

Lemma month_day_spec y doy :
  0 ≤ doy < year_days y →
  let '(m, d) := month_day y 11 1 doy in valid y m d = true ∧ days_before y m + (d - 1) = doy.
Proof.
  intros Hd. cbn [month_day].
  repeat match goal with |- context [?a <? ?b] =>
    lazymatch a with context [if _ then _ else _] => fail | _ => destruct (Z.ltb_spec a b) end end;
    rewrite valid_spec; unfold days_before, days_in, year_days in *;
    destruct (leap y); simpl in *; lia.
Qed.

Lemma month_unique y m d m' d' :
  valid y m d = true → valid y m' d' = true →
  days_before y m + (d - 1) = days_before y m' + (d' - 1) → m = m' ∧ d = d'.
Proof.
  intros Hv Hv' Heq. assert (m = m'); [|subst; lia]. by_month Hv; by_month Hv';
    unfold days_before, days_in in *; destruct (leap y); simpl in *; lia.
Qed.

(** *** The cycle *)

Lemma cycle_date_spec r :
  0 ≤ r < cycle → let '(y, m, d) := cycle_date r in valid y m d = true ∧ day_number y m d + epoch = r.
Proof.
  intros Hr. unfold cycle_date. set (y := if _ : bool then _ else _).
  assert (year_start y ≤ r < year_start (y + 1)) as Hy.
  { subst y. unfold cycle in Hr. destruct (Z.ltb_spec r (year_start (Z.min 400 (r / 365 + 1))));
      unfold year_start in *; calendar. }
  pose proof (month_day_spec y (r - year_start y)) as Hm. rewrite year_start_next in Hy.
  destruct (month_day y 11 1 _) as [m d]. destruct Hm as [Hv Hd]; [lia|].
  split; [done|]. unfold day_number. lia.
Qed.

Lemma valid_cycle y k m d : valid (y + 400 * k) m d = valid y m d.
Proof. unfold valid, days_in. by rewrite leap_cycle. Qed.

Lemma day_number_cycle y k m d : day_number (y + 400 * k) m d = day_number y m d + cycle * k.
Proof. unfold day_number, days_before. rewrite year_start_cycle, leap_cycle. lia. Qed.

(** The date of a day is a date, the one with this day number; a day number has
    one date. *)
Lemma date_of_spec z :
  let '(y, m, d) := date_of z in valid y m d = true ∧ day_number y m d = z.
Proof.
  unfold date_of. pose proof (cycle_date_spec ((z + epoch) mod cycle)) as Hc.
  destruct (cycle_date _) as [[y m] d]. destruct Hc as [Hv Hd].
  { apply Z.mod_pos_bound. done. }
  rewrite valid_cycle, day_number_cycle. split; [done|].
  pose proof (Z.div_mod (z + epoch) cycle ltac:(done)). lia.
Qed.

Lemma day_number_inj y m d y' m' d' :
  valid y m d = true → valid y' m' d' = true → day_number y m d = day_number y' m' d' →
  (y, m, d) = (y', m', d').
Proof.
  intros Hv Hv' Heq. pose proof (days_before_valid _ _ _ Hv). pose proof (days_before_valid _ _ _ Hv').
  unfold day_number in Heq. assert (y = y') as <-.
  { apply (year_start_unique y y' (year_start y + (days_before y m + (d - 1)))); rewrite year_start_next; lia. }
  destruct (month_unique y m d m' d') as [-> ->]; [done|done|lia|done].
Qed.

Lemma date_of_day y m d : valid y m d = true → date_of (day_number y m d) = (y, m, d).
Proof.
  intros Hv. pose proof (date_of_spec (day_number y m d)) as Hs.
  destruct (date_of _) as [[y' m'] d']. destruct Hs as [Hv' Heq]. by apply day_number_inj.
Qed.

(** ** [time.Date] and [AddDate] *)

(** The day number of a date whose month and day may be out of range. *)
Definition Date (y m d : Z) : Z := day_number (y + (m - 1) / 12) ((m - 1) mod 12 + 1) 1 + (d - 1).

Definition Day : Z := 24 * Time.Hour.

(** [t.AddDate(years, months, days)]: the time of the day is kept. *)
Definition AddDate (t years months days : Z) : Z :=
  let '(y, m, d) := date_of (t / Day) in
  Date (y + years) (m + months) (d + days) * Day + t mod Day.

Lemma Date_valid y m d : 1 ≤ m ≤ 12 → Date y m d = day_number y m d.
Proof.
  intros Hm. unfold Date. rewrite Z.div_small, Z.mod_small by lia.
  replace (y + 0) with y by lia. replace (m - 1 + 1) with m by lia. unfold day_number. lia.
Qed.

Lemma AddDate_days t n : AddDate t 0 0 n = t + n * Day.
Proof.
  unfold AddDate. pose proof (date_of_spec (t / Day)) as Hd. destruct (date_of _) as [[y m] d].
  destruct Hd as [Hv Hd]. rewrite !Z.add_0_r. apply valid_spec in Hv as [Hm _].
  rewrite Date_valid by done. unfold day_number in *.
  pose proof (Z.div_mod t Day ltac:(done)). lia.
Qed.
(** The days from a date to the same day of the month some months later. *)
Definition month_span (y m n : Z) : Z := Date y (m + n) 1 - Date y m 1.

Lemma Date_day y m d : Date y m d = Date y m 1 + (d - 1).
Proof. unfold Date. lia. Qed.

Lemma AddDate_months t n :
  let '(y, m, d) := date_of (t / Day) in AddDate t 0 n 0 = t + month_span y m n * Day.
Proof.
  unfold AddDate, month_span. pose proof (date_of_spec (t / Day)) as Hd.
  destruct (date_of _) as [[y m] d]. destruct Hd as [[Hm _]%valid_spec Hd].
  rewrite !Z.add_0_r, (Date_day y (m + n) d).
  assert (Date y m 1 = t / Day - (d - 1)) as Hdm.
  { rewrite Date_valid by done. unfold day_number in *. lia. }
  pose proof (Z.div_mod t Day ltac:(done)). lia.
Qed.

Lemma AddDate_years t n : AddDate t n 0 0 = AddDate t 0 (12 * n) 0.
Proof.
  unfold AddDate. destruct (date_of _) as [[y m] d]. f_equal. unfold Date.
  replace (m + 12 * n - 1) with (m + 0 - 1 + n * 12) by lia.
  rewrite Z.div_add, Z_mod_plus_full by done. do 3 f_equal; lia.
Qed.

Lemma Date_month y k :
  Date y k 1 = year_start (y + (k - 1) / 12) + days_before (y + (k - 1) / 12) ((k - 1) mod 12 + 1) - epoch.
Proof. unfold Date, day_number. lia. Qed.

(** Twelve months are a year of 365 or 366 days. *)
Lemma month_span_year y m n :
  month_span y m n + 365 ≤ month_span y m (n + 12) ≤ month_span y m n + 366.
Proof.
  unfold month_span. rewrite !Date_month. replace (m + (n + 12) - 1) with (m + n - 1 + 1 * 12) by lia.
  rewrite Z.div_add, Z_mod_plus_full by done.
  replace (y + ((m + n - 1) / 12 + 1)) with (y + (m + n - 1) / 12 + 1) by lia.
  rewrite year_start_next. unfold year_days, days_before.
  destruct (2 <? _), (leap (y + (m + n - 1) / 12)), (leap (y + (m + n - 1) / 12 + 1)); simpl; lia.
Qed.

Lemma month_span_within y m n : 1 ≤ m ≤ 12 → 0 ≤ n < 12 →
  month_span y m n =
    (if m + n <=? 12 then days_before y (m + n)
     else year_days y + days_before (y + 1) (m + n - 12)) - days_before y m.
Proof.
  intros Hm Hn. unfold month_span. rewrite (Date_valid y m 1 Hm).
  destruct (Z.leb_spec (m + n) 12).
  - rewrite Date_valid by lia. unfold day_number. lia.
  - rewrite Date_month. replace ((m + n - 1) / 12) with 1 by calendar.
    replace ((m + n - 1) mod 12 + 1) with (m + n - 12) by calendar.
    rewrite year_start_next. unfold day_number. lia.
Qed.

Lemma month_span_small y m n : 1 ≤ m ≤ 12 → 0 ≤ n < 12 →
  30 * n - 2 ≤ month_span y m n ≤ 30 * n + n / 2 + 2.
Proof.
  intros Hm Hn. rewrite month_span_within by done. unfold year_days, days_before.
  apply month_cases in Hm.
  assert (n = 0 ∨ n = 1 ∨ n = 2 ∨ n = 3 ∨ n = 4 ∨ n = 5 ∨ n = 6 ∨ n = 7 ∨ n = 8 ∨ n = 9 ∨ n = 10 ∨ n = 11)
    as Hcases by lia.
  clear Hn. destruct (leap y), (leap (y + 1)); destruct_or! Hm; destruct_or! Hcases; subst;
    vm_compute; split; congruence.
Qed.

(** A number of months is never more than two days shorter than as many times 30
    days, and at most half a day a month and two days longer. *)
Lemma month_span_bounds y m n : 1 ≤ m ≤ 12 → 0 ≤ n →
  30 * n - 2 ≤ month_span y m n ≤ 30 * n + n / 2 + 2.
Proof.
  intros Hm Hn. pose proof (Z.div_mod n 12 ltac:(done)) as Hdm.
  pose proof (Z.mod_pos_bound n 12 ltac:(done)) as Hr.
  assert (0 ≤ n / 12) as Hq by (by apply Z.div_pos).
  rewrite Hdm. set (r := n mod 12) in *. set (q := n / 12) in *. clearbody r q. clear Hdm Hn n.
  revert q Hq. apply natlike_ind; [|intros q Hq IH].
  - rewrite Z.mul_0_r. by apply month_span_small.
  - pose proof (month_span_year y m (12 * q + r)) as Hy.
    replace (12 * Z.succ q + r) with (12 * q + r + 12) by lia.
    replace ((12 * q + r + 12) / 2) with ((12 * q + r) / 2 + 6) by calendar. lia.
Qed.
(** ** Dates written as 2006-01-02 *)

Definition digit (z : Z) : ascii := ascii_of_N (Z.to_N (48 + z)).
Definition undigit (c : ascii) : option Z :=
  let z := Z.of_N (N_of_ascii c) in if (48 <=? z) && (z <=? 57) then Some (z - 48) else None.

(** The last [n] digits of a number. *)
Fixpoint digits (n : nat) (z : Z) : string :=
  match n with
  | O => EmptyString
  | S n => String (digit (z / 10 ^ Z.of_nat n mod 10)) (digits n z)
  end.

(** [t.Format("2006-01-02")] of the date of [t]. *)
Definition FormatDate (date : Z * Z * Z) : string :=
  let '(y, m, d) := date in
  (if y <? 0 then "-" else "") +:+
  (if Z.abs y <? 10000 then digits 4 (Z.abs y) else (pretty (Z.abs y) : string)) +:+
  "-" +:+ digits 2 m +:+ "-" +:+ digits 2 d.

(** A number of exactly [n] digits. *)
Fixpoint read (n : nat) (acc : Z) (s : string) : option (Z * string) :=
  match n, s with
  | O, _ => Some (acc, s)
  | S n, String c s => match undigit c with Some z => read n (acc * 10 + z) s | None => None end
  | S _, EmptyString => None
  end.

Definition dash (s : string) : option string :=
  match s with String "-" s => Some s | _ => None end.

(** [time.Parse("2006-01-02", s)]: the year has four digits, the month and the day
    have two, and the date exists. *)
Definition ParseDate (s : string) : option (Z * Z * Z) :=
  '(y, s) ← read 4 0 s;
  s ← dash s;
  '(m, s) ← read 2 0 s;
  s ← dash s;
  '(d, s) ← read 2 0 s;
  if bool_decide (s = "") && valid y m d then Some (y, m, d) else None.

Lemma undigit_digit z : 0 ≤ z < 10 → undigit (digit z) = Some z.
Proof.
  intros Hz. assert (z = 0 ∨ z = 1 ∨ z = 2 ∨ z = 3 ∨ z = 4 ∨ z = 5 ∨ z = 6 ∨ z = 7 ∨ z = 8 ∨ z = 9) by lia.
  destruct_or!; subst; reflexivity.
Qed.

Lemma read_digits n z s acc :
  0 ≤ z → read n acc (digits n z +:+ s) = Some (acc * 10 ^ Z.of_nat n + z mod 10 ^ Z.of_nat n, s).
Proof.
  intros Hz. revert acc. induction n as [|n IH]; intros acc.
  - change (10 ^ Z.of_nat 0) with 1. rewrite Z.mod_1_r. simpl. do 2 f_equal. lia.
  - cbn [digits]. unfold String.append. fold String.append. cbn [read]. rewrite undigit_digit by (by apply Z.mod_pos_bound).
    rewrite IH. do 2 f_equal. rewrite Nat2Z.inj_succ, Z.pow_succ_r by lia.
    rewrite (Z.mul_comm 10), Z.rem_mul_r by lia. lia.
Qed.

#[local] Arguments read : simpl never.
#[local] Arguments digits : simpl never.

Lemma ParseDate_Format y m d :
  0 ≤ y < 10000 → valid y m d = true → ParseDate (FormatDate (y, m, d)) = Some (y, m, d).
Proof.
  intros Hy Hv. pose proof Hv as [Hm Hd]%valid_spec.
  assert (d < 100) by (unfold days_in in Hd; repeat case_match; lia).
  unfold FormatDate, ParseDate. destruct (Z.ltb_spec y 0); [lia|].
  destruct (Z.ltb_spec (Z.abs y) 10000); [|lia]. rewrite Z.abs_eq by lia.
  assert (∀ s, "" +:+ s = s) as Hnil by done. rewrite Hnil.
  rewrite read_digits by lia. simpl. rewrite Hnil.
  rewrite read_digits by lia. simpl. rewrite Hnil.
  replace (digits 2 d) with (digits 2 d +:+ "") by apply GoStrings.app_nil_r.
  rewrite read_digits by lia. simpl.
  rewrite !Z.mod_small, !Z.mul_0_l, !Z.add_0_l, Hv by lia. done.
Qed.

(** The date after a date. *)
Definition next_date (y m d : Z) : Z * Z * Z := date_of (day_number y m d + 1).

Lemma next_date_spec y m d :
  valid y m d = true →
  next_date y m d =
    if d <? days_in y m then (y, m, d + 1) else if m <? 12 then (y, m + 1, 1) else (y + 1, 1, 1).
Proof.
  intros Hv. unfold next_date.
  assert (∀ y' m' d', valid y' m' d' = true → day_number y' m' d' = day_number y m d + 1 →
    date_of (day_number y m d + 1) = (y', m', d')) as Hday by (intros ? ? ? ? <-; by apply date_of_day).
  destruct (Z.ltb_spec d (days_in y m)) as [Hlt|Hge].
  { apply Hday; [|unfold day_number; lia]. apply valid_spec. apply valid_spec in Hv. lia. }
  destruct (Z.ltb_spec m 12) as [Hm12|Hm12]; apply Hday.
  - apply valid_spec in Hv. apply valid_spec. split; [lia|].
    unfold days_in. repeat case_match; lia.
  - by_month Hv; unfold day_number, days_before, days_in in *; destruct (leap y); simpl in *; lia.
  - done.
  - unfold day_number. rewrite year_start_next. unfold year_days.
    by_month Hv; unfold days_before, days_in in *; destruct (leap y), (leap (y + 1)); simpl in *; lia.
Qed.
End Calendar.
