(* ===== verification/Duration.v ===== *)
(** src/pkg/time/duration.go: parsing of the certificate TTL annotation, with
    the parts of [strconv] and [time] it calls.  Seconds are Go [int]s of 64
    bits; their multiplications wrap around. *)

From S2P Require Import Prelude Objects.
From Stdlib Require Import SpecFloat.

Module Strconv.
#[local] Open Scope Z_scope.

(** A decimal digit. *)
Definition digit (c : ascii) : option Z :=
  let n := Z.of_nat (nat_of_ascii c) in
  if (48 <=? n) && (n <=? 57) then Some (n - 48) else None.

(** The value of a string of decimal digits, read after [acc]. *)
Fixpoint digits (acc : Z) (s : string) : option Z :=
  match s with
  | EmptyString => Some acc
  | String c s => match digit c with Some d => digits (acc * 10 + d) s | None => None end
  end.

(** One or more digits. *)
Definition unsigned (s : string) : option Z :=
  match s with EmptyString => None | _ => digits 0 s end.

(** The optional sign. *)
Definition sign (s : string) : bool * string :=
  match s with
  | String "-" s => (true, s)
  | String "+" s => (false, s)
  | _ => (false, s)
  end.

(** [strconv.Atoi] *)
Definition Atoi (s : string) : gores Z :=
  match unsigned (sign s).2 with
  | None => Err (ErrNew ("strconv.Atoi: parsing " +:+ quote s +:+ ": invalid syntax"))
  | Some v =>
      let v := if (sign s).1 then - v else v in
      if decide (fits 64 v) then Ok v
      else Err (ErrNew ("strconv.Atoi: parsing " +:+ quote s +:+ ": value out of range"))
  end.

Lemma digits_app s t acc :
  digits acc (s +:+ t) = match digits acc s with Some v => digits v t | None => None end.
Proof.
  revert acc. induction s as [|c s IH]; intros acc; simpl; [done|].
  destruct (digit c); [apply IH|done].
Qed.

Lemma digit_pretty x : (x < 10)%N → digit (pretty_N_char x) = Some (Z.of_N x).
Proof.
  intros Hx.
  assert (x = 0 ∨ x = 1 ∨ x = 2 ∨ x = 3 ∨ x = 4 ∨ x = 5 ∨ x = 6 ∨ x = 7 ∨ x = 8 ∨ x = 9)%N
    as Hc by lia.
  by repeat (destruct Hc as [->|Hc]; [done|]); subst.
Qed.

Lemma digits_pretty_go n s : digits 0 (pretty_N_go n s) = digits (Z.of_N n) s.
Proof.
  revert s. induction (N.lt_wf_0 n) as [n _ IH]; intros s.
  destruct (decide (n = 0)%N) as [->|Hn]; [by rewrite pretty_N_go_0|].
  rewrite pretty_N_go_step by lia.
  rewrite IH by (apply N.div_lt; lia). simpl.
  rewrite digit_pretty by (apply N.mod_lt; lia). f_equal.
  pose proof (N.div_mod' n 10). lia.
Qed.

Lemma digits_pretty (n : N) : digits 0 (pretty n) = Some (Z.of_N n).
Proof.
  unfold pretty, pretty_N. destruct (decide (n = 0)%N) as [->|Hn]; [done|].
  by rewrite digits_pretty_go.
Qed.

Lemma digit_neq c d : digit c = Some d → c ≠ "-"%char ∧ c ≠ "+"%char.
Proof. by intros Hd; split; intros ->. Qed.

(** A decimal number printed by [%d] starts with a digit. *)
Lemma pretty_head (n : N) : ∃ c s d, (pretty n : string) = String c s ∧ digit c = Some d.
Proof.
  pose proof (digits_pretty n) as Hd. destruct (pretty n : string) as [|c s] eqn:Hp.
  - exfalso. destruct (decide (n = 0)%N) as [->|Hn]; [done|].
    assert (pretty_N_go n "" = "") as He.
    { unfold pretty, pretty_N in Hp. by rewrite decide_False in Hp by done. }
    pose proof (digits_pretty_go n "") as H1. rewrite He in H1. simpl in H1.
    injection H1. lia.
  - simpl in Hd. destruct (digit c) as [d|] eqn:Hc; [|done]. eauto.
Qed.

Lemma sign_pretty (n : N) t : sign (pretty n +:+ t) = (false, pretty n +:+ t).
Proof.
  destruct (pretty_head n) as (c & s & d & -> & Hc%digit_neq). simpl.
  destruct Hc as [H1 H2].
  destruct c as [[] [] [] [] [] [] [] []]; done.
Qed.

(** A positive number has no leading zero. *)
Lemma pretty_go_head (n : N) s : (0 < n)%N → ∃ c t, pretty_N_go n s = String c t ∧ c ≠ "0"%char.
Proof.
  revert s. induction (N.lt_wf_0 n) as [n _ IH]; intros s Hn. rewrite pretty_N_go_step by done.
  destruct (decide (n `div` 10 = 0)%N) as [Hz|Hz].
  - rewrite Hz, pretty_N_go_0. eexists _, _. split; [done|].
    assert (n < 10)%N as Hlt by (apply N.div_small_iff in Hz; lia). rewrite N.mod_small by done.
    pose proof (digit_pretty n Hlt) as Hd. intros He. rewrite He in Hd. change (digit "0") with (Some 0) in Hd. injection Hd. lia.
  - apply IH; [apply N.div_lt; lia|by apply N.neq_0_lt_0].
Qed.

Lemma pretty_head_pos (n : N) : (0 < n)%N → ∃ c t, (pretty n : string) = String c t ∧ c ≠ "0"%char.
Proof. intros Hn. unfold pretty, pretty_N. rewrite decide_False by lia. by apply pretty_go_head. Qed.

(** [strconv.Atoi] reads back what [%d] prints. *)
Lemma Atoi_pretty (n : N) : fits 64 (Z.of_N n) → Atoi (pretty n) = Ok (Z.of_N n).
Proof.
  intros Hn. unfold Atoi.
  assert (sign (pretty n) = (false, pretty n)) as Hs.
  { pose proof (sign_pretty n "") as H. by rewrite !GoStrings.app_nil_r in H. }
  rewrite Hs. cbn [fst snd].
  assert (unsigned (pretty n) = Some (Z.of_N n)) as ->.
  { rewrite <- digits_pretty. by destruct (pretty_head n) as (c & s & d & -> & _). }
  by rewrite decide_True.
Qed.
End Strconv.

(** The part of the [time] package that [TTLToSeconds] uses. *)
Module GoTime.
#[local] Open Scope Z_scope.

(** [unitMap]; the micro sign has two UTF-8 spellings. *)
Definition unitMap (u : string) : option Z :=
  if bool_decide (u = "ns") then Some 1
  else if bool_decide (u = "us") then Some 1000
  else if bool_decide (u = String "194" (String "181" "s")) then Some 1000
  else if bool_decide (u = String "206" (String "188" "s")) then Some 1000
  else if bool_decide (u = "ms") then Some 1000000
  else if bool_decide (u = "s") then Some Time.Second
  else if bool_decide (u = "m") then Some Time.Minute
  else if bool_decide (u = "h") then Some Time.Hour
  else None.

(** [leadingInt]: the digits at the front; [None] on overflow of 1<<63. *)
Fixpoint leadingInt (x : Z) (s : string) : option (Z * string) :=
  match s with
  | EmptyString => Some (x, s)
  | String c s' =>
      match Strconv.digit c with
      | None => Some (x, s)
      | Some d =>
          if 2 ^ 63 / 10 <? x then None
          else if 2 ^ 63 <? x * 10 + d then None
          else leadingInt (x * 10 + d) s'
      end
  end.

(** [leadingFraction]: digits after the point, [f] and [scale]; digits that
    would overflow are dropped. *)
Fixpoint leadingFraction (x scale : Z) (overflow : bool) (s : string) : Z * Z * string :=
  match s with
  | EmptyString => (x, scale, s)
  | String c s' =>
      match Strconv.digit c with
      | None => (x, scale, s)
      | Some d =>
          if overflow || ((2 ^ 63 - 1) / 10 <? x) || (2 ^ 63 <? x * 10 + d)
          then leadingFraction x scale true s'
          else leadingFraction (x * 10 + d) (scale * 10) false s'
      end
  end.

(** The unit: everything up to the next point or digit. *)
Fixpoint unit_name (s : string) : string * string :=
  match s with
  | EmptyString => (EmptyString, EmptyString)
  | String c s' =>
      if bool_decide (c = "."%char) || match Strconv.digit c with Some _ => true | _ => false end
      then (EmptyString, s)
      else let '(u, r) := unit_name s' in (String c u, r)
  end.

(** IEEE double precision. *)
Definition f64 (z : Z) : spec_float := binary_normalize 53 1024 z 0 false.
Definition f64_mul := SFmul 53 1024.
Definition f64_div := SFdiv 53 1024.
Definition f64_add := SFadd 53 1024.
(** Conversion to an integer truncates. *)
Definition f64_trunc (f : spec_float) : Z :=
  match f with
  | S754_finite s m e =>
      let v := if 0 <=? e then Zpos m * 2 ^ e else Zpos m / 2 ^ (- e) in
      if s then - v else v
  | _ => 0
  end.

(** One [number unit] group: the nanoseconds and the rest of the string. *)
Definition group (s : string) : option (Z * string) :=
  match s with
  | EmptyString => None
  | String c _ =>
      if negb (bool_decide (c = "."%char) ||
               match Strconv.digit c with Some _ => true | None => false end)
      then None else
      match leadingInt 0 s with
      | None => None
      | Some (v, s1) =>
          let pre := negb (bool_decide (String.length s1 = String.length s)) in
          let '(f, scale, s2, post) :=
            match s1 with
            | String "." s1' =>
                let '(f, scale, s2) := leadingFraction 0 1 false s1' in
                (f, scale, s2, negb (bool_decide (String.length s2 = String.length s1')))
            | _ => (0, 1, s1, false)
            end in
          if negb pre && negb post then None else
          match unit_name s2 with
          | (EmptyString, _) => None
          | (u, s3) =>
              match unitMap u with
              | None => None
              | Some unit =>
                  if 2 ^ 63 / unit <? v then None else
                  let v := v * unit in
                  if 0 <? f then
                    let v := v + f64_trunc (f64_mul (f64 f) (f64_div (f64 unit) (f64 scale))) in
                    if 2 ^ 63 <? v then None else Some (v, s3)
                  else Some (v, s3)
              end
          end
      end
  end.

(** The loop over the groups; every group consumes a byte, so the length of
    the string is enough fuel. *)
Fixpoint groups (fuel : nat) (d : Z) (s : string) : option Z :=
  match fuel, s with
  | _, EmptyString => Some d
  | O, _ => None
  | S fuel, _ =>
      match group s with
      | None => None
      | Some (v, s) => if 2 ^ 63 <? d + v then None else groups fuel (d + v) s
      end
  end.

(** [time.ParseDuration], in nanoseconds. *)
Definition ParseDuration (orig : string) : gores Z :=
  let err := Err (ErrNew ("time: invalid duration " +:+ quote orig)) in
  let '(neg, s) := Strconv.sign orig in
  if bool_decide (s = "0") then Ok 0
  else match s with
       | EmptyString => err
       | _ => match groups (String.length s) 0 s with
              | None => err
              | Some d => if neg then Ok (- d)
                          else if 2 ^ 63 - 1 <? d then err else Ok d
              end
       end.

(** [fmtFrac]: the [prec] last decimal digits of [v] as a fraction, without
    trailing zeros, and the rest of [v].  [print] says that a digit was kept. *)
Fixpoint fmtFrac (prec : nat) (v : Z) (print : bool) (acc : string) : string * Z :=
  match prec with
  | O => (if print then "." +:+ acc else acc, v)
  | S prec =>
      let digit := v mod 10 in
      let print := print || negb (digit =? 0) in
      fmtFrac prec (v / 10) print (if print then pretty digit +:+ acc else acc)
  end.

(** [d.String()] for the magnitude [u] of a duration. *)
Definition magnitude (u : Z) : string :=
  if u <? Time.Second then
    if u =? 0 then "0s"
    else if u <? 1000 then pretty u +:+ "ns"
    else if u <? 1000000 then
      let '(f, v) := fmtFrac 3 u false "" in pretty v +:+ f +:+ String "194" (String "181" "s")
    else let '(f, v) := fmtFrac 6 u false "" in pretty v +:+ f +:+ "ms"
  else
    let '(f, v) := fmtFrac 9 u false "" in
    let secs := pretty (v mod 60) +:+ f +:+ "s" in
    if v / 60 =? 0 then secs
    else
      let mins := pretty (v / 60 mod 60) +:+ "m" +:+ secs in
      if v / 3600 =? 0 then mins else pretty (v / 3600) +:+ "h" +:+ mins.

Definition Duration_String (d : Z) : string :=
  if d <? 0 then "-" +:+ magnitude (- d) else magnitude d.

(** [int(d.Seconds())].  The sum with a zero fraction is exact: the whole
    seconds of a duration need fewer than 53 bits. *)
Definition int_Seconds (d : Z) : Z :=
  let sec := Z.quot d Time.Second in
  let nsec := Z.rem d Time.Second in
  if bool_decide (nsec = 0) then sec
  else f64_trunc (f64_add (f64 sec) (f64_div (f64 nsec) (f64 1000000000))).
End GoTime.

#[local] Open Scope Z_scope.

Definition yearSeconds : Z := 365 * 24 * 60 * 60.
Definition monthSeconds : Z := 30 * 24 * 60 * 60.
Definition daySeconds : Z := 24 * 60 * 60.

(** [func TTLToSeconds(ttl string) (int, error)] *)
Definition TTLToSeconds (ttl : string) : gores Z :=
  let n := String.length ttl in
  if (n <? 2)%nat then Err (ErrNew ("invalid TTL length: " +:+ ttl))
  else
    let '(value, unit) :=
      if GoStrings.HasSuffix ttl "mo"
      then (Strconv.Atoi (GoStrings.take (n - 2) ttl), "mo")
      else (Strconv.Atoi (GoStrings.take (n - 1) ttl),
            GoStrings.ToLower (GoStrings.drop (n - 1) ttl)) in
    match value with
    | Err e => Err (wrapf "invalid TTL format" e)
    | Ok value =>
        if bool_decide (unit = "y") then Ok (wrap64 (value * yearSeconds))
        else if bool_decide (unit = "mo") then Ok (wrap64 (value * monthSeconds))
        else if bool_decide (unit = "d") then Ok (wrap64 (value * daySeconds))
        else match GoTime.ParseDuration ttl with
             | Err _ => Err (ErrNew ("invalid TTL unit: " +:+ unit))
             | Ok d => Ok (GoTime.int_Seconds d)
             end
    end.

Example ttl_1y : TTLToSeconds "1y" = Ok 31536000.
Proof. vm_compute. reflexivity. Qed.
Example ttl_neg : TTLToSeconds "-2mo" = Ok (-5184000).
Proof. vm_compute. reflexivity. Qed.
Example ttl_36h : TTLToSeconds "36h" = Ok 129600.
Proof. vm_compute. reflexivity. Qed.
Example ttl_ms : is_ok (TTLToSeconds "1500ms") = false.
Proof. vm_compute. reflexivity. Qed.
Example ttl_max : is_ok (TTLToSeconds "9223372036s") = true.
Proof. vm_compute. reflexivity. Qed.
Example seconds_rounds_up : GoTime.int_Seconds 9223372035999999999 = 9223372036.
Proof. vm_compute. reflexivity. Qed.
Example parse_1h30m : GoTime.ParseDuration "1h30.5m" = Ok (5430 * Time.Second).
Proof. vm_compute. reflexivity. Qed.

Example string_1h : GoTime.Duration_String (90 * Time.Minute) = "1h30m0s".
Proof. vm_compute. reflexivity. Qed.
Example string_ms : GoTime.Duration_String (-1500000) = "-1.5ms".
Proof. vm_compute. reflexivity. Qed.
Example string_frac : GoTime.Duration_String 61000000500 = "1m1.0000005s".
Proof. vm_compute. reflexivity. Qed.

(** ** What the parser accepts *)

Lemma digit_bounds c d : Strconv.digit c = Some d → 0 ≤ d ≤ 9.
Proof. unfold Strconv.digit. repeat case_match; intros; simplify_eq; lia. Qed.

Lemma digits_mono s acc v : 0 ≤ acc → Strconv.digits acc s = Some v → acc ≤ v.
Proof.
  revert acc. induction s as [|c s IH]; intros acc Hacc; simpl; [intros; simplify_eq; lia|].
  destruct (Strconv.digit c) as [d|] eqn:Hd; [|done].
  apply digit_bounds in Hd. intros Hv. apply IH in Hv; lia.
Qed.

(** The text that follows the digits. *)
Definition no_digit_head (u : string) : Prop :=
  match u with EmptyString => True | String c _ => Strconv.digit c = None end.

Lemma leadingInt_digits s u acc v :
  0 ≤ acc → Strconv.digits acc s = Some v → v ≤ 2 ^ 63 → no_digit_head u →
  GoTime.leadingInt acc (s +:+ u) = Some (v, u).
Proof.
  intros Hacc Hs Hv Hu. revert acc Hacc Hs. induction s as [|c s IH]; intros acc Hacc; simpl.
  - intros [= ->]. destruct u as [|c u]; simpl in *; [done|]. by rewrite Hu.
  - destruct (Strconv.digit c) as [d|] eqn:Hd; [|done]. intros Hs.
    apply digit_bounds in Hd.
    assert (acc * 10 + d ≤ v) by (eapply digits_mono; [|done]; lia).
    rewrite (proj2 (Z.ltb_ge _ _)) by (change (2 ^ 63 / 10) with 922337203685477580; lia).
    rewrite (proj2 (Z.ltb_ge _ _)) by lia. apply IH; [lia|done].
Qed.

(** The units of one byte that [ParseDuration] knows, in nanoseconds, and of
    several bytes. *)
Definition clock_units : list (string * Z) :=
  [("h", Time.Hour); ("m", Time.Minute); ("s", Time.Second)].
Definition subsecond_units : list (string * Z) :=
  [("ms", 1000000); ("us", 1000); ("ns", 1)].

Lemma ParseDuration_single (n : N) u k :
  (u, k) ∈ clock_units ++ subsecond_units →
  Z.of_N n * k ≤ 2 ^ 63 - 1 →
  GoTime.ParseDuration (pretty n +:+ u) = Ok (Z.of_N n * k).
Proof.
  intros Hu Hn.
  assert (1 ≤ k ∧ no_digit_head u ∧ u ≠ EmptyString ∧ GoTime.unit_name u = (u, EmptyString) ∧
          GoTime.unitMap u = Some k ∧
          (match u with String "." _ => False | _ => True end)) as (Hk & Hh & Hne & Hname & Hmap & Hdot).
  { unfold clock_units, subsecond_units in Hu; simpl in Hu.
    repeat (apply elem_of_cons in Hu as [Hu|Hu]; [injection Hu as -> ->; by vm_compute|]).
    by apply elem_of_nil in Hu. }
  unfold GoTime.ParseDuration. rewrite Strconv.sign_pretty.
  destruct (Strconv.pretty_head n) as (c & s & d & Hp & Hc); rewrite Hp.
  assert (Strconv.digits 0 (String c s) = Some (Z.of_N n)) as Hd.
  { rewrite <- Hp. apply Strconv.digits_pretty. }
  set (str := String c s +:+ u).
  pose proof (leadingInt_digits (String c s) u 0 (Z.of_N n) ltac:(done) Hd ltac:(nia) Hh) as Hli.
  assert (GoTime.group str = Some (Z.of_N n * k, EmptyString)) as Hg.
  { assert (String.length u ≠ String.length str) as Hlen.
    { unfold str. rewrite GoStrings.length_app. simpl. lia. }
    fold str in Hli. assert (str = String c (s +:+ u)) as Hs by done. clearbody str. subst str.
    unfold GoTime.group. cbv beta iota. rewrite Hc, orb_true_r. cbn [negb].
    rewrite Hli, (bool_decide_false _ Hlen). cbn [negb andb].
    assert ((2 ^ 63 / k <? Z.of_N n) = false) as Hov.
    { apply Z.ltb_ge. apply Z.div_le_lower_bound; lia. }
    destruct u as [|c' u']; [done|].
    destruct (decide (c' = "."%char)) as [->|Hcd]; [done|].
    destruct c' as [[] [] [] [] [] [] [] []]; try done;
      cbn [negb andb]; by rewrite Hname, Hmap, Hov. }
  assert (str ≠ "0") as Hne0.
  { intros H0. apply (f_equal String.length) in H0. unfold str in H0.
    rewrite GoStrings.length_app in H0. simpl in H0. destruct u; simpl in *; [done|lia]. }
  rewrite bool_decide_false by done.
  assert (str = String c (s +:+ u)) as Hstr by done. rewrite Hstr.
  cbn [String.length GoTime.groups]. rewrite <- Hstr, Hg. 
  rewrite (proj2 (Z.ltb_ge _ _)) by lia.
  destruct (String.length (s +:+ u)); simpl;
    rewrite (proj2 (Z.ltb_ge _ _)) by lia; by f_equal.
Qed.

(** A one-byte unit is split off the number. *)
Lemma TTLToSeconds_byte (n : N) (c : ascii) :
  fits 64 (Z.of_N n) → c ≠ "o"%char →
  TTLToSeconds (pretty n +:+ String c "") =
    (let unit := String (GoStrings.lower c) "" in
     if bool_decide (unit = "y") then Ok (wrap64 (Z.of_N n * yearSeconds))
     else if bool_decide (unit = "mo") then Ok (wrap64 (Z.of_N n * monthSeconds))
     else if bool_decide (unit = "d") then Ok (wrap64 (Z.of_N n * daySeconds))
     else match GoTime.ParseDuration (pretty n +:+ String c "") with
          | Err _ => Err (ErrNew ("invalid TTL unit: " +:+ unit))
          | Ok d => Ok (GoTime.int_Seconds d)
          end).
Proof.
  intros Hn Hc. unfold TTLToSeconds.
  rewrite (GoStrings.HasSuffix_last (pretty n) c "m" "o"%char Hc).
  rewrite GoStrings.length_app. cbn [String.length].
  replace (String.length (pretty n) + 1 - 1)%nat with (String.length (pretty n)) by lia.
  rewrite GoStrings.take_app, GoStrings.drop_app, Strconv.Atoi_pretty by done.
  destruct (Strconv.pretty_head n) as (c0 & s & d & Hp & _). rewrite Hp.
  rewrite (proj2 (Nat.ltb_ge _ _)) by (simpl; lia). done.
Qed.

Lemma TTLToSeconds_mo (n : N) :
  fits 64 (Z.of_N n) →
  TTLToSeconds (pretty n +:+ "mo") = Ok (wrap64 (Z.of_N n * monthSeconds)).
Proof.
  intros Hn. unfold TTLToSeconds.
  rewrite GoStrings.HasSuffix_app, GoStrings.length_app. cbn [String.length].
  replace (String.length (pretty n) + 2 - 2)%nat with (String.length (pretty n)) by lia.
  rewrite GoStrings.take_app, Strconv.Atoi_pretty by done.
  rewrite (proj2 (Nat.ltb_ge _ _)) by lia. done.
Qed.

(** The documented units, in seconds. *)
Definition ttl_units : list (string * Z) :=
  [("y", yearSeconds); ("mo", monthSeconds); ("d", daySeconds);
   ("h", 3600); ("m", 60); ("s", 1)].

Lemma int_Seconds_whole k : GoTime.int_Seconds (k * Time.Second) = k.
Proof.
  unfold GoTime.int_Seconds, Time.Second. rewrite Z.quot_mul, Z.rem_mul by done.
  by rewrite bool_decide_true.
Qed.

(** A TTL of [n] units is converted to exactly [n] times the length of the
    unit, for every documented unit and every [n] whose total is at most the
    292 years a Go duration can hold. *)
Theorem TTLToSeconds_exact (n : N) (u : string) (k : Z) :
  (u, k) ∈ ttl_units →
  Z.of_N n * k * Time.Second ≤ 2 ^ 63 - 1 →
  TTLToSeconds (pretty n +:+ u) = Ok (Z.of_N n * k).
Proof.
  intros Hu Hn.
  assert (1 ≤ k) as Hk.
  { unfold ttl_units in Hu. simpl in Hu.
    repeat (apply elem_of_cons in Hu as [Hu|Hu]; [injection Hu as -> ->; by vm_compute|]).
    by apply elem_of_nil in Hu. }
  assert (fits 64 (Z.of_N n)) as Hf by (unfold fits, Time.Second in *; simpl; nia).
  assert (wrap64 (Z.of_N n * k) = Z.of_N n * k) as Hw.
  { apply wrap_id; [done|]. unfold fits, Time.Second in *. simpl. nia. }
  unfold ttl_units in Hu. simpl in Hu.
  repeat (apply elem_of_cons in Hu as [Hu|Hu]; [injection Hu as -> ->|]);
    [..|by apply elem_of_nil in Hu].
  - rewrite TTLToSeconds_byte by done. cbn. by rewrite <- Hw at 2.
  - rewrite TTLToSeconds_mo by done. by rewrite <- Hw at 2.
  - rewrite TTLToSeconds_byte by done. cbn. by rewrite <- Hw at 2.
  - rewrite TTLToSeconds_byte by done. cbv zeta. rewrite !bool_decide_false by done.
    rewrite (ParseDuration_single n "h" Time.Hour) by
      (done || unfold clock_units; set_solver || unfold Time.Hour, Time.Minute in *; lia).
    f_equal. rewrite <- int_Seconds_whole. f_equal. unfold Time.Hour, Time.Minute. lia.
  - rewrite TTLToSeconds_byte by done. cbv zeta. rewrite !bool_decide_false by done.
    rewrite (ParseDuration_single n "m" Time.Minute) by
      (done || unfold clock_units; set_solver || unfold Time.Minute in *; lia).
    f_equal. rewrite <- int_Seconds_whole. f_equal. unfold Time.Minute. lia.
  - rewrite TTLToSeconds_byte by done. cbv zeta. rewrite !bool_decide_false by done.
    rewrite (ParseDuration_single n "s" Time.Second) by
      (done || unfold clock_units; set_solver || lia).
    f_equal. rewrite <- int_Seconds_whole. f_equal. lia.
Qed.

Lemma TTLToSeconds_exact_witness :
  Z.of_N 36 * 3600 * Time.Second ≤ 2 ^ 63 - 1 ∧ TTLToSeconds "36h" = Ok (36 * 3600).
Proof.
  split; [by vm_compute|].
  apply (TTLToSeconds_exact 36 "h" 3600); [unfold ttl_units; set_solver|by vm_compute].
Defined.

(** The units the function converts itself. *)
Definition calendar_units : list (string * Z) :=
  [("y", yearSeconds); ("mo", monthSeconds); ("d", daySeconds)].

(** For years, months and days the function multiplies without a range
    test: every number that parses is accepted and the product is reduced modulo
    2^64, so a TTL beyond 292 billion years silently becomes another, possibly
    negative, number of seconds and never an error. *)
Theorem TTLToSeconds_calendar_wraps (n : N) (u : string) (k : Z) :
  (u, k) ∈ calendar_units → fits 64 (Z.of_N n) →
  TTLToSeconds (pretty n +:+ u) = Ok (wrap64 (Z.of_N n * k)).
Proof.
  intros Hu Hn. unfold calendar_units in Hu.
  repeat (apply elem_of_cons in Hu as [Hu|Hu]; [injection Hu as -> ->|]);
    [..|by apply elem_of_nil in Hu].
  - by rewrite TTLToSeconds_byte.
  - by rewrite TTLToSeconds_mo.
  - by rewrite TTLToSeconds_byte.
Qed.

Lemma TTLToSeconds_calendar_wraps_witness :
  TTLToSeconds "292471208678y" = Ok (-9223372036840143616).
Proof.
  apply (TTLToSeconds_calendar_wraps 292471208678 "y" yearSeconds);
    [unfold calendar_units; set_solver|by vm_compute].
Defined.

Lemma Atoi_not_number (n : N) (c : ascii) :
  Strconv.digit c = None → is_ok (Strconv.Atoi (pretty n +:+ String c "")) = false.
Proof.
  intros Hc. unfold Strconv.Atoi. rewrite Strconv.sign_pretty. cbn [fst snd].
  assert (Strconv.unsigned (pretty n +:+ String c "") = None) as ->; [|done].
  pose proof (Strconv.digits_app (pretty n) (String c "") 0) as Hd.
  rewrite Strconv.digits_pretty in Hd. simpl in Hd. rewrite Hc in Hd.
  destruct (Strconv.pretty_head n) as (c0 & s & d & Hp & _). rewrite Hp in *. exact Hd.
Qed.

(** The comment promises any unit that [time.ParseDuration] supports,
    but a number of milliseconds, microseconds or nanoseconds, which
    [ParseDuration] reads, is always refused: only the last byte is taken off
    before the number is parsed. *)
Theorem TTLToSeconds_rejects_subsecond (n : N) (u : string) (k : Z) :
  (u, k) ∈ subsecond_units → Z.of_N n * k ≤ 2 ^ 63 - 1 →
  GoTime.ParseDuration (pretty n +:+ u) = Ok (Z.of_N n * k) ∧
  is_ok (TTLToSeconds (pretty n +:+ u)) = false.
Proof.
  intros Hu Hn. split.
  { apply ParseDuration_single; [|done]. apply elem_of_app. by right. }
  assert (∃ c, u = String c "s" ∧ Strconv.digit c = None) as (c & -> & Hc).
  { unfold subsecond_units in Hu.
    repeat (apply elem_of_cons in Hu as [Hu|Hu]; [injection Hu as -> ->; by eexists|]).
    by apply elem_of_nil in Hu. }
  assert (pretty n +:+ String c "s" = (pretty n +:+ String c "") +:+ "s") as ->
    by by rewrite GoStrings.app_assoc.
  unfold TTLToSeconds.
  rewrite (GoStrings.HasSuffix_last _ "s" "m" "o"%char) by done.
  rewrite GoStrings.length_app. cbn [String.length].
  replace (String.length (pretty n +:+ String c "") + 1 - 1)%nat
    with (String.length (pretty n +:+ String c "")) by lia.
  rewrite GoStrings.take_app.
  destruct (Nat.ltb_spec (String.length (pretty n +:+ String c "") + 1) 2); [done|].
  pose proof (Atoi_not_number n c Hc).
  by destruct (Strconv.Atoi (pretty n +:+ String c "")).
Qed.

Lemma TTLToSeconds_rejects_subsecond_witness :
  GoTime.ParseDuration "1500ms" = Ok (1500 * 1000000) ∧ is_ok (TTLToSeconds "1500ms") = false.
Proof.
  apply (TTLToSeconds_rejects_subsecond 1500 "ms" 1000000);
    [unfold subsecond_units; set_solver|by vm_compute].
Defined.
