(* ===== verification/Expiration.v ===== *)
(** src/pkg/time/duration.go: the expiration date that a number of seconds stands
    for.  A time is in nanoseconds since January 1, 1970, and its location is
    UTC, so that all days have 24 hours. *)

From S2P Require Import Prelude Objects Calendar Duration.

Module Expiration.
Import Calendar.
Open Scope Z_scope.

(** [func SecondsToExpirationDate]: [/] and [%] truncate. *)
Definition SecondsToExpirationDate (now seconds : Z) : Z :=
  if Z.rem seconds yearSeconds =? 0 then AddDate now (Z.quot seconds yearSeconds) 0 0
  else if Z.rem seconds monthSeconds =? 0 then AddDate now 0 (Z.quot seconds monthSeconds) 0
  else if Z.rem seconds daySeconds =? 0 then AddDate now 0 0 (Z.quot seconds daySeconds)
  else now + wrap64 (seconds * Time.Second).

Lemma month_span_years y m n : 0 ≤ n → 365 * n ≤ month_span y m (12 * n) ≤ 366 * n.
Proof.
  revert n. apply natlike_ind; [unfold month_span; rewrite Z.mul_0_r, Z.add_0_r; lia|].
  intros n Hn IH. replace (12 * Z.succ n) with (12 * n + 12) by lia.
  pose proof (month_span_year y m (12 * n)). lia.
Qed.

(** Linear arithmetic on days and the units of the program. *)
Ltac days :=
  unfold Day, Time.Hour, Time.Minute, Time.Second, yearSeconds, monthSeconds, daySeconds in *; lia.

(** C38: the expiration date lies the given number of seconds after now, except for
    the approximation of years and months: years of 365 days are calendar years,
    which are up to a day longer each, and months of 30 days are calendar months,
    which shorten the lifetime by at most two days. *)
Theorem expiration_bounds now seconds :
  0 ≤ seconds → seconds * Time.Second < 2 ^ 63 →
  let off := SecondsToExpirationDate now seconds - (now + seconds * Time.Second) in
  if seconds mod yearSeconds =? 0 then 0 ≤ off ≤ seconds / yearSeconds * Day
  else if seconds mod monthSeconds =? 0
  then - 2 * Day ≤ off ≤ (seconds / monthSeconds / 2 + 2) * Day
  else off = 0.
Proof.
  intros Hs Hmax. cbv zeta. unfold SecondsToExpirationDate.
  rewrite !Z.rem_mod_nonneg, !Z.quot_div_nonneg by done.
  pose proof (AddDate_months now (12 * (seconds / yearSeconds))) as Hy.
  pose proof (AddDate_months now (seconds / monthSeconds)) as Hm.
  pose proof (date_of_spec (now / Day)) as Hd.
  destruct (date_of (now / Day)) as [[y m] d]. destruct Hd as [[Hmonth _]%valid_spec _].
  destruct (Z.eqb_spec (seconds mod yearSeconds) 0) as [Hyear|_];
    [|destruct (Z.eqb_spec (seconds mod monthSeconds) 0) as [Hmod|_];
      [|destruct (Z.eqb_spec (seconds mod daySeconds) 0) as [Hday|_]]].
  - rewrite AddDate_years, Hy.
    pose proof (month_span_years y m (seconds / yearSeconds) ltac:(by apply Z.div_pos)).
    pose proof (Z.div_mod seconds yearSeconds ltac:(done)).
    days.
  - rewrite Hm.
    pose proof (month_span_bounds y m (seconds / monthSeconds) Hmonth ltac:(by apply Z.div_pos)).
    pose proof (Z.div_mod seconds monthSeconds ltac:(done)).
    days.
  - rewrite AddDate_days. pose proof (Z.div_mod seconds daySeconds ltac:(done)).
    days.
  - unfold wrap64. rewrite wrap_id; [lia|done|]. split; [|exact Hmax].
    transitivity 0; [done|]. unfold Time.Second. lia.
Qed.

(** Thirty days from February 1, 2025, end on March 1. *)
Lemma expiration_bounds_witness :
  let now := day_number 2025 2 1 * Day in
  date_of (SecondsToExpirationDate now 2592000 / Day) = (2025, 3, 1) ∧
  - 2 * Day ≤ SecondsToExpirationDate now 2592000 - (now + 2592000 * Time.Second)
    ≤ (2592000 / monthSeconds / 2 + 2) * Day.
Proof.
  split; [vm_compute; reflexivity|].
  exact (expiration_bounds (day_number 2025 2 1 * Day) 2592000 ltac:(done) ltac:(done)).
Defined.
End Expiration.
