(* ===== verification/RefLibs.v ===== *)
(** Reference instances of the third-party operations of [Libs] that satisfy
    their laws: the witnesses of the theorems are evaluated with them. *)

From S2P Require Import Prelude Objects ApiTypes Libs Duration.

Fixpoint has_reason (r : StatusReason) (e : error) : bool :=
  match e with
  | ErrStatus r' _ => bool_decide (r' = r)
  | ErrWrap _ e _ => has_reason r e
  | _ => false
  end.

#[export] Instance RefApiErrors : ApiErrors := {|
  IsNotFound := has_reason NotFound;
  IsAlreadyExists := has_reason AlreadyExists;
  NewAggregate es := match es with [] => None | _ => Some (ErrAggregate es) end;
  IntValue v := match v with IntVal z => z | StrVal _ => 0%Z end;
|}.

#[export] Instance RefApiErrorsLaws : ApiErrorsLaws.
Proof. by split. Qed.

(** ** Conditions *)

Definition not_type (t : ConditionType) (c : Condition) : bool := negb (bool_decide (cond_Type c = t)).

Definition ref_cGet (cs : Conditions) (t : ConditionType) : option Condition :=
  List.find (λ c, bool_decide (cond_Type c = t)) cs.
Definition ref_cDelete (t : ConditionType) (cs : Conditions) : Conditions :=
  List.filter (not_type t) cs.
Definition ref_cSet (c : Condition) (cs : Conditions) : Conditions :=
  c :: ref_cDelete (cond_Type c) cs.

#[export] Instance RefConditions : ConditionsLib := {|
  cGet := ref_cGet;
  cSet := ref_cSet;
  cDelete := ref_cDelete;
  cSetSummary ts cs :=
    ref_cSet (mkCond Clusterv1.ReadyCondition
      (if forallb (λ t, match ref_cGet cs t with
                        | Some c => bool_decide (cond_Status c = ConditionTrue)
                        | None => true
                        end) ts then ConditionTrue else ConditionFalse) SeverityNone "" "") cs;
  cSetAggregate t l cs := ref_cSet (mkCond t ConditionTrue SeverityNone "" "") cs;
|}.

Lemma ref_cGet_Delete_eq t cs : ref_cGet (ref_cDelete t cs) t = None.
Proof.
  induction cs as [|c cs IH]; [done|]. unfold ref_cGet, ref_cDelete, not_type in *. simpl.
  destruct (bool_decide (cond_Type c = t)) eqn:Hc; simpl; [done|]. by rewrite Hc.
Qed.

Lemma ref_cGet_Delete_ne t t' cs : t' ≠ t → ref_cGet (ref_cDelete t cs) t' = ref_cGet cs t'.
Proof.
  intros Ht. induction cs as [|c cs IH]; [done|].
  unfold ref_cGet, ref_cDelete, not_type in *. simpl.
  destruct (bool_decide (cond_Type c = t)) eqn:Hc; simpl.
  - apply bool_decide_eq_true in Hc. rewrite (bool_decide_false (cond_Type c = t')) by congruence.
    done.
  - by rewrite IH.
Qed.

Lemma ref_cGet_Set_ne c cs t : t ≠ cond_Type c → ref_cGet (ref_cSet c cs) t = ref_cGet cs t.
Proof.
  intros Ht. transitivity (ref_cGet (ref_cDelete (cond_Type c) cs) t).
  - unfold ref_cGet at 1. simpl. by rewrite bool_decide_false by congruence.
  - by apply ref_cGet_Delete_ne.
Qed.

#[export] Instance RefConditionsLaws : ConditionsLaws.
Proof.
  split; cbn [cGet cSet cDelete cSetSummary cSetAggregate RefConditions].
  - intros c cs. unfold ref_cGet, ref_cSet. simpl. by rewrite bool_decide_true.
  - apply ref_cGet_Set_ne.
  - apply ref_cGet_Delete_eq.
  - apply ref_cGet_Delete_ne.
  - intros ts cs t Ht. by apply ref_cGet_Set_ne.
  - intros t' l cs t Ht. by apply ref_cGet_Set_ne.
Qed.

(** ** Machine collections *)

Definition machines_of (ms : Machines) : list Machine := (map_to_list ms).*2.

Definition older (m : Machine) (o : option Machine) : option Machine :=
  match o with
  | None => Some m
  | Some m' => if (om_CreationTimestamp (m_meta m) <=? om_CreationTimestamp (m_meta m'))%Z
               then Some m else Some m'
  end.

Definition oldest_of (l : list Machine) : option Machine := foldr older None l.

Definition some_ref {A} (o : option A) : bool := match o with Some _ => true | None => false end.

#[export] Instance RefCollections : CollectionsLib := {|
  mFilter f ms := filter (λ p, Is_true (f p.2)) ms;
  mAnyFilter fs ms := filter (λ p, Is_true (existsb (λ f, f p.2) fs)) ms;
  mDifference ms ms' := ms ∖ ms';
  mOldest ms := oldest_of (machines_of ms);
  mLowestVersion ms := head (omap m_Version (machines_of ms));
  FromMachineList l := list_to_map ((λ m, (m_Name m, m)) <$> l);
  HasDeletionTimestamp m := deleting (m_meta m);
  HasNode m := some_ref (m_NodeRef m);
  IsUnhealthy m :=
    existsb (λ c, bool_decide (cond_Type c = Clusterv1.MachineOwnerRemediatedCondition ∧
                               cond_Status c = ConditionFalse)) (m_Conditions m);
  IsReady m := existsb (λ c, bool_decide (cond_Type c = Clusterv1.ReadyCondition ∧
                                          cond_Status c = ConditionTrue)) (m_Conditions m);
  HasAnnotationKey k m := some_ref (ann (m_meta m) k);
  InFailureDomains fds m := bool_decide (m_FailureDomain m ∈ fds);
  OwnedMachines o m :=
    existsb (λ r, bool_decide (or_UID r = om_UID o ∧ or_Controller r = Some true))
      (om_OwnerReferences (m_meta m));
  ControlPlaneMachines c m :=
    bool_decide (om_Labels (m_meta m) !! Clusterv1.ClusterNameLabel = Some c ∧
                 is_Some (om_Labels (m_meta m) !! Clusterv1.MachineControlPlaneLabel));
  AdoptableControlPlaneMachines c m :=
    bool_decide (om_Labels (m_meta m) !! Clusterv1.ClusterNameLabel = Some c ∧
                 is_Some (om_Labels (m_meta m) !! Clusterv1.MachineControlPlaneLabel)) &&
    forallb (λ r, bool_decide (or_Controller r ≠ Some true)) (om_OwnerReferences (m_meta m));
  ShouldRolloutAfter now after m :=
    match after with
    | None => false
    | Some t => ((t <? now) && (om_CreationTimestamp (m_meta m) <? t))%Z
    end;
  FilterControlPlane fds := filter (λ p, Is_true (fd_ControlPlane p.2)) fds;
  GetIDs fds := Some <$> (map_to_list fds).*1;
  PickMost fds all ms := head (machines_of ms) ≫= m_FailureDomain;
  PickFewest fds all ms := head (map_to_list fds).*1;
|}.

Lemma oldest_none l : oldest_of l = None → l = [].
Proof.
  destruct l as [|m l]; [done|]. unfold oldest_of; simpl. unfold older at 1. repeat case_match; done.
Qed.

Lemma oldest_elem l m : oldest_of l = Some m → m ∈ l.
Proof.
  revert m. induction l as [|m' l IH]; intros m; [done|]. unfold oldest_of in *; simpl.
  unfold older at 1. repeat case_match; intros; simplify_eq; set_solver.
Qed.

Lemma oldest_min l m m' :
  oldest_of l = Some m → m' ∈ l →
  (om_CreationTimestamp (m_meta m) ≤ om_CreationTimestamp (m_meta m'))%Z.
Proof.
  revert m. induction l as [|m1 l IH]; intros m; [done|]. unfold oldest_of in *; simpl.
  destruct (foldr older None l) as [m2|] eqn:Hf; simpl.
  - intros Hm [->|Hl]%elem_of_cons; case_match; simplify_eq; try lia; specialize (IH _ eq_refl Hl); lia.
  - apply oldest_none in Hf as ->. intros ? ->%list_elem_of_singleton. by simplify_eq.
Qed.

Lemma elem_of_machines ms m : m ∈ machines_of ms ↔ ∃ n, ms !! n = Some m.
Proof.
  unfold machines_of. rewrite list_elem_of_fmap. setoid_rewrite elem_of_map_to_list'.
  split; [intros ([n m'] & -> & ?)|intros [n ?]; exists (n, m)]; eauto.
Qed.

Lemma machines_nil ms : machines_of ms = [] → ms = ∅.
Proof.
  intros H. apply map_empty. intros n. destruct (ms !! n) as [m|] eqn:Hn; [|done].
  assert (m ∈ machines_of ms) as Hm by (apply elem_of_machines; eauto).
  rewrite H in Hm. by apply elem_of_nil in Hm.
Qed.

Lemma filter_lookup_bool (f : Machine → bool) ms n :
  (filter (λ p, Is_true (f p.2)) ms : Machines) !! n =
  match ms !! n with Some m => if f m then Some m else None | None => None end.
Proof.
  rewrite map_lookup_filter. destruct (ms !! n) as [m|]; simpl; [|done].
  by destruct (f m).
Qed.

#[export] Instance RefCollectionsLaws : CollectionsLaws.
Proof.
  split; simpl; try done.
  - intros l n m Hnd. rewrite <- elem_of_list_to_map.
    + rewrite list_elem_of_fmap. split; [intros (m' & [= -> ->] & ?); done|].
      intros [? <-]. eauto.
    + rewrite <- list_fmap_compose. exact Hnd.
  - apply filter_lookup_bool.
  - intros fs ms n. apply (filter_lookup_bool (λ m, existsb (λ f, f m) fs)).
  - intros ms ms' n. rewrite lookup_difference. done.
  - intros ms m Hm. by apply elem_of_machines, oldest_elem.
  - intros ms m m' n Hm Hn. eapply oldest_min; [done|]. apply elem_of_machines; eauto.
  - intros ms Hm. by apply machines_nil, oldest_none.
  - intros fds all ms fd Hne Hall <-.
    destruct (machines_of ms) as [|m l] eqn:Hms; [by apply machines_nil in Hms|].
    assert (m ∈ machines_of ms) as [n Hn]%elem_of_machines by (rewrite Hms; set_solver).
    exists n, m. by split.
Qed.

(** ** Object metadata *)

Definition controller_of (m : ObjectMeta) : option OwnerReference :=
  find (λ r, bool_decide (or_Controller r = Some true)) (om_OwnerReferences m).

#[export] Instance RefMeta : MetaLib := {|
  NewControllerRef o av k := mkOwnerRef av k (om_Name o) (om_UID o) (Some true);
  IsControlledBy m o :=
    match controller_of m with Some r => bool_decide (or_UID r = om_UID o) | None => false end;
  IsOwnedByObject m o :=
    existsb (λ r, bool_decide (or_Name r = om_Name o)) (om_OwnerReferences m);
  EnsureOwnerRef l r := if decide (r ∈ l) then l else l ++ [r];
  SetControllerReference o m :=
    match controller_of m with
    | Some _ => None
    | None => Some (set_OwnerReferences
                (om_OwnerReferences m ++ [mkOwnerRef "" "" (om_Name o) (om_UID o) (Some true)]) m)
    end;
  ContainsFinalizer m f := bool_decide (f ∈ om_Finalizers m);
  AddFinalizer m f :=
    if decide (f ∈ om_Finalizers m) then m else set_Finalizers (om_Finalizers m ++ [f]) m;
  RemoveFinalizer m f := set_Finalizers (filter (λ g, g ≠ f) (om_Finalizers m)) m;
  IsPaused c m := some_ref (ann m "cluster.x-k8s.io/paused");
  HasWithPrefix p a :=
    match a with
    | Some a => existsb (λ k, GoStrings.HasPrefix k p) (map_to_list a).*1
    | None => false
    end;
  ep_IsZero e := bool_decide (ep_Host e = "") && (ep_Port e =? 0)%Z;
  ep_IsValid e := negb (bool_decide (ep_Host e = "")) && negb (ep_Port e =? 0)%Z;
  ep_String e := ep_Host e +:+ ":" +:+ pretty (ep_Port e);
  ControlPlaneSelector c :=
    Clusterv1.ClusterNameLabel +:+ "=" +:+ c +:+ "," +:+ Clusterv1.MachineControlPlaneLabel;
  IsNodeReady n :=
    existsb (λ c, bool_decide (nc_Type c = "Ready" ∧ nc_Status c = ConditionTrue)) (n_Conditions n);
  IsPodReady p :=
    existsb (λ c, bool_decide (nc_Type c = "Ready" ∧ nc_Status c = ConditionTrue)) (p_Conditions p);
|}.

Lemma finalizers_set f m : om_Finalizers (set_Finalizers f m) = f.
Proof. by destruct m. Qed.

#[export] Instance RefMetaLaws : MetaLaws.
Proof.
  split; simpl; try done.
  - intros m f. case_decide; [done|]. rewrite finalizers_set. set_solver.
  - intros m f. rewrite finalizers_set, list_elem_of_filter. naive_solver.
  - intros o m m'. destruct (controller_of m) as [r|] eqn:Hc; [done|]. intros [= <-].
    split; [by destruct m|]. unfold controller_of in *.
    assert (om_OwnerReferences (set_OwnerReferences
      (om_OwnerReferences m ++ [mkOwnerRef "" "" (om_Name o) (om_UID o) (Some true)]) m) =
      om_OwnerReferences m ++ [mkOwnerRef "" "" (om_Name o) (om_UID o) (Some true)]) as ->
      by by destruct m.
    induction (om_OwnerReferences m) as [|r l IH]; simpl in *; [by rewrite bool_decide_true|].
    by destruct (bool_decide (or_Controller r = Some true)); [|auto].
  - intros m o. fold (controller_of m). destruct (controller_of m) as [r|].
    + rewrite bool_decide_eq_true. naive_solver.
    + naive_solver.
Qed.

#[export] Instance RefSchema : SchemaLib := {|
  GroupKindString r :=
    match GoStrings.Split (ref_APIVersion r) "/" with
    | [g; _] => ref_Kind r +:+ "." +:+ g
    | _ => ref_Kind r
    end;
|}.

(** ** Times *)

#[export] Instance RefTimeFormat : TimeFormat := {|
  FormatRFC1123Z t := "t" +:+ pretty t;
  FormatRFC3339 t := "t" +:+ pretty t;
  time_String t := "t" +:+ pretty t;
|}.

#[export] Instance RefTimeFormatLaws : TimeFormatLaws.
Proof. by split. Qed.

(** Times as seconds in decimal. *)
#[export] Instance RefMetaTime : MetaTimeLib := {|
  MarshalTime t := pretty (Z.to_N (t / Time.Second));
  UnmarshalTime s := match Strconv.Atoi s with Ok n => Some (n * Time.Second)%Z | Err _ => None end;
|}.

#[export] Instance RefMetaTimeLaws : MetaTimeLaws.
Proof.
  split. intros t [Hlo Hhi]. simpl. unfold Time.Second in *.
  assert (0 ≤ t / 1000000000 < 253402300800)%Z as Hd.
  { split; [by apply Z.div_pos|apply Z.div_lt_upper_bound; lia]. }
  rewrite Strconv.Atoi_pretty by (unfold fits; simpl; lia).
  f_equal. unfold whole_seconds, Time.Second. rewrite Z2N.id by lia.
  pose proof (Z.div_mod t 1000000000). lia.
Qed.

(** ** Certificates *)

#[export] Instance RefCerts : CertsLib := {|
  EncodeCertPEM c := "CERT " +:+ c;
  EncodePrivateKeyPEM k := "KEY " +:+ k;
  EncodePublicKeyPEM k := Ok ("PUB " +:+ k);
  DecodeCertPEM t :=
    Ok (if GoStrings.HasPrefix t "CERT " then Some (GoStrings.TrimPrefix t "CERT ") else None);
  DecodePrivateKeyPEM t :=
    Ok (if GoStrings.HasPrefix t "KEY " then Some (GoStrings.TrimPrefix t "KEY ") else None);
  ParseCertificate b := Ok b;
|}.

#[export] Instance RefCertsLaws : CertsLaws.
Proof.
  split; intros x; unfold DecodeCertPEM, DecodePrivateKeyPEM, EncodeCertPEM, EncodePrivateKeyPEM; simpl;
    by rewrite ?GoStrings.HasPrefix_app, GoStrings.TrimPrefix_app.
Qed.
