(* ===== verification/ApiServer.v ===== *)
(** The contract of the management cluster's API server, as far as the theorems
    about stored objects rely on it, and the interleaving of several
    controllers against one server.

    [ApiServer] is a class over an abstract server state: reads answer the
    current objects, creation is exclusive, deletion removes, and a patch
    applies the difference between the helper's snapshot and the object (JSON
    merge patch).  A call that fails with another error than the ones the code
    tests may or may not have taken effect.  [RefServer] at the end is a server
    that satisfies the class, in which the witnesses run. *)

From S2P Require Import Prelude Objects ApiTypes Effects Libs.

(** ** The contract *)

(** What the server keeps of a created object: it may choose the UID and the
    creation time.  Of the specifications, the parts that the theorems need; the
    client may leave out slices and maps that are empty. *)
Definition erase (m : ObjectMeta) : ObjectMeta :=
  match m with mkMeta n ns _ l a o f _ d => mkMeta n ns "" l a o f 0 d end.

Definition stored_as (k : kind) : obj k → obj k → Prop :=
  match k return obj k → obj k → Prop with
  | KConfigMap => λ o o', erase (cm_meta o) = erase (cm_meta o') ∧ cm_Data o = cm_Data o'
  | KSecret => λ o o', erase (s_meta o) = erase (s_meta o') ∧
                       s_Data o = s_Data o' ∧ s_Type o = s_Type o'
  | KMachine => λ o o', erase (m_meta o) = erase (m_meta o') ∧
                        m_Version o = m_Version o' ∧ m_ConfigRef o = m_ConfigRef o' ∧
                        m_InfrastructureRef o = m_InfrastructureRef o'
  | KCK8sConfig => λ o o', erase (cfg_meta o) = erase (cfg_meta o') ∧
                           (cfg_Spec o' = cfg_Spec o ∨ cfg_Spec o' = encoded (cfg_Spec o))
  | k => λ o o', erase (meta_of k o) = erase (meta_of k o')
  end.

Definition obj_key (k : kind) (o : obj k) : ObjectKey := key_of (meta_of k o).

(** Merging the difference from [b] to [a] into the annotations of [o]. *)
Definition ann_merged (b a o o' : ObjectMeta) : Prop :=
  ∀ key, ann o' key = if decide (ann a key = ann b key) then ann o key else ann a key.

(** A call that cannot change what the management cluster stores. *)
Definition quiet {X} (e : sysE X) : Prop :=
  match e with
  | Create _ _ | Update _ _ | Delete _ _ | DeleteRef _ | Patch _ _ _ | MergePatch _ _ _
  | PatchUnstructured _ _ | CreateFromTemplate _ => False
  | _ => True
  end.

Lemma stored_refl k o : stored_as k o o.
Proof. destruct k; simpl; auto. Qed.

Class ApiServer (W : Type) `{!ApiErrors, !Env W} := {
  view : ∀ k : kind, W → ObjectKey → option (obj k);

  view_key k w key o : view k w key = Some o → obj_key k o = key;

  api_get k key r w w' :
    env_step (Get k key) r w w' →
    (∀ k' key', view k' w' key' = view k' w key') ∧
    match r with
    | Ok o => view k w key = Some o
    | Err e => IsNotFound e = true → view k w key = None
    end;

  api_create k o r w w' :
    env_step (Create k o) r w w' →
    (∀ k' key', (k', key') ≠ (k, obj_key k o) → view k' w' key' = view k' w key') ∧
    match r with
    | Ok o' => view k w (obj_key k o) = None ∧
               view k w' (obj_key k o) = Some o' ∧ stored_as k o o'
    | Err e =>
        view k w' (obj_key k o) = view k w (obj_key k o) ∧
        (IsAlreadyExists e = true → is_Some (view k w (obj_key k o)))
        ∨ IsAlreadyExists e = false ∧ view k w (obj_key k o) = None ∧
          ∃ o', view k w' (obj_key k o) = Some o' ∧ stored_as k o o'
    end;

  api_delete k key r w w' :
    env_step (Delete k key) r w w' →
    (∀ k' key', (k', key') ≠ (k, key) → view k' w' key' = view k' w key') ∧
    match r with
    | Ok _ => is_Some (view k w key) ∧ view k w' key = None
    | Err e => view k w' key = view k w key ∧ (IsNotFound e = true → view k w key = None)
               ∨ IsNotFound e = false ∧ view k w' key = None
    end;

  api_patch k b a r w w' :
    env_step (Patch k b a) r w w' →
    (∀ k' key', (k', key') ≠ (k, obj_key k a) → view k' w' key' = view k' w key') ∧
    match r with
    | Ok _ => ∃ o o', view k w (obj_key k a) = Some o ∧ view k w' (obj_key k a) = Some o' ∧
                      ann_merged (meta_of k b) (meta_of k a) (meta_of k o) (meta_of k o')
    | Err _ => True
    end;

  api_update k o r w w' :
    env_step (Update k o) r w w' →
    (∀ k' key', (k', key') ≠ (k, obj_key k o) → view k' w' key' = view k' w key') ∧
    match r with
    | Ok o' => is_Some (view k w (obj_key k o)) ∧
               view k w' (obj_key k o) = Some o' ∧ stored_as k o o'
    | Err _ => view k w' (obj_key k o) = view k w (obj_key k o)
               ∨ ∃ o', view k w' (obj_key k o) = Some o' ∧ stored_as k o o'
    end;

  (* with the optimistic lock, the patch applies to the object it was computed
     from, or not at all *)
  api_merge_patch k b a r w w' :
    env_step (MergePatch k b a) r w w' →
    (∀ k' key', (k', key') ≠ (k, obj_key k a) → view k' w' key' = view k' w key') ∧
    match r with
    | Ok o' => view k w (obj_key k a) = Some b ∧
               view k w' (obj_key k a) = Some o' ∧ stored_as k a o'
    | Err _ => view k w' (obj_key k a) = view k w (obj_key k a)
               ∨ ∃ o', view k w' (obj_key k a) = Some o' ∧ stored_as k a o'
    end;

  (* listing: the objects of the namespace that carry the labels *)
  api_list k ns (labels : strmap) l w w' :
    env_step (ListObj k ns labels) (Ok l) w w' →
    NoDup (obj_key k <$> l) ∧
    ∀ o, o ∈ l ↔ view k w (obj_key k o) = Some o ∧ om_Namespace (meta_of k o) = ns ∧
                 labels ⊆ om_Labels (meta_of k o);

  (* calls that do not reach the management cluster, or only read it *)
  api_quiet {X} (e : sysE X) x w w' :
    env_step e x w w' → quiet e → ∀ k key, view k w' key = view k w key;

  (* only a run-time panic is excluded *)
  api_pre {X} (e : sysE X) w : match e with Panic _ => False | _ => True end → env_pre e w;
}.

(** ** Programs that only read *)

(** The environment that allows quiet calls only; any answer is possible. *)
Definition quiet_env : Env unit := {|
  env_pre := λ _ e _, quiet e ∧ match e with Panic _ => False | _ => True end;
  env_step := λ _ _ _ _ _, True;
|}.

(** The program makes quiet calls only, does not panic, and returns a value of
    [Q]. *)
Definition reads_post {A} (p : prog A) (Q : A → Prop) : Prop :=
  @wp unit quiet_env A p tt (λ _ a, Q a).
Definition reads {A} (p : prog A) : Prop := reads_post p (λ _, True).

Lemma wp_reads_post {W} `{!ApiErrors, !Env W, !ApiServer W} {A} (p : prog A) Q w :
  reads_post p Q → wp p w (λ w' a, (∀ k key, view k w' key = view k w key) ∧ Q a).
Proof.
  unfold reads_post. revert w. induction p as [a|X e k IH]; intros w; simpl; [done|].
  intros [[Hq Hp] Hk]. split; [by apply api_pre|]. intros x w' Hx Hs.
  pose proof (api_quiet _ _ _ _ Hs Hq) as Hv.
  eapply wp_mono; [by apply IH, (Hk x tt)|]. simpl. intros w2 a [Hw2 HQ]. split; [|done].
  intros k' key. by rewrite Hw2.
Qed.

Lemma wp_reads {W} `{!ApiErrors, !Env W, !ApiServer W} {A} (p : prog A) w :
  reads p → wp p w (λ w' _, ∀ k key, view k w' key = view k w key).
Proof. intros Hp. eapply wp_mono; [by apply wp_reads_post|]. by intros w' a [Hv _]. Qed.

(** Only the object of this kind and key may have changed. *)
Definition frame {W} `{!ApiErrors, !Env W, !ApiServer W} (k : kind) (key : ObjectKey) (w w' : W) : Prop :=
  ∀ k' key', (k', key') ≠ (k, key) → view k' w' key' = view k' w key'.

(** Nothing changed. *)
Definition same_view {W} `{!ApiErrors, !Env W, !ApiServer W} (w w' : W) : Prop :=
  ∀ k key, view k w' key = view k w key.

#[export] Instance same_view_preorder {W} `{!ApiErrors, !Env W, !ApiServer W} : PreOrder same_view.
Proof. split; [by intros w k key|]. intros w1 w2 w3 H1 H2 k key. by rewrite H2. Qed.

(** ** Programs that write one object *)

(** An object that is read has the key it was asked for. *)
Definition read_ok {X} (e : sysE X) : X → Prop :=
  match e in sysE X return X → Prop with
  | Get k key => λ r, match r with Ok o => obj_key k o = key | Err _ => True end
  | _ => λ _, True
  end.

(** The environment that allows quiet calls, panics and patches of one object. *)
Definition writes_env (k : kind) (key : ObjectKey) : Env unit := {|
  env_pre := λ _ e _, match e with
                      | Patch k' _ a => k' = k ∧ obj_key k' a = key
                      | Panic _ => True
                      | e => quiet e
                      end;
  env_step := λ _ e x _ _, read_ok e x;
|}.

(** The program writes at most this object and returns a value of [Q]. *)
Definition writes_post {A} (k : kind) (key : ObjectKey) (p : prog A) (Q : A → Prop) : Prop :=
  @wp unit (writes_env k key) A p tt (λ _ a, Q a).

Lemma writes_reads {A} k key (p : prog A) (Q : A → Prop) : reads_post p Q → writes_post k key p Q.
Proof.
  unfold reads_post, writes_post. generalize tt. induction p as [a|X e c IH]; intros u; simpl; [done|].
  intros [[Hq _] Hc]. split; [by destruct e|]. intros x [] Hx _. apply IH. by apply (Hc x tt).
Qed.

Lemma exec_frame {W} `{!ApiErrors, !Env W, !ApiServer W} {A} k key (p : prog A) Q (w w' : W) a :
  writes_post k key p Q → exec p w w' a → frame k key w w'.
Proof.
  unfold writes_post. revert w. generalize tt. induction p as [a'|X e c IH]; intros u w; simpl.
  { intros _ [-> _]. by intros k' key' _. }
  intros [Hp Hc] (x & w1 & Hx & Hs & He).
  assert (frame k key w w1) as Hf.
  { destruct e; try (intros k' key' _; by eapply api_quiet; [exact Hs|done]); try done.
    destruct Hp as [-> <-]. apply (api_patch k) in Hs as [Hs _]. exact Hs. }
  assert (read_ok e x) as Hr.
  { destruct e; try done. apply (api_get _) in Hs as [_ Hs].
    destruct x; [by eapply view_key|done]. }
  intros k' key' Hne. rewrite (IH x tt w1) by (auto || by apply (Hc x tt)). by apply Hf.
Qed.

(** A server whose calls fail only for the reasons that the state explains. *)
Class Reliable (W : Type) `{!ApiErrors, !Env W} : Prop := {
  reliable_get k key e w w' : env_step (Get k key) (Err e) w w' → IsNotFound e = true;
  reliable_create k o e w w' : env_step (Create k o) (Err e) w w' → IsAlreadyExists e = true;
  reliable_delete k key e w w' : env_step (Delete k key) (Err e) w w' → IsNotFound e = true;
}.

(** ** The writes of a trace *)

#[export] Instance quiet_dec {X} (e : sysE X) : Decision (quiet e).
Proof. destruct e; simpl; apply _. Defined.

(** The calls of a trace that may change the management cluster, in order. *)
Definition is_write (o : obs) : bool := match o with Obs e _ => negb (bool_decide (quiet e)) end.
Definition writes (t : trace) : trace := List.filter is_write t.

Lemma writes_app t t' : writes (t ++ t') = writes t ++ writes t'.
Proof. apply List.filter_app. Qed.

Lemma writes_quiet {X} (e : sysE X) (x : X) t : quiet e → writes (t ++ [Obs e x]) = writes t.
Proof.
  intros He. rewrite writes_app. unfold writes at 2. simpl. rewrite bool_decide_true by done.
  apply app_nil_r.
Qed.

Lemma writes_write {X} (e : sysE X) (x : X) t :
  ¬ quiet e → writes (t ++ [Obs e x]) = writes t ++ [Obs e x].
Proof.
  intros He. rewrite writes_app. unfold writes at 2. simpl. by rewrite bool_decide_false.
Qed.

(** One more call: the test on a given call evaluates. *)
Lemma written {X} (e : sysE X) x t :
  writes (t ++ [Obs e x]) = writes t ++ (if decide (quiet e) then [] else [Obs e x]).
Proof. case_decide; [rewrite app_nil_r; by apply writes_quiet|by apply writes_write]. Qed.

Lemma writes_elem o t : o ∈ writes t → o ∈ t.
Proof. unfold writes. rewrite !list_elem_of_In, List.filter_In. tauto. Qed.

(** A program that only reads extends the trace and writes nothing. *)
Lemma wp_trace_reads_post {A} (p : prog A) (Q : A → Prop) (t : trace) :
  reads_post p Q →
  wp p t (λ t' a, (∀ o, o ∈ t → o ∈ t') ∧ writes t' = writes t ∧ Q a).
Proof.
  unfold reads_post. revert t. induction p as [a|X e k IH]; intros t; simpl; [done|].
  intros [[Hq Hp] Hk]. split; [by destruct e|]. intros x t' Hx ->.
  eapply wp_mono; [by apply IH, (Hk x tt)|]. simpl. intros t2 a (Hs & Hw & HQ).
  split; [|split; [by rewrite Hw, writes_quiet|done]].
  intros o Ho. apply Hs, elem_of_app. by left.
Qed.

Lemma wp_trace_reads {A} (p : prog A) (t : trace) :
  reads p → wp p t (λ t' _, (∀ o, o ∈ t → o ∈ t') ∧ writes t' = writes t).
Proof. intros Hp. eapply wp_mono; [by apply wp_trace_reads_post|]. by intros t' a (? & ? & _). Qed.

(** ** The trace of an execution *)

Section Chain.
Context {W : Type} `{!ApiErrors, !Env W, !ApiServer W}.

(** The server goes through the exchanges of [t]. *)
Fixpoint chain (t : trace) (w w' : W) : Prop :=
  match t with
  | [] => w' = w
  | Obs e x :: t => ∃ w1, env_step e x w w1 ∧ chain t w1 w'
  end.

Lemma exec_chain {A} (p : prog A) t w w' a :
  exec p w w' a → ∃ t', exec p t (t ++ t') a ∧ chain t' w w'.
Proof.
  revert t w. induction p as [a'|X e k IH]; intros t w; simpl.
  - intros [-> ->]. exists []. by rewrite app_nil_r.
  - intros (x & w1 & Hx & Hs & He). destruct (IH x (t ++ [Obs e x]) w1 He) as (t' & Ht' & Hc).
    exists (Obs e x :: t'). split; [|by exists w1]. exists x, (t ++ [Obs e x]).
    rewrite <- (assoc_L (++)) in Ht'. done.
Qed.

(** What holds of the traces of a program holds of the exchanges of an execution. *)
Lemma exec_trace {A} (p : prog A) w w' a (Q : trace → A → Prop) :
  wp p ([] : trace) Q → exec p w w' a → ∃ t, Q t a ∧ chain t w w'.
Proof.
  intros Hp He. destruct (exec_chain p [] w w' a He) as (t & Ht & Hc).
  exists t. split; [|done]. exact (wp_sound p [] _ _ _ Hp Ht).
Qed.

Lemma chain_app t1 t2 w w' : chain (t1 ++ t2) w w' ↔ ∃ w1, chain t1 w w1 ∧ chain t2 w1 w'.
Proof.
  revert w. induction t1 as [|[X e x] t1 IH]; intros w; simpl; [naive_solver|].
  setoid_rewrite IH. naive_solver.
Qed.

(** Only the writes change stored objects. *)
Fixpoint write_chain (t : trace) (w w' : W) : Prop :=
  match t with
  | [] => same_view w w'
  | Obs e x :: t => ∃ w1 w2, same_view w w1 ∧ env_step e x w1 w2 ∧ write_chain t w2 w'
  end.

Lemma write_chain_same t w w1 w' : same_view w w1 → write_chain t w1 w' → write_chain t w w'.
Proof.
  destruct t as [|[X e x] t]; simpl; [by intros ? ?; etrans|].
  intros Hv (w2 & w3 & Hv2 & Hrest). exists w2, w3. split; [by etrans|done].
Qed.

Lemma chain_writes t w w' : chain t w w' → write_chain (writes t) w w'.
Proof.
  revert w. induction t as [|[X e x] t IH]; intros w; simpl; [by intros ->|].
  intros (w1 & Hs & Hc%IH). unfold writes. simpl. case_bool_decide as Hq; simpl.
  - eapply write_chain_same; [|exact Hc]. intros k key. by eapply api_quiet.
  - exists w, w1. by split_and!.
Qed.
End Chain.

(** ** Growing traces, and programs that may panic *)

Definition extends (t t' : trace) : Prop := ∀ o, o ∈ t → o ∈ t'.

Lemma extends_refl t : extends t t.
Proof. by intros o Ho. Qed.
Lemma extends_snoc t t' o : extends t t' → extends t (t' ++ [o]).
Proof. intros He o' Ho. apply elem_of_app. left. by apply He. Qed.
Lemma extends_trans t t' t'' : extends t t' → extends t' t'' → extends t t''.
Proof. intros He He' o Ho. by apply He', He. Qed.

(** The traces of a program that may also panic. *)
Definition panic_env : Env trace := {|
  env_pre := λ _ _ _, True;
  env_step := λ _ e x t t', t' = t ++ [Obs e x];
|}.

Lemma trace_extends {A} (p : prog A) t : @wp trace panic_env A p t (λ t' _, extends t t').
Proof.
  revert t. induction p as [a|X e k IH]; intros t; simpl; [apply extends_refl|].
  split; [done|]. intros x t' _ ->. eapply wp_mono; [apply IH|]. intros t2 a He o Ho.
  apply He, elem_of_app. by left.
Qed.

Lemma panic_reads_post {A} (p : prog A) (Q : A → Prop) (t : trace) :
  reads_post p Q → @wp trace panic_env A p t (λ t' a, extends t t' ∧ writes t' = writes t ∧ Q a).
Proof.
  unfold reads_post. revert t. induction p as [a|X e k IH]; intros t; simpl; [done|].
  intros [[Hq Hp] Hk]. split; [done|]. intros x t' Hx ->.
  eapply wp_mono; [by apply IH, (Hk x tt)|]. simpl. intros t2 a (Hs & Hw & HQ).
  split; [|split; [by rewrite Hw, writes_quiet|done]].
  intros o Ho. apply Hs, elem_of_app. by left.
Qed.

(** ** Programs restricted to some calls, and counted calls *)

(** Any answer is possible; only calls of [P] are allowed. *)
Definition only_env (P : ∀ X, sysE X → Prop) : Env unit := {|
  env_pre := λ X e _, P X e;
  env_step := λ _ _ _ _ _, True;
|}.
Definition only {A} (P : ∀ X, sysE X → Prop) (p : prog A) : Prop :=
  @wp unit (only_env P) A p tt (λ _ _, True).

(** The environment that counts the calls of [f]. *)
Definition count_env (f : ∀ X, sysE X → bool) : Env nat := {|
  env_pre := λ _ _ _, True;
  env_step := λ X e _ n n', n' = (if f X e then S n else n);
|}.

Lemma only_reads {A} P (p : prog A) Q :
  (∀ X (e : sysE X), quiet e → P X e) → reads_post p Q → only P p.
Proof.
  intros HP. unfold reads_post, only. induction p as [a|X e k IH]; simpl; [done|].
  intros [[Hq _] Hk]. split; [by apply HP|]. intros x [] Hx _. by apply IH, (Hk x tt).
Qed.

(** A program without a counted call counts nothing. *)
Lemma only_count {A} f (p : prog A) n (Q : nat → A → Prop) :
  only (λ X e, f X e = false) p → (∀ a, Q n a) → @wp nat (count_env f) A p n Q.
Proof.
  unfold only. intros Hp HQ. induction p as [a|X e k IH]; simpl; [done|].
  destruct Hp as [He Hk]. split; [done|]. intros x n' Hx ->. rewrite He. by apply IH, (Hk x tt).
Qed.

Lemma only_bind {A B} P (p : prog A) (f : A → prog B) :
  only P p → (∀ a, only P (f a)) → only P (prog_bind p f).
Proof.
  intros Hp Hf. unfold only. apply wp_bind. eapply wp_mono; [exact Hp|]. intros [] a _. apply Hf.
Qed.

(** ** Interleaving *)

Section Interleave.
Context {W : Type} `{!Env W} {A : Type}.

(** A pool of threads over one server: a thread makes one call, or the rest
    of the world takes a step. *)
Inductive pstep (interf : W → W → Prop) : W * list (prog A) → W * list (prog A) → Prop :=
  | pstep_call i X (e : sysE X) k x w w' ts :
      ts !! i = Some (Vis e k) → lang_ok e x → env_step e x w w' →
      pstep interf (w, ts) (w', <[i:=k x]> ts)
  | pstep_world w w' ts : interf w w' → pstep interf (w, ts) (w', ts).

Definition psteps (interf : W → W → Prop) := rtc (pstep interf).

(** One thread as seen by itself: before each of its calls the others may move
    the server along [R], and its own calls stay in [Gu]. *)
Definition rg_env (R Gu : W → W → Prop) : Env W := {|
  env_pre := λ X e w, ∀ w1 x w2, R w w1 → lang_ok e x → env_step e x w1 w2 → Gu w1 w2;
  env_step := λ X e x w w2, ∃ w1, R w w1 ∧ env_step e x w1 w2;
|}.

Definition rely_guar (R Gu : W → W → Prop) (p : prog A) (w : W) (Q : A → W → Prop) : Prop :=
  @wp W (rg_env R Gu) A p w (λ w a, ∀ w', R w w' → Q a w').

Lemma rely_guar_stable (R Gu : W → W → Prop) `{!PreOrder R} p w w' Q :
  rely_guar R Gu p w Q → R w w' → rely_guar R Gu p w' Q.
Proof.
  destruct p as [a|X e k]; unfold rely_guar; simpl.
  - intros HQ HR w'' HR'. apply HQ. by trans w'.
  - intros [Hpre HQ] HR. split.
    + intros w1 x w2 H1. apply Hpre. by trans w'.
    + intros x w2 Hx (w1 & H1 & H2). apply HQ; [done|]. exists w1. split; [|done]. by trans w'.
Qed.

(** Threads whose guarantees the others rely on reach their postconditions in
    every interleaving. *)
Theorem psteps_rely_guar (interf : W → W → Prop) (R Gu : nat → W → W → Prop) `{!∀ i, PreOrder (R i)}
    (Q : nat → A → W → Prop) w ts w' ts' :
  (∀ i w w', interf w w' → R i w w') →
  (∀ i j w w', i < length ts → j < length ts → i ≠ j → Gu j w w' → R i w w') →
  (∀ i p, ts !! i = Some p → rely_guar (R i) (Gu i) p w (Q i)) →
  psteps interf (w, ts) (w', ts') →
  ∀ i a, ts' !! i = Some (Ret a) → Q i a w'.
Proof.
  intros Hi Hij Hts Hsteps.
  assert (∀ i p, ts' !! i = Some p → rely_guar (R i) (Gu i) p w' (Q i)) as Hts'.
  { unfold psteps in Hsteps.
    remember (w, ts) as c eqn:Hc. remember (w', ts') as c' eqn:Hc'.
    revert w ts Hij Hts Hc. induction Hsteps as [c|c c1 c2 H1 _ IH]; intros w ts Hij Hts ->.
    - injection Hc' as -> ->. done.
    - inversion H1 as [j X e k x w0 w1 ts0 Hj Hx Hs|w0 w1 ts0 Hw]; subst; clear H1.
      + eapply IH; [done|by rewrite length_insert| |done]. pose proof (Hts _ _ Hj) as [Hpre Hwp].
        assert (Gu j w w1) as Hg by (eapply Hpre; [by apply PreOrder_Reflexive|done..]).
        intros i p Hp. destruct (decide (i = j)) as [->|Hne].
        * rewrite list_lookup_insert_eq in Hp by (by eapply lookup_lt_Some).
          injection Hp as <-. apply Hwp; [done|]. exists w. split; [|done].
          by apply PreOrder_Reflexive.
        * rewrite list_lookup_insert_ne in Hp by done.
          eapply rely_guar_stable; eauto using lookup_lt_Some.
      + eapply IH; [done|done| |done]. intros i p Hp. eapply rely_guar_stable; eauto. }
  intros i a Ha. apply (Hts' _ _ Ha). by apply PreOrder_Reflexive.
Qed.

Lemma psteps_length (interf : W → W → Prop) w ts w' ts' :
  psteps interf (w, ts) (w', ts') → length ts' = length ts.
Proof.
  intros Hs. unfold psteps in Hs. remember (w, ts) as c eqn:Hc. remember (w', ts') as c' eqn:Hc'.
  revert w ts Hc. induction Hs as [c|c c1 c2 Hst _ IH]; intros w ts ->; [by simplify_eq|].
  inversion Hst; subst; [|by eapply IH]. rewrite (IH eq_refl _ _ eq_refl). apply length_insert.
Qed.

(** The case in which all threads keep one relation, each for the others. *)
Definition rg (R : W → W → Prop) : prog A → W → (A → W → Prop) → Prop := rely_guar R R.

Corollary psteps_rg (interf R : W → W → Prop) `{!PreOrder R} (Q : nat → A → W → Prop) w ts w' ts' :
  (∀ w w', interf w w' → R w w') →
  (∀ i p, ts !! i = Some p → rg R p w (Q i)) →
  psteps interf (w, ts) (w', ts') →
  ∀ i a, ts' !! i = Some (Ret a) → Q i a w'.
Proof. intros Hi. by apply (psteps_rely_guar interf (λ _, R) (λ _, R)). Qed.
End Interleave.
