(* ===== verification/RefServer.v ===== *)
(** A server that satisfies the contract of [ApiServer]: one finite map per
    kind, calls that fail only as the contract's named errors, and a handler
    that runs programs against it. *)

From Stdlib Require Import FunctionalExtensionality.
From S2P Require Import Prelude Objects ApiTypes Effects Libs RefLibs ApiServer.

Definition Store : Type := ∀ k : kind, gmap ObjectKey (obj k).

Definition look (k : kind) (w : Store) (key : ObjectKey) : option (obj k) :=
  match w k !! key with
  | Some o => if decide (obj_key k o = key) then Some o else None
  | None => None
  end.

Definition upd (k : kind) (key : ObjectKey) (o : option (obj k)) (w : Store) : Store :=
  λ k', match decide (k = k') with
        | left E => eq_rect k (λ k, gmap ObjectKey (obj k)) (partial_alter (λ _, o) key (w k)) k' E
        | right _ => w k'
        end.

Lemma look_upd_eq k key o w :
  look k (upd k key o w) key = match o with
                               | Some o => if decide (obj_key k o = key) then Some o else None
                               | None => None
                               end.
Proof.
  unfold look, upd. destruct (decide (k = k)) as [E|]; [|done].
  rewrite (proof_irrel E eq_refl). simpl. by rewrite lookup_partial_alter_eq.
Qed.

Lemma look_upd_ne k key o w k' key' :
  (k', key') ≠ (k, key) → look k' (upd k key o w) key' = look k' w key'.
Proof.
  intros Hne. unfold look, upd. destruct (decide (k = k')) as [E|]; [|done].
  subst k'. simpl. rewrite lookup_partial_alter_ne by congruence. done.
Qed.

Lemma look_key k w key o : look k w key = Some o → obj_key k o = key.
Proof. unfold look. repeat case_match; intros; by simplify_eq. Qed.

(** ** Merge patches *)

Definition merge_ann (b a o : option strmap) : option strmap :=
  let diff : gmap string (option string) :=
    merge (λ x y, if decide (x = y) then None else Some x) (default ∅ a) (default ∅ b) in
  Some (merge (λ d x, match d with Some v => v | None => x end) diff (default ∅ o)).

Lemma merge_ann_spec b a o :
  ann_merged b a o (set_Annotations (merge_ann (om_Annotations b) (om_Annotations a) (om_Annotations o)) o).
Proof.
  intros key. unfold merge_ann. rewrite ann_set. rewrite !lookup_merge.
  rewrite !ann_default. destruct (ann a key) as [x|], (ann b key) as [y|], (ann o key) as [z|]; simpl;
    repeat case_decide; simpl; naive_solver.
Qed.

Definition apply_patch (k : kind) (b a o : obj k) : obj k :=
  set_meta k (set_Annotations
    (merge_ann (om_Annotations (meta_of k b)) (om_Annotations (meta_of k a))
       (om_Annotations (meta_of k o))) (meta_of k o)) o.

Lemma key_of_patch k b a o : obj_key k (apply_patch k b a o) = obj_key k o.
Proof. unfold obj_key, apply_patch. rewrite meta_of_set. by destruct (meta_of k o). Qed.

(** ** The server *)

Definition not_found : error := ErrStatus NotFound "not found".
Definition already_exists : error := ErrStatus AlreadyExists "already exists".

Definition conflict : error := ErrStatus Conflict "conflict".

(** The resource version: only secrets are patched under an optimistic lock. *)
Definition same (k : kind) : obj k → obj k → bool :=
  match k return obj k → obj k → bool with
  | KSecret => λ a b, bool_decide (a = b)
  | _ => λ _ _, false
  end.

Lemma same_eq k a b : same k a b = true → a = b.
Proof. destruct k; simpl; try done. apply bool_decide_eq_true. Qed.

(** The objects of a namespace that carry the labels. *)
Definition selects (k : kind) (ns : string) (labels : strmap) (p : ObjectKey * obj k) : Prop :=
  obj_key k p.2 = p.1 ∧ om_Namespace (meta_of k p.2) = ns ∧ labels ⊆ om_Labels (meta_of k p.2).

#[export] Instance selects_dec k ns labels p : Decision (selects k ns labels p).
Proof. unfold selects. apply _. Defined.

Definition listed (k : kind) (ns : string) (labels : strmap) (w : Store) : list (obj k) :=
  (filter (selects k ns labels) (map_to_list (w k))).*2.

Lemma listed_spec k ns labels w :
  NoDup (obj_key k <$> listed k ns labels w) ∧
  ∀ o, o ∈ listed k ns labels w ↔
       look k w (obj_key k o) = Some o ∧ om_Namespace (meta_of k o) = ns ∧
       labels ⊆ om_Labels (meta_of k o).
Proof.
  unfold listed. split.
  - assert (∀ l, NoDup (l.*1) → NoDup (obj_key k <$> (filter (selects k ns labels) l).*2)) as Hgen.
    { induction l as [|[key o] l IH]; simpl; [intros; constructor|].
      intros Hnd. inversion_clear Hnd as [|? ? Hn Hl]. rewrite filter_cons.
      case_decide as Hs; [|by apply IH]. simpl. constructor; [|by apply IH].
      destruct Hs as [Hk _]; simpl in Hk. rewrite Hk, <- list_fmap_compose, list_elem_of_fmap.
      intros ([key' o'] & -> & [[Hk' _] Hin]%list_elem_of_filter). apply Hn.
      simpl in Hk'. simpl. rewrite Hk'. by apply (list_elem_of_fmap_2 fst) in Hin. }
    apply Hgen, NoDup_fst_map_to_list.
  - intros o. rewrite list_elem_of_fmap. split.
    + intros ([key o'] & -> & [(Hk & Hns & Hl) Hin]%list_elem_of_filter). simpl in *. subst key.
      apply elem_of_map_to_list in Hin. unfold look. rewrite Hin, decide_True by done. done.
    + intros (Hl & Hns & Hls). exists (obj_key k o, o). split; [done|].
      apply list_elem_of_filter. split; [done|]. apply elem_of_map_to_list.
      unfold look in Hl. repeat case_match; by simplify_eq.
Qed.

(** The answer of a management cluster call and the store after it; other
    calls, those for infrastructure objects among them, are answered by [other]. *)
Definition serve (other : handler Store) : handler Store := λ X e w,
  match e in sysE X return option (X * Store) with
  | Get k key => Some (match look k w key with Some o => Ok o | None => Err not_found end, w)
  | Create k o =>
      match look k w (obj_key k o) with
      | Some _ => Some (Err already_exists, w)
      | None => Some (Ok o, upd k (obj_key k o) (Some o) w)
      end
  | Delete k key =>
      match look k w key with
      | Some _ => Some (Ok tt, upd k key None w)
      | None => Some (Err not_found, w)
      end
  | Patch k b a =>
      match look k w (obj_key k a) with
      | Some o => Some (Ok tt, upd k (obj_key k a) (Some (apply_patch k b a o)) w)
      | None => Some (Err not_found, w)
      end
  | Update k o =>
      match look k w (obj_key k o) with
      | Some _ => Some (Ok o, upd k (obj_key k o) (Some o) w)
      | None => Some (Err not_found, w)
      end
  | MergePatch k b a =>
      match look k w (obj_key k a) with
      | Some o => if same k b o then Some (Ok a, upd k (obj_key k a) (Some a) w)
                  else Some (Err conflict, w)
      | None => Some (Err not_found, w)
      end
  | ListObj k ns labels => Some (Ok (listed k ns labels w), w)
  | e => match other _ e w with Some (x, _) => Some (x, w) | None => None end
  end.

(** The server of the oracle [other]; a call it does not answer never returns. *)
Definition server_env (other : handler Store) : Env Store := {|
  env_pre := λ _ e _, match e with Panic _ => False | _ => True end;
  env_step := λ X e x w w', serve other X e w = Some (x, w');
|}.

(** With no oracle: only the management cluster answers. *)
Definition no_oracle : handler Store := λ _ _ _, None.

#[export] Program Instance RefServer (other : handler Store) :
    @ApiServer Store RefApiErrors (server_env other) := {| view := look |}.
Next Obligation. intros. by eapply look_key. Qed.
Next Obligation.
  intros other k key r w w' H; simpl in H; unfold env_step in H; simpl in H.
  injection H as <- <-. split; [done|].
  destruct (look k w key) as [o|] eqn:Hl; [done|]. by intros _.
Qed.
Next Obligation.
  intros other k o r w w' H; simpl in H; unfold env_step in H; simpl in H.
  destruct (look k w (obj_key k o)) as [o'|] eqn:Hl; injection H as <- <-.
  - split; [done|]. left. split; [done|]. intros _. by eexists.
  - split; [intros; by apply look_upd_ne|]. rewrite look_upd_eq, decide_True by done.
    split; [done|]. split; [done|]. apply stored_refl.
Qed.
Next Obligation.
  intros other k key r w w' H; simpl in H; unfold env_step in H; simpl in H.
  destruct (look k w key) as [o|] eqn:Hl; injection H as <- <-.
  - split; [intros; by apply look_upd_ne|]. rewrite look_upd_eq. by split.
  - split; [done|]. by left.
Qed.
Next Obligation.
  intros other k b a r w w' H; simpl in H; unfold env_step in H; simpl in H.
  destruct (look k w (obj_key k a)) as [o|] eqn:Hl; injection H as <- <-.
  - split; [intros; by apply look_upd_ne|]. exists o, (apply_patch k b a o).
    rewrite look_upd_eq, decide_True by (rewrite key_of_patch; by eapply look_key).
    split; [done|]. split; [done|]. unfold apply_patch. rewrite meta_of_set. apply merge_ann_spec.
  - done.
Qed.
Next Obligation.
  intros other k o r w w' H; simpl in H; unfold env_step in H; simpl in H.
  destruct (look k w (obj_key k o)) as [o'|] eqn:Hl; injection H as <- <-.
  - split; [intros; by apply look_upd_ne|]. rewrite look_upd_eq, decide_True by done.
    split; [by eexists|]. split; [done|]. apply stored_refl.
  - split; [done|]. by left.
Qed.
Next Obligation.
  intros other k b a r w w' H; simpl in H; unfold env_step in H; simpl in H.
  destruct (look k w (obj_key k a)) as [o|] eqn:Hl; [|injection H as <- <-; split; [done|by left]].
  destruct (same k b o) eqn:Hs; injection H as <- <-; [|split; [done|by left]].
  apply same_eq in Hs as ->. split; [intros; by apply look_upd_ne|].
  rewrite look_upd_eq, decide_True by done. split; [done|]. split; [done|]. apply stored_refl.
Qed.
Next Obligation.
  intros other k ns labels l w w' H; simpl in H; unfold env_step in H; simpl in H.
  injection H as <- <-. apply listed_spec.
Qed.
Next Obligation.
  intros other X e x w w' Hs Hq; simpl in Hs; unfold env_step in Hs; simpl in Hs.
  destruct e; try done; simpl in Hs;
    try (destruct (other _ _ w) as [[y w1]|]; [|done]); by injection Hs as <- <-.
Qed.
Next Obligation. intros other X e w He. by destruct e. Qed.

(** Executions of the server. *)
Lemma serve_exec other {A} (p : prog A) w w' a :
  (∀ X (e : sysE X) w x w', other X e w = Some (x, w') → lang_ok e x) →
  run (serve other) p w = Some (a, w') → @exec Store (server_env other) A p w w' a.
Proof.
  intros Ho. apply (@run_exec Store (server_env other)). intros X e w1 x w2 He. split; [|done].
  destruct e; try done.
  simpl in He. destruct (other _ _ w1) as [[y w3]|] eqn:Hy; [|done].
  injection He as <- <-. by eapply Ho in Hy.
Qed.

#[export] Instance RefReliable other : @Reliable Store RefApiErrors (server_env other).
Proof.
  split; intros k; intros; cbn in *; repeat case_match; by simplify_eq.
Qed.

(** ** Schedules *)

Section Schedules.
Context (other : handler Store) (Hother : ∀ X (e : sysE X) w x w', other X e w = Some (x, w') → lang_ok e x).

(** Running the threads of a pool in the given order, one call at a time. *)
Fixpoint psched {A} (sched : list nat) (w : Store) (ts : list (prog A))
    : option (Store * list (prog A)) :=
  match sched with
  | [] => Some (w, ts)
  | i :: sched =>
      match ts !! i with
      | Some (Vis e k) =>
          match serve other _ e w with
          | Some (x, w') => psched sched w' (<[i:=k x]> ts)
          | None => None
          end
      | _ => None
      end
  end.

Lemma serve_lang_ok {X} (e : sysE X) w x w' : serve other X e w = Some (x, w') → lang_ok e x.
Proof using Hother.
  intros He. destruct e; try done. simpl in He. destruct (other _ _ w) as [[y w3]|] eqn:Hy; [|done].
  injection He as <- <-. by eapply Hother in Hy.
Qed.

Lemma psched_psteps {A} sched w (ts : list (prog A)) w' ts' interf :
  psched sched w ts = Some (w', ts') →
  @psteps Store (server_env other) A interf (w, ts) (w', ts').
Proof using Hother.
  revert w ts. induction sched as [|i sched IH]; intros w ts; simpl.
  - intros [= -> ->]. apply rtc_refl.
  - destruct (ts !! i) as [[a|X e k]|] eqn:Hi; [done| |done].
    destruct (serve other X e w) as [[x w1]|] eqn:Hs; [|done]. intros H.
    eapply rtc_l; [|by apply IH].
    apply (@pstep_call Store (server_env other) A _ i X e k x); [done| |done].
    by eapply serve_lang_ok.
Qed.

(** What the threads of a pool have returned. *)
Definition returned {A} (p : prog A) : option A :=
  match p with Ret a => Some a | Vis _ _ => None end.

Definition outcomes {A} (sched : list nat) (w : Store) (ts : list (prog A))
    : option (list (option A)) :=
  match psched sched w ts with Some (_, ts') => Some (returned <$> ts') | None => None end.

Lemma outcomes_psteps {A} sched w (ts : list (prog A)) rs interf :
  outcomes sched w ts = Some rs →
  ∃ w' ts', @psteps Store (server_env other) A interf (w, ts) (w', ts') ∧
    psched sched w ts = Some (w', ts') ∧
    ∀ i a, rs !! i = Some (Some a) → ts' !! i = Some (Ret a).
Proof using Hother.
  unfold outcomes. destruct (psched sched w ts) as [[w' ts']|] eqn:Hs; [|done].
  intros [= <-]. exists w', ts'. split; [by eapply psched_psteps|]. split; [done|].
  intros i a. rewrite list_lookup_fmap_Some. intros ([a'|] & Ha & Hi); simpl in Ha; [|done].
  by injection Ha as ->.
Qed.
End Schedules.

Lemma no_oracle_ok X (e : sysE X) w x w' : no_oracle X e w = Some (x, w') → lang_ok e x.
Proof. done. Qed.

(** ** Small worlds for the witnesses *)

Definition meta_named (n : string) : ObjectMeta := mkMeta n "ns" n ∅ None [] [] 0 None.
Definition ref_named (kind n : string) : ObjectReference := mkRef "v1" kind "ns" n n.
Definition machine_named (n : string) : Machine :=
  mkMachine (meta_named n) "c" (Some "v1.30.0") (ref_named "Infra" n)
    (Some (ref_named "CK8sConfig" n)) None None None None None [].
Definition cluster_named (n : string) : Cluster :=
  mkCluster (meta_named n) (mkEndpoint "10.0.0.1" 6443) None None true None [].

Definition empty_store : Store := λ k, ∅.
Definition put (k : kind) (o : obj k) (w : Store) : Store := upd k (obj_key k o) (Some o) w.

Lemma look_empty k key : look k empty_store key = None.
Proof. unfold look, empty_store. by rewrite lookup_empty. Qed.

Lemma look_put_ne k k' (o : obj k') w key : k ≠ k' → look k (put k' o w) key = look k w key.
Proof. intros Hne. apply look_upd_ne. congruence. Qed.

Lemma look_put_Some k (o o' : obj k) w key :
  look k (put k o w) key = Some o' → o' = o ∨ look k w key = Some o'.
Proof.
  unfold put. destruct (decide (key = obj_key k o)) as [->|Hne].
  - rewrite look_upd_eq, decide_True by done. intros [= ->]. by left.
  - rewrite look_upd_ne by congruence. by right.
Qed.

Definition empty_cp_config : CK8sControlPlaneConfig :=
  mkControlPlaneConfig [] "" [] "" (mkSecretRef "" "") 0 0 "" None ∅ ∅ ∅ no_cp_empties.
Definition empty_init : CK8sInitConfiguration :=
  mkInitConfiguration None None None None None None None None.
Definition empty_spec : CK8sConfigSpec :=
  mkConfigSpec "v1.30.0" [] None [] [] ∅ [] false "" "" "" "" "" "" "" "" ""
    empty_cp_config empty_init "" ∅ ∅ ∅ ∅ no_empties.
Definition config_named (n : string) : CK8sConfig :=
  mkConfig (meta_named n) empty_spec (mkConfigStatus false "" None "" "" 0 []).

Definition node_named (n : string) : Node :=
  mkNode (meta_named n) [] [mkAddress "InternalIP" "10.0.0.2"] [mkNodeCondition "Ready" ConditionTrue].
Definition pod_on (n : string) : Pod :=
  mkPod (meta_named ("proxy-" +:+ n)) n [mkNodeCondition "Ready" ConditionTrue].

(** A world in which the workload cluster has the given nodes, each with a ready
    proxy pod, every other call succeeds, and k8sd answers [http]. *)
Definition friendly (nodes : list string) (cluster : Cluster)
    (http : HttpRequest → gores HttpResponse) : handler Store := λ X e w,
  match e in sysE X return option (X * Store) with
  | NewHelper _ _ => Some (Ok tt, w)
  | NewUnstructuredHelper _ => Some (Ok tt, w)
  | GetClusterByName _ _ => Some (Ok cluster, w)
  | GetOwnerCluster _ => Some (Ok (Some cluster), w)
  | Eventf _ _ _ _ => Some (tt, w)
  | RESTConfig _ => Some (Ok tt, w)
  | NewRemoteClient _ => Some (Ok tt, w)
  | NewClientset _ => Some (Ok tt, w)
  | RoundTripperFor _ => Some (Ok tt, w)
  | WGet _ k key => match k return option (gores (obj k) * Store) with
                    | KNode => Some (Ok (node_named (key_name key)), w)
                    | _ => Some (Err (ErrStatus NotFound "not found"), w)
                    end
  | WList _ k _ => match k return option (gores (list (obj k)) * Store) with
                   | KNode => Some (Ok (node_named <$> nodes), w)
                   | _ => Some (Ok [], w)
                   end
  | WListPods _ _ _ => Some (Ok (pod_on <$> nodes), w)
  | HttpDo _ r => Some (http r, w)
  | RandRead n => Some (Ok (replicate n "000"%char), w)
  | Now => Some (0%Z, w)
  | RangeKeys ks => Some (ks, w)
  | Schedule => Some (true, w)
  | _ => None
  end.

Lemma friendly_lang nodes cluster http X (e : sysE X) w x w' :
  friendly nodes cluster http X e w = Some (x, w') → lang_ok e x.
Proof. destruct e; simpl; try done. by intros [= <- <-]. Qed.

(** A k8sd answer with the given metadata. *)
Definition k8sd_ok (md : string) : gores HttpResponse := Ok (mkHttpResponse 200 (Ok (EmptyString, Some md))).

(** ** Executing programs in such a world *)

Definition answer_of (world : handler Store) {A} (p : prog A) (w : Store) : option A :=
  fst <$> run (serve world) p w.
Definition served (world : handler Store) {A} (p : prog A) (w : Store) : Store :=
  match run (serve world) p w with Some (_, w') => w' | None => w end.

Lemma served_exec nodes cluster http {A} (p : prog A) w a :
  answer_of (friendly nodes cluster http) p w = Some a →
  @exec Store (server_env (friendly nodes cluster http)) A p w (served (friendly nodes cluster http) p w) a.
Proof.
  unfold answer_of, served. destruct (run _ p w) as [[a' w']|] eqn:Hr; simpl; [|done].
  intros [= ->]. eapply serve_exec; [|exact Hr]. apply friendly_lang.
Qed.

(** Stores are compared kind by kind. *)
Definition kinds : list kind :=
  [KMachine; KCluster; KSecret; KConfigMap; KCK8sConfig; KControlPlane; KMachineDeployment;
   KMachineSet; KNode].

Definition same_store (w1 w2 : Store) : bool := forallb (λ k, bool_decide (w1 k = w2 k)) kinds.

Lemma same_store_eq w1 w2 : same_store w1 w2 = true → w1 = w2.
Proof.
  unfold same_store. rewrite forallb_forall. intros Heq. apply functional_extensionality_dep.
  intros k. apply (bool_decide_eq_true_1 (w1 k = w2 k)), Heq. destruct k; simpl; tauto.
Qed.

Lemma look_lookup k w key o : look k w key = Some o → w k !! key = Some o.
Proof. unfold look. repeat case_match; congruence. Qed.
