(* ===== verification/Json.v ===== *)
(** The part of [encoding/json] that the lock information uses
    (src/pkg/locking/control_plane_init_mutex.go and
    src/pkg/upgrade/inplace/lock.go): marshalling of a struct of strings, and
    unmarshalling of any JSON text into one.  The text is taken to be valid
    UTF-8, as the API server guarantees of a config map's data: bytes above 127
    are copied. *)

From S2P Require Import Prelude Objects.

Module Json.
Inductive value :=
  | JNull
  | JBool (b : bool)
  | JNumber (text : string)
  | JString (s : string)
  | JArray (l : list value)
  | JObject (l : list (string * value)).

(** ** Marshalling *)

Definition backslash : ascii := "092".
Definition hexdigit (n : N) : ascii := ascii_of_N (if n <? 10 then 48 + n else 87 + n)%N.

(** [appendString] with HTML escaping, on one byte. *)
Definition escape (c : ascii) : string :=
  let n := N_of_ascii c in
  if (n =? 34)%N then String backslash (String c "")
  else if (n =? 92)%N then String backslash (String c "")
  else if (n =? 8)%N then String backslash "b"
  else if (n =? 12)%N then String backslash "f"
  else if (n =? 10)%N then String backslash "n"
  else if (n =? 13)%N then String backslash "r"
  else if (n =? 9)%N then String backslash "t"
  else if (n <? 32)%N || (n =? 60)%N || (n =? 62)%N || (n =? 38)%N
  then String backslash ("u00" +:+ String (hexdigit (n / 16)%N) (String (hexdigit (n mod 16)%N) ""))
  else String c "".

Fixpoint escapes (s : string) : string :=
  match s with
  | EmptyString => EmptyString
  | String c s => escape c +:+ escapes s
  end.

Definition print_string (s : string) : string := dquote +:+ escapes s +:+ dquote.

(** The fields of a struct of strings, in order. *)
Fixpoint print_fields (l : list (string * string)) : string :=
  match l with
  | [] => EmptyString
  | [(k, v)] => print_string k +:+ ":" +:+ print_string v
  | (k, v) :: l => print_string k +:+ ":" +:+ print_string v +:+ "," +:+ print_fields l
  end.

(** [json.Marshal] of a struct of strings: it cannot fail. *)
Definition Marshal (l : list (string * string)) : string :=
  "{" +:+ print_fields l +:+ "}".

(** [json.Marshal] of any value: compact, with the members in the given order. *)
Fixpoint print (v : value) : string :=
  match v with
  | JNull => "null"
  | JBool b => if b then "true" else "false"
  | JNumber text => text
  | JString s => print_string s
  | JArray l => "[" +:+ String.concat "," (map print l) +:+ "]"
  | JObject l =>
      "{" +:+ String.concat "," (map (λ kv, print_string kv.1 +:+ ":" +:+ print kv.2) l) +:+ "}"
  end.

(** A struct field tagged [omitempty], present when the test fails. *)
Definition omitempty (empty : bool) (k : string) (v : value) : list (string * value) :=
  if empty then [] else [(k, v)].

(** ** Parsing *)

Definition is_space (c : ascii) : bool :=
  let n := N_of_ascii c in (n =? 32)%N || (n =? 9)%N || (n =? 10)%N || (n =? 13)%N.

Fixpoint skip (s : string) : string :=
  match s with
  | String c s' => if is_space c then skip s' else s
  | EmptyString => s
  end.

Definition unhex (c : ascii) : option N :=
  let n := N_of_ascii c in
  if (48 <=? n)%N && (n <=? 57)%N then Some (n - 48)%N
  else if (97 <=? n)%N && (n <=? 102)%N then Some (n - 87)%N
  else if (65 <=? n)%N && (n <=? 70)%N then Some (n - 55)%N
  else None.

(** The four digits of a [\u] escape. *)
Definition hex4 (s : string) : option (N * string) :=
  match s with
  | String a (String b (String c (String d s))) =>
      a ← unhex a; b ← unhex b; c ← unhex c; d ← unhex d;
      Some (((a * 16 + b) * 16 + c) * 16 + d, s)%N
  | _ => None
  end.

(** [utf8.EncodeRune] *)
Definition encode_rune (r : N) : string :=
  let b (n : N) := ascii_of_N n in
  (if r <? 128 then String (b r) ""
   else if r <? 2048 then String (b (192 + r / 64)) (String (b (128 + r mod 64)) "")
   else if r <? 65536
   then String (b (224 + r / 4096))
          (String (b (128 + (r / 64) mod 64)) (String (b (128 + r mod 64)) ""))
   else String (b (240 + r / 262144))
          (String (b (128 + (r / 4096) mod 64))
            (String (b (128 + (r / 64) mod 64)) (String (b (128 + r mod 64)) ""))))%N.

Definition replacement : string := encode_rune 65533.

(** One byte after a backslash, [\u] excepted. *)
Definition unescape (c : ascii) : option ascii :=
  let n := N_of_ascii c in
  if (n =? 34)%N || (n =? 92)%N || (n =? 47)%N then Some c
  else if (n =? 98)%N then Some "008"%char
  else if (n =? 102)%N then Some "012"%char
  else if (n =? 110)%N then Some "010"%char
  else if (n =? 114)%N then Some "013"%char
  else if (n =? 116)%N then Some "009"%char
  else None.

(** The rest of a string literal, after its opening quote.  A surrogate pair
    gives one rune, a lone surrogate the replacement character. *)
Fixpoint scan (fuel : nat) (s : string) : option (string * string) :=
  match fuel, s with
  | S fuel, String c s =>
      let n := N_of_ascii c in
      if (n =? 34)%N then Some (EmptyString, s)
      else if (n <? 32)%N then None
      else if (n =? 92)%N then
        match s with
        | EmptyString => None
        | String e s1 =>
            if (N_of_ascii e =? 117)%N then
              '(r, s2) ← hex4 s1;
              if (55296 <=? r)%N && (r <? 57344)%N then
                let lone := '(t, rest) ← scan fuel s2; Some (replacement +:+ t, rest) in
                match s2 with
                | String b (String u s3) =>
                    if (N_of_ascii b =? 92)%N && (N_of_ascii u =? 117)%N && (r <? 56320)%N then
                      match hex4 s3 with
                      | Some (r', s4) =>
                          if (56320 <=? r')%N && (r' <? 57344)%N then
                            '(t, rest) ← scan fuel s4;
                            Some (encode_rune (65536 + (r - 55296) * 1024 + (r' - 56320))%N +:+ t, rest)
                          else lone
                      | None => None
                      end
                    else lone
                | _ => None
                end
              else
                '(t, rest) ← scan fuel s2;
                Some (encode_rune (r) +:+ t, rest)
            else
              c ← unescape e;
              '(t, rest) ← scan fuel s1;
              Some (String c t, rest)
        end
      else '(t, rest) ← scan fuel s; Some (String c t, rest)
  | _, _ => None
  end.

Definition is_digit (c : ascii) : bool :=
  (48 <=? N_of_ascii c)%N && (N_of_ascii c <=? 57)%N.

Fixpoint span (f : ascii → bool) (s : string) : string * string :=
  match s with
  | String c s' => if f c then let '(a, b) := span f s' in (String c a, b) else (EmptyString, s)
  | EmptyString => (EmptyString, EmptyString)
  end.

(** One or more digits. *)
Definition digits1 (s : string) : option (string * string) :=
  match span is_digit s with (EmptyString, _) => None | p => Some p end.

(** A number literal: sign, integer part without leading zeros, fraction,
    exponent. *)
Definition number (s : string) : option (string * string) :=
  let '(sg, s) := match s with String "-" s => ("-", s) | _ => (EmptyString, s) end in
  '(ip, s) ← match s with String "0" s => Some ("0", s) | _ => digits1 s end;
  '(fr, s) ← match s with
             | String "." s => '(d, s) ← digits1 s; Some ("." +:+ d, s)
             | _ => Some (EmptyString, s)
             end;
  '(ex, s) ← match s with
             | String "e" s | String "E" s =>
                 let '(g, s) := match s with
                                | String "-" s => ("-", s)
                                | String "+" s => ("+", s)
                                | _ => (EmptyString, s)
                                end in
                 '(d, s) ← digits1 s; Some ("e" +:+ g +:+ d, s)
             | _ => Some (EmptyString, s)
             end;
  Some (sg +:+ ip +:+ fr +:+ ex, s).

Definition literal (word : string) (v : value) (s : string) : option (value * string) :=
  if GoStrings.HasPrefix s word then Some (v, GoStrings.drop (String.length word) s) else None.

(** A value and the text after it.  Every call consumes a byte or goes from
    [members]/[elements] to [parse], so twice the length of the text is
    enough fuel. *)
Fixpoint parse (fuel : nat) (s : string) : option (value * string) :=
  match fuel with
  | O => None
  | S fuel =>
      match skip s with
      | String c s' =>
          let n := N_of_ascii c in
          if (n =? 34)%N then '(t, rest) ← scan (String.length s') s'; Some (JString t, rest)
          else if (n =? 123)%N then
            match skip s' with
            | String "}" rest => Some (JObject [], rest)
            | s' => '(l, rest) ← members fuel s'; Some (JObject l, rest)
            end
          else if (n =? 91)%N then
            match skip s' with
            | String "]" rest => Some (JArray [], rest)
            | s' => '(l, rest) ← elements fuel s'; Some (JArray l, rest)
            end
          else if (n =? 116)%N then literal "true" (JBool true) (String c s')
          else if (n =? 102)%N then literal "false" (JBool false) (String c s')
          else if (n =? 110)%N then literal "null" JNull (String c s')
          else '(t, rest) ← number (String c s'); Some (JNumber t, rest)
      | EmptyString => None
      end
  end
with members (fuel : nat) (s : string) : option (list (string * value) * string) :=
  match fuel with
  | O => None
  | S fuel =>
      match skip s with
      | String q s' =>
          if (N_of_ascii q =? 34)%N then
            '(k, s1) ← scan (String.length s') s';
            match skip s1 with
            | String ":" s2 =>
                '(v, s3) ← parse fuel s2;
                match skip s3 with
                | String "," s4 => '(l, rest) ← members fuel s4; Some ((k, v) :: l, rest)
                | String "}" rest => Some ([(k, v)], rest)
                | _ => None
                end
            | _ => None
            end
          else None
      | EmptyString => None
      end
  end
with elements (fuel : nat) (s : string) : option (list value * string) :=
  match fuel with
  | O => None
  | S fuel =>
      '(v, s1) ← parse fuel s;
      match skip s1 with
      | String "," s2 => '(l, rest) ← elements fuel s2; Some (v :: l, rest)
      | String "]" rest => Some ([v], rest)
      | _ => None
      end
  end.

Definition parse_text (s : string) : option value :=
  match parse (2 * String.length s + 2) s with
  | Some (v, rest) => match skip rest with EmptyString => Some v | _ => None end
  | None => None
  end.

(** ** Unmarshalling into a struct of strings *)

(** A key selects the field of its name, letter case aside. *)
Definition select (fields : list string) (k : string) : option string :=
  match find (λ f, bool_decide (f = k)) fields with
  | Some f => Some f
  | None => find (λ f, bool_decide (GoStrings.ToLower f = GoStrings.ToLower k)) fields
  end.

(** Fields are assigned in the order of the text; [null] assigns nothing and
    another type is an error that is reported after the rest is read. *)
Fixpoint assign (fields : list string) (l : list (string * value)) (m : strmap) (ok : bool)
    : strmap * bool :=
  match l with
  | [] => (m, ok)
  | (k, v) :: l =>
      match select fields k with
      | None => assign fields l m ok
      | Some f =>
          match v with
          | JString s => assign fields l (<[f:=s]> m) ok
          | JNull => assign fields l m ok
          | _ => assign fields l m false
          end
      end
  end.

(** [json.Unmarshal(text, &struct)]: the fields that were set. *)
Definition Unmarshal (fields : list string) (text : string) : gores strmap :=
  match parse_text text with
  | None => Err (ErrNew "json: syntax error")
  | Some JNull => Ok ∅
  | Some (JObject l) =>
      let '(m, ok) := assign fields l ∅ true in
      if ok then Ok m else Err (ErrNew "json: cannot unmarshal into Go value of type string")
  | Some _ => Err (ErrNew "json: cannot unmarshal into Go value of struct type")
  end.

Example unmarshal_spaces :
  Unmarshal ["machineName"]
    (" { " +:+ dquote +:+ "MACHINEname" +:+ dquote +:+ " : " +:+ print_string "m<1>" +:+ "," +:+
     print_string "x" +:+ ":[1,-2.5e3,null,{}]} ") = Ok {["machineName" := "m<1>"]}.
Proof. vm_compute. reflexivity. Qed.
Example unmarshal_empty : is_ok (Unmarshal ["machineName"] "") = false.
Proof. reflexivity. Qed.

(** ** Round trip *)

(** A property of every byte, by computation. *)
Lemma ascii_all (P : ascii → bool) :
  forallb P (map ascii_of_nat (seq 0 256)) = true → ∀ c, P c = true.
Proof.
  rewrite forallb_forall. intros H c. apply H.
  rewrite <- (ascii_nat_embedding c). apply in_map, in_seq.
  pose proof (nat_ascii_bounded c). lia.
Qed.

(** Reading back one escaped byte. *)
Lemma scan_escape c fuel s t rest :
  scan fuel s = Some (t, rest) → scan (S fuel) (escape c +:+ s) = Some (String c t, rest).
Proof.
  intros Hs.
  pose (kind := λ c, let n := N_of_ascii c in
    match escape c with
    | String b "" => bool_decide (b = c) && negb (n =? 34)%N && negb (n <? 32)%N && negb (n =? 92)%N
    | String b (String e "") =>
        (N_of_ascii b =? 92)%N && negb (N_of_ascii e =? 117)%N &&
        bool_decide (unescape e = Some c)
    | String b (String e (String h1 (String h2 (String h3 (String h4 ""))))) =>
        (N_of_ascii b =? 92)%N && (N_of_ascii e =? 117)%N &&
        match hex4 (String h1 (String h2 (String h3 (String h4 "")))) with
        | Some (r, _) => bool_decide (r < 128)%N && bool_decide (ascii_of_N r = c)
        | None => false
        end
    | _ => false
    end).
  assert (kind c = true) as Hk by (revert c; apply ascii_all; vm_compute; reflexivity).
  unfold kind in Hk.
  destruct (escape c) as [|b [|e [|h1 [|h2 [|h3 [|h4 [|]]]]]]]; try done.
  - rewrite !andb_true_iff, !negb_true_iff, bool_decide_eq_true in Hk.
    destruct Hk as [[[-> H1] H2] H3]. change (String c "" +:+ s) with (String c s). cbn -[N.eqb N.ltb N_of_ascii].
    by rewrite H1, H2, H3, Hs.
  - rewrite !andb_true_iff, negb_true_iff, bool_decide_eq_true in Hk.
    destruct Hk as [[H1 H2] H3].
    change (String b (String e "") +:+ s) with (String b (String e s)). cbn -[N.eqb N.ltb N_of_ascii unescape].
    rewrite (proj2 (N.eqb_neq _ 34)), (proj2 (N.ltb_ge _ _)), H1, H2, H3
      by (apply N.eqb_eq in H1; lia).
    simpl. by rewrite Hs.
  - rewrite !andb_true_iff in Hk. destruct Hk as [[H1 H2] H3].
    destruct (hex4 _) as [[r t']|] eqn:Hx; [|done].
    rewrite andb_true_iff, !bool_decide_eq_true in H3. destruct H3 as [Hr Hc].
    assert (hex4 (String h1 (String h2 (String h3 (String h4 s)))) = Some (r, s)) as Hx'.
    { unfold hex4 in *. destruct (unhex h1), (unhex h2), (unhex h3), (unhex h4); simpl in *;
        simplify_eq; done. }
    change (String b (String e (String h1 (String h2 (String h3 (String h4 ""))))) +:+ s) with
      (String b (String e (String h1 (String h2 (String h3 (String h4 s)))))).
    cbn -[N.eqb N.ltb N.leb N_of_ascii unescape hex4 encode_rune].
    rewrite (proj2 (N.eqb_neq _ 34)), (proj2 (N.ltb_ge (N_of_ascii b) _)), H1, H2
      by (apply N.eqb_eq in H1; lia).
    rewrite Hx'. cbn -[N.leb encode_rune].
    rewrite (proj2 (N.leb_gt _ _)) by lia. cbn -[encode_rune]. rewrite Hs. simpl.
    unfold encode_rune. rewrite (proj2 (N.ltb_lt _ _)) by lia. by rewrite Hc.
Qed.

Lemma escape_nonempty c : escape c ≠ EmptyString.
Proof. unfold escape. by repeat case_match. Qed.

Lemma length_escape c : 1 ≤ String.length (escape c).
Proof. pose proof (escape_nonempty c). destruct (escape c); simpl; [done|lia]. Qed.

Lemma scan_escapes s rest fuel :
  String.length (escapes s) < fuel →
  scan fuel (escapes s +:+ dquote +:+ rest) = Some (s, rest).
Proof.
  revert fuel. induction s as [|c s IH]; intros [|fuel] Hf; try lia; [done|].
  simpl in Hf. rewrite GoStrings.length_app in Hf. pose proof (length_escape c).
  simpl escapes. rewrite GoStrings.app_assoc. apply scan_escape, IH. lia.
Qed.
(** A string literal in a text. *)
Lemma scan_string s rest :
  scan (String.length (escapes s +:+ dquote +:+ rest)) (escapes s +:+ dquote +:+ rest)
  = Some (s, rest).
Proof. apply scan_escapes. rewrite !GoStrings.length_app. unfold dquote. simpl. lia. Qed.

Lemma print_string_app s rest :
  print_string s +:+ rest = String "034" (escapes s +:+ dquote +:+ rest).
Proof. unfold print_string. by rewrite !GoStrings.app_assoc. Qed.

Lemma parse_string fuel s rest :
  parse (S fuel) (print_string s +:+ rest) = Some (JString s, rest).
Proof.
  assert (∀ s', parse (S fuel) (String "034" s') =
    ('(t, rest) ← scan (String.length s') s'; Some (JString t, rest))) as Hp by done.
  by rewrite print_string_app, Hp, scan_string.
Qed.

Lemma members_cons fuel k v rest :
  members (S (S fuel)) (print_string k +:+ ":" +:+ print_string v +:+ rest) =
  match skip rest with
  | String "," s4 => '(l, rest) ← members (S fuel) s4; Some ((k, JString v) :: l, rest)
  | String "}" rest => Some ([(k, JString v)], rest)
  | _ => None
  end.
Proof.
  assert (∀ s', members (S (S fuel)) (String "034" s') =
    ('(k, s1) ← scan (String.length s') s';
     match skip s1 with
     | String ":" s2 =>
         '(v, s3) ← parse (S fuel) s2;
         match skip s3 with
         | String "," s4 => '(l, rest) ← members (S fuel) s4; Some ((k, v) :: l, rest)
         | String "}" rest => Some ([(k, v)], rest)
         | _ => None
         end
     | _ => None
     end)) as Hm by done.
  rewrite print_string_app, Hm, scan_string. cbn [mbind option_bind].
  change (skip (":" +:+ print_string v +:+ rest)) with (":" +:+ print_string v +:+ rest).
  change (":" +:+ print_string v +:+ rest) with (String ":" (print_string v +:+ rest)).
  cbv beta iota. by rewrite parse_string.
Qed.

Lemma members_fields l rest fuel :
  l ≠ [] → length l < fuel →
  members fuel (print_fields l +:+ String "}" rest) = Some (prod_map id JString <$> l, rest).
Proof.
  revert fuel. induction l as [|[k v] l IH]; intros fuel Hl Hf; [done|].
  destruct fuel as [|[|fuel]]; simpl in Hf; try lia.
  destruct l as [|kv l].
  - cbn [print_fields]. rewrite !GoStrings.app_assoc. by rewrite members_cons.
  - change (print_fields ((k, v) :: kv :: l)) with
      (print_string k +:+ ":" +:+ print_string v +:+ "," +:+ print_fields (kv :: l)).
    rewrite !GoStrings.app_assoc. rewrite members_cons.
    change (skip ("," +:+ print_fields (kv :: l) +:+ String "}" rest))
      with (String "," (print_fields (kv :: l) +:+ String "}" rest)).
    cbv beta iota. by rewrite IH by (done || simpl in *; lia).
Qed.

(** The fields are at most the bytes of the text. *)
Lemma length_print_fields l : length l ≤ String.length (print_fields l).
Proof.
  induction l as [|[k v] [|kv l] IH]; [done|..].
  - simpl. unfold print_string, dquote. rewrite !GoStrings.length_app. simpl. lia.
  - change (print_fields ((k, v) :: kv :: l)) with
      (print_string k +:+ ":" +:+ print_string v +:+ "," +:+ print_fields (kv :: l)).
    rewrite !GoStrings.length_app. cbn [length String.length] in *. lia.
Qed.

Lemma skip_fields k v l rest :
  ∃ s, print_fields ((k, v) :: l) +:+ rest = String "034" s.
Proof.
  destruct l; cbn [print_fields]; rewrite !GoStrings.app_assoc, print_string_app; eauto.
Qed.

Lemma parse_text_Marshal l :
  parse_text (Marshal l) = Some (JObject (prod_map id JString <$> l)).
Proof.
  unfold parse_text, Marshal. destruct l as [|[k v] l]; [done|].
  set (fs := (k, v) :: l).
  assert (parse (2 * String.length ("{" +:+ print_fields fs +:+ "}") + 2)
            ("{" +:+ print_fields fs +:+ "}") = Some (JObject (prod_map id JString <$> fs), EmptyString))
    as ->; [|done].
  set (fuel := 2 * _ + 2).
  assert (∃ f, fuel = S f ∧ length fs < f) as (f & -> & Hf).
  { exists (2 * String.length ("{" +:+ print_fields fs +:+ "}") + 1). split; [lia|].
    rewrite !GoStrings.length_app. pose proof (length_print_fields fs).
    change (String.length "{") with 1. change (String.length "}") with 1. lia. }
  change ("{" +:+ print_fields fs +:+ "}") with (String "{" (print_fields fs +:+ "}")).
  destruct (skip_fields k v l "}") as [t Ht].
  transitivity ('(l, rest) ← members f (print_fields fs +:+ String "}" ""); Some (JObject l, rest)).
  { fold fs in Ht. change (String "}" "") with "}". rewrite Ht. reflexivity. }
  by rewrite members_fields.
Qed.

Lemma select_elem fields k : k ∈ fields → select fields k = Some k.
Proof.
  intros Hk. unfold select.
  destruct (find (λ f, bool_decide (f = k)) fields) as [f|] eqn:Hf.
  - apply find_some in Hf as [_ Hf]. apply bool_decide_eq_true in Hf. by subst.
  - eapply find_none in Hf; [|by apply list_elem_of_In].
    by rewrite bool_decide_true in Hf.
Qed.

Lemma assign_fields fields l m :
  l.*1 ⊆ fields → NoDup l.*1 →
  assign fields (prod_map id JString <$> l) m true = (list_to_map l ∪ m, true).
Proof.
  revert m. induction l as [|[k v] l IH]; intros m Hl Hn; csimpl in *.
  - by rewrite (left_id_L ∅ _).
  - inversion Hn as [|? ? Hk Hn' E1]; subst; clear Hn; rename Hn' into Hn. rewrite select_elem by set_solver.
    rewrite IH by (done || set_solver). f_equal.
    rewrite <- insert_union_r, insert_union_l by by apply not_elem_of_list_to_map_1.
    done.
Qed.

(** Marshalling and unmarshalling give back the fields of the struct. *)
Lemma Unmarshal_Marshal l :
  NoDup l.*1 → Unmarshal l.*1 (Marshal l) = Ok (list_to_map l).
Proof.
  intros Hn. unfold Unmarshal. rewrite parse_text_Marshal, assign_fields by done.
  by rewrite (right_id_L ∅ _).
Qed.
End Json.
