(* ===== verification/JsonStruct.v ===== *)
(** [encoding/json] on structs whose fields are strings, numbers, booleans and
    values with a codec of their own: reading back what [Json.print] prints, and
    the decoding of one field. *)

From S2P Require Import Prelude Objects Json Duration.

Module JsonStruct.
Import Json.

(** ** Decoding a field *)

(** Decoding into a [string] field that holds [old]; [null] keeps it. *)
Definition to_string (old : string) (v : value) : option string :=
  match v with JString s => Some s | JNull => Some old | _ => None end.

(** Decoding into an [int] field: the literal must be an integer of 64 bits. *)
Definition to_int (old : Z) (v : value) : option Z :=
  match v with
  | JNumber text => match Strconv.Atoi text with Ok n => Some n | Err _ => None end
  | JNull => Some old
  | _ => None
  end.

(** ** Reading back printed values *)

(** What may follow a member of an object. *)
Definition closes (rest : string) : Prop :=
  match rest with
  | String c _ => c = ","%char ∨ c = "}"%char
  | EmptyString => False
  end.

(** The parser reads the printed value back. *)
Definition reads_back (v : value) : Prop :=
  ∀ fuel rest, closes rest → parse (S fuel) (print v +:+ rest) = Some (v, rest).

Lemma reads_back_string s : reads_back (JString s).
Proof. intros fuel rest _. apply parse_string. Qed.

Lemma reads_back_null : reads_back JNull.
Proof. intros fuel rest _. done. Qed.

Lemma digit_is_digit c : is_digit c = match Strconv.digit c with Some _ => true | None => false end.
Proof.
  unfold Strconv.digit, is_digit, nat_of_ascii. rewrite N_nat_Z.
  destruct ((48 <=? Z.of_N (N_of_ascii c)) && (Z.of_N (N_of_ascii c) <=? 57))%Z eqn:Hb.
  - rewrite andb_true_iff, !Z.leb_le in Hb. rewrite andb_true_iff, !N.leb_le. lia.
  - rewrite andb_false_iff, !Z.leb_gt in Hb. rewrite andb_false_iff, !N.leb_gt. lia.
Qed.

Lemma closes_not_digit c rest : closes (String c rest) → is_digit c = false.
Proof. by intros [->| ->]. Qed.

(** The digits of a number end where the value ends. *)
Lemma span_digits s acc v rest :
  Strconv.digits acc s = Some v → closes rest → span is_digit (s +:+ rest) = (s, rest).
Proof.
  intros Hs Hr. revert acc Hs. induction s as [|c s IH]; intros acc; simpl.
  - intros _. destruct rest as [|c rest]; [done|]. simpl. by rewrite closes_not_digit with c rest.
  - rewrite digit_is_digit. destruct (Strconv.digit c) as [d|]; [|done]. intros Hs.
    by rewrite (IH _ Hs).
Qed.

Lemma number_pretty (n : N) rest : closes rest → number (pretty n +:+ rest) = Some (pretty n, rest).
Proof.
  intros Hr.
  assert (match rest with
          | String "." s => '(d, s) ← digits1 s; Some ("." +:+ d, s)
          | _ => Some (EmptyString, rest) end = Some (EmptyString, rest)) as Hfrac.
  { destruct rest as [|c rest]; [done|]. by destruct Hr as [->| ->]. }
  assert (match rest with
          | String "e" s | String "E" s =>
              let '(g, s) := match s with
                             | String "-" s => ("-", s)
                             | String "+" s => ("+", s)
                             | _ => (EmptyString, s)
                             end in
              '(d, s) ← digits1 s; Some ("e" +:+ g +:+ d, s)
          | _ => Some (EmptyString, rest) end = Some (EmptyString, rest)) as Hexp.
  { destruct rest as [|c rest]; [done|]. by destruct Hr as [->| ->]. }
  destruct (decide (n = 0)%N) as [->|Hn].
  { change (pretty 0%N +:+ rest) with (String "0" rest). unfold number. cbn [mbind option_bind].
    by rewrite Hfrac; cbn [mbind option_bind]; rewrite Hexp. }
  destruct (Strconv.pretty_head_pos n) as (c & t & Hp & Hc); [lia|].
  pose proof (Strconv.digits_pretty n) as Hd.
  destruct (Strconv.pretty_head n) as (c' & t' & d & Hp' & Hd'). rewrite Hp in Hp'. injection Hp' as <- <-.
  assert (digits1 (pretty n +:+ rest) = Some (pretty n, rest)) as Hd1.
  { unfold digits1. rewrite (span_digits _ _ _ _ Hd Hr). by rewrite Hp. }
  apply Strconv.digit_neq in Hd' as [Hminus _].
  rewrite Hp in Hd1 |- *. change (String c t +:+ rest) with (String c (t +:+ rest)) in *.
  assert (number (String c (t +:+ rest)) =
    '(ip, s) ← digits1 (String c (t +:+ rest));
    '(fr, s) ← match s with
               | String "." s => '(d, s) ← digits1 s; Some ("." +:+ d, s)
               | _ => Some (EmptyString, s)
               end;
    '(ex, s) ← match s with
               | String "e" s | String "E" s =>
                   let '(g, s) := match s with
                                  | String "-" s => ("-", s)
                                  | String "+" s => ("+", s)
                                  | _ => (EmptyString, s)
                                  end in
                   '(d, s) ← digits1 s; Some ("e" +:+ g +:+ d, s)
               | _ => Some (EmptyString, s)
               end;
    Some (ip +:+ fr +:+ ex, s)) as ->.
  { destruct c as [[] [] [] [] [] [] [] []]; done. }
  rewrite Hd1. cbn [mbind option_bind]. rewrite Hfrac. cbn [mbind option_bind]. rewrite Hexp.
  cbn [mbind option_bind]. by rewrite GoStrings.app_nil_r.
Qed.

Lemma reads_back_number (n : N) : reads_back (JNumber (pretty n)).
Proof.
  intros fuel rest Hr. cbn [print]. pose proof (number_pretty n rest Hr) as Hn.
  destruct (Strconv.pretty_head n) as (c & t & d & Hp & Hd). rewrite Hp in *.
  change (String c t +:+ rest) with (String c (t +:+ rest)) in *.
  assert (parse (S fuel) (String c (t +:+ rest)) =
    '(t, rest) ← number (String c (t +:+ rest)); Some (JNumber t, rest)) as ->.
  { clear - Hd. destruct c as [[] [] [] [] [] [] [] []]; done. }
  by rewrite Hn.
Qed.

(** ** Reading back an object *)

Definition print_member (kv : string * value) : string := print_string kv.1 +:+ ":" +:+ print kv.2.

Lemma members_step fuel k v rest :
  reads_back v → closes rest →
  members (S (S fuel)) (print_member (k, v) +:+ rest) =
  match rest with
  | String "," s4 => '(l, rest) ← members (S fuel) s4; Some ((k, v) :: l, rest)
  | String "}" rest => Some ([(k, v)], rest)
  | _ => None
  end.
Proof.
  intros Hv Hr.
  assert (∀ s', members (S (S fuel)) (String "034" s') =
    ('(k, s1) ← scan (String.length s') s';
     match skip s1 with
     | String ":" s2 =>
         '(v, s3) ← parse (S fuel) s2;
         match skip s3 with
         | String "," s4 => '(l, rest) ← members (S fuel) s4; Some ((k, v) :: l, rest)
         | String "}" rest => Some ([(k, v)], rest)
         | _ => None
         end
     | _ => None
     end)) as Hm by done.
  unfold print_member. cbn [fst snd]. rewrite !GoStrings.app_assoc, print_string_app, Hm, scan_string.
  cbn [mbind option_bind].
  change (skip (":" +:+ print v +:+ rest)) with (String ":" (print v +:+ rest)).
  cbv beta iota. rewrite Hv by done. cbn [mbind option_bind].
  assert (skip rest = rest) as ->; [|done].
  destruct rest as [|c rest]; [done|]. by destruct Hr as [->| ->].
Qed.

Lemma members_print l rest fuel :
  l ≠ [] → Forall (λ kv, reads_back kv.2) l → length l < fuel →
  members fuel (String.concat "," (map print_member l) +:+ String "}" rest) = Some (l, rest).
Proof.
  revert fuel. induction l as [|[k v] l IH]; intros fuel Hne Hl Hf; [done|].
  apply Forall_cons_1 in Hl as [Hv Hl]. cbn [snd] in Hv. destruct fuel as [|[|fuel]]; simpl in Hf; try lia.
  destruct l as [|kv l].
  - cbn [map String.concat]. rewrite members_step; [done|done|by right].
  - cbn [map]. change (String.concat "," (print_member (k, v) :: print_member kv :: map print_member l)) with
      (print_member (k, v) +:+ "," +:+ String.concat "," (print_member kv :: map print_member l)).
    rewrite !GoStrings.app_assoc. rewrite members_step; [|done|by left].
    change ("," +:+ String.concat "," (print_member kv :: map print_member l) +:+ String "}" rest)
      with (String "," (String.concat "," (map print_member (kv :: l)) +:+ String "}" rest)).
    cbv beta iota. by rewrite IH by (done || simpl in *; lia).
Qed.

Lemma length_members l : length l ≤ String.length (String.concat "," (map print_member l)).
Proof.
  induction l as [|kv [|kv' l] IH]; [done|..].
  - unfold print_member, print_string, dquote. simpl. rewrite !GoStrings.length_app. simpl. lia.
  - cbn [map]. change (String.concat "," (print_member kv :: print_member kv' :: map print_member l)) with
      (print_member kv +:+ "," +:+ String.concat "," (map print_member (kv' :: l))).
    rewrite !GoStrings.length_app. cbn [length String.length] in *. lia.
Qed.

Lemma members_head k v l rest :
  ∃ s, String.concat "," (map print_member ((k, v) :: l)) +:+ rest = String "034" s.
Proof.
  assert (∀ r, ∃ s, print_member (k, v) +:+ r = String "034" s) as Hp.
  { intros r. unfold print_member. cbn [fst snd]. rewrite !GoStrings.app_assoc, print_string_app. eauto. }
  destruct l as [|kv l]; [apply Hp|].
  cbn [map]. change (String.concat "," (print_member (k, v) :: print_member kv :: map print_member l)) with
    (print_member (k, v) +:+ "," +:+ String.concat "," (print_member kv :: map print_member l)).
  rewrite GoStrings.app_assoc. apply Hp.
Qed.

(** A printed struct is read back, member by member. *)
Lemma parse_text_print l :
  Forall (λ kv, reads_back kv.2) l → parse_text (print (JObject l)) = Some (JObject l).
Proof.
  intros Hl. destruct l as [|[k v] l]; [done|]. set (fs := (k, v) :: l) in *.
  change (print (JObject fs)) with ("{" +:+ String.concat "," (map print_member fs) +:+ "}").
  set (text := String.concat "," (map print_member fs)).
  unfold parse_text.
  assert (parse (2 * String.length ("{" +:+ text +:+ "}") + 2) ("{" +:+ text +:+ "}") =
    Some (JObject fs, EmptyString)) as ->; [|done].
  set (fuel := 2 * _ + 2).
  assert (∃ f, fuel = S f ∧ length fs < f) as (f & -> & Hf).
  { exists (2 * String.length ("{" +:+ text +:+ "}") + 1). split; [lia|].
    rewrite !GoStrings.length_app. pose proof (length_members fs) as Hlen. fold text in Hlen.
    change (String.length "{") with 1. change (String.length "}") with 1. lia. }
  change ("{" +:+ text +:+ "}") with (String "{" (text +:+ "}")).
  destruct (members_head k v l "}") as [t Ht].
  transitivity ('(l, rest) ← members f (text +:+ String "}" ""); Some (JObject l, rest)).
  { unfold text, fs. change (String "}" "") with "}". rewrite Ht. reflexivity. }
  unfold text. by rewrite members_print.
Qed.

Lemma to_int_number old (n : N) : fits 64 (Z.of_N n) → to_int old (JNumber (pretty n)) = Some (Z.of_N n).
Proof. intros Hn. unfold to_int. by rewrite Strconv.Atoi_pretty. Qed.
End JsonStruct.
