(* ===== verification/Secrets.v ===== *)
(** src/pkg/secret: the names of a cluster's secrets (const.go, secret.go), and the
    certificates that are looked up in them or generated (certificates.go). *)

From S2P Require Import Prelude Objects ApiTypes Effects Libs RefLibs ApiServer RefServer.

(** ** const.go and secret.go *)

(** [type Purpose string] *)
Abbreviation Purpose := string (only parsing).
Definition KubeconfigDataName : string := "value".
Definition TLSKeyDataName : string := "tls.key".
Definition TLSCrtDataName : string := "tls.crt".
Definition Kubeconfig : Purpose := "kubeconfig".
Definition ClusterCA : Purpose := "ca".
Definition ClientClusterCA : Purpose := "cca".
Definition EtcdCA : Purpose := "etcd".
Definition ServiceAccount : Purpose := "sa".
Definition FrontProxyCA : Purpose := "proxy".
Definition APIServerEtcdClient : Purpose := "apiserver-etcd-client".

Definition allSecretPurposes : list Purpose :=
  [Kubeconfig; ClusterCA; EtcdCA; ServiceAccount; FrontProxyCA; APIServerEtcdClient].

Definition ErrSecretInvalidSuffix : error := ErrSentinel "not a valid cluster secret name".
Definition ErrMissingCertificate : error := ErrSentinel "missing certificate".
Definition ErrMissingCrt : error := ErrSentinel "missing crt data".
Definition ErrMissingKey : error := ErrSentinel "missing key data".
Definition ErrMissingData : error := ErrSentinel "missing data".

Module Secrets.

(** [func Name(cluster string, suffix Purpose) string] *)
Definition Name (cluster : string) (suffix : Purpose) : string := cluster +:+ "-" +:+ suffix.

Definition ParseSecretName (name : string) : gores (string * Purpose) :=
  match GoStrings.LastIndex name "-" with
  | None => Err (wrapf ("the purpose of the suffix is missing " +:+ quote name) ErrSecretInvalidSuffix)
  | Some separatorPos =>
      let clusterName := GoStrings.take separatorPos name in
      let purposeSuffix := GoStrings.drop (S separatorPos) name in
      if existsb (λ purpose, bool_decide (purpose = purposeSuffix)) allSecretPurposes
      then Ok (clusterName, purposeSuffix)
      else Err (wrapf ("invalid purpose suffix " +:+ quote name) ErrSecretInvalidSuffix)
  end.

Definition secret_key (clusterName : ObjectKey) (purpose : Purpose) : ObjectKey :=
  mkKey (key_ns clusterName) (Name (key_name clusterName) purpose).

Definition GetFromNamespacedName (clusterName : ObjectKey) (purpose : Purpose) : prog (gores Secret) :=
  func (
    secret ← check (call (Get KSecret (secret_key clusterName purpose))) Err;
    mret (Ok secret)).

(** ** certificates.go *)

(** [type Certificate struct] *)
Record Certificate := mkCertificate {
  Generated : bool;
  External : bool;
  cert_Purpose : Purpose;
  cert_KeyPair : option KeyPair;
  CertFile : string;
  KeyFile : string;
}.

(** [type Certificates []*Certificate]: the methods that assign to the
    certificates return them. *)
Abbreviation Certificates := (list Certificate).

Definition new_certificate (purpose : Purpose) (external : bool) : Certificate :=
  mkCertificate false external purpose None "" "".

Definition set_KeyPair (kp : KeyPair) (c : Certificate) : Certificate :=
  mkCertificate (Generated c) (External c) (cert_Purpose c) (Some kp) (CertFile c) (KeyFile c).

Definition NewCertificatesForInitialControlPlane (config : CK8sConfigSpec) : Certificates :=
  [new_certificate ClusterCA false; new_certificate ClientClusterCA false] ++
  (if negb (IsEtcdManaged config)
   then [new_certificate EtcdCA true; new_certificate APIServerEtcdClient true] else []).

Definition GetByPurpose (c : Certificates) (purpose : Purpose) : option Certificate :=
  List.find (λ certificate, bool_decide (cert_Purpose certificate = purpose)) c.

Definition secretToKeyPair (s : Secret) : gores KeyPair :=
  match s_Data s ≫= (!!) TLSCrtDataName with
  | None => Err (wrapf ("key " +:+ TLSCrtDataName) ErrMissingData)
  | Some c => Ok (mkKeyPair c (default "" (s_Data s ≫= (!!) TLSKeyDataName)))
  end.

Fixpoint EnsureAllExist (c : Certificates) : option error :=
  match c with
  | [] => None
  | certificate :: c =>
      match cert_KeyPair certificate with
      | None => Some ErrMissingCertificate
      | Some kp =>
          if bool_decide (kp_Cert kp = "")
          then Some (wrapf ("for certificate " +:+ cert_Purpose certificate) ErrMissingCrt)
          else if negb (External certificate) && bool_decide (kp_Key kp = "")
          then Some (wrapf ("for certificate " +:+ cert_Purpose certificate) ErrMissingKey)
          else EnsureAllExist c
      end
  end.

(** [func (c *Certificate) AsSecret]: of a certificate with a key pair. *)
Definition AsSecret (c : Certificate) (kp : KeyPair) (clusterName : ObjectKey) (owner : OwnerReference)
    : Secret :=
  mkSecret
    (mkMeta (Name (key_name clusterName) (cert_Purpose c)) (key_ns clusterName) ""
       {[Clusterv1.ClusterNameLabel := key_name clusterName]} None
       (if Generated c then [owner] else []) [] 0 None)
    (Some (<[TLSKeyDataName := kp_Key kp]> {[TLSCrtDataName := kp_Cert kp]}))
    Clusterv1.ClusterSecretType.

Section Certificates.
Context `{!ApiErrors, !CertsLib}.

(** [func newSelfSignedCACert]: valid from five minutes ago for ten years. *)
Definition newSelfSignedCACert (key : string) : prog (gores string) :=
  func (
    now ← call Now;
    let tmpl := mkCertTemplate "kubernetes" (now - 5 * Time.Minute) (now + 24 * 365 * 10 * Time.Hour) true in
    b ← check (call (CreateCertificate tmpl key))
      (λ e, Err (wrapf "failed to create self signed CA certificate {...}" e));
    mret (ParseCertificate b)).

Definition newCertificateAuthority : prog (gores (string * string)) :=
  func (
    key ← check (call NewPrivateKey) Err;
    c ← check (callp (newSelfSignedCACert key)) Err;
    mret (Ok (c, key))).

Definition generateCACert : prog (gores KeyPair) :=
  func (
    ck ← check (callp newCertificateAuthority) Err;
    mret (Ok (mkKeyPair (EncodeCertPEM ck.1) (EncodePrivateKeyPEM ck.2)))).

Definition generateServiceAccountKeys : prog (gores KeyPair) :=
  func (
    saCreds ← check (call NewPrivateKey) Err;
    saPub ← check (mret (EncodePublicKeyPEM saCreds)) Err;
    mret (Ok (mkKeyPair saPub (EncodePrivateKeyPEM saCreds)))).

(** [func (c *Certificate) Generate]: an external certificate stays without a key
    pair. *)
Definition Generate_one (c : Certificate) : prog (gores Certificate) :=
  func (
    if External c then return_ (Ok c)
    else
      kp ← check (callp (if bool_decide (cert_Purpose c = ServiceAccount)
                         then generateServiceAccountKeys else generateCACert)) Err;
      mret (Ok (mkCertificate true (External c) (cert_Purpose c) (Some kp) (CertFile c) (KeyFile c)))).

(** The loop [for _, certificate := range c] with certificates that the body
    assigns to: the ones visited so far are in the state. *)
Definition each_certificate (c : Certificates) (f : Certificate → prog (gores Certificate))
    : prog (gores Certificates) :=
  func_with (
    for_each c (λ certificate,
      certificate ← check (callp (f certificate)) Err;
      modify (λ done, done ++ [certificate])) ;;
    done ← get;
    mret (Ok done)) [].

Definition Lookup_one (clusterName : ObjectKey) (certificate : Certificate) : prog (gores Certificate) :=
  func (
    s ← call (Get KSecret (secret_key clusterName (cert_Purpose certificate)));
    match s with
    | Err e =>
        if IsNotFound e then
          if External certificate then return_ (Err (wrapf "external certificate not found" e))
          else return_ (Ok certificate)
        else return_ (Err e)
    | Ok s =>
        kp ← check (mret (secretToKeyPair s)) Err;
        mret (Ok (set_KeyPair kp certificate))
    end).

(** [func (c Certificates) Lookup]; the callers drop the certificates after an error. *)
Definition Lookup (c : Certificates) (clusterName : ObjectKey) : prog (gores Certificates) :=
  each_certificate c (Lookup_one clusterName).

(** [func (c Certificates) Generate] *)
Definition Generate (c : Certificates) : prog (gores Certificates) :=
  each_certificate c (λ certificate,
    match cert_KeyPair certificate with
    | None => Generate_one certificate
    | Some _ => Ret (Ok certificate)
    end).

(** [func (c Certificates) SaveGenerated]; a generated certificate has a key pair. *)
Definition SaveGenerated (c : Certificates) (clusterName : ObjectKey) (owner : OwnerReference)
    : prog (option error) :=
  func (
    for_each c (λ certificate,
      if Generated certificate then
        kp ← deref (cert_KeyPair certificate);
        check (call (Create KSecret (AsSecret certificate kp clusterName owner))) Some ;;
        mret tt
      else mret tt) ;;
    mret None).

Definition LookupOrGenerate (c : Certificates) (clusterName : ObjectKey) (owner : OwnerReference)
    : prog (gores Certificates) :=
  func (
    c ← check (callp (Lookup c clusterName)) Err;
    c ← check (callp (Generate c)) Err;
    check_err (callp (SaveGenerated c clusterName owner)) Err ;;
    mret (Ok c)).
End Certificates.

(** ** Names *)

(** The purposes whose secret names are parsed back. *)
Definition parsable : list Purpose := [Kubeconfig; ClusterCA; EtcdCA; ServiceAccount; FrontProxyCA].

(** The cluster and the purpose of a secret name are recovered from
    it, whatever the cluster is called, for the purposes without a dash that
    [allSecretPurposes] lists. *)
Theorem secret_name_roundtrip cluster purpose :
  purpose ∈ parsable → ParseSecretName (Name cluster purpose) = Ok (cluster, purpose).
Proof.
  intros Hp. unfold ParseSecretName, Name. change ("-" +:+ purpose) with (String "-" purpose).
  rewrite GoStrings.LastIndex_app.
  2: { unfold parsable in Hp. repeat (apply elem_of_cons in Hp as [->|Hp]; [done|]).
       by apply elem_of_nil in Hp. }
  rewrite GoStrings.take_app.
  replace (S (String.length cluster)) with (String.length (cluster +:+ "-"))
    by (rewrite GoStrings.length_app; simpl; lia).
  change (String "-" purpose) with ("-" +:+ purpose). rewrite <- GoStrings.app_assoc, GoStrings.drop_app.
  assert (existsb (λ p, bool_decide (p = purpose)) allSecretPurposes = true) as ->; [|done].
  apply existsb_exists. exists purpose. rewrite bool_decide_eq_true. split; [|done].
  unfold parsable, allSecretPurposes in *. apply list_elem_of_In. set_solver.
Qed.

Lemma secret_name_roundtrip_witness : ParseSecretName "my-cluster-etcd" = Ok ("my-cluster", "etcd").
Proof. apply (secret_name_roundtrip "my-cluster" EtcdCA). unfold parsable. set_solver. Defined.

(** The names of the two other purposes are refused: the client CA is not listed,
    and the purpose of the etcd client is cut at its last dash. *)
Lemma secret_name_refused cluster purpose :
  purpose ∈ [ClientClusterCA; APIServerEtcdClient] → is_ok (ParseSecretName (Name cluster purpose)) = false.
Proof.
  intros [->|[->| []%elem_of_nil]%elem_of_cons]%elem_of_cons.
  - unfold ParseSecretName, Name. change ("-" +:+ ClientClusterCA) with (String "-" "cca").
    rewrite GoStrings.LastIndex_app by done.
    replace (S (String.length cluster)) with (String.length (cluster +:+ "-"))
      by (rewrite GoStrings.length_app; simpl; lia).
    change (String "-" "cca") with ("-" +:+ "cca"). by rewrite <- GoStrings.app_assoc, GoStrings.drop_app.
  - unfold ParseSecretName, Name.
    assert (cluster +:+ "-" +:+ APIServerEtcdClient = (cluster +:+ "-apiserver-etcd") +:+ String "-" "client")
      as -> by (by rewrite GoStrings.app_assoc).
    rewrite GoStrings.LastIndex_app by done.
    replace (S (String.length (cluster +:+ "-apiserver-etcd")))
      with (String.length ((cluster +:+ "-apiserver-etcd") +:+ "-"))
      by (rewrite GoStrings.length_app; simpl; lia).
    change (String "-" "client") with ("-" +:+ "client"). by rewrite <- GoStrings.app_assoc, GoStrings.drop_app.
Qed.

(** ** Certificates are generated once *)

Section Stable.
Context {W : Type} `{!ApiErrors, !CertsLib, !Env W, !ApiServer W}.
Implicit Types (w : W) (c : Certificate) (ck : ObjectKey).

Lemma Generate_one_reads c :
  reads_post (Generate_one c) (λ r, ∀ c', r = Ok c' →
    External c' = External c ∧ cert_Purpose c' = cert_Purpose c ∧
    (if External c then c' = c else Generated c' = true ∧ is_Some (cert_KeyPair c'))).
Proof.
  unfold reads_post, Generate_one. repeat wp_step. destruct (External c) eqn:Hx.
  { repeat wp_step. by intros c' [= <-]. }
  repeat wp_step. case_bool_decide.
  - unfold generateServiceAccountKeys. repeat wp_step. apply gwp_call; [done|].
    intros [k|e] [] _ _; repeat wp_step; [|done]. destruct (EncodePublicKeyPEM k); repeat wp_step; [|done].
    by intros c' [= <-].
  - unfold generateCACert, newCertificateAuthority, newSelfSignedCACert. repeat wp_step.
    apply gwp_call; [done|]. intros [k|e] [] _ _; repeat wp_step; [|done].
    apply gwp_call; [done|]. intros now [] _ _. cbv zeta. repeat wp_step.
    apply gwp_call; [done|]. intros [b|e] [] _ _; repeat wp_step; [|done].
    destruct (ParseCertificate b); repeat wp_step; [|done]. by intros c' [= <-].
Qed.

(** A loop that only reads relates each certificate to the one it leaves. *)
Lemma each_certificate_wp (f : Certificate → prog (gores Certificate)) (R : Certificate → Certificate → Prop)
    cs w :
  (∀ c w', c ∈ cs → same_view w w' →
    wp (f c) w' (λ w'' r, same_view w' w'' ∧ ∀ c', r = Ok c' → R c c')) →
  wp (each_certificate cs f) w (λ w' r, same_view w w' ∧ ∀ cs', r = Ok cs' → Forall2 R cs cs').
Proof.
  intros Hf. unfold each_certificate. repeat wp_step.
  apply (gwp_for_each _ _ (λ d _ w' done, same_view w w' ∧ Forall2 R d done)); [by split| |].
  - intros d c rest w' done Hcs [Hv Hd]. repeat wp_step.
    eapply wp_mono; [apply Hf; [subst cs; set_solver|exact Hv]|].
    intros w'' [c'|e] [Hv' Hr]; repeat wp_step; [|by split; [etrans; eauto|]].
    split; [by etrans|]. apply Forall2_app; [done|]. constructor; [by apply Hr|constructor].
  - intros w' done [Hv Hd]. repeat wp_step. split; [done|]. by intros cs' [= <-].
Qed.

Definition skey ck c : ObjectKey := secret_key ck (cert_Purpose c).

(** What [Lookup] makes of a certificate. *)
Definition looked_up ck w c c' : Prop :=
  External c' = External c ∧ cert_Purpose c' = cert_Purpose c ∧ Generated c' = Generated c ∧
  match view KSecret w (skey ck c) with
  | Some s => ∃ kp, secretToKeyPair s = Ok kp ∧ cert_KeyPair c' = Some kp
  | None => External c = false ∧ c' = c
  end.

Lemma Lookup_one_wp ck c w :
  wp (Lookup_one ck c) w (λ w' r, same_view w w' ∧ ∀ c', r = Ok c' → looked_up ck w c c').
Proof.
  unfold Lookup_one. repeat wp_step. apply gwp_call; [by apply api_pre|].
  intros r w' _ Hs. apply (api_get KSecret) in Hs as [Hv Hr]. unfold looked_up, skey. destruct r as [s|e]; repeat wp_step.
  - destruct (secretToKeyPair s) as [kp|e] eqn:Hkp; repeat wp_step; (split; [done|]); [|done].
    intros c' [= <-]. rewrite Hr. eauto 10.
  - destruct (IsNotFound e); [|by repeat wp_step]. destruct (External c) eqn:Hx; repeat wp_step; [done|].
    split; [done|]. intros c' [= <-]. by rewrite Hr.
Qed.

(** The certificate after [Lookup] and [Generate]. *)
Definition settled ck w c c' : Prop :=
  External c' = External c ∧ cert_Purpose c' = cert_Purpose c ∧ is_Some (cert_KeyPair c') ∧
  match view KSecret w (skey ck c) with
  | Some s => Generated c' = false ∧ ∃ kp, secretToKeyPair s = Ok kp ∧ cert_KeyPair c' = Some kp
  | None => External c = false ∧ Generated c' = true
  end.

Lemma settle ck w c c1 c2 :
  cert_KeyPair c = None → Generated c = false → looked_up ck w c c1 →
  (match cert_KeyPair c1 with
   | Some _ => c2 = c1
   | None => External c2 = External c1 ∧ cert_Purpose c2 = cert_Purpose c1 ∧
             (if External c1 then c2 = c1 else Generated c2 = true ∧ is_Some (cert_KeyPair c2))
   end) → settled ck w c c2.
Proof.
  unfold looked_up, settled. intros Hk Hg (Hx & Hp & Hg1 & Hm) H2.
  destruct (view KSecret w (skey ck c)) as [s|].
  - destruct Hm as (kp & Hkp & Hk1). rewrite Hk1 in H2. subst c2. rewrite Hk1, Hg1. eauto 10.
  - destruct Hm as [Hx0 ->]. rewrite Hk, Hx0 in H2. destruct H2 as (? & ? & ? & ?). by rewrite Hx0.
Qed.

(** A certificate is stored when its secret holds its key pair. *)
Definition stored ck w c : Prop :=
  ∃ kp s, cert_KeyPair c = Some kp ∧ view KSecret w (skey ck c) = Some s ∧ secretToKeyPair s = Ok kp.

Lemma secretToKeyPair_AsSecret c kp ck owner s :
  stored_as KSecret (AsSecret c kp ck owner) s → secretToKeyPair s = Ok kp.
Proof.
  intros (_ & Hd & _). unfold secretToKeyPair. rewrite <- Hd. cbn [AsSecret s_Data option_bind mbind].
  rewrite lookup_insert_ne, lookup_singleton_eq, lookup_insert_eq by done. by destruct kp.
Qed.

Lemma skey_inj ck c c' : skey ck c = skey ck c' → cert_Purpose c = cert_Purpose c'.
Proof.
  unfold skey, secret_key, Name. intros [= He]. revert He. induction (key_name ck) as [|a n IH]; simpl.
  - intros [= He]. exact He.
  - intros [= He]. by apply IH.
Qed.

(** Two certificates of one purpose share a secret: the purposes are distinct. *)
Definition fresh_certificates (cs : Certificates) : Prop :=
  Forall (λ c, cert_KeyPair c = None ∧ Generated c = false) cs ∧ NoDup (cert_Purpose <$> cs).

(** The state of [SaveGenerated] before it saves [rest]. *)
Definition saving ck (cs : Certificates) w (d rest : Certificates) w' : Prop :=
  (∀ k key, ¬ (k = KSecret ∧ key ∈ skey ck <$> cs) → view k w' key = view k w key) ∧
  (∀ key s, view KSecret w key = Some s → view KSecret w' key = Some s) ∧
  (∀ c, c ∈ rest → view KSecret w' (skey ck c) = view KSecret w (skey ck c)) ∧
  Forall (stored ck w') d.

Lemma stored_frame ck c d w w' :
  (∀ k' key', (k', key') ≠ (KSecret, skey ck c) → view k' w' key' = view k' w key') →
  (∀ c', c' ∈ d → cert_Purpose c' ≠ cert_Purpose c) → Forall (stored ck w) d → Forall (stored ck w') d.
Proof.
  intros Hf Hne. rewrite !list.Forall_forall. intros Hd c' Hc'.
  destruct (Hd c' Hc') as (kp & s & Hk & Hv & Hs). exists kp, s. split; [done|]. split; [|done].
  rewrite <- Hv. apply (Hf KSecret). intros He%(f_equal snd). by apply (Hne c' Hc'), (skey_inj ck).
Qed.

Lemma save_step ck owner cs cs2 w d c rest w' kp r w'' :
  Forall2 (settled ck w) cs cs2 → NoDup (cert_Purpose <$> cs2) → cs2 = d ++ c :: rest →
  saving ck cs w d (c :: rest) w' → cert_KeyPair c = Some kp → Generated c = true →
  env_step (Create KSecret (AsSecret c kp ck owner)) r w' w'' →
  saving ck cs w (if is_ok r then d ++ [c] else d) (if is_ok r then rest else []) w''.
Proof.
  intros Hset Hnd -> (Hout & Hold & Hrest & Hd) Hkp Hg Hs. apply (api_create KSecret) in Hs as [Hf Hr].
  change (obj_key KSecret (AsSecret c kp ck owner)) with (skey ck c) in *.
  assert (∃ c0, c0 ∈ cs ∧ settled ck w c0 c) as (c0 & Hc0 & Hset0).
  { apply Forall2_flip, Forall2_app_inv_l in Hset as (? & ? & _ & Hset & ->).
    apply Forall2_cons_inv_l in Hset as (c0 & ? & Hc0 & _ & ->). exists c0. split; [set_solver|done]. }
  assert (skey ck c = skey ck c0) as Hk by (unfold skey; by destruct Hset0 as (_ & -> & _)).
  assert (view KSecret w (skey ck c) = None) as Hnone.
  { destruct Hset0 as (_ & _ & _ & Hm). rewrite <- Hk in Hm. destruct (view KSecret w (skey ck c)); [|done].
    destruct Hm. congruence. }
  rewrite fmap_app, fmap_cons in Hnd. apply list.NoDup_app in Hnd as (_ & Hdc & Hnd).
  apply list.NoDup_cons in Hnd as [Hcr _].
  split; [|split; [|split]].
  - intros k key Hne. rewrite Hf; [by apply Hout|]. intros He. pose proof (f_equal fst He) as E1. pose proof (f_equal snd He) as E2.
    simpl in E1, E2. subst k key. apply Hne. split; [done|].
    rewrite Hk. by apply list_elem_of_fmap_2.
  - intros key s Hs. rewrite (Hf KSecret); [by apply Hold|]. intros He%(f_equal snd). simpl in He. congruence.
  - intros c' Hc'. destruct (is_ok r); [|by apply elem_of_nil in Hc'].
    rewrite (Hf KSecret); [apply Hrest; by right|]. intros He%(f_equal snd). apply Hcr. apply (skey_inj ck) in He.
    rewrite <- He. by apply list_elem_of_fmap_2.
  - assert (Forall (stored ck w'') d) as Hd'.
    { eapply stored_frame; [exact Hf| |exact Hd]. intros c' Hc' He.
      apply (Hdc (cert_Purpose c')); [by apply list_elem_of_fmap_2|]. rewrite He. by left. }
    destruct r as [s|e]; simpl; [|done]. destruct Hr as (_ & Hv & Hst). apply Forall_app. split; [done|].
    constructor; [|done]. exists kp, s. split; [done|]. split; [done|]. by eapply secretToKeyPair_AsSecret.
Qed.

Lemma SaveGenerated_wp ck owner cs cs2 w w0 :
  same_view w w0 → Forall2 (settled ck w) cs cs2 → NoDup (cert_Purpose <$> cs2) →
  wp (SaveGenerated cs2 ck owner) w0 (λ w' r,
    ∃ d rest, saving ck cs w d rest w' ∧ (r = None → d = cs2)).
Proof.
  intros Hv0 Hset Hnd. unfold SaveGenerated. repeat wp_step.
  apply (gwp_for_each _ _ (λ d rest w' _, saving ck cs w d rest w')).
  - split; [intros; apply Hv0|]. split; [intros key s; by rewrite Hv0|]. split; [intros; apply Hv0|done].
  - intros d c rest w' [] Hcs HI. pose proof HI as (Hout & Hold & Hrest & Hd).
    assert (∃ c0, settled ck w c0 c) as (c0 & Hx & Hp & [kp Hkp] & Hm).
    { subst cs2. apply Forall2_flip, Forall2_app_inv_l in Hset as (? & ? & _ & Hset & ->).
      apply Forall2_cons_inv_l in Hset as (c0 & ? & Hc0 & _ & _). by exists c0. }
    destruct (Generated c) eqn:Hg; repeat wp_step.
    + apply gwp_deref; [|by rewrite Hkp]. intros kp' [= <-]%(eq_trans (eq_sym Hkp)). cbn beta.
      repeat wp_step. apply gwp_call; [by apply api_pre|]. intros r w'' _ Hs.
      eapply (save_step _ _ _ _ _ _ _ _ _ _ _ _ Hset Hnd Hcs HI Hkp Hg) in Hs.
      destruct r as [s|e]; repeat wp_step; [done|]. exists d, []. by split.
    + (* it was found in [w], and is still there *)
      assert (skey ck c = skey ck c0) as Hk by (unfold skey; by rewrite Hp).
      split; [done|]. split; [done|]. split; [intros; apply Hrest; by right|].
      apply Forall_app. split; [done|]. constructor; [|done].
      destruct (view KSecret w (skey ck c0)) as [s|] eqn:Hs; [|by destruct Hm].
      destruct Hm as (_ & kp' & Hst & Hkp'). exists kp', s. split; [done|]. split; [|done].
      rewrite Hk. by apply Hold.
  - intros w' [] HI. repeat wp_step. exists cs2, []. by split.
Qed.

(** C30: a cluster keeps its certificates.  [LookupOrGenerate] never
    changes or removes an object that exists, creates only secrets of the
    certificates it was asked for, and when it succeeds every certificate has the
    key pair that its secret holds - the user's for an external one, which must
    have been there before. *)
Theorem LookupOrGenerate_spec cs ck owner w :
  fresh_certificates cs →
  wp (LookupOrGenerate cs ck owner) w (λ w' r,
    (∀ k key, ¬ (k = KSecret ∧ key ∈ skey ck <$> cs) → view k w' key = view k w key) ∧
    (∀ key s, view KSecret w key = Some s → view KSecret w' key = Some s) ∧
    ∀ cs', r = Ok cs' → cert_Purpose <$> cs' = cert_Purpose <$> cs ∧
      Forall (λ c, stored ck w' c ∧
        (External c = true → is_Some (view KSecret w (skey ck c)))) cs').
Proof.
  intros [Hfresh Hnd]. unfold LookupOrGenerate. repeat wp_step. unfold Lookup.
  eapply wp_mono; [apply each_certificate_wp with (R := looked_up ck w)|].
  { intros c w' _ Hv. eapply wp_mono; [apply Lookup_one_wp|]. intros w'' r [Hv' Hr]. split; [done|].
    intros c' Hc'. destruct (Hr c' Hc') as (?&?&?&Hm). repeat (split; [done|]).
    by rewrite (Hv KSecret) in Hm. }
  intros w1 [cs1|e] [Hv1 H1]; repeat wp_step; [|by split; [intros; apply Hv1|split; [intros key s; by rewrite Hv1|]]].
  specialize (H1 cs1 eq_refl).
  set (R := λ c1 c2, match cert_KeyPair c1 with
   | Some _ => c2 = c1
   | None => External c2 = External c1 ∧ cert_Purpose c2 = cert_Purpose c1 ∧
             (if External c1 then c2 = c1 else Generated c2 = true ∧ is_Some (cert_KeyPair c2))
   end).
  unfold Generate. eapply wp_mono; [apply each_certificate_wp with (R := R)|].
  { intros c w' _ Hv. unfold R. destruct (cert_KeyPair c) as [kp|] eqn:Hk.
    - split; [done|]. by intros c' [= <-].
    - eapply wp_mono; [by apply wp_reads_post, Generate_one_reads|]. done. }
  intros w2 [cs2|e] [Hv2 H2]; repeat wp_step;
    [|by split; [intros; by rewrite Hv2, Hv1|split; [intros key s; by rewrite Hv2, Hv1|]]].
  specialize (H2 cs2 eq_refl).
  assert (Forall2 (settled ck w) cs cs2) as Hset.
  { clear Hnd. revert cs1 cs2 H1 H2. induction Hfresh as [|c cs [Hk Hg] _ IH]; intros cs1 cs2 H1 H2.
    - inversion H1; subst. inversion H2; subst. constructor.
    - inversion H1 as [|? c1 ? cs1' Hc1 H1']; subst. inversion H2 as [|? c2 ? cs2' Hc2 H2']; subst.
      constructor; [by eapply settle|by eapply IH]. }
  assert (cert_Purpose <$> cs2 = cert_Purpose <$> cs) as Hpur.
  { clear -Hset. induction Hset as [|c c' ? ? (_ & Hp & _) _ IH]; [done|]. by rewrite !fmap_cons, Hp, IH. }
  eapply wp_mono; [apply SaveGenerated_wp with (w := w); [by etrans|exact Hset|by rewrite Hpur]|].
  intros w3 [e|] (d & rest & (Hout & Hold & _ & Hd) & Hr); repeat wp_step;
    (split; [done|]); (split; [done|]); [done|].
  intros cs' [= <-]. split; [done|]. rewrite <- (Hr eq_refl) in *. clear -Hd Hset.
  induction Hset as [|c c' ? ? (Hx & Hp & _ & Hm) _ IH]; [constructor|].
  apply list.Forall_cons in Hd as [Hc' Hd]. constructor; [|by apply IH].
  split; [done|]. unfold skey in *. rewrite Hp, Hx. intros Hx'.
  destruct (view KSecret w _); [done|]. destruct Hm. congruence.
Qed.
End Stable.

Module Examples.
Definition ck : ObjectKey := mkKey "ns" "c".
Definition owner : OwnerReference := mkOwnerRef "v1" "CK8sControlPlane" "cp" "u" (Some true).
(** Keys and certificates are constants. *)
Definition crypto : handler Store := λ X e w,
  match e in sysE X return option (X * Store) with
  | NewPrivateKey => Some (Ok "key", w)
  | CreateCertificate _ _ => Some (Ok "crt", w)
  | Now => Some (0%Z, w)
  | _ => None
  end.
(** The cluster CA exists, the client CA does not. *)
Definition ca : Secret :=
  mkSecret (mkMeta "c-ca" "ns" "" ∅ None [] [] 0 None)
    (Some {["tls.crt" := "old"; "tls.key" := "old-key"]}) Clusterv1.ClusterSecretType.
Definition store : Store := put KSecret ca empty_store.
Definition certificates : list Certificate :=
  [new_certificate ClusterCA false; new_certificate ClientClusterCA false].
Definition key_pairs (r : gores Certificates) : list (option KeyPair) :=
  match r with Ok cs => map cert_KeyPair cs | Err _ => [] end.
End Examples.
Import Examples.
#[local] Instance the_env : Env Store := server_env crypto.

Lemma LookupOrGenerate_spec_witness :
  run (serve crypto) (LookupOrGenerate certificates ck owner) store ≫= (λ r : gores Certificates * Store,
    Some (key_pairs r.1)) =
    Some [Some (mkKeyPair "old" "old-key"); Some (mkKeyPair "CERT crt" "KEY key")] ∧
  wp (LookupOrGenerate certificates ck owner) store (λ w' r,
    (∀ k key, ¬ (k = KSecret ∧ key ∈ skey ck <$> certificates) → view k w' key = view k store key) ∧
    (∀ key s, view KSecret store key = Some s → view KSecret w' key = Some s) ∧
    ∀ cs', r = Ok cs' → cert_Purpose <$> cs' = cert_Purpose <$> certificates ∧
      Forall (λ c, stored ck w' c ∧
        (External c = true → is_Some (view KSecret store (skey ck c)))) cs').
Proof.
  split; [vm_compute; reflexivity|]. apply (LookupOrGenerate_spec certificates ck owner store).
  split; [by repeat constructor|]. vm_compute. repeat constructor; set_solver.
Defined.
End Secrets.
