(* ===== verification/InitLock.v ===== *)
(** src/pkg/locking/control_plane_init_mutex.go: the config-map lock that lets
    one control plane machine of a cluster initialise it.

    [Lock] and [Unlock] are the two operations as programs over the API server.
    [LockState] is the abstract lock they implement; [Lock_refines] and
    [Unlock_refines] are the refinement, [Lock_exclusive] mutual exclusion of
    concurrent calls, and [Lock_race] the interleaving in which recovering from
    a stale lock lets two machines hold it. *)

From S2P Require Import Prelude Objects ApiTypes Effects Libs RefLibs ApiServer RefServer Json.

Module InitLock.
Definition semaphoreInformationKey : string := "lock-information".

(** [type information struct] *)
Record information := mkInformation { MachineName : string }.

Definition configMapName (clusterName : string) : string := clusterName +:+ "-lock".

Definition newSemaphore : ConfigMap := mkConfigMap (mkMeta "" "" "" ∅ None [] [] 0 None) None.

(** [func (s semaphore) information()]: a missing key reads as the empty text. *)
Definition information_ (s : ConfigMap) : gores information :=
  match Json.Unmarshal ["machineName"] (default "" (cm_Data s ≫= (!!) semaphoreInformationKey)) with
  | Err e => Err (wrapf "failed to unmarshal semaphore information" e)
  | Ok m => Ok (mkInformation (default "" (m !! "machineName")))
  end.

(** [func (s semaphore) setInformation]: marshalling the struct cannot fail. *)
Definition setInformation (i : information) (s : ConfigMap) : ConfigMap :=
  mkConfigMap (cm_meta s)
    (Some {[semaphoreInformationKey := Json.Marshal [("machineName", MachineName i)]]}).

(** [func (s *semaphore) setMetadata] *)
Definition setMetadata (cluster : Cluster) (s : ConfigMap) : ConfigMap :=
  mkConfigMap
    (mkMeta (configMapName (cl_Name cluster)) (cl_Namespace cluster) ""
      {[Clusterv1.ClusterNameLabel := cl_Name cluster]} None
      [mkOwnerRef Clusterv1.GroupVersion "Cluster" (cl_Name cluster) (om_UID (cl_meta cluster)) None]
      [] 0 None)
    (cm_Data s).

Definition lock_key (cluster : Cluster) : ObjectKey :=
  mkKey (cl_Namespace cluster) (configMapName (cl_Name cluster)).

Section Operations.
Context `{!ApiErrors}.

(** [func (c *ControlPlaneInitMutex) Unlock] *)
Definition Unlock (cluster : Cluster) : prog bool :=
  func (
    r ← call (Get KConfigMap (lock_key cluster));
    match r with
    | Err e => mret (IsNotFound e)
    | Ok cm =>
        r ← call (Delete KConfigMap (obj_key KConfigMap cm));
        match r with
        | Err e => mret (IsNotFound e)
        | Ok _ => mret true
        end
    end).

(** [func (c *ControlPlaneInitMutex) Lock] *)
Definition Lock (cluster : Cluster) (machine : Machine) : prog bool :=
  func (
    r ← call (Get KConfigMap (lock_key cluster));
    match r with
    | Err e => if IsNotFound e then mret tt else return_ false
    | Ok sema =>
        match information_ sema with
        | Err _ => return_ false
        | Ok info =>
            if bool_decide (MachineName info = m_Name machine) then return_ true
            else
              r ← call (Get KMachine (mkKey (cl_Namespace cluster) (MachineName info)));
              match r with
              | Err e => when (IsNotFound e) (callp (Unlock cluster) ≫= λ _, mret tt)
              | Ok _ => mret tt
              end ≫= λ _, return_ false
        end
    end ≫= λ _,
    let sema := setMetadata cluster newSemaphore in
    let sema := setInformation (mkInformation (m_Name machine)) sema in
    r ← call (Create KConfigMap sema);
    mret (is_ok r)).
End Operations.

(** ** The abstract lock *)

Inductive LockState := Free | Held (machine : string) | Corrupt.

#[export] Instance LockState_eq_dec : EqDecision LockState.
Proof. solve_decision. Defined.

(** What a stored config map, or its absence, means. *)
Definition meaning (o : option ConfigMap) : LockState :=
  match o with
  | None => Free
  | Some cm => match information_ cm with Ok i => Held (MachineName i) | Err _ => Corrupt end
  end.

(** What [Lock] by machine [m] may do; [alive h] says that machine [h] exists. *)
Inductive lock_step (alive : string → bool) (m : string) : LockState → bool → LockState → Prop :=
  | lock_acquire : lock_step alive m Free true (Held m)
  | lock_again : lock_step alive m (Held m) true (Held m)
  | lock_unsure : lock_step alive m Free false (Held m)
  | lock_recover h : h ≠ m → alive h = false → lock_step alive m (Held h) false Free
  | lock_fail s : lock_step alive m s false s.

Inductive unlock_step : LockState → bool → LockState → Prop :=
  | unlock_done s : unlock_step s true Free
  | unlock_unsure s : unlock_step s false Free
  | unlock_fail s : unlock_step s false s.

Lemma information_set cluster m :
  information_ (setInformation (mkInformation m) (setMetadata cluster newSemaphore)) =
  Ok (mkInformation m).
Proof.
  pose proof (Json.Unmarshal_Marshal [("machineName", m)] (NoDup_singleton _)) as Hj.
  unfold information_, setInformation. cbn [cm_Data mbind option_bind MachineName].
  rewrite lookup_singleton_eq. cbn [default from_option id].
  change ["machineName"] with ([("machineName", m)].*1). rewrite Hj. simpl.
  by rewrite lookup_insert_eq.
Qed.

Lemma information_data cm cm' : cm_Data cm = cm_Data cm' → information_ cm = information_ cm'.
Proof. unfold information_. by intros ->. Qed.

(** The config map that [Lock] creates means that the machine holds the lock. *)
Lemma init_meaning_created cluster m cm :
  stored_as KConfigMap (setInformation (mkInformation m) (setMetadata cluster newSemaphore)) cm →
  meaning (Some cm) = Held m.
Proof.
  intros [_ Hd]. simpl. by rewrite <- (information_data _ _ Hd), information_set.
Qed.

Lemma created_key cluster m :
  obj_key KConfigMap (setInformation m (setMetadata cluster newSemaphore)) = lock_key cluster.
Proof. done. Qed.

Section Refinement.
Context {W : Type} `{!ApiErrors, !Env W, !ApiServer W}.
Implicit Types (w : W) (cluster : Cluster).

Definition state_of cluster w : LockState := meaning (view KConfigMap w (lock_key cluster)).
Definition alive cluster w (h : string) : bool :=
  match view KMachine w (mkKey (cl_Namespace cluster) h) with Some _ => true | None => false end.

Lemma init_state_of_same cluster w w' :
  (∀ k key, view k w' key = view k w key) → state_of cluster w' = state_of cluster w.
Proof. unfold state_of. by intros ->. Qed.

(** Deleting the lock's config map leaves a free lock, or nothing happened. *)
Lemma delete_state cluster r w w' :
  env_step (Delete KConfigMap (lock_key cluster)) r w w' →
  state_of cluster w' = Free ∨
  state_of cluster w' = state_of cluster w ∧ ∃ e, r = Err e ∧ IsNotFound e = false.
Proof.
  intros [_ Hr]%api_delete. unfold state_of. destruct r as [[]|e].
  - left. by rewrite (proj2 Hr).
  - destruct Hr as [[Hs Hn]|[_ Hn]]; [|left; by rewrite Hn].
    destruct (IsNotFound e) eqn:He.
    + left. by rewrite Hs, Hn.
    + right. rewrite Hs. eauto.
Qed.

Lemma init_Unlock_wp cluster w :
  wp (Unlock cluster) w (λ w' b,
    unlock_step (state_of cluster w) b (state_of cluster w') ∧
    (b = true → state_of cluster w' = Free)).
Proof.
  unfold Unlock. repeat wp_step. apply gwp_call; [by apply api_pre|].
  intros r w1 _ Hg. pose proof (api_get KConfigMap _ _ _ _ Hg) as [Hsame Hr].
  apply init_state_of_same with (cluster := cluster) in Hsame.
  destruct r as [cm|e].
  - repeat wp_step. rewrite (view_key _ _ _ _ Hr).
    apply gwp_call; [by apply api_pre|]. intros r w2 _ Hd.
    apply delete_state in Hd as [Hf|[Hs (e & -> & He)]].
    + destruct r as [u|e]; repeat wp_step; rewrite Hf; [|destruct (IsNotFound e)];
        (split; [constructor|done]).
    + repeat wp_step. rewrite He, Hs, Hsame. split; [constructor|done].
  - repeat wp_step. destruct (IsNotFound e) eqn:He; [|rewrite Hsame; split; [constructor|done]].
    assert (state_of cluster w1 = Free) as ->; [|split; [constructor|done]].
    rewrite Hsame. unfold state_of. by rewrite Hr.
Qed.

(** [Unlock] implements the release of the abstract lock: it answers
    true only when the lock is free afterwards, and otherwise either left
    the lock as it was or released it under an ambiguous error. *)
Theorem Unlock_refines cluster w :
  wp (Unlock cluster) w (λ w' b,
    unlock_step (state_of cluster w) b (state_of cluster w') ∧
    (b = true → state_of cluster w' = Free)).
Proof. apply init_Unlock_wp. Qed.

(** C15: [Lock] implements the abstract lock on every branch: it succeeds
    only on a free lock, which the machine then holds, or on its own; a lock
    held by another machine is never taken over in one call, and it is
    released only when that machine does not exist; a lock with unreadable
    information is left alone. *)
Theorem Lock_refines cluster machine w :
  wp (Lock cluster machine) w (λ w' b,
    lock_step (alive cluster w) (m_Name machine)
      (state_of cluster w) b (state_of cluster w')).
Proof.
  unfold Lock. repeat wp_step. apply gwp_call; [by apply api_pre|].
  intros r w1 _ Hg. pose proof (api_get KConfigMap _ _ _ _ Hg) as [Hv Hr].
  pose proof (init_state_of_same cluster _ _ Hv) as Hsame.
  destruct r as [cm|e].
  - assert (state_of cluster w = meaning (Some cm)) as Hst by (unfold state_of; by rewrite Hr).
    destruct (information_ cm) as [info|] eqn:Hi; simpl in Hst; rewrite Hi in Hst;
      [|repeat wp_step; rewrite Hsame; constructor].
    case_bool_decide as Hm.
    { repeat wp_step. rewrite Hsame, Hst, Hm. constructor. }
    repeat wp_step. apply gwp_call; [by apply api_pre|].
    intros r w2 _ Hg2. pose proof (api_get KMachine _ _ _ _ Hg2) as [Hv2 Hr2].
    pose proof (init_state_of_same cluster _ _ Hv2) as Hsame2.
    repeat wp_step. destruct r as [m'|e].
    { repeat wp_step. rewrite Hsame2, Hsame. constructor. }
    wp_step; repeat wp_step; [|rewrite Hsame2, Hsame; constructor].
    eapply wp_mono; [apply init_Unlock_wp|]. intros w3 b [Hu _]. repeat wp_step.
    rewrite Hsame2, Hsame in Hu.
    assert (alive cluster w (MachineName info) = false) as Hdead.
    { unfold alive. by rewrite <- Hv, Hr2. }
    rewrite Hst in *. inversion Hu as [s Hs1 Hs2 Hs3|s Hs1 Hs2 Hs3|s Hs1 Hs2 Hs3];
      subst; rewrite <- ?Hs3; by constructor.
  - destruct (IsNotFound e) eqn:He; [|repeat wp_step; rewrite Hsame; constructor].
    assert (state_of cluster w = Free) as Hfree by (unfold state_of; by rewrite Hr).
    repeat wp_step. cbv zeta. repeat wp_step. apply gwp_call; [by apply api_pre|].
    intros r w2 _ [_ Hc]%(api_create KConfigMap). rewrite created_key in Hc. repeat wp_step.
    rewrite Hfree. unfold state_of. destruct r as [cm|e'].
    + destruct Hc as (_ & -> & Hd). rewrite (init_meaning_created _ _ _ Hd). constructor.
    + destruct Hc as [[-> _]|(_ & _ & cm & -> & Hd)].
      * unfold state_of in *. rewrite Hsame, Hfree. constructor.
      * rewrite (init_meaning_created _ _ _ Hd). constructor.
Qed.
End Refinement.

(** ** Recovery from a stale lock *)

Section Recovery.
Context {W : Type} `{!ApiErrors, !Env W, !ApiServer W, !Reliable W}.
Implicit Types (w : W) (cluster : Cluster).

Lemma get_reliable k key r w w' :
  env_step (Get k key) r w w' →
  (∀ k' key', view k' w' key' = view k' w key') ∧
  match view k w key with
  | Some o => r = Ok o
  | None => ∃ e, r = Err e ∧ IsNotFound e = true
  end.
Proof.
  intros Hg. pose proof (api_get _ _ _ _ _ Hg) as [Hv Hr]. split; [done|].
  destruct r as [o|e]; [by rewrite Hr|]. apply reliable_get in Hg.
  rewrite (Hr Hg). eauto.
Qed.

Lemma Unlock_reliable cluster w :
  wp (Unlock cluster) w (λ w' b, b = true ∧ state_of cluster w' = Free).
Proof.
  unfold Unlock. repeat wp_step. apply gwp_call; [by apply api_pre|].
  intros r w1 _ [Hv Hr]%(get_reliable KConfigMap).
  pose proof (init_state_of_same cluster _ _ Hv) as Hsame.
  destruct (view KConfigMap w (lock_key cluster)) as [cm|] eqn:Hcm.
  - subst r. repeat wp_step. rewrite (view_key _ _ _ _ Hcm).
    apply gwp_call; [by apply api_pre|]. intros r w2 _ Hd.
    pose proof (delete_state _ _ _ _ Hd) as [Hf|(_ & e & -> & He)].
    + destruct r as [u|e]; repeat wp_step; [done|].
      apply (reliable_delete KConfigMap) in Hd. done.
    + apply (reliable_delete KConfigMap) in Hd. congruence.
  - destruct Hr as (e & -> & He). repeat wp_step. split; [done|].
    rewrite Hsame. unfold state_of. by rewrite Hcm.
Qed.

(** On a free lock the machine acquires it. *)
Lemma Lock_free cluster machine w :
  state_of cluster w = Free →
  wp (Lock cluster machine) w (λ w' b, b = true ∧ state_of cluster w' = Held (m_Name machine)).
Proof.
  intros Hfree. unfold Lock. repeat wp_step. apply gwp_call; [by apply api_pre|].
  intros r w1 _ [Hv Hr]%(get_reliable KConfigMap).
  assert (view KConfigMap w (lock_key cluster) = None) as Hnone.
  { unfold state_of, meaning in Hfree. repeat case_match; done. }
  rewrite Hnone in Hr. destruct Hr as (e & -> & He). rewrite He. repeat wp_step. cbv zeta.
  repeat wp_step. apply gwp_call; [by apply api_pre|]. intros r w2 _ Hc. repeat wp_step.
  pose proof (api_create KConfigMap _ _ _ _ Hc) as [_ Hr]. rewrite created_key, Hv, Hnone in Hr.
  destruct r as [cm|e'].
  - split; [done|]. destruct Hr as (_ & Hw & Hd). unfold state_of. rewrite Hw.
    by eapply init_meaning_created.
  - apply (reliable_create KConfigMap) in Hc as Ha. exfalso.
    destruct Hr as [[_ Hr]|[Hr _]]; [|congruence]. destruct (Hr Ha) as [? ?]; done.
Qed.

(** C23: when the holder's machine is gone and calls do not fail, a first
    [Lock] by another machine answers false and frees the lock, and its
    second attempt acquires it: a deleted machine cannot block the cluster's
    initialisation. *)
Theorem Lock_recovers cluster machine h w :
  state_of cluster w = Held h → h ≠ m_Name machine → alive cluster w h = false →
  wp (prog_bind (Lock cluster machine) (λ b1,
      prog_bind (Lock cluster machine) (λ b2, Ret (b1, b2)))) w
    (λ w' bs, bs = (false, true) ∧ state_of cluster w' = Held (m_Name machine)).
Proof.
  intros Hst Hh Hdead. apply wp_bind.
  assert (wp (Lock cluster machine) w (λ w' b, b = false ∧ state_of cluster w' = Free)) as H1.
  { unfold Lock. repeat wp_step. apply gwp_call; [by apply api_pre|].
    intros r w1 _ [Hv Hr]%(get_reliable KConfigMap).
    unfold state_of, meaning in Hst.
    destruct (view KConfigMap w (lock_key cluster)) as [cm|]; [|done]. subst r.
    destruct (information_ cm) as [info|]; [|done]. injection Hst as Hst.
    rewrite bool_decide_false by congruence. repeat wp_step.
    apply gwp_call; [by apply api_pre|]. intros r w2 _ [Hv2 Hr]%(get_reliable KMachine).
    unfold alive in Hdead. rewrite Hst, Hv in Hr.
    destruct (view KMachine w (mkKey (cl_Namespace cluster) h)) as [m'|]; [done|].
    destruct Hr as (e & -> & He). repeat wp_step; [|congruence].
    eapply wp_mono; [apply Unlock_reliable|]. intros w3 b [_ Hf]. by repeat wp_step. }
  eapply wp_mono; [exact H1|]. intros w1 b1 [-> Hf]. apply wp_bind.
  eapply wp_mono; [by apply Lock_free|]. by intros w2 b2 [-> Hw2].
Qed.
End Recovery.

(** ** Mutual exclusion *)

Section Exclusion.
Context {W : Type} `{!ApiErrors, !Env W, !ApiServer W} (cluster : Cluster).

Definition exists_in (w : W) (m : string) : Prop :=
  is_Some (view KMachine w (mkKey (cl_Namespace cluster) m)).

(** The holder of the lock exists. *)
Definition fresh (w : W) : Prop := ∀ h, state_of cluster w = Held h → exists_in w h.

(** Machines of the cluster are not deleted, and a held lock stays held. *)
Definition keeps (w w' : W) : Prop :=
  (∀ m, exists_in w m → exists_in w' m) ∧
  (fresh w → fresh w' ∧ ∀ h, state_of cluster w = Held h → state_of cluster w' = Held h).

(** The same for the holders in [P] only: what the others may rely on when a machine
    may release its own lock. *)
Definition kept (P : string → Prop) (w w' : W) : Prop :=
  (∀ m, exists_in w m → exists_in w' m) ∧
  (fresh w → fresh w' ∧ ∀ h, P h → state_of cluster w = Held h → state_of cluster w' = Held h).

#[export] Instance kept_preorder P : PreOrder (kept P).
Proof.
  split.
  - by intros w; split.
  - intros w1 w2 w3 [H1 H2] [H3 H4]. split; [auto|]. intros Hf.
    destruct (H2 Hf) as [Hf2 Hh2]. destruct (H4 Hf2) as [Hf3 Hh3]. auto.
Qed.

Lemma keeps_kept P w w' : keeps w w' → kept P w w'.
Proof. intros [He Hk]. split; [done|]. intros Hf. destruct (Hk Hf). auto. Qed.

Lemma keeps_refl w : keeps w w.
Proof. by split. Qed.

Lemma keeps_same w w' : (∀ k key, view k w' key = view k w key) → keeps w w'.
Proof.
  intros Hv. unfold keeps, fresh, exists_in, state_of. split; [by setoid_rewrite Hv|].
  by setoid_rewrite Hv.
Qed.

Lemma keeps_create machine r w w' :
  exists_in w (m_Name machine) →
  env_step (Create KConfigMap
    (setInformation (mkInformation (m_Name machine)) (setMetadata cluster newSemaphore))) r w w' →
  keeps w w' ∧ (is_ok r = true → state_of cluster w' = Held (m_Name machine)).
Proof.
  intros Hm Hc. pose proof (api_create KConfigMap _ _ _ _ Hc) as [Hne Hr].
  rewrite created_key in *.
  assert (∀ m, exists_in w' m ↔ exists_in w m) as Hex.
  { intros m. unfold exists_in. by rewrite Hne. }
  assert (view KConfigMap w' (lock_key cluster) = view KConfigMap w (lock_key cluster) ∧
            is_ok r = false ∨
          state_of cluster w = Free ∧ state_of cluster w' = Held (m_Name machine)) as [[Hs Hk]|[Hs Hk]].
  { unfold state_of. destruct r as [cm|e].
    - right. destruct Hr as (-> & -> & Hd). split; [done|]. by eapply init_meaning_created.
    - destruct Hr as [[-> _]|(_ & -> & cm & -> & Hd)]; [by left|right]. split; [done|].
      by eapply init_meaning_created. }
  - split; [|congruence]. split; [by intros m; rewrite Hex|].
    unfold fresh. setoid_rewrite Hex. unfold state_of. by rewrite Hs.
  - split; [|done]. split; [by intros m; rewrite Hex|]. intros _. split.
    + intros h. rewrite Hk, Hex. congruence.
    + congruence.
Qed.

(** One call among others that keep its lock: it disturbs nobody, and when it
    answers true the machine holds the lock from then on. *)
Lemma init_Lock_rg (P : string → Prop) machine w :
  P (m_Name machine) → fresh w → exists_in w (m_Name machine) →
  rely_guar (kept P) keeps (Lock cluster machine) w
    (λ b w', b = true → state_of cluster w' = Held (m_Name machine)).
Proof.
  intros HP Hf Hm. unfold rely_guar, Lock.
  apply wp_func. apply gwp_bind, gwp_call.
  { intros w1 r w2 _ _ [Hv _]%(api_get KConfigMap). by apply keeps_same. }
  intros r w2 _ (w1 & [Hex1 Hk1] & [Hv Hr]%(api_get KConfigMap)).
  destruct (Hk1 Hf) as [Hf1 _]. pose proof (keeps_same _ _ Hv) as [Hex2 Hk2].
  destruct (Hk2 Hf1) as [Hf2 Hh2]. apply gwp_bind.
  destruct r as [cm|e].
  - assert (state_of cluster w1 = meaning (Some cm)) as Hst by (unfold state_of; by rewrite Hr).
    destruct (information_ cm) as [info|] eqn:Hi; simpl in Hst; rewrite Hi in Hst;
      [|by apply gwp_return].
    case_bool_decide as Hb.
    { apply gwp_return. intros w3 [_ Hk3] _. rewrite Hb in *. by apply Hk3, Hh2. }
    apply gwp_bind, gwp_call.
    { intros w3 r w4 _ _ [Hv3 _]%(api_get KMachine). by apply keeps_same. }
    intros r w4 _ (w3 & [Hex3 _] & [Hv3 Hr3]%(api_get KMachine)).
    apply gwp_bind. destruct r as [m'|e].
    { by apply gwp_ret, gwp_return. }
    destruct (IsNotFound e) eqn:He; [|by apply gwp_ret, gwp_return].
    exfalso. destruct (Hex3 (MachineName info)) as [m' Hm']; [by apply Hf2, Hh2|].
    rewrite Hr3 in Hm' by done. done.
  - destruct (IsNotFound e); [|by apply gwp_return]. apply gwp_ret. cbv zeta.
    assert (exists_in w2 (m_Name machine)) as Hm2 by auto.
    apply gwp_bind, gwp_call.
    { intros w3 r w4 [Hex3 _] _ Hc. eapply keeps_create; [|exact Hc]. auto. }
    intros r w4 _ (w3 & [Hex3 Hk3] & Hc). apply gwp_ret.
    apply keeps_create in Hc as [Hk4 Hh4]; [|auto]. intros w5 [_ Hk5] Hok.
    destruct (Hk3 Hf2) as [Hf3 _]. destruct Hk4 as [_ Hk4]. destruct (Hk4 Hf3) as [Hf4 _].
    apply Hk5; auto.
Qed.

(** C1: mutual exclusion.  In every interleaving of any number of
    concurrent [Lock] calls by existing machines, with other activity that
    neither deletes machines of the cluster nor disturbs a held lock, and
    starting from a lock that is not stale, all the calls that have answered
    true were made by one and the same machine, which holds the lock. *)
Theorem Lock_exclusive (interf : W → W → Prop) (ms : list Machine) w w' ts' :
  (∀ w w', interf w w' → keeps w w') →
  fresh w → (∀ m, m ∈ ms → exists_in w (m_Name m)) →
  psteps interf (w, Lock cluster <$> ms) (w', ts') →
  ∀ i j m m', ms !! i = Some m → ms !! j = Some m' →
  ts' !! i = Some (Ret true) → ts' !! j = Some (Ret true) →
  m_Name m = m_Name m' ∧ state_of cluster w' = Held (m_Name m).
Proof.
  intros Hi Hf Hms Hsteps i j m m' Him Hjm Ht Ht'.
  pose proof (psteps_rely_guar interf (λ _, kept (λ _, True)) (λ _, keeps)
    (λ i b w', b = true → ∀ m, ms !! i = Some m → state_of cluster w' = Held (m_Name m))
    w (Lock cluster <$> ms) w' ts'
    (λ _ w w' Hw, keeps_kept _ _ _ (Hi w w' Hw)) (λ _ _ w w' _ _ _ Hw, keeps_kept _ _ _ Hw)) as Hrg.
  assert (∀ i m, ms !! i = Some m → ts' !! i = Some (Ret true) →
    state_of cluster w' = Held (m_Name m)) as Hheld.
  { intros i' mi Hmi Hti. eapply Hrg; [|done|exact Hti|done|exact Hmi].
    intros k p. rewrite list_lookup_fmap_Some. intros (mk & -> & Hmk).
    eapply wp_mono.
    - apply init_Lock_rg; [done..|]. by eapply Hms, list_elem_of_lookup_2.
    - intros wk b Hb w1 Hw1 Hb1 m1 Hm1. rewrite Hmk in Hm1. injection Hm1 as <-.
      by apply Hb. }
  pose proof (Hheld _ _ Him Ht) as H1. pose proof (Hheld _ _ Hjm Ht') as H2.
  split; [congruence|done].
Qed.
End Exclusion.

(** ** Witnesses *)

Module Examples.
Definition c : Cluster := cluster_named "c".
Definition a : Machine := machine_named "a".
Definition b : Machine := machine_named "b".
(** Machines [a] and [b] exist; nobody, [a], or a machine that is gone holds
    the lock. *)
Definition free : Store := put KMachine a (put KMachine b empty_store).
Definition held_by (m : string) : Store :=
  put KConfigMap (setInformation (mkInformation m) (setMetadata c newSemaphore)) free.
Definition stale : Store := held_by "gone".
End Examples.
Import Examples.

#[local] Instance the_env : Env Store := server_env no_oracle.

Lemma Lock_refines_witness :
  run (serve no_oracle) (Lock c b) stale ≫= (λ r, Some r.1) = Some false ∧
  wp (Lock c b) stale (λ w' r,
    lock_step (alive c stale) "b" (state_of c stale) r (state_of c w')).
Proof. split; [vm_compute; reflexivity|]. apply (Lock_refines c b stale). Defined.

Lemma Unlock_refines_witness :
  wp (Unlock c) stale (λ w' r,
    unlock_step (state_of c stale) r (state_of c w') ∧ (r = true → state_of c w' = Free)).
Proof. apply (Unlock_refines c stale). Defined.

Lemma Lock_recovers_witness :
  wp (prog_bind (Lock c b) (λ b1, prog_bind (Lock c b) (λ b2, Ret (b1, b2)))) stale
    (λ w' bs, bs = (false, true) ∧ state_of c w' = Held "b").
Proof. apply (Lock_recovers c b "gone" stale); [by vm_compute|discriminate|by vm_compute]. Defined.

Definition no_world : Store → Store → Prop := λ w w', w' = w.

(** Both machines try at the same time; [a] creates the config map first. *)
Definition contest : list (prog bool) := [Lock c a; Lock c b].

Lemma Lock_exclusive_witness :
  outcomes no_oracle [0; 1; 0; 1] free contest = Some [Some true; Some false] ∧
  ∃ w' ts', psteps no_world (free, contest) (w', ts') ∧
    m_Name a = m_Name a ∧ state_of c w' = Held "a".
Proof.
  assert (outcomes no_oracle [0; 1; 0; 1] free contest = Some [Some true; Some false]) as Ho
    by (vm_compute; reflexivity).
  split; [done|]. destruct (outcomes_psteps _ no_oracle_ok _ _ _ _ no_world Ho) as (w' & ts' & Hs & _ & Ht).
  exists w', ts'. split; [done|].
  apply (Lock_exclusive c no_world [a; b] free w' ts') with (i := 0) (j := 0).
  - intros w1 w2 ->. apply keeps_refl.
  - intros h. assert (state_of c free = Free) as -> by (vm_compute; reflexivity). discriminate.
  - intros m Hm. apply elem_of_cons in Hm as [->|Hm]; [by eexists|].
    apply list_elem_of_singleton in Hm as ->. by eexists.
  - exact Hs.
  - reflexivity.
  - reflexivity.
  - by apply Ht.
  - by apply Ht.
Defined.

(** The recovery is not atomic.  There is an interleaving of four [Lock]
    calls, with nothing else happening, in which a call of machine [b] and a
    call of machine [a] both answer true: [a]'s first call sees the stale lock
    and is about to delete the config map when [b] recovers the lock and
    acquires it; [a] then deletes [b]'s config map and acquires the lock too. *)
Theorem Lock_race :
  ∃ w' ts',
    psteps no_world (stale, [Lock c a; Lock c b; Lock c b; Lock c a]) (w', ts') ∧
    ts' !! 2 = Some (Ret true) ∧ ts' !! 3 = Some (Ret true) ∧ m_Name b ≠ m_Name a.
Proof.
  assert (outcomes no_oracle [0; 0; 0; 1; 1; 1; 1; 2; 2; 0; 3; 3] stale
            [Lock c a; Lock c b; Lock c b; Lock c a]
          = Some [Some false; Some false; Some true; Some true]) as Ho
    by (vm_compute; reflexivity).
  destruct (outcomes_psteps _ no_oracle_ok _ _ _ _ no_world Ho) as (w' & ts' & Hs & _ & Ht).
  exists w', ts'. split; [done|]. split; [by apply Ht|]. split; [by apply Ht|done].
Qed.
End InitLock.
