(* ===== verification/Inplace.v ===== *)
(** src/pkg/upgrade/inplace/{inplace,mark}.go: the annotations through which the
    in-place upgrade controllers communicate, the predicates that read them and
    the operations that write them.  The marks work on any object; a [Patcher]
    is the snapshot its patch helper was created from. *)

From S2P Require Import Prelude Objects ApiTypes Effects Libs RefLibs ApiServer RefServer.

Module Inplace.
(** ** inplace.go *)

(** Reading [obj.GetAnnotations()[k]]. *)
Definition IsUpgraded (m : ObjectMeta) (release : string) : bool :=
  bool_decide (ann0 m InPlaceUpgradeReleaseAnnotation = release).

Definition GetUpgradeInstructions (m : ObjectMeta) : string :=
  match ann m InPlaceUpgradeToAnnotation with
  | Some to => to
  | None => ann0 m InPlaceUpgradeReleaseAnnotation
  end.

Definition IsMachineUpgradeFailed (m : Machine) : bool :=
  negb (bool_decide (ann0 (m_meta m) InPlaceUpgradeLastFailedAttemptAtAnnotation = "")).

Definition IsMachineUpgrading (m : Machine) : bool :=
  bool_decide (ann0 (m_meta m) InPlaceUpgradeStatusAnnotation = InPlaceUpgradeInProgressStatus) ||
  negb (bool_decide (ann0 (m_meta m) InPlaceUpgradeToAnnotation = "")).

(** ** mark.go *)

(** [if err := patcher.Patch(ctx, obj); err != nil { return ... }; return nil] *)
Definition patch_or_fail (k : kind) (before : obj k) : go (obj k) (option error) (option error) :=
  o ← get;
  r ← call (Patch k before o);
  mret (match r with Ok _ => None | Err e => Some (wrapf "failed to patch" e) end).

Definition MarkMachineToUpgrade (to : string) : Machine → prog (Machine * option error) :=
  func_on (
    m ← get;
    check (call (NewHelper KMachine m)) (λ e, Some (wrapf "failed to create new patch helper" e)) ;;
    modify (annotate KMachine (λ a,
      <[InPlaceUpgradeToAnnotation := to]>
      (delete InPlaceUpgradeLastFailedAttemptAtAnnotation
      (delete InPlaceUpgradeChangeIDAnnotation
      (delete InPlaceUpgradeStatusAnnotation
      (delete InPlaceUpgradeReleaseAnnotation a)))))) ;;
    patch_or_fail KMachine m).

Definition MarkUpgradeFailed (k : kind) (before : obj k) : obj k → prog (obj k * option error) :=
  func_on (
    modify (annotate k (λ a,
      <[InPlaceUpgradeStatusAnnotation := InPlaceUpgradeFailedStatus]>
      (delete InPlaceUpgradeReleaseAnnotation a))) ;;
    patch_or_fail k before).

Definition MarkUpgradeInProgress (k : kind) (before : obj k) (to : string)
    : obj k → prog (obj k * option error) :=
  func_on (
    modify (annotate k (λ a,
      <[InPlaceUpgradeToAnnotation := to]>
      (<[InPlaceUpgradeStatusAnnotation := InPlaceUpgradeInProgressStatus]>
      (delete InPlaceUpgradeReleaseAnnotation a)))) ;;
    patch_or_fail k before).

Definition MarkUpgradeDone (k : kind) (before : obj k) (to : string)
    : obj k → prog (obj k * option error) :=
  func_on (
    modify (annotate k (λ a,
      <[InPlaceUpgradeReleaseAnnotation := to]>
      (<[InPlaceUpgradeStatusAnnotation := InPlaceUpgradeDoneStatus]>
      (delete InPlaceUpgradeToAnnotation a)))) ;;
    patch_or_fail k before).

(** ** What the marks mean to the predicates *)

(** The annotation of [m] under each upgrade key. *)
Record upgrade_marks := mkMarks {
  mk_to : option string;
  mk_status : option string;
  mk_release : option string;
  mk_change : option string;
  mk_failed_at : option string;
}.

Definition marks (m : ObjectMeta) : upgrade_marks :=
  mkMarks (ann m InPlaceUpgradeToAnnotation) (ann m InPlaceUpgradeStatusAnnotation)
    (ann m InPlaceUpgradeReleaseAnnotation) (ann m InPlaceUpgradeChangeIDAnnotation)
    (ann m InPlaceUpgradeLastFailedAttemptAtAnnotation).

#[export] Instance upgrade_marks_eq_dec : EqDecision upgrade_marks.
Proof. solve_decision. Defined.

(** Reading an upgrade annotation of a freshly marked object. *)
Ltac read_marks :=
  unfold marks; rewrite ?ann_annotate;
  unfold InPlaceUpgradeToAnnotation, InPlaceUpgradeStatusAnnotation,
    InPlaceUpgradeReleaseAnnotation, InPlaceUpgradeChangeIDAnnotation,
    InPlaceUpgradeLastFailedAttemptAtAnnotation;
  repeat first [rewrite lookup_insert_eq | rewrite lookup_insert_ne by done
               |rewrite lookup_delete_eq | rewrite lookup_delete_ne by done];
  rewrite ?ann_default.

Section Server.
Context {W : Type} `{!ApiErrors, !Env W, !ApiServer W}.
Implicit Types (w : W).

(** The stored object has the annotations of [o]. *)
Definition synced (k : kind) w (o : obj k) : Prop :=
  ∃ o', view k w (obj_key k o) = Some o' ∧ ∀ key, ann (meta_of k o') key = ann (meta_of k o) key.

Lemma patch_synced k b a w w' u :
  env_step (Patch k b a) (Ok u) w w' →
  obj_key k a = obj_key k b → synced k w b → synced k w' a.
Proof.
  intros [_ (o & o' & Ho & Ho' & Hm)]%(api_patch k) Hk (o1 & Ho1 & Ha).
  rewrite Hk, Ho1 in Ho. injection Ho as <-. exists o'. split; [done|].
  intros key. rewrite Hm. case_decide as Hd; [|done]. by rewrite Ha.
Qed.

Lemma patch_or_fail_wp k (b a : obj k) w (Q : W → obj k → option error → Prop) :
  obj_key k a = obj_key k b → synced k w b →
  (∀ w', frame k (obj_key k a) w w' → synced k w' a → Q w' a None) →
  (∀ w' e, frame k (obj_key k a) w w' → Q w' a (Some e)) →
  gwp (patch_or_fail k b) a w Q Q.
Proof.
  intros Hk Hs HO HE. unfold patch_or_fail. repeat wp_step.
  apply gwp_call; [by apply api_pre|]. intros r w' _ Hp. repeat wp_step.
  pose proof (proj1 (api_patch k _ _ _ _ _ Hp)) as Hf.
  destruct r as [u|e]; [|by apply HE]. apply HO; [done|]. by eapply patch_synced.
Qed.

Lemma key_annotate k f o : obj_key k (annotate k f o) = obj_key k o.
Proof. apply key_of_annotate. Qed.

(** A mark changes the object it is put on only, and on success the stored
    object carries it. *)
Lemma mark_wp k f (o : obj k) w :
  synced k w o →
  wp (func_on (modify (annotate k f) ;; patch_or_fail k o) o) w (λ w' r,
    r.1 = annotate k f o ∧ frame k (obj_key k o) w w' ∧
    (r.2 = None → synced k w' (annotate k f o))).
Proof.
  intros Hs. repeat wp_step. apply patch_or_fail_wp.
  - apply key_annotate.
  - done.
  - intros w' Hf Hs'. rewrite key_annotate in Hf. done.
  - intros w' e Hf. rewrite key_annotate in Hf. done.
Qed.

(** The marks of the request [MarkMachineToUpgrade] writes. *)
Definition requested (to : string) : upgrade_marks := mkMarks (Some to) None None None None.

Lemma MarkMachineToUpgrade_wp m to w :
  synced KMachine w m →
  wp (MarkMachineToUpgrade to m) w (λ w' r,
    frame KMachine (obj_key KMachine m) w w' ∧ obj_key KMachine r.1 = obj_key KMachine m ∧
    (r.2 = None → synced KMachine w' r.1 ∧ marks (m_meta r.1) = requested to)).
Proof.
  intros Hs. unfold MarkMachineToUpgrade. repeat wp_step.
  apply gwp_call; [by apply api_pre|]. intros r w1 _ Hh.
  pose proof (api_quiet _ _ _ _ Hh I) as Hv.
  assert (frame KMachine (obj_key KMachine m) w w1) as Hf by (intros k' key' _; apply Hv).
  destruct r as [u|e]; [|done]. repeat wp_step.
  assert (∀ f w', frame KMachine (obj_key KMachine (annotate KMachine f m)) w1 w' →
    frame KMachine (obj_key KMachine m) w w') as Hf2.
  { intros f w'. rewrite key_annotate. intros Hw k' key' Hne. by rewrite Hw, Hv. }
  apply patch_or_fail_wp.
  - apply key_annotate.
  - unfold synced. by rewrite Hv.
  - intros w2 Hf3 Hs2. split; [by eapply Hf2|]. split; [apply key_annotate|]. intros _. split; [done|].
    cbn [fst snd]. set (m' := annotate _ _ _).
    change (m_meta m') with (meta_of KMachine m'). unfold m'. by read_marks.
  - intros w2 e Hf3. split; [by eapply Hf2|]. by split; [apply key_annotate|].
Qed.

(** Marking a machine to upgrade, from an up-to-date copy: on success
    the stored machine carries exactly the request (no status, release,
    change id or failure is left), so the machine controllers see it as
    upgrading and not failed; on failure the copy in memory still carries
    the request. *)
Theorem MarkMachineToUpgrade_spec m to w :
  synced KMachine w m → to ≠ "" →
  wp (MarkMachineToUpgrade to m) w (λ w' r,
    (r.2 = None → synced KMachine w' r.1 ∧
                  marks (m_meta r.1) = mkMarks (Some to) None None None None ∧
                  IsMachineUpgrading r.1 = true ∧ IsMachineUpgradeFailed r.1 = false ∧
                  GetUpgradeInstructions (m_meta r.1) = to) ∧
    m_Name r.1 = m_Name m).
Proof.
  intros Hs Hto. eapply wp_mono; [by apply MarkMachineToUpgrade_wp|].
  intros w' r (_ & Hn & Hr). split; [|by apply (f_equal key_name) in Hn]. intros [Hs' Hm]%Hr.
  split; [done|]. split; [done|]. injection Hm as H1 H2 H3 H4 H5.
  unfold IsMachineUpgrading, IsMachineUpgradeFailed, GetUpgradeInstructions, ann0.
  rewrite H1, H2, H5. simpl. rewrite (bool_decide_false (to = "")) by done. done.
Qed.

(** Marking an upgrade done, from an up-to-date copy: on success the
    stored object records the release and no pending request, so that
    [IsUpgraded] holds of it and new machines get the same instructions. *)
Theorem MarkUpgradeDone_spec k (o : obj k) to w :
  synced k w o →
  wp (MarkUpgradeDone k o to o) w (λ w' r,
    r.2 = None → synced k w' r.1 ∧ IsUpgraded (meta_of k r.1) to = true ∧
                 GetUpgradeInstructions (meta_of k r.1) = to ∧
                 ann (meta_of k r.1) InPlaceUpgradeStatusAnnotation = Some InPlaceUpgradeDoneStatus).
Proof.
  intros Hs. eapply wp_mono; [by apply mark_wp|]. intros w' r (-> & _ & Hr) Hs'%Hr.
  split; [done|]. set (o' := annotate _ _ _) in *.
  assert (ann (meta_of k o') InPlaceUpgradeReleaseAnnotation = Some to ∧
          ann (meta_of k o') InPlaceUpgradeToAnnotation = None ∧
          ann (meta_of k o') InPlaceUpgradeStatusAnnotation = Some InPlaceUpgradeDoneStatus)
    as (H1 & H2 & H3) by (unfold o'; repeat split; by read_marks).
  unfold IsUpgraded, GetUpgradeInstructions, ann0. rewrite H1, H2, H3. simpl.
  by rewrite bool_decide_true.
Qed.
End Server.

#[local] Instance the_env : Env Store := server_env no_oracle.

(** A machine whose last upgrade failed. *)
Definition ex_failed : Machine :=
  set_m_Annotations (Some {[InPlaceUpgradeStatusAnnotation := InPlaceUpgradeFailedStatus;
                            InPlaceUpgradeLastFailedAttemptAtAnnotation := "yesterday"]})
    (machine_named "a").
(** The store with the machine; [NewHelper] succeeds. *)
Definition ex_store : Store := put KMachine ex_failed empty_store.

Lemma ex_synced : synced KMachine ex_store ex_failed.
Proof. exists ex_failed. split; [by vm_compute|done]. Qed.

Lemma MarkMachineToUpgrade_spec_witness :
  wp (MarkMachineToUpgrade "v1.31" ex_failed) ex_store (λ w' r,
    (r.2 = None → synced KMachine w' r.1 ∧
                  marks (m_meta r.1) = mkMarks (Some "v1.31") None None None None ∧
                  IsMachineUpgrading r.1 = true ∧ IsMachineUpgradeFailed r.1 = false ∧
                  GetUpgradeInstructions (m_meta r.1) = "v1.31") ∧
    m_Name r.1 = "a").
Proof. apply (MarkMachineToUpgrade_spec ex_failed "v1.31" ex_store); [apply ex_synced|done]. Defined.

Lemma MarkUpgradeDone_spec_witness :
  run (serve no_oracle) (MarkUpgradeDone KMachine ex_failed "v1.31" ex_failed) ex_store
    ≫= (λ r, Some r.1.2) = Some None ∧
  wp (MarkUpgradeDone KMachine ex_failed "v1.31" ex_failed) ex_store (λ w' r,
    r.2 = None → synced KMachine w' r.1 ∧ IsUpgraded (m_meta r.1) "v1.31" = true ∧
                 GetUpgradeInstructions (m_meta r.1) = "v1.31" ∧
                 ann (m_meta r.1) InPlaceUpgradeStatusAnnotation = Some InPlaceUpgradeDoneStatus).
Proof.
  split; [by vm_compute|].
  apply (MarkUpgradeDone_spec KMachine ex_failed "v1.31" ex_store), ex_synced.
Defined.
End Inplace.
