(* ===== verification/SharedField.v ===== *)
(** Objects that several goroutines may share: an object has one field, which points to
    a mutable cell, and its methods allocate cells, load and assign the field, and read
    and write the cell it points to.  Every such access is a step of its own in the
    interleaving [fsteps].  [alone] runs a method on an object that nobody else uses;
    [fsteps_alone] says that this is what the methods of separate objects do in every
    interleaving, so that they are programs over the environment alone. *)

From Stdlib Require Import FunctionalExtensionality.
From stdpp Require Import functions.
From S2P Require Import Prelude Effects Libs RefLibs ApiServer RefServer.

(** ** Accesses *)

Section Accesses.
Context {S : Type}.

Inductive fieldE : Type → Type :=
  | NewCell (s : S) : fieldE nat
  | SetField (p : nat) : fieldE unit
  | GetField : fieldE nat
  | ReadCell (p : nat) : fieldE S
  | WriteCell (p : nat) (s : S) : fieldE unit.

(** The field, and the cells that were allocated for the object. *)
Record object := mkObject { field : nat; cells : list S }.

Definition access `{!Inhabited S} {X} (e : fieldE X) (o : object) : X * object :=
  match e in fieldE X return X * object with
  | NewCell s => (length (cells o), mkObject (field o) (cells o ++ [s]))
  | SetField p => (tt, mkObject p (cells o))
  | GetField => (field o, o)
  | ReadCell p => (cells o !!! p, o)
  | WriteCell p s => (tt, mkObject (field o) (<[p := s]> (cells o)))
  end.

(** ** Programs *)

Inductive fprog (A : Type) : Type :=
  | FRet (a : A)
  | FAccess {X : Type} (e : fieldE X) (k : X → fprog A)
  | FCall {X : Type} (e : sysE X) (k : X → fprog A).
#[global] Arguments FRet {A} a.
#[global] Arguments FAccess {A X} e k.
#[global] Arguments FCall {A X} e k.

Fixpoint fprog_bind' {A B} (f : A → fprog B) (p : fprog A) : fprog B :=
  match p with
  | FRet a => f a
  | FAccess e k => FAccess e (λ x, fprog_bind' f (k x))
  | FCall e k => FCall e (λ x, fprog_bind' f (k x))
  end.

#[global] Instance fprog_ret : MRet fprog := λ A, FRet.
#[global] Instance fprog_bind : MBind fprog := λ A B, fprog_bind'.

Definition fcall {X} (e : sysE X) : fprog X := FCall e FRet.
Definition faccess {X} (e : fieldE X) : fprog X := FAccess e FRet.

(** A function that does not touch the object. *)
Fixpoint outside {A} (p : prog A) : fprog A :=
  match p with
  | Ret a => FRet a
  | Vis e k => FCall e (λ x, outside (k x))
  end.

(** ** An object that nobody else uses *)

Context `{!Inhabited S}.

Fixpoint alone {A} (p : fprog A) (o : object) : prog A :=
  match p with
  | FRet a => Ret a
  | FAccess e k => alone (k (access e o).1) (access e o).2
  | FCall e k => Vis e (λ x, alone (k x) o)
  end.

Lemma alone_outside {A B} (p : prog A) (f : A → fprog B) o :
  alone (outside p ≫= f) o = prog_bind p (λ a, alone (f a) o).
Proof.
  induction p as [a|X e k IH]; [done|]. simpl. f_equal. apply functional_extensionality_dep, IH.
Qed.

(** The same steps of a function body. *)
Lemma func_call {X R} (e : sysE X) (f : X → go unit R R) : func (call e ≫= f) = Vis e (λ x, func (f x)).
Proof. done. Qed.

Lemma func_callp {X R} (p : prog X) (f : X → go unit R R) : func (callp p ≫= f) = prog_bind p (λ x, func (f x)).
Proof.
  unfold func, func_on, callp, mbind, go_bind. induction p as [a|Y e k IH]; simpl; [done|].
  f_equal. apply functional_extensionality_dep, IH.
Qed.

(** Reading back what was allocated or written. *)
Lemma read_new (o : object) s : (cells o ++ [s]) !!! length (cells o) = s.
Proof. by rewrite lookup_total_app_r, Nat.sub_diag. Qed.

Lemma write_new (o : object) s s' : <[length (cells o) := s']> (cells o ++ [s]) = cells o ++ [s'].
Proof. rewrite insert_app_r_alt, Nat.sub_diag by done. done. Qed.

(** ** Interleaving *)

Section Steps.
Context {W : Type} `{!Env W} {A : Type} (interf : W → W → Prop).

(** The objects by number; a thread with the object whose method it runs. *)
Abbreviation memory := (nat → object).
Abbreviation thread := (nat * fprog A)%type.
Implicit Types (mem : memory) (ts : list thread).

Inductive fstep : W * memory * list thread → W * memory * list thread → Prop :=
  | fstep_access i l X (e : fieldE X) k w mem ts :
      ts !! i = Some (l, FAccess e k) →
      fstep (w, mem, ts) (w, <[l := (access e (mem l)).2]> mem, <[i := (l, k (access e (mem l)).1)]> ts)
  | fstep_call i l X (e : sysE X) k x w w' mem ts :
      ts !! i = Some (l, FCall e k) → lang_ok e x → env_step e x w w' →
      fstep (w, mem, ts) (w', mem, <[i := (l, k x)]> ts)
  | fstep_world w w' mem ts : interf w w' → fstep (w, mem, ts) (w', mem, ts).

Definition fsteps := rtc fstep.

Definition alones mem ts : list (prog A) := (λ t, alone t.2 (mem t.1)) <$> ts.

Lemma fstep_threads w mem ts w' mem' ts' :
  fstep (w, mem, ts) (w', mem', ts') → ts'.*1 = ts.*1.
Proof.
  inversion 1; subst; try done; rewrite list_fmap_insert; apply list_insert_id; rewrite list_lookup_fmap;
    match goal with Hi : ts !! _ = Some _ |- _ => by rewrite Hi end.
Qed.

(** An access changes nothing for the other objects. *)
Lemma alones_access i l X (e : fieldE X) k mem ts :
  NoDup ts.*1 → ts !! i = Some (l, FAccess e k) →
  alones (<[l := (access e (mem l)).2]> mem) (<[i := (l, k (access e (mem l)).1)]> ts) = alones mem ts.
Proof.
  intros Hnd Hi. apply list_eq. intros j. unfold alones. rewrite !list_lookup_fmap.
  destruct (decide (i = j)) as [<-|Hne].
  - rewrite list_lookup_insert_eq by (by eapply lookup_lt_Some). rewrite Hi. simpl. by rewrite fn_lookup_insert.
  - rewrite list_lookup_insert_ne by done. destruct (ts !! j) as [[l' p]|] eqn:Hj; [|done]. simpl.
    rewrite fn_lookup_insert_ne; [done|]. intros ->. apply Hne.
    eapply NoDup_lookup; [exact Hnd|..]; rewrite list_lookup_fmap; [by rewrite Hi|by rewrite Hj].
Qed.

(** Methods of separate objects interleave like the programs they are on their own. *)
Theorem fsteps_alone w mem ts w' mem' ts' :
  NoDup ts.*1 → fsteps (w, mem, ts) (w', mem', ts') →
  psteps interf (w, alones mem ts) (w', alones mem' ts').
Proof.
  intros Hnd Hs. unfold fsteps in Hs. remember (w, mem, ts) as c eqn:Hc. remember (w', mem', ts') as c' eqn:Hc'.
  revert w mem ts Hc Hnd. induction Hs as [c|c [[w1 mem1] ts1] c' Hstep _ IH]; intros w mem ts -> Hnd.
  { simplify_eq. apply rtc_refl. }
  specialize (IH Hc' w1 mem1 ts1 eq_refl). rewrite (fstep_threads _ _ _ _ _ _ Hstep) in IH. specialize (IH Hnd).
  inversion Hstep; subst.
  - match goal with Hi : ts !! _ = Some _ |- _ => by rewrite (alones_access _ _ _ _ _ _ _ Hnd Hi) in IH end.
  - eapply rtc_l; [|exact IH]. unfold alones. rewrite list_fmap_insert.
    eapply (pstep_call _ i X e (λ x, alone (k x) (mem1 l)) x); [rewrite list_lookup_fmap|done..].
    match goal with Hi : ts !! _ = Some _ |- _ => by rewrite Hi end.
  - eapply rtc_l; [by apply pstep_world|exact IH].
Qed.
End Steps.

(** *** Schedules *)

(** Running the threads in the given order, one step at a time, on the reference
    server. *)
Fixpoint fsched {A} (other : handler Store) (sched : list nat) (w : Store) (mem : nat → object)
    (ts : list (nat * fprog A)) : option (Store * (nat → object) * list (nat * fprog A)) :=
  match sched with
  | [] => Some (w, mem, ts)
  | i :: sched =>
      match ts !! i with
      | Some (l, FAccess e k) =>
          fsched other sched w (<[l := (access e (mem l)).2]> mem) (<[i := (l, k (access e (mem l)).1)]> ts)
      | Some (l, FCall e k) =>
          match serve other _ e w with
          | Some (x, w') => fsched other sched w' mem (<[i := (l, k x)]> ts)
          | None => None
          end
      | _ => None
      end
  end.

Lemma fsched_fsteps {A} other sched w mem (ts : list (nat * fprog A)) c interf :
  (∀ X (e : sysE X) w x w', other X e w = Some (x, w') → lang_ok e x) →
  fsched other sched w mem ts = Some c → @fsteps Store (server_env other) A interf (w, mem, ts) c.
Proof.
  intros Ho. revert w mem ts. induction sched as [|i sched IH]; intros w mem ts; simpl.
  { intros [= <-]. apply rtc_refl. }
  destruct (ts !! i) as [[l [a|X e k|X e k]]|] eqn:Hi; try done.
  - intros Hr%IH. eapply rtc_l; [|exact Hr]. by eapply fstep_access.
  - destruct (serve other X e w) as [[x w1]|] eqn:Hs; [|done]. intros Hr%IH.
    eapply rtc_l; [|exact Hr]. apply (@fstep_call Store (server_env other) A _ i l X e k x); [done| |done].
    by eapply serve_lang_ok.
Qed.

(** What a thread has returned. *)
Definition result_of {A} (t : nat * fprog A) : option A := match t.2 with FRet a => Some a | _ => None end.

(** A run of a schedule, with what one looks at afterwards. *)
Definition foutcome {A B} other sched w mem (ts : list (nat * fprog A)) (see : Store → B)
    : option (list (nat * option A) * B) :=
  match fsched other sched w mem ts with
  | Some (w', _, ts') => Some ((λ t, (t.1, result_of t)) <$> ts', see w')
  | None => None
  end.

Lemma foutcome_fsteps {A B} other sched w mem (ts : list (nat * fprog A)) (see : Store → B) rs b interf :
  (∀ X (e : sysE X) w x w', other X e w = Some (x, w') → lang_ok e x) →
  foutcome other sched w mem ts see = Some (rs, b) →
  ∃ w' mem' ts', @fsteps Store (server_env other) A interf (w, mem, ts) (w', mem', ts') ∧ see w' = b ∧
    ∀ i l r, rs !! i = Some (l, r) →
      match r with
      | Some a => ts' !! i = Some (l, FRet a)
      | None => ∀ a, ts' !! i ≠ Some (l, FRet a)
      end.
Proof.
  intros Ho. unfold foutcome. destruct (fsched _ _ _ _ _) as [[[w' mem'] ts']|] eqn:Hs; [|done].
  intros [= <- <-]. exists w', mem', ts'. split; [by eapply fsched_fsteps|]. split; [done|].
  intros i l r. rewrite list_lookup_fmap_Some. intros ([l' p] & [= -> ->] & Hi). rewrite Hi.
  destruct p; simpl; [done|congruence..].
Qed.
End Accesses.
Arguments fieldE : clear implicits.
Arguments object : clear implicits.
Arguments fprog : clear implicits.
