(* ===== verification/UpgradeLock.v ===== *)
(** src/pkg/upgrade/inplace/lock.go: the config-map lock that serialises the
    in-place upgrades of a control plane.

    A lock is an object with a field [semaphore], which [IsLocked] and [Lock] assign
    and then load again at every use: [IsLocked_on] and [Lock_on] are the methods with
    each access to the field a step of its own ([SharedField]).  [IsLocked] and [Lock]
    are the calls on an object that is not in use, which is how the controller makes
    them; what earlier calls left in the field does not matter ([Lock_alone],
    [IsLocked_alone]).  Calls on separate objects exclude each other
    ([Lock_excludes]); two calls at the same time on one object need not
    ([Lock_shared_object]). *)

From Stdlib Require Import FunctionalExtensionality.
From stdpp Require Import functions.
From S2P Require Import Prelude Objects ApiTypes Effects Libs RefLibs ApiServer RefServer Json SharedField.

Module UpgradeLock.
Definition lockConfigMapNameSuffix : string := "cp-inplace-upgrade-lock".
Definition lockInformationKey : string := "lock-information".

Record lockInformation := mkLockInformation { MachineName : string; MachineNamespace : string }.

(** A semaphore holds a config map, or nil. *)
Abbreviation semaphore := (option ConfigMap).
Definition emptyConfigMap : ConfigMap := mkConfigMap (mkMeta "" "" "" ∅ None [] [] 0 None) None.
Definition newSemaphore : semaphore := Some emptyConfigMap.

Definition configMapName (clusterName : string) : string :=
  clusterName +:+ "-" +:+ lockConfigMapNameSuffix.

(** [func (s *semaphore) getLockInfo()] *)
Definition getLockInfo (s : semaphore) : gores lockInformation :=
  match s with
  | None => Err (ErrNew "configmap is nil")
  | Some cm =>
      match cm_Data cm with
      | None => Err (ErrNew "configmap data is nil")
      | Some d =>
          match d !! lockInformationKey with
          | None => Err (ErrNew "lock information key not found")
          | Some liStr =>
              match Json.Unmarshal ["machineName"; "machineNamespace"] liStr with
              | Err e => Err (wrapf "failed to unmarshal lock information" e)
              | Ok m => Ok (mkLockInformation (default "" (m !! "machineName"))
                                              (default "" (m !! "machineNamespace")))
              end
          end
      end
  end.

(** [func (s *semaphore) setLockInfo(li)]: marshalling the struct cannot fail. *)
Definition setLockInfo (li : lockInformation) (s : semaphore) : ConfigMap :=
  let cm := default emptyConfigMap s in
  mkConfigMap (cm_meta cm)
    (Some (<[lockInformationKey :=
             Json.Marshal [("machineName", MachineName li); ("machineNamespace", MachineNamespace li)]]>
           (default ∅ (cm_Data cm)))).

(** [func (s *semaphore) setMetadata(cluster)] *)
Definition setMetadata (cluster : Cluster) (s : semaphore) : ConfigMap :=
  let cm := default emptyConfigMap s in
  mkConfigMap
    (mkMeta (configMapName (cl_Name cluster)) (cl_Namespace cluster) ""
      {[Clusterv1.ClusterNameLabel := cl_Name cluster]} None
      [mkOwnerRef Clusterv1.GroupVersion Clusterv1.ClusterKind (cl_Name cluster)
         (om_UID (cl_meta cluster)) None]
      [] 0 None)
    (cm_Data cm).

Definition lock_key (cluster : Cluster) : ObjectKey :=
  mkKey (cl_Namespace cluster) (configMapName (cl_Name cluster)).

Section Operations.
Context `{!ApiErrors}.

(** [func (l *upgradeLock) Unlock]; [None] is a nil error. *)
Definition Unlock (cluster : Cluster) : prog (option error) :=
  func (
    let name := configMapName (cl_Name cluster) in
    r ← call (Get KConfigMap (lock_key cluster));
    match r with
    | Err e =>
        if IsNotFound e then mret None
        else mret (Some (wrapf ("failed to get configmap " +:+ quote name) e))
    | Ok cm =>
        r ← call (Delete KConfigMap (obj_key KConfigMap cm));
        match r with
        | Err e =>
            if IsNotFound e then mret None
            else mret (Some (wrapf ("failed to delete configmap " +:+ quote name) e))
        | Ok _ => mret None
        end
    end).

(** [NewUpgradeLock]: the lock object, whose semaphore has a nil config map. *)
Definition NewUpgradeLock : object semaphore := mkObject 0 [None].

(** [l.semaphore = newSemaphore()] *)
Definition renew : fprog semaphore unit :=
  p ← faccess (NewCell newSemaphore);
  faccess (SetField p).

(** A call of a method of [l.semaphore] that changes its config map. *)
Definition on_semaphore (f : semaphore → ConfigMap) : fprog semaphore unit :=
  p ← faccess GetField;
  s ← faccess (ReadCell p);
  faccess (WriteCell p (Some (f s))).

(** [func (l *upgradeLock) IsLocked] *)
Definition IsLocked_on (cluster : Cluster) : fprog semaphore (gores (option Machine)) :=
  renew ;;
  let name := configMapName (cl_Name cluster) in
  p ← faccess GetField;
  r ← fcall (Get KConfigMap (lock_key cluster));
  match r with
  | Err e =>
      if IsNotFound e then mret (Ok None)
      else mret (Err (wrapf ("failed to get configmap " +:+ quote name) e))
  | Ok cm =>
      (* the answer is decoded into the config map *)
      faccess (WriteCell p (Some cm)) ;;
      p ← faccess GetField;
      s ← faccess (ReadCell p);
      match getLockInfo s with
      | Err e => mret (Err (wrapf "failed to get lock information" e))
      | Ok li =>
          r ← fcall (Get KMachine (mkKey (MachineNamespace li) (MachineName li)));
          match r with
          | Err e =>
              if IsNotFound e then
                u ← outside (Unlock cluster);
                match u with
                | Some e => mret (Err (wrapf "failed to unlock" e))
                | None => mret (Ok None)
                end
              else mret (Err (wrapf ("failed to get machine " +:+ quote (MachineName li)) e))
          | Ok machine => mret (Ok (Some machine))
          end
      end
  end.

(** [func (l *upgradeLock) Lock] *)
Definition Lock_on (cluster : Cluster) (machine : Machine) : fprog semaphore (option error) :=
  renew ;;
  let li := mkLockInformation (m_Name machine) (om_Namespace (m_meta machine)) in
  on_semaphore (setLockInfo li) ;;
  on_semaphore (setMetadata cluster) ;;
  p ← faccess GetField;
  s ← faccess (ReadCell p);
  match s with
  | None => fcall (Panic "nil pointer dereference") ≫= λ x : Empty_set, match x with end
  | Some cm =>
      r ← fcall (Create KConfigMap cm);
      match r with
      | Err e => mret (Some (wrapf "failed to create configmap" e))
      | Ok cm' =>
          (* the stored object is decoded into the config map *)
          faccess (WriteCell p (Some cm')) ;;
          mret None
      end
  end.

(** The calls on a lock object that nobody else is using. *)
Definition IsLocked (cluster : Cluster) : prog (gores (option Machine)) :=
  alone (IsLocked_on cluster) NewUpgradeLock.
Definition Lock (cluster : Cluster) (machine : Machine) : prog (option error) :=
  alone (Lock_on cluster machine) NewUpgradeLock.

(** *** What a call alone does *)

(** The config map that [Lock] creates. *)
Definition lock_map (cluster : Cluster) (li : lockInformation) : ConfigMap :=
  setMetadata cluster (Some (setLockInfo li newSemaphore)).

Definition Lock_call (cluster : Cluster) (machine : Machine) : prog (option error) :=
  Vis (Create KConfigMap (lock_map cluster (mkLockInformation (m_Name machine) (om_Namespace (m_meta machine)))))
    (λ r, Ret (match r with Ok _ => None | Err e => Some (wrapf "failed to create configmap" e) end)).

Lemma Lock_alone cluster machine o : alone (Lock_on cluster machine) o = Lock_call cluster machine.
Proof.
  unfold Lock_on, on_semaphore, renew. cbn. rewrite read_new, write_new, read_new, write_new, read_new. cbn.
  unfold Lock_call. f_equal. apply functional_extensionality_dep. by intros [cm|e].
Qed.

Definition IsLocked_call (cluster : Cluster) : prog (gores (option Machine)) :=
  func (
    let name := configMapName (cl_Name cluster) in
    r ← call (Get KConfigMap (lock_key cluster));
    match r with
    | Err e =>
        if IsNotFound e then mret (Ok None)
        else mret (Err (wrapf ("failed to get configmap " +:+ quote name) e))
    | Ok cm =>
        match getLockInfo (Some cm) with
        | Err e => mret (Err (wrapf "failed to get lock information" e))
        | Ok li =>
            r ← call (Get KMachine (mkKey (MachineNamespace li) (MachineName li)));
            match r with
            | Err e =>
                if IsNotFound e then
                  u ← callp (Unlock cluster);
                  match u with
                  | Some e => mret (Err (wrapf "failed to unlock" e))
                  | None => mret (Ok None)
                  end
                else mret (Err (wrapf ("failed to get machine " +:+ quote (MachineName li)) e))
            | Ok machine => mret (Ok (Some machine))
            end
        end
    end).

Lemma IsLocked_alone cluster o : alone (IsLocked_on cluster) o = IsLocked_call cluster.
Proof.
  unfold IsLocked_on, renew, IsLocked_call. cbv zeta. rewrite func_call. cbn -[Unlock func getLockInfo].
  f_equal. apply functional_extensionality_dep. intros [cm|e]; [|by destruct (IsNotFound e)].
  cbn -[Unlock func getLockInfo]. rewrite write_new, read_new. destruct (getLockInfo (Some cm)) as [li|e]; [|done].
  rewrite func_call. cbn -[Unlock func getLockInfo]. f_equal. apply functional_extensionality_dep.
  intros [m|e]; [done|]. destruct (IsNotFound e); [|done].
  rewrite func_callp, alone_outside. f_equal. apply functional_extensionality_dep. by intros [].
Qed.
End Operations.

(** ** The abstract lock *)

Inductive LockState := Free | Held (machine : ObjectKey) | Corrupt.

Definition meaning (o : option ConfigMap) : LockState :=
  match o with
  | None => Free
  | Some cm => match getLockInfo (Some cm) with
               | Ok li => Held (mkKey (MachineNamespace li) (MachineName li))
               | Err _ => Corrupt
               end
  end.

Lemma getLockInfo_set cluster li (cm : ConfigMap) :
  stored_as KConfigMap (lock_map cluster li) cm → getLockInfo (Some cm) = Ok li.
Proof.
  intros [_ Hd].
  pose proof (Json.Unmarshal_Marshal
    [("machineName", MachineName li); ("machineNamespace", MachineNamespace li)]) as Hj.
  unfold getLockInfo. rewrite <- Hd. unfold lock_map, setMetadata, setLockInfo.
  cbn [cm_Data default from_option id].
  rewrite lookup_insert_eq.
  change ["machineName"; "machineNamespace"] with
    ([("machineName", MachineName li); ("machineNamespace", MachineNamespace li)].*1).
  rewrite Hj by (simpl; repeat constructor; set_solver). simpl.
  rewrite lookup_insert_eq, lookup_insert_ne, lookup_insert_eq by done. by destruct li.
Qed.

Lemma meaning_created cluster m (cm : ConfigMap) :
  stored_as KConfigMap
    (lock_map cluster (mkLockInformation (m_Name m) (om_Namespace (m_meta m)))) cm →
  meaning (Some cm) = Held (key_of (m_meta m)).
Proof. intros Hs. unfold meaning. by rewrite (getLockInfo_set _ _ _ Hs). Qed.

Section Refinement.
Context {W : Type} `{!ApiErrors, !Env W, !ApiServer W}.
Implicit Types (w : W) (cluster : Cluster).

Definition state_of cluster w : LockState := meaning (view KConfigMap w (lock_key cluster)).

Lemma state_of_same cluster w w' :
  (∀ k key, view k w' key = view k w key) → state_of cluster w' = state_of cluster w.
Proof. unfold state_of. by intros ->. Qed.

Lemma frame_trans k key w1 w2 w3 : frame k key w1 w2 → frame k key w2 w3 → frame k key w1 w3.
Proof. intros Hf1 Hf2 k' key' Hne. by rewrite Hf2, Hf1. Qed.

Lemma frame_of_same k key w w' : (∀ k key, view k w' key = view k w key) → frame k key w w'.
Proof. intros Hv k' key' _. apply Hv. Qed.

(** [Unlock] returns nil only when the lock is free afterwards; with an error
    the lock is as before or free.  It touches the lock only. *)
Lemma Unlock_wp cluster w :
  wp (Unlock cluster) w (λ w' r,
    frame KConfigMap (lock_key cluster) w w' ∧
    match r with
    | None => state_of cluster w' = Free
    | Some _ => state_of cluster w' = state_of cluster w ∨ state_of cluster w' = Free
    end).
Proof.
  unfold Unlock. cbv zeta. repeat wp_step. apply gwp_call; [by apply api_pre|].
  intros r w1 _ [Hv Hr]%(api_get KConfigMap).
  pose proof (state_of_same cluster _ _ Hv) as Hsame.
  pose proof (frame_of_same KConfigMap (lock_key cluster) _ _ Hv) as Hf1.
  destruct r as [cm|e].
  - repeat wp_step. rewrite (view_key _ _ _ _ Hr).
    apply gwp_call; [by apply api_pre|]. intros r w2 _ [Hf2 Hd]%(api_delete KConfigMap).
    pose proof (frame_trans _ _ _ _ _ Hf1 Hf2) as Hf.
    destruct r as [[]|e]; repeat wp_step.
    { split; [exact Hf|]. unfold state_of. by rewrite (proj2 Hd). }
    destruct (IsNotFound e) eqn:He; repeat wp_step; (split; [exact Hf|]); unfold state_of in *.
    + destruct Hd as [[-> Hn]|[? _]]; [by rewrite Hn|done].
    + destruct Hd as [[-> _]|[_ ->]]; [left|right]; done.
  - destruct (IsNotFound e) eqn:He; repeat wp_step; (split; [exact Hf1|]); [|by left].
    rewrite Hsame. unfold state_of. by rewrite Hr.
Qed.

(** The holder of the lock, when it exists; a lock without one is released. *)
Lemma IsLocked_wp cluster w :
  wp (IsLocked cluster) w (λ w' r,
    frame KConfigMap (lock_key cluster) w w' ∧
    match r with
    | Ok (Some m) => (∀ k key, view k w' key = view k w key) ∧
                     state_of cluster w = Held (key_of (m_meta m)) ∧
                     view KMachine w (key_of (m_meta m)) = Some m
    | Ok None => state_of cluster w' = Free ∧
                 (state_of cluster w = Free ∨
                  ∃ h, state_of cluster w = Held h ∧ view KMachine w h = None)
    | Err _ => state_of cluster w' = state_of cluster w ∨
               state_of cluster w' = Free ∧
               ∃ h, state_of cluster w = Held h ∧ view KMachine w h = None
    end).
Proof.
  unfold IsLocked. rewrite IsLocked_alone. unfold IsLocked_call. cbv zeta. repeat wp_step.
  apply gwp_call; [by apply api_pre|].
  intros r w1 _ [Hv Hr]%(api_get KConfigMap).
  pose proof (state_of_same cluster _ _ Hv) as Hsame.
  pose proof (frame_of_same KConfigMap (lock_key cluster) _ _ Hv) as Hf1.
  destruct r as [cm|e].
  2: { destruct (IsNotFound e) eqn:He; repeat wp_step; (split; [exact Hf1|]); [|by left].
       assert (state_of cluster w = Free) as Hf by (unfold state_of; by rewrite Hr).
       rewrite Hsame, Hf. split; [done|by left]. }
  assert (state_of cluster w = meaning (Some cm)) as Hst by (unfold state_of; by rewrite Hr).
  unfold meaning in Hst. simpl obj in *.
  destruct (getLockInfo (Some cm)) as [li|e] eqn:Hi; [|by wp_step; split; [|left]].
  set (h := mkKey (MachineNamespace li) (MachineName li)) in *.
  repeat wp_step. apply gwp_call; [by apply api_pre|].
  intros r w2 _ [Hv2 Hr2]%(api_get KMachine). rewrite Hv in Hr2.
  pose proof (state_of_same cluster _ _ Hv2) as Hsame2.
  pose proof (frame_trans _ _ _ _ _ Hf1 (frame_of_same KConfigMap (lock_key cluster) _ _ Hv2)) as Hf2.
  destruct r as [m|e].
  { repeat wp_step. split; [exact Hf2|]. pose proof (view_key _ _ _ _ Hr2) as Hk.
    change (obj_key KMachine m) with (key_of (m_meta m)) in Hk.
    rewrite Hst, Hk. split; [intros; by rewrite Hv2, Hv|]. done. }
  destruct (IsNotFound e) eqn:He; repeat wp_step; [|split; [exact Hf2|left; congruence]].
  eapply wp_mono; [apply Unlock_wp|].
  intros w3 [e'|] [Hf3 Hu]; repeat wp_step; (split; [by eapply frame_trans|]).
  - destruct Hu as [Hu|Hu]; [left; congruence|right]. split; [exact Hu|]. by exists h; auto.
  - split; [exact Hu|right]. exists h. auto.
Qed.

(** [IsLocked] answers the machine the lock is held for, which exists, or
    no machine only when the lock is free: a lock whose machine is gone is
    released before "not locked" is answered, never reported as free while
    it is still held; an unreadable lock is an error. *)
Theorem IsLocked_spec cluster w :
  wp (IsLocked cluster) w (λ w' r,
    match r with
    | Ok (Some m) => state_of cluster w' = Held (key_of (m_meta m)) ∧
                     state_of cluster w' = state_of cluster w ∧
                     view KMachine w' (key_of (m_meta m)) = Some m
    | Ok None => state_of cluster w' = Free ∧ state_of cluster w ≠ Corrupt
    | Err _ => state_of cluster w' = state_of cluster w ∨
               state_of cluster w' = Free ∧
               ∃ h, state_of cluster w = Held h ∧ view KMachine w h = None
    end).
Proof.
  eapply wp_mono; [apply IsLocked_wp|]. intros w' [[m|]|e] [_ Hr]; [| |exact Hr].
  - destruct Hr as (Hv & Hst & Hm). rewrite (state_of_same cluster _ _ Hv), Hv. done.
  - destruct Hr as [Hf [Hst|(h & Hst & _)]]; rewrite Hst; done.
Qed.

Lemma Lock_wp cluster machine w :
  wp (Lock cluster machine) w (λ w' r,
    frame KConfigMap (lock_key cluster) w w' ∧
    match r with
    | None => state_of cluster w = Free ∧ state_of cluster w' = Held (key_of (m_meta machine))
    | Some _ => state_of cluster w' = state_of cluster w ∨
                state_of cluster w = Free ∧ state_of cluster w' = Held (key_of (m_meta machine))
    end).
Proof.
  unfold Lock. rewrite Lock_alone. split; [by apply api_pre|].
  intros r w1 _ [Hf Hc]%(api_create KConfigMap).
  change (obj_key KConfigMap (lock_map _ _)) with (lock_key cluster) in Hc.
  split; [exact Hf|]. unfold state_of. destruct r as [cm|e].
  - destruct Hc as (-> & -> & Hs). split; [done|]. by eapply meaning_created.
  - destruct Hc as [[-> _]|(_ & -> & cm & -> & Hs)]; [by left|right].
    split; [done|]. by eapply meaning_created.
Qed.

(** [Lock] acquires only a free lock, which the machine then holds; when
    it fails the lock is as before, or the machine holds it (the server
    created the config map although the call failed). *)
Theorem Lock_spec cluster machine w :
  wp (Lock cluster machine) w (λ w' r,
    match r with
    | None => state_of cluster w = Free ∧ state_of cluster w' = Held (key_of (m_meta machine))
    | Some _ => state_of cluster w' = state_of cluster w ∨
                state_of cluster w = Free ∧ state_of cluster w' = Held (key_of (m_meta machine))
    end).
Proof. eapply wp_mono; [apply Lock_wp|]. by intros w' r [_ Hr]. Qed.
End Refinement.

(** ** Mutual exclusion *)

Section Exclusion.
Context {W : Type} `{!ApiErrors, !Env W, !ApiServer W} (cluster : Cluster).

(** A held lock stays held by the same machine. *)
Definition keeps (w w' : W) : Prop :=
  ∀ h, state_of cluster w = Held h → state_of cluster w' = Held h.

#[export] Instance keeps_preorder : PreOrder keeps.
Proof. split; [by intros w h|]. intros w1 w2 w3 H1 H2 h Hh. auto. Qed.

Lemma Lock_rg machine w :
  rg keeps (Lock cluster machine) w
    (λ r w', r = None → state_of cluster w' = Held (key_of (m_meta machine))).
Proof.
  set (li := mkLockInformation (m_Name machine) (om_Namespace (m_meta machine))).
  assert (∀ r w w', env_step (Create KConfigMap (lock_map cluster li)) r w w' →
    keeps w w' ∧ (is_ok r = true → state_of cluster w' = Held (key_of (m_meta machine)))) as Hcr.
  { intros r w1 w2 [_ Hc]%(api_create KConfigMap).
    change (obj_key KConfigMap (lock_map _ _)) with (lock_key cluster) in Hc.
    unfold keeps, state_of. destruct r as [cm|e].
    - destruct Hc as (-> & -> & Hs). split; [done|]. intros _. by eapply meaning_created.
    - destruct Hc as [[-> _]|(_ & -> & cm & -> & Hs)]; by split. }
  unfold rg, rely_guar, Lock. rewrite Lock_alone. split.
  { intros w1 r w2 _ _ Hc. by apply Hcr in Hc as [? _]. }
  intros r w2 _ (w1 & _ & Hc). apply Hcr in Hc as [_ Hh].
  destruct r as [cm|e]; [|done]. intros w3 Hw3 _. by apply Hw3, Hh.
Qed.

(** C18: in every interleaving of calls of [Lock] on separate lock objects,
    access by access and call by call, with other activity that releases no held
    lock, all the calls that have returned nil were made for one and the same
    machine, which holds the lock. *)
Theorem Lock_excludes (interf : W → W → Prop) (calls : list (nat * Machine)) w mem w' mem' ts' :
  (∀ w w', interf w w' → keeps w w') → NoDup calls.*1 →
  fsteps interf (w, mem, (λ c, (c.1, Lock_on cluster c.2)) <$> calls) (w', mem', ts') →
  ∀ i j l m l' m', calls !! i = Some (l, m) → calls !! j = Some (l', m') →
  ts' !! i = Some (l, FRet None) → ts' !! j = Some (l', FRet None) →
  key_of (m_meta m) = key_of (m_meta m') ∧ state_of cluster w' = Held (key_of (m_meta m)).
Proof.
  intros Hi Hnd Hsteps. apply fsteps_alone in Hsteps; [|by rewrite <- list_fmap_compose].
  assert (alones mem ((λ c, (c.1, Lock_on cluster c.2)) <$> calls) = Lock cluster <$> calls.*2) as Heq.
  { unfold alones. rewrite <- !list_fmap_compose. apply list_fmap_ext. intros k [l m] _. unfold Lock. cbn [compose fst snd].
    by rewrite !Lock_alone. }
  rewrite Heq in Hsteps.
  assert (∀ i l m, calls !! i = Some (l, m) → ts' !! i = Some (l, FRet None) →
    state_of cluster w' = Held (key_of (m_meta m))) as Hheld.
  { intros i l m Hm Ht.
    assert (alones mem' ts' !! i = Some (Ret None)) as Ha by (unfold alones; by rewrite list_lookup_fmap, Ht).
    refine (psteps_rg interf keeps
      (λ i r w', r = None → ∀ l m, calls !! i = Some (l, m) → state_of cluster w' = Held (key_of (m_meta m)))
      w _ w' _ Hi _ Hsteps i None Ha eq_refl l m Hm).
    intros k p. rewrite list_lookup_fmap_Some. intros (mk & -> & Hmk).
    eapply wp_mono; [apply Lock_rg|].
    intros wk r Hr w1 Hw1 Hr1 l1 m1 Hm1. rewrite list_lookup_fmap, Hm1 in Hmk. injection Hmk as <-. by apply Hr. }
  intros i j l m l' m' Him Hjm Ht Ht'.
  pose proof (Hheld _ _ _ Him Ht) as H1. pose proof (Hheld _ _ _ Hjm Ht') as H2.
  split; [congruence|done].
Qed.
End Exclusion.

(** ** Witnesses *)

Module Examples.
Definition c : Cluster := cluster_named "c".
Definition a : Machine := machine_named "a".
Definition b : Machine := machine_named "b".
Definition free : Store := put KMachine a (put KMachine b empty_store).
(** A lock left by a machine that is gone. *)
Definition stale : Store := put KConfigMap (lock_map c (mkLockInformation "gone" "ns")) free.
End Examples.
Import Examples.

#[local] Instance the_env : Env Store := server_env no_oracle.

Lemma IsLocked_spec_witness :
  run (serve no_oracle) (IsLocked c) stale ≫= (λ r, Some r.1) = Some (Ok None) ∧
  wp (IsLocked c) stale (λ w' r,
    match r with
    | Ok (Some m) => state_of c w' = Held (key_of (m_meta m)) ∧
                     state_of c w' = state_of c stale ∧
                     view KMachine w' (key_of (m_meta m)) = Some m
    | Ok None => state_of c w' = Free ∧ state_of c stale ≠ Corrupt
    | Err _ => state_of c w' = state_of c stale ∨
               state_of c w' = Free ∧ ∃ h, state_of c stale = Held h ∧ view KMachine stale h = None
    end).
Proof. split; [vm_compute; reflexivity|]. apply (IsLocked_spec c stale). Defined.

Lemma Lock_spec_witness :
  wp (Lock c a) free (λ w' r,
    match r with
    | None => state_of c free = Free ∧ state_of c w' = Held (mkKey "ns" "a")
    | Some _ => state_of c w' = state_of c free ∨
                state_of c free = Free ∧ state_of c w' = Held (mkKey "ns" "a")
    end).
Proof. apply (Lock_spec c a free). Defined.

(** Two lock objects. *)
Definition objects : nat → object semaphore := λ _, NewUpgradeLock.
Definition contest : list (nat * fprog semaphore (option error)) := [(0, Lock_on c a); (1, Lock_on c b)].

Lemma Lock_excludes_witness :
  ∃ w' mem' ts', fsteps (λ w w', w' = w) (free, objects, contest) (w', mem', ts') ∧
    ts' !! 1 ≠ Some (1, FRet None) ∧ key_of (m_meta a) = key_of (m_meta a) ∧ state_of c w' = Held (mkKey "ns" "a").
Proof.
  assert (∃ e st, foutcome no_oracle (replicate 12 0 ++ replicate 11 1) free objects contest (λ _ : Store, tt) =
    Some ([(0, Some None); (1, Some (Some e))], st)) as (e & st & Ho) by (eexists _, _; vm_compute; reflexivity).
  destruct (foutcome_fsteps _ _ _ _ _ _ _ _ (λ w w', w' = w) no_oracle_ok Ho) as (w' & mem' & ts' & Hr & _ & Ht).
  exists w', mem', ts'. split; [exact Hr|]. split.
  { pose proof (Ht 1 1 (Some (Some e)) eq_refl) as H1'. simpl in H1'. intros Hn. rewrite Hn in H1'. discriminate. }
  apply (Lock_excludes c (λ w w', w' = w) [(0, a); (1, b)] free objects w' mem' ts')
    with (i := 0) (j := 0) (l := 0) (l' := 0) (m' := a).
  - intros w1 w2 ->. apply PreOrder_Reflexive.
  - by apply (bool_decide_unpack _).
  - exact Hr.
  - reflexivity.
  - reflexivity.
  - exact (Ht 0 0 (Some None) eq_refl).
  - exact (Ht 0 0 (Some None) eq_refl).
Defined.

(** ** One lock object for two calls *)

Definition d : Cluster := cluster_named "d".

(** The calls of [Lock] for two clusters, made at the same time on one lock object:
    the first returns nil, although the lock of its cluster is free - what it has
    created is the lock of the other cluster.  The controller keeps one object for
    all control planes, so it must not work on two of them at a time. *)
Theorem Lock_shared_object :
  ∃ w' mem' ts',
    fsteps (λ w w', w' = w) (free, objects, [(0, Lock_on c a); (0, Lock_on d b)]) (w', mem', ts') ∧
    ts' !! 0 = Some (0, FRet None) ∧ state_of c w' = Free ∧ state_of d w' = Held (mkKey "ns" "b").
Proof.
  assert (∃ r, foutcome no_oracle (replicate 8 0 ++ replicate 8 1 ++ replicate 4 0) free objects
    [(0, Lock_on c a); (0, Lock_on d b)] (λ w, (state_of c w, state_of d w)) =
    Some ([(0, Some None); (0, r)], (Free, Held (mkKey "ns" "b")))) as (r & Ho) by (eexists; vm_compute; reflexivity).
  destruct (foutcome_fsteps _ _ _ _ _ _ _ _ (λ w w', w' = w) no_oracle_ok Ho) as (w' & mem' & ts' & Hr & [= Hc Hd] & Ht).
  exists w', mem', ts'. split; [exact Hr|]. split; [exact (Ht 0 0 (Some None) eq_refl)|]. by split.
Qed.
End UpgradeLock.
