(* ===== verification/Proxy.v ===== *)
(** src/pkg/proxy: the connection to a pod through the API server of a workload
    cluster, by SPDY port forwarding.  A REST configuration is the cluster it
    leads to; the clientset, transport and upgrader that are made from it are not
    looked at, only called. *)

From S2P Require Import Prelude Objects ApiTypes Effects Libs RefLibs ApiServer.

Module Proxy.
(** [portforward.PortForwardProtocolV1Name], and the headers of a stream. *)
Definition PortForwardProtocolV1Name : string := "portforward.k8s.io".
Definition PortHeader : string := "port".
Definition PortForwardRequestIDHeader : string := "requestID".
Definition StreamType : string := "streamType".
Definition StreamTypeError : string := "error".
Definition StreamTypeData : string := "data".

(** [type Proxy struct] *)
Record Proxy := mkProxy {
  Kind : string;
  Namespace : string;
  ResourceName : string;
  KubeConfig : ObjectKey;
  KeepAlive : option Z;
  Port : Z;
}.

(** ** conn.go *)

(** [type Conn struct] *)
Record Conn := mkConn {
  connection : nat;
  stream : Stream;
  readDeadline : option Z;
  writeDeadline : option Z;
}.

Definition NewConn (connection : nat) (stream : Stream) : Conn := mkConn connection stream None None.

(** ** addr.go *)

Definition scheme : string := "proxy".

Record Addr := mkAddr { port : string; identifier : Z }.

Definition Network (a : Addr) : string := PortForwardProtocolV1Name.

Definition addr_String (a : Addr) : string :=
  scheme +:+ "://" +:+ pretty (identifier a) +:+ "." +:+ PortForwardProtocolV1Name +:+ ".local:" +:+ port a.

Definition NewAddrFromConn (c : Conn) : Addr :=
  mkAddr (default "" (st_Headers (stream c) !! PortHeader)) (st_Identifier (stream c)).

Definition LocalAddr (c : Conn) : Addr := NewAddrFromConn c.
Definition RemoteAddr (c : Conn) : Addr := NewAddrFromConn c.

Definition SetDeadline (t : Z) (c : Conn) : Conn * option error :=
  (mkConn (connection c) (stream c) (Some t) (Some t), None).
Definition SetWriteDeadline (t : Z) (c : Conn) : Conn * option error :=
  (mkConn (connection c) (stream c) (readDeadline c) (Some t), None).
Definition SetReadDeadline (t : Z) (c : Conn) : Conn * option error :=
  (mkConn (connection c) (stream c) (Some t) (writeDeadline c), None).

(** ** dial.go *)

Definition defaultTimeout : Z := (10 * Time.Second)%Z.

(** [type Dialer struct], without the three values made from the configuration. *)
Record Dialer := mkDialer { proxy : Proxy; timeout : Z }.

Definition setTimeout (duration : Z) (d : Dialer) : Dialer * option error := (mkDialer (proxy d) duration, None).
Definition DialTimeout (duration : Z) : Dialer → Dialer * option error := setTimeout duration.

(** [for _, option := range options] *)
Fixpoint apply_options (options : list (Dialer → Dialer * option error)) (d : Dialer) : gores Dialer :=
  match options with
  | [] => Ok d
  | option :: options => match option d with
                         | (d, None) => apply_options options d
                         | (_, Some err) => Err err
                         end
  end.

(** [func NewDialer]; the timeout of the dialer becomes the one of the REST
    configuration. *)
Definition NewDialer (p : Proxy) (options : list (Dialer → Dialer * option error)) : prog (gores Dialer) :=
  func (
    if (Port p =? 0)%Z then return_ (Err (ErrNew "port required"))
    else
      dialer ← check (mret (apply_options options (mkDialer p 0))) Err;
      let dialer := if (timeout dialer =? 0)%Z then mkDialer (proxy dialer) defaultTimeout else dialer in
      check (call (NewClientset (KubeConfig p))) Err ;;
      check (call (RoundTripperFor (KubeConfig p))) Err ;;
      mret (Ok dialer)).

Section Dial.
Context `{!ApiErrors}.
Implicit Types (d : Dialer) (c : Conn) (t : trace).

(** [kerrors.NewAggregate] of errors that may be nil. *)
Definition aggregate (es : list (option error)) : option error := NewAggregate (omap id es).

Definition Read (n : nat) c : prog (string * option error) := trigger (StreamRead (stream c) n).
Definition Write (b : string) c : prog (Z * option error) := trigger (StreamWrite (stream c) b).

Definition Close c : prog (option error) :=
  func (
    err ← call (CloseStream (stream c));
    err' ← call (CloseConnection (connection c));
    mret (aggregate [err; err'])).

(** The headers of the error stream and of the data stream. *)
Definition headers d (type : string) : strmap :=
  <[StreamType := type]> (<[PortForwardRequestIDHeader := "0"]> {[PortHeader := pretty (Port (proxy d))]}).

(** [return nil, kerrors.NewAggregate([]error{err, connection.Close()})] *)
Definition close_and_return (connection : nat) (err : error)
    : go unit (option Conn * option error) (option Conn * option error) :=
  closeErr ← call (CloseConnection connection);
  mret (None, aggregate [Some err; closeErr]).

Definition DialContext d (addr : string) : prog (option Conn * option error) :=
  func (
    connection ← check (call (DialSpdy (KubeConfig (proxy d)) (Kind (proxy d)) (Namespace (proxy d))
                                (ResourceName (proxy d)) "portforward" PortForwardProtocolV1Name))
                   (λ e, (None, Some (wrapf "error upgrading connection" e)));
    errorStream ← call (CreateStream connection (headers d StreamTypeError));
    match errorStream with
    | Err err => close_and_return connection err
    | Ok errorStream =>
        err ← call (CloseStream errorStream);
        match err with
        | Some err => close_and_return connection err
        | None =>
            dataStream ← call (CreateStream connection (headers d StreamTypeData));
            match dataStream with
            | Err err => close_and_return connection (wrapf "error creating forwarding stream" err)
            | Ok dataStream => mret (Some (NewConn connection dataStream), None)
            end
        end
    end).

Definition DialContextWithAddr d (addr : string) : prog (option Conn * option error) := DialContext d addr.
End Dial.

Section Spec.
Context `{!ApiErrors, !ApiErrorsLaws}.
Implicit Types (d : Dialer) (t : trace).

Definition dialled d (x : gores nat) : obs :=
  Obs (DialSpdy (KubeConfig (proxy d)) (Kind (proxy d)) (Namespace (proxy d)) (ResourceName (proxy d))
         "portforward" PortForwardProtocolV1Name) x.

Definition is_close (c : nat) (o : obs) : Prop :=
  match o with Obs (CloseConnection c') _ => c' = c | _ => False end.

(** Both streams of a connection carry the port of the proxy. *)
Definition opened d c (s : Stream) t : Prop :=
  ∃ e, t = [Obs (CreateStream c (headers d StreamTypeError)) (Ok e); Obs (CloseStream e) None;
            Obs (CreateStream c (headers d StreamTypeData)) (Ok s)].

Lemma aggregate_some e o : is_Some (aggregate [Some e; o]).
Proof. unfold aggregate. destruct o; apply NewAggregate_cons. Qed.

(** What happens on an open connection: it is used, or it is closed at the end. *)
Definition used_or_closed d c t (r : option Conn * option error) : Prop :=
  (∃ s, r = (Some (NewConn c s), None) ∧ opened d c s t) ∨
  (∃ e pre x, r = (None, Some e) ∧ t = pre ++ [Obs (CloseConnection c) x] ∧ Forall (λ o, ¬ is_close c o) pre).

Definition dial_post d t (r : option Conn * option error) : Prop :=
  (∃ e, t = [dialled d (Err e)] ∧ r = (None, Some (wrapf "error upgrading connection" e))) ∨
  ∃ c t', t = dialled d (Ok c) :: t' ∧ used_or_closed d c t' r.

Lemma close_wp d pre c e :
  Forall (λ o, ¬ is_close c o) pre →
  gwp (close_and_return c e) tt (dialled d (Ok c) :: pre)
    (λ t _ r, dial_post d t r) (λ t _ r, dial_post d t r).
Proof.
  intros Hpre. unfold close_and_return. wp_run. apply gwp_call; [done|]. intros x t2 _ ->. wp_run.
  right. exists c, (pre ++ [Obs (CloseConnection c) x]). split; [done|]. right.
  destruct (aggregate_some e x) as [e' He]. rewrite He. by exists e', pre, x.
Qed.

#[local] Ltac not_closed := repeat first [apply Forall_nil_2|apply Forall_cons_2]; simpl; auto.

(** C36: no connection leaks.  Dialling either fails before there is a
    connection, or answers a connection that has a data stream and whose error
    stream is closed, or it fails and the last thing that it has done is to close
    the connection, once. *)
Theorem DialContext_spec d addr :
  wp (DialContext d addr) ([] : trace) (dial_post d).
Proof.
  unfold DialContext. wp_run. apply gwp_call; [done|]. intros [c|e] t1 _ ->; wp_run; [|left; by exists e].
  apply gwp_call; [done|]. intros [s|e] t1 _ ->; wp_run; [|apply (close_wp _ [_]); by not_closed].
  apply gwp_call; [done|]. intros [e|] t1 _ ->; wp_run; [apply (close_wp _ [_; _]); by not_closed|].
  apply gwp_call; [done|]. intros [s'|e] t1 _ ->; wp_run; [|apply (close_wp _ [_; _; _]); by not_closed].
  right. eexists _, _. split; [done|]. left. exists s'. split; [done|]. by exists s.
Qed.
End Spec.
End Proxy.

Module ProxyExamples.
Import Proxy.

Definition dialer : Dialer := mkDialer (mkProxy "pods" "kube-system" "k8sd-proxy-1" (mkKey "ns" "c") None 2380) 10.

(** An API server that upgrades the connection but refuses data streams. *)
Definition refusing : handler (list string) := λ X e log,
  match e in sysE X return option (X * list string) with
  | DialSpdy _ _ _ _ _ _ => Some (Ok 7, log ++ ["dial"])
  | CreateStream c h =>
      if bool_decide (h !! StreamType = Some StreamTypeData) then Some (Err (ErrNew "refused"), log)
      else Some (Ok (mkStream c 1 h), log ++ ["stream"])
  | CloseStream s => Some (None, log ++ ["close stream"])
  | CloseConnection _ => Some (None, log ++ ["close connection"])
  | _ => None
  end.

Example refused_is_closed :
  match run refusing (DialContext dialer "") [] with
  | Some ((conn, err), log) => (conn, error_text <$> err, log)
  | None => (None, None, [])
  end = (None, Some "error creating forwarding stream: refused", ["dial"; "stream"; "close stream"; "close connection"]).
Proof. vm_compute. reflexivity. Qed.

Example address : addr_String (LocalAddr (NewConn 7 (mkStream 7 3 {["port" := "2380"]}))) =
  "proxy://3.portforward.k8s.io.local:2380".
Proof. vm_compute. reflexivity. Qed.

Lemma DialContext_spec_witness : wp (DialContext dialer "") ([] : trace) (dial_post dialer).
Proof. apply DialContext_spec. Defined.
End ProxyExamples.
