(* ===== verification/Token.v ===== *)
(** src/pkg/token/{token,refresh}.go: the secret of a cluster that holds its auth
    token and the node tokens of its machines. *)

From S2P Require Import Prelude Objects ApiTypes Effects Libs RefLibs ApiServer RefServer.

Module Token.
Definition secretName (clusterName : string) : string := clusterName +:+ "-token".
Definition machineNodeTokenKey (machineName : string) : string := "node-token-" +:+ machineName.
Definition secret_key (clusterKey : ObjectKey) : ObjectKey :=
  mkKey (key_ns clusterKey) (secretName (key_name clusterKey)).

(** [hex.EncodeToString] *)
Definition hexdigit (n : nat) : ascii := ascii_of_nat (if n <? 10 then 48 + n else 87 + n).
Fixpoint EncodeToString (l : list ascii) : string :=
  match l with
  | [] => EmptyString
  | c :: l => let n := nat_of_ascii c in
              String (hexdigit (n / 16)) (String (hexdigit (n mod 16)) (EncodeToString l))
  end.

(** [s.Data[k]] with the comma-ok result *)
Definition data (s : Secret) (k : string) : option string := s_Data s ≫= (!!) k.

Definition randomB64 (size : nat) : prog (gores string) :=
  func (
    b ← check (call (RandRead size)) Err;
    mret (Ok (EncodeToString b))).

Definition getSecret (clusterKey : ObjectKey) : prog (gores Secret) :=
  func (
    s ← check (call (Get KSecret (secret_key clusterKey))) Err;
    mret (Ok s)).

(** The answer is a non-nil pointer, or an error. *)
Definition Lookup (clusterKey : ObjectKey) : prog (gores string) :=
  func (
    s ← check (callp (getSecret clusterKey)) (λ e, Err (flatf "failed to lookup token" e));
    match data s "value" with
    | Some val => mret (Ok val)
    | None => mret (Err (ErrNew "found token secret without value"))
    end).

Definition LookupNodeToken (clusterKey : ObjectKey) (machineName : string) : prog (gores string) :=
  func (
    s ← check (callp (getSecret clusterKey)) (λ e, Err (flatf "failed to get token secret" e));
    match data s (machineNodeTokenKey machineName) with
    | Some val => mret (Ok val)
    | None => mret (Err (ErrNew ("node-token for machine " +:+ quote machineName +:+ " not found")))
    end).

(** An owner: its metadata and its GroupVersionKind. *)
Record Owner := mkOwner { ow_meta : ObjectMeta; ow_APIVersion : string; ow_Kind : string }.

Section Operations.
Context `{!ApiErrors, !MetaLib}.

(** [func generateAndStore]; the error of [SetControllerReference] is dropped. *)
Definition generateAndStore (clusterKey : ObjectKey) (owner : Owner) : prog (gores string) :=
  func (
    tokn ← check (callp (randomB64 16)) (λ e, Err (flatf "failed to generate token" e));
    let meta := mkMeta (secretName (key_name clusterKey)) (key_ns clusterKey) ""
                  {[Clusterv1.ClusterNameLabel := key_name clusterKey]} None [] [] 0 None in
    let meta := default meta (SetControllerReference (ow_meta owner) meta) in
    let secret := mkSecret meta (Some {["value" := tokn]}) Clusterv1.ClusterSecretType in
    check (call (Create KSecret secret)) (λ e, Err (flatf "failed to store token" e)) ;;
    mret (Ok tokn)).

(** The loop of [upsertControllerRef]: the updated references and whether a
    controlling one was replaced. *)
Fixpoint replace_controller (new : OwnerReference) (refs : list OwnerReference)
    : list OwnerReference * bool :=
  match refs with
  | [] => ([], false)
  | r :: refs =>
      let '(l, updated) := replace_controller new refs in
      if bool_decide (or_Controller r = Some true) then (new :: l, true) else (r :: l, updated)
  end.

Definition upsertControllerRef (controller : Owner) (controllee : ObjectMeta) : ObjectMeta :=
  let new := NewControllerRef (ow_meta controller) (ow_APIVersion controller) (ow_Kind controller) in
  let '(refs, updated) := replace_controller new (om_OwnerReferences controllee) in
  set_OwnerReferences (if updated then refs else refs ++ [new]) controllee.

(** [func Reconcile]: [s] stays nil when [getSecret] fails, and only a missing
    secret is handled. *)
Definition Reconcile (clusterKey : ObjectKey) (owner : Owner) : prog (option error) :=
  func (
    r ← callp (getSecret clusterKey);
    s ← match r with
        | Ok s => mret (Some s)
        | Err e =>
            if IsNotFound e then
              check (callp (generateAndStore clusterKey owner)) Some ;; return_ None
            else mret None
        end;
    s ← deref s;
    when (negb (IsControlledBy (s_meta s) (ow_meta owner))) (
      let s := mkSecret (upsertControllerRef owner (s_meta s)) (s_Data s) (s_Type s) in
      check (call (Update KSecret s)) (λ e, Some (flatf "failed to update ownership of token" e)) ;;
      mret tt) ;;
    mret None).

(** [func EnsureNodeToken]; writing to a nil map panics. *)
Definition EnsureNodeToken (clusterKey : ObjectKey) (machineName : string) : prog (gores string) :=
  func (
    r ← callp (LookupNodeToken clusterKey machineName);
    match r with
    | Ok token => return_ (Ok token)
    | Err _ => mret tt
    end ;;
    token ← check (callp (randomB64 16)) (λ e, Err (flatf "failed to generate node token" e));
    secret ← check (callp (getSecret clusterKey)) (λ e, Err (flatf "failed to lookup token secret" e));
    d ← match s_Data secret with
        | Some d => mret d
        | None => panic "assignment to entry in nil map"
        end;
    let newSecret := mkSecret (s_meta secret)
                       (Some (<[machineNodeTokenKey machineName := token]> d)) (s_Type secret) in
    check (call (MergePatch KSecret secret newSecret))
      (λ e, Err (flatf "failed to patch token secret" e)) ;;
    mret (Ok token)).
End Operations.

(** ** Ownership *)

Section Ownership.
Context `{!MetaLib, !MetaLaws}.

Definition controlling (r : OwnerReference) : bool := bool_decide (or_Controller r = Some true).

Lemma replace_controller_spec new refs :
  controlling new = true →
  (replace_controller new refs).2 = existsb controlling refs ∧
  List.filter (negb ∘ controlling) (replace_controller new refs).1 =
    List.filter (negb ∘ controlling) refs ∧
  find controlling (replace_controller new refs).1 =
    (if existsb controlling refs then Some new else None) ∧
  length (replace_controller new refs).1 = length refs.
Proof.
  intros Hn. induction refs as [|r refs (IH1 & IH2 & IH3 & IH4)]; [done|]. simpl.
  destruct (replace_controller new refs) as [l u]. simpl in *.
  change (bool_decide (or_Controller r = Some true)) with (controlling r).
  destruct (controlling r) eqn:Hr; simpl; rewrite ?Hn, ?Hr; simpl; rewrite ?IH2, ?IH3, ?IH4; done.
Qed.

Lemma owners_set o m : om_OwnerReferences (set_OwnerReferences o m) = o.
Proof. by destruct m. Qed.

Lemma filter_app_nil {A} (f : A → bool) (l l' : list A) :
  List.filter f (l ++ l') = List.filter f l ++ List.filter f l'.
Proof. apply List.filter_app. Qed.

Lemma find_app_none {A} (f : A → bool) (l l' : list A) :
  find f l = None → find f (l ++ l') = find f l'.
Proof. induction l as [|x l IH]; simpl; [done|]. destruct (f x); [done|auto]. Qed.

Lemma upsert_controlled owner m :
  IsControlledBy (upsertControllerRef owner m) (ow_meta owner) = true.
Proof.
  apply IsControlledBy_spec. unfold upsertControllerRef.
  set (new := NewControllerRef _ _ _).
  assert (controlling new = true) as Hn
    by (unfold controlling; rewrite bool_decide_true; [done|apply NewControllerRef_controller]).
  destruct (replace_controller_spec new (om_OwnerReferences m) Hn) as (H1 & _ & H3 & _).
  destruct (replace_controller new (om_OwnerReferences m)) as [l u]. simpl in *. subst u.
  exists new. rewrite owners_set. split; [|apply NewControllerRef_UID].
  change (λ r, bool_decide (or_Controller r = Some true)) with controlling.
  destruct (existsb controlling (om_OwnerReferences m)); [done|].
  rewrite find_app_none by done. simpl. by rewrite Hn.
Qed.

(** Taking over the token secret: afterwards it is controlled by the
    given owner, its non-controlling owner references are kept in order,
    and nothing else of its metadata changes. *)
Theorem upsertControllerRef_spec owner m :
  let m' := upsertControllerRef owner m in
  IsControlledBy m' (ow_meta owner) = true ∧
  List.filter (negb ∘ controlling) (om_OwnerReferences m') =
    List.filter (negb ∘ controlling) (om_OwnerReferences m) ∧
  set_OwnerReferences (om_OwnerReferences m) m' = m.
Proof.
  cbv zeta. split; [apply upsert_controlled|]. unfold upsertControllerRef.
  set (new := NewControllerRef _ _ _).
  assert (controlling new = true) as Hn
    by (unfold controlling; rewrite bool_decide_true; [done|apply NewControllerRef_controller]).
  destruct (replace_controller_spec new (om_OwnerReferences m) Hn) as (_ & H2 & _ & _).
  destruct (replace_controller new (om_OwnerReferences m)) as [l u]. simpl in *.
  split; [|by destruct m]. rewrite owners_set. destruct u; [done|].
  rewrite filter_app_nil, H2. simpl. rewrite Hn. simpl. by rewrite List.app_nil_r.
Qed.
End Ownership.

(** ** The tokens on the server *)

Section Server.
Context {W : Type} `{!ApiErrors, !MetaLib, !MetaLaws, !Env W, !ApiServer W}.
Implicit Types (w : W) (ck : ObjectKey).

(** The stored token secret, and an entry of it. *)
Definition token_data w ck (k : string) : option string :=
  view KSecret w (secret_key ck) ≫= λ s, data s k.

Lemma getSecret_wp ck w (Q : W → gores Secret → Prop) :
  (∀ w' s, (∀ k key, view k w' key = view k w key) →
           view KSecret w (secret_key ck) = Some s → Q w' (Ok s)) →
  (∀ w' e, (∀ k key, view k w' key = view k w key) →
           (IsNotFound e = true → view KSecret w (secret_key ck) = None) → Q w' (Err e)) →
  wp (getSecret ck) w Q.
Proof.
  intros HO HE. unfold getSecret. repeat wp_step. apply gwp_call; [by apply api_pre|].
  intros r w' _ [Hv Hr]%(api_get KSecret). destruct r as [s|e]; repeat wp_step; auto.
Qed.

Lemma LookupNodeToken_wp ck m w :
  wp (LookupNodeToken ck m) w (λ w' r,
    (∀ k key, view k w' key = view k w key) ∧
    ∀ t, r = Ok t → token_data w ck (machineNodeTokenKey m) = Some t).
Proof.
  unfold LookupNodeToken. repeat wp_step. apply getSecret_wp; [|done].
  intros w' s Hv Hs. repeat wp_step. unfold token_data. rewrite Hs. simpl.
  destruct (data s (machineNodeTokenKey m)); repeat wp_step; by split; [|intros; simplify_eq].
Qed.

(** Reading the token secret fails only when there is none. *)
Definition readable w ck : Prop :=
  ∀ e w', env_step (Get KSecret (secret_key ck)) (Err e) w w' → IsNotFound e = true.

(** A stored token that can be read is answered. *)
Lemma LookupNodeToken_stored ck m w :
  wp (LookupNodeToken ck m) w (λ _ r,
    ∀ t, token_data w ck (machineNodeTokenKey m) = Some t → readable w ck → r = Ok t).
Proof.
  unfold LookupNodeToken, getSecret. repeat wp_step. apply gwp_call; [by apply api_pre|]. unfold token_data.
  intros [s|e] w' _ Hg; pose proof (api_get KSecret _ _ _ _ Hg) as [_ Hv]; repeat wp_step.
  - rewrite Hv. simpl. destruct (data s (machineNodeTokenKey m)); repeat wp_step; by intros t [= ->] _.
  - intros t Ht Hr. by rewrite (Hv (Hr _ _ Hg)) in Ht.
Qed.

Lemma randomB64_wp n w (Q : W → gores string → Prop) :
  (∀ w' r, (∀ k key, view k w' key = view k w key) → Q w' r) → wp (randomB64 n) w Q.
Proof.
  intros HQ. unfold randomB64. repeat wp_step. apply gwp_call; [by apply api_pre|].
  intros r w' _ Hs. pose proof (api_quiet _ _ _ _ Hs I) as Hv.
  destruct r as [b|e]; repeat wp_step; auto.
Qed.

Lemma secret_key_eq ck s w : view KSecret w (secret_key ck) = Some s → key_of (s_meta s) = secret_key ck.
Proof. apply view_key. Qed.

(** The entries once a token has been stored. *)
Lemma token_written w ck k token s d s' w4 key :
  view KSecret w (secret_key ck) = Some s → s_Data s = Some d →
  stored_as KSecret (mkSecret (s_meta s) (Some (<[k:=token]> d)) (s_Type s)) s' →
  view KSecret w4 (secret_key ck) = Some s' →
  token_data w4 ck key = if decide (key = k) then Some token else token_data w ck key.
Proof.
  intros Hs Hd (_ & Hd' & _) Hs'. unfold token_data, data. rewrite Hs', Hs. simpl.
  rewrite <- Hd', Hd. simpl. case_decide as Hk'; [subst; by rewrite lookup_insert_eq|].
  by rewrite lookup_insert_ne.
Qed.

(** C21: [EnsureNodeToken] gives a machine one stable token: whatever it returns
    is stored under the machine's key; a token that is stored and can be read is
    returned, and then nothing is written; and no other entry of the secret (the
    auth token, the other machines' tokens) changes.  The secret has to have data,
    as [Reconcile] creates it: on a secret without data the write panics.  (A stored
    token that can not be read is replaced: see [EnsureNodeToken_replaces].) *)
Theorem EnsureNodeToken_spec ck m w :
  (∀ s, view KSecret w (secret_key ck) = Some s → is_Some (s_Data s)) →
  wp (EnsureNodeToken ck m) w (λ w' r,
    (∀ t, r = Ok t → token_data w' ck (machineNodeTokenKey m) = Some t) ∧
    (∀ t, token_data w ck (machineNodeTokenKey m) = Some t → readable w ck → r = Ok t ∧ same_view w w') ∧
    (∀ k, k ≠ machineNodeTokenKey m → token_data w' ck k = token_data w ck k)).
Proof.
  intros Hdata. unfold EnsureNodeToken. repeat wp_step.
  eapply wp_mono; [apply wp_and; [apply LookupNodeToken_wp|apply LookupNodeToken_stored]|].
  intros w1 r [[Hv1 Hr] Hst]. repeat wp_step.
  assert (∀ w2, (∀ k key, view k w2 key = view k w key) →
    ∀ k, token_data w2 ck k = token_data w ck k) as Hsame
    by (intros w2 Hv k; unfold token_data; by rewrite Hv).
  destruct r as [t|e]; repeat wp_step.
  { split; [|split]; intros; rewrite ?Hsame by done; [|split; [by apply Hst|exact Hv1]|done]. simplify_eq. by apply Hr. }
  assert (∀ w' (r : gores string) t, token_data w ck (machineNodeTokenKey m) = Some t → readable w ck →
    r = Ok t ∧ same_view w w') as Hne
    by (intros w' r t Ht Hrd; by specialize (Hst t Ht Hrd)).
  apply randomB64_wp. intros w2 r Hv2. assert (∀ k key, view k w2 key = view k w key) as Hw2
    by (intros; by rewrite Hv2, Hv1).
  destruct r as [token|e']; repeat wp_step; [|split; [done|split; [apply Hne|by intros; apply Hsame]]].
  apply getSecret_wp; [|intros w3 e' Hv3 _; split; [done|split; [apply Hne|intros; apply Hsame; intros; by rewrite Hv3]]].
  intros w3 s Hv3 Hs. repeat wp_step. rewrite Hw2 in Hs. destruct (Hdata _ Hs) as [d Hd].
  rewrite Hd. repeat wp_step. cbv zeta. repeat wp_step.
  apply gwp_call; [by apply api_pre|]. intros r w4 _ [_ Hp]%(api_merge_patch KSecret).
  assert (obj_key KSecret (mkSecret (s_meta s) (Some (<[machineNodeTokenKey m:=token]> d)) (s_Type s))
          = secret_key ck) as Hk by exact (secret_key_eq _ _ _ Hs).
  rewrite Hk in Hp.
  assert (view KSecret w3 (secret_key ck) = Some s) as Hs3 by (by rewrite Hv3, Hw2).
  destruct r as [s'|e']; repeat wp_step.
  - destruct Hp as (_ & Hs' & Hst'). split; [|split; [apply Hne|]].
    + intros t [= <-]. by rewrite (token_written w ck (machineNodeTokenKey m) token s d s'), decide_True.
    + intros k Hk'. by rewrite (token_written w ck (machineNodeTokenKey m) token s d s'), decide_False.
  - split; [done|]. split; [apply Hne|]. intros k Hk'. destruct Hp as [Hp|(s' & Hs' & Hst')].
    + unfold token_data. by rewrite Hp, Hs3, Hs.
    + by rewrite (token_written w ck (machineNodeTokenKey m) token s d s'), decide_False.
Qed.

(** C22: a successful [Reconcile] leaves a token secret that holds the value
    it had before, if there was one: the auth token of a cluster never
    changes.  A secret that existed is controlled by the owner afterwards.
    (A failed read other than "not found" is excluded by the hypothesis:
    see [Reconcile_panics].) *)
Theorem Reconcile_spec ck owner w :
  (∀ e w', env_step (Get KSecret (secret_key ck)) (Err e) w w' → IsNotFound e = true) →
  wp (Reconcile ck owner) w (λ w' r,
    r = None →
    ∃ s', view KSecret w' (secret_key ck) = Some s' ∧
      match view KSecret w (secret_key ck) with
      | Some s => s_Data s' = s_Data s ∧ IsControlledBy (s_meta s') (ow_meta owner) = true
      | None => ∃ t, s_Data s' = Some {["value" := t]}
      end).
Proof.
  intros Hnf. unfold Reconcile. repeat wp_step. unfold getSecret. repeat wp_step.
  apply gwp_call; [by apply api_pre|]. intros r w1 _ Hg.
  pose proof (api_get KSecret _ _ _ _ Hg) as [Hv Hr].
  destruct r as [s|e]; repeat wp_step.
  - rewrite Hr. apply gwp_deref; [|done]. intros s0 [= <-]. cbn.
    repeat wp_step.
    + cbv zeta. repeat wp_step. apply gwp_call; [by apply api_pre|].
      intros r w2 _ [_ Hu]%(api_update KSecret).
      assert (obj_key KSecret (mkSecret (upsertControllerRef owner (s_meta s)) (s_Data s) (s_Type s))
              = secret_key ck) as Hk.
      { rewrite <- (secret_key_eq _ _ _ Hr). unfold obj_key, upsertControllerRef. simpl.
        destruct (replace_controller _ _). by destruct (s_meta s). }
      rewrite Hk in Hu. destruct r as [s'|e]; repeat wp_step; [|done].
      destruct Hu as (_ & Hs' & (Hm & Hd & _)). intros _. exists s'. split; [done|].
      split; [by rewrite <- Hd|].
      simpl in Hm. apply IsControlledBy_spec.
      assert (om_OwnerReferences (s_meta s') =
              om_OwnerReferences (upsertControllerRef owner (s_meta s))) as Ho.
      { apply (f_equal om_OwnerReferences) in Hm. unfold erase in Hm.
        by destruct (s_meta s'), (upsertControllerRef owner (s_meta s)). }
      rewrite Ho. apply IsControlledBy_spec, upsert_controlled.
    + intros _. exists s. rewrite Hv. split; [done|]. split; [done|].
      match goal with H : negb _ = false |- _ => by apply negb_false_iff in H end.
  - rewrite (Hnf _ _ Hg). repeat wp_step. rewrite (Hr (Hnf _ _ Hg)).
    unfold generateAndStore. repeat wp_step. apply randomB64_wp. intros w2 r Hv2.
    destruct r as [t|e']; repeat wp_step; [|done]. cbv zeta. repeat wp_step.
    apply gwp_call; [by apply api_pre|]. intros r w3 _ Hc%(api_create KSecret).
    destruct r as [s'|e']; repeat wp_step; [|done].
    destruct Hc as (_ & _ & Hs' & (_ & Hd & _)). intros _. exists s'. split; [|by exists t].
    unfold obj_key in Hs'. cbn [meta_of s_meta] in Hs'.
    destruct (SetControllerReference _ _) as [m'|] eqn:Hm; [|done].
    apply SetControllerReference_spec in Hm as [Hm _]. cbn [default from_option id] in Hs'.
    by rewrite Hm in Hs'.
Qed.
End Server.

(** [Reconcile] does not return the error of a failed read that is not
    "not found": it goes on with the nil secret, and its next step is a nil
    pointer panic, whatever the error and the owner. *)
Theorem Reconcile_panics `{!ApiErrors, !MetaLib} ck owner e :
  IsNotFound e = false →
  ∃ k k', Reconcile ck owner = Vis (Get KSecret (secret_key ck)) k ∧
          k (Err e) = Vis (Panic "nil pointer dereference") k'.
Proof.
  intros He. unfold Reconcile. eexists _, _. split; [reflexivity|]. simpl. rewrite He.
  reflexivity.
Qed.

(** [EnsureNodeToken] takes any error of its first read for a missing token: when the
    read fails for a moment, the token that the machine has is overwritten by a new
    one. *)
Theorem EnsureNodeToken_replaces `{!ApiErrors} ck m e b s d :
  s_Data s = Some d →
  ∃ k1 k2 k3 k4, EnsureNodeToken ck m = Vis (Get KSecret (secret_key ck)) k1 ∧
    k1 (Err e) = Vis (RandRead 16) k2 ∧ k2 (Ok b) = Vis (Get KSecret (secret_key ck)) k3 ∧
    k3 (Ok s) = Vis (MergePatch KSecret s
      (mkSecret (s_meta s) (Some (<[machineNodeTokenKey m := EncodeToString b]> d)) (s_Type s))) k4.
Proof.
  intros Hd. eexists _, _, _, _. split; [reflexivity|]. split; [reflexivity|]. split; [reflexivity|].
  simpl. rewrite Hd. reflexivity.
Qed.

Lemma Reconcile_panics_witness :
  ∃ k k', Reconcile (mkKey "ns" "c") (mkOwner (meta_named "cp") "v1" "CK8sControlPlane") =
            Vis (Get KSecret (mkKey "ns" "c-token")) k ∧
          k (Err (ErrStatus (OtherReason "Timeout") "timeout")) =
            Vis (Panic "nil pointer dereference") k'.
Proof.
  apply (Reconcile_panics (mkKey "ns" "c") (mkOwner (meta_named "cp") "v1" "CK8sControlPlane")).
  reflexivity.
Defined.

Module Examples.
Definition ck : ObjectKey := mkKey "ns" "c".
Definition owner : Owner := mkOwner (meta_named "cp") "v1" "CK8sControlPlane".
(** The random source answers zeros. *)
Definition zeros : handler Store := λ X e w,
  match e in sysE X return option (X * Store) with
  | RandRead n => Some (Ok (replicate n "000"%char), w)
  | _ => None
  end.
Definition secret : Secret :=
  mkSecret (mkMeta "c-token" "ns" "" ∅ None
              [mkOwnerRef "v1" "CK8sConfig" "old" "old" (Some true)] [] 0 None)
    (Some {["value" := "t0"; "node-token-a" := "t1"]}) "".
Definition store : Store := put KSecret secret empty_store.
End Examples.
Import Examples.
#[local] Instance the_env : Env Store := server_env zeros.

Lemma upsertControllerRef_spec_witness :
  let m' := upsertControllerRef owner (s_meta secret) in
  IsControlledBy m' (ow_meta owner) = true ∧
  List.filter (negb ∘ controlling) (om_OwnerReferences m') =
    List.filter (negb ∘ controlling) (om_OwnerReferences (s_meta secret)) ∧
  set_OwnerReferences (om_OwnerReferences (s_meta secret)) m' = s_meta secret.
Proof. apply (upsertControllerRef_spec owner (s_meta secret)). Defined.

Lemma EnsureNodeToken_spec_witness :
  run (serve zeros) (EnsureNodeToken ck "b") store ≫= (λ r, Some r.1) =
    Some (Ok "00000000000000000000000000000000") ∧
  run (serve zeros) (EnsureNodeToken ck "a") store ≫= (λ r, Some r.1) = Some (Ok "t1") ∧
  wp (EnsureNodeToken ck "a") store (λ w' r,
    (∀ t, r = Ok t → token_data w' ck "node-token-a" = Some t) ∧
    (∀ t, token_data store ck "node-token-a" = Some t → readable store ck → r = Ok t ∧ same_view store w') ∧
    (∀ k, k ≠ "node-token-a" → token_data w' ck k = token_data store ck k)).
Proof.
  split; [vm_compute; reflexivity|]. split; [vm_compute; reflexivity|]. apply (EnsureNodeToken_spec ck "a" store).
  intros s Hs. assert (s = secret) as -> by (vm_compute in Hs; by injection Hs as <-). by eexists.
Defined.

Lemma Reconcile_spec_witness :
  run (serve zeros) (Reconcile ck owner) store ≫= (λ r, Some r.1) = Some None ∧
  wp (Reconcile ck owner) store (λ w' r,
    r = None →
    ∃ s', view KSecret w' (secret_key ck) = Some s' ∧
      match view KSecret store (secret_key ck) with
      | Some s => s_Data s' = s_Data s ∧ IsControlledBy (s_meta s') (ow_meta owner) = true
      | None => ∃ t, s_Data s' = Some {["value" := t]}
      end).
Proof.
  split; [vm_compute; reflexivity|]. apply (Reconcile_spec ck owner store).
  intros e w' Hg. by apply (reliable_get (W := Store) KSecret) in Hg.
Defined.
End Token.
