(* ===== verification/Workload.v ===== *)
(** src/pkg/ck8s/workload_cluster.go (up to the agent conditions),
    workload_cluster_k8sd.go and management_cluster.go: the access to a workload
    cluster and to the k8sd endpoints of its nodes.

    The request and response types of k8sd and their JSON are those of another
    module (k8s-snap-api): [K8sdApi] is the parameter that stands for it. *)

From S2P Require Import Prelude Objects ApiTypes Effects Libs RefLibs ApiServer RefServer Proxy Token.

(** ** k8s-snap-api *)

(** The request bodies the program sends.  [ReqNone] is the empty string of the
    connection test. *)
Inductive k8sd_request :=
  | ReqNone
  | CertificatesExpiryRequest
  | ApproveWorkerCSRRequest (seed : Z)
  | CertificatesPlanRequest
  | CertificatesRunRequest (seed expirationSeconds : Z) (extraSANs : list string)
  | SnapRefreshRequest (channel revision localPath : string)
  | SnapRefreshStatusRequest (changeID : string)
  | GetJoinTokenRequest (name : string) (worker : bool)
  | RemoveNodeRequest (name : string) (force : bool).

Record SnapRefreshStatusResponse := mkRefreshStatus {
  srs_Status : string;
  srs_Completed : bool;
  srs_ErrorMessage : string;
}.

Class K8sdApi := {
  marshal_request : k8sd_request → string;
  K8sdAPIVersion : string;
  ClusterAPICertificatesExpiryRPC : string;
  ClusterAPIApproveWorkerCSRRPC : string;
  ClusterAPICertificatesPlanRPC : string;
  ClusterAPICertificatesRunRPC : string;
  SnapRefreshRPC : string;
  SnapRefreshStatusRPC : string;
  ClusterAPIGetJoinTokenRPC : string;
  ClusterAPIRemoveNodeRPC : string;
  (* the field of the response that the program reads; a response without
     metadata leaves the zero value *)
  unmarshal_ExpiryDate : string → gores string;
  unmarshal_Unit : string → gores unit;
  unmarshal_Seed : string → gores Z;
  unmarshal_ExpirationSeconds : string → gores Z;
  unmarshal_ChangeID : string → gores string;
  unmarshal_RefreshStatus : string → gores SnapRefreshStatusResponse;
  unmarshal_EncodedToken : string → gores string;
  (* [http.NewRequestWithContext] of a method and URL *)
  NewRequest : string → string → gores unit;
}.

(** A client of one node: its address and the proxy pod it goes through. *)
Record K8sdClient := mkK8sdClient { NodeIP : string; kc_Pod : string }.

(** [type Workload struct]: the cluster its clients were built for. *)
Record Workload := mkWorkload {
  authToken : string;
  wk_Cluster : ObjectKey;
  microclusterPort : Z;
}.

(** [type ClusterStatus struct] *)
Record ClusterStatus := mkClusterStatus {
  cs_Nodes : Z;
  cs_ReadyNodes : Z;
  HasK8sdConfigMap : bool;
}.

Definition labelNodeRoleControlPlane : string := "node-role.kubernetes.io/control-plane".
Definition k8sdConfigSecretName : string := "k8sd-config".
Definition NamespaceSystem : string := "kube-system".

Definition hasProvisioningMachine (machines : Machines) : bool :=
  existsb (λ m, match m_NodeRef m with None => true | Some _ => false end) (map_to_list machines).*2.

Definition nodeHasUnreachableTaint (node : Node) : bool :=
  existsb (λ t, bool_decide (taint_Key t = "node.kubernetes.io/unreachable") &&
                bool_decide (taint_Effect t = "NoExecute")) (n_Taints node).

Fixpoint first_internal (l : list NodeAddress) : option string :=
  match l with
  | [] => None
  | a :: l => if bool_decide (addr_Type a = "InternalIP") then Some (addr_Address a)
              else first_internal l
  end.

Definition getNodeInternalIP (node : Node) : gores string :=
  match first_internal (n_Addresses node) with
  | Some ip => Ok ip
  | None => Err (ErrNew ("unable to find internal IP for node " +:+ n_Name node))
  end.

Section Workload.
Context `{!ApiErrors, !MetaLib, !K8sdApi}.
Implicit Types (w : Workload) (machine : Machine).

(** [func (w *Workload) getControlPlaneNodes] *)
Definition getControlPlaneNodes w : prog (gores (list Node)) :=
  func (
    nodes ← check (call (WList (wk_Cluster w) KNode {[labelNodeRoleControlPlane := ""]})) Err;
    mret (Ok nodes)).

(** [func (w *Workload) ClusterStatus]; the counters are [int32]s. *)
Definition ClusterStatus_ w : prog (gores ClusterStatus) :=
  func (
    nodes ← check (callp (getControlPlaneNodes w)) Err;
    let n := wrap32 (Z.of_nat (length nodes)) in
    let ready := wrap32 (Z.of_nat (length (List.filter IsNodeReady nodes))) in
    r ← call (WGet (wk_Cluster w) KConfigMap (mkKey NamespaceSystem k8sdConfigSecretName));
    mret (Ok (mkClusterStatus n ready (is_ok r)))).

(** ** workload_cluster_k8sd.go *)

(** The loop that indexes the pods by node: the last pod of a node stays. *)
Definition podmap_of (pods : list Pod) : gmap string Pod :=
  foldl (λ m p, <[p_NodeName p := p]> m) ∅ pods.

Definition getProxyPods w : prog (gores (gmap string Pod)) :=
  func (
    pods ← check (call (WListPods (wk_Cluster w) "kube-system" "app=k8sd-proxy"))
             (λ e, Err (wrapf "unable to list k8sd-proxy pods in target cluster" e));
    if bool_decide (length pods = 0)
    then mret (Err (ErrNew "there isn't any k8sd-proxy pods in target cluster"))
    else mret (Ok (podmap_of pods))).

(** [func (g *k8sdClientGenerator) NewHTTPClient]: the exchanges of the client go
    through the dialer ([HttpDo]). *)
Definition NewHTTPClient w (podName : string) : prog (gores unit) :=
  func (
    let p := Proxy.mkProxy "pods" NamespaceSystem podName (wk_Cluster w) None 2380 in
    check (callp (Proxy.NewDialer p [])) (λ e, Err (wrapf "failed to create proxy dialer" e)) ;;
    mret (Ok tt)).

Definition forNodePod w (node : Node) (podname : string) : prog (gores K8sdClient) :=
  func (
    match getNodeInternalIP node with
    | Err e => return_ (Err (wrapf ("failed to get internal IP for node " +:+ n_Name node) e))
    | Ok ip =>
        check (callp (NewHTTPClient w podname)) Err ;;
        mret (Ok (mkK8sdClient ip podname))
    end).

Definition forNode w (node : Node) : prog (gores K8sdClient) :=
  func (
    podmap ← check (callp (getProxyPods w)) (λ e, Err (wrapf "failed to get proxy pods" e));
    match podmap !! n_Name node with
    | None => return_ (Err (ErrNew ("missing k8sd proxy pod for node " +:+ n_Name node)))
    | Some pod => callp (forNodePod w node (p_Name pod))
    end).

(** ** Requests *)

Definition newHeaderWithCAPIAuthToken w : string * string := ("capi-auth-token", authToken w).
Definition newHeaderWithNodeToken (nodeToken : string) : string * string := ("node-token", nodeToken).

(** [func (w *Workload) doK8sdRequest]; [response] decodes the metadata, [None]
    for a nil response, and [zero] is the response as passed in. *)
Definition doK8sdRequest {A} w (c : K8sdClient) (method endpoint : string)
    (header : string * string) (request : k8sd_request)
    (zero : A) (response : option (string → gores A)) : prog (gores A) :=
  func (
    let url := "https://" +:+ NodeIP c +:+ ":" +:+ pretty (microclusterPort w) +:+ "/" +:+ endpoint in
    let requestBody := marshal_request request in
    match NewRequest method url with
    | Err e => return_ (Err (wrapf "failed to create request" e))
    | Ok _ => mret tt
    end ;;
    res ← check (call (HttpDo (kc_Pod c) (mkHttpRequest method url header requestBody)))
            (λ e, Err (wrapf "failed to reach k8sd through proxy client" e));
    match rs_Body res with
    | Err e => return_ (Err (wrapf "failed to parse HTTP response" e))
    | Ok (error, metadata) =>
        if negb (rs_StatusCode res =? 200)%Z then
          return_ (Err (ErrNew ("HTTP request failed with status code: " +:+
                                pretty (rs_StatusCode res) +:+ " (" +:+ error +:+ ")")))
        else if negb (bool_decide (error = "")) then
          return_ (Err (ErrNew ("k8sd request failed: " +:+ error)))
        else
          match metadata, response with
          | Some md, Some decode =>
              match decode md with
              | Err e => return_ (Err (wrapf "failed to parse HTTP response" e))
              | Ok a => mret (Ok a)
              end
          | _, _ => mret (Ok zero)
          end
    end).

(** The joined errors in the final message: joining none gives nil. *)
Definition no_proxy_error (errs : list error) : error :=
  let msg := "failed to get k8sd proxy for control plane, previous errors" in
  match errs with
  | [] => ErrNew (msg +:+ ": %!w(<nil>)")
  | _ => wrapf msg (ErrAggregate errs)
  end.

(** [func (w *Workload) GetK8sdProxyForControlPlane]: the state is [allErrors]. *)
Definition GetK8sdProxyForControlPlane w (ignoreNodes : gset string) : prog (gores K8sdClient) :=
  prog_bind (func_on (S := list error) (
    nodes ← check (callp (getControlPlaneNodes w))
              (λ e, Err (wrapf "failed to get control plane nodes" e));
    podmap ← check (callp (getProxyPods w)) (λ e, Err (wrapf "failed to get proxy pods" e));
    for_each nodes (λ node,
      if bool_decide (n_Name node ∈ ignoreNodes) then mret tt
      else match podmap !! n_Name node with
      | None => modify (λ es, es ++ [ErrNew ("node " +:+ n_Name node +:+ " has no k8sd proxy pod")])
      | Some pod =>
          if negb (IsPodReady pod)
          then modify (λ es, es ++ [ErrNew ("pod '" +:+ p_Name pod +:+ "' is not Ready")])
          else
            r ← callp (forNodePod w node (p_Name pod));
            match r with
            | Err e => modify (λ es, es ++
                [wrapf ("could not create proxy client for node " +:+ n_Name node) e])
            | Ok proxy =>
                r ← callp (doK8sdRequest w proxy "GET" "" (newHeaderWithCAPIAuthToken w)
                             ReqNone tt None);
                match r with
                | Err e => modify (λ es, es ++
                    [wrapf ("error while contacting proxy on node " +:+ n_Name node) e])
                | Ok _ => return_ (Ok proxy)
                end
            end
      end) ;;
    errs ← get;
    mret (Err (no_proxy_error errs))) []) (λ r, Ret r.2).

(** [func (w *Workload) GetK8sdProxyForMachine] *)
Definition GetK8sdProxyForMachine w machine : prog (gores K8sdClient) :=
  func (
    match m_NodeRef machine with
    | None => return_ (Err (ErrNew ("machine " +:+ m_Name machine +:+ " has no node reference")))
    | Some ref =>
        node ← check (call (WGet (wk_Cluster w) KNode (mkKey "" (ref_Name ref))))
                 (λ e, Err (wrapf "failed to get node" e));
        callp (forNode w node)
    end).

Definition rpc (name : string) : string := K8sdAPIVersion +:+ "/" +:+ name.

(** The pattern of the node requests: a proxy for the machine, one POST with
    the node token. *)
Definition node_request {A} w machine (nodeToken endpoint what : string) (request : k8sd_request)
    (zero : A) (decode : string → gores A) : prog (gores A) :=
  func (
    k8sdProxy ← check (callp (GetK8sdProxyForMachine w machine))
                  (λ e, Err (wrapf "failed to create k8sd proxy" e));
    r ← check (callp (doK8sdRequest w k8sdProxy "POST" (rpc endpoint)
                 (newHeaderWithNodeToken nodeToken) request zero (Some decode)))
          (λ e, Err (wrapf what e));
    mret (Ok r)).

Definition GetCertificatesExpiryDate w machine (nodeToken : string) : prog (gores string) :=
  node_request w machine nodeToken ClusterAPICertificatesExpiryRPC
    "failed to get certificates expiry date" CertificatesExpiryRequest "" unmarshal_ExpiryDate.

(** The pattern of the cluster requests: a proxy for some control plane node,
    one POST with the auth token. *)
Definition cluster_request {A} w (ignore : gset string) (endpoint what : string)
    (request : k8sd_request) (zero : A) (decode : option (string → gores A)) : prog (gores A) :=
  func (
    k8sdProxy ← check (callp (GetK8sdProxyForControlPlane w ignore))
                  (λ e, Err (wrapf "failed to create k8sd proxy" e));
    r ← check (callp (doK8sdRequest w k8sdProxy "POST" (rpc endpoint)
                 (newHeaderWithCAPIAuthToken w) request zero decode))
          (λ e, Err (wrapf what e));
    mret (Ok r)).

Definition ApproveCertificates w machine (seed : Z) : prog (gores unit) :=
  cluster_request w ∅ ClusterAPIApproveWorkerCSRRPC "failed to approve certificates"
    (ApproveWorkerCSRRequest seed) tt (Some unmarshal_Unit).

Definition refreshCertificatesPlan w machine (nodeToken : string) : prog (gores Z) :=
  node_request w machine nodeToken ClusterAPICertificatesPlanRPC
    "failed to refresh certificates" CertificatesPlanRequest 0%Z unmarshal_Seed.

Definition refreshCertificatesRun w machine (nodeToken : string) (request : k8sd_request)
    : prog (gores Z) :=
  node_request w machine nodeToken ClusterAPICertificatesRunRPC
    "failed to run refresh certificates" request 0%Z unmarshal_ExpirationSeconds.

(** [errgroup.Group.Wait]: the error of the goroutine that failed first. *)
Definition group_error (r : gores Z * gores unit * bool) : option error :=
  match r with
  | (Ok _, Ok _, _) => None
  | (Err e, Ok _, _) => Some (wrapf "failed to run refresh certificates" e)
  | (Ok _, Err e, _) => Some (wrapf "failed to approve certificates" e)
  | (Err e, Err _, true) => Some (wrapf "failed to run refresh certificates" e)
  | (Err _, Err e, false) => Some (wrapf "failed to approve certificates" e)
  end.

(** [func (w *Workload) RefreshWorkerCertificates]: the run request, which
    blocks, and the approval are two goroutines. *)
Definition RefreshWorkerCertificates w machine (nodeToken : string) (expirationSeconds : Z)
    : prog (gores Z) :=
  func (
    seed ← check (callp (refreshCertificatesPlan w machine nodeToken))
             (λ e, Err (wrapf "failed to get refresh certificates plan" e));
    let request := CertificatesRunRequest seed expirationSeconds [] in
    r ← callp (par (refreshCertificatesRun w machine nodeToken request)
                   (ApproveCertificates w machine seed));
    match group_error r with
    | Some e => return_ (Err (wrapf "failed to refresh worker certificates" e))
    | None => mret (Ok (match r.1.1 with Ok seconds => seconds | Err _ => 0%Z end))
    end).

Definition RefreshControlPlaneCertificates w machine (nodeToken : string) (expirationSeconds : Z)
    (extraSANs : list string) : prog (gores Z) :=
  func (
    seed ← check (callp (refreshCertificatesPlan w machine nodeToken))
             (λ e, Err (wrapf "failed to get refresh certificates plan" e));
    seconds ← check (callp (refreshCertificatesRun w machine nodeToken
                       (CertificatesRunRequest seed expirationSeconds extraSANs)))
                (λ e, Err (wrapf "failed to run refresh certificates" e));
    mret (Ok seconds)).

(** The request that an upgrade option of the form [key=value] asks for. *)
Definition refresh_option (upgradeOption : string) : gores k8sd_request :=
  match GoStrings.Split upgradeOption "=" with
  | [k; v] =>
      if bool_decide (k = "channel") then Ok (SnapRefreshRequest v "" "")
      else if bool_decide (k = "revision") then Ok (SnapRefreshRequest "" v "")
      else if bool_decide (k = "localPath") then Ok (SnapRefreshRequest "" "" v)
      else Err (ErrNew ("invalid upgrade option: " +:+ k))
  | _ => Err (ErrNew ("invalid in-place upgrade release annotation: " +:+ upgradeOption))
  end.

(** [func (w *Workload) RefreshMachine] *)
Definition RefreshMachine w machine (nodeToken upgradeOption : string) : prog (gores string) :=
  func (
    match refresh_option upgradeOption with
    | Err e => return_ (Err e)
    | Ok request =>
        callp (node_request w machine nodeToken SnapRefreshRPC
                 ("failed to refresh machine " +:+ m_Name machine) request "" unmarshal_ChangeID)
    end).

Definition GetRefreshStatusForMachine w machine (nodeToken changeID : string)
    : prog (gores SnapRefreshStatusResponse) :=
  node_request w machine nodeToken SnapRefreshStatusRPC
    ("failed to refresh machine " +:+ m_Name machine) (SnapRefreshStatusRequest changeID)
    (mkRefreshStatus "" false "") unmarshal_RefreshStatus.

Definition requestJoinToken w (name : string) (worker : bool) : prog (gores string) :=
  cluster_request w ∅ ClusterAPIGetJoinTokenRPC "failed to get join token"
    (GetJoinTokenRequest name worker) "" (Some unmarshal_EncodedToken).
Definition NewControlPlaneJoinToken w (name : string) : prog (gores string) :=
  requestJoinToken w name false.
Definition NewWorkerJoinToken w : prog (gores string) := requestJoinToken w "" true.

(** [func (w *Workload) RemoveMachineFromCluster] *)
Definition RemoveMachineFromCluster w machine : prog (option error) :=
  func (
    match m_NodeRef machine with
    | None => return_ (Some (ErrNew ("machine " +:+ m_Name machine +:+ " has no node reference")))
    | Some ref =>
        let nodeName := ref_Name ref in
        check (callp (cluster_request w {[nodeName]} ClusterAPIRemoveNodeRPC
                 ("failed to remove " +:+ m_Name machine +:+ " from cluster")
                 (RemoveNodeRequest nodeName true) tt None)) Some ;;
        mret None
    end).

(** ** management_cluster.go *)

Definition GetMachinesForCluster `{!CollectionsLib} (cluster : ObjectKey)
    (filters : list (Machine → bool)) : prog (gores Machines) :=
  func (
    ml ← check (call (ListObj KMachine (key_ns cluster)
                 {[Clusterv1.ClusterNameLabel := key_name cluster]}))
           (λ e, Err (wrapf "failed to list machines" e));
    mret (Ok (mFilter (λ m, forallb (λ f, f m) filters) (FromMachineList ml)))).

Definition key_string (k : ObjectKey) : string := key_ns k +:+ "/" +:+ key_name k.

(** [func (m *Management) GetWorkloadCluster] *)
Definition GetWorkloadCluster (clusterKey : ObjectKey) (port : Z) : prog (gores Workload) :=
  func (
    check (call (RESTConfig clusterKey)) (λ e, Err (wrapf "failed to get config" e)) ;;
    check (call (NewRemoteClient clusterKey)) (λ e, Err (ErrRemote (key_string clusterKey) e)) ;;
    check (call (NewClientset clusterKey))
      (λ e, Err (ErrRemote (key_string clusterKey) (wrapf "failed to create clientset" e))) ;;
    token ← check (callp (Token.Lookup clusterKey)) (λ e, Err (wrapf "failed to lookup auth token" e));
    mret (Ok (mkWorkload token clusterKey port))).
End Workload.

(** Making a client: the port is not 0 and there are no options. *)
Ltac new_client :=
  unfold NewHTTPClient, Proxy.NewDialer; repeat wp_step;
  cbn [Proxy.Port Z.eqb Proxy.apply_options Proxy.KubeConfig]; repeat wp_step.

(** ** What the program asks of the network *)

(** The HTTP exchanges, the listed nodes and the listed pods of a trace. *)
Definition http_of (o : obs) : option (string * HttpRequest * gores HttpResponse) :=
  match o with
  | Obs e x => match e in sysE X return X → option (string * HttpRequest * gores HttpResponse) with
               | HttpDo pod r => λ x, Some (pod, r, x)
               | _ => λ _, None
               end x
  end.
Definition nodes_of (o : obs) : option (list Node) :=
  match o with
  | Obs e x => match e in sysE X return X → option (list Node) with
               | WList _ KNode _ => λ x, match x with Ok l => Some l | Err _ => None end
               | _ => λ _, None
               end x
  end.
Definition pods_of (o : obs) : option (list Pod) :=
  match o with
  | Obs e x => match e in sysE X return X → option (list Pod) with
               | WListPods _ _ _ => λ x, match x with Ok l => Some l | Err _ => None end
               | _ => λ _, None
               end x
  end.

Definition http_calls (t : trace) := omap http_of t.

Lemma elem_of_omap_grows {B} (f : obs → option B) (b : B) : grows (λ t, b ∈ omap f t).
Proof.
  intros t t' Ht. rewrite !list_elem_of_omap. intros (o & Ho & Hf). eauto.
Qed.

Section Traces.
Context `{!ApiErrors, !MetaLib, !K8sdApi}.
Implicit Types (w : Workload) (machine : Machine) (t : trace).

(** A pod that was listed as the proxy of a listed control plane node outside
    [ignore]. *)
Definition proxied t (ignore : gset string) (pod : string) : Prop :=
  ∃ nodes pods node p, nodes ∈ omap nodes_of t ∧ pods ∈ omap pods_of t ∧
    node ∈ nodes ∧ p ∈ pods ∧ p_Name p = pod ∧ p_NodeName p = n_Name node ∧
    n_Name node ∉ ignore.

Definition only_proxied (ignore : gset string) t : Prop :=
  ∀ c, c ∈ http_calls t → proxied t ignore c.1.1.

Lemma proxied_grows ignore pod : grows (λ t, proxied t ignore pod).
Proof.
  intros t t' Ht (nodes & pods & node & p & Hn & Hp & Hrest).
  exists nodes, pods, node, p. split; [|split; [|done]]; by eapply elem_of_omap_grows.
Qed.

(** A step that makes no HTTP exchange, and one that does. *)
Lemma only_proxied_quiet ignore t o :
  http_of o = None → only_proxied ignore t → only_proxied ignore (t ++ [o]).
Proof.
  intros Ho Ht c. unfold http_calls. rewrite omap_app. simpl. rewrite Ho, app_nil_r.
  intros Hc. eapply proxied_grows; [|by apply Ht]. intros. apply elem_of_app. by left.
Qed.

Lemma only_proxied_http ignore t pod (r : HttpRequest) x :
  proxied t ignore pod → only_proxied ignore t → only_proxied ignore (t ++ [Obs (HttpDo pod r) x]).
Proof.
  intros Hp Ht c. unfold http_calls. rewrite omap_app. simpl. rewrite elem_of_app.
  assert (∀ o : obs, o ∈ t → o ∈ t ++ [Obs (HttpDo pod r) x]) as Hsub
    by (intros; apply elem_of_app; by left).
  intros [Hc| ->%list_elem_of_singleton]; eapply proxied_grows; eauto.
Qed.

(** Podmap entries come from the listed pods. *)
Lemma podmap_elem (pods : list Pod) n p :
  podmap_of pods !! n = Some p → p ∈ pods ∧ p_NodeName p = n.
Proof.
  unfold podmap_of. revert n p.
  induction pods as [|q pods IH] using rev_ind; intros n p; simpl; [done|].
  rewrite foldl_app. simpl. rewrite lookup_insert_Some. intros [[<- <-]|[_ Hp]].
  - split; [set_solver|done].
  - apply IH in Hp as [? ?]. split; [set_solver|done].
Qed.

Lemma getControlPlaneNodes_wp w t (Q : trace → gores (list Node) → Prop) :
  (∀ nodes, Q (t ++ [Obs (WList (wk_Cluster w) KNode {[labelNodeRoleControlPlane := ""]}) (Ok nodes)]) (Ok nodes)) →
  (∀ e, Q (t ++ [Obs (WList (wk_Cluster w) KNode {[labelNodeRoleControlPlane := ""]}) (Err e)]) (Err e)) →
  wp (getControlPlaneNodes w) t Q.
Proof.
  intros HO HE. unfold getControlPlaneNodes. repeat wp_step. apply gwp_call; [done|].
  intros [nodes|e] t' _ ->; repeat wp_step; auto.
Qed.

(** The exchange extends the trace; its HTTP part and what it listed. *)
Lemma doK8sdRequest_wp {A} w c method endpoint header request (zero : A) response t
    (Q : trace → gores A → Prop) :
  (∀ e, Q t (Err e)) →
  (∀ rq x r, rq_Body rq = marshal_request request →
     (∀ a, r = Ok a → ∃ md, x = Ok (mkHttpResponse 200 (Ok (EmptyString, md)))) →
     Q (t ++ [Obs (HttpDo (kc_Pod c) rq) x]) r) →
  wp (doK8sdRequest w c method endpoint header request zero response) t Q.
Proof.
  intros HE HQ. unfold doK8sdRequest. cbv zeta. repeat wp_step.
  destruct (NewRequest _ _); repeat wp_step; [|apply HE].
  apply gwp_call; [done|]. intros [[code body]|e] t' _ ->; repeat wp_step;
    [|by apply HQ].
  destruct body as [[err md]|e]; cbn [rs_Body rs_StatusCode]; repeat wp_step; [|by apply HQ].
  destruct (code =? 200)%Z eqn:Hcode; cbn [negb]; repeat wp_step; [|by apply HQ].
  apply Z.eqb_eq in Hcode as ->.
  case_bool_decide; cbn [negb]; repeat wp_step; [|by apply HQ]. subst err.
  destruct md as [md|], response as [decode|]; repeat wp_step;
    [destruct (decode md); repeat wp_step|..]; apply HQ; simpl; eauto; done.
Qed.

Lemma forNodePod_wp w node pod ignore t (Q : trace → gores K8sdClient → Prop) :
  only_proxied ignore t →
  (∀ t' r, extends t t' → only_proxied ignore t' →
     (∀ c, r = Ok c → kc_Pod c = pod) → Q t' r) →
  wp (forNodePod w node pod) t Q.
Proof.
  intros Ht HQ. unfold forNodePod. repeat wp_step.
  destruct (getNodeInternalIP node); repeat wp_step; [|by apply HQ].
  new_client. apply gwp_call; [done|]. intros [u|e] t1 _ ->; repeat wp_step.
  2: { apply HQ; [|by apply only_proxied_quiet|done]. intros o Ho. set_solver. }
  apply gwp_call; [done|]. intros [u'|e] t2 _ ->; repeat wp_step; apply HQ;
    try (by repeat apply only_proxied_quiet); try (intros o Ho; set_solver); by intros c [= <-].
Qed.

(** The proxy for the control plane: only ready proxy pods of listed control
    plane nodes that are not ignored are ever contacted, and the one answered
    is one of them. *)
Lemma GetK8sdProxyForControlPlane_wp w ignore t :
  only_proxied ignore t →
  wp (GetK8sdProxyForControlPlane w ignore) t (λ t' r,
    only_proxied ignore t' ∧ extends t t' ∧
    ∀ c, r = Ok c → proxied t' ignore (kc_Pod c)).
Proof.
  intros Ht. unfold GetK8sdProxyForControlPlane. apply wp_bind. repeat wp_step.
  apply getControlPlaneNodes_wp; intros nodes; repeat wp_step.
  2: { simpl. split; [by apply only_proxied_quiet|]. split; [intros o Ho; set_solver|done]. }
  set (t1 := t ++ _). assert (only_proxied ignore t1) as Ht1 by by apply only_proxied_quiet.
  assert (nodes ∈ omap nodes_of t1) as Hn1.
  { unfold t1. rewrite omap_app. apply elem_of_app. right. by left. }
  assert (extends t t1) as He1 by (intros o Ho; unfold t1; set_solver). clearbody t1.
  unfold getProxyPods. repeat wp_step. apply gwp_call; [done|].
  intros [pods|e] t' _ ->; repeat wp_step.
  2: { simpl. split; [by apply only_proxied_quiet|]. split; [intros o Ho; set_solver|done]. }
  set (t2 := t1 ++ _). assert (only_proxied ignore t2) as Ht2 by by apply only_proxied_quiet.
  assert (pods ∈ omap pods_of t2) as Hp2.
  { unfold t2. rewrite omap_app. apply elem_of_app. right. by left. }
  assert (extends t1 t2) as He2 by (intros o Ho; unfold t2; set_solver). clearbody t2.
  assert (nodes ∈ omap nodes_of t2) as Hn2 by by eapply elem_of_omap_grows.
  case_bool_decide; repeat wp_step; [simpl; split; [done|]; split; [intros o Ho; auto|done]|].
  apply gwp_for_each_inv with (I := λ t' _, only_proxied ignore t' ∧ extends t2 t').
  - split; [done|by intros o Ho].
  - intros node t3 es Hnode [Ht3 He3]. case_bool_decide as Hig; [by wp_step|].
    destruct (podmap_of pods !! n_Name node) as [pod|] eqn:Hpod; [|by wp_step].
    apply podmap_elem in Hpod as [Hpod Hpn].
    destruct (IsPodReady pod); cbn [negb]; [|by wp_step]. repeat wp_step.
    apply (forNodePod_wp _ _ _ ignore); [done|]. intros t4 r He4 Ht4 Hr.
    destruct r as [c|e]; repeat wp_step; [|split; [done|intros o Ho; auto]].
    assert (proxied t4 ignore (kc_Pod c)) as Hc.
    { rewrite (Hr c eq_refl). exists nodes, pods, node, pod.
      split; [eapply elem_of_omap_grows; [|exact Hn2]; intros; auto|].
      split; [eapply elem_of_omap_grows; [|exact Hp2]; intros; auto|]. done. }
    apply doK8sdRequest_wp.
    + intros e. repeat wp_step. split; [done|]. intros o Ho. auto.
    + intros rq x r _ _. set (t5 := t4 ++ _).
      assert (only_proxied ignore t5) by by apply only_proxied_http.
      assert (extends t4 t5) as He5 by (intros o Ho; unfold t5; set_solver). clearbody t5.
      destruct r as [u|e]; repeat wp_step; simpl.
      * split; [done|]. split; [intros o Ho; auto 6|]. intros c' [= <-].
        by eapply proxied_grows.
      * split; [done|]. intros o Ho. auto.
  - intros t3 es [Ht3 He3]. repeat wp_step. simpl. split; [done|]. split; [|done].
    intros o Ho. auto.
Qed.

Lemma cluster_request_wp {A} w ignore endpoint what request (zero : A) decode t :
  only_proxied ignore t →
  wp (cluster_request w ignore endpoint what request zero decode) t (λ t' r,
    only_proxied ignore t' ∧
    ∀ a, r = Ok a → ∃ pod rq md,
      (pod, rq, Ok (mkHttpResponse 200 (Ok (EmptyString, md)))) ∈ http_calls t' ∧
      rq_Body rq = marshal_request request).
Proof.
  intros Ht. unfold cluster_request. repeat wp_step.
  eapply wp_mono; [by apply GetK8sdProxyForControlPlane_wp|].
  intros t1 [c|e] (Ht1 & _ & Hc); repeat wp_step; [|done].
  apply doK8sdRequest_wp; [by intros e|]. intros rq x r Hb Hr.
  assert (only_proxied ignore (t1 ++ [Obs (HttpDo (kc_Pod c) rq) x])) by (apply only_proxied_http; auto).
  destruct r as [a|e]; repeat wp_step; [|done]. split; [done|]. intros a' [= <-].
  destruct (Hr a eq_refl) as [md ->]. exists (kc_Pod c), rq, md. split; [|done].
  unfold http_calls. rewrite omap_app. apply elem_of_app. right. by left.
Qed.

(** C20: removing a machine from the cluster never goes through the node that
    is being removed: every HTTP exchange goes through a proxy pod that was
    listed for another listed control plane node. *)
Theorem RemoveMachineFromCluster_other_node w machine ref :
  m_NodeRef machine = Some ref →
  wp (RemoveMachineFromCluster w machine) [] (λ t r,
    (∀ c, c ∈ http_calls t → proxied t {[ref_Name ref]} c.1.1) ∧
    (r = None → ∃ pod rq md,
      (pod, rq, Ok (mkHttpResponse 200 (Ok (EmptyString, md)))) ∈ http_calls t ∧
      rq_Body rq = marshal_request (RemoveNodeRequest (ref_Name ref) true))).
Proof.
  intros Href. unfold RemoveMachineFromCluster. repeat wp_step. rewrite Href. cbv zeta.
  repeat wp_step. eapply wp_mono.
  { apply cluster_request_wp. intros c Hc. by apply elem_of_nil in Hc. }
  intros t [u|e] [Ht Hr]; repeat wp_step; (split; [exact Ht|]); [|done].
  intros _. by apply (Hr u).
Qed.

(** A request was sent and answered with success. *)
Definition answered (request : k8sd_request) t : Prop :=
  ∃ pod rq md, (pod, rq, Ok (mkHttpResponse 200 (Ok (EmptyString, md)))) ∈ http_calls t ∧
               rq_Body rq = marshal_request request.

Lemma answered_grows request : grows (answered request).
Proof.
  intros t t' Ht (pod & rq & md & Hc & Hb). exists pod, rq, md. split; [|done].
  by eapply elem_of_omap_grows.
Qed.

(** The answer of the last exchange of a trace. *)
Definition ok_answered {A} (request : k8sd_request) (t : trace) (r : gores A) : Prop :=
  ∀ a, r = Ok a → answered request t.

Lemma ok_answered_grows {A} request (r : gores A) : grows (λ t, ok_answered request t r).
Proof. intros t t' Ht Hr a Ha. eapply answered_grows; eauto. Qed.

Lemma forNode_wp w node t (Q : trace → gores K8sdClient → Prop) :
  (∀ t' r, extends t t' → Q t' r) → wp (forNode w node) t Q.
Proof.
  intros HQ. unfold forNode, getProxyPods. repeat wp_step. apply gwp_call; [done|].
  intros [pods|e] t' _ ->; repeat wp_step; [|apply HQ; intros o Ho; set_solver].
  case_bool_decide; repeat wp_step; [apply HQ; intros o Ho; set_solver|].
  destruct (podmap_of pods !! n_Name node); repeat wp_step; [|apply HQ; intros o Ho; set_solver].
  unfold forNodePod. repeat wp_step.
  destruct (getNodeInternalIP node); repeat wp_step; [|apply HQ; intros o Ho; set_solver].
  new_client. apply gwp_call; [done|].
  intros [u|e] t1 _ ->; repeat wp_step; [|apply HQ; intros o Ho; set_solver].
  apply gwp_call; [done|].
  intros [u'|e] t2 _ ->; repeat wp_step; apply HQ; intros o Ho; set_solver.
Qed.

Lemma node_request_wp {A} w machine nodeToken endpoint what request (zero : A) decode t :
  wp (node_request w machine nodeToken endpoint what request zero decode) t (λ t' r,
    extends t t' ∧ ok_answered request t' r).
Proof.
  unfold node_request. repeat wp_step. unfold GetK8sdProxyForMachine. repeat wp_step.
  destruct (m_NodeRef machine) as [ref|]; repeat wp_step; [|by split; [intros o Ho|intros a]].
  apply gwp_call; [done|]. intros [node|e] t' _ ->; repeat wp_step.
  2: { split; [intros o Ho; set_solver|done]. }
  apply forNode_wp. intros t1 r He. destruct r as [c|e]; repeat wp_step.
  2: { split; [intros o Ho; apply He; set_solver|done]. }
  apply doK8sdRequest_wp; [intros e; split; [intros o Ho; apply He; set_solver|done]|].
  intros rq x r Hb Hr.
  assert (extends t (t1 ++ [Obs (HttpDo (kc_Pod c) rq) x])) as Hx
    by (intros o Ho; apply elem_of_app; left; apply He; set_solver).
  destruct r as [a|e]; repeat wp_step; [|by split]. split; [done|]. intros a' [= <-].
  destruct (Hr a eq_refl) as [md ->]. exists (kc_Pod c), rq, md. split; [|done].
  unfold http_calls. rewrite omap_app. apply elem_of_app. right. by left.
Qed.

(** C19: renewing a worker's certificates, under every schedule of the two
    goroutines and every failure: when it answers a number of seconds, the plan,
    the run and the approval have all been answered with success, the run and
    the approval for the seed that the plan returned. *)
Theorem RefreshWorkerCertificates_complete w machine nodeToken secs :
  wp (RefreshWorkerCertificates w machine nodeToken secs) [] (λ t r,
    ∀ s, r = Ok s →
      answered CertificatesPlanRequest t ∧
      ∃ seed, answered (CertificatesRunRequest seed secs []) t ∧
              answered (ApproveWorkerCSRRequest seed) t).
Proof.
  unfold RefreshWorkerCertificates. repeat wp_step. unfold refreshCertificatesPlan.
  eapply wp_mono; [apply node_request_wp|].
  intros t [seed|e] [_ Hplan]; repeat wp_step; [|done]. cbv zeta. repeat wp_step.
  set (run := CertificatesRunRequest seed secs []). unfold refreshCertificatesRun.
  eapply wp_mono.
  { apply wp_par with
      (P := λ t' r, ok_answered run t' r ∧ answered CertificatesPlanRequest t')
      (Q := λ t' r, ok_answered (ApproveWorkerCSRRequest seed) t' r).
    - intros a t1 t2 Ht [H1' H2']. split; [by eapply ok_answered_grows|by eapply answered_grows].
    - intros b. apply ok_answered_grows.
    - apply wp_trace_frame; [apply answered_grows| |by apply (Hplan seed)].
      eapply wp_mono; [apply node_request_wp|]. by intros t' r [_ Hr].
    - unfold ApproveCertificates.
      eapply wp_trace_grows with (t := []); [by intros; apply ok_answered_grows|set_solver|].
      eapply wp_mono; [apply cluster_request_wp with (ignore := ∅)|].
      { intros c Hc. by apply elem_of_nil in Hc. }
      by intros t' r [_ Hr] a Ha; apply (Hr a). }
  intros t1 [[r1 r2] first] [[Hrun Hp] Happ]. simpl in *.
  destruct r1 as [s1|e1], r2 as [u|e2]; simpl; [|destruct first; repeat wp_step; done..].
  repeat wp_step. intros s [= <-]. split; [done|]. exists seed. split; [by apply (Hrun s1)|by apply (Happ u)].
Qed.
End Traces.

(** ** Upgrade options *)

Lemma Split_one s v :
  GoStrings.Split s "=" = [v] → s = v ∧ GoStrings.contains "=" v = false.
Proof.
  revert v. induction s as [|c s IH]; intros v; simpl; [by intros [= <-]|].
  case_bool_decide as Hd.
  - intros [= _ Hs]. by apply GoStrings.Split_nonempty in Hs.
  - destruct (GoStrings.Split s "=") as [|x xs] eqn:Hs; [by apply GoStrings.Split_nonempty in Hs|].
    intros [= <- ->]. destruct (IH x eq_refl) as [-> Hx]. simpl.
    by rewrite Hx, bool_decide_false.
Qed.

Lemma Split_two o k v :
  GoStrings.Split o "=" = [k; v] → o = k +:+ String "=" v ∧ GoStrings.contains "=" v = false.
Proof.
  revert k v. induction o as [|c o IH]; intros k v; simpl; [done|].
  case_bool_decide as Hc.
  - intros [= <- Ho]. subst c. by apply Split_one in Ho as [-> Hv].
  - destruct (GoStrings.Split o "=") as [|x xs] eqn:Ho; [done|]. intros [= <- ->].
    by destruct (IH x v eq_refl) as [-> Hv].
Qed.

(** The options that an upgrade may name. *)
Definition option_request (k v : string) : option k8sd_request :=
  if bool_decide (k = "channel") then Some (SnapRefreshRequest v "" "")
  else if bool_decide (k = "revision") then Some (SnapRefreshRequest "" v "")
  else if bool_decide (k = "localPath") then Some (SnapRefreshRequest "" "" v)
  else None.

Lemma refresh_option_two o k v :
  GoStrings.Split o "=" = [k; v] →
  refresh_option o = match option_request k v with
                     | Some r => Ok r
                     | None => Err (ErrNew ("invalid upgrade option: " +:+ k))
                     end.
Proof.
  unfold refresh_option, option_request. intros ->.
  destruct (bool_decide (k = "channel")); [done|].
  destruct (bool_decide (k = "revision")); [done|].
  by destruct (bool_decide (k = "localPath")).
Qed.

Lemma option_request_clean k v r :
  option_request k v = Some r → GoStrings.contains "=" k = false.
Proof.
  unfold option_request.
  destruct (bool_decide (k = "channel")) eqn:H1; [by apply bool_decide_eq_true in H1 as ->|].
  destruct (bool_decide (k = "revision")) eqn:H2; [by apply bool_decide_eq_true in H2 as ->|].
  destruct (bool_decide (k = "localPath")) eqn:H3; [by apply bool_decide_eq_true in H3 as ->|].
  done.
Qed.

(** An upgrade option is accepted exactly when it is [channel=v],
    [revision=v] or [localPath=v] with no further equals sign in [v], and it then
    sets that one field of the snap refresh request. *)
Theorem refresh_option_spec (o : string) (r : k8sd_request) :
  refresh_option o = Ok r ↔
  ∃ k v, o = k +:+ "=" +:+ v ∧ GoStrings.contains "=" v = false ∧ option_request k v = Some r.
Proof.
  split.
  - intros Hr. destruct (GoStrings.Split o "=") as [|k [|v [|]]] eqn:Hs;
      try (unfold refresh_option in Hr; rewrite Hs in Hr; discriminate Hr).
    rewrite (refresh_option_two _ _ _ Hs) in Hr. apply Split_two in Hs as [-> Hv].
    exists k, v. split; [done|]. split; [done|].
    destruct (option_request k v); [by injection Hr as ->|discriminate Hr].
  - intros (k & v & -> & Hv & Hr). rewrite (refresh_option_two _ k v); [by rewrite Hr|].
    change (k +:+ "=" +:+ v) with (k +:+ String "=" v).
    rewrite GoStrings.Split_app, GoStrings.Split_clean; [done|done|].
    by eapply option_request_clean.
Qed.

(** ** Witnesses *)

(** A k8sd API with readable bodies. *)
#[export] Instance RefK8sd : K8sdApi := {|
  marshal_request r :=
    match r with
    | ReqNone => dquote +:+ dquote
    | CertificatesExpiryRequest => "expiry"
    | ApproveWorkerCSRRequest s => "approve " +:+ pretty s
    | CertificatesPlanRequest => "plan"
    | CertificatesRunRequest s e l => "run " +:+ pretty s +:+ " " +:+ pretty e
    | SnapRefreshRequest c r p => "refresh " +:+ c +:+ r +:+ p
    | SnapRefreshStatusRequest i => "status " +:+ i
    | GetJoinTokenRequest n b => "join " +:+ n
    | RemoveNodeRequest n f => "remove " +:+ n
    end;
  K8sdAPIVersion := "1.0";
  ClusterAPICertificatesExpiryRPC := "expiry";
  ClusterAPIApproveWorkerCSRRPC := "approve";
  ClusterAPICertificatesPlanRPC := "plan";
  ClusterAPICertificatesRunRPC := "run";
  SnapRefreshRPC := "refresh";
  SnapRefreshStatusRPC := "status";
  ClusterAPIGetJoinTokenRPC := "join";
  ClusterAPIRemoveNodeRPC := "remove";
  unmarshal_ExpiryDate s := Ok s;
  unmarshal_Unit s := Ok tt;
  unmarshal_Seed s := Ok (Z.of_nat (String.length s));
  unmarshal_ExpirationSeconds s := Ok (Z.of_nat (String.length s));
  unmarshal_ChangeID s := Ok s;
  unmarshal_RefreshStatus s := Ok (mkRefreshStatus s true "");
  unmarshal_EncodedToken s := Ok s;
  NewRequest m u := Ok tt;
|}.

Definition ex_workload : Workload := mkWorkload "token" (mkKey "ns" "c") 2380.
Definition ex_noded (n : string) : Machine :=
  match machine_named n with
  | mkMachine a b c d e f g h i _ k => mkMachine a b c d e f g h i (Some (ref_named "Node" n)) k
  end.

Lemma RemoveMachineFromCluster_other_node_witness :
  m_NodeRef (ex_noded "n1") = Some (ref_named "Node" "n1") ∧
  wp (RemoveMachineFromCluster ex_workload (ex_noded "n1")) [] (λ t r,
    (∀ c, c ∈ http_calls t → proxied t {[ref_Name (ref_named "Node" "n1")]} c.1.1) ∧
    (r = None → ∃ pod rq md,
      (pod, rq, Ok (mkHttpResponse 200 (Ok (EmptyString, md)))) ∈ http_calls t ∧
      rq_Body rq = marshal_request (RemoveNodeRequest (ref_Name (ref_named "Node" "n1")) true))).
Proof.
  split; [reflexivity|].
  apply (RemoveMachineFromCluster_other_node ex_workload (ex_noded "n1") (ref_named "Node" "n1")).
  reflexivity.
Defined.

Lemma RefreshWorkerCertificates_complete_witness :
  wp (RefreshWorkerCertificates ex_workload (ex_noded "n1") "node" 60) [] (λ t r,
    ∀ s, r = Ok s →
      answered CertificatesPlanRequest t ∧
      ∃ seed, answered (CertificatesRunRequest seed 60 []) t ∧
              answered (ApproveWorkerCSRRequest seed) t).
Proof. apply (RefreshWorkerCertificates_complete ex_workload (ex_noded "n1") "node" 60). Defined.

(** ** Requests to k8sd do not change the management cluster *)

Section Reads.
Context `{!ApiErrors, !MetaLib, !K8sdApi}.
Implicit Types (w : Workload) (machine : Machine).

Lemma doK8sdRequest_reads {A} w c method endpoint header request (zero : A) response :
  reads (doK8sdRequest w c method endpoint header request zero response).
Proof.
  unfold reads, reads_post, doK8sdRequest. cbv zeta. repeat wp_step.
  destruct (NewRequest _ _); repeat wp_step; [|done].
  apply gwp_call; [done|]. intros [res|e] [] _ _; repeat wp_step; [|done].
  destruct (rs_Body res) as [[err md]|e]; repeat wp_step; [|done].
  repeat case_match; repeat wp_step; done.
Qed.

Lemma forNode_reads w node : reads (forNode w node).
Proof.
  unfold reads, reads_post, forNode, getProxyPods, forNodePod. repeat wp_step.
  apply gwp_call; [done|]. intros [pods|e] [] _ _; repeat wp_step; [|done].
  case_bool_decide; repeat wp_step; [done|].
  destruct (podmap_of pods !! n_Name node); repeat wp_step; [|done].
  destruct (getNodeInternalIP node); repeat wp_step; [|done].
  new_client. apply gwp_call; [done|]. intros [u|e] [] _ _; repeat wp_step; [|done].
  apply gwp_call; [done|]. by intros [u'|e] [] _ _; repeat wp_step.
Qed.

Lemma node_request_reads {A} w machine nodeToken endpoint what request (zero : A) decode :
  reads (node_request w machine nodeToken endpoint what request zero decode).
Proof.
  unfold reads, reads_post, node_request, GetK8sdProxyForMachine. repeat wp_step.
  destruct (m_NodeRef machine); repeat wp_step; [|done].
  apply gwp_call; [done|]. intros [node|e] [] _ _; repeat wp_step; [|done].
  eapply wp_mono; [apply forNode_reads|]. intros [] [c|e] _; repeat wp_step; [|done].
  eapply wp_mono; [apply doK8sdRequest_reads|]. by intros [] [a|e'] _; repeat wp_step.
Qed.

Lemma RefreshMachine_reads w machine nodeToken o : reads (RefreshMachine w machine nodeToken o).
Proof.
  unfold reads, reads_post, RefreshMachine. repeat wp_step.
  destruct (refresh_option o); repeat wp_step; [|done].
  eapply wp_mono; [apply node_request_reads|]. done.
Qed.

Lemma LookupNodeToken_reads ck m : reads (Token.LookupNodeToken ck m).
Proof.
  unfold reads, reads_post, Token.LookupNodeToken, Token.getSecret. repeat wp_step.
  apply gwp_call; [done|]. intros [s|e] [] _ _; repeat wp_step; [|done].
  by destruct (Token.data s _); repeat wp_step.
Qed.

Lemma GetWorkloadCluster_reads ck port : reads (GetWorkloadCluster ck port).
Proof.
  unfold reads, reads_post, GetWorkloadCluster, Token.Lookup, Token.getSecret. repeat wp_step.
  apply gwp_call; [done|]. intros [u|e] [] _ _; repeat wp_step; [|done].
  apply gwp_call; [done|]. intros [u1|e] [] _ _; repeat wp_step; [|done].
  apply gwp_call; [done|]. intros [u2|e] [] _ _; repeat wp_step; [|done].
  apply gwp_call; [done|]. intros [s|e] [] _ _; repeat wp_step; [|done].
  by destruct (Token.data s _); repeat wp_step.
Qed.
Lemma forNodePod_reads w node pod : reads (forNodePod w node pod).
Proof.
  unfold reads, reads_post, forNodePod. repeat wp_step.
  destruct (getNodeInternalIP node); repeat wp_step; [|done].
  new_client. apply gwp_call; [done|]. intros [u|e] [] _ _; repeat wp_step; [|done].
  apply gwp_call; [done|]. by intros [u'|e] [] _ _; repeat wp_step.
Qed.

Lemma GetK8sdProxyForControlPlane_reads w ignore : reads (GetK8sdProxyForControlPlane w ignore).
Proof.
  unfold reads, reads_post, GetK8sdProxyForControlPlane. apply wp_bind, wp_func_on.
  unfold getControlPlaneNodes, getProxyPods. repeat wp_step.
  apply gwp_call; [done|]. intros [nodes|e] [] _ _; repeat wp_step; [|done].
  apply gwp_call; [done|]. intros [pods|e] [] _ _; repeat wp_step; [|done].
  case_bool_decide; repeat wp_step; [done|].
  apply (gwp_for_each_inv _ _ (λ _ _, True)); [done| |by intros; repeat wp_step].
  intros node [] es _ _. case_bool_decide; [by repeat wp_step|].
  destruct (podmap_of pods !! n_Name node) as [pod|]; [|by repeat wp_step].
  destruct (IsPodReady pod); [|by repeat wp_step]. cbn [negb]. repeat wp_step.
  eapply wp_mono; [apply forNodePod_reads|]. intros [] [c|e] _; repeat wp_step; [|done].
  eapply wp_mono; [apply doK8sdRequest_reads|]. by intros [] [a|e'] _; repeat wp_step.
Qed.

Lemma cluster_request_reads {A} w ignore endpoint what request (zero : A) decode :
  reads (cluster_request w ignore endpoint what request zero decode).
Proof.
  unfold reads, reads_post, cluster_request. repeat wp_step.
  eapply wp_mono; [apply GetK8sdProxyForControlPlane_reads|]. intros [] [c|e] _; repeat wp_step; [|done].
  eapply wp_mono; [apply doK8sdRequest_reads|]. by intros [] [a|e'] _; repeat wp_step.
Qed.

(** Success means that k8sd answered the request. *)
Lemma cluster_request_answered {A} w ignore endpoint what request (zero : A) decode t :
  wp (cluster_request w ignore endpoint what request zero decode) t (λ t' r,
    extends t t' ∧ writes t' = writes t ∧ ok_answered request t' r).
Proof.
  unfold cluster_request. repeat wp_step.
  eapply wp_mono; [apply wp_trace_reads, GetK8sdProxyForControlPlane_reads|].
  intros t1 [c|e] [He Hw]; repeat wp_step; [|by split; [|split; [|intros a]]].
  apply doK8sdRequest_wp; [by intros e; split; [|split; [|intros a]]|]. intros rq x r Hb Hr.
  assert (extends t (t1 ++ [Obs (HttpDo (kc_Pod c) rq) x])).
  { intros o Ho. apply elem_of_app. left. by apply He. }
  assert (writes (t1 ++ [Obs (HttpDo (kc_Pod c) rq) x]) = writes t) as Hw' by (by rewrite writes_quiet).
  destruct r as [a|e]; repeat wp_step; (split; [done|]); (split; [done|]); [|by intros a'].
  intros a' [= <-]. destruct (Hr a eq_refl) as [md ->]. exists (kc_Pod c), rq, md. split; [|done].
  unfold http_calls. rewrite omap_app. apply elem_of_app. right. by left.
Qed.

(** A machine is removed from the microcluster when k8sd has answered so. *)
Definition removed t (machine : Machine) : Prop :=
  ∃ ref, m_NodeRef machine = Some ref ∧ answered (RemoveNodeRequest (ref_Name ref) true) t.

Lemma RemoveMachineFromCluster_removed w machine t :
  wp (RemoveMachineFromCluster w machine) t (λ t' r,
    extends t t' ∧ writes t' = writes t ∧ (r = None → removed t' machine)).
Proof.
  unfold RemoveMachineFromCluster, removed. repeat wp_step.
  destruct (m_NodeRef machine) as [ref|]; repeat wp_step; [|by split].
  eapply wp_mono; [apply cluster_request_answered|].
  intros t1 [[]|e] (He & Hw & Ha); repeat wp_step; (split; [done|]); (split; [done|]); [|done].
  intros _. exists ref. split; [done|]. by apply (Ha tt).
Qed.

Lemma GetMachinesForCluster_trace `{!CollectionsLib} ck filters t :
  wp (GetMachinesForCluster ck filters) t (λ t' r,
    extends t t' ∧ writes t' = writes t ∧
    ∀ ms, r = Ok ms → ∃ ml,
      Obs (ListObj KMachine (key_ns ck) {[Clusterv1.ClusterNameLabel := key_name ck]}) (Ok ml) ∈ t' ∧
      ms = mFilter (λ m, forallb (λ f, f m) filters) (FromMachineList ml)).
Proof.
  unfold GetMachinesForCluster. repeat wp_step. apply gwp_call; [done|].
  intros x t' _ ->. assert (extends t (t ++ [Obs (ListObj KMachine (key_ns ck)
    {[Clusterv1.ClusterNameLabel := key_name ck]}) x])) by (intros o Ho; apply elem_of_app; by left).
  destruct x as [ml|e]; repeat wp_step; rewrite writes_quiet by done; (split; [done|]);
    (split; [done|]); [|by intros ms].
  intros ms [= <-]. exists ml. split; [|done]. apply elem_of_app. right. by left.
Qed.
End Reads.
#[export] Hint Resolve doK8sdRequest_reads node_request_reads RefreshMachine_reads
  LookupNodeToken_reads GetWorkloadCluster_reads cluster_request_reads : go.
