(* ===== verification/Kubeconfig.v ===== *)
(** src/pkg/kubeconfig/kubeconfig.go: the administrator's kubeconfig of a cluster,
    signed by the client CA that [Secrets] keeps. *)

From S2P Require Import Prelude Objects ApiTypes Effects Libs RefLibs ApiServer RefServer.
From S2P Require Import Secrets.

(** [api.Config] of client-go, with the fields the program sets. *)
Record ApiCluster := mkApiCluster { Server : string; CertificateAuthorityData : string }.
Record ApiContext := mkApiContext { ctx_Cluster : string; ctx_AuthInfo : string }.
Record ApiAuthInfo := mkApiAuthInfo { ClientKeyData : string; ClientCertificateData : string }.
Record ApiConfig := mkApiConfig {
  Clusters : gmap string ApiCluster;
  Contexts : gmap string ApiContext;
  AuthInfos : gmap string ApiAuthInfo;
  CurrentContext : string;
}.

(** [clientcmd.Write] *)
Class ClientcmdLib := { clientcmd_Write : ApiConfig → gores string }.

Definition ErrDependentCertificateNotFound : error := ErrSentinel "could not find secret ca".
Definition ErrCertNotInKubeconfig : error := ErrSentinel "certificate not found in config".
Definition ErrCAPrivateKeyNotFound : error := ErrSentinel "CA private key not found".

Module Kubeconfig.
Section Kubeconfig.
Context `{!ApiErrors, !MetaLib, !CertsLib, !ClientcmdLib}.
Implicit Types (clusterName : ObjectKey) (endpoint : string).

(** The configuration [New] asks a client certificate for. *)
Definition admin_config : CertConfig := mkCertConfig "kubernetes-admin" ["system:masters"].

(** The kubeconfig around a signed client certificate. *)
Definition config_of (clusterName endpoint clientKey clientCert serverCACert : string) : ApiConfig :=
  let userName := clusterName +:+ "-admin" in
  let contextName := userName +:+ "@" +:+ clusterName in
  mkApiConfig
    {[clusterName := mkApiCluster endpoint (EncodeCertPEM serverCACert)]}
    {[contextName := mkApiContext clusterName userName]}
    {[userName := mkApiAuthInfo (EncodePrivateKeyPEM clientKey) (EncodeCertPEM clientCert)]}
    contextName.

Definition New (clusterName endpoint clientCACert clientCAKey serverCACert : string)
    : prog (gores ApiConfig) :=
  func (
    clientKey ← check (call NewPrivateKey) (λ e, Err (wrapf "unable to create private key" e));
    clientCert ← check (call (NewSignedCert admin_config clientKey clientCACert clientCAKey))
      (λ e, Err (wrapf "unable to sign certificate" e));
    mret (Ok (config_of clusterName endpoint clientKey clientCert serverCACert))).

(** A secret the kubeconfig depends on. *)
Definition dependency clusterName (purpose : string) : go unit (gores string) Secret :=
  check (callp (Secrets.GetFromNamespacedName clusterName purpose))
    (λ e, Err (if IsNotFound e then ErrDependentCertificateNotFound else e)).

(** [secret.Data[key]]: nil when there is none. *)
Definition data (s : Secret) (key : string) : string := default "" (s_Data s ≫= (!!) key).

(** A PEM block that must be there. *)
Definition decoded (what : string) (missing : error) (r : gores (option string))
    : go unit (gores string) string :=
  o ← check (mret r) (λ e, Err (wrapf what e));
  match o with
  | Some x => mret x
  | None => return_ (Err missing)
  end.

Definition generateKubeconfig clusterName endpoint : prog (gores string) :=
  func (
    clusterCA ← dependency clusterName ClusterCA;
    clientClusterCA ← dependency clusterName ClientClusterCA;
    clientCACert ← decoded "failed to decode CA Cert" ErrCertNotInKubeconfig
      (DecodeCertPEM (data clientClusterCA TLSCrtDataName));
    clientCAKey ← decoded "failed to decode private key" ErrCAPrivateKeyNotFound
      (DecodePrivateKeyPEM (data clientClusterCA TLSKeyDataName));
    serverCACert ← decoded "failed to decode CA Cert" ErrCertNotInKubeconfig
      (DecodeCertPEM (data clusterCA TLSCrtDataName));
    cfg ← check (callp (New (key_name clusterName) endpoint clientCACert clientCAKey serverCACert))
      (λ e, Err (wrapf "failed to generate a kubeconfig" e));
    out ← check (mret (clientcmd_Write cfg))
      (λ e, Err (wrapf "failed to serialize config to yaml" e));
    mret (Ok out)).

Definition GenerateSecretWithOwner clusterName (d : string) (owner : OwnerReference) : Secret :=
  mkSecret
    (mkMeta (Secrets.Name (key_name clusterName) Kubeconfig) (key_ns clusterName) ""
       {[Clusterv1.ClusterNameLabel := key_name clusterName]} None [owner] [] 0 None)
    (Some {[KubeconfigDataName := d]}) "".

(** The owner reference to the cluster itself. *)
Definition cluster_owner (cluster : Cluster) : OwnerReference :=
  mkOwnerRef Clusterv1.GroupVersion "Cluster" (cl_Name cluster) (om_UID (cl_meta cluster)) None.

Definition GenerateSecret (cluster : Cluster) (d : string) : Secret :=
  GenerateSecretWithOwner (key_of (cl_meta cluster)) d (cluster_owner cluster).

Definition CreateSecretWithOwner clusterName endpoint (owner : OwnerReference) : prog (option error) :=
  func (
    out ← check (callp (generateKubeconfig clusterName ("https://" +:+ endpoint))) Some;
    check (call (Create KSecret (GenerateSecretWithOwner clusterName out owner))) Some ;;
    mret None).

Definition CreateSecret (cluster : Cluster) : prog (option error) :=
  CreateSecretWithOwner (key_of (cl_meta cluster)) (ep_String (cl_ControlPlaneEndpoint cluster))
    (cluster_owner cluster).
End Kubeconfig.

(** ** What a kubeconfig grants *)

Section Spec.
Context {W : Type} `{!ApiErrors, !CertsLib, !ClientcmdLib, !Env W, !ApiServer W}.
Implicit Types (w : W) (clusterName : ObjectKey) (endpoint : string).

Lemma dependency_gwp clusterName purpose w (K : W → unit → Secret → Prop) Rt :
  (∀ w' s, same_view w w' → view KSecret w (Secrets.secret_key clusterName purpose) = Some s → K w' tt s) →
  (∀ w' e, same_view w w' →
     (view KSecret w (Secrets.secret_key clusterName purpose) = None ∧ e = ErrDependentCertificateNotFound) ∨
     IsNotFound e = false → Rt w' tt (Err e)) →
  gwp (dependency clusterName purpose) tt w K Rt.
Proof.
  intros HK HR. unfold dependency, Secrets.GetFromNamespacedName. wp_run.
  apply gwp_call; [by apply api_pre|]. intros r w' _ Hs. apply (api_get KSecret) in Hs as [Hv Hr].
  destruct r as [s|e]; wp_run; [by apply HK|]. apply HR; [done|].
  destruct (IsNotFound e) eqn:Hn; [left; auto|by right].
Qed.

Lemma decoded_gwp what missing r w (K : W → unit → string → Prop) Rt :
  (∀ x, r = Ok (Some x) → K w tt x) → (∀ e, Rt w tt (Err e)) →
  gwp (decoded what missing r) tt w K Rt.
Proof.
  intros HK HR. unfold decoded. wp_run. destruct r as [[x|]|e]; wp_run; auto.
Qed.

(** The certificate and the key that a CA secret holds. *)
Definition ca_cert (s : Secret) (c : string) : Prop := DecodeCertPEM (data s TLSCrtDataName) = Ok (Some c).
Definition ca_key (s : Secret) (k : string) : Prop := DecodePrivateKeyPEM (data s TLSKeyDataName) = Ok (Some k).

(** The environment may sign this certificate for this key. *)
Definition signed (clientCert clientKey caCert caKey : string) : Prop :=
  ∃ w w' : W, env_step (NewSignedCert admin_config clientKey caCert caKey) (Ok clientCert) w w'.

(** A serialised kubeconfig of the cluster: it trusts the stored cluster CA, and
    its client is the administrator, with a certificate signed by the stored
    client CA. *)
Definition admin_kubeconfig clusterName endpoint w (out : string) : Prop :=
  ∃ ca cca caCert ccaCert ccaKey key cert,
    view KSecret w (Secrets.secret_key clusterName ClusterCA) = Some ca ∧ ca_cert ca caCert ∧
    view KSecret w (Secrets.secret_key clusterName ClientClusterCA) = Some cca ∧
    ca_cert cca ccaCert ∧ ca_key cca ccaKey ∧ signed cert key ccaCert ccaKey ∧
    clientcmd_Write (config_of (key_name clusterName) endpoint key cert caCert) = Ok out.

Lemma generateKubeconfig_wp clusterName endpoint w :
  wp (generateKubeconfig clusterName endpoint) w (λ w' r, same_view w w' ∧
    ∀ out, r = Ok out → admin_kubeconfig clusterName endpoint w out).
Proof.
  unfold generateKubeconfig. wp_run. apply dependency_gwp; [|by split].
  intros w1 ca Hv1 Hca. wp_run. apply dependency_gwp; [|intros w2 e Hv2 _; split; [by etrans|done]].
  intros w2 cca Hv2 Hcca. rewrite (Hv1 KSecret) in Hcca. assert (same_view w w2) as Hv by (by etrans).
  wp_run. apply decoded_gwp; [|by split]. intros ccaCert D1. wp_run.
  apply decoded_gwp; [|by split]. intros ccaKey D2. wp_run.
  apply decoded_gwp; [|by split]. intros caCert D3. wp_run. unfold New. wp_run.
  apply gwp_call; [by apply api_pre|]. intros rk w3 _ Hk.
  assert (same_view w w3) as Hv3 by (etrans; [exact Hv|]; intros k key; by eapply api_quiet in Hk).
  destruct rk as [key|e]; wp_run; [|by split].
  apply gwp_call; [by apply api_pre|]. intros rc w4 _ Hc.
  assert (same_view w w4) as Hv4 by (etrans; [exact Hv3|]; intros k key'; by eapply api_quiet in Hc).
  destruct rc as [cert|e]; wp_run; [|by split].
  destruct (clientcmd_Write _) as [out|e] eqn:Hw; wp_run; split; try done. intros out' [= <-].
  exists ca, cca, caCert, ccaCert, ccaKey, key, cert. unfold signed. eauto 12.
Qed.

(** C31: [CreateSecretWithOwner] writes nothing but the kubeconfig secret
    of the cluster, never replaces one, and leaves the CA secrets alone.  When it
    succeeds, the secret is new and holds a kubeconfig for the endpoint that
    trusts the stored cluster CA and whose administrator certificate was signed
    by the stored client CA; without both CA secrets it fails. *)
Theorem CreateSecretWithOwner_spec clusterName endpoint owner w :
  let key := Secrets.secret_key clusterName Kubeconfig in
  wp (CreateSecretWithOwner clusterName endpoint owner) w (λ w' r,
    frame KSecret key w w' ∧
    (is_Some (view KSecret w key) → view KSecret w' key = view KSecret w key) ∧
    (r = None → view KSecret w key = None ∧ ∃ s out,
       view KSecret w' key = Some s ∧ s_Data s = Some {[KubeconfigDataName := out]} ∧
       admin_kubeconfig clusterName ("https://" +:+ endpoint) w out)).
Proof.
  cbv zeta. unfold CreateSecretWithOwner. wp_run.
  eapply wp_mono; [apply generateKubeconfig_wp|]. intros w1 [out|e] [Hv Hr]; wp_run.
  2: { split; [by intros k key _|]. split; [by intros _; apply (Hv KSecret)|done]. }
  apply gwp_call; [by apply api_pre|]. intros r w2 _ Hs. apply (api_create KSecret) in Hs as [Hf Hs].
  change (obj_key KSecret (GenerateSecretWithOwner clusterName out owner))
    with (Secrets.secret_key clusterName Kubeconfig) in *.
  assert (frame KSecret (Secrets.secret_key clusterName Kubeconfig) w w2) as Hfr.
  { intros k key Hne. rewrite Hf by done. apply Hv. }
  rewrite (Hv KSecret) in Hs. destruct r as [s|e]; wp_run; (split; [done|]).
  - destruct Hs as (Hn & Hs & _ & Hd & _). rewrite Hn. split; [by intros []|]. intros _. split; [done|].
    exists s, out. split; [done|]. split; [done|]. by apply Hr.
  - split; [|done]. intros [s Hs']. destruct Hs as [[Hs _]|(_ & Hn & _)]; [by rewrite Hs|].
    by rewrite Hs' in Hn.
Qed.
End Spec.
End Kubeconfig.

(** ** A run *)

(** A writer that shows the server and the administrator's certificate. *)
#[export] Instance RefClientcmd : ClientcmdLib := {|
  clientcmd_Write c := Ok (String.concat "|" (
    map (λ p : string * ApiCluster, Server p.2 +:+ " " +:+ CertificateAuthorityData p.2)
      (map_to_list (Clusters c)) ++
    map (λ p : string * ApiAuthInfo, p.1 +:+ " " +:+ ClientCertificateData p.2)
      (map_to_list (AuthInfos c))));
|}.

Module KubeconfigExamples.
Import Kubeconfig.

Definition ca_secret (purpose c : string) : Secret :=
  mkSecret (mkMeta (Secrets.Name "c" purpose) "ns" "" ∅ None [] [] 0 None)
    (Some {[TLSCrtDataName := EncodeCertPEM c; TLSKeyDataName := EncodePrivateKeyPEM "k"]}) "".
Definition ck : ObjectKey := mkKey "ns" "c".
Definition owner : OwnerReference := mkOwnerRef "v1" "CK8sControlPlane" "k" "u" (Some true).
Definition store : Store := put KSecret (ca_secret ClusterCA "server") (put KSecret (ca_secret ClientClusterCA "client") empty_store).
Definition signer : handler Store := λ X e w,
  match e in sysE X return option (X * Store) with
  | NewPrivateKey => Some (Ok "key", w)
  | NewSignedCert cfg _ ca _ => Some (Ok (cc_CommonName cfg +:+ " by " +:+ ca), w)
  | _ => None
  end.
#[local] Instance the_env : Env Store := server_env signer.

Lemma CreateSecretWithOwner_spec_witness :
  run (serve signer) (CreateSecretWithOwner ck "h:1" owner) store ≫= (λ r : option error * Store,
    Some (r.1, s_Data <$> look KSecret r.2 (Secrets.secret_key ck Kubeconfig))) =
    Some (None, Some (Some {[KubeconfigDataName :=
      "https://h:1 CERT server|c-admin CERT kubernetes-admin by client"]})) ∧
  wp (CreateSecretWithOwner ck "h:1" owner) store (λ w' r,
    frame KSecret (Secrets.secret_key ck Kubeconfig) store w' ∧
    (is_Some (view KSecret store (Secrets.secret_key ck Kubeconfig)) →
       view KSecret w' (Secrets.secret_key ck Kubeconfig) = view KSecret store (Secrets.secret_key ck Kubeconfig)) ∧
    (r = None → view KSecret store (Secrets.secret_key ck Kubeconfig) = None ∧ ∃ s out,
       view KSecret w' (Secrets.secret_key ck Kubeconfig) = Some s ∧ s_Data s = Some {[KubeconfigDataName := out]} ∧
       admin_kubeconfig ck ("https://" +:+ "h:1") store out)).
Proof.
  split; [vm_compute; reflexivity|]. exact (CreateSecretWithOwner_spec ck "h:1" owner store).
Defined.
End KubeconfigExamples.
