(* ===== verification/NodeConfig.v ===== *)
(** src/pkg/ck8s/config_{init,join}.go: the configuration of k8s-snap that a new
    node starts with.  [BootstrapConfig] and the join configurations are types of
    github.com/canonical/k8s-snap-api, with the fields that the source sets; the
    fields for certificates and keys are grouped in [PKI] and the ones of the
    cluster configuration in [ClusterConfig].  And src/pkg/ck8s/k8sd_proxy_daemonset.go:
    the manifest of the proxy to k8sd that every node runs. *)

From S2P Require Import Prelude Objects ApiTypes Effects Secrets.

Module NodeConfig.

Record PKI := mkPKI {
  CACert : option string; CAKey : option string;
  ClientCACert : option string; ClientCAKey : option string;
  ServiceAccountKey : option string;
  FrontProxyCACert : option string; FrontProxyCAKey : option string;
  DatastoreCACert : option string;
  DatastoreClientCert : option string; DatastoreClientKey : option string;
}.

Record ClusterConfig := mkClusterConfig {
  cc_CloudProvider : option string;
  cc_Annotations : strmap;
  DNS_Enabled : option bool; DNS_ClusterDomain : option string;
  LoadBalancer_Enabled : option bool;
  Gateway_Enabled : option bool;
  Ingress_Enabled : option bool;
  LocalStorage_Enabled : option bool;
  MetricsServer_Enabled : option bool;
  Network_Enabled : option bool;
}.

Record BootstrapConfig := mkBootstrap {
  b_PKI : PKI;
  b_ClusterConfig : ClusterConfig;
  b_DatastoreType : option string;
  b_EtcdPort : option Z; b_EtcdPeerPort : option Z;
  b_DatastoreServers : list string;
  SecurePort : option Z;
  PodCIDR : option string;
  ServiceCIDR : option string;
  b_ExtraSANs : list string;
  ControlPlaneTaints : list string;
  ExtraNodeKubeAPIServerArgs : extra_args;
  ExtraNodeKubeControllerManagerArgs : extra_args;
  ExtraNodeKubeSchedulerArgs : extra_args;
  ExtraNodeKubeProxyArgs : extra_args;
  ExtraNodeKubeletArgs : extra_args;
  ExtraNodeContainerdArgs : extra_args;
}.

(** [apiv1.ControlPlaneJoinConfig] and [apiv1.WorkerJoinConfig] *)
Record ControlPlaneJoinConfig := mkControlPlaneJoin {
  j_ExtraSANS : list string;
  j_KubeAPIServerArgs : extra_args;
  j_KubeControllerManagerArgs : extra_args;
  j_KubeSchedulerArgs : extra_args;
  j_KubeProxyArgs : extra_args;
  j_KubeletArgs : extra_args;
  j_ContainerdArgs : extra_args;
}.

Record WorkerJoinConfig := mkWorkerJoin {
  w_KubeProxyArgs : extra_args;
  w_KubeletArgs : extra_args;
  w_ContainerdArgs : extra_args;
  w_K8sAPIServerProxyArgs : extra_args;
}.

(** ** config_init.go *)

Record InitControlPlaneConfig := mkInitInput {
  in_ControlPlaneEndpoint : string;
  in_ControlPlaneConfig : CK8sControlPlaneConfig;
  in_InitConfig : CK8sInitConfiguration;
  in_PopulatedCertificates : list Secrets.Certificate;
  in_DatastoreType : string;
  in_DatastoreServers : list string;
  in_ClusterNetwork : option ClusterNetwork;
  in_ExtraKubeProxyArgs : extra_args;
  in_ExtraKubeletArgs : extra_args;
  in_ExtraContainerdArgs : extra_args;
  in_ExtraK8sAPIServerProxyArgs : extra_args;
}.

Definition no_pki : PKI := mkPKI None None None None None None None None None None.

(** The body of the loop over the certificates. *)
Definition seed_certificate (p : PKI) (cert : Secrets.Certificate) : PKI :=
  match p, Secrets.cert_KeyPair cert with
  | _, None => p
  | mkPKI ca cak cc cck sa fp fpk dc dcc dck, Some (mkKeyPair c k) =>
      let purpose := Secrets.cert_Purpose cert in
      if bool_decide (purpose = ClusterCA) then mkPKI (Some c) (Some k) cc cck sa fp fpk dc dcc dck
      else if bool_decide (purpose = ClientClusterCA) then
        mkPKI ca cak (Some c) (Some k) sa fp fpk dc dcc dck
      else if bool_decide (purpose = ServiceAccount) then mkPKI ca cak cc cck (Some k) fp fpk dc dcc dck
      else if bool_decide (purpose = FrontProxyCA) then
        mkPKI ca cak cc cck sa (Some c) (Some k) dc dcc dck
      else if bool_decide (purpose = EtcdCA) then mkPKI ca cak cc cck sa fp fpk (Some c) dcc dck
      else if bool_decide (purpose = APIServerEtcdClient) then
        mkPKI ca cak cc cck sa fp fpk dc (Some c) (Some k)
      else p
  end.

Definition non_empty (s : string) : option string := if bool_decide (s = "") then None else Some s.
Definition non_zero (z default : Z) : Z := if (z =? 0)%Z then default else z.

(** The datastore type, its ports and its servers. *)
Definition datastore (cfg : InitControlPlaneConfig) : string * option Z * option Z * list string :=
  if bool_decide (in_DatastoreType cfg = "") || bool_decide (in_DatastoreType cfg = "etcd") then
    ("etcd", Some (non_zero (EtcdPort (in_ControlPlaneConfig cfg)) 2379),
     Some (non_zero (EtcdPeerPort (in_ControlPlaneConfig cfg)) 2381), [])
  else ("external", None, None, in_DatastoreServers cfg).

(** The blocks of a network, if there are any. *)
Definition cidr (r : option NetworkRanges) : option string :=
  r ≫= λ r, if bool_decide (CIDRBlocks r = []) then None else Some (GoStrings.Join (CIDRBlocks r) ",").

Definition cluster_config (cfg : InitControlPlaneConfig) : ClusterConfig :=
  let ic := in_InitConfig cfg in
  mkClusterConfig (non_empty (CloudProvider (in_ControlPlaneConfig cfg))) (default ∅ (ic_Annotations ic))
    (Some (GetEnableDefaultDNS ic)) (in_ClusterNetwork cfg ≫= λ n, non_empty (cn_ServiceDomain n))
    (Some (GetEnableDefaultLoadBalancer ic)) (Some (GetEnableDefaultGateway ic))
    (Some (GetEnableDefaultIngress ic)) (Some (GetEnableDefaultLocalStorage ic))
    (Some (GetEnableDefaultMetricsServer ic)) (Some (GetEnableDefaultNetwork ic)).

Definition GenerateInitControlPlaneConfig (cfg : InitControlPlaneConfig) : gores BootstrapConfig :=
  let pki := foldl seed_certificate no_pki (in_PopulatedCertificates cfg) in
  if bool_decide (CACert pki = None) then Err (ErrNew "missing server CA certificate")
  else if bool_decide (ClientCACert pki = None) then Err (ErrNew "missing client CA certificate")
  else
  let '(datastoreType, etcdPort, etcdPeerPort, servers) := datastore cfg in
  let cp := in_ControlPlaneConfig cfg in
  Ok (mkBootstrap pki (cluster_config cfg) (Some datastoreType) etcdPort etcdPeerPort servers
    (in_ClusterNetwork cfg ≫= λ n,
       let v := default 0%Z (cn_APIServerPort n) in if (v =? 0)%Z then None else Some v)
    (in_ClusterNetwork cfg ≫= λ n, cidr (cn_Pods n))
    (in_ClusterNetwork cfg ≫= λ n, cidr (cn_Services n))
    (ExtraSANs cp ++ [in_ControlPlaneEndpoint cfg]) (NodeTaints cp)
    (ExtraKubeAPIServerArgs cp) (ExtraKubeControllerManagerArgs cp) (ExtraKubeSchedulerArgs cp)
    (in_ExtraKubeProxyArgs cfg) (in_ExtraKubeletArgs cfg) (in_ExtraContainerdArgs cfg)).

(** ** config_join.go *)

Record JoinControlPlaneConfig := mkJoinInput {
  jn_ControlPlaneEndpoint : string;
  jn_ControlPlaneConfig : CK8sControlPlaneConfig;
  jn_ExtraKubeProxyArgs : extra_args;
  jn_ExtraKubeletArgs : extra_args;
  jn_ExtraContainerdArgs : extra_args;
}.

Definition GenerateJoinControlPlaneConfig (cfg : JoinControlPlaneConfig) : ControlPlaneJoinConfig :=
  let cp := jn_ControlPlaneConfig cfg in
  mkControlPlaneJoin (ExtraSANs cp ++ [jn_ControlPlaneEndpoint cfg])
    (ExtraKubeAPIServerArgs cp) (ExtraKubeControllerManagerArgs cp) (ExtraKubeSchedulerArgs cp)
    (jn_ExtraKubeProxyArgs cfg) (jn_ExtraKubeletArgs cfg) (jn_ExtraContainerdArgs cfg).

Record JoinWorkerConfig := mkWorkerInput {
  wn_ExtraKubeProxyArgs : extra_args;
  wn_ExtraKubeletArgs : extra_args;
  wn_ExtraContainerdArgs : extra_args;
  wn_ExtraK8sAPIServerProxyArgs : extra_args;
}.

Definition GenerateJoinWorkerConfig (cfg : JoinWorkerConfig) : WorkerJoinConfig :=
  mkWorkerJoin (wn_ExtraKubeProxyArgs cfg) (wn_ExtraKubeletArgs cfg) (wn_ExtraContainerdArgs cfg)
    (wn_ExtraK8sAPIServerProxyArgs cfg).

(** ** Certificates go to their fields *)

(** The key pair of a purpose: the one of the last certificate that has one. *)
Fixpoint pair_of (purpose : Purpose) (cs : list Secrets.Certificate) : option KeyPair :=
  match cs with
  | [] => None
  | c :: cs =>
      match pair_of purpose cs with
      | Some p => Some p
      | None => if bool_decide (Secrets.cert_Purpose c = purpose) then Secrets.cert_KeyPair c else None
      end
  end.

(** The fields that the certificates of a list determine, over the ones before. *)
Definition seeded (p : PKI) (cs : list Secrets.Certificate) : PKI :=
  let crt purpose old := match pair_of purpose cs with Some kp => Some (kp_Cert kp) | None => old end in
  let key purpose old := match pair_of purpose cs with Some kp => Some (kp_Key kp) | None => old end in
  mkPKI (crt ClusterCA (CACert p)) (key ClusterCA (CAKey p))
    (crt ClientClusterCA (ClientCACert p)) (key ClientClusterCA (ClientCAKey p))
    (key ServiceAccount (ServiceAccountKey p))
    (crt FrontProxyCA (FrontProxyCACert p)) (key FrontProxyCA (FrontProxyCAKey p))
    (crt EtcdCA (DatastoreCACert p))
    (crt APIServerEtcdClient (DatastoreClientCert p)) (key APIServerEtcdClient (DatastoreClientKey p)).

Lemma seed_certificates p cs : foldl seed_certificate p cs = seeded p cs.
Proof.
  revert p. induction cs as [|c cs IH]; intros p; simpl; [by destruct p|]. rewrite IH. clear IH.
  destruct c as [g e purpose [[crt key]|] cf kf]; destruct p as [ca cak cc cck sa fp fpk dc dcc dck]; unfold seeded;
    simpl; [|f_equal; by repeat (destruct (pair_of _ cs); [done|]; case_bool_decide)].
  repeat (case_bool_decide; [subst purpose; simpl; f_equal; by destruct (pair_of _ cs)|]).
  simpl. f_equal; by destruct (pair_of _ cs).
Qed.

Lemma seeded_ca cs : CACert (seeded no_pki cs) = kp_Cert <$> pair_of ClusterCA cs.
Proof. unfold seeded. simpl. by destruct (pair_of ClusterCA cs). Qed.

Lemma seeded_client_ca cs : ClientCACert (seeded no_pki cs) = kp_Cert <$> pair_of ClientClusterCA cs.
Proof. unfold seeded. simpl. by destruct (pair_of ClientClusterCA cs). Qed.

(** What the configuration of the first node holds, field by field. *)
Record first_node (cfg : InitControlPlaneConfig) (out : BootstrapConfig) : Prop := {
  (* every certificate and key is the one of its own purpose *)
  fn_pki :
    let crt purpose := kp_Cert <$> pair_of purpose (in_PopulatedCertificates cfg) in
    let key purpose := kp_Key <$> pair_of purpose (in_PopulatedCertificates cfg) in
    b_PKI out = mkPKI (crt ClusterCA) (key ClusterCA) (crt ClientClusterCA) (key ClientClusterCA)
      (key ServiceAccount) (crt FrontProxyCA) (key FrontProxyCA) (crt EtcdCA)
      (crt APIServerEtcdClient) (key APIServerEtcdClient);
  (* a managed datastore has the user's ports, or 2379 and 2381, and no servers *)
  fn_managed :
    in_DatastoreType cfg = "" ∨ in_DatastoreType cfg = "etcd" →
    let cp := in_ControlPlaneConfig cfg in
    b_DatastoreType out = Some "etcd" ∧ b_DatastoreServers out = [] ∧
    (EtcdPort cp ≠ 0%Z → b_EtcdPort out = Some (EtcdPort cp)) ∧
    (EtcdPort cp = 0%Z → b_EtcdPort out = Some 2379%Z) ∧
    (EtcdPeerPort cp ≠ 0%Z → b_EtcdPeerPort out = Some (EtcdPeerPort cp)) ∧
    (EtcdPeerPort cp = 0%Z → b_EtcdPeerPort out = Some 2381%Z);
  (* an external one has the servers and no ports *)
  fn_external :
    in_DatastoreType cfg ≠ "" → in_DatastoreType cfg ≠ "etcd" →
    b_DatastoreType out = Some "external" ∧ b_DatastoreServers out = in_DatastoreServers cfg ∧
    b_EtcdPort out = None ∧ b_EtcdPeerPort out = None;
  (* the features are on unless they are switched off; without a switch of their own,
     load balancer, gateway and ingress follow the network *)
  fn_features :
    let ic := in_InitConfig cfg in let cc := b_ClusterConfig out in
    let network := default true (EnableDefaultNetwork ic) in
    Network_Enabled cc = Some network ∧
    DNS_Enabled cc = Some (default true (EnableDefaultDNS ic)) ∧
    LocalStorage_Enabled cc = Some (default true (EnableDefaultLocalStorage ic)) ∧
    MetricsServer_Enabled cc = Some (default true (EnableDefaultMetricsServer ic)) ∧
    LoadBalancer_Enabled cc = Some (default network (EnableDefaultLoadBalancer ic)) ∧
    Gateway_Enabled cc = Some (default network (EnableDefaultGateway ic)) ∧
    Ingress_Enabled cc = Some (default network (EnableDefaultIngress ic));
  fn_cluster :
    let cc := b_ClusterConfig out in
    cc_Annotations cc = default ∅ (ic_Annotations (in_InitConfig cfg)) ∧
    ∀ v, cc_CloudProvider cc = Some v ↔ v = CloudProvider (in_ControlPlaneConfig cfg) ∧ v ≠ "";
  (* the network of the cluster, where it is given *)
  fn_network :
    (∀ d, DNS_ClusterDomain (b_ClusterConfig out) = Some d ↔
       ∃ n, in_ClusterNetwork cfg = Some n ∧ d = cn_ServiceDomain n ∧ d ≠ "") ∧
    (∀ v, SecurePort out = Some v ↔ ∃ n, in_ClusterNetwork cfg = Some n ∧ cn_APIServerPort n = Some v ∧ v ≠ 0%Z) ∧
    (∀ s, PodCIDR out = Some s ↔
       ∃ n r, in_ClusterNetwork cfg = Some n ∧ cn_Pods n = Some r ∧ CIDRBlocks r ≠ [] ∧
              s = GoStrings.Join (CIDRBlocks r) ",") ∧
    (∀ s, ServiceCIDR out = Some s ↔
       ∃ n r, in_ClusterNetwork cfg = Some n ∧ cn_Services n = Some r ∧ CIDRBlocks r ≠ [] ∧
              s = GoStrings.Join (CIDRBlocks r) ",");
  (* the server certificate has the user's names and, last, the endpoint *)
  fn_sans : b_ExtraSANs out = ExtraSANs (in_ControlPlaneConfig cfg) ++ [in_ControlPlaneEndpoint cfg];
  fn_taints : ControlPlaneTaints out = NodeTaints (in_ControlPlaneConfig cfg);
  fn_args :
    ExtraNodeKubeAPIServerArgs out = ExtraKubeAPIServerArgs (in_ControlPlaneConfig cfg) ∧
    ExtraNodeKubeControllerManagerArgs out = ExtraKubeControllerManagerArgs (in_ControlPlaneConfig cfg) ∧
    ExtraNodeKubeSchedulerArgs out = ExtraKubeSchedulerArgs (in_ControlPlaneConfig cfg) ∧
    ExtraNodeKubeProxyArgs out = in_ExtraKubeProxyArgs cfg ∧
    ExtraNodeKubeletArgs out = in_ExtraKubeletArgs cfg ∧
    ExtraNodeContainerdArgs out = in_ExtraContainerdArgs cfg;
}.

Lemma non_empty_Some s v : non_empty s = Some v ↔ v = s ∧ v ≠ "".
Proof. unfold non_empty. case_bool_decide; naive_solver. Qed.

Lemma cidr_Some r s :
  cidr r = Some s ↔ ∃ r', r = Some r' ∧ CIDRBlocks r' ≠ [] ∧ s = GoStrings.Join (CIDRBlocks r') ",".
Proof. unfold cidr. destruct r as [r|]; simpl; [case_bool_decide|]; naive_solver. Qed.

Lemma non_zero_spec z d :
  (z ≠ 0%Z → Some (non_zero z d) = Some z) ∧ (z = 0%Z → Some (non_zero z d) = Some d).
Proof.
  unfold non_zero. split; [intros Hz; by rewrite (proj2 (Z.eqb_neq _ _))|by intros ->].
Qed.

(** The parts of a configuration that was generated. *)
Lemma first_node_generated cfg out kp kp' :
  pair_of ClusterCA (in_PopulatedCertificates cfg) = Some kp →
  pair_of ClientClusterCA (in_PopulatedCertificates cfg) = Some kp' →
  GenerateInitControlPlaneConfig cfg = Ok out → first_node cfg out.
Proof.
  intros Hca Hcca. unfold GenerateInitControlPlaneConfig. rewrite seed_certificates. cbv zeta.
  rewrite seeded_ca, seeded_client_ca, Hca, Hcca, !bool_decide_false by done.
  destruct (datastore cfg) as [[[ty port] peer] servers] eqn:Hd. intros [= <-]. unfold datastore in Hd.
  split; try done; cbn.
  - intros Hm. rewrite (proj2 (orb_true_iff _ _)) in Hd by (rewrite !bool_decide_eq_true; done).
    simplify_eq. split; [done|]. split; [done|]. split_and!; apply non_zero_spec.
  - intros Hn1 Hn2. rewrite !bool_decide_false in Hd by done. by simplify_eq/=.
  - split; [done|]. intros v. apply non_empty_Some.
  - destruct (in_ClusterNetwork cfg) as [n|]; cbn -[Z.eqb]; [|naive_solver].
    split_and!; intros v; rewrite ?non_empty_Some, ?cidr_Some; [naive_solver| |naive_solver..].
    destruct (cn_APIServerPort n) as [u|] eqn:Hu; [|split; [done|intros (? & [= <-] & ? & _); congruence]].
    cbn -[Z.eqb]. destruct (Z.eqb_spec u 0) as [->|Hz]; split;
      [done|intros (? & [= <-] & ? & ?); congruence|intros [= <-]; by exists n|
       intros (? & [= <-] & ? & ?); congruence].
Qed.

(** C33: the configuration of the first node.  It fails exactly when the server or
    the client certificate authority has no key pair; otherwise it is the one that
    [first_node] says: every certificate and key is the one of its own purpose, a
    managed datastore gets the user's client and peer port, or 2379 and 2381, and no
    servers, an external one the servers and no ports, the features, the network, the
    taints and the arguments are the user's, and the names of the server certificate
    are the user's and the endpoint of the control plane. *)
Theorem GenerateInitControlPlaneConfig_spec cfg :
  let certs := in_PopulatedCertificates cfg in
  (is_ok (GenerateInitControlPlaneConfig cfg) = false ↔
     pair_of ClusterCA certs = None ∨ pair_of ClientClusterCA certs = None) ∧
  ∀ out, GenerateInitControlPlaneConfig cfg = Ok out → first_node cfg out.
Proof.
  cbv zeta. destruct (pair_of ClusterCA _) as [kp|] eqn:Hca, (pair_of ClientClusterCA _) as [kp'|] eqn:Hcca;
    [split; [|intros out; by eapply first_node_generated]|..];
    unfold GenerateInitControlPlaneConfig; rewrite seed_certificates; cbv zeta;
    rewrite seeded_ca, seeded_client_ca, Hca, Hcca; cbn; [|split; [tauto|done]..].
  destruct (datastore cfg) as [[[? ?] ?] ?]. cbn. naive_solver.
Qed.
End NodeConfig.

(** ** src/pkg/ck8s/k8sd_proxy_daemonset.go *)

Module K8sdProxy.
(** A parsed [text/template] whose only actions print a field. *)
Inductive node := Text (s : string) | Field (name : string).

(** [template.Execute] on a structure with these printed fields. *)
Fixpoint Execute (t : list node) (fields : string → option string) : gores string :=
  match t with
  | [] => Ok ""
  | Text s :: t => res_map (λ r, s +:+ r) (Execute t fields)
  | Field f :: t =>
      match fields f with
      | Some v => res_map (λ r, v +:+ r) (Execute t fields)
      | None => Err (ErrNew ("can't evaluate field " +:+ f))
      end
  end.

(** The text of src/pkg/ck8s/manifests/k8sd-proxy-template.yaml, parsed. *)
Definition k8sdProxyDaemonSetTemplate : list node :=
  [Text ("apiVersion: v1
kind: ConfigMap
metadata:
  name: k8sd-proxy-config
  namespace: kube-system
data:
  k8sd-port: " +:+ dquote); Field "K8sdPort"; Text (dquote +:+ "
---
apiVersion: apps/v1
kind: DaemonSet
metadata:
  name: k8sd-proxy
  namespace: kube-system
  labels:
    app: k8sd-proxy
spec:
  selector:
    matchLabels:
      app: k8sd-proxy
  template:
    metadata:
      labels:
        app: k8sd-proxy
    spec:
      tolerations:
      - key: node-role.kubernetes.io/control-plane
        operator: Exists
        effect: NoSchedule
      - key: node-role.kubernetes.io/master
        operator: Exists
        effect: NoSchedule
      containers:
      - name: k8sd-proxy
        image: ghcr.io/canonical/cluster-api-k8s/socat:1.8.0.0
        env:
        # TODO: Make this more robust by possibly finding/parsing the right IP.
        # This works as a start but might not be sufficient as the kubelet IP might not match microcluster IP.
        - name: HOSTIP
          valueFrom:
            fieldRef:
              fieldPath: status.hostIP
        - name: K8SD_PORT
          valueFrom:
            configMapKeyRef:
              name: k8sd-proxy-config
              key: k8sd-port
        args:
        # socat was closing the connection after 0.5s of inactivity, some
        # queries were taking longer than that.
        - -t 5
        - TCP4-LISTEN:2380,fork,reuseaddr,nodelay
        - TCP4:$(HOSTIP):$(K8SD_PORT),nodelay
      terminationGracePeriodSeconds: 30
")].

Record K8sdProxyDaemonSetInput := mkProxyInput { K8sdPort : Z }.

Definition RenderK8sdProxyDaemonSetManifest (input : K8sdProxyDaemonSetInput) : gores string :=
  Execute k8sdProxyDaemonSetTemplate
    (λ f, if bool_decide (f = "K8sdPort") then Some (pretty (K8sdPort input)) else None).

(** The manifest is always rendered, and the port is the only thing that varies. *)
Lemma Render_spec : ∃ pre post, ∀ p,
  RenderK8sdProxyDaemonSetManifest (mkProxyInput p) = Ok (pre +:+ pretty p +:+ post).
Proof. do 2 eexists. reflexivity. Qed.
End K8sdProxy.
