(* ===== verification/CloudInit.v ===== *)
(** src/pkg/cloudinit: the cloud-init user data of a node.  The YAML library and the
    parser of Kubernetes versions are parameters, and so are the contents of the
    embedded scripts. *)

From S2P Require Import Prelude Objects ApiTypes Effects Libs ApiServer.

Module CloudInit.

(** ** cloudinit.go, file.go, template.go, embed.go *)

(** [type File struct] *)
Record File := mkCloudFile {
  Content : string;
  Path : string;
  Permissions : string;
  Owner : string;
  Encoding : string;
}.

(** [type CloudConfig struct], over the values of [any]. *)
Record CloudConfig (any : Type) := mkCloudConfig {
  WriteFiles : list File;
  RunCommands : list string;
  BootCommands : list string;
  AdditionalUserData : gmap string any;
}.
Arguments mkCloudConfig {any}.
Arguments WriteFiles {any}.
Arguments RunCommands {any}.
Arguments BootCommands {any}.
Arguments AdditionalUserData {any}.

(** gopkg.in/yaml.v3, k8s.io/apimachinery/pkg/util/version (the major and minor
    number of a semantic version), and the embedded scripts. *)
Class CloudInitLib := {
  any : Type;
  any_string : string → any;
  yaml_Unmarshal : string → gores any;
  yaml_Encode : CloudConfig any → gores string;
  ParseSemantic : string → gores (Z * Z);
  embedded_script : string → string;
}.

Definition managedCloudInitFields : list string := ["bootcmd"; "runcmd"; "write_files"].
Definition GetManagedCloudInitFields : list string := managedCloudInitFields.

Definition script_names : list string :=
  ["install.sh"; "disable-host-services.sh"; "bootstrap.sh"; "load-images.sh"; "configure-auth-token.sh";
   "configure-proxy.sh"; "configure-node-token.sh"; "join-cluster.sh"; "wait-apiserver-ready.sh";
   "deploy-manifests.sh"; "create-sentinel-bootstrap.sh"; "configure-snapstore-proxy.sh"].

Definition newline : string := String "010"%char EmptyString.

(** ** common.go *)

Definition InstallOptionChannel : string := "channel".
Definition InstallOptionRevision : string := "revision".
Definition InstallOptionLocalPath : string := "local-path".

Record SnapInstallData := mkSnapInstall { Option : string; Value : string }.

Record BaseUserData := mkBaseUserData {
  KubernetesVersion : string;
  bd_SnapInstallData : option SnapInstallData;
  bd_BootCommands : list string;
  bd_PreRunCommands : list string;
  bd_PostRunCommands : list string;
  bd_AdditionalUserData : strmap;
  bd_BootstrapConfig : string;
  ExtraFiles : list File;
  ConfigFileContents : string;
  bd_AirGapped : bool;
  bd_SnapstoreProxyScheme : string;
  bd_SnapstoreProxyDomain : string;
  bd_SnapstoreProxyID : string;
  bd_HTTPProxy : string;
  bd_HTTPSProxy : string;
  bd_NoProxy : string;
  bd_MicroclusterAddress : string;
  bd_MicroclusterPort : Z;
  bd_NodeName : string;
  NodeToken : string;
}.

(** A file of the root user that the user alone may read. *)
Definition root_file (path content : string) : File := mkCloudFile content path "0400" "root:root" "".

(** [net.JoinHostPort] *)
Definition JoinHostPort (host port : string) : string :=
  if GoStrings.contains ":" host then "[" +:+ host +:+ "]:" +:+ port
  else host +:+ ":" +:+ port.

Definition makeMicroclusterAddress (address : string) (port : Z) : string := JoinHostPort address (pretty port).

(** A nil slice is an empty one: the callers only ask whether it is nil. *)
Definition getSnapstoreProxyConfigFiles (data : BaseUserData) : list File :=
  let scheme := if bool_decide (bd_SnapstoreProxyScheme data = "") then "http"
                else bd_SnapstoreProxyScheme data in
  if bool_decide (bd_SnapstoreProxyDomain data = "") || bool_decide (bd_SnapstoreProxyID data = "") then []
  else [root_file "/capi/etc/snapstore-proxy-scheme" scheme;
        root_file "/capi/etc/snapstore-proxy-domain" (bd_SnapstoreProxyDomain data);
        root_file "/capi/etc/snapstore-proxy-id" (bd_SnapstoreProxyID data)].

Definition getProxyConfigFiles (data : BaseUserData) : list File :=
  let file path content := if bool_decide (content = "") then [] else [root_file path content] in
  file "/capi/etc/http-proxy" (bd_HTTPProxy data) ++ file "/capi/etc/https-proxy" (bd_HTTPSProxy data) ++
  file "/capi/etc/no-proxy" (bd_NoProxy data).

Section CloudInit.
Context `{!CloudInitLib}.

(** [ToYAML] of the template functions; the encoder indents by two. *)
Definition templateToYAML (v : CloudConfig any) : gores string := yaml_Encode v.

(** The template is [scripts/cloud-config-template]. *)
Definition GenerateCloudConfig (config : CloudConfig any) : gores string :=
  match templateToYAML config with
  | Err e => Err (wrapf "failed to render cloud-config" e)
  | Ok y => Ok ("## template: jinja" +:+ newline +:+ "#cloud-config" +:+ newline +:+ y)
  end.

(** The order in which [range] visits the input does not matter. *)
Definition FormatAdditionalUserData (input : strmap) : gmap string any :=
  map_imap (λ key value,
    if bool_decide (key ∈ managedCloudInitFields) then None
    else Some (match yaml_Unmarshal value with Ok parsedData => parsedData | Err _ => any_string value end)) input.

Definition scripts : strmap := list_to_map (map (λ s, (s, embedded_script s)) script_names).

Definition script_file (s : string) : File :=
  mkCloudFile (default "" (scripts !! s)) ("/capi/scripts/" +:+ s) "0500" "root:root" "".

(** The snap install data, and the channel of the version without any. *)
Definition snap_install (data : BaseUserData) (version : Z * Z) : SnapInstallData :=
  let by_version := mkSnapInstall InstallOptionChannel
    (pretty version.1 +:+ "." +:+ pretty version.2 +:+ "-classic/stable") in
  match bd_SnapInstallData data with
  | None => by_version
  | Some s => if bool_decide (Option s = "") then by_version else s
  end.

(** The files that the configuration writes after the user's. *)
Definition base_files (data : BaseUserData) (snapInstall : SnapInstallData) : list File :=
  [root_file "/capi/etc/config.yaml"
     (if bool_decide (bd_BootstrapConfig data = "") then ConfigFileContents data else bd_BootstrapConfig data);
   root_file "/capi/etc/node-token" (NodeToken data);
   root_file "/capi/etc/microcluster-address"
     (makeMicroclusterAddress (bd_MicroclusterAddress data) (bd_MicroclusterPort data));
   root_file "/capi/etc/node-name" (bd_NodeName data);
   root_file ("/capi/etc/snap-" +:+ Option snapInstall) (Value snapInstall)].

(** [if files != nil { append the files and the script that uses them }] *)
Definition with_files (files : list File) (command : string) : go (CloudConfig any) (gores (CloudConfig any)) unit :=
  when (negb (bool_decide (files = [])))
    (modify (λ c, mkCloudConfig (WriteFiles c ++ files) (RunCommands c ++ [command]) (BootCommands c)
                    (AdditionalUserData c))).

Definition NewBaseCloudConfig (data : BaseUserData) : prog (gores (CloudConfig any)) :=
  func_with (
    kubernetesVersion ← check (mret (ParseSemantic (KubernetesVersion data)))
      (λ e, Err (wrapf ("failed to parse kubernetes version " +:+ quote (KubernetesVersion data)) e));
    let snapInstall := snap_install data kubernetesVersion in
    modify (λ c, mkCloudConfig (WriteFiles c) (RunCommands c) (BootCommands c)
                   (FormatAdditionalUserData (bd_AdditionalUserData data))) ;;
    ks ← range scripts;
    for_each ks (λ script,
      modify (λ c, mkCloudConfig (WriteFiles c ++ [script_file script]) (RunCommands c) (BootCommands c)
                     (AdditionalUserData c))) ;;
    with_files (getSnapstoreProxyConfigFiles data) "/capi/scripts/configure-snapstore-proxy.sh" ;;
    with_files (getProxyConfigFiles data) "/capi/scripts/configure-proxy.sh" ;;
    modify (λ c, mkCloudConfig (WriteFiles c ++ ExtraFiles data ++ base_files data snapInstall) (RunCommands c)
                   (bd_BootCommands data) (AdditionalUserData c)) ;;
    config ← get;
    mret (Ok config)) (mkCloudConfig [] ["set -x"] [] ∅).

(** ** controlplane_init.go, controlplane_join.go, worker_join.go *)

Record InitControlPlaneInput := mkInitControlPlane {
  init_Base : BaseUserData;
  AuthToken : string;
  K8sdProxyDaemonSet : string;
}.
Record JoinControlPlaneInput := mkJoinControlPlane { joincp_Base : BaseUserData; joincp_JoinToken : string }.
Record JoinWorkerInput := mkJoinWorker { joinw_Base : BaseUserData; joinw_JoinToken : string }.

(** What the three functions append to a base configuration. *)
Definition extend (data : BaseUserData) (files : list File) (commands : list string) (c : CloudConfig any)
    : CloudConfig any :=
  mkCloudConfig (WriteFiles c ++ files)
    (RunCommands c ++ bd_PreRunCommands data ++
     (if bd_AirGapped data then [] else ["/capi/scripts/install.sh"]) ++ commands ++ bd_PostRunCommands data)
    (BootCommands c) (AdditionalUserData c).

Definition NewInitControlPlane (input : InitControlPlaneInput) : prog (gores (CloudConfig any)) :=
  func (
    config ← check (callp (NewBaseCloudConfig (init_Base input)))
      (λ e, Err (wrapf "failed to generate base cloud-config" e));
    mret (Ok (extend (init_Base input)
      [root_file "/capi/etc/token" (AuthToken input);
       root_file "/capi/manifests/00-k8sd-proxy.yaml" (K8sdProxyDaemonSet input)]
      ["/capi/scripts/disable-host-services.sh"; "/capi/scripts/bootstrap.sh"; "/capi/scripts/load-images.sh";
       "/capi/scripts/wait-apiserver-ready.sh"; "/capi/scripts/deploy-manifests.sh";
       "/capi/scripts/configure-auth-token.sh"; "/capi/scripts/configure-node-token.sh";
       "/capi/scripts/create-sentinel-bootstrap.sh"] config))).

Definition NewJoinControlPlane (input : JoinControlPlaneInput) : prog (gores (CloudConfig any)) :=
  func (
    config ← check (callp (NewBaseCloudConfig (joincp_Base input)))
      (λ e, Err (wrapf "failed to generate base cloud-config" e));
    mret (Ok (extend (joincp_Base input) [root_file "/capi/etc/join-token" (joincp_JoinToken input)]
      ["/capi/scripts/disable-host-services.sh"; "/capi/scripts/load-images.sh"; "/capi/scripts/join-cluster.sh";
       "/capi/scripts/wait-apiserver-ready.sh"; "/capi/scripts/configure-node-token.sh";
       "/capi/scripts/create-sentinel-bootstrap.sh"] config))).

Definition NewJoinWorker (input : JoinWorkerInput) : prog (gores (CloudConfig any)) :=
  func (
    config ← check (callp (NewBaseCloudConfig (joinw_Base input)))
      (λ e, Err (wrapf "failed to generate base cloud-config" e));
    mret (Ok (extend (joinw_Base input) [root_file "/capi/etc/join-token" (joinw_JoinToken input)]
      ["/capi/scripts/disable-host-services.sh"; "/capi/scripts/load-images.sh"; "/capi/scripts/join-cluster.sh";
       "/capi/scripts/configure-node-token.sh"; "/capi/scripts/create-sentinel-bootstrap.sh"] config))).
End CloudInit.

(** [FilesFromAPI] *)
Definition FilesFromAPI (files : list ApiTypes.File) : list File :=
  map (λ f, mkCloudFile (f_Content f) (f_Path f) (f_Permissions f) (f_Owner f) (f_Encoding f)) files.

(** ** What a node is told to do *)

Section Spec.
Context `{!CloudInitLib}.

(** The three kinds of nodes. *)
Inductive node :=
  | InitNode (i : InitControlPlaneInput)
  | JoinNode (i : JoinControlPlaneInput)
  | WorkerNode (i : JoinWorkerInput).

Definition base (n : node) : BaseUserData :=
  match n with InitNode i => init_Base i | JoinNode i => joincp_Base i | WorkerNode i => joinw_Base i end.

Definition cloud_config (n : node) : prog (gores (CloudConfig any)) :=
  match n with
  | InitNode i => NewInitControlPlane i
  | JoinNode i => NewJoinControlPlane i
  | WorkerNode i => NewJoinWorker i
  end.

(** A file that root alone may read. *)
Definition secret_file (path content : string) : File :=
  {| Content := content; Path := path; Permissions := "0400"; Owner := "root:root"; Encoding := "" |}.

(** The snap to install: what the user chose, or the channel of the version. *)
Definition snap_setting (data : BaseUserData) (version : Z * Z) : string * string :=
  match bd_SnapInstallData data with
  | Some (mkSnapInstall (String c o) value) => ("/capi/etc/snap-" +:+ String c o, value)
  | _ => ("/capi/etc/snap-channel", pretty version.1 +:+ "." +:+ pretty version.2 +:+ "-classic/stable")
  end.

(** The settings that the scripts read, by path: the user's bootstrap configuration,
    or else the generated one, ... *)
Definition settings (n : node) (version : Z * Z) : list (string * string) :=
  let data := base n in
  [("/capi/etc/config.yaml", match bd_BootstrapConfig data with "" => ConfigFileContents data | user => user end);
   ("/capi/etc/node-token", NodeToken data);
   ("/capi/etc/microcluster-address",
      JoinHostPort (bd_MicroclusterAddress data) (pretty (bd_MicroclusterPort data)));
   ("/capi/etc/node-name", bd_NodeName data);
   snap_setting data version] ++
  match n with
  | InitNode i => [("/capi/etc/token", AuthToken i); ("/capi/manifests/00-k8sd-proxy.yaml", K8sdProxyDaemonSet i)]
  | JoinNode i => [("/capi/etc/join-token", joincp_JoinToken i)]
  | WorkerNode i => [("/capi/etc/join-token", joinw_JoinToken i)]
  end.

(** The settings of proxies: of the snap store, when its domain and id are given, with
    the scheme http unless there is another; and the three of the environment that are
    given. *)
Inductive proxy_setting (data : BaseUserData) : string → string → Prop :=
  | ps_scheme :
      bd_SnapstoreProxyDomain data ≠ "" → bd_SnapstoreProxyID data ≠ "" → bd_SnapstoreProxyScheme data ≠ "" →
      proxy_setting data "/capi/etc/snapstore-proxy-scheme" (bd_SnapstoreProxyScheme data)
  | ps_http_scheme :
      bd_SnapstoreProxyDomain data ≠ "" → bd_SnapstoreProxyID data ≠ "" → bd_SnapstoreProxyScheme data = "" →
      proxy_setting data "/capi/etc/snapstore-proxy-scheme" "http"
  | ps_domain :
      bd_SnapstoreProxyDomain data ≠ "" → bd_SnapstoreProxyID data ≠ "" →
      proxy_setting data "/capi/etc/snapstore-proxy-domain" (bd_SnapstoreProxyDomain data)
  | ps_id :
      bd_SnapstoreProxyDomain data ≠ "" → bd_SnapstoreProxyID data ≠ "" →
      proxy_setting data "/capi/etc/snapstore-proxy-id" (bd_SnapstoreProxyID data)
  | ps_http : bd_HTTPProxy data ≠ "" → proxy_setting data "/capi/etc/http-proxy" (bd_HTTPProxy data)
  | ps_https : bd_HTTPSProxy data ≠ "" → proxy_setting data "/capi/etc/https-proxy" (bd_HTTPSProxy data)
  | ps_no_proxy : bd_NoProxy data ≠ "" → proxy_setting data "/capi/etc/no-proxy" (bd_NoProxy data).

(** The scripts that put the proxies into effect run when there is one. *)
Definition setup (data : BaseUserData) : list string :=
  (match bd_SnapstoreProxyDomain data, bd_SnapstoreProxyID data with
   | "", _ | _, "" => []
   | _, _ => ["/capi/scripts/configure-snapstore-proxy.sh"]
   end) ++
  (match bd_HTTPProxy data, bd_HTTPSProxy data, bd_NoProxy data with
   | "", "", "" => []
   | _, _, _ => ["/capi/scripts/configure-proxy.sh"]
   end).

(** The installation, and the scripts of the kind of node. *)
Definition steps (n : node) : list string :=
  (if bd_AirGapped (base n) then [] else ["/capi/scripts/install.sh"]) ++
  match n with
  | InitNode _ =>
      ["/capi/scripts/disable-host-services.sh"; "/capi/scripts/bootstrap.sh"; "/capi/scripts/load-images.sh";
       "/capi/scripts/wait-apiserver-ready.sh"; "/capi/scripts/deploy-manifests.sh";
       "/capi/scripts/configure-auth-token.sh"; "/capi/scripts/configure-node-token.sh";
       "/capi/scripts/create-sentinel-bootstrap.sh"]
  | JoinNode _ =>
      ["/capi/scripts/disable-host-services.sh"; "/capi/scripts/load-images.sh"; "/capi/scripts/join-cluster.sh";
       "/capi/scripts/wait-apiserver-ready.sh"; "/capi/scripts/configure-node-token.sh";
       "/capi/scripts/create-sentinel-bootstrap.sh"]
  | WorkerNode _ =>
      ["/capi/scripts/disable-host-services.sh"; "/capi/scripts/load-images.sh"; "/capi/scripts/join-cluster.sh";
       "/capi/scripts/configure-node-token.sh"; "/capi/scripts/create-sentinel-bootstrap.sh"]
  end.

(** Literal strings that differ. *)
Ltac not_among := rewrite ?not_elem_of_cons; repeat split; try done; by apply not_elem_of_nil.
Ltac distinct := repeat (apply list.NoDup_cons; split; [not_among|]); apply NoDup_nil_2.

(** The file that is at a path once cloud-init has written all, in order. *)
Definition written_at (path : string) (fs : list File) : option File :=
  list.last (List.filter (λ f, bool_decide (Path f = path)) fs).

Lemma written_at_own (fs own : list File) f :
  NoDup (Path <$> own) → f ∈ own → written_at (Path f) (fs ++ own) = Some f.
Proof.
  intros Hnd Hf. unfold written_at. rewrite List.filter_app.
  enough (List.filter (λ g, bool_decide (Path g = Path f)) own = [f]) as -> by apply list.last_snoc.
  induction own as [|g own IH]; [by apply elem_of_nil in Hf|]. simpl in *.
  apply list.NoDup_cons in Hnd as [Hg Hnd]. apply elem_of_cons in Hf as [->|Hf].
  - rewrite bool_decide_true by done. f_equal. clear IH Hnd. induction own as [|h own IH]; [done|]. simpl in *.
    rewrite bool_decide_false; [apply IH; set_solver|]. intros He. apply Hg. rewrite <- He. set_solver.
  - rewrite bool_decide_false; [by apply IH|]. intros He. apply Hg. rewrite He. apply list_elem_of_fmap. by exists f.
Qed.

(** A path that nothing later writes. *)
Lemma written_at_before path (fs after : list File) :
  path ∉ Path <$> after → written_at path (fs ++ after) = written_at path fs.
Proof.
  intros Hp. unfold written_at. rewrite List.filter_app.
  enough (List.filter (λ f, bool_decide (Path f = path)) after = []) as -> by by rewrite app_nil_r.
  induction after as [|f after IH]; [done|]. simpl. rewrite bool_decide_false; [apply IH; set_solver|].
  intros He. apply Hp. rewrite <- He. set_solver.
Qed.

(** The base configuration: the scripts in some order, the proxy files, the user's
    files, the files of the scripts; and the commands so far. *)
Definition base_spec (data : BaseUserData) (r : gores (CloudConfig any)) : Prop :=
  match r with
  | Err _ => ∃ e, ParseSemantic (KubernetesVersion data) = Err e
  | Ok c => ∃ version ks, ParseSemantic (KubernetesVersion data) = Ok version ∧ ks ≡ₚ (map_to_list scripts).*1 ∧
      WriteFiles c = ((map script_file ks ++ getSnapstoreProxyConfigFiles data ++ getProxyConfigFiles data) ++
                       ExtraFiles data ++ base_files data (snap_install data version)) ∧
      RunCommands c = "set -x" :: setup data ∧ BootCommands c = bd_BootCommands data ∧
      AdditionalUserData c = FormatAdditionalUserData (bd_AdditionalUserData data)
  end.

Lemma with_files_eq files command c :
  with_files files command c =
  Ret (mkCloudConfig (WriteFiles c ++ files)
         (RunCommands c ++ if bool_decide (files = []) then [] else [command]) (BootCommands c)
         (AdditionalUserData c), inl tt).
Proof.
  unfold with_files, when. case_bool_decide as Hf; simpl; [|done]. subst. rewrite !app_nil_r. by destruct c.
Qed.

(** The commands of the code are those of the table. *)
Lemma setup_commands data :
  setup data =
  (if bool_decide (getSnapstoreProxyConfigFiles data = []) then [] else ["/capi/scripts/configure-snapstore-proxy.sh"]) ++
  (if bool_decide (getProxyConfigFiles data = []) then [] else ["/capi/scripts/configure-proxy.sh"]).
Proof.
  unfold setup, getSnapstoreProxyConfigFiles, getProxyConfigFiles. f_equal.
  - by destruct (bd_SnapstoreProxyDomain data), (bd_SnapstoreProxyID data).
  - by destruct (bd_HTTPProxy data), (bd_HTTPSProxy data), (bd_NoProxy data).
Qed.

Lemma NewBaseCloudConfig_spec data : reads_post (NewBaseCloudConfig data) (base_spec data).
Proof.
  unfold reads_post, NewBaseCloudConfig. wp_run.
  destruct (ParseSemantic (KubernetesVersion data)) as [version|e] eqn:Hv; [|simpl; eauto]. wp_run.
  apply gwp_call; [done|]. intros ks [] Hks _. wp_run.
  apply (gwp_for_each _ _ (λ d _ _ c, c = mkCloudConfig (map script_file d) ["set -x"] []
    (FormatAdditionalUserData (bd_AdditionalUserData data)))); [done| |].
  - intros d k rest [] c _ ->. wp_run. simpl. by rewrite map_app.
  - intros [] c ->. apply gwp_bind. unfold gwp at 1. rewrite with_files_eq. simpl.
    apply gwp_bind. unfold gwp at 1. rewrite with_files_eq. simpl. wp_run.
    exists version, ks. split; [done|]. split; [done|]. simpl. rewrite setup_commands, <- !(assoc_L (++)).
    done.
Qed.

(** The files of the code are those of the tables. *)
Lemma base_settings data version path content :
  snap_setting data version = (path, content) →
  root_file ("/capi/etc/snap-" +:+ Option (snap_install data version)) (Value (snap_install data version)) =
  secret_file path content.
Proof.
  unfold snap_setting, snap_install. intros Hs. destruct (bd_SnapInstallData data) as [[[|c o] value]|];
    by injection Hs; clear Hs; intros <- <-.
Qed.

Lemma settings_base n version :
  uncurry secret_file <$> settings n version =
  base_files (base n) (snap_install (base n) version) ++ (uncurry secret_file <$> drop 5 (settings n version)).
Proof.
  unfold settings. destruct (snap_setting (base n) version) as [path content] eqn:Hs. simpl.
  unfold base_files. rewrite (base_settings _ _ _ _ Hs). by destruct (bd_BootstrapConfig (base n)), n.
Qed.

Lemma proxy_files data f :
  f ∈ getSnapstoreProxyConfigFiles data ++ getProxyConfigFiles data ↔
  ∃ path content, proxy_setting data path content ∧ f = secret_file path content.
Proof.
  split.
  - unfold getSnapstoreProxyConfigFiles, getProxyConfigFiles. rewrite !elem_of_app.
    repeat case_bool_decide; simpl; rewrite ?elem_of_cons, ?elem_of_nil; intros Hf; destruct_or?; try done; subst;
      eexists _, _; (split; [|reflexivity]); by constructor.
  - intros (path & content & Hp & ->). rewrite !elem_of_app.
    destruct Hp; unfold getSnapstoreProxyConfigFiles, getProxyConfigFiles; [left..|right|right|right];
      cbv zeta; rewrite ?elem_of_app; repeat case_bool_decide; simpl; rewrite ?elem_of_cons; try done; tauto.
Qed.

Lemma settings_paths n version :
  (settings n version).*1 =
  ["/capi/etc/config.yaml"; "/capi/etc/node-token"; "/capi/etc/microcluster-address"; "/capi/etc/node-name";
   "/capi/etc/snap-" +:+ Option (snap_install (base n) version)] ++
  match n with
  | InitNode _ => ["/capi/etc/token"; "/capi/manifests/00-k8sd-proxy.yaml"]
  | _ => ["/capi/etc/join-token"]
  end.
Proof.
  unfold settings, snap_setting, snap_install.
  destruct (bd_SnapInstallData (base n)) as [[[|c o] value]|], n; reflexivity.
Qed.

Lemma secret_paths (l : list (string * string)) : Path <$> (uncurry secret_file <$> l) = l.*1.
Proof. rewrite <- list_fmap_compose. apply list_fmap_ext. by intros ? [? ?]. Qed.

Lemma settings_NoDup n version : NoDup (settings n version).*1.
Proof.
  rewrite settings_paths. destruct n; simpl; distinct.
Qed.

Lemma scripts_lookup s : s ∈ script_names → s ∈ (map_to_list scripts).*1.
Proof.
  intros Hs. apply list_elem_of_fmap. exists (s, embedded_script s). split; [done|].
  apply elem_of_map_to_list. unfold scripts. apply elem_of_list_to_map_1.
  - change (NoDup script_names). unfold script_names.
    distinct.
  - apply list_elem_of_fmap. by exists s.
Qed.

(** Every command of the configuration itself runs a script that it writes. *)
Lemma command_scripts n c : c ∈ setup (base n) ++ steps n → ∃ s, s ∈ script_names ∧ c = "/capi/scripts/" +:+ s.
Proof.
  assert (∀ l, Forall (λ c, existsb (λ s, bool_decide (c = "/capi/scripts/" +:+ s)) script_names = true) l →
    c ∈ l → ∃ s, s ∈ script_names ∧ c = "/capi/scripts/" +:+ s) as Hl.
  { intros l Hl Hc. rewrite list.Forall_forall in Hl. apply Hl, existsb_exists in Hc as (s & Hs & He).
    exists s. split; [by apply list_elem_of_In|]. by apply bool_decide_eq_true in He. }
  apply Hl. unfold setup, steps. repeat apply Forall_app_2.
  all: repeat case_match; repeat (constructor; [reflexivity|]); constructor.
Qed.

(** The proxy files are at some of six paths. *)
Lemma proxy_paths data :
  Path <$> (getSnapstoreProxyConfigFiles data ++ getProxyConfigFiles data) `sublist_of`
  ["/capi/etc/snapstore-proxy-scheme"; "/capi/etc/snapstore-proxy-domain"; "/capi/etc/snapstore-proxy-id";
   "/capi/etc/http-proxy"; "/capi/etc/https-proxy"; "/capi/etc/no-proxy"].
Proof.
  unfold getSnapstoreProxyConfigFiles, getProxyConfigFiles. cbv zeta.
  repeat case_bool_decide; simpl; repeat constructor.
Qed.

Lemma early_NoDup data ks :
  ks ≡ₚ (map_to_list scripts).*1 →
  NoDup (Path <$> (map script_file ks ++ getSnapstoreProxyConfigFiles data ++ getProxyConfigFiles data)).
Proof.
  intros Hks. rewrite fmap_app. apply list.NoDup_app. split; [|split].
  - change (map script_file ks) with (script_file <$> ks). rewrite <- list_fmap_compose.
    apply list.NoDup_fmap_2_strong; [|rewrite Hks; apply NoDup_fst_map_to_list].
    intros s t _ _ He. by injection He.
  - intros path Hs. apply list_elem_of_fmap in Hs as (f & -> & Hs). apply list_elem_of_fmap in Hs as (s & -> & _).
    intros Hp. eapply elem_of_sublist in Hp; [|apply proxy_paths].
    rewrite !elem_of_cons, elem_of_nil in Hp. simpl in Hp. by destruct_or? Hp.
  - eapply sublist_NoDup; [|apply proxy_paths].
    distinct.
Qed.

(** No setting is at the path of a script or of a proxy file. *)
Lemma early_not_settings data n version ks f :
  f ∈ map script_file ks ++ getSnapstoreProxyConfigFiles data ++ getProxyConfigFiles data →
  Path f ∉ (settings n version).*1.
Proof.
  intros Hf. rewrite elem_of_app in Hf. rewrite settings_paths. destruct Hf as [Hf|Hf].
  - apply list_elem_of_fmap in Hf as (s & -> & _). destruct n; simpl; not_among.
  - apply (list_elem_of_fmap_2 Path) in Hf. eapply elem_of_sublist in Hf; [|apply proxy_paths].
    rewrite !elem_of_cons, elem_of_nil in Hf.
    destruct n; simpl; destruct_or? Hf; try done; rewrite Hf; not_among.
Qed.

(** A file that the configuration writes and that only the user's files may replace. *)
Definition writes (c : CloudConfig any) (extra : list File) (f : File) : Prop :=
  f ∈ WriteFiles c ∧ (Path f ∉ Path <$> extra → written_at (Path f) (WriteFiles c) = Some f).

(** The executable file of a script. *)
Definition script (name : string) : File :=
  {| Content := embedded_script name; Path := "/capi/scripts/" +:+ name; Permissions := "0500";
     Owner := "root:root"; Encoding := "" |}.

(** The files: the settings win over the user's files; the scripts of the commands and
    the settings of the proxies are there; and there is nothing else. *)
Definition follows_files (n : node) (version : Z * Z) (c : CloudConfig any) : Prop :=
  let extra := ExtraFiles (base n) in
  (∀ path content, (path, content) ∈ settings n version →
     written_at path (WriteFiles c) = Some (secret_file path content)) ∧
  (∀ path content, proxy_setting (base n) path content → writes c extra (secret_file path content)) ∧
  (∀ command, command ∈ setup (base n) ++ steps n →
     ∃ name, command = "/capi/scripts/" +:+ name ∧ writes c extra (script name)) ∧
  (∀ f, f ∈ extra → f ∈ WriteFiles c) ∧
  ∀ f, f ∈ WriteFiles c →
    f ∈ extra ∨ (∃ name, name ∈ script_names ∧ f = script name) ∨
    ∃ path content, f = secret_file path content ∧
      ((path, content) ∈ settings n version ∨ proxy_setting (base n) path content).

(** The user data that is passed on: parsed, or else as it is, without the fields that
    are the controller's. *)
Definition follows_user_data (data : BaseUserData) (c : CloudConfig any) : Prop :=
  ∀ k v, AdditionalUserData c !! k = Some v ↔
    ∃ text, bd_AdditionalUserData data !! k = Some text ∧ (k ∉ ["bootcmd"; "runcmd"; "write_files"]) ∧
      match yaml_Unmarshal text with Ok parsed => v = parsed | Err _ => v = any_string text end.

(** A configuration that follows the node. *)
Definition follows (n : node) (c : CloudConfig any) : Prop :=
  ∃ version, ParseSemantic (KubernetesVersion (base n)) = Ok version ∧
    RunCommands c = "set -x" :: setup (base n) ++ bd_PreRunCommands (base n) ++ steps n ++
                    bd_PostRunCommands (base n) ∧
    follows_files n version c ∧ BootCommands c = bd_BootCommands (base n) ∧ follows_user_data (base n) c.

Lemma format_spec d k v :
  FormatAdditionalUserData d !! k = Some v ↔
  ∃ text, d !! k = Some text ∧ (k ∉ ["bootcmd"; "runcmd"; "write_files"]) ∧
    match yaml_Unmarshal text with Ok parsed => v = parsed | Err _ => v = any_string text end.
Proof.
  unfold FormatAdditionalUserData. rewrite map_lookup_imap.
  destruct (d !! k) as [t|]; simpl; [|naive_solver]. unfold managedCloudInitFields.
  case_bool_decide as Hk; [naive_solver|]. destruct (yaml_Unmarshal t) eqn:Ht; split.
  - intros [= <-]. exists t. by rewrite Ht.
  - intros (? & [= <-] & _ & Hv). rewrite Ht in Hv. by subst.
  - intros [= <-]. exists t. by rewrite Ht.
  - intros (? & [= <-] & _ & Hv). rewrite Ht in Hv. by subst.
Qed.

Lemma scripts_script s : s ∈ (map_to_list scripts).*1 → s ∈ script_names ∧ script_file s = script s.
Proof.
  intros Hs. apply list_elem_of_fmap in Hs as ([s' v] & -> & Hs). apply elem_of_map_to_list in Hs. simpl in *.
  unfold script_file, script. rewrite Hs. unfold scripts in Hs. apply elem_of_list_to_map_2 in Hs.
  apply list_elem_of_fmap in Hs as (t & [= -> ->] & Ht). done.
Qed.

Lemma own_follows n version ks own c :
  ks ≡ₚ (map_to_list scripts).*1 → own = uncurry secret_file <$> settings n version →
  WriteFiles c = (map script_file ks ++ getSnapstoreProxyConfigFiles (base n) ++ getProxyConfigFiles (base n)) ++
                 ExtraFiles (base n) ++ own →
  follows_files n version c.
Proof.
  intros Hks -> Hw.
  assert (∀ f, f ∈ map script_file ks ++ getSnapstoreProxyConfigFiles (base n) ++ getProxyConfigFiles (base n) →
    writes c (ExtraFiles (base n)) f) as Hearly.
  { intros f Hf. split; [rewrite Hw; apply elem_of_app; by left|]. intros Hx. rewrite Hw, written_at_before.
    - apply (written_at_own []); [by apply early_NoDup|done].
    - rewrite fmap_app, secret_paths, elem_of_app. intros [?|Hs]; [done|]. revert Hs. by eapply early_not_settings. }
  split; [|split; [|split; [|split]]].
  - intros path content Hs. rewrite Hw, (assoc_L (++)). apply (written_at_own _ _ (secret_file path content)).
    + rewrite secret_paths. apply settings_NoDup.
    + apply list_elem_of_fmap. by exists (path, content).
  - intros path content Hp. apply Hearly. rewrite elem_of_app. right. apply proxy_files. eauto.
  - intros command Hc. apply command_scripts in Hc as (s & Hs & ->). exists s. split; [done|].
    apply scripts_lookup in Hs. rewrite <- (proj2 (scripts_script s Hs)). apply Hearly, elem_of_app. left.
    apply list_elem_of_fmap. exists s. by rewrite Hks.
  - intros f Hf. rewrite Hw. apply elem_of_app. right. apply elem_of_app. by left.
  - intros f. rewrite Hw, elem_of_app, !(elem_of_app (ExtraFiles _)), elem_of_app.
    intros [[Hf|Hf]|[Hf|Hf]]; [..|by left|].
    + apply list_elem_of_fmap in Hf as (s & -> & Hs). rewrite Hks in Hs. apply scripts_script in Hs as [Hs ->]. eauto.
    + apply proxy_files in Hf as (path & content & Hp & ->). right. right. eauto 6.
    + apply list_elem_of_fmap in Hf as ([path content] & -> & Hs). right. right. exists path, content. simpl. eauto.
Qed.

Lemma extend_follows n c files commands :
  (∀ version, uncurry secret_file <$> drop 5 (settings n version) = files) →
  steps n = (if bd_AirGapped (base n) then [] else ["/capi/scripts/install.sh"]) ++ commands →
  base_spec (base n) (Ok c) → follows n (extend (base n) files commands c).
Proof.
  intros Hown Hsteps (version & ks & Hv & Hks & Hw & Hr & Hb & Ha). exists version. split; [done|].
  unfold extend. cbn [RunCommands BootCommands]. rewrite Hr, Hsteps.
  split; [simpl; by rewrite <- !(assoc_L (++))|]. split; [|split; [done|]].
  - eapply own_follows; [exact Hks|reflexivity|]. cbn [WriteFiles]. rewrite Hw, settings_base, (Hown version).
    by rewrite <- !(assoc_L (++)).
  - unfold follows_user_data. simpl. rewrite Ha. apply format_spec.
Qed.

(** C34: what a new node is told to do.  The configuration fails only when
    the Kubernetes version does not parse.  Otherwise the commands are the set-up
    of the proxies that are given, the user's commands before, the installation - not
    of an air-gapped node - and the scripts of the kind of node, and the user's commands
    after, in this order.  The configuration, the tokens, the address, the name, the
    snap and the manifest are each written at the path that the scripts read, with
    their own content, readable by root alone (0400, root:root), and no file of the
    user replaces them.  Every script that the commands run is written, executable by
    root alone (0500), and so is every setting of a proxy (0400); only a file of the
    user at the same path replaces one.  Nothing else is written, and the user data
    that is passed on cannot redefine the fields that the controller manages. *)
Theorem cloud_config_spec n :
  reads_post (cloud_config n) (λ r,
    match r with
    | Err _ => ∃ e, ParseSemantic (KubernetesVersion (base n)) = Err e
    | Ok c => follows n c
    end).
Proof.
  pose proof (NewBaseCloudConfig_spec (base n)) as Hb. unfold reads_post in *.
  destruct n as [i|i|i]; simpl in Hb |- *; unfold NewInitControlPlane, NewJoinControlPlane, NewJoinWorker; wp_run;
    (eapply wp_mono; [exact Hb|]); intros [] [c|e] Hc; wp_run; try exact Hc;
    by apply extend_follows.
Qed.
End Spec.
End CloudInit.
