(* ===== verification/MachineUpgrade.v ===== *)
(** src/bootstrap/controllers/upgrade_controller.go: the in-place upgrade of one
    machine, a state machine kept in the machine's annotations.

    The handlers mutate the machine of the scope; [us_Before] is the snapshot of
    the patch helper, taken once per reconciliation and used for every patch. *)

From S2P Require Import Prelude Objects ApiTypes Effects Libs RefLibs ApiServer RefServer.
From S2P Require Import Token Workload Inplace.

Module MachineUpgrade.
(** [type UpgradeScope struct]; the machine is the state of the handlers. *)
Record UpgradeScope := mkUpgradeScope {
  us_Cluster : Cluster;
  us_WorkloadCluster : Workload;
  us_Before : Machine;
  us_UpgradeOption : string;
}.

Section Handlers.
Context `{!ApiErrors, !MetaLib, !K8sdApi, !TimeFormat}.
Implicit Types (scope : UpgradeScope).

(** Writing to the annotation map of the machine: a nil map panics. *)
Definition write_annotations {R} (f : strmap → strmap) : go Machine R unit :=
  m ← get;
  match om_Annotations (m_meta m) with
  | Some a => modify (set_m_Annotations (Some (f a)))
  | None => panic "assignment to entry in nil map"
  end.
(** Deleting from it: a nil map stays nil. *)
Definition delete_annotations {R} (f : strmap → strmap) : go Machine R unit :=
  modify (λ m, set_m_Annotations (f <$> om_Annotations (m_meta m)) m).

(** [scope.PatchHelper.Patch(ctx, scope.Machine)] *)
Definition patch {R} scope (h : error → R) : go Machine R unit :=
  m ← get;
  check (call (Patch KMachine (us_Before scope) m))
    (λ e, h (wrapf "failed to patch machine annotations" e)) ;;
  mret tt.

Definition event {R} scope (t : EventType) (reason msg : string) : go Machine R unit :=
  m ← get;
  call (Eventf (key_of (m_meta m)) t reason msg).

Definition markUpgradeInProgress scope (changeID : string) : Machine → prog (Machine * option error) :=
  func_on (
    write_annotations (λ a,
      <[InPlaceUpgradeChangeIDAnnotation := changeID]>
      (<[InPlaceUpgradeStatusAnnotation := InPlaceUpgradeInProgressStatus]> a)) ;;
    patch scope Some ;;
    event scope EventNormal InPlaceUpgradeInProgressEvent
      ("Performing in place upgrade with " +:+ us_UpgradeOption scope) ;;
    mret None).

Definition markUpgradeDone scope : Machine → prog (Machine * option error) :=
  func_on (
    write_annotations (λ a, <[InPlaceUpgradeStatusAnnotation := InPlaceUpgradeDoneStatus]> a) ;;
    patch scope Some ;;
    event scope EventNormal InPlaceUpgradeDoneEvent
      ("Successfully performed in place upgrade with " +:+ us_UpgradeOption scope) ;;
    mret None).

Definition markUpgradeFailed scope (failure : string) : Machine → prog (Machine * option error) :=
  func_on (
    now ← call Now;
    write_annotations (λ a,
      <[InPlaceUpgradeLastFailedAttemptAtAnnotation := FormatRFC1123Z now]>
      (<[InPlaceUpgradeStatusAnnotation := InPlaceUpgradeFailedStatus]> a)) ;;
    patch scope Some ;;
    event scope EventWarning InPlaceUpgradeFailedEvent
      ("Failed to perform in place upgrade with " +:+ us_UpgradeOption scope +:+ ": " +:+ failure) ;;
    mret None).

(** [if err := mark...; err != nil { return fmt.Errorf(...) }] *)
Definition marked (m : go Machine outcome (option error)) : go Machine outcome unit :=
  check_err m (λ e, (Result0, Some (wrapf "failed to mark in place upgrade status" e))).

Definition lookup_token scope : go Machine outcome string :=
  m ← get;
  check (callp (Token.LookupNodeToken (key_of (cl_meta (us_Cluster scope))) (m_Name m)))
    (λ e, (Result0, Some (wrapf "failed to lookup node token" e))).

Definition handleUpgradeRequest scope : Machine → prog (Machine * outcome) :=
  func_on (
    nodeToken ← lookup_token scope;
    delete_annotations (λ a,
      delete InPlaceUpgradeReleaseAnnotation
      (delete InPlaceUpgradeChangeIDAnnotation
      (delete InPlaceUpgradeStatusAnnotation a))) ;;
    patch scope (λ e, (Result0, Some e)) ;;
    m ← get;
    changeID ← check (callp (RefreshMachine (us_WorkloadCluster scope) m nodeToken
                               (us_UpgradeOption scope)))
                 (λ e, (Result0, Some (wrapf "failed to refresh machine" e)));
    marked (calls (markUpgradeInProgress scope changeID)) ;;
    mret (Result0, None)).

Definition handleUpgradeInProgress scope (changeID : string) : Machine → prog (Machine * outcome) :=
  func_on (
    nodeToken ← lookup_token scope;
    m ← get;
    status ← check (callp (GetRefreshStatusForMachine (us_WorkloadCluster scope) m nodeToken changeID))
               (λ e, (Result0, Some (wrapf "failed to get refresh status for machine" e)));
    if negb (srs_Completed status) then return_ (After (5 * Time.Second), None)
    else
      (if bool_decide (srs_Status status = "Done") then marked (calls (markUpgradeDone scope))
       else if bool_decide (srs_Status status = "Error")
       then marked (calls (markUpgradeFailed scope (srs_ErrorMessage status)))
       else marked (calls (markUpgradeFailed scope "invalid refresh status"))) ;;
      mret (Result0, None)).

Definition handleUpgradeDone scope : Machine → prog (Machine * outcome) :=
  func_on (
    write_annotations (λ a,
      <[InPlaceUpgradeReleaseAnnotation := us_UpgradeOption scope]>
      (delete InPlaceUpgradeLastFailedAttemptAtAnnotation
      (delete InPlaceUpgradeChangeIDAnnotation
      (delete InPlaceUpgradeToAnnotation a)))) ;;
    patch scope (λ e, (Result0, Some e)) ;;
    mret (Result0, None)).

Definition handleUpgradeFailed scope : Machine → prog (Machine * outcome) :=
  func_on (
    delete_annotations (λ a,
      delete InPlaceUpgradeChangeIDAnnotation (delete InPlaceUpgradeStatusAnnotation a)) ;;
    patch scope (λ e, (Result0, Some e)) ;;
    mret (Result0, None)).

(** [func (r *InPlaceUpgradeReconciler) getWorkloadClusterForMachine] *)
Definition getWorkloadClusterForMachine (clusterKey : ObjectKey) (m : Machine) : prog (gores Workload) :=
  func (
    ref ← deref (m_ConfigRef m);
    config ← check (call (Get KCK8sConfig (mkKey (om_Namespace (m_meta m)) (ref_Name ref)))) Err;
    callp (GetWorkloadCluster clusterKey
             (GetMicroclusterPort (ControlPlaneConfig (cfg_Spec config))))).

(** The part of [Reconcile] that works on the scope. *)
Definition dispatch scope : Machine → prog (Machine * outcome) :=
  func_on (
    m ← get;
    match ann (m_meta m) InPlaceUpgradeChangeIDAnnotation with
    | Some changeID =>
        let upgradeStatus := ann (m_meta m) InPlaceUpgradeStatusAnnotation in
        when (match upgradeStatus with None => true | Some _ => false end)
          (marked (calls (markUpgradeFailed scope "missing in-place upgrade status"))) ;;
        let upgradeStatus := default "" upgradeStatus in
        if bool_decide (upgradeStatus = InPlaceUpgradeInProgressStatus)
        then calls (handleUpgradeInProgress scope changeID)
        else if bool_decide (upgradeStatus = InPlaceUpgradeDoneStatus)
        then calls (handleUpgradeDone scope)
        else if bool_decide (upgradeStatus = InPlaceUpgradeFailedStatus)
        then calls (handleUpgradeFailed scope)
        else
          marked (calls (markUpgradeFailed scope "invalid in-place upgrade status")) ;;
          mret (Result0, None)
    | None => calls (handleUpgradeRequest scope)
    end).

(** [func (r *InPlaceUpgradeReconciler) Reconcile] *)
Definition Reconcile (req : ObjectKey) : prog outcome :=
  func (
    m ← catch (call (Get KMachine req)) (λ e,
          if IsNotFound e then return_ (Result0, None) else return_ (Result0, Some e));
    match ann (m_meta m) InPlaceUpgradeToAnnotation with
    | None => return_ (Result0, None)
    | Some upgradeOption =>
        cluster ← check (call (GetClusterByName (om_Namespace (m_meta m)) (m_ClusterName m)))
                    (λ e, (Result0, Some e));
        workloadCluster ← check (callp (getWorkloadClusterForMachine (key_of (cl_meta cluster)) m))
                            (λ e, (Result0, Some (wrapf "failed to get workload cluster for machine" e)));
        check (call (NewHelper KMachine m))
          (λ e, (Result0, Some (wrapf "failed to create patch helper for machine" e))) ;;
        r ← callp (dispatch (mkUpgradeScope cluster workloadCluster m upgradeOption) m);
        mret r.2
    end).
End Handlers.

(** ** The state machine *)

Import Inplace.

(** One reconciliation that returns no error, on the stored marks: [res] is the
    result it returns. *)
Inductive step : upgrade_marks → Result → upgrade_marks → Prop :=
  (* no request: nothing happens *)
  | step_idle s rel ch f :
      step (mkMarks None s rel ch f) Result0 (mkMarks None s rel ch f)
  (* a request without a change: the snap refresh is started *)
  | step_start to s rel f ch :
      step (mkMarks (Some to) s rel None f) Result0
           (mkMarks (Some to) (if decide (s = Some InPlaceUpgradeInProgressStatus) then None
                               else Some InPlaceUpgradeInProgressStatus) None (Some ch) f)
  (* a pending change: polled, finished or failed *)
  | step_poll to rel ch f :
      step (mkMarks (Some to) (Some InPlaceUpgradeInProgressStatus) rel (Some ch) f)
           (After (5 * Time.Second))
           (mkMarks (Some to) (Some InPlaceUpgradeInProgressStatus) rel (Some ch) f)
  | step_finish to rel ch f :
      step (mkMarks (Some to) (Some InPlaceUpgradeInProgressStatus) rel (Some ch) f) Result0
           (mkMarks (Some to) (Some InPlaceUpgradeDoneStatus) rel (Some ch) f)
  | step_fail to s rel ch f f' :
      s ≠ Some InPlaceUpgradeDoneStatus → s ≠ Some InPlaceUpgradeFailedStatus →
      step (mkMarks (Some to) s rel (Some ch) f) Result0
           (mkMarks (Some to) (Some InPlaceUpgradeFailedStatus) rel (Some ch) (Some f'))
  (* a finished change: the request is fulfilled and the release recorded *)
  | step_done to rel ch f :
      step (mkMarks (Some to) (Some InPlaceUpgradeDoneStatus) rel (Some ch) f) Result0
           (mkMarks None (Some InPlaceUpgradeDoneStatus) (Some to) None None)
  (* a failed change: cleared, so that the request is tried again *)
  | step_retry to rel ch f :
      step (mkMarks (Some to) (Some InPlaceUpgradeFailedStatus) rel (Some ch) f) Result0
           (mkMarks (Some to) None rel None f).

(** Reading and comparing annotations of machines whose map was rewritten. *)
Lemma ann_write f a m key :
  om_Annotations (m_meta m) = Some a →
  ann (m_meta (set_m_Annotations (Some (f a)) m)) key = f a !! key.
Proof. intros _. unfold set_m_Annotations. by rewrite meta_set_m, ann_set. Qed.

Lemma marks_merged b a o o' :
  ann_merged b a o o' →
  marks o' = mkMarks
    (if decide (mk_to (marks a) = mk_to (marks b)) then mk_to (marks o) else mk_to (marks a))
    (if decide (mk_status (marks a) = mk_status (marks b)) then mk_status (marks o)
     else mk_status (marks a))
    (if decide (mk_release (marks a) = mk_release (marks b)) then mk_release (marks o)
     else mk_release (marks a))
    (if decide (mk_change (marks a) = mk_change (marks b)) then mk_change (marks o)
     else mk_change (marks a))
    (if decide (mk_failed_at (marks a) = mk_failed_at (marks b)) then mk_failed_at (marks o)
     else mk_failed_at (marks a)).
Proof. intros H. unfold marks. by rewrite !(H _). Qed.

(** Patching an object that is as the snapshot leaves it as the patched copy. *)
Lemma marks_merged_same b a o o' : ann_merged b a o o' → marks o = marks b → marks o' = marks a.
Proof.
  intros Hm Ho. rewrite (marks_merged _ _ _ _ Hm), Ho. destruct (marks a), (marks b); simpl.
  f_equal; by case_decide.
Qed.

Lemma merged_first a k :
  mkMarks (if decide (mk_to a = mk_to k) then mk_to k else mk_to a)
    (if decide (mk_status a = mk_status k) then mk_status k else mk_status a)
    (if decide (mk_release a = mk_release k) then mk_release k else mk_release a)
    (if decide (mk_change a = mk_change k) then mk_change k else mk_change a)
    (if decide (mk_failed_at a = mk_failed_at k) then mk_failed_at k else mk_failed_at a) = a.
Proof. destruct a, k; simpl. f_equal; by case_decide. Qed.

(** What the writes of the handlers do to the marks. *)
Ltac marks_of_write :=
  match goal with H : om_Annotations (m_meta ?m) = Some ?a |- _ =>
    unfold marks, set_m_Annotations; rewrite ?meta_set_m, ?ann_set;
    assert (∀ k, ann (m_meta m) k = a !! k) as Hann by (intros; unfold ann; by rewrite H);
    rewrite ?Hann; clear Hann
  end; read_marks.

Section Marks.
Context (m : Machine) (a : strmap) (Ha : om_Annotations (m_meta m) = Some a).

Lemma marks_in_progress ch :
  marks (m_meta (set_m_Annotations (Some (<[InPlaceUpgradeChangeIDAnnotation := ch]>
      (<[InPlaceUpgradeStatusAnnotation := InPlaceUpgradeInProgressStatus]> a))) m)) =
  mkMarks (mk_to (marks (m_meta m))) (Some InPlaceUpgradeInProgressStatus)
    (mk_release (marks (m_meta m))) (Some ch) (mk_failed_at (marks (m_meta m))).
Proof. by marks_of_write. Qed.

Lemma marks_done :
  marks (m_meta (set_m_Annotations
      (Some (<[InPlaceUpgradeStatusAnnotation := InPlaceUpgradeDoneStatus]> a)) m)) =
  mkMarks (mk_to (marks (m_meta m))) (Some InPlaceUpgradeDoneStatus)
    (mk_release (marks (m_meta m))) (mk_change (marks (m_meta m))) (mk_failed_at (marks (m_meta m))).
Proof. by marks_of_write. Qed.

Lemma marks_failed t :
  marks (m_meta (set_m_Annotations (Some (<[InPlaceUpgradeLastFailedAttemptAtAnnotation := t]>
      (<[InPlaceUpgradeStatusAnnotation := InPlaceUpgradeFailedStatus]> a))) m)) =
  mkMarks (mk_to (marks (m_meta m))) (Some InPlaceUpgradeFailedStatus)
    (mk_release (marks (m_meta m))) (mk_change (marks (m_meta m))) (Some t).
Proof. by marks_of_write. Qed.

Lemma marks_request :
  marks (m_meta (set_m_Annotations (Some (delete InPlaceUpgradeReleaseAnnotation
      (delete InPlaceUpgradeChangeIDAnnotation (delete InPlaceUpgradeStatusAnnotation a)))) m)) =
  mkMarks (mk_to (marks (m_meta m))) None None None (mk_failed_at (marks (m_meta m))).
Proof. by marks_of_write. Qed.

Lemma marks_fulfilled o :
  marks (m_meta (set_m_Annotations (Some (<[InPlaceUpgradeReleaseAnnotation := o]>
      (delete InPlaceUpgradeLastFailedAttemptAtAnnotation
      (delete InPlaceUpgradeChangeIDAnnotation (delete InPlaceUpgradeToAnnotation a))))) m)) =
  mkMarks None (mk_status (marks (m_meta m))) (Some o) None None.
Proof. by marks_of_write. Qed.

Lemma marks_retry :
  marks (m_meta (set_m_Annotations (Some (delete InPlaceUpgradeChangeIDAnnotation
      (delete InPlaceUpgradeStatusAnnotation a))) m)) =
  mkMarks (mk_to (marks (m_meta m))) None (mk_release (marks (m_meta m))) None
    (mk_failed_at (marks (m_meta m))).
Proof. by marks_of_write. Qed.
End Marks.

Section Server.
Context {W : Type} `{!ApiErrors, !MetaLib, !K8sdApi, !TimeFormat, !Env W, !ApiServer W}.
Implicit Types (w : W) (scope : UpgradeScope) (m : Machine).

(** The marks stored for the machine. *)
Definition stored w (key : ObjectKey) (k : upgrade_marks) : Prop :=
  ∃ o, view KMachine w key = Some o ∧ marks (m_meta o) = k.

Lemma stored_same w w' key k :
  (∀ k key, view k w' key = view k w key) → stored w key k → stored w' key k.
Proof. unfold stored. by intros ->. Qed.

Lemma patch_gwp {R} scope (h : error → R) m w key k
    (K : W → Machine → unit → Prop) (Rt : W → Machine → R → Prop) :
  key_of (m_meta m) = key → stored w key k →
  (∀ w', stored w' key (mkMarks
     (if decide (mk_to (marks (m_meta m)) = mk_to (marks (m_meta (us_Before scope))))
      then mk_to k else mk_to (marks (m_meta m)))
     (if decide (mk_status (marks (m_meta m)) = mk_status (marks (m_meta (us_Before scope))))
      then mk_status k else mk_status (marks (m_meta m)))
     (if decide (mk_release (marks (m_meta m)) = mk_release (marks (m_meta (us_Before scope))))
      then mk_release k else mk_release (marks (m_meta m)))
     (if decide (mk_change (marks (m_meta m)) = mk_change (marks (m_meta (us_Before scope))))
      then mk_change k else mk_change (marks (m_meta m)))
     (if decide (mk_failed_at (marks (m_meta m)) = mk_failed_at (marks (m_meta (us_Before scope))))
      then mk_failed_at k else mk_failed_at (marks (m_meta m)))) → K w' m tt) →
  (∀ w' e, Rt w' m (h e)) →
  gwp (patch scope h) m w K Rt.
Proof.
  intros Hk (o & Ho & Hm) HK HR. unfold patch. repeat wp_step.
  apply gwp_call; [by apply api_pre|]. intros r w' _ Hp.
  destruct r as [u|e]; repeat wp_step; [|apply HR]. apply HK.
  apply (api_patch KMachine) in Hp as [_ (o1 & o' & Ho1 & Ho' & Hmerge)].
  change (obj_key KMachine m) with (key_of (m_meta m)) in *. rewrite Hk in *.
  rewrite Ho in Ho1. injection Ho1 as <-. exists o'. split; [done|].
  rewrite <- Hm. by apply marks_merged.
Qed.

Lemma event_gwp {R} scope t r msg m w (K : W → Machine → unit → Prop) (Rt : W → Machine → R → Prop) :
  (∀ w', (∀ k key, view k w' key = view k w key) → K w' m tt) →
  gwp (event scope t r msg) m w K Rt.
Proof.
  intros HK. unfold event. repeat wp_step. apply gwp_call; [by apply api_pre|].
  intros [] w' _ Hs. apply HK. by apply (api_quiet _ _ _ _ Hs).
Qed.

Lemma write_gwp {R} f m a w (K : W → Machine → unit → Prop) (Rt : W → Machine → R → Prop) :
  om_Annotations (m_meta m) = Some a →
  K w (set_m_Annotations (Some (f a)) m) tt → gwp (write_annotations f) m w K Rt.
Proof. intros Ha HK. unfold write_annotations. repeat wp_step. rewrite Ha. by wp_step. Qed.

Lemma key_set_annotations a m : key_of (m_meta (set_m_Annotations a m)) = key_of (m_meta m).
Proof. unfold set_m_Annotations. rewrite meta_set_m. by destruct (m_meta m). Qed.

Lemma annotations_write a m : om_Annotations (m_meta (set_m_Annotations a m)) = a.
Proof. unfold set_m_Annotations. by rewrite meta_set_m, annotations_set. Qed.

(** Marking failed, possibly for the second time: [b] are the marks of the
    snapshot. *)
Lemma markUpgradeFailed_wp scope failure m a w key k b :
  om_Annotations (m_meta m) = Some a → key_of (m_meta m) = key → stored w key k →
  marks (m_meta (us_Before scope)) = b →
  mk_to (marks (m_meta m)) = mk_to b → mk_release (marks (m_meta m)) = mk_release b →
  mk_change (marks (m_meta m)) = mk_change b → mk_status b ≠ Some InPlaceUpgradeFailedStatus →
  mk_failed_at k = mk_failed_at b ∨ is_Some (mk_failed_at k) →
  wp (markUpgradeFailed scope failure m) w (λ w' r,
    r.2 = None → key_of (m_meta r.1) = key ∧ is_Some (om_Annotations (m_meta r.1)) ∧
      marks (m_meta r.1) = mkMarks (mk_to b) (Some InPlaceUpgradeFailedStatus) (mk_release b)
                             (mk_change b) (mk_failed_at (marks (m_meta r.1))) ∧
      ∃ f', stored w' key (mkMarks (mk_to k) (Some InPlaceUpgradeFailedStatus) (mk_release k)
                             (mk_change k) (Some f'))).
Proof.
  intros Ha Hk Hst Hb Hto Hrel Hch Hs Hf. unfold markUpgradeFailed. repeat wp_step.
  apply gwp_call; [by apply api_pre|]. intros now w1 _ Hn. repeat wp_step.
  apply (stored_same _ _ _ _ (api_quiet _ _ _ _ Hn I)) in Hst.
  eapply write_gwp; [exact Ha|]. repeat wp_step.
  set (m' := set_m_Annotations _ m).
  assert (marks (m_meta m') = mkMarks (mk_to b) (Some InPlaceUpgradeFailedStatus) (mk_release b)
    (mk_change b) (Some (FormatRFC1123Z now))) as Hm'.
  { unfold m'. rewrite marks_failed by done. by rewrite Hto, Hrel, Hch. }
  eapply patch_gwp; [by unfold m'; rewrite key_set_annotations|exact Hst| |done].
  intros w2 Hst2. repeat wp_step. apply event_gwp. intros w3 Hv. repeat wp_step. intros _. cbn [fst snd].
  split; [unfold m'; by rewrite key_set_annotations|].
  split; [unfold m'; rewrite annotations_write; by eexists|]. rewrite Hm'. split; [done|].
  apply (stored_same _ _ _ _ Hv) in Hst2. rewrite Hm', Hb in Hst2.
  cbn [mk_to mk_status mk_release mk_change mk_failed_at] in Hst2.
  rewrite (decide_False (P := Some _ = mk_status b)) in Hst2 by congruence.
  rewrite (decide_True (P := mk_to b = _)), (decide_True (P := mk_release b = _)),
    (decide_True (P := mk_change b = _)) in Hst2 by done.
  case_decide as Hd; [|by eexists]. destruct Hf as [Hf|[f' Hf]].
  - rewrite Hf, <- Hd in Hst2. by eexists.
  - rewrite Hf in Hst2. by eexists.
Qed.

(** The machine the handlers start from: as stored, and as the snapshot. *)
Definition fresh_scope scope m w (key : ObjectKey) (k : upgrade_marks) (a : strmap) : Prop :=
  us_Before scope = m ∧ om_Annotations (m_meta m) = Some a ∧
  key_of (m_meta m) = key ∧ marks (m_meta m) = k ∧ stored w key k.

(** The first patch of a reconciliation leaves the marks of the patched copy. *)
Lemma patch_first {R} scope (h : error → R) m m' w key k a
    (K : W → Machine → unit → Prop) (Rt : W → Machine → R → Prop) :
  fresh_scope scope m w key k a → key_of (m_meta m') = key →
  (∀ w', stored w' key (marks (m_meta m')) → K w' m' tt) →
  (∀ w' e, Rt w' m' (h e)) →
  gwp (patch scope h) m' w K Rt.
Proof.
  intros (Hb & Ha & Hk & Hm & Hst) Hk' HK HR.
  eapply patch_gwp; [exact Hk'|exact Hst| |exact HR]. intros w' Hst'. apply HK.
  rewrite Hb, Hm, merged_first in Hst'. done.
Qed.

Lemma fresh_scope_reads {A} (p : prog A) scope m w key k a (Q : W → A → Prop) :
  fresh_scope scope m w key k a → reads p →
  (∀ w' x, fresh_scope scope m w' key k a → Q w' x) → wp p w Q.
Proof.
  intros (Hb & Ha & Hk & Hm & Hst) Hp HQ. eapply wp_mono; [by apply wp_reads|].
  intros w' x Hv. apply HQ. do 4 (split; [done|]). exact (stored_same _ _ _ _ Hv Hst).
Qed.

Lemma lookup_token_gwp scope m w key k a
    (K : W → Machine → string → Prop) (Rt : W → Machine → outcome → Prop) :
  fresh_scope scope m w key k a →
  (∀ w' t, fresh_scope scope m w' key k a → K w' m t) →
  (∀ w' e, Rt w' m (Result0, Some e)) →
  gwp (lookup_token scope) m w K Rt.
Proof.
  intros Hf HK HR. unfold lookup_token. repeat wp_step.
  eapply fresh_scope_reads; [exact Hf|apply LookupNodeToken_reads|].
  intros w' [t|e] Hf'; auto.
Qed.

Lemma decide_swap {A} (x y : option string) (P Q : A) :
  (if decide (x = y) then P else Q) = if decide (y = x) then P else Q.
Proof. by repeat case_decide; subst. Qed.

(** Starting a refresh: two patches from the same snapshot. *)
Lemma handleUpgradeRequest_wp scope m w key k a :
  fresh_scope scope m w key k a → mk_change k = None →
  wp (handleUpgradeRequest scope m) w (λ w' r,
    r.2.2 = None → r.2.1 = Result0 ∧ ∃ ch,
      stored w' key (mkMarks (mk_to k)
        (if decide (mk_status k = Some InPlaceUpgradeInProgressStatus) then None
         else Some InPlaceUpgradeInProgressStatus) None (Some ch) (mk_failed_at k))).
Proof.
  intros Hf Hch. unfold handleUpgradeRequest. repeat wp_step.
  eapply lookup_token_gwp; [exact Hf| |done]. intros w1 tok Hf1. repeat wp_step.
  unfold delete_annotations. repeat wp_step.
  pose proof Hf as (Hb & Ha & Hk & Hm & _). rewrite Ha. cbn [fmap option_fmap option_map].
  set (m1 := set_m_Annotations _ m).
  assert (marks (m_meta m1) = mkMarks (mk_to k) None None None (mk_failed_at k)) as Hm1
    by (unfold m1; by rewrite marks_request, Hm by done).
  eapply patch_first; [exact Hf1|by unfold m1; rewrite key_set_annotations| |done].
  intros w2 Hst2. rewrite Hm1 in Hst2. repeat wp_step.
  eapply wp_mono; [apply wp_reads, RefreshMachine_reads|].
  intros w3 [ch|e] Hv3; repeat wp_step; [|done]. apply (stored_same _ _ _ _ Hv3) in Hst2.
  unfold marked. repeat wp_step. unfold markUpgradeInProgress. repeat wp_step.
  eapply write_gwp; [unfold m1; apply annotations_write|].
  set (m2 := set_m_Annotations _ m1). repeat wp_step.
  assert (marks (m_meta m2) = mkMarks (mk_to k) (Some InPlaceUpgradeInProgressStatus) None
    (Some ch) (mk_failed_at k)) as Hm2.
  { unfold m2. rewrite marks_in_progress by (unfold m1; apply annotations_write). by rewrite Hm1. }
  eapply patch_gwp; [unfold m2, m1; by rewrite !key_set_annotations|exact Hst2| |done].
  intros w4 Hst4. repeat wp_step. apply event_gwp. intros w5 Hv5. repeat wp_step. intros _.
  split; [done|]. exists ch. apply (stored_same _ _ _ _ Hv5) in Hst4.
  rewrite Hm2, Hb, Hm, Hch in Hst4.
  cbn [mk_to mk_status mk_release mk_change mk_failed_at] in Hst4.
  rewrite (decide_swap (Some InPlaceUpgradeInProgressStatus)) in Hst4.
  rewrite (decide_False (P := Some ch = None)) in Hst4 by done.
  destruct Hst4 as (o & Ho & Hst4). exists o. split; [done|]. rewrite Hst4.
  f_equal; by repeat case_decide.
Qed.

Lemma markUpgradeDone_wp scope m w key k a :
  fresh_scope scope m w key k a →
  wp (markUpgradeDone scope m) w (λ w' r, r.2 = None →
    stored w' key (mkMarks (mk_to k) (Some InPlaceUpgradeDoneStatus) (mk_release k)
                     (mk_change k) (mk_failed_at k))).
Proof.
  intros Hf. pose proof Hf as (Hb & Ha & Hk & Hm & _). unfold markUpgradeDone. repeat wp_step.
  eapply write_gwp; [exact Ha|]. repeat wp_step.
  eapply patch_first; [exact Hf|by rewrite key_set_annotations| |done].
  intros w1 Hst. rewrite marks_done, Hm in Hst by done. repeat wp_step.
  apply event_gwp. intros w2 Hv. repeat wp_step. intros _. by eapply stored_same.
Qed.

Lemma handleUpgradeInProgress_wp scope ch m w key k a :
  fresh_scope scope m w key k a → mk_status k = Some InPlaceUpgradeInProgressStatus →
  wp (handleUpgradeInProgress scope ch m) w (λ w' r,
    r.2.2 = None →
      r.2.1 = After (5 * Time.Second) ∧ stored w' key k ∨
      r.2.1 = Result0 ∧ stored w' key (mkMarks (mk_to k) (Some InPlaceUpgradeDoneStatus)
                                         (mk_release k) (mk_change k) (mk_failed_at k)) ∨
      r.2.1 = Result0 ∧ ∃ f', stored w' key (mkMarks (mk_to k) (Some InPlaceUpgradeFailedStatus)
                                         (mk_release k) (mk_change k) (Some f'))).
Proof.
  intros Hf Hs. unfold handleUpgradeInProgress. repeat wp_step.
  eapply lookup_token_gwp; [exact Hf| |done]. intros w1 tok Hf1. repeat wp_step.
  unfold GetRefreshStatusForMachine.
  eapply fresh_scope_reads; [exact Hf1|apply node_request_reads|].
  intros w2 [st|e] Hf2; repeat wp_step; [|done].
  destruct (srs_Completed st); cbn [negb]; repeat wp_step.
  2: { intros _. left. split; [done|]. by destruct Hf2 as (_ & _ & _ & _ & ?). }
  assert (∀ msg, gwp (marked (calls (markUpgradeFailed scope msg))) m w2
    (λ w' (m' : Machine) _, ∃ f', stored w' key (mkMarks (mk_to k) (Some InPlaceUpgradeFailedStatus)
                                     (mk_release k) (mk_change k) (Some f')))
    (λ w' m' r, r.2 ≠ None)) as Hfail.
  { intros msg. unfold marked. repeat wp_step. destruct Hf2 as (Hb & Ha & Hk & Hm & Hst).
    eapply wp_mono; [eapply markUpgradeFailed_wp with (b := k); try done; try (by rewrite ?Hb, ?Hm)|].
    - rewrite Hs. done.
    - by left.
    - intros w3 [m3 [e|]] Hr; cbn [fst snd] in *; [done|]. by apply Hr. }
  case_bool_decide.
  - unfold marked. repeat wp_step. eapply wp_mono; [by eapply markUpgradeDone_wp|].
    intros w3 [m3 [e|]] Hr; cbn [fst snd] in *; repeat wp_step; [done|].
    intros _. right; left. split; [done|]. by apply Hr.
  - case_bool_decide; (eapply gwp_mono; [apply Hfail| |]);
      [intros w3 m3 [] Hr|intros w3 m3 r Hr|intros w3 m3 [] Hr|intros w3 m3 r Hr];
      repeat wp_step; cbn [fst snd]; [auto|done|auto|done].
Qed.

Lemma handleUpgradeDone_wp scope m w key k a :
  fresh_scope scope m w key k a →
  wp (handleUpgradeDone scope m) w (λ w' r, r.2.2 = None →
    r.2.1 = Result0 ∧
    stored w' key (mkMarks None (mk_status k) (Some (us_UpgradeOption scope)) None None)).
Proof.
  intros Hf. pose proof Hf as (Hb & Ha & Hk & Hm & _). unfold handleUpgradeDone. repeat wp_step.
  eapply write_gwp; [exact Ha|]. repeat wp_step.
  eapply patch_first; [exact Hf|by rewrite key_set_annotations| |done].
  intros w1 Hst. rewrite marks_fulfilled, Hm in Hst by done. repeat wp_step. done.
Qed.

Lemma handleUpgradeFailed_wp scope m w key k a :
  fresh_scope scope m w key k a →
  wp (handleUpgradeFailed scope m) w (λ w' r, r.2.2 = None →
    r.2.1 = Result0 ∧
    stored w' key (mkMarks (mk_to k) None (mk_release k) None (mk_failed_at k))).
Proof.
  intros Hf. pose proof Hf as (Hb & Ha & Hk & Hm & _). unfold handleUpgradeFailed. repeat wp_step.
  unfold delete_annotations. repeat wp_step. rewrite Ha. cbn [fmap option_fmap option_map].
  eapply patch_first; [exact Hf|by rewrite key_set_annotations| |done].
  intros w1 Hst. rewrite marks_retry, Hm in Hst by done. repeat wp_step. done.
Qed.

Lemma marks_ann m k :
  marks (m_meta m) = k →
  ann (m_meta m) InPlaceUpgradeToAnnotation = mk_to k ∧
  ann (m_meta m) InPlaceUpgradeStatusAnnotation = mk_status k ∧
  ann (m_meta m) InPlaceUpgradeChangeIDAnnotation = mk_change k.
Proof. by intros <-. Qed.

(** A machine with a change id is marked failed: with a status the code does not
    know, and once more when it has none. *)
Lemma mark_unknown_gwp scope failure m a w key b (K : W → Machine → unit → Prop)
    (Rt : W → Machine → outcome → Prop) :
  om_Annotations (m_meta m) = Some a → key_of (m_meta m) = key → marks (m_meta (us_Before scope)) = b →
  mk_to (marks (m_meta m)) = mk_to b → mk_release (marks (m_meta m)) = mk_release b →
  mk_change (marks (m_meta m)) = mk_change b → mk_status b ≠ Some InPlaceUpgradeFailedStatus →
  (∃ st f, stored w key (mkMarks (mk_to b) st (mk_release b) (mk_change b) f) ∧
     (f = mk_failed_at b ∨ is_Some f)) →
  (∀ w' m' a' f', om_Annotations (m_meta m') = Some a' → key_of (m_meta m') = key →
     mk_to (marks (m_meta m')) = mk_to b → mk_release (marks (m_meta m')) = mk_release b →
     mk_change (marks (m_meta m')) = mk_change b →
     stored w' key (mkMarks (mk_to b) (Some InPlaceUpgradeFailedStatus) (mk_release b) (mk_change b) (Some f')) →
     K w' m' tt) →
  (∀ w' m' e, Rt w' m' (Result0, Some e)) →
  gwp (marked (calls (markUpgradeFailed scope failure))) m w K Rt.
Proof.
  intros Ha Hk Hb Hto Hrel Hch Hs (st & f & Hst & Hf) HK HRt. unfold marked. repeat wp_step.
  eapply wp_mono; [by apply (markUpgradeFailed_wp scope failure m a w key _ b Ha Hk Hst)|].
  intros w' [m' [e|]] Hr; cbn [fst snd] in *; repeat wp_step; [by apply HRt|].
  destruct (Hr eq_refl) as (Hk' & [a' Ha'] & Hm' & f' & Hst').
  by eapply (HK w' m' a' f'); try rewrite Hm'.
Qed.

(** The case analysis of [Reconcile] on the change id and the status. *)
Lemma dispatch_wp scope m w key k a :
  fresh_scope scope m w key k a → mk_to k = Some (us_UpgradeOption scope) →
  wp (dispatch scope m) w (λ w' r, r.2.2 = None → ∃ k', stored w' key k' ∧ step k r.2.1 k').
Proof.
  intros Hf Hto. pose proof Hf as (Hb & Ha & Hk & Hm & Hst).
  destruct (marks_ann _ _ Hm) as (_ & Hs & Hc).
  unfold dispatch. repeat wp_step. rewrite Hs, Hc.
  destruct k as [to st rel ch fa]. cbn [mk_to mk_status mk_change] in *. subst to.
  destruct ch as [ch|].
  2: { repeat wp_step. eapply wp_mono; [by eapply handleUpgradeRequest_wp|].
       intros w' [m' [res err]] Hr; cbn [fst snd] in *. intros ->.
       destruct (Hr eq_refl) as [-> [ch Hst']]. eexists. split; [exact Hst'|]. constructor. }
  cbv zeta. destruct st as [st|]; cbn [default from_option id].
  - (* a status *)
    repeat wp_step; [done|].
    case_bool_decide as Hc1; [subst st|case_bool_decide as Hc2; [subst st|case_bool_decide as Hc3; [subst st|]]].
    + repeat wp_step. eapply wp_mono; [by eapply handleUpgradeInProgress_wp|].
      intros w' [m' [res err]] Hr; cbn [fst snd mk_to mk_release mk_change mk_failed_at] in *. intros ->.
      destruct (Hr eq_refl) as [[-> Hst']|[[-> Hst']|[-> [f' Hst']]]];
        (eexists; split; [exact Hst'|]); by constructor.
    + repeat wp_step. eapply wp_mono; [by eapply handleUpgradeDone_wp|].
      intros w' [m' [res err]] Hr; cbn [fst snd mk_status] in *. intros ->.
      destruct (Hr eq_refl) as [-> Hst']. eexists. split; [exact Hst'|]. constructor.
    + repeat wp_step. eapply wp_mono; [by eapply handleUpgradeFailed_wp|].
      intros w' [m' [res err]] Hr; cbn [fst snd mk_to mk_release mk_failed_at] in *. intros ->.
      destruct (Hr eq_refl) as [-> Hst']. eexists. split; [exact Hst'|]. constructor.
    + repeat wp_step. eapply mark_unknown_gwp with (b := mkMarks (Some (us_UpgradeOption scope)) (Some st) rel (Some ch) fa);
        try done; try (by rewrite ?Hb, ?Hm); [simpl; congruence|by exists (Some st), fa; auto|].
      intros w' m' a' f' _ _ _ _ _ Hst'. repeat wp_step. intros _. eexists. split; [exact Hst'|].
      apply step_fail; congruence.
  - (* a change id without a status is marked failed twice *)
    repeat wp_step; [|done].
    eapply mark_unknown_gwp with (b := mkMarks (Some (us_UpgradeOption scope)) None rel (Some ch) fa);
      try done; try (by rewrite ?Hb, ?Hm); [by exists None, fa; auto|].
    intros w1 m1 a1 f1 Ha1 Hk1 Hto1 Hrel1 Hch1 Hst1. rewrite !bool_decide_false by done.
    repeat wp_step.
    eapply mark_unknown_gwp with (b := mkMarks (Some (us_UpgradeOption scope)) None rel (Some ch) fa);
      try done; try (by rewrite ?Hb, ?Hm); [eexists _, _; split; [exact Hst1|]; right; by eexists|].
    intros w2 m2 a2 f2 _ _ _ _ _ Hst2. repeat wp_step. intros _. eexists. split; [exact Hst2|].
    by apply step_fail.
Qed.

Lemma getWorkloadClusterForMachine_reads ck m ref :
  m_ConfigRef m = Some ref → reads (getWorkloadClusterForMachine ck m).
Proof.
  intros Href. unfold reads, reads_post, getWorkloadClusterForMachine. repeat wp_step.
  apply gwp_deref; [|congruence]. intros r0 _. cbn beta.
  repeat wp_step. apply gwp_call; [done|]. intros [c|e] [] _ _; repeat wp_step; [|done].
  eapply wp_mono; [apply GetWorkloadCluster_reads|]. done.
Qed.

Lemma Reconcile_wp key w :
  (∀ m, view KMachine w key = Some m → is_Some (m_ConfigRef m)) →
  wp (Reconcile key) w (λ w' r,
    r.2 = None →
    match view KMachine w key with
    | None => True
    | Some m => ∃ k', stored w' key k' ∧ step (marks (m_meta m)) r.1 k'
    end).
Proof.
  intros Hcfg. unfold Reconcile. repeat wp_step. apply gwp_call; [by apply api_pre|].
  intros r w1 _ [Hv1 Hr]%(api_get KMachine). destruct r as [m|e]; repeat wp_step.
  2: { destruct (IsNotFound e); repeat wp_step; [|done]. by rewrite Hr. }
  rewrite Hr. destruct (Hcfg _ Hr) as [ref Href].
  assert (stored w1 key (marks (m_meta m))) as Hst1 by (exists m; by rewrite Hv1).
  destruct (ann (m_meta m) InPlaceUpgradeToAnnotation) as [o|] eqn:Hto; repeat wp_step.
  2: { intros _. eexists. split; [exact Hst1|].
       unfold marks. rewrite Hto. constructor. }
  apply gwp_call; [by apply api_pre|]. intros [cluster|e] w2 _ Hs2; repeat wp_step; [|done].
  pose proof (stored_same _ _ _ _ (api_quiet _ _ _ _ Hs2 I) Hst1) as Hst2.
  eapply wp_mono; [eapply wp_reads, getWorkloadClusterForMachine_reads; exact Href|].
  intros w3 [wl|e] Hv3; repeat wp_step; [|done].
  pose proof (stored_same _ _ _ _ Hv3 Hst2) as Hst3.
  apply gwp_call; [by apply api_pre|]. intros [u|e] w4 _ Hs4; repeat wp_step; [|done].
  pose proof (stored_same _ _ _ _ (api_quiet _ _ _ _ Hs4 I) Hst3) as Hst4.
  assert (∃ a, om_Annotations (m_meta m) = Some a) as [a Ha].
  { unfold ann in Hto. destruct (om_Annotations (m_meta m)); [by eexists|done]. }
  eapply wp_mono; [eapply dispatch_wp with (k := marks (m_meta m))|].
  - split; [done|]. split; [exact Ha|]. split; [exact (view_key _ _ _ _ Hr)|].
    split; [done|exact Hst4].
  - exact Hto.
  - intros w5 [m5 [res err]] H5; cbn [fst snd] in *. repeat wp_step. done.
Qed.

(** C13: one reconciliation of a machine, when it returns no error, moves the
    stored upgrade annotations of that machine along the state machine
    [step]: a request is started, polled every five seconds, finished,
    recorded, or failed and retried; without a request nothing changes.
    (The machine has a bootstrap config reference, as the machines of this
    provider do; without one the reconciler panics.) *)
Theorem machine_upgrade_refines key w :
  (∀ m, view KMachine w key = Some m → is_Some (m_ConfigRef m)) →
  wp (Reconcile key) w (λ w' r,
    r.2 = None →
    match view KMachine w key with
    | None => True
    | Some m => ∃ k', stored w' key k' ∧ step (marks (m_meta m)) r.1 k'
    end).
Proof. apply Reconcile_wp. Qed.
End Server.

(** ** What a reconciliation writes *)

Section Frame.
Context `{!ApiErrors, !MetaLib, !K8sdApi, !TimeFormat} (key : ObjectKey).

(** The body patches the machine [key] at most, and keeps the key of its machine. *)
Definition keeps_key {R A} (m : go Machine R A) : Prop :=
  ∀ s, key_of (m_meta s) = key →
    @gwp unit (writes_env KMachine key) Machine R A m s tt
      (λ _ s _, key_of (m_meta s) = key) (λ _ s _, key_of (m_meta s) = key).

Lemma keeps_ret {R A} (a : A) : keeps_key (R := R) (mret a).
Proof. by intros s Hs. Qed.
Lemma keeps_return {R A} (r : R) : keeps_key (A := A) (return_ r).
Proof. by intros s Hs. Qed.
Lemma keeps_bind {R A B} (m : go Machine R A) (f : A → go Machine R B) :
  keeps_key m → (∀ a, keeps_key (f a)) → keeps_key (m ≫= f).
Proof.
  intros Hm Hf s Hs. apply gwp_bind. eapply gwp_mono; [by apply Hm| |done].
  intros [] s' a Hs'. by apply Hf.
Qed.
Lemma keeps_check {R A} (m : go Machine R (gores A)) h : keeps_key m → keeps_key (check m h).
Proof. intros Hm. apply keeps_bind; [done|]. intros [a|e]; [apply keeps_ret|apply keeps_return]. Qed.
Lemma keeps_check_err {R} (m : go Machine R (option error)) h : keeps_key m → keeps_key (check_err m h).
Proof. intros Hm. apply keeps_bind; [done|]. intros [e|]; [apply keeps_return|apply keeps_ret]. Qed.
Lemma keeps_call {R X} (e : sysE X) :
  quiet e → keeps_key (R := R) (call e).
Proof. intros Hq s Hs. apply gwp_call; [by destruct e|done]. Qed.
Lemma keeps_callp {R X} (p : prog X) : reads p → keeps_key (R := R) (callp p).
Proof.
  intros Hp s Hs. apply gwp_callp. eapply wp_mono; [by apply (writes_reads KMachine key), Hp|]. done.
Qed.
Lemma keeps_calls {R X} (body : go Machine X X) :
  keeps_key body → keeps_key (R := R) (calls (func_on body)).
Proof.
  intros Hb s Hs. apply gwp_calls, wp_func_on. by eapply gwp_mono; [by apply Hb| |].
Qed.
Lemma keeps_get {R A} (f : Machine → go Machine R A) :
  (∀ m, key_of (m_meta m) = key → keeps_key (f m)) → keeps_key (get ≫= f).
Proof. intros Hf s Hs. apply gwp_bind, gwp_get. by apply Hf. Qed.
Lemma keeps_when {R} b (m : go Machine R unit) : keeps_key m → keeps_key (when b m).
Proof. intros Hm. destruct b; [done|]. apply keeps_ret. Qed.

Lemma keeps_write {R} f : keeps_key (R := R) (write_annotations f).
Proof.
  intros s Hs. apply gwp_bind, gwp_get. cbn beta. destruct (om_Annotations (m_meta s)).
  - by apply gwp_modify; rewrite key_set_annotations.
  - by apply gwp_panic.
Qed.
Lemma keeps_delete {R} f : keeps_key (R := R) (delete_annotations f).
Proof. intros s Hs. apply gwp_modify. by rewrite key_set_annotations. Qed.
Lemma keeps_patch {R} scope (h : error → R) : keeps_key (patch scope h).
Proof.
  intros s Hs. unfold patch. apply gwp_bind, gwp_get. cbn beta.
  apply gwp_bind, gwp_check, gwp_call; [done|]. by intros [u|e] [] _ _.
Qed.

Ltac keeps_step :=
  lazymatch goal with
  | |- keeps_key (write_annotations _) => apply keeps_write
  | |- keeps_key (delete_annotations _) => apply keeps_delete
  | |- keeps_key (patch _ _) => apply keeps_patch
  | |- keeps_key (mret _) => apply keeps_ret
  | |- keeps_key (return_ _) => apply keeps_return
  | |- keeps_key (get ≫= _) => apply keeps_get; intros ? ?
  | |- keeps_key (when _ _) => apply keeps_when
  | |- keeps_key (check _ _) => apply keeps_check
  | |- keeps_key (check_err _ _) => apply keeps_check_err
  | |- keeps_key (calls (func_on _)) => apply keeps_calls
  | |- keeps_key (call _) => apply keeps_call; exact I
  | |- keeps_key (callp (Token.LookupNodeToken _ _)) => apply keeps_callp; apply LookupNodeToken_reads
  | |- keeps_key (callp (RefreshMachine _ _ _ _)) => apply keeps_callp; apply RefreshMachine_reads
  | |- keeps_key (callp (GetRefreshStatusForMachine _ _ _ _)) => apply keeps_callp; unfold GetRefreshStatusForMachine; apply node_request_reads
  | |- keeps_key (_ ≫= _) => apply keeps_bind; [|intros ?]
  | |- keeps_key (if ?b then _ else _) => destruct b
  | |- keeps_key (match ?o with _ => _ end) => destruct o
  end.
Ltac keeps := repeat keeps_step.

Lemma keeps_in_progress {R} scope c : keeps_key (R := R) (calls (markUpgradeInProgress scope c)).
Proof. unfold markUpgradeInProgress, event. keeps. Qed.
Lemma keeps_done {R} scope : keeps_key (R := R) (calls (markUpgradeDone scope)).
Proof. unfold markUpgradeDone, event. keeps. Qed.
Lemma keeps_failed {R} scope f : keeps_key (R := R) (calls (markUpgradeFailed scope f)).
Proof. unfold markUpgradeFailed, event. keeps. Qed.

Ltac keeps_marks :=
  unfold marked, lookup_token; cbv zeta;
  repeat first
    [lazymatch goal with
     | |- keeps_key (calls (markUpgradeInProgress _ _)) => apply keeps_in_progress
     | |- keeps_key (calls (markUpgradeDone _)) => apply keeps_done
     | |- keeps_key (calls (markUpgradeFailed _ _)) => apply keeps_failed
     end
    |keeps_step].

Lemma keeps_handlers {R} scope c :
  keeps_key (R := R) (calls (handleUpgradeInProgress scope c)) ∧
  keeps_key (R := R) (calls (handleUpgradeRequest scope)) ∧
  keeps_key (R := R) (calls (handleUpgradeDone scope)) ∧
  keeps_key (R := R) (calls (handleUpgradeFailed scope)).
Proof.
  split; [unfold handleUpgradeInProgress; keeps_marks|].
  split; [unfold handleUpgradeRequest; keeps_marks|].
  split; [unfold handleUpgradeDone|unfold handleUpgradeFailed]; keeps.
Qed.

Lemma keeps_dispatch scope : keeps_key (R := outcome) (calls (dispatch scope)).
Proof.
  unfold dispatch. keeps_step. keeps_step. destruct (ann _ _) as [c|]; [|apply (keeps_handlers scope EmptyString)].
  cbv zeta. pose proof (keeps_handlers (R := outcome) scope c) as (? & ? & ? & ?).
  keeps_marks; assumption.
Qed.

(** The reconciliation of a machine writes that machine only. *)
Lemma Reconcile_writes : writes_post KMachine key (Reconcile key) (λ _, True).
Proof.
  unfold writes_post, Reconcile. apply wp_func. apply gwp_bind, gwp_catch, gwp_call; [done|].
  intros [m|e] [] _ Hm; [|by destruct (IsNotFound e)]. simpl in Hm.
  destruct (ann _ _) as [o|]; [|done].
  apply gwp_bind, gwp_check, gwp_call; [done|]. intros [cluster|e] [] _ _; [|done].
  apply gwp_bind, gwp_check, gwp_callp. unfold getWorkloadClusterForMachine.
  apply wp_func, gwp_bind, gwp_deref; [|done]. intros ref _.
  apply gwp_bind, gwp_check, gwp_call; [done|]. intros [config|e] [] _ _.
  2: { done. }
  apply gwp_callp. eapply wp_mono; [apply (writes_reads KMachine key), GetWorkloadCluster_reads|].
  intros [] [wl|e] _; [|done].
  apply gwp_bind, gwp_check, gwp_call; [done|]. intros [u|e] [] _ _; [|done].
  apply gwp_bind, gwp_callp.
  pose proof (keeps_dispatch (mkUpgradeScope cluster wl m o) m Hm) as Hd.
  unfold gwp, calls in Hd. apply wp_bind in Hd. eapply wp_mono; [exact Hd|]. done.
Qed.
End Frame.

(** ** Witness: a machine with a pending request, and a k8sd that answers *)

Module Examples.
Definition m : Machine :=
  set_m_Annotations (Some {[InPlaceUpgradeToAnnotation := "channel=1.31"]}) (ex_noded "a").
Definition token_secret : Secret :=
  mkSecret (meta_named "c-token") (Some {["value" := "t"; "node-token-a" := "nt"]}) "".
Definition store : Store :=
  put KCK8sConfig (config_named "a") (put KSecret token_secret (put KMachine m empty_store)).
Definition world : handler Store :=
  friendly ["a"] (cluster_named "c") (λ r, k8sd_ok "change-7").
Definition key : ObjectKey := mkKey "ns" "a".
End Examples.
Import Examples.
#[local] Instance the_env : Env Store := server_env world.

Lemma machine_upgrade_refines_witness :
  (match run (serve world) (Reconcile key) store with
   | Some (r, w') => Some (r, (λ o, marks (m_meta o)) <$> look KMachine w' key)
   | None => None
   end = Some ((Result0, None), Some (mkMarks (Some "channel=1.31")
           (Some InPlaceUpgradeInProgressStatus) None (Some "change-7") None))) ∧
  wp (Reconcile key) store (λ w' r,
    r.2 = None →
    match view KMachine store key with
    | None => True
    | Some m => ∃ k', stored w' key k' ∧ step (marks (m_meta m)) r.1 k'
    end).
Proof.
  split; [vm_compute; reflexivity|]. apply (machine_upgrade_refines key store).
  intros m' Hm. assert (view KMachine store key = Some m) as Hm'' by (vm_compute; reflexivity).
  rewrite Hm'' in Hm. injection Hm as <-. by eexists.
Defined.
End MachineUpgrade.
