(* ===== verification/Orchestrate.v ===== *)
(** What the two orchestrated in-place upgrade controllers
    (src/bootstrap/controllers/orchestrated_inplace_upgrade_controller.go and its
    namesake under src/controlplane) share: marking the object they orchestrate
    and recording an event, and the abstract rolling upgrade, which composes one
    of them with the controllers of the single machines. *)

From S2P Require Import Prelude Objects ApiTypes Effects Libs RefLibs ApiServer RefServer.
From S2P Require Import Workload Inplace MachineUpgrade.

Module Orchestrate.
Import Inplace.

(** [if err := inplace.Mark...(obj, ...); err != nil { return fmt.Errorf(...) }]
    followed by an event on the object. *)
Definition report (k : kind) (mark : obj k → prog (obj k * option error)) (what : string)
    (t : EventType) (reason msg : string) : obj k → prog (obj k * option error) :=
  func_on (
    check_err (calls mark) (λ e, Some (wrapf what e)) ;;
    o ← get;
    call (Eventf (key_of (meta_of k o)) t reason msg) ;;
    mret None).

(** [return ctrl.Result{RequeueAfter: 5 * time.Second}, nil] *)
Definition requeue : outcome := (After (5 * Time.Second), None).

Section Server.
Context {W : Type} `{!ApiErrors, !Env W, !ApiServer W}.
Implicit Types (w : W).

Lemma frame_same k key w1 w2 w3 :
  same_view w1 w2 → frame k key w2 w3 → frame k key w1 w3.
Proof. intros H1 H2 k' key' Hne. by rewrite H2, H1. Qed.

Lemma same_frame k key w1 w2 w3 :
  frame k key w1 w2 → same_view w2 w3 → frame k key w1 w3.
Proof. intros H1 H2 k' key' Hne. by rewrite H2, H1. Qed.

Lemma synced_same k w w' o : same_view w w' → synced k w o → synced k w' o.
Proof. intros Hv. unfold synced. by rewrite (Hv k). Qed.

Lemma synced_frame k w w' o k' key' :
  frame k' key' w w' → (k, obj_key k o) ≠ (k', key') → synced k w o → synced k w' o.
Proof. intros Hf Hne. unfold synced. by rewrite (Hf k). Qed.

(** What a reported mark of an up-to-date copy does. *)
Definition marked_as (k : kind) (o : obj k) (f : strmap → strmap) w w' (r : obj k * option error) : Prop :=
  r.1 = annotate k f o ∧ frame k (obj_key k o) w w' ∧
  (r.2 = None → synced k w' (annotate k f o)).

Lemma report_wp k mark f (o : obj k) what t reason msg w :
  wp (mark o) w (marked_as k o f w) →
  wp (report k mark what t reason msg o) w (marked_as k o f w).
Proof.
  intros Hm. unfold report. repeat wp_step.
  eapply wp_mono; [exact Hm|]. intros w1 [o' [e|]] (Ho & Hf & Hr); cbn [fst snd] in *.
  - by repeat wp_step.
  - repeat wp_step. apply gwp_call; [by apply api_pre|]. intros [] w2 _ He. repeat wp_step.
    pose proof (api_quiet _ _ _ _ He I) as Hv.
    split; [done|]. split; [by eapply same_frame|]. intros _. eapply synced_same; [exact Hv|auto].
Qed.

End Server.

(** The machines of a cluster: what is stored, by name. *)
Section Machines.
Context {W : Type} `{!ApiErrors, !CollectionsLib, !CollectionsLaws, !Env W, !ApiServer W}.

Lemma GetMachinesForCluster_wp (cluster : ObjectKey) filters w :
  wp (GetMachinesForCluster cluster filters) w (λ w' r,
    same_view w w' ∧
    match r with
    | Ok ms => ∀ n m, ms !! n = Some m ↔
        m_Name m = n ∧ view KMachine w (key_of (m_meta m)) = Some m ∧
        om_Namespace (m_meta m) = key_ns cluster ∧
        om_Labels (m_meta m) !! Clusterv1.ClusterNameLabel = Some (key_name cluster) ∧
        forallb (λ f, f m) filters = true
    | Err _ => True
    end).
Proof.
  unfold GetMachinesForCluster. repeat wp_step. apply gwp_call; [by apply api_pre|].
  intros [l|e] w1 _ Hl; pose proof (api_quiet _ _ _ _ Hl I) as Hv; repeat wp_step; [|done].
  split; [done|]. apply (api_list KMachine) in Hl as [Hnd Hl]. intros n m.
  rewrite mFilter_Some, FromMachineList_lookup.
  - rewrite (Hl m). unfold obj_key. cbn [meta_of]. rewrite map_singleton_subseteq_l. tauto.
  - apply (NoDup_fmap_1 (λ n, mkKey (key_ns cluster) n)).
    rewrite <- list_fmap_compose. erewrite list_fmap_ext; [exact Hnd|].
    intros i m' Hm'%list_elem_of_lookup_2. apply Hl in Hm' as (_ & <- & _). done.
Qed.
End Machines.

(** ** The rolling upgrade *)

(** What to do next, given the machines in the order they are visited. *)
Inductive action :=
  | Finish
  | Wait
  | Fail (m : Machine)
  | Start (m : Machine).

(** The machine deployment controller keeps no lock: it relies on the marks of the
    machines in the fixed order of their UIDs. *)
Fixpoint next (to : string) (ms : list Machine) : action :=
  match ms with
  | [] => Finish
  | m :: ms =>
      if IsUpgraded (m_meta m) to then next to ms
      else if deleting (m_meta m) then Wait
      else if IsMachineUpgradeFailed m then Fail m
      else if IsMachineUpgrading m then Wait
      else Start m
  end.

(** The abstract system: the upgrade marks of the machines of one deployment, in
    their order; machines are upgraded to [to]. *)
Section Rolling.
Context (to : string).

Definition upgraded (k : upgrade_marks) : Prop := default "" (mk_release k) = to.
Definition pending (k : upgrade_marks) : Prop := mk_to k ≠ None.
Definition quiescent (k : upgrade_marks) : Prop :=
  default "" (mk_failed_at k) = "" ∧ mk_status k ≠ Some InPlaceUpgradeInProgressStatus ∧
  default "" (mk_to k) = "".

Inductive rolling : list upgrade_marks → list upgrade_marks → Prop :=
  (* the orchestrator requests the first machine that is not upgraded *)
  | rolling_start ks i k :
      ks !! i = Some k →
      (∀ j kj, j < i → ks !! j = Some kj → upgraded kj) → ¬ upgraded k → quiescent k →
      rolling ks (<[i := requested to]> ks)
  (* the controller of a machine takes a step *)
  | rolling_machine ks i k r k' :
      ks !! i = Some k → MachineUpgrade.step k r k' →
      rolling ks (<[i := k']> ks).

(** All machines before some position are upgraded, none after it has a request,
    and the machine at the position has none or one without a release. *)
Definition one_at_a_time (ks : list upgrade_marks) : Prop :=
  ∃ i, ∀ j k, ks !! j = Some k →
    (j < i → upgraded k ∧ ¬ pending k) ∧ (i < j → ¬ pending k) ∧
    (j = i → pending k → mk_to k = Some to ∧ mk_release k = None).

Lemma step_pending k r k' :
  MachineUpgrade.step k r k' →
  (¬ pending k → k' = k) ∧
  (mk_to k = Some to → mk_release k = None →
   mk_to k' = Some to ∧ mk_release k' = None ∨ ¬ pending k' ∧ upgraded k').
Proof.
  intros Hs. unfold pending, upgraded.
  destruct Hs; simpl; (split; [intros; try done; by exfalso; eauto|intros; simplify_eq; auto]).
Qed.

Lemma rolling_keeps ks ks' :
  to ≠ "" → rolling ks ks' → one_at_a_time ks → one_at_a_time ks'.
Proof.
  intros Hto Hr [i Hi].
  destruct Hr as [ks n k Hn Hpre Hnu Hq|ks n k r k' Hn Hs].
  - exists n. intros j kj. rewrite list_lookup_insert_Some.
    intros [(<- & <- & _)|[Hne Hj]]; [split; [lia|split; [lia|done]]|].
    destruct (Hi _ _ Hj) as (H1 & H2 & H3). split; [|split; [|lia]].
    + intros Hlt. pose proof (Hpre _ _ Hlt Hj) as Hu. split; [done|]. intros Hp.
      destruct (Nat.lt_trichotomy j i) as [?|[->|?]]; [naive_solver| |naive_solver].
      destruct (H3 eq_refl Hp) as [_ Hrel]. unfold upgraded in Hu. by rewrite Hrel in Hu.
    + intros Hlt. destruct (Nat.lt_trichotomy j i) as [?|[->|?]]; [naive_solver| |naive_solver].
      destruct (Hi _ _ Hn) as (Hu & _). by destruct Hu.
  - destruct (step_pending _ _ _ Hs) as [Hid Hst]. exists i. intros j kj.
    rewrite list_lookup_insert_Some. intros [(<- & <- & _)|[Hne Hj]]; [|by apply Hi].
    destruct (Hi _ _ Hn) as (H1 & H2 & H3). destruct (decide (mk_to k = None)) as [Hk|Hp].
    { rewrite Hid by (intros Hk'; by apply Hk'). done. }
    destruct (Nat.lt_trichotomy n i) as [?|[->|?]]; [naive_solver| |naive_solver].
    destruct (H3 eq_refl Hp) as [Hk1 Hk2]. split; [lia|split; [lia|]].
    destruct (Hst Hk1 Hk2) as [?|[? _]]; naive_solver.
Qed.

(** In a rolling upgrade at most one machine has a request, and the machines
    before it are upgraded. *)
Lemma rolling_serial ks ks' :
  to ≠ "" → Forall (λ k, ¬ pending k) ks → rtc rolling ks ks' →
  ∀ i j ki kj, ks' !! i = Some ki → ks' !! j = Some kj → pending kj →
  (i < j → upgraded ki) ∧ (pending ki → i = j).
Proof.
  intros Hto Hks Hr.
  assert (one_at_a_time ks') as [n Hn].
  { assert (one_at_a_time ks) as H0.
    { exists 0. intros j k Hj. rewrite Forall_lookup in Hks. specialize (Hks _ _ Hj). naive_solver lia. }
    clear Hks. induction Hr as [|ks ks1 ks2 H1 _ IH]; [done|]. apply IH. by eapply rolling_keeps. }
  intros i j ki kj Hi Hj Hp. destruct (Hn _ _ Hi) as (I1 & I2 & _), (Hn _ _ Hj) as (J1 & J2 & _).
  assert (∀ k l, k = l ∨ k < l ∨ l < k) as Htri by lia.
  assert (j = n) as -> by (destruct (Htri j n) as [?|[?|?]]; naive_solver).
  split; [naive_solver|]. intros Hpi. destruct (Htri i n) as [?|[?|?]]; naive_solver.
Qed.
End Rolling.

Lemma next_start to ms m :
  next to ms = Start m →
  ∃ i, ms !! i = Some m ∧
    (∀ j mj, j < i → ms !! j = Some mj → upgraded to (marks (m_meta mj))) ∧
    ¬ upgraded to (marks (m_meta m)) ∧ quiescent (marks (m_meta m)).
Proof.
  induction ms as [|m' ms IH]; simpl; [done|].
  destruct (IsUpgraded (m_meta m') to) eqn:Hu.
  - intros (i & Hi & Hpre & Hm)%IH. exists (S i). split; [done|]. split; [|done].
    intros [|j] mj Hj; simpl; [|apply Hpre; lia]. intros [= <-].
    by apply bool_decide_eq_true in Hu.
  - destruct (deleting _); [done|]. destruct (IsMachineUpgradeFailed m') eqn:Hf; [done|].
    destruct (IsMachineUpgrading m') eqn:Hup; [done|]. intros [= ->].
    exists 0. split; [done|]. split; [lia|].
    apply bool_decide_eq_false in Hu. split; [exact Hu|].
    unfold IsMachineUpgradeFailed in Hf. apply negb_false_iff, bool_decide_eq_true in Hf.
    unfold IsMachineUpgrading in Hup. apply orb_false_iff in Hup as [Hs%bool_decide_eq_false Ht].
    apply negb_false_iff, bool_decide_eq_true in Ht. split; [done|]. split; [|done].
    intros Hs'. apply Hs. unfold ann0. unfold marks in Hs'. cbn [mk_status] in Hs'. by rewrite Hs'.
Qed.
End Orchestrate.
