(* ===== verification/OrchestratedMD.v ===== *)
(** src/bootstrap/controllers/orchestrated_inplace_upgrade_controller.go: the
    in-place upgrade of the machines of a MachineDeployment, one at a time.

    The loop over the machines mutates the deployment of the scope and counts the
    upgraded machines: the state of its body is the pair of the two. *)

From stdpp Require Import sorting.
From S2P Require Import Prelude Objects ApiTypes Effects Libs RefLibs ApiServer RefServer.
From S2P Require Import Token Workload Inplace MachineUpgrade Orchestrate.

Module OrchestratedMD.
Import Inplace Orchestrate.

(** [type orchestratedInPlaceUpgradeScope struct]; [mdPatcher] is the snapshot of
    the patch helper. *)
Record scope := mkScope {
  machineDeployment : MachineDeployment;
  mdPatcher : MachineDeployment;
  upgradeTo : string;
  ownedMachines : list Machine;
}.

(** [slices.SortStableFunc] with the comparison of UIDs. *)
Definition uid_lt (m1 m2 : Machine) : bool := String.ltb (om_UID (m_meta m1)) (om_UID (m_meta m2)).

Fixpoint insert_by_uid (m : Machine) (l : list Machine) : list Machine :=
  match l with
  | [] => [m]
  | m' :: l => if uid_lt m' m then m' :: insert_by_uid m l else m :: m' :: l
  end.

Definition sort_by_uid (l : list Machine) : list Machine := foldr insert_by_uid [] l.

Section Controller.
Context `{!ApiErrors, !MetaLib, !CollectionsLib}.

Definition markUpgradeInProgress (s : scope) (upgradingMachine : Machine)
    : MachineDeployment → prog (MachineDeployment * option error) :=
  report KMachineDeployment (MarkUpgradeInProgress KMachineDeployment (mdPatcher s) (upgradeTo s))
    "failed to mark object with upgrade in-progress" EventNormal InPlaceUpgradeInProgressEvent
    ("In-place upgrade is in-progress for " +:+ quote (m_Name upgradingMachine)).

Definition markUpgradeDone (s : scope) : MachineDeployment → prog (MachineDeployment * option error) :=
  report KMachineDeployment (MarkUpgradeDone KMachineDeployment (mdPatcher s) (upgradeTo s))
    "failed to mark object with upgrade done" EventNormal InPlaceUpgradeDoneEvent
    "In-place upgrade is done".

Definition markUpgradeFailed (s : scope) (failedM : Machine)
    : MachineDeployment → prog (MachineDeployment * option error) :=
  report KMachineDeployment (MarkUpgradeFailed KMachineDeployment (mdPatcher s))
    "failed to mark object with upgrade failed" EventWarning InPlaceUpgradeFailedEvent
    ("In-place upgrade failed for machine " +:+ quote (m_Name failedM) +:+ ".").

Definition getCluster (md : MachineDeployment) : prog (gores Cluster) :=
  func (
    cluster ← check (call (Get KCluster (mkKey (om_Namespace (md_meta md)) (md_ClusterName md))))
                (λ e, Err (wrapf "failed to get object" e));
    mret (Ok cluster)).

Definition getOwnedMachines (md : MachineDeployment) : prog (gores (list Machine)) :=
  func (
    cluster ← check (callp (getCluster md)) (λ e, Err (wrapf "failed to get cluster" e));
    msList ← check (call (ListObj KMachineSet (cl_Namespace cluster)
                     {[Clusterv1.ClusterNameLabel := cl_Name cluster;
                       Clusterv1.MachineDeploymentNameLabel := om_Name (md_meta md)]}))
               (λ e, Err (wrapf "failed to get MachineSetList" e));
    match List.find (λ ms : obj KMachineSet, IsOwnedByObject (ms_meta ms) (md_meta md)) msList with
    | None => return_ (Err (ErrNew ("failed to find MachineSet owned by MachineDeployment " +:+
                                    quote (om_Name (md_meta md)))))
    | Some ms =>
        collection ← check (callp (GetMachinesForCluster (key_of (cl_meta cluster))
                                     [OwnedMachines (ms_meta ms)]))
                       (λ e, Err (wrapf "failed to get cluster machines" e));
        machines ← range_machines collection;
        mret (Ok (sort_by_uid machines))
    end).

Definition createScope (md : MachineDeployment) : prog (gores scope) :=
  func (
    check (call (NewHelper KMachineDeployment md))
      (λ e, Err (wrapf "failed to create new patch helper" e)) ;;
    machines ← check (callp (getOwnedMachines md)) (λ e, Err (wrapf "failed to get owned machines" e));
    mret (Ok (mkScope md md (GetUpgradeInstructions (md_meta md)) machines))).

Definition markMachineToUpgrade (s : scope) : Machine → prog (Machine * option error) :=
  func_on (
    check_err (calls (MarkMachineToUpgrade (upgradeTo s)))
      (λ e, Some (wrapf "failed to mark machine to upgrade" e)) ;;
    m ← get;
    call (Eventf (key_of (md_meta (machineDeployment s))) EventNormal InPlaceUpgradeInProgressEvent
      ("Machine " +:+ quote (m_Name m) +:+ " is upgrading to " +:+ quote (upgradeTo s))) ;;
    mret None).

(** A call that mutates the deployment of the scope. *)
Definition on_md {A} (f : MachineDeployment → prog (MachineDeployment * A))
    : go (MachineDeployment * nat) outcome A :=
  zoom fst (λ md st, (md, st.2)) (calls f).

(** The body of the loop over the owned machines. *)
Definition visit (s : scope) (m : Machine) : go (MachineDeployment * nat) outcome unit :=
  if IsUpgraded (m_meta m) (upgradeTo s) then modify (λ st, (st.1, S st.2))
  else if deleting (m_meta m) then return_ requeue
  else if IsMachineUpgradeFailed m then
    check_err (on_md (markUpgradeFailed s m))
      (λ e, (Result0, Some (wrapf "failed to mark upgrade as failed" e))) ;;
    return_ requeue
  else if IsMachineUpgrading m then return_ requeue
  else
    r ← callp (markMachineToUpgrade s m);
    check_err (mret r.2) (λ e, (Result0, Some (wrapf "failed to mark machine to upgrade" e))) ;;
    check_err (on_md (markUpgradeInProgress s r.1))
      (λ e, (Result0, Some (wrapf "failed to mark upgrade as in-progress" e))) ;;
    return_ requeue.

(** The part of [Reconcile] that works on the scope. *)
Definition upgrade_machines (s : scope) : prog (MachineDeployment * nat * outcome) :=
  func_on (
    for_each (ownedMachines s) (visit s) ;;
    st ← get;
    if bool_decide (st.2 = length (ownedMachines s)) then
      check_err (on_md (markUpgradeDone s))
        (λ e, (Result0, Some (wrapf "failed to mark upgrade as done" e))) ;;
      mret (Result0, None)
    else mret requeue) (machineDeployment s, 0).

(** [func (r *OrchestratedInPlaceUpgradeController) Reconcile] *)
Definition Reconcile (req : ObjectKey) : prog outcome :=
  func (
    md ← catch (call (Get KMachineDeployment req)) (λ e,
           if IsNotFound e then return_ (Result0, None)
           else return_ (Result0, Some (wrapf "failed to get MachineDeployment" e)));
    if bool_decide (GetUpgradeInstructions (md_meta md) = "") then return_ (Result0, None)
    else if deleting (md_meta md) then return_ (Result0, None)
    else
      s ← check (callp (createScope md)) (λ e, (Result0, Some (wrapf "failed to create scope" e)));
      r ← callp (upgrade_machines s);
      mret r.2).
End Controller.

(** ** The order of the machines *)

Definition uid_le (m1 m2 : Machine) : Prop := String.le (om_UID (m_meta m1)) (om_UID (m_meta m2)).

#[export] Instance uid_le_trans : Transitive uid_le.
Proof. intros m1 m2 m3. unfold uid_le. apply transitivity. Qed.

Lemma uid_lt_le m1 m2 : if uid_lt m1 m2 then uid_le m1 m2 else uid_le m2 m1.
Proof.
  unfold uid_lt, uid_le, String.le, String.leb, String.ltb.
  rewrite (String.compare_antisym (om_UID (m_meta m2))).
  by destruct (String.compare (om_UID (m_meta m1)) _).
Qed.

Lemma sort_by_uid_perm l : sort_by_uid l ≡ₚ l.
Proof.
  induction l as [|m l IH]; simpl; [done|].
  assert (∀ l, insert_by_uid m l ≡ₚ m :: l) as Hins.
  { induction l0 as [|m' l0 IH0]; simpl; [done|]. destruct (uid_lt m' m); [|done].
    rewrite IH0. apply Permutation_swap. }
  by rewrite Hins, IH.
Qed.

Lemma sort_by_uid_sorted l : StronglySorted uid_le (sort_by_uid l).
Proof.
  apply Sorted_StronglySorted; [apply _|]. induction l as [|m l IH]; simpl; [constructor|].
  induction IH as [|m' l' Hl IHl Hhd]; simpl; [repeat constructor|].
  pose proof (uid_lt_le m' m) as Hle. destruct (uid_lt m' m); [|by repeat constructor].
  constructor; [done|]. destruct Hhd as [|m'' l'' Hm'']; simpl; [by repeat constructor|].
  by destruct (uid_lt m'' m); constructor.
Qed.

Section Server.
Context {W : Type} `{!ApiErrors, !MetaLib, !CollectionsLib, !CollectionsLaws, !Env W, !ApiServer W}.
Implicit Types (w : W) (md : MachineDeployment) (s : scope).

(** The machines of the deployment: the stored machines of its cluster that belong
    to a machine set of the deployment, by UID. *)
Definition owned w md (ms : list Machine) : Prop :=
  ∃ cluster (mset : MachineSet),
    view KCluster w (mkKey (om_Namespace (md_meta md)) (md_ClusterName md)) = Some cluster ∧
    view KMachineSet w (key_of (ms_meta mset)) = Some mset ∧
    IsOwnedByObject (ms_meta mset) (md_meta md) = true ∧
    StronglySorted uid_le ms ∧ NoDup (m_Name <$> ms) ∧
    ∀ m, m ∈ ms ↔ view KMachine w (key_of (m_meta m)) = Some m ∧
                  om_Namespace (m_meta m) = cl_Namespace cluster ∧
                  om_Labels (m_meta m) !! Clusterv1.ClusterNameLabel = Some (cl_Name cluster) ∧
                  OwnedMachines (ms_meta mset) m = true.

Lemma getOwnedMachines_wp md w :
  wp (getOwnedMachines md) w (λ w' r,
    same_view w w' ∧ match r with Ok ms => owned w md ms | Err _ => True end).
Proof.
  unfold getOwnedMachines, getCluster. repeat wp_step. apply gwp_call; [by apply api_pre|].
  intros r w1 _ [Hv1 Hc]%(api_get KCluster). destruct r as [cluster|e]; repeat wp_step; [|done].
  apply gwp_call; [by apply api_pre|]. intros [sets|e] w2 _ Hl;
    pose proof (api_quiet _ _ _ _ Hl I) as Hv2;
    (assert (same_view w w2) as Hw2 by (by trans w1)); repeat wp_step; [|done].
  destruct (List.find _ sets) as [mset|] eqn:Hfind; repeat wp_step; [|done].
  apply List.find_some in Hfind as [Hin%list_elem_of_In Hown].
  apply (api_list KMachineSet) in Hl as [_ Hl]. apply Hl in Hin as (Hset & _ & _).
  eapply wp_mono; [apply GetMachinesForCluster_wp|].
  intros w3 [ms|e] [Hv3 Hms]; repeat wp_step; [|split; [by trans w2|done]].
  unfold range_machines. repeat wp_step. apply gwp_call; [by apply api_pre|].
  intros ks w4 Hks Hr. pose proof (api_quiet _ _ _ _ Hr I) as Hv4. repeat wp_step.
  split; [trans w3; [by trans w2|done]|]. exists cluster, mset.
  split; [done|]. split; [by rewrite <- Hv1|]. split; [done|].
  split; [apply sort_by_uid_sorted|]. split.
  { rewrite sort_by_uid_perm. apply lookup_range_NoDup; [done|]. intros n m Hn. by apply Hms in Hn as [? _]. }
  intros m. rewrite sort_by_uid_perm, lookup_range_elem by done. setoid_rewrite Hms.
  rewrite <- (Hw2 KMachine (key_of (m_meta m))).
  cbn [key_of key_ns key_name forallb]. setoid_rewrite andb_true_r. naive_solver.
Qed.

Lemma md_createScope_wp md w :
  wp (createScope md) w (λ w' r,
    same_view w w' ∧
    match r with
    | Ok s => machineDeployment s = md ∧ mdPatcher s = md ∧
              upgradeTo s = GetUpgradeInstructions (md_meta md) ∧ owned w md (ownedMachines s)
    | Err _ => True
    end).
Proof.
  unfold createScope. repeat wp_step. apply gwp_call; [by apply api_pre|].
  intros [u|e] w1 _ Hn; pose proof (api_quiet _ _ _ _ Hn I) as Hv; repeat wp_step; [|done].
  eapply wp_mono; [apply getOwnedMachines_wp|].
  intros w2 [ms|e] [Hv2 Hms]; repeat wp_step; (split; [by trans w1|]); [|done].
  repeat split; try done. unfold owned in *. setoid_rewrite Hv in Hms. exact Hms.
Qed.

(** The status stored for the deployment. *)
Definition md_status w md (st : string) : Prop :=
  ∃ md' : MachineDeployment, view KMachineDeployment w (key_of (md_meta md)) = Some md' ∧
    ann (md_meta md') InPlaceUpgradeStatusAnnotation = Some st.

(** What a reconciliation that has found the machines [ms] does, by the abstract
    choice [next]: at most one machine is touched, and the deployment is marked. *)
Definition performs w w' md (to : string) (ms : list Machine) (r : outcome) : Prop :=
  match next to ms with
  | Finish =>
      frame KMachineDeployment (key_of (md_meta md)) w w' ∧
      (r.2 = None → r.1 = Result0 ∧ md_status w' md InPlaceUpgradeDoneStatus)
  | Wait => same_view w w' ∧ r = requeue
  | Fail _ =>
      frame KMachineDeployment (key_of (md_meta md)) w w' ∧
      (r.2 = None → r = requeue ∧ md_status w' md InPlaceUpgradeFailedStatus)
  | Start m =>
      (∀ k key, (k, key) ≠ (KMachine, key_of (m_meta m)) →
         (k, key) ≠ (KMachineDeployment, key_of (md_meta md)) → view k w' key = view k w key) ∧
      (r.2 = None → r = requeue ∧ md_status w' md InPlaceUpgradeInProgressStatus ∧
         ∃ m', view KMachine w' (key_of (m_meta m)) = Some m' ∧ marks (m_meta m') = requested to)
  end.

Lemma synced_md_status w md f st :
  synced KMachineDeployment w (annotate KMachineDeployment f md) →
  (∀ a, f a !! InPlaceUpgradeStatusAnnotation = Some st) → md_status w md st.
Proof.
  intros (md' & Hv & Ha) Hf. exists md'. rewrite key_annotate in Hv. split; [exact Hv|].
  specialize (Ha InPlaceUpgradeStatusAnnotation). rewrite ann_annotate, Hf in Ha. exact Ha.
Qed.

Lemma next_skip to d ms :
  Forall (λ m, IsUpgraded (m_meta m) to = true) d → next to (d ++ ms) = next to ms.
Proof. induction 1 as [|m d Hm _ IH]; simpl; [done|]. by rewrite Hm. Qed.

Lemma md_markMachineToUpgrade_wp s m w :
  synced KMachine w m →
  wp (markMachineToUpgrade s m) w (λ w' r,
    frame KMachine (key_of (m_meta m)) w w' ∧
    (r.2 = None → ∃ m', view KMachine w' (key_of (m_meta m)) = Some m' ∧
                        marks (m_meta m') = requested (upgradeTo s))).
Proof.
  intros Hs. unfold markMachineToUpgrade. repeat wp_step.
  eapply wp_mono; [by apply MarkMachineToUpgrade_wp|].
  intros w1 [m1 [e|]] (Hf & Hn & Hr); cbn [fst snd] in *; repeat wp_step; [done|].
  apply gwp_call; [by apply api_pre|]. intros [] w2 _ He. repeat wp_step.
  pose proof (api_quiet _ _ _ _ He I) as Hv. split; [by eapply same_frame|]. intros _.
  destruct (Hr eq_refl) as [(m' & Hm' & Ha) Hmk]. exists m'. rewrite Hv. split.
  - by rewrite <- Hm', Hn.
  - rewrite <- Hmk. unfold marks. cbn [meta_of] in Ha. by rewrite !Ha.
Qed.

Section Loop.
Context (s : scope) (w0 : W).
Abbreviation md := (machineDeployment s).
Abbreviation ms := (ownedMachines s).
Hypothesis Hpatcher : mdPatcher s = md.
Hypothesis Hmd : synced KMachineDeployment w0 md.
Hypothesis Hms : ∀ m, m ∈ ms → view KMachine w0 (key_of (m_meta m)) = Some m.

(** The three marks of the deployment. *)
Lemma md_marks_wp w :
  synced KMachineDeployment w md →
  (∀ m, wp (markUpgradeFailed s m md) w (λ w' r,
     frame KMachineDeployment (key_of (md_meta md)) w w' ∧
     (r.2 = None → md_status w' md InPlaceUpgradeFailedStatus))) ∧
  (∀ m, wp (markUpgradeInProgress s m md) w (λ w' r,
     frame KMachineDeployment (key_of (md_meta md)) w w' ∧
     (r.2 = None → md_status w' md InPlaceUpgradeInProgressStatus))) ∧
  wp (markUpgradeDone s md) w (λ w' r,
     frame KMachineDeployment (key_of (md_meta md)) w w' ∧
     (r.2 = None → md_status w' md InPlaceUpgradeDoneStatus)).
Proof.
  intros Hs. unfold markUpgradeFailed, markUpgradeInProgress, markUpgradeDone. rewrite Hpatcher.
  split; [intros m|split; [intros m|]];
    (eapply wp_mono; [apply (report_wp KMachineDeployment), (mark_wp KMachineDeployment), Hs|]; intros w' r (_ & Hf & Hr);
     split; [exact Hf|]; intros Hn; eapply synced_md_status; [exact (Hr Hn)|]; intros a; cbv beta).
  - by rewrite lookup_insert_eq.
  - rewrite lookup_insert_ne, lookup_insert_eq by done. done.
  - rewrite lookup_insert_ne, lookup_insert_eq by done. done.
Qed.

Lemma visit_wp d m rest w :
  ms = d ++ m :: rest → same_view w0 w → Forall (λ m, IsUpgraded (m_meta m) (upgradeTo s) = true) d →
  gwp (visit s m) (md, length d) w
    (λ w' st _, same_view w0 w' ∧ st = (md, length (d ++ [m])) ∧
                Forall (λ m, IsUpgraded (m_meta m) (upgradeTo s) = true) (d ++ [m]))
    (λ w' _ r, performs w0 w' md (upgradeTo s) ms r).
Proof.
  intros Hsplit Hw Hd. unfold performs. rewrite Hsplit, next_skip by done. cbn [next].
  assert (view KMachine w0 (key_of (m_meta m)) = Some m) as Hm
    by (apply Hms; rewrite Hsplit, elem_of_app, elem_of_cons; auto).
  unfold visit. destruct (IsUpgraded (m_meta m) (upgradeTo s)) eqn:Hup.
  { repeat wp_step. split; [done|]. rewrite length_app. simpl.
    rewrite Nat.add_1_r. split; [done|]. apply Forall_app. by split; [|constructor]. }
  destruct (deleting (m_meta m)); [by wp_step|].
  destruct (IsMachineUpgradeFailed m); [|destruct (IsMachineUpgrading m); [by wp_step|]].
  - repeat wp_step. unfold on_md. repeat wp_step.
    eapply wp_mono; [by apply (md_marks_wp w (synced_same _ _ _ _ Hw Hmd))|].
    intros w1 [md1 [e|]] (Hf & Hr); cbn [fst snd] in *; repeat wp_step;
      (split; [by eapply frame_same|auto]); done.
  - repeat wp_step. eapply wp_mono; [apply md_markMachineToUpgrade_wp|].
    { eapply synced_same; [done|]. by exists m. }
    intros w1 [m1 [e|]] (Hf & Hr); cbn [fst snd] in *; repeat wp_step.
    { split; [|done]. intros k key Hne _. rewrite <- Hw. by apply Hf. }
    destruct (Hr eq_refl) as (m' & Hm' & Hmk). unfold on_md. repeat wp_step.
    assert (synced KMachineDeployment w1 md) as Hs1.
    { eapply synced_frame; [exact Hf|discriminate|]. by eapply synced_same. }
    eapply wp_mono; [by apply (md_marks_wp w1 Hs1)|].
    intros w2 [md2 [e|]] (Hf2 & Hr2); cbn [fst snd] in *; repeat wp_step;
      (split; [intros k key Hne1 Hne2; by rewrite (Hf2 k key), (Hf k key), Hw|]); [done|].
    intros _. split; [done|]. split; [auto|].
    exists m'. split; [|done]. rewrite (Hf2 KMachine) by discriminate. done.
Qed.

Lemma md_upgrade_machines_wp w :
  same_view w0 w →
  wp (upgrade_machines s) w (λ w' r, performs w0 w' md (upgradeTo s) ms r.2).
Proof.
  intros Hw. unfold upgrade_machines. apply wp_func_on, gwp_bind.
  eapply (gwp_for_each _ _ (λ d _ w st, same_view w0 w ∧ st = (md, length d) ∧
    Forall (λ m, IsUpgraded (m_meta m) (upgradeTo s) = true) d)).
  - done.
  - intros d m rest w1 st Hsplit (Hw1 & -> & Hd). by eapply visit_wp.
  - intros w1 st (Hw1 & -> & Hd). repeat wp_step. cbn [snd]. rewrite bool_decide_true by done.
    assert (next (upgradeTo s) ms = Finish) as Hnext.
    { rewrite <- (app_nil_r ms), next_skip by done. done. }
    repeat wp_step. unfold on_md. repeat wp_step.
    eapply wp_mono; [by apply (md_marks_wp w1 (synced_same _ _ _ _ Hw1 Hmd))|].
    unfold performs. rewrite Hnext.
    intros w2 [md2 [e|]] (Hf & Hr); cbn [fst snd] in *; repeat wp_step;
      (split; [by eapply frame_same|auto]); done.
Qed.
End Loop.

Lemma md_Reconcile_wp req w :
  wp (Reconcile req) w (λ w' r,
    same_view w w' ∧ r.2 ≠ None ∨
    match view KMachineDeployment w req with
    | None => same_view w w' ∧ r = (Result0, None)
    | Some md =>
        if bool_decide (GetUpgradeInstructions (md_meta md) = "") || deleting (md_meta md)
        then same_view w w' ∧ r = (Result0, None)
        else ∃ ms, owned w md ms ∧ performs w w' md (GetUpgradeInstructions (md_meta md)) ms r
    end).
Proof.
  unfold Reconcile. repeat wp_step. apply gwp_call; [by apply api_pre|].
  intros r w1 _ [Hv1 Hr]%(api_get KMachineDeployment). destruct r as [md|e]; repeat wp_step.
  2: { destruct (IsNotFound e); repeat wp_step; [right|by left].
       rewrite Hr by done. done. }
  rewrite Hr. destruct (bool_decide _); [wp_step; right; done|]. simpl.
  destruct (deleting (md_meta md)); [wp_step; right; done|].
  repeat wp_step. eapply wp_mono; [apply md_createScope_wp|].
  intros w2 [s|e] [Hv2 Hs]; repeat wp_step; [|left; split; [by trans w1|done]].
  destruct Hs as (Hmd & Hp & Hto & Hown). rewrite <- Hmd in Hp. eapply wp_mono.
  - apply (md_upgrade_machines_wp s w1); [done| | |exact Hv2].
    + rewrite Hmd. exists md. split; [|done]. rewrite Hv1.
      pose proof (view_key _ _ _ _ Hr) as Hk. by rewrite Hk.
    + intros m Hm. destruct Hown as (cl & mset & _ & _ & _ & _ & _ & Hin). by apply Hin in Hm as [? _].
  - intros w3 [[md' n] r] Hperf. repeat wp_step. right. exists (ownedMachines s).
    rewrite Hmd, Hto in Hperf. unfold owned in *. setoid_rewrite Hv1 in Hown. split; [exact Hown|].
    cbn [snd] in *. unfold performs in *.
    destruct (next _ _); unfold frame, same_view in *; setoid_rewrite Hv1 in Hperf; exact Hperf.
Qed.

(** C25: a reconciliation of a MachineDeployment without instructions, or
    being deleted, changes nothing.  Otherwise it fails before it changes
    anything, or does exactly what the abstract choice [next] says for the
    machines of the deployment in the order of their UIDs: wait, mark the
    deployment failed or done, or request the upgrade of the first machine that
    is not upgraded, when that machine is not being deleted, upgraded or failed;
    the deployment is marked done only when every machine is upgraded. *)
Theorem md_reconcile_refines req w :
  wp (Reconcile req) w (λ w' r,
    same_view w w' ∧ r.2 ≠ None ∨
    match view KMachineDeployment w req with
    | None => same_view w w' ∧ r = (Result0, None)
    | Some md =>
        if bool_decide (GetUpgradeInstructions (md_meta md) = "") || deleting (md_meta md)
        then same_view w w' ∧ r = (Result0, None)
        else ∃ ms, owned w md ms ∧ performs w w' md (GetUpgradeInstructions (md_meta md)) ms r
    end).
Proof. apply md_Reconcile_wp. Qed.

Lemma owned_unique md w ms1 ms2 :
  (∀ s1 s2 : MachineSet, view KMachineSet w (key_of (ms_meta s1)) = Some s1 →
     view KMachineSet w (key_of (ms_meta s2)) = Some s2 →
     IsOwnedByObject (ms_meta s1) (md_meta md) = true →
     IsOwnedByObject (ms_meta s2) (md_meta md) = true → s1 = s2) →
  (∀ m1 m2, view KMachine w (key_of (m_meta m1)) = Some m1 →
     view KMachine w (key_of (m_meta m2)) = Some m2 →
     om_UID (m_meta m1) = om_UID (m_meta m2) → m1 = m2) →
  owned w md ms1 → owned w md ms2 → ms1 = ms2.
Proof.
  intros Hset Huid (c1 & s1 & Hc1 & Hs1 & Ho1 & Hsort1 & Hn1 & Hin1)
    (c2 & s2 & Hc2 & Hs2 & Ho2 & Hsort2 & Hn2 & Hin2).
  rewrite (Hset s1 s2) in Hin1 by done. rewrite Hc1 in Hc2. injection Hc2 as <-.
  apply (StronglySorted_unique_strong uid_le).
  - intros m1 m2 [Hm1 _]%Hin1 [Hm2 _]%Hin2 Hle1 Hle2. apply Huid; [done..|].
    by apply (anti_symm String.le).
  - done.
  - done.
  - apply NoDup_Permutation; [by eapply NoDup_fmap_1..|]. intros m. by rewrite Hin1, Hin2.
Qed.

(** The order of the upgrades is deterministic, as the comment in the
    code asks: whatever order [range] visits the collection in, two reads of the
    machines of a deployment in one state of the store give the same list, when
    the deployment has one machine set and UIDs identify machines. *)
Theorem owned_machines_deterministic md w w1 w2 ms1 ms2 :
  (∀ s1 s2 : MachineSet, view KMachineSet w (key_of (ms_meta s1)) = Some s1 →
     view KMachineSet w (key_of (ms_meta s2)) = Some s2 →
     IsOwnedByObject (ms_meta s1) (md_meta md) = true →
     IsOwnedByObject (ms_meta s2) (md_meta md) = true → s1 = s2) →
  (∀ m1 m2, view KMachine w (key_of (m_meta m1)) = Some m1 →
     view KMachine w (key_of (m_meta m2)) = Some m2 →
     om_UID (m_meta m1) = om_UID (m_meta m2) → m1 = m2) →
  exec (getOwnedMachines md) w w1 (Ok ms1) →
  exec (getOwnedMachines md) w w2 (Ok ms2) → ms1 = ms2.
Proof.
  intros Hset Huid He1 He2. eapply owned_unique; [done|done| |].
  - apply (wp_sound _ _ _ _ _ (getOwnedMachines_wp md w) He1).
  - apply (wp_sound _ _ _ _ _ (getOwnedMachines_wp md w) He2).
Qed.

(** ** The rolling upgrade of a deployment *)

Section Rollout.
Context `{!K8sdApi, !TimeFormat} (req : ObjectKey) (to : string) (keys : list ObjectKey).

Definition marks_of w (key : ObjectKey) : upgrade_marks :=
  match view KMachine w key with
  | Some m => marks (m_meta m)
  | None => mkMarks None None None None None
  end.

(** One successful reconciliation, of the deployment that upgrades the machines
    [keys] (in the order of their UIDs) to [to], or of one of these machines. *)
Inductive turn : W → W → Prop :=
  | turn_deployment w w' res :
      (∀ md ms, view KMachineDeployment w req = Some md → owned w md ms →
         (λ m, key_of (m_meta m)) <$> ms = keys ∧ GetUpgradeInstructions (md_meta md) = to) →
      exec (Reconcile req) w w' (res, None) → turn w w'
  | turn_machine w w' key m res :
      key ∈ keys → view KMachine w key = Some m → is_Some (m_ConfigRef m) →
      exec (MachineUpgrade.Reconcile key) w w' (res, None) → turn w w'.

Lemma marks_of_frame k key' w w' key :
  frame k key' w w' → (KMachine, key) ≠ (k, key') → marks_of w' key = marks_of w key.
Proof. intros Hf Hne. unfold marks_of. by rewrite Hf. Qed.

Lemma owned_marks w md ms :
  owned w md ms → ∀ j m, ms !! j = Some m → marks_of w (key_of (m_meta m)) = marks (m_meta m).
Proof.
  intros (cl & mset & _ & _ & _ & _ & _ & Hin) j m Hj%list_elem_of_lookup_2.
  apply Hin in Hj as [Hj _]. unfold marks_of. by rewrite Hj.
Qed.

Lemma marks_insert w w' i key k :
  NoDup keys → keys !! i = Some key → marks_of w' key = k →
  (∀ key', key' ≠ key → marks_of w' key' = marks_of w key') →
  marks_of w' <$> keys = <[i := k]> (marks_of w <$> keys).
Proof.
  intros Hnd Hi Hk Hne. apply list_eq. intros j. rewrite list_lookup_fmap.
  destruct (decide (i = j)) as [<-|Hij].
  - rewrite Hi, list_lookup_insert_eq; simpl; [by rewrite Hk|].
    rewrite length_fmap. by eapply lookup_lt_Some.
  - rewrite list_lookup_insert_ne, list_lookup_fmap by done.
    destruct (keys !! j) as [key'|] eqn:Hj; simpl; [|done]. f_equal. apply Hne. intros ->.
    apply Hij. by eapply NoDup_lookup.
Qed.

(** Requesting the upgrade of the next machine, on the stored marks. *)
Lemma performs_start w w' md ms m res :
  NoDup keys → (λ m, key_of (m_meta m)) <$> ms = keys → owned w md ms → next to ms = Start m →
  performs w w' md to ms (res, None) →
  ∃ i, (marks_of w <$> keys) !! i = Some (marks (m_meta m)) ∧
    (∀ j k, j < i → (marks_of w <$> keys) !! j = Some k → upgraded to k) ∧
    ¬ upgraded to (marks (m_meta m)) ∧ quiescent (marks (m_meta m)) ∧
    marks_of w' <$> keys = <[i := requested to]> (marks_of w <$> keys).
Proof.
  intros Hnd Hk Hown Hnext Hp. unfold performs in Hp. rewrite Hnext in Hp.
  destruct Hp as [Hf Hr]. destruct (Hr eq_refl) as (_ & _ & m' & Hm' & Hmk).
  destruct (next_start _ _ _ Hnext) as (i & Hi & Hpre & Hnu & Hq).
  pose proof (owned_marks w md ms Hown) as Hst. exists i.
  assert (keys !! i = Some (key_of (m_meta m))) as Hki by (by rewrite <- Hk, list_lookup_fmap, Hi).
  split; [|split; [|split; [done|split; [done|]]]].
  - rewrite list_lookup_fmap, Hki. simpl. by rewrite (Hst i).
  - intros j kj Hj. rewrite <- Hk, <- list_fmap_compose, list_lookup_fmap_Some.
    intros (mj & -> & Hmj). simpl. rewrite (Hst _ _ Hmj). by eapply Hpre.
  - apply (marks_insert w w' i (key_of (m_meta m))); [done|done| |].
    + unfold marks_of. by rewrite Hm', Hmk.
    + intros key' Hne. unfold marks_of. rewrite Hf; [done| |discriminate]. congruence.
Qed.

(** A reconciliation of the deployment without error, on the stored marks. *)
Lemma deployment_rolling w w' res :
  NoDup keys →
  (∀ md ms, view KMachineDeployment w req = Some md → owned w md ms →
     (λ m, key_of (m_meta m)) <$> ms = keys ∧ GetUpgradeInstructions (md_meta md) = to) →
  exec (Reconcile req) w w' (res, None) →
  marks_of w' <$> keys = marks_of w <$> keys ∨
  rolling to (marks_of w <$> keys) (marks_of w' <$> keys).
Proof.
  intros Hnd Hkeys He. apply (wp_sound _ _ _ _ _ (md_Reconcile_wp req w)) in He.
  assert ((∀ key, marks_of w' key = marks_of w key) →
    marks_of w' <$> keys = marks_of w <$> keys ∨
    rolling to (marks_of w <$> keys) (marks_of w' <$> keys)) as Hsame.
  { intros Hs. left. apply list_fmap_ext. intros i key _. apply Hs. }
  assert (same_view w w' → ∀ key, marks_of w' key = marks_of w key) as Hview.
  { intros Hv key. unfold marks_of. by rewrite Hv. }
  destruct He as [[Hv _]|He]; [auto|].
  destruct (view KMachineDeployment w req) as [md|]; [|destruct He; auto].
  destruct (bool_decide _ || _); [destruct He; auto|].
  destruct He as (ms & Hown & Hp). destruct (Hkeys md ms eq_refl Hown) as [Hk Hto].
  rewrite Hto in Hp. unfold performs in Hp. destruct (next to ms) as [| | |m] eqn:Hnext.
  - apply Hsame. intros key. by eapply marks_of_frame; [apply Hp|].
  - apply Hsame, Hview, Hp.
  - apply Hsame. intros key. by eapply marks_of_frame; [apply Hp|].
  - destruct (performs_start w w' md ms m res Hnd Hk Hown Hnext) as (i & Hi & Hpre & Hnu & Hq & ->).
    { unfold performs. by rewrite Hnext. }
    right. by eapply rolling_start.
Qed.

(** A reconciliation of a machine without error, on the stored marks. *)
Lemma machine_rolling w w' i key m res :
  NoDup keys → keys !! i = Some key → view KMachine w key = Some m → is_Some (m_ConfigRef m) →
  exec (MachineUpgrade.Reconcile key) w w' (res, None) →
  ∃ k', MachineUpgrade.step (marks_of w key) res k' ∧
    marks_of w' <$> keys = <[i := k']> (marks_of w <$> keys).
Proof.
  intros Hnd Hi Hm Href He.
  pose proof (exec_frame _ _ _ _ _ _ _ (MachineUpgrade.Reconcile_writes key) He) as Hf.
  assert (∀ m, view KMachine w key = Some m → is_Some (m_ConfigRef m)) as Hcfg.
  { intros m1 Hm1. rewrite Hm in Hm1. by injection Hm1 as <-. }
  pose proof (wp_sound _ _ _ _ _ (MachineUpgrade.Reconcile_wp key w Hcfg) He) as Hw.
  cbn [fst snd] in Hw. rewrite Hm in Hw. destruct (Hw eq_refl) as (k' & (o & Ho & Hk') & Hstep).
  exists k'. split; [unfold marks_of; by rewrite Hm|].
  apply (marks_insert w w' i key k'); [done|done| |].
  - unfold marks_of. by rewrite Ho.
  - intros key' Hne. eapply marks_of_frame; [exact Hf|]. congruence.
Qed.

Lemma turn_rolling w w' :
  NoDup keys → turn w w' →
  marks_of w' <$> keys = marks_of w <$> keys ∨
  rolling to (marks_of w <$> keys) (marks_of w' <$> keys).
Proof.
  intros Hnd Ht. destruct Ht as [w w' res Hkeys He|w w' key m res Hkey Hm Href He].
  - by eapply deployment_rolling.
  - apply list_elem_of_lookup_1 in Hkey as [i Hi].
    destruct (machine_rolling w w' i key m res Hnd Hi Hm Href He) as (k' & Hstep & ->).
    right. eapply rolling_machine; [|exact Hstep]. by rewrite list_lookup_fmap, Hi.
Qed.

(** C24: the machines of a deployment are upgraded one at a time and in
    order.  From a store in which none has a request, after any sequence of
    successful reconciliations of the deployment and of its machines, in any
    order, at most one machine has a pending request, and every machine before
    it is already upgraded. *)
Theorem md_rollout_serial w w' :
  to ≠ "" → NoDup keys → (∀ key, key ∈ keys → mk_to (marks_of w key) = None) →
  rtc turn w w' →
  ∀ i j ki kj, keys !! i = Some ki → keys !! j = Some kj → mk_to (marks_of w' kj) ≠ None →
  (i < j → upgraded to (marks_of w' ki)) ∧ (mk_to (marks_of w' ki) ≠ None → i = j).
Proof.
  intros Hto Hnd Hnone Hturns i j ki kj Hi Hj Hp.
  assert (rtc (rolling to) (marks_of w <$> keys) (marks_of w' <$> keys)) as Hr.
  { clear Hnone Hp. induction Hturns as [|w w1 w2 Hturn _ IH]; [apply rtc_refl|].
    destruct (turn_rolling _ _ Hnd Hturn) as [<-|Hstep]; [exact IH|by eapply rtc_l]. }
  assert (Forall (λ k, ¬ pending k) (marks_of w <$> keys)) as Hnone'.
  { apply Forall_fmap, Forall_lookup. intros n key Hkey%list_elem_of_lookup_2 Hpk.
    by apply Hpk, Hnone. }
  apply (rolling_serial to _ _ Hto Hnone' Hr i j (marks_of w' ki) (marks_of w' kj)).
  - by rewrite list_lookup_fmap, Hi.
  - by rewrite list_lookup_fmap, Hj.
  - exact Hp.
Qed.
End Rollout.
End Server.

(** ** Witnesses: a deployment of two machines *)

Module Examples.
Definition to : string := "channel=1.31".
Definition md : MachineDeployment :=
  mkMachineDeployment
    (set_Annotations (Some {[InPlaceUpgradeToAnnotation := to]}) (meta_named "d")) "c".
Definition labelled (l : strmap) (owner : string) (m : ObjectMeta) : ObjectMeta :=
  mkMeta (om_Name m) (om_Namespace m) (om_UID m) l None
    [mkOwnerRef "" "" owner owner (Some true)] [] 0 None.
Definition mset : MachineSet :=
  mkMachineSet (labelled {[Clusterv1.ClusterNameLabel := "c";
                           Clusterv1.MachineDeploymentNameLabel := "d"]} "d" (meta_named "s")).
Definition machine (n : string) : Machine :=
  set_m_meta (labelled {[Clusterv1.ClusterNameLabel := "c"]} "s" (meta_named n)) (machine_named n).
Definition store : Store :=
  put KMachineDeployment md (put KCluster (cluster_named "c") (put KMachineSet mset
    (put KMachine (machine "b") (put KMachine (machine "a") empty_store)))).
Definition world : handler Store := friendly [] (cluster_named "c") (λ r, k8sd_ok "").
Definition req : ObjectKey := mkKey "ns" "d".
Definition keys : list ObjectKey := [mkKey "ns" "a"; mkKey "ns" "b"].
End Examples.
Import Examples.
#[local] Instance the_env : Env Store := server_env world.

Lemma ex_sets s : view KMachineSet store (key_of (ms_meta s)) = Some s → s = mset.
Proof.
  unfold store. intros Hs. rewrite !look_put_ne in Hs by done.
  apply look_put_Some in Hs as [Hs|Hs]; [exact Hs|].
  rewrite !look_put_ne, look_empty in Hs by done. done.
Qed.

Lemma ex_machines m : view KMachine store (key_of (m_meta m)) = Some m → m = machine "a" ∨ m = machine "b".
Proof.
  unfold store. intros Hm. rewrite !look_put_ne in Hm by done.
  apply look_put_Some in Hm as [Hm|Hm]; [by right|].
  apply look_put_Some in Hm as [Hm|Hm]; [by left|]. by rewrite look_empty in Hm.
Qed.

Lemma ex_run {A} (p : prog A) a :
  fst <$> run (serve world) p store = Some a → ∃ w', exec p store w' a.
Proof.
  destruct (run (serve world) p store) as [[a' w']|] eqn:Hr; simpl; [|done]. intros [= ->].
  exists w'. eapply serve_exec; [|exact Hr]. apply friendly_lang.
Qed.

Lemma ex_unique md :
  (∀ s1 s2 : MachineSet, view KMachineSet store (key_of (ms_meta s1)) = Some s1 →
     view KMachineSet store (key_of (ms_meta s2)) = Some s2 →
     IsOwnedByObject (ms_meta s1) (md_meta md) = true →
     IsOwnedByObject (ms_meta s2) (md_meta md) = true → s1 = s2) ∧
  (∀ m1 m2, view KMachine store (key_of (m_meta m1)) = Some m1 →
     view KMachine store (key_of (m_meta m2)) = Some m2 →
     om_UID (m_meta m1) = om_UID (m_meta m2) → m1 = m2).
Proof.
  split.
  - by intros s1 s2 ->%ex_sets ->%ex_sets.
  - by intros m1 m2 [-> | ->]%ex_machines [-> | ->]%ex_machines.
Qed.

Lemma md_reconcile_refines_witness :
  fst <$> run (serve world) (Reconcile req) store = Some requeue ∧
  wp (Reconcile req) store (λ w' r,
    same_view store w' ∧ r.2 ≠ None ∨
    match view KMachineDeployment store req with
    | None => same_view store w' ∧ r = (Result0, None)
    | Some md =>
        if bool_decide (GetUpgradeInstructions (md_meta md) = "") || deleting (md_meta md)
        then same_view store w' ∧ r = (Result0, None)
        else ∃ ms, owned store md ms ∧ performs store w' md (GetUpgradeInstructions (md_meta md)) ms r
    end).
Proof. split; [vm_compute; reflexivity|]. apply (md_reconcile_refines req store). Defined.

Lemma owned_machines_deterministic_witness :
  ∃ w1 w2 ms2, exec (getOwnedMachines md) store w1 (Ok [machine "a"; machine "b"]) ∧
    exec (getOwnedMachines md) store w2 (Ok ms2) ∧ [machine "a"; machine "b"] = ms2.
Proof.
  destruct (ex_run (getOwnedMachines md) (Ok [machine "a"; machine "b"])) as [w1 H1];
    [vm_compute; reflexivity|].
  exists w1, w1, [machine "a"; machine "b"]. split; [done|]. split; [done|].
  exact (owned_machines_deterministic md store w1 w1 [machine "a"; machine "b"]
    [machine "a"; machine "b"] (proj1 (ex_unique md)) (proj2 (ex_unique md)) H1 H1).
Defined.

(** One turn of the deployment: the first machine gets the request. *)
Lemma md_ex_turn : ∃ w', turn req to keys store w'.
Proof.
  destruct (ex_run (Reconcile req) requeue) as [w' He]; [vm_compute; reflexivity|].
  exists w'. apply turn_deployment with (res := After (5 * Time.Second)); [|exact He].
  intros md' ms Hmd Hms.
  assert (view KMachineDeployment store req = Some md) as Hmd' by (vm_compute; reflexivity).
  rewrite Hmd' in Hmd. injection Hmd as <-. split; [|done].
  destruct (ex_run (getOwnedMachines md) (Ok [machine "a"; machine "b"])) as [w1 H1];
    [vm_compute; reflexivity|].
  pose proof (wp_sound _ _ _ _ _ (getOwnedMachines_wp md store) H1) as [_ H2].
  by rewrite (owned_unique md store ms [machine "a"; machine "b"]
    (proj1 (ex_unique md)) (proj2 (ex_unique md)) Hms H2).
Qed.

Lemma md_rollout_serial_witness :
  ∃ w', turn req to keys store w' ∧
    ∀ i j ki kj, keys !! i = Some ki → keys !! j = Some kj → mk_to (marks_of w' kj) ≠ None →
    (i < j → upgraded to (marks_of w' ki)) ∧ (mk_to (marks_of w' ki) ≠ None → i = j).
Proof.
  destruct md_ex_turn as [w' Ht]. exists w'. split; [exact Ht|].
  apply (md_rollout_serial req to keys store w').
  - done.
  - repeat constructor; set_solver.
  - intros key. unfold keys. rewrite !elem_of_cons. intros [-> | [-> | []%elem_of_nil]]; by vm_compute.
  - by apply rtc_once.
Defined.
End OrchestratedMD.
