(* ===== verification/RolloutLiveness.v ===== *)
(** Liveness of the in-place upgrade of a MachineDeployment: when its controller
    and the controllers of its machines go on reconciling without error, the
    started changes end and only finitely many of them fail, all machines are
    eventually upgraded, and the deployment is reported as upgraded.

    An execution is a function from [nat]; fairness says for every point that a
    reconciliation that can do the work follows.  The argument is a measure on the
    stored marks that no step increases and that the fair steps decrease. *)

From S2P Require Import Prelude Fairness Objects ApiTypes Effects Libs RefLibs ApiServer RefServer.
From S2P Require Import Token Workload Inplace MachineUpgrade Orchestrate OrchestratedMD.

Module RolloutLiveness.
Import Inplace Orchestrate OrchestratedMD.

(** ** The progress of one machine *)

Section Rank.
Context (to : string).

(** A machine in a rolling upgrade to [to]: done, not yet asked, or asked and on
    its way. *)
Inductive on_track : upgrade_marks → Prop :=
  | track_done k : upgraded to k → mk_to k = None → on_track k
  | track_idle k : quiescent k → mk_to k = None → on_track k
  | track_asked f : on_track (mkMarks (Some to) None None None f)
  | track_changing s ch f :
      s = InPlaceUpgradeInProgressStatus ∨ s = InPlaceUpgradeDoneStatus ∨
      s = InPlaceUpgradeFailedStatus →
      on_track (mkMarks (Some to) (Some s) None (Some ch) f).

Definition failed (k : upgrade_marks) : Prop := mk_status k = Some InPlaceUpgradeFailedStatus.

#[export] Instance upgraded_dec k : Decision (upgraded to k) := decide (_ = _).
#[export] Instance failed_dec k : Decision (failed k) := decide (_ = _).

Lemma track_not_asked k : on_track k → mk_to k = None → upgraded to k ∨ quiescent k.
Proof. by intros []; auto. Qed.

(** The steps left, when no change fails. *)
Definition rank (k : upgrade_marks) : nat :=
  match mk_to k, mk_change k with
  | None, _ => if decide (upgraded to k) then 0 else 5
  | Some _, None => 3
  | Some _, Some _ =>
      if decide (mk_status k = Some InPlaceUpgradeDoneStatus) then 1
      else if decide (failed k) then 4 else 2
  end.

Lemma rank_0 k : rank k = 0 → upgraded to k ∧ mk_to k = None.
Proof. unfold rank. repeat case_match; try done. Qed.

(** A successful reconciliation of a machine keeps it on track; unless the change
    fails, it decreases the rank or polls an unfinished change or has nothing to
    do. *)
Lemma step_rank k r k' :
  on_track k → MachineUpgrade.step k r k' →
  on_track k' ∧
  (failed k' ∧ ¬ failed k ∨ rank k' < rank k ∨
   k' = k ∧ (r = After (5 * Time.Second) ∨ mk_to k = None)).
Proof.
  intros Hk Hs. destruct Hk as [k Hu Hn|k Hq Hn|f|s ch f Hst].
  - inversion Hs; subst; simpl in *; try done. split; [by apply track_done|auto].
  - inversion Hs; subst; simpl in *; try done. split; [by apply track_idle|auto].
  - inversion Hs; subst. split; [apply track_changing; auto|]. right; left. vm_compute. lia.
  - inversion Hs; subst.
    + split; [by apply track_changing|auto].
    + split; [apply track_changing; auto|]. right; left. vm_compute. lia.
    + split; [apply track_changing; auto|]. by left.
    + split; [by apply track_done|]. right; left. unfold rank. simpl. rewrite decide_True by done. lia.
    + split; [apply track_asked|]. right; left. vm_compute. lia.
Qed.

Lemma rank_requested k : ¬ upgraded to k → on_track k → quiescent k → to ≠ "" →
  rank (requested to) < rank k.
Proof.
  intros Hu Hk (_ & _ & Hq) Hto. destruct Hk as [k ? Hn|k ? Hn|f|s ch f Hst]; simpl in Hq; try done.
  unfold rank at 2. rewrite Hn, decide_False by done. vm_compute. lia.
Qed.

(** *** All machines *)

Definition total (ks : list upgrade_marks) : nat := sum_list_with rank ks.

Lemma total_insert ks i k k' :
  ks !! i = Some k → total (<[i := k']> ks) + rank k = total ks + rank k'.
Proof.
  revert i. induction ks as [|k0 ks IH]; intros [|i]; simpl; [done|done| |].
  - intros [= ->]. lia.
  - intros Hi%IH. unfold total in *. lia.
Qed.

Lemma total_0 ks : total ks = 0 → Forall (λ k, upgraded to k ∧ mk_to k = None) ks.
Proof.
  induction ks as [|k ks IH]; simpl; intros Ht; constructor.
  - apply rank_0. unfold total in *. simpl in Ht. lia.
  - apply IH. unfold total in *. lia.
Qed.

(** No machine of [ks'] has failed since [ks]. *)
Definition none_failed (ks ks' : list upgrade_marks) : Prop :=
  ∀ i k k', ks !! i = Some k → ks' !! i = Some k' → failed k' → failed k.

Lemma rolling_total ks ks' :
  to ≠ "" → Forall on_track ks → rolling to ks ks' →
  Forall on_track ks' ∧ (none_failed ks ks' → ks' = ks ∨ total ks' < total ks).
Proof.
  intros Hto Hks Hr. destruct Hr as [ks i k Hi Hpre Hu Hq|ks i k r k' Hi Hs].
  - assert (on_track k) as Hk by (by eapply Forall_lookup_1).
    split; [apply Forall_insert; [done|apply track_asked]|]. intros _. right.
    pose proof (total_insert ks i k (requested to) Hi).
    pose proof (rank_requested k Hu Hk Hq Hto). lia.
  - assert (on_track k) as Hk by (by eapply Forall_lookup_1).
    destruct (step_rank k r k' Hk Hs) as [Hk' Hcase]. split; [by apply Forall_insert|].
    intros Hnf. destruct Hcase as [[Hf Hnf']|[Hlt|[-> _]]].
    + destruct Hnf'. apply (Hnf i k k'); [done| |done].
      rewrite list_lookup_insert_eq; [done|]. by eapply lookup_lt_Some.
    + right. pose proof (total_insert ks i k k' Hi). lia.
    + left. by apply list_insert_id.
Qed.
End Rank.

(** What the controller of the deployment does when no machine is on its way: it
    starts the first machine that is not upgraded. *)
Lemma quiescent_startable (m : Machine) :
  quiescent (marks (m_meta m)) → IsMachineUpgradeFailed m = false ∧ IsMachineUpgrading m = false.
Proof.
  unfold quiescent, marks, IsMachineUpgradeFailed, IsMachineUpgrading, ann0. simpl.
  intros (-> & Hs & ->). split; [done|]. rewrite bool_decide_false; [done|].
  destruct (ann (m_meta m) InPlaceUpgradeStatusAnnotation); simpl; [congruence|done].
Qed.

Lemma next_starts to ms :
  Forall (λ m, on_track to (marks (m_meta m)) ∧ mk_to (marks (m_meta m)) = None ∧
               deleting (m_meta m) = false) ms →
  0 < total to ((λ m, marks (m_meta m)) <$> ms) → ∃ m, next to ms = Start m.
Proof.
  induction 1 as [|m ms (Hk & Hn & Hd) _ IH]; cbn [fmap list_fmap total sum_list_with next].
  { lia. }
  destruct (IsUpgraded (m_meta m) to) eqn:Hu.
  - intros Ht. apply IH. apply bool_decide_eq_true in Hu.
    unfold rank in Ht. rewrite Hn, decide_True in Ht by exact Hu. exact Ht.
  - intros _. rewrite Hd. apply bool_decide_eq_false in Hu.
    destruct (track_not_asked _ _ Hk Hn) as [Hup|Hq]; [by destruct Hu|].
    apply quiescent_startable in Hq as [-> ->]. by exists m.
Qed.

(** ** The deployment and its machines *)

Section Server.
Context {W : Type} `{!ApiErrors, !MetaLib, !CollectionsLib, !CollectionsLaws, !Env W, !ApiServer W}.
Context `{!K8sdApi, !TimeFormat} (req : ObjectKey) (to : string) (keys : list ObjectKey).
Implicit Types (w : W).

Abbreviation all_marks w := (marks_of w <$> keys).

(** The deployment [md] asks for the upgrade of the machines [keys] to [to], and
    none of these is being deleted. *)
Definition asks w (md : MachineDeployment) : Prop :=
  view KMachineDeployment w req = Some md ∧ deleting (md_meta md) = false ∧
  GetUpgradeInstructions (md_meta md) = to ∧
  ∀ ms, owned w md ms → (λ m, key_of (m_meta m)) <$> ms = keys ∧
                        ∀ m, m ∈ ms → deleting (m_meta m) = false.

(** A reconciliation of the deployment without error, and one of a machine that
    does not end with the wait for an unfinished change. *)
Definition deployment_turn w w' : Prop :=
  ∃ md res, asks w md ∧ exec (Reconcile req) w w' (res, None).

Definition machine_turn key w w' : Prop :=
  ∃ m, view KMachine w key = Some m ∧ is_Some (m_ConfigRef m) ∧
    exec (MachineUpgrade.Reconcile key) w w' (Result0, None).

(** A fair execution: in each step a controller takes a turn or something happens
    that does not change the upgrade marks of the machines; each controller takes
    its turn again and again. *)
Record fair_run (f : nat → W) : Prop := {
  run_step n : turn req to keys (f n) (f (S n)) ∨ all_marks (f (S n)) = all_marks (f n);
  run_deployment n : ∃ m, n ≤ m ∧ deployment_turn (f m) (f (S m));
  run_machine n key : key ∈ keys → ∃ m, n ≤ m ∧ machine_turn key (f m) (f (S m));
}.

(** What a turn of the deployment did, by the abstract choice. *)
Lemma turn_performs w w' md res :
  to ≠ "" → asks w md → exec (Reconcile req) w w' (res, None) →
  ∃ ms, owned w md ms ∧ (λ m, key_of (m_meta m)) <$> ms = keys ∧
    (∀ m, m ∈ ms → deleting (m_meta m) = false) ∧
    all_marks w = (λ m, marks (m_meta m)) <$> ms ∧ performs w w' md to ms (res, None).
Proof.
  intros Hto (Hmd & Hdel & Hin & Hown) He.
  apply (wp_sound _ _ _ _ _ (md_Reconcile_wp req w)) in He.
  destruct He as [[_ Hn]|He]; [done|]. rewrite Hmd, Hin, Hdel, bool_decide_false in He by done.
  destruct He as (ms & Hms & Hp). destruct (Hown ms Hms) as [Hk Hd]. exists ms.
  split; [done|]. split; [done|]. split; [done|]. split; [|done].
  rewrite <- Hk, <- list_fmap_compose. apply list_fmap_ext. intros i m Hm.
  by apply (owned_marks w md ms Hms i).
Qed.

Lemma deployment_turn_starts w w' :
  NoDup keys → to ≠ "" → deployment_turn w w' →
  Forall (λ k, on_track to k ∧ mk_to k = None) (all_marks w) → 0 < total to (all_marks w) →
  total to (all_marks w') < total to (all_marks w).
Proof.
  intros Hnd Hto (md & res & Hasks & He) Hok Hpos.
  destruct (turn_performs w w' md res Hto Hasks He) as (ms & Hms & Hk & Hd & Hall & Hp).
  destruct (next_starts to ms) as [m Hnext].
  { rewrite Hall in Hok. apply Forall_fmap in Hok. apply list.Forall_forall. intros m Hm.
    rewrite list.Forall_forall in Hok. specialize (Hok m Hm). simpl in Hok. destruct Hok. split; [done|]. split; [done|exact (Hd m Hm)]. }
  { by rewrite <- Hall. }
  destruct (performs_start to keys w w' md ms m res Hnd Hk Hms Hnext Hp)
    as (i & Hi & _ & Hu & Hq & ->).
  pose proof (total_insert to _ i _ (requested to) Hi).
  pose proof (rank_requested to _ Hu (proj1 (Forall_lookup_1 _ _ _ _ Hok Hi)) Hq Hto). lia.
Qed.

Lemma machine_turn_advances key w w' :
  NoDup keys → key ∈ keys → machine_turn key w w' →
  Forall (on_track to) (all_marks w) → mk_to (marks_of w key) ≠ None →
  none_failed (all_marks w) (all_marks w') →
  total to (all_marks w') < total to (all_marks w).
Proof.
  intros Hnd Hkey (m & Hm & Href & He) Hok Hp Hnf.
  apply list_elem_of_lookup_1 in Hkey as [i Hi].
  destruct (machine_rolling keys w w' i key m Result0 Hnd Hi Hm Href He) as (k' & Hstep & Hall).
  assert (all_marks w !! i = Some (marks_of w key)) as Hik by (by rewrite list_lookup_fmap, Hi).
  rewrite Hall in *. pose proof (total_insert to _ i _ k' Hik) as Ht.
  destruct (step_rank to _ _ _ (Forall_lookup_1 _ _ _ _ Hok Hik) Hstep)
    as [_ [[Hf Hnf']|[Hlt|[_ [?|?]]]]]; [|lia|done|done].
  destruct Hnf'. apply (Hnf i _ k' Hik); [|done].
  apply list_lookup_insert_eq. by eapply lookup_lt_Some.
Qed.

Section Run.
Context (f : nat → W).
Hypothesis Hto : to ≠ "".
Hypothesis Hnd : NoDup keys.
Hypothesis Hrun : fair_run f.

Lemma run_rolling n :
  all_marks (f (S n)) = all_marks (f n) ∨ rolling to (all_marks (f n)) (all_marks (f (S n))).
Proof. destruct (run_step f Hrun n) as [Ht|?]; [by apply (turn_rolling req)|by left]. Qed.

Lemma run_on_track n :
  Forall (on_track to) (all_marks (f 0)) → Forall (on_track to) (all_marks (f n)).
Proof.
  intros H0'. induction n as [|n IH]; [done|].
  destruct (run_rolling n) as [->|Hr]; [done|]. by eapply rolling_total.
Qed.

(** The marks reach a state without a step left. *)
Lemma run_completes N :
  Forall (on_track to) (all_marks (f 0)) →
  (∀ n, N ≤ n → none_failed (all_marks (f n)) (all_marks (f (S n)))) →
  ∃ M, ∀ n, M ≤ n → total to (all_marks (f n)) = 0.
Proof.
  intros H0' Hnf.
  destruct (fair_descent (λ n, all_marks (f n)) (total to) N) as (M & _ & HM); [| |by exists M].
  - intros n Hn. destruct (run_rolling n) as [?|Hr]; [by left|].
    by apply (rolling_total to _ _ Hto (run_on_track n H0') Hr), Hnf.
  - intros n Hn Hpos. pose proof (run_on_track n H0') as Hok.
    destruct (decide (Exists (λ k, mk_to k ≠ None) (all_marks (f n)))) as [Hex|Hno].
    + apply list.Exists_exists in Hex as (k & (key & -> & Hkey)%list_elem_of_fmap & Hp).
      destruct (run_machine f Hrun n key Hkey) as (m & Hm & Ht). exists m. split; [done|].
      intros Heq. eapply machine_turn_advances; [done|done|done| | |apply Hnf; lia].
      * by rewrite Heq.
      * intros Hk. apply Hp. apply list_elem_of_lookup_1 in Hkey as [i Hi].
        assert (all_marks (f m) !! i = all_marks (f n) !! i) as Hl by (by rewrite Heq).
        rewrite !list_lookup_fmap, Hi in Hl. injection Hl as Hl. congruence.
    + destruct (run_deployment f Hrun n) as (m & Hm & Ht). exists m. split; [done|].
      intros Heq. apply deployment_turn_starts; [done|done|done| |by rewrite Heq].
      rewrite Heq. apply list.Forall_and. split; [done|]. apply Forall_Exists_neg in Hno.
      eapply list.Forall_impl; [exact Hno|]. intros k Hk. by apply dec_stable.
Qed.
End Run.

(** C16: the in-place upgrade of a deployment completes.  In a fair execution that
    starts without requests from machines that are upgraded or can be, when only
    finitely many changes fail, from some point on every machine is upgraded to the
    requested release and has no request, and every reconciliation of the deployment
    reports the upgrade as done. *)
Theorem md_rollout_completes f :
  to ≠ "" → NoDup keys → fair_run f →
  (∀ key, key ∈ keys → mk_to (marks_of (f 0) key) = None ∧
     (upgraded to (marks_of (f 0) key) ∨ quiescent (marks_of (f 0) key))) →
  (∃ N, ∀ n, N ≤ n → none_failed (all_marks (f n)) (all_marks (f (S n)))) →
  ∃ M, ∀ n, M ≤ n →
    (∀ key, key ∈ keys → upgraded to (marks_of (f n) key) ∧ mk_to (marks_of (f n) key) = None) ∧
    (∀ md res, asks (f n) md → exec (Reconcile req) (f n) (f (S n)) (res, None) →
       res = Result0 ∧ md_status (f (S n)) md InPlaceUpgradeDoneStatus).
Proof.
  intros Hto Hnd Hrun Hinit [N Hnf].
  assert (Forall (on_track to) (all_marks (f 0))) as H0'.
  { apply Forall_fmap, list.Forall_forall. intros key Hkey. simpl.
    destruct (Hinit key Hkey) as [Hn [Hu|Hq]]; by constructor. }
  destruct (run_completes f Hto Hnd Hrun N H0' Hnf) as [M HM]. exists M. intros n Hn.
  pose proof (total_0 to _ (HM n Hn)) as Hall. split.
  - intros key Hkey. apply Forall_fmap in Hall. rewrite list.Forall_forall in Hall. by apply Hall.
  - intros md res Hasks He.
    destruct (turn_performs _ _ md res Hto Hasks He) as (ms & _ & _ & _ & Hms & Hp).
    unfold performs in Hp. rewrite Hms in Hall. apply Forall_fmap in Hall.
    assert (next to ms = Finish) as Hnext.
    { rewrite <- (app_nil_r ms), next_skip; [done|]. eapply list.Forall_impl; [exact Hall|].
      intros m [Hu _]. by apply bool_decide_eq_true_2. }
    rewrite Hnext in Hp. by apply Hp.
Qed.
End Server.
(** ** Witness: the controllers take turns on a deployment of two machines *)

Module Examples.
Import OrchestratedMD.Examples.
Definition machine (n : string) : Machine :=
  set_m_meta (labelled {[Clusterv1.ClusterNameLabel := "c"]} "s" (meta_named n)) (ex_noded n).
Definition token_secret : Secret :=
  mkSecret (meta_named "c-token")
    (Some {["value" := "t"; "node-token-a" := "na"; "node-token-b" := "nb"]}) "".
Definition store : Store :=
  put KMachineDeployment md (put KCluster (cluster_named "c") (put KMachineSet mset
    (put KCK8sConfig (config_named "a") (put KCK8sConfig (config_named "b")
      (put KSecret token_secret
        (put KMachine (machine "b") (put KMachine (machine "a") empty_store))))))).
(** The changes that k8sd starts are done at the first question. *)
Definition world : handler Store := friendly ["a"; "b"] (cluster_named "c") (λ r, k8sd_ok "Done").
Definition turn_of (n : nat) : prog outcome :=
  match nth n [0; 1; 1; 1; 0; 2; 2; 2; 0] (n mod 3) with
  | 0 => Reconcile req
  | 1 => MachineUpgrade.Reconcile (mkKey "ns" "a")
  | _ => MachineUpgrade.Reconcile (mkKey "ns" "b")
  end.
Fixpoint execution (n : nat) : Store :=
  match n with 0 => store | S n => served world (turn_of n) (execution n) end.
End Examples.
Import OrchestratedMD.Examples Examples.
#[local] Instance the_env : Env Store := server_env world.

(** A store in which the deployment asks for the upgrade of the two machines. *)
Definition asking (w : Store) : bool :=
  match look KMachineDeployment w Examples.req with
  | Some md =>
      negb (deleting (md_meta md)) && bool_decide (GetUpgradeInstructions (md_meta md) = Examples.to) &&
      bool_decide (length (map_to_list (w KMachineSet)) = 1) &&
      bool_decide (NoDup ((λ km : ObjectKey * Machine, om_UID (m_meta km.2)) <$> map_to_list (w KMachine))) &&
      match answer_of world (getOwnedMachines md) w with
      | Some (Ok ms) => bool_decide ((λ m, key_of (m_meta m)) <$> ms = Examples.keys) &&
                        forallb (λ m, negb (deleting (m_meta m))) ms
      | _ => false
      end
  | None => false
  end.

Lemma asking_asks w : asking w = true → ∃ md, asks Examples.req Examples.to Examples.keys w md.
Proof.
  unfold asking. destruct (look KMachineDeployment w Examples.req) as [md|] eqn:Hmd; [|done].
  destruct (answer_of world (getOwnedMachines md) w) as [[ms|e]|] eqn:Hms;
    rewrite !andb_true_iff, ?bool_decide_eq_true; try (intros [_ [=]]).
  intros ((((Hdel%negb_true_iff & Hto) & Hone) & Huid) & Hkeys & Hlive).
  exists md. split; [done|]. split; [done|]. split; [done|]. intros ms' Hown.
  assert (ms' = ms) as ->.
  { eapply (owned_unique md w); [| |exact Hown|].
    - intros s1 s2 H1%look_lookup H2%look_lookup _ _.
      apply elem_of_map_to_list in H1, H2.
      destruct (map_to_list (w KMachineSet)) as [|x [|y l]]; [done| |done].
      apply list_elem_of_singleton in H1, H2. congruence.
    - intros m1 m2 H1%look_lookup H2%look_lookup Heq.
      apply elem_of_map_to_list in H1, H2.
      apply list_elem_of_lookup in H1 as [i Hi], H2 as [j Hj].
      assert (i = j) as ->; [|by rewrite Hi in Hj; injection Hj].
      apply (NoDup_lookup _ i j (om_UID (m_meta m1)) Huid); rewrite list_lookup_fmap.
      + exact (f_equal (fmap (λ km : ObjectKey * Machine, om_UID (m_meta km.2))) Hi).
      + rewrite Heq. exact (f_equal (fmap (λ km : ObjectKey * Machine, om_UID (m_meta km.2))) Hj).
    - apply served_exec in Hms. apply (wp_sound _ _ _ _ _ (getOwnedMachines_wp md w) Hms). }
  split; [done|]. intros m Hm. rewrite forallb_forall in Hlive.
  apply negb_true_iff, Hlive, list_elem_of_In, Hm.
Qed.

(** The machines have a bootstrap configuration. *)
Definition configured (w : Store) : bool :=
  forallb (λ key, match look KMachine w key with
                  | Some m => bool_decide (m_ConfigRef m ≠ None)
                  | None => false
                  end) Examples.keys.

Lemma configured_lookup w key :
  configured w = true → key ∈ Examples.keys →
  ∃ m, view KMachine w key = Some m ∧ is_Some (m_ConfigRef m).
Proof.
  unfold configured. rewrite forallb_forall. intros Hc Hkey%list_elem_of_In%Hc.
  simpl. destruct (look KMachine w key) as [m|]; [|done]. exists m. split; [done|].
  apply bool_decide_eq_true_1 in Hkey. destruct (m_ConfigRef m); [by eexists|done].
Qed.

(** The turns of the execution. *)
Definition fine (n : nat) : bool :=
  asking (execution n) && configured (execution n) && match answer_of world (turn_of n) (execution n) with Some (_, None) => true | _ => false end.

(** After nine turns nothing changes. *)
Lemma ex_still n : 9 ≤ n → served world (turn_of n) (execution 9) = execution 9.
Proof.
  intros Hn. unfold turn_of. rewrite nth_overflow by exact Hn.
  destruct (n mod 3) as [|[|i]]; apply same_store_eq; vm_compute; reflexivity.
Qed.

Lemma ex_execution n : 9 ≤ n → execution n = execution 9.
Proof.
  induction 1 as [|n Hn IH]; [reflexivity|].
  change (execution (S n)) with (served world (turn_of n) (execution n)). rewrite IH. exact (ex_still n Hn).
Qed.

Lemma ex_fine n : fine n = true.
Proof.
  destruct (decide (n < 9)) as [Hn|Hn].
  - assert (forallb fine (seq 0 9) = true) as Hf by (vm_compute; reflexivity).
    rewrite forallb_forall in Hf. apply Hf, in_seq. lia.
  - unfold fine, turn_of. rewrite ex_execution, nth_overflow by (simpl; lia).
    destruct (n mod 3) as [|[|i]]; vm_compute; reflexivity.
Qed.

Lemma ex_turn n :
  (∃ md, asks Examples.req Examples.to Examples.keys (execution n) md) ∧
  configured (execution n) = true ∧
  ∃ res, exec (turn_of n) (execution n) (execution (S n)) (res, None).
Proof.
  pose proof (ex_fine n) as Hf. unfold fine in Hf. rewrite !andb_true_iff in Hf.
  destruct Hf as [[Ha Hc] Hr]. split; [by apply asking_asks|]. split; [done|].
  destruct (answer_of world (turn_of n) (execution n)) as [[res [e|]]|] eqn:Hrun; [done| |done].
  exists res. exact (served_exec _ _ _ _ _ _ Hrun).
Qed.

(** From then on the controllers take turns. *)
Lemma ex_turn_of n i : i < 3 → turn_of (9 + 3 * n + i) = turn_of (9 + i).
Proof.
  intros Hi. unfold turn_of. rewrite !nth_overflow by (simpl; lia).
  replace (9 + 3 * n + i)%nat with (i + (3 + n) * 3)%nat by lia.
  replace (9 + i)%nat with (i + 3 * 3)%nat by lia. by rewrite !Nat.Div0.mod_add.
Qed.

Lemma ex_machine_turn n i key :
  i < 3 → key ∈ Examples.keys → turn_of (9 + i) = MachineUpgrade.Reconcile key →
  answer_of world (turn_of (9 + i)) (execution 9) = Some (Result0, None) →
  machine_turn key (execution (9 + 3 * n + i)) (execution (S (9 + 3 * n + i))).
Proof.
  intros Hi Hkey Hturn Hres. destruct (ex_turn (9 + 3 * n + i)) as (_ & Hc & _).
  destruct (configured_lookup _ key Hc Hkey) as (m & Hm & Href). exists m.
  split; [done|]. split; [done|].
  change (execution (S (9 + 3 * n + i))) with (served world (turn_of (9 + 3 * n + i)) (execution (9 + 3 * n + i))).
  rewrite (ex_execution (9 + 3 * n + i)) by lia.
  rewrite (ex_turn_of n i Hi), Hturn in *. exact (served_exec _ _ _ _ _ _ Hres).
Qed.

Lemma ex_fair : fair_run Examples.req Examples.to Examples.keys execution.
Proof.
  split.
  - intros n. left. destruct (ex_turn n) as ((md & Hmd & _ & Hto & Hown) & Hc & res & He).
    unfold turn_of in He. destruct (nth n _ _) as [|[|c]].
    + apply turn_deployment with (res := res); [|exact He].
      intros md' ms Hmd' Hms. rewrite Hmd in Hmd'. injection Hmd' as <-. split; [by apply Hown|done].
    + destruct (configured_lookup _ (mkKey "ns" "a") Hc) as (m & Hm & Href); [by left|].
      by apply (turn_machine _ _ _ _ _ (mkKey "ns" "a") m res); [left|..].
    + destruct (configured_lookup _ (mkKey "ns" "b") Hc) as (m & Hm & Href); [by right; left|].
      by apply (turn_machine _ _ _ _ _ (mkKey "ns" "b") m res); [right; left|..].
  - intros n. exists (9 + 3 * n)%nat. split; [lia|].
    destruct (ex_turn (9 + 3 * n)) as ((md & Hmd) & _ & res & He). exists md, res. split; [done|].
    assert (turn_of (9 + 3 * n) = Reconcile Examples.req) as Ht.
    { rewrite <- (Nat.add_0_r (9 + 3 * n)). apply (ex_turn_of n 0). lia. }
    by rewrite Ht in He.
  - intros n key. unfold Examples.keys. rewrite !elem_of_cons.
    intros [-> | [-> | []%elem_of_nil]].
    + exists (9 + 3 * n + 1)%nat. split; [lia|]. apply ex_machine_turn; [lia|by left|done|].
      vm_compute; reflexivity.
    + exists (9 + 3 * n + 2)%nat. split; [lia|]. apply ex_machine_turn; [lia|by right; left|done|].
      vm_compute; reflexivity.
Qed.

Lemma md_rollout_completes_witness :
  (∀ key, key ∈ Examples.keys → ¬ upgraded Examples.to (marks_of (execution 0) key)) ∧
  ∃ M, ∀ n, M ≤ n →
    (∀ key, key ∈ Examples.keys → upgraded Examples.to (marks_of (execution n) key) ∧
       mk_to (marks_of (execution n) key) = None) ∧
    (∀ md res, asks Examples.req Examples.to Examples.keys (execution n) md →
       exec (Reconcile Examples.req) (execution n) (execution (S n)) (res, None) →
       res = Result0 ∧ md_status (execution (S n)) md InPlaceUpgradeDoneStatus).
Proof.
  assert (∀ key, key ∈ Examples.keys →
    marks_of (execution 0) key = mkMarks None None None None None) as Hstart.
  { intros key. unfold Examples.keys. rewrite !elem_of_cons.
    intros [-> | [-> | []%elem_of_nil]]; vm_compute; reflexivity. }
  split; [intros key Hkey; by rewrite (Hstart key Hkey)|].
  apply (md_rollout_completes Examples.req Examples.to Examples.keys execution).
  - discriminate.
  - repeat constructor; set_solver.
  - exact ex_fair.
  - intros key Hkey. rewrite (Hstart key Hkey). split; [reflexivity|]. by right.
  - exists 9. intros n Hn i k k' Hk Hk'. rewrite (ex_execution n Hn) in Hk.
    rewrite (ex_execution (S n)) in Hk' by lia. congruence.
Defined.
End RolloutLiveness.
