(* ===== verification/MachineFilters.v ===== *)
(** src/pkg/machinefilters/machine_filters.go: the filters that tell whether a
    machine is up to date with its control plane.  A filter is applied to stored
    machines only, never to a nil pointer, so its nil test is left out.

    [MatchesCK8sBootstrapConfig] clears the version of the config it compares, in
    the map it shares with its caller: the effect is modelled, and shown not to
    be observable.  [reflect.DeepEqual] of two specifications is equality of their
    values, which tell nil from empty slices and maps ([DeepCopySpec.DeepEqual_value]):
    see [untidy_never_matches]. *)

From S2P Require Import Prelude Objects ApiTypes Libs RefLibs RefServer.

Module MachineFilters.
Section Filters.
Context `{!SchemaLib}.
Implicit Types (infraConfigs : gmap string Unstructured) (machineConfigs : gmap string CK8sConfig)
  (kcp : CK8sControlPlane) (machine : Machine).

Definition MatchesTemplateClonedFrom infraConfigs kcp machine : bool :=
  match infraConfigs !! m_Name machine with
  | None => true
  | Some infraObj =>
      match ann (u_meta infraObj) Clusterv1.TemplateClonedFromNameAnnotation,
            ann (u_meta infraObj) Clusterv1.TemplateClonedFromGroupKindAnnotation with
      | Some clonedFromName, Some clonedFromGroupKind =>
          let ref := mt_InfrastructureRef (MachineTemplate (kcp_Spec kcp)) in
          if negb (bool_decide (clonedFromName = ref_Name ref)) ||
             negb (bool_decide (clonedFromGroupKind = GroupKindString ref))
          then false else true
      | _, _ => true
      end
  end.

Definition MatchesKubernetesVersion (kubernetesVersion : string) machine : bool :=
  match m_Version machine with
  | None => false
  | Some v => bool_decide (GoStrings.TrimPrefix v "v" = GoStrings.TrimPrefix kubernetesVersion "v")
  end.

(** The config of the machine after the filter has cleared its version. *)
Definition clear_version machineConfigs machine : gmap string CK8sConfig :=
  match m_ConfigRef machine, machineConfigs !! m_Name machine with
  | Some _, Some c => <[m_Name machine := set_cfg_Spec (set_Version "" (cfg_Spec c)) c]> machineConfigs
  | _, _ => machineConfigs
  end.

(** The answer, and the map of configs as the filter leaves it. *)
Definition MatchesCK8sBootstrapConfig machineConfigs kcp machine : bool * gmap string CK8sConfig :=
  match m_ConfigRef machine with
  | None => (true, machineConfigs)
  | Some _ =>
      match machineConfigs !! m_Name machine with
      | None => (true, machineConfigs)
      | Some _ =>
          let kcpConfig := set_Version "" (kcp_CK8sConfigSpec (kcp_Spec kcp)) in
          let machineConfigs := clear_version machineConfigs machine in
          (bool_decide ((cfg_Spec <$> machineConfigs !! m_Name machine) = Some kcpConfig),
           machineConfigs)
      end
  end.

(** [collections.And] of the three: the next filter is called only when the ones
    before it hold. *)
Definition MatchesKCPConfiguration infraConfigs machineConfigs kcp machine : bool :=
  MatchesKubernetesVersion (kcp_Version (kcp_Spec kcp)) machine &&
  (MatchesCK8sBootstrapConfig machineConfigs kcp machine).1 &&
  MatchesTemplateClonedFrom infraConfigs kcp machine.

Lemma cfg_Spec_set s c : cfg_Spec (set_cfg_Spec s c) = s.
Proof. by destruct c. Qed.

Lemma set_Version_idem v v' s : set_Version v (set_Version v' s) = set_Version v s.
Proof. by destruct s. Qed.

(** What the config filter compares. *)
Lemma MatchesCK8sBootstrapConfig_eq machineConfigs kcp machine :
  (MatchesCK8sBootstrapConfig machineConfigs kcp machine).1 =
  match m_ConfigRef machine, machineConfigs !! m_Name machine with
  | Some _, Some c =>
      bool_decide (set_Version "" (cfg_Spec c) = set_Version "" (kcp_CK8sConfigSpec (kcp_Spec kcp)))
  | _, _ => true
  end.
Proof.
  unfold MatchesCK8sBootstrapConfig, clear_version.
  destruct (m_ConfigRef machine); [|done]. destruct (machineConfigs !! _) as [c|] eqn:Hc; [|done].
  simpl. rewrite lookup_insert_eq. simpl. rewrite cfg_Spec_set. apply bool_decide_ext.
  split; [by injection 1|by intros ->].
Qed.

(** [reflect.DeepEqual] tells an empty slice or map from nil.  A machine whose
    configuration the typed client wrote, which leaves both out, matches a control
    plane with such a field never: its configuration would have to be rolled out again
    and again.  (The control plane's webhook leaves them out, too.) *)
Theorem untidy_never_matches machineConfigs kcp machine c :
  m_ConfigRef machine ≠ None → machineConfigs !! m_Name machine = Some c →
  cfg_Spec c = encoded (kcp_CK8sConfigSpec (kcp_Spec kcp)) →
  (MatchesCK8sBootstrapConfig machineConfigs kcp machine).1 = true ↔ tidy (kcp_CK8sConfigSpec (kcp_Spec kcp)).
Proof.
  intros Hr Hc Hs. rewrite MatchesCK8sBootstrapConfig_eq, Hc, Hs. destruct (m_ConfigRef machine); [|done].
  rewrite bool_decide_eq_true. unfold tidy. destruct (kcp_CK8sConfigSpec (kcp_Spec kcp)). simpl.
  split; intros He; injection He; clear He; intros; congruence.
Qed.

(** Clearing versions does not change what the filter answers about any machine. *)
Lemma MatchesCK8sBootstrapConfig_clear machineConfigs kcp machine machine' :
  (MatchesCK8sBootstrapConfig (clear_version machineConfigs machine') kcp machine).1 =
  (MatchesCK8sBootstrapConfig machineConfigs kcp machine).1.
Proof.
  rewrite !MatchesCK8sBootstrapConfig_eq. unfold clear_version.
  destruct (m_ConfigRef machine); [|done].
  destruct (m_ConfigRef machine'); [|done]. destruct (machineConfigs !! m_Name machine') as [c'|] eqn:Hc'; [|done].
  destruct (decide (m_Name machine' = m_Name machine)) as [Heq|Hne].
  - rewrite Heq in *. rewrite lookup_insert_eq, Hc', cfg_Spec_set. by rewrite set_Version_idem.
  - by rewrite lookup_insert_ne.
Qed.

(** The aliasing in the bootstrap config filter is harmless.
    Whatever machines the filters have been applied to before, in any order,
    the cleared versions do not change the answer about a machine. *)
Theorem filters_order_irrelevant infraConfigs machineConfigs kcp (before : list Machine) machine :
  MatchesKCPConfiguration infraConfigs
    (foldl (λ cs m, (MatchesCK8sBootstrapConfig cs kcp m).2) machineConfigs before) kcp machine =
  MatchesKCPConfiguration infraConfigs machineConfigs kcp machine.
Proof.
  assert (∀ cs m, (MatchesCK8sBootstrapConfig cs kcp m).2 = clear_version cs m) as Hsnd.
  { intros cs m. unfold MatchesCK8sBootstrapConfig, clear_version.
    destruct (m_ConfigRef m); [|done]. by destruct (cs !! m_Name m). }
  unfold MatchesKCPConfiguration. f_equal. f_equal. revert machineConfigs.
  induction before as [|m before IH]; intros cs; simpl; [done|].
  rewrite IH, Hsnd. apply MatchesCK8sBootstrapConfig_clear.
Qed.
End Filters.
End MachineFilters.
