(* ===== verification/ControlPlane.v ===== *)
(** src/pkg/ck8s/control_plane.go: the control plane as the reconciler of the
    control plane sees it, and the choices it makes among its machines. *)

From S2P Require Import Prelude Objects ApiTypes Effects Libs RefLibs ApiServer RefServer.
From S2P Require Import MachineFilters.

Definition ErrFailedToPickForDeletion : error :=
  ErrSentinel "failed to pick machine to mark for deletion".
Definition ErrFailedToCreatePatchHelper : error :=
  ErrSentinel "failed to create patch for machine".

(** [controlplanev1.GroupVersion.String()] and [bootstrapv1.GroupVersion.String()] *)
Definition controlplane_GroupVersion : string := "controlplane.cluster.x-k8s.io/v1beta2".
Definition bootstrap_GroupVersion : string := "bootstrap.cluster.x-k8s.io/v1beta2".

(** [type ControlPlane struct].  The patch helper of a machine is its snapshot. *)
Record ControlPlane := mkCP {
  KCP : CK8sControlPlane;
  cp_Cluster : Cluster;
  cp_Machines : Machines;
  machinesPatchHelpers : gmap string Machine;
  reconciliationTime : Z;
  ck8sConfigs : gmap string CK8sConfig;
  infraResources : gmap string Unstructured;
}.

(** The control plane object and the machines are shared with the reconciler: it
    mutates them through these. *)
Definition set_KCP (k : CK8sControlPlane) (c : ControlPlane) : ControlPlane :=
  match c with mkCP _ a b d e f g => mkCP k a b d e f g end.
Definition set_cp_Machines (ms : Machines) (c : ControlPlane) : ControlPlane :=
  match c with mkCP k a _ d e f g => mkCP k a ms d e f g end.

Section ControlPlane.
Context `{!ApiErrors, !CollectionsLib, !MetaLib, !SchemaLib}.
Implicit Types (c : ControlPlane) (machines : Machines).

(** The machines of a collection in the order [range] visits them. *)
Definition each_machine {S R} machines (body : Machine → go S R unit) : go S R unit :=
  ks ← range machines;
  for_each (omap (λ n, machines !! n) ks) body.

(** In the loops below, the map that is being built is the state. *)
Definition getInfraResources machines : prog (gores (gmap string Unstructured)) :=
  func_with (
    each_machine machines (λ m,
      r ← call (ExternalGet (m_InfrastructureRef m));
      match r with
      | Err e =>
          if IsNotFound e then mret tt
          else return_ (Err (ErrWrap ("failed to retrieve infra obj for machine " +:+
                                      quote (m_Name m) +:+ ", ") e ""))
      | Ok infraObj => modify (λ result, <[m_Name m := infraObj]> result)
      end) ;;
    result ← get;
    mret (Ok result)) ∅.

Definition getCK8sConfigs machines : prog (gores (gmap string CK8sConfig)) :=
  func_with (
    each_machine machines (λ m,
      match m_ConfigRef m with
      | None => mret tt
      | Some bootstrapRef =>
          r ← call (Get KCK8sConfig (mkKey (om_Namespace (m_meta m)) (ref_Name bootstrapRef)));
          match r with
          | Err e =>
              if IsNotFound e then mret tt
              else return_ (Err (wrapf ("failed to retrieve bootstrap config for machine " +:+
                                        quote (m_Name m)) e))
          | Ok machineConfig => modify (λ result, <[m_Name m := machineConfig]> result)
          end
      end) ;;
    result ← get;
    mret (Ok result)) ∅.

Definition NewControlPlane (cluster : Cluster) (kcp : CK8sControlPlane) (ownedMachines : Machines)
    : prog (gores ControlPlane) :=
  func_with (
    infraObjects ← check (callp (getInfraResources ownedMachines)) Err;
    configs ← check (callp (getCK8sConfigs ownedMachines)) Err;
    each_machine ownedMachines (λ machine,
      r ← call (NewHelper KMachine machine);
      match r with
      | Err _ => return_ (Err (ErrWrap ("machine: " +:+ m_Name machine +:+ ", ")
                                 ErrFailedToCreatePatchHelper ""))
      | Ok _ => modify (λ patchHelpers, <[m_Name machine := machine]> patchHelpers)
      end) ;;
    patchHelpers ← get;
    now ← call Now;
    mret (Ok (mkCP kcp cluster ownedMachines patchHelpers now configs infraObjects))) ∅.

(** [func (c *ControlPlane) FailureDomains]: a nil map is the empty one. *)
Definition FailureDomains_ c : FailureDomains := default ∅ (cl_FailureDomains (cp_Cluster c)).

(** [c.Cluster.Status.FailureDomains.FilterControlPlane()]: ranging over a nil map. *)
Definition control_plane_domains c : FailureDomains :=
  FilterControlPlane (default ∅ (cl_FailureDomains (cp_Cluster c))).

Definition cp_Version c : string := kcp_Version (kcp_Spec (KCP c)).
Definition InfrastructureTemplate c : ObjectReference :=
  mt_InfrastructureRef (MachineTemplate (kcp_Spec (KCP c))).

Definition AsOwnerReference c : OwnerReference :=
  mkOwnerRef controlplane_GroupVersion "CK8sControlPlane" (kcp_Name (KCP c))
    (om_UID (kcp_meta (KCP c))) None.

Definition EtcdImageData c : string * string := ("", "").

Definition MachineWithDeleteAnnotation c machines : Machines :=
  mFilter (HasAnnotationKey Clusterv1.DeleteMachineAnnotation) machines.

(** [notInFailureDomains.Oldest()] of a non-empty collection is not nil. *)
Definition FailureDomainWithMostMachines c machines : option string :=
  let notInFailureDomains :=
    mFilter (λ m, negb (InFailureDomains (GetIDs (FilterControlPlane (FailureDomains_ c))) m)) machines in
  if bool_decide (0 < size notInFailureDomains)
  then mOldest notInFailureDomains ≫= m_FailureDomain
  else PickMost (control_plane_domains c) (cp_Machines c) machines.

Definition MachineInFailureDomainWithMostMachines c machines : gores Machine :=
  let fd := FailureDomainWithMostMachines c machines in
  match mOldest (mFilter (InFailureDomains [fd]) machines) with
  | None => Err ErrFailedToPickForDeletion
  | Some m => Ok m
  end.

(** [func (c *ControlPlane) MachinesNeedingRollout] *)
Definition MachinesNeedingRollout c : Machines :=
  let machines := mFilter (λ m, negb (HasDeletionTimestamp m)) (cp_Machines c) in
  mAnyFilter
    [ShouldRolloutAfter (reconciliationTime c) (RolloutAfter (kcp_Spec (KCP c)));
     λ m, negb (MachineFilters.MatchesKCPConfiguration (infraResources c) (ck8sConfigs c) (KCP c) m)]
    machines.

Definition UpToDateMachines c : Machines := mDifference (cp_Machines c) (MachinesNeedingRollout c).

Definition NextFailureDomainForScaleUp c : option string :=
  if bool_decide (size (control_plane_domains c) = 0) then None
  else PickFewest (FilterControlPlane (FailureDomains_ c)) (cp_Machines c) (UpToDateMachines c).

(** Deep copies of the spec. *)
Definition InitialControlPlaneConfig c : CK8sConfigSpec := kcp_CK8sConfigSpec (kcp_Spec (KCP c)).
Definition JoinControlPlaneConfig c : CK8sConfigSpec := kcp_CK8sConfigSpec (kcp_Spec (KCP c)).

Definition ControlPlaneLabelsForCluster (clusterName : string) (t : CK8sControlPlaneMachineTemplate)
    : strmap :=
  <[Clusterv1.MachineControlPlaneLabel := ""]>
  (<[Clusterv1.MachineControlPlaneNameLabel := ""]>
  (<[Clusterv1.ClusterNameLabel := clusterName]> (mt_Labels t))).

(** The status of a new object is the zero value. *)
Definition new_config_status : CK8sConfigStatus := mkConfigStatus false "" None "" "" 0 [].

Definition GenerateCK8sConfig c (spec : CK8sConfigSpec) : prog CK8sConfig :=
  func (
    name ← call (GenerateName (kcp_Name (KCP c) +:+ "-"));
    mret (mkConfig
      (mkMeta name (kcp_Namespace (KCP c)) ""
         (ControlPlaneLabelsForCluster (cl_Name (cp_Cluster c)) (MachineTemplate (kcp_Spec (KCP c))))
         None [AsOwnerReference c] [] 0 None)
      spec new_config_status)).

Definition NewMachine c (infraRef bootstrapRef : ObjectReference) (failureDomain : option string)
    : prog Machine :=
  func (
    name ← call (GenerateName (kcp_Name (KCP c) +:+ "-"));
    mret (mkMachine
      (mkMeta name (kcp_Namespace (KCP c)) ""
         (ControlPlaneLabelsForCluster (cl_Name (cp_Cluster c)) (MachineTemplate (kcp_Spec (KCP c))))
         None [NewControllerRef (kcp_meta (KCP c)) controlplane_GroupVersion "CK8sControlPlane"] [] 0 None)
      (cl_Name (cp_Cluster c)) (Some (cp_Version c)) infraRef (Some bootstrapRef) failureDomain
      None None None None [])).

Definition NeedsReplacementNode c : bool :=
  match Replicas (kcp_Spec (KCP c)) with
  | None => false
  | Some r => (Z.of_nat (size (cp_Machines c)) + 1 =? r)%Z
  end.

Definition UnhealthyMachines c : Machines := mFilter IsUnhealthy (cp_Machines c).
Definition HealthyMachines c : Machines := mFilter (λ m, negb (IsUnhealthy m)) (cp_Machines c).
Definition HasUnhealthyMachine c : bool := bool_decide (0 < size (UnhealthyMachines c)).
Definition HasHealthyMachineStillProvisioning c : bool :=
  bool_decide (0 < size (mFilter (λ m, negb (HasNode m)) (HealthyMachines c))).
Definition HasDeletingMachine c : bool :=
  bool_decide (0 < size (mFilter HasDeletionTimestamp (cp_Machines c))).
Definition cp_IsEtcdManaged c : bool := IsEtcdManaged (kcp_CK8sConfigSpec (kcp_Spec (KCP c))).

(** [func (c *ControlPlane) PatchMachines]: the errors are collected. *)
Definition PatchMachines c : prog (option error) :=
  func_with (
    each_machine (cp_Machines c) (λ machine,
      match machinesPatchHelpers c !! m_Name machine with
      | Some helper =>
          r ← call (Patch KMachine helper machine);
          match r with
          | Err e => modify (λ errList, errList ++ [wrapf ("failed to patch machine " +:+ m_Name machine) e])
          | Ok _ => mret tt
          end
      | None =>
          modify (λ errList, errList ++
            [ErrWrap ("machine: " +:+ m_Name machine +:+ ", ") ErrFailedToCreatePatchHelper ""])
      end) ;;
    errList ← get;
    mret (NewAggregate errList)) [].
End ControlPlane.

(** ** The choices among the machines *)

Section Choices.
Context `{!CollectionsLib, !CollectionsLaws, !SchemaLib}.
Implicit Types (c : ControlPlane) (machines : Machines).

Lemma size_filter_pos f machines :
  0 < size (mFilter f machines) ↔ ∃ n m, machines !! n = Some m ∧ f m = true.
Proof.
  split.
  - intros Hs. destruct (map_choose (mFilter f machines)) as (n & m & Hm%mFilter_Some).
    { intros He. rewrite He, map_size_empty in Hs. lia. }
    eauto.
  - intros (n & m & Hm). apply mFilter_Some in Hm.
    destruct (decide (size (mFilter f machines) = 0)) as [Hz|]; [|lia].
    apply map_size_empty_inv in Hz. rewrite Hz in Hm. by rewrite lookup_empty in Hm.
Qed.

Lemma mAnyFilter_Some fs machines n m :
  mAnyFilter fs machines !! n = Some m ↔ machines !! n = Some m ∧ existsb (λ f, f m) fs = true.
Proof.
  rewrite mAnyFilter_lookup. destruct (machines !! n) as [m'|]; [|naive_solver].
  destruct (existsb _ fs) eqn:Hf; naive_solver congruence.
Qed.

(** Whether a machine is scheduled for rollout or differs from the configuration of
    the control plane. *)
Definition outdated c (m : Machine) : bool :=
  ShouldRolloutAfter (reconciliationTime c) (RolloutAfter (kcp_Spec (KCP c))) m ||
  negb (MachineFilters.MatchesKCPConfiguration (infraResources c) (ck8sConfigs c) (KCP c) m).

Lemma MachinesNeedingRollout_Some c n m :
  MachinesNeedingRollout c !! n = Some m ↔
  cp_Machines c !! n = Some m ∧ deleting (m_meta m) = false ∧ outdated c m = true.
Proof.
  unfold MachinesNeedingRollout, outdated. rewrite mAnyFilter_Some, mFilter_Some. simpl.
  rewrite orb_false_r, HasDeletionTimestamp_spec, negb_true_iff. tauto.
Qed.

(** The machines of a control plane are split into the ones that need a
    rollout, which are the outdated machines that are not being deleted, and the
    up-to-date ones, which are the rest: a machine is in exactly one of the two. *)
Theorem rollout_partition c n m :
  cp_Machines c !! n = Some m →
  (MachinesNeedingRollout c !! n = Some m ↔ deleting (m_meta m) = false ∧ outdated c m = true) ∧
  (UpToDateMachines c !! n = Some m ↔ MachinesNeedingRollout c !! n = None) ∧
  (MachinesNeedingRollout c !! n = Some m ∨ UpToDateMachines c !! n = Some m) ∧
  size (MachinesNeedingRollout c) + size (UpToDateMachines c) = size (cp_Machines c).
Proof.
  intros Hm. pose proof (MachinesNeedingRollout_Some c n) as Hr.
  unfold UpToDateMachines. rewrite !mDifference_lookup.
  split; [rewrite Hr; tauto|]. split; [destruct (MachinesNeedingRollout c !! n); naive_solver|].
  split.
  { destruct (MachinesNeedingRollout c !! n) as [m'|] eqn:Hn; [left|by right].
    destruct (proj1 (Hr m') eq_refl) as [Hm' _]. congruence. }
  assert (mDifference (cp_Machines c) (MachinesNeedingRollout c) =
          cp_Machines c ∖ MachinesNeedingRollout c) as ->.
  { apply map_eq. intros n'. by rewrite mDifference_lookup, lookup_difference. }
  assert (MachinesNeedingRollout c ⊆ cp_Machines c) as Hsub.
  { apply map_subseteq_spec. intros n' m' Hm'. by apply MachinesNeedingRollout_Some in Hm' as [? _]. }
  rewrite <- map_size_disj_union by (apply map_disjoint_difference_r1; reflexivity).
  by rewrite map_difference_union.
Qed.
End Choices.

(** ** The machine to scale down, and the patches *)

Section Picking.
Context `{!CollectionsLib, !CollectionsLaws, !SchemaLib}.
Implicit Types (c : ControlPlane) (machines : Machines).

(** The machine is in no failure domain that the cluster lists for control planes. *)
Definition stray c (m : Machine) : Prop :=
  m_FailureDomain m ∉ GetIDs (FilterControlPlane (FailureDomains_ c)).

(** Scaling down finds a machine in every non-empty collection.  The
    machine is one of the collection, the oldest of its failure domain there,
    and a stray one when there is a stray one.  An empty collection gives the
    error of a failed pick. *)
Theorem pick_for_deletion_spec c machines :
  match MachineInFailureDomainWithMostMachines c machines with
  | Ok m =>
      (∃ n, machines !! n = Some m) ∧
      (∀ n' m', machines !! n' = Some m' → m_FailureDomain m' = m_FailureDomain m →
         (om_CreationTimestamp (m_meta m) ≤ om_CreationTimestamp (m_meta m'))%Z) ∧
      ((∃ n' m', machines !! n' = Some m' ∧ stray c m') → stray c m)
  | Err e => e = ErrFailedToPickForDeletion ∧ machines = ∅
  end.
Proof.
  unfold MachineInFailureDomainWithMostMachines.
  set (fd := FailureDomainWithMostMachines c machines).
  assert (∀ n m, mFilter (InFailureDomains [fd]) machines !! n = Some m ↔
    machines !! n = Some m ∧ m_FailureDomain m = fd) as Hin.
  { intros n m. rewrite mFilter_Some, InFailureDomains_spec, bool_decide_eq_true, list_elem_of_singleton.
    done. }
  assert (machines ≠ ∅ → ∃ n m, machines !! n = Some m ∧ m_FailureDomain m = fd ∧
    ((∃ n' m', machines !! n' = Some m' ∧ stray c m') → stray c m)) as Hpick.
  { intros Hne. unfold fd, FailureDomainWithMostMachines.
    assert (∀ n m, mFilter (λ m, negb (InFailureDomains (GetIDs (FilterControlPlane (FailureDomains_ c))) m))
      machines !! n = Some m ↔ machines !! n = Some m ∧ stray c m) as Hstray.
    { intros n m. unfold stray.
      rewrite mFilter_Some, InFailureDomains_spec, negb_true_iff, bool_decide_eq_false. done. }
    case_bool_decide as Hs.
    - apply size_filter_pos in Hs as (n & m & Hm).
      rewrite <- (mFilter_Some (λ m, negb (InFailureDomains _ m))) in Hm.
      destruct (mOldest_Some _ _ _ Hm) as [mo Ho]. rewrite Ho. simpl.
      apply mOldest_elem in Ho as [no Ho]. apply Hstray in Ho as [Hno Hso]. eauto.
    - assert (∀ n m, machines !! n = Some m → ¬ stray c m) as Hnone.
      { intros n m Hm Hst. apply Hs, size_filter_pos. exists n, m.
        rewrite <- (mFilter_Some (λ m, negb (InFailureDomains _ m))). by apply Hstray. }
      destruct (PickMost_elem (control_plane_domains c) (cp_Machines c) machines
        (PickMost (control_plane_domains c) (cp_Machines c) machines) Hne) as (n & m & Hm & Hfd); [|done|].
      { intros n m Hm. unfold control_plane_domains. specialize (Hnone n m Hm). unfold stray in Hnone.
        by apply dec_stable in Hnone. }
      exists n, m. split; [done|]. split; [done|]. intros (n' & m' & Hm' & Hst). by destruct (Hnone n' m'). }
  destruct (mOldest _) as [m|] eqn:Ho.
  - pose proof (λ m' n, mOldest_min _ m m' n Ho) as Hmin.
    apply mOldest_elem in Ho as Hn. destruct Hn as [n Hn]. apply Hin in Hn as [Hn Hfd].
    split; [by exists n|]. split.
    + intros n' m' Hm' Hfd'. eapply Hmin. apply Hin. split; [done|congruence].
    + intros Hst. destruct Hpick as (n1 & m1 & Hm1 & Hfd1 & Hs1); [by intros ->; rewrite lookup_empty in Hn|].
      unfold stray in *. rewrite Hfd, <- Hfd1. auto.
  - split; [done|]. apply mOldest_none in Ho. destruct (decide (machines = ∅)) as [|Hne]; [done|].
    destruct (Hpick Hne) as (n & m & Hm & Hfd & _).
    assert (mFilter (InFailureDomains [fd]) machines !! n = Some m) as Hf by (by apply Hin).
    rewrite Ho in Hf. by rewrite lookup_empty in Hf.
Qed.
End Picking.

Section Patching.
Context `{!ApiErrors, !ApiErrorsLaws}.
Implicit Types (c : ControlPlane).

Lemma elem_of_snoc_l {A} (x y : A) l : x ∈ l → x ∈ l ++ [y].
Proof. rewrite elem_of_app. by left. Qed.
Lemma elem_of_snoc_r {A} (x : A) l : x ∈ l ++ [x].
Proof. rewrite elem_of_app, list_elem_of_singleton. by right. Qed.

(** What has been done for a machine: it was patched if it has a helper, and
    without an error so far the patch succeeded. *)
Definition attended c (t : trace) (errs : list error) (m : Machine) : Prop :=
  (∀ h, machinesPatchHelpers c !! m_Name m = Some h → ∃ x, Obs (Patch KMachine h m) x ∈ t) ∧
  (errs = [] → ∃ h, machinesPatchHelpers c !! m_Name m = Some h ∧ Obs (Patch KMachine h m) (Ok tt) ∈ t).

Lemma attended_grows c t errs m o errs' :
  attended c t errs m → (errs' = [] → errs = []) → attended c (t ++ [o]) errs' m.
Proof.
  intros [Hp Hok] He. split.
  - intros h Hh. destruct (Hp h Hh) as [x Hx]. exists x. by apply elem_of_snoc_l.
  - intros He'. destruct (Hok (He He')) as (h & Hh & Hx). exists h. split; [done|]. by apply elem_of_snoc_l.
Qed.

(** [PatchMachines] attempts to patch every machine that has a patch
    helper, whatever fails before, and answers no error only if every machine
    of the control plane has been patched. *)
Theorem PatchMachines_spec c :
  wp (PatchMachines c) ([] : trace) (λ t r,
    (∀ n m h, cp_Machines c !! n = Some m → machinesPatchHelpers c !! m_Name m = Some h →
       ∃ x, Obs (Patch KMachine h m) x ∈ t) ∧
    (r = None → ∀ n m, cp_Machines c !! n = Some m →
       ∃ h, machinesPatchHelpers c !! m_Name m = Some h ∧ Obs (Patch KMachine h m) (Ok tt) ∈ t)).
Proof.
  unfold PatchMachines, each_machine. apply wp_func_with, gwp_bind. unfold range.
  apply gwp_bind, gwp_call; [done|]. intros ks t1 Hks Ht1. simpl in Hks, Ht1. cbn beta.
  eapply (gwp_for_each _ _ (λ d _ t errs, ∀ m, m ∈ d → attended c t errs m)).
  - intros m []%elem_of_nil.
  - intros d m rest t errs _ Hd. destruct (machinesPatchHelpers c !! m_Name m) as [h|] eqn:Hh.
    + apply gwp_bind, gwp_call; [done|]. intros [u|e] t' _ ->.
      * apply gwp_ret. intros m' [Hm'| ->%list_elem_of_singleton]%elem_of_app.
        { eapply attended_grows; [by apply Hd|done]. }
        split; [intros h' Hh'|intros _]; destruct u;
          rewrite Hh in *; simplify_eq; eauto using elem_of_snoc_r.
      * apply gwp_modify. intros m' [Hm'| ->%list_elem_of_singleton]%elem_of_app.
        { eapply attended_grows; [by apply Hd|]. by intros []%app_nil. }
        split; [|by intros []%app_nil]. intros h' Hh'. rewrite Hh in Hh'. injection Hh' as <-.
        eexists. apply elem_of_snoc_r.
    + apply gwp_modify. intros m' [Hm'| ->%list_elem_of_singleton]%elem_of_app.
      * destruct (Hd _ Hm') as [Hp _]. split; [exact Hp|]. by intros []%app_nil.
      * split; [congruence|]. by intros []%app_nil.
  - intros t errs Hd. apply gwp_bind, gwp_get, gwp_ret. split.
    + intros n m h Hn. apply Hd. apply lookup_range_elem; eauto.
    + intros Hr n m Hn. apply Hd; [apply lookup_range_elem; eauto|].
      destruct errs as [|e errs]; [done|]. destruct (NewAggregate_cons e errs) as [x Hx]. congruence.
Qed.
End Patching.

(** ** The control plane of a reconciliation *)

Section Building.
Context {W : Type} `{!ApiErrors, !Env W, !ApiServer W}.
Implicit Types (w : W).

Lemma getInfraResources_reads (ms : Machines) : reads (getInfraResources ms).
Proof.
  unfold reads, reads_post, getInfraResources, each_machine, range. apply wp_func_with.
  apply gwp_bind, gwp_bind, gwp_call; [done|]. intros ks [] _ _. cbn beta.
  apply (gwp_for_each_inv _ _ (λ _ _, True)); [done| |by repeat wp_step].
  intros m [] s _ _. apply gwp_bind, gwp_call; [done|].
  intros [u|e] [] _ _; [by apply gwp_modify|]. by destruct (IsNotFound e).
Qed.

(** The bootstrap config stored for a machine. *)
Definition config_of w (m : Machine) : option CK8sConfig :=
  ref ← m_ConfigRef m; view KCK8sConfig w (mkKey (om_Namespace (m_meta m)) (ref_Name ref)).

(** A map that has been built for the machines [d]. *)
Definition built {A} (f : Machine → option A) (d : list Machine) (s : gmap string A) : Prop :=
  (∀ m, m ∈ d → s !! m_Name m = f m) ∧ ∀ n, n ∉ m_Name <$> d → s !! n = None.

Lemma built_snoc {A} (f : Machine → option A) d m s s' :
  NoDup (m_Name <$> (d ++ [m])) → built f d s →
  s' = match f m with Some a => <[m_Name m := a]> s | None => s end → built f (d ++ [m]) s'.
Proof.
  intros Hnd [Hin Hout] ->. rewrite fmap_app in Hnd. apply list.NoDup_app in Hnd as (_ & Hm & _).
  assert (∀ m', m' ∈ d → m_Name m' ≠ m_Name m) as Hne.
  { intros m' Hm' Heq. apply (Hm (m_Name m')); [by apply list_elem_of_fmap_2|]. rewrite Heq. by left. }
  assert (s !! m_Name m = None) as Hnone.
  { apply Hout. intros (m' & Heq & Hm')%list_elem_of_fmap. by apply (Hne m'). }
  split.
  - intros m' [Hm'| ->%list_elem_of_singleton]%elem_of_app.
    + destruct (f m); [rewrite lookup_insert_ne by (by apply not_eq_sym, Hne)|]; auto.
    + destruct (f m) as [a|]; [by rewrite lookup_insert_eq|done].
  - intros n. rewrite fmap_app, not_elem_of_app. intros [Hn Hnm].
    assert (n ≠ m_Name m) by (intros ->; apply Hnm; by left).
    destruct (f m); [rewrite lookup_insert_ne by done|]; auto.
Qed.

Definition named (ms : Machines) : Prop := ∀ n m, ms !! n = Some m → m_Name m = n.

(** A loop over machines that builds a map by name, without changing what is stored. *)
Lemma each_machine_builds {A R} (f : Machine → option A) (ms : Machines) (body : Machine → go (gmap string A) R unit)
    w K Rt :
  named ms →
  (∀ m w1 s, same_view w w1 →
     gwp (body m) s w1 (λ w2 s' _, same_view w w2 ∧
       s' = match f m with Some a => <[m_Name m := a]> s | None => s end) Rt) →
  (∀ w1 s, same_view w w1 → (∀ n m, ms !! n = Some m → s !! n = f m) → K w1 s tt) →
  gwp (each_machine ms body) ∅ w K Rt.
Proof.
  intros Hnames Hbody HK. unfold each_machine, range.
  apply gwp_bind, gwp_call; [by apply api_pre|]. intros ks w1 Hks He.
  assert (same_view w w1) as Hv1 by (intros k key; exact (api_quiet _ _ _ _ He I k key)). cbn beta.
  pose proof (lookup_range_NoDup ms ks Hks Hnames) as Hnd.
  eapply (gwp_for_each _ _ (λ d _ w' s, same_view w w' ∧ built f d s)).
  - split; [done|]. split; [by intros m []%elem_of_nil|]. intros n _. apply lookup_empty.
  - intros d m rest w2 s Hl [Hv2 Hb]. eapply gwp_mono; [by apply Hbody| |done].
    cbv beta. intros w3 s3 _ [Hv3 Hs3]. split; [done|]. eapply built_snoc; [|done|done].
    rewrite Hl in Hnd. change (d ++ m :: rest) with (d ++ [m] ++ rest) in Hnd.
    rewrite app_assoc, fmap_app in Hnd. by apply list.NoDup_app in Hnd as [? _].
  - intros w2 s [Hv2 [Hin _]]. apply HK; [done|]. intros n m Hn.
    rewrite <- (Hnames _ _ Hn). apply Hin, lookup_range_elem; eauto.
Qed.

Lemma getCK8sConfigs_wp (ms : Machines) w :
  named ms →
  wp (getCK8sConfigs ms) w (λ w' r,
    same_view w w' ∧
    match r with
    | Ok configs => ∀ n m, ms !! n = Some m → configs !! n = config_of w m
    | Err _ => True
    end).
Proof.
  intros Hnames. unfold getCK8sConfigs. apply wp_func_with, gwp_bind.
  apply (each_machine_builds (config_of w)); [done| |].
  - intros m w1 s Hv1. unfold config_of. destruct (m_ConfigRef m) as [ref|]; [|by apply gwp_ret].
    apply gwp_bind, gwp_call; [by apply api_pre|]. intros r w2 _ [Hv2 Hr]%(api_get KCK8sConfig).
    rewrite Hv1 in Hr. assert (same_view w w2) as Hv by (intros k key; by rewrite Hv2).
    destruct r as [cfg|e]; [apply gwp_modify; simpl; by rewrite Hr|].
    destruct (IsNotFound e) eqn:Hnf; [apply gwp_ret|by apply gwp_return]. simpl. by rewrite Hr.
  - intros w1 s Hv Hs. repeat wp_step. done.
Qed.

(** The control plane that a reconciliation works on is built from what is
    stored, without a change: it has a patch helper for every machine, made from
    the machine as it was read, and the stored bootstrap config of every machine
    that has one. *)
Theorem NewControlPlane_spec cluster kcp (ms : Machines) w :
  (∀ n m, ms !! n = Some m → m_Name m = n) →
  wp (NewControlPlane cluster kcp ms) w (λ w' r,
    (∀ k key, view k w' key = view k w key) ∧
    match r with
    | Ok c => KCP c = kcp ∧ cp_Cluster c = cluster ∧ cp_Machines c = ms ∧
              (∀ n m, ms !! n = Some m → machinesPatchHelpers c !! n = Some m) ∧
              (∀ n m, ms !! n = Some m → ck8sConfigs c !! n = config_of w m)
    | Err _ => True
    end).
Proof.
  intros Hnames. unfold NewControlPlane. apply wp_func_with, gwp_bind, gwp_check, gwp_callp.
  eapply wp_mono; [apply wp_reads, getInfraResources_reads|]. intros w1 [infra|e] Hv1; [|done].
  apply gwp_bind, gwp_check, gwp_callp.
  eapply wp_mono; [by apply getCK8sConfigs_wp|]. intros w2 [configs|e] [Hv2 Hc].
  2: { split; [|done]. intros. by rewrite Hv2, Hv1. }
  assert (same_view w w2) as Hv by (intros k key; by rewrite Hv2, Hv1).
  apply gwp_bind, (each_machine_builds Some); [done| |].
  - intros m w3 s Hv3. apply gwp_bind, gwp_call; [by apply api_pre|]. intros [u|e] w4 _ Hh;
      pose proof (api_quiet _ _ _ _ Hh I) as Hv4; assert (same_view w2 w4) as Hv5 by (intros k key; by rewrite Hv4).
    + by apply gwp_modify.
    + apply gwp_return. split; [|done]. intros k key. by rewrite Hv5.
  - intros w3 s Hv3 Hs. apply gwp_bind, gwp_get, gwp_bind, gwp_call; [by apply api_pre|].
    intros now w4 _ Hn. pose proof (api_quiet _ _ _ _ Hn I) as Hv4. apply gwp_ret.
    split; [intros; by rewrite Hv4, Hv3|]. do 3 (split; [done|]). split; [done|].
    intros n m Hm. simpl. rewrite (Hc n m Hm). unfold config_of. destruct (m_ConfigRef m); simpl; [|done]. by rewrite Hv1.
Qed.
End Building.

(** ** Witnesses: a control plane with an outdated and an up-to-date machine *)

Module CpExamples.
Definition kcp : CK8sControlPlane :=
  mkControlPlane (meta_named "k")
    (mkControlPlaneSpec (Some 2%Z) "v1.30.0" empty_spec None
       (mkMachineTemplate ∅ ∅ (ref_named "InfraTemplate" "t") None None None) None None)
    (mkControlPlaneStatus "" 2 None 2 2 0 true true "" None 0 [] None).
Definition old : Machine :=
  mkMachine (meta_named "old") "c" (Some "v1.29.0") (ref_named "Infra" "old")
    (Some (ref_named "CK8sConfig" "old")) None None None None None [].
Definition ms : Machines := {["a" := machine_named "a"; "old" := old]}.
Definition c : ControlPlane :=
  mkCP kcp (cluster_named "c") ms {["a" := machine_named "a"]} 0 ∅ ∅.
Definition store : Store := put KCK8sConfig (config_named "a") empty_store.
End CpExamples.
Import CpExamples.

Lemma rollout_partition_witness :
  (cp_Machines c !! "old" = Some old) ∧ outdated c old = true ∧
  (MachinesNeedingRollout c !! "old" = Some old ↔ deleting (m_meta old) = false ∧ outdated c old = true) ∧
  (UpToDateMachines c !! "old" = Some old ↔ MachinesNeedingRollout c !! "old" = None) ∧
  (MachinesNeedingRollout c !! "old" = Some old ∨ UpToDateMachines c !! "old" = Some old) ∧
  size (MachinesNeedingRollout c) + size (UpToDateMachines c) = size (cp_Machines c).
Proof.
  split; [vm_compute; reflexivity|]. split; [vm_compute; reflexivity|].
  apply (rollout_partition c "old" old). vm_compute; reflexivity.
Defined.

Lemma pick_for_deletion_spec_witness :
  match MachineInFailureDomainWithMostMachines c ms with
  | Ok m =>
      (∃ n, ms !! n = Some m) ∧
      (∀ n' m', ms !! n' = Some m' → m_FailureDomain m' = m_FailureDomain m →
         (om_CreationTimestamp (m_meta m) ≤ om_CreationTimestamp (m_meta m'))%Z) ∧
      ((∃ n' m', ms !! n' = Some m' ∧ stray c m') → stray c m)
  | Err e => e = ErrFailedToPickForDeletion ∧ ms = ∅
  end.
Proof. pose proof (pick_for_deletion_spec c ms) as Hp. exact Hp. Defined.

Lemma PatchMachines_spec_witness :
  wp (PatchMachines c) ([] : trace) (λ t r,
    (∀ n m h, cp_Machines c !! n = Some m → machinesPatchHelpers c !! m_Name m = Some h →
       ∃ x, Obs (Patch KMachine h m) x ∈ t) ∧
    (r = None → ∀ n m, cp_Machines c !! n = Some m →
       ∃ h, machinesPatchHelpers c !! m_Name m = Some h ∧ Obs (Patch KMachine h m) (Ok tt) ∈ t)).
Proof. exact (PatchMachines_spec c). Defined.

#[local] Instance the_env : Env Store := server_env no_oracle.

Lemma NewControlPlane_spec_witness :
  wp (NewControlPlane (cluster_named "c") kcp ms) store (λ w' r,
    (∀ k key, view k w' key = view k store key) ∧
    match r with
    | Ok c => KCP c = kcp ∧ cp_Cluster c = cluster_named "c" ∧ cp_Machines c = ms ∧
              (∀ n m, ms !! n = Some m → machinesPatchHelpers c !! n = Some m) ∧
              (∀ n m, ms !! n = Some m → ck8sConfigs c !! n = config_of store m)
    | Err _ => True
    end).
Proof.
  apply (NewControlPlane_spec (cluster_named "c") kcp ms store).
  intros n m Hm. unfold ms in Hm. rewrite lookup_insert_Some, lookup_singleton_Some in Hm.
  by destruct Hm as [[<- <-]|[_ [<- <-]]].
Defined.
