(* ===== verification/Scale.v ===== *)
(** src/controlplane/controllers/scale.go: creating and removing control plane
    machines.  The reconciler passes [kcp] and the control plane that points to
    it; both are the [KCP] of the control plane here, which the functions that
    assign to it return. *)

From S2P Require Import Prelude Objects ApiTypes Effects Libs RefLibs ApiServer RefServer.
From S2P Require Import Json Token Workload MachineFilters ControlPlane.

Definition deleteRequeueAfter : Z := 30 * Time.Second.
Definition preflightFailedRequeueAfter : Z := 15 * Time.Second.
Definition dependentCertRequeueAfter : Z := 30 * Time.Second.
Definition ck8sHookName : string := "ck8s".

Definition ErrPreConditionFailed : error := ErrSentinel "precondition check failed".

(** ** The marshalled server configuration *)

Definition json_strings (l : list string) : Json.value := Json.JArray (map Json.JString l).
Definition json_args (m : extra_args) : Json.value :=
  Json.JObject (omap (λ k, (λ v : option string,
    (k, match v with Some s => Json.JString s | None => Json.JNull end)) <$> m !! k) (sorted_keys m)).

(** The JSON tags of [type SecretRef] and [type CK8sControlPlaneConfig]. *)
Definition json_SecretRef (r : SecretRef) : Json.value :=
  Json.JObject (("name", Json.JString (sr_Name r)) ::
    Json.omitempty (bool_decide (sr_Key r = "")) "key" (Json.JString (sr_Key r))).

Definition json_ControlPlaneConfig (c : CK8sControlPlaneConfig) : Json.value :=
  let str k s := Json.omitempty (bool_decide (s = "")) k (Json.JString s) in
  let strs k l := Json.omitempty (bool_decide (l = [])) k (json_strings l) in
  let num k n := Json.omitempty (n =? 0)%Z k (Json.JNumber (pretty n)) in
  let args k m := Json.omitempty (bool_decide (size m = 0)) k (json_args m) in
  Json.JObject
    (strs "extraSANs" (ExtraSANs c) ++ str "cloudProvider" (CloudProvider c) ++
     strs "nodeTaints" (NodeTaints c) ++ str "datastoreType" (DatastoreType c) ++
     [("datastoreServersSecretRef", json_SecretRef (DatastoreServersSecretRef c))] ++
     num "etcdPort" (EtcdPort c) ++ num "etcdPeerPort" (EtcdPeerPort c) ++
     str "microclusterAddress" (MicroclusterAddress c) ++
     match MicroclusterPort c with
     | Some p => [("microclusterPort", Json.JNumber (pretty p))]
     | None => []
     end ++
     args "extraKubeAPIServerArgs" (ExtraKubeAPIServerArgs c) ++
     args "extraKubeControllerManagerArgs" (ExtraKubeControllerManagerArgs c) ++
     args "extraKubeSchedulerArgs" (ExtraKubeSchedulerArgs c)).

(** [kcp.Spec.MachineTemplate.InfrastructureRef.Namespace = ns] *)
Definition set_infra_namespace (ns : string) (k : CK8sControlPlane) : CK8sControlPlane :=
  match kcp_Spec k with
  | mkControlPlaneSpec r v c a (mkMachineTemplate l an (mkRef av kd _ n u) d vd dd) rem ro =>
      set_kcp_Spec (mkControlPlaneSpec r v c a
        (mkMachineTemplate l an (mkRef av kd ns n u) d vd dd) rem ro) k
  end.

(** [delete(kcp.Annotations, key)] *)
Definition delete_annotation (key : string) (k : CK8sControlPlane) : CK8sControlPlane :=
  set_kcp_Annotations (delete key <$> om_Annotations (kcp_meta k)) k.

Definition severity_string (s : ConditionSeverity) : string :=
  match s with
  | SeverityError => "Error" | SeverityWarning => "Warning" | SeverityInfo => "Info"
  | SeverityNone => ""
  end.

Module Scale.
Section Scale.
Context `{!ApiErrors, !CollectionsLib, !MetaLib, !SchemaLib, !ConditionsLib, !K8sdApi}.
Implicit Types (c : ControlPlane) (kcp : CK8sControlPlane) (cluster : Cluster).

Abbreviation body := (go ControlPlane outcome).
Abbreviation step := (prog (ControlPlane * outcome)).

(** ** Preflight checks *)

Definition preflightCheckCondition (kind : string) (obj : Machine) (condition : ConditionType)
    : option error :=
  let intro := kind +:+ " " +:+ m_Name obj in
  match cGet (m_Conditions obj) condition with
  | None => Some (wrapf (intro +:+ " does not have " +:+ condition +:+ " condition")
                    ErrPreConditionFailed)
  | Some c =>
      match cond_Status c with
      | ConditionFalse =>
          Some (wrapf (intro +:+ " reports " +:+ condition +:+ " condition is false (" +:+
                       severity_string (cond_Severity c) +:+ ", " +:+ cond_Message c +:+ ")")
                  ErrPreConditionFailed)
      | ConditionUnknown =>
          Some (wrapf (intro +:+ " reports " +:+ condition +:+ " condition is unknown (" +:+
                       cond_Message c +:+ ")") ErrPreConditionFailed)
      | ConditionTrue => None
      end
  end.

Definition allMachineHealthConditions : list ConditionType :=
  [ControlPlaneConditions.MachineAgentHealthyCondition].

(** The loop body; the errors are the state. *)
Definition check_machine (excludeFor : list Machine) (machine : Machine)
    : go (list error) outcome unit :=
  if existsb (λ excluded, bool_decide (m_Name machine = m_Name excluded)) excludeFor then mret tt
  else for_each allMachineHealthConditions (λ condition,
    match preflightCheckCondition "machine" machine condition with
    | Some err => modify (λ machineErrors, machineErrors ++ [err])
    | None => mret tt
    end).

Definition preflightChecks c (excludeFor : list Machine) : prog outcome :=
  func_with (
    if bool_decide (size (cp_Machines c) = 0) then return_ (Result0, None)
    else if HasDeletingMachine c then return_ (After deleteRequeueAfter, None)
    else
      each_machine (cp_Machines c) (check_machine excludeFor) ;;
      machineErrors ← get;
      match NewAggregate machineErrors with
      | Some aggregatedError =>
          call (Eventf (key_of (kcp_meta (KCP c))) EventWarning "ControlPlaneUnhealthy"
            ("Waiting for control plane to pass preflight checks to continue reconciliation: " +:+
             error_text aggregatedError)) ;;
          mret (After preflightFailedRequeueAfter, None)
      | None => mret (Result0, None)
      end) [].

(** ** Creating a machine *)

(** The owner reference of a cloned object: not a controller reference. *)
Definition clone_owner kcp : OwnerReference :=
  mkOwnerRef controlplane_GroupVersion "CK8sControlPlane" (kcp_Name kcp) (om_UID (kcp_meta kcp)) None.

(** The labels of every object created for the control plane. *)
Definition labels_for cluster kcp : strmap :=
  ControlPlaneLabelsForCluster (cl_Name cluster) (MachineTemplate (kcp_Spec kcp)).

Definition bootstrap_config kcp cluster (spec : CK8sConfigSpec) (name : string) : CK8sConfig :=
  mkConfig (mkMeta name (kcp_Namespace kcp) "" (labels_for cluster kcp) None [clone_owner kcp] [] 0 None)
    spec new_config_status.

Definition config_ref (config : CK8sConfig) : ObjectReference :=
  mkRef bootstrap_GroupVersion "CK8sConfig" (cfg_Namespace config) (cfg_Name config)
    (om_UID (cfg_meta config)).

Definition generateCK8sConfig kcp cluster (spec : CK8sConfigSpec) : prog (gores ObjectReference) :=
  func (
    name ← call (GenerateName (kcp_Name kcp +:+ "-"));
    config ← check (call (Create KCK8sConfig (bootstrap_config kcp cluster spec name)))
               (λ e, Err (wrapf "failed to create bootstrap configuration" e));
    mret (Ok (config_ref config))).

(** The annotations of a new machine. *)
Definition machine_annotations kcp : strmap :=
  let annotations := {[CK8sServerConfigurationAnnotation :=
    Json.print (json_ControlPlaneConfig (ControlPlaneConfig (kcp_CK8sConfigSpec (kcp_Spec kcp))))]} in
  match ann (kcp_meta kcp) RemediationInProgressAnnotation with
  | Some remediationData => <[RemediationForAnnotation := remediationData]> annotations
  | None => annotations
  end.

Definition new_machine kcp cluster (infraRef bootstrapRef : ObjectReference)
    (failureDomain : option string) (name : string) : Machine :=
  mkMachine
    (mkMeta name (kcp_Namespace kcp) "" (labels_for cluster kcp) (Some (machine_annotations kcp))
       [NewControllerRef (kcp_meta kcp) controlplane_GroupVersion "CK8sControlPlane"] [] 0 None)
    (cl_Name cluster) (Some (kcp_Version (kcp_Spec kcp))) infraRef (Some bootstrapRef) failureDomain
    (mt_NodeDrainTimeout (MachineTemplate (kcp_Spec kcp)))
    (mt_NodeVolumeDetachTimeout (MachineTemplate (kcp_Spec kcp)))
    (mt_NodeDeletionTimeout (MachineTemplate (kcp_Spec kcp))) None [].

(** Marshalling the server configuration cannot fail. *)
Definition generateMachine cluster (infraRef bootstrapRef : ObjectReference)
    (failureDomain : option string) : CK8sControlPlane → prog (CK8sControlPlane * option error) :=
  func_on (
    kcp ← get;
    name ← call (GenerateName (kcp_Name kcp +:+ "-"));
    r ← call (Create KMachine (new_machine kcp cluster infraRef bootstrapRef failureDomain name));
    match r with
    | Err e => return_ (Some (wrapf "failed to create machine" e))
    | Ok _ => modify (delete_annotation RemediationInProgressAnnotation) ;; mret None
    end).

(** The reference carries the kind, version, namespace and name only. *)
Definition cleanup_ref (r : ObjectReference) : ObjectReference :=
  mkRef (ref_APIVersion r) (ref_Kind r) (ref_Namespace r) (ref_Name r) "".

Definition cleanupFromGeneration (remoteRefs : list (option ObjectReference)) : prog (option error) :=
  func_with (
    for_each remoteRefs (λ ref,
      match ref with
      | None => mret tt
      | Some ref =>
          r ← call (DeleteRef (cleanup_ref ref));
          match r with
          | Err e => if IsNotFound e then mret tt
                     else modify (λ errs, errs ++
                       [wrapf "failed to cleanup generated resources after error" e])
          | Ok _ => mret tt
          end
      end) ;;
    errs ← get;
    mret (NewAggregate errs)) [].

(** The input of [external.CreateFromTemplate]. *)
Definition clone_input kcp cluster : CloneInput :=
  mkCloneInput (mt_InfrastructureRef (MachineTemplate (kcp_Spec kcp))) (kcp_Namespace kcp)
    (clone_owner kcp) (cl_Name cluster) (labels_for cluster kcp).

Definition cloneConfigsAndGenerateMachine cluster (bootstrapSpec : CK8sConfigSpec)
    (failureDomain : option string) : CK8sControlPlane → prog (CK8sControlPlane * option error) :=
  func_on (
    kcp0 ← get;
    when (bool_decide (ref_Namespace (mt_InfrastructureRef (MachineTemplate (kcp_Spec kcp0))) = ""))
      (modify (set_infra_namespace (cl_Namespace cluster))) ;;
    kcp ← get;
    infraRef ← check (call (CreateFromTemplate (clone_input kcp cluster)))
      (λ e, Some (wrapf "failed to clone infrastructure template" e));
    bootstrapRef ← callp (generateCK8sConfig kcp cluster bootstrapSpec);
    errs ← match bootstrapRef with
           | Err e => mret [wrapf "failed to generate bootstrap config" e]
           | Ok ref =>
               r ← calls (generateMachine cluster infraRef ref failureDomain);
               match r with
               | Some e => mret [wrapf "failed to create Machine" e]
               | None => mret []
               end
           end;
    match errs with
    | [] => mret None
    | _ =>
        r ← callp (cleanupFromGeneration [Some infraRef;
              match bootstrapRef with Ok ref => Some ref | Err _ => None end]);
        mret (NewAggregate (errs ++
          match r with
          | Some e => [wrapf "failed to cleanup generated resources" e]
          | None => []
          end))
    end).

(** [kcp] of the control plane. *)
Definition on_kcp {A} (f : CK8sControlPlane → prog (CK8sControlPlane * A)) : body A :=
  calls (λ c, prog_bind (f (KCP c)) (λ ka, Ret (set_KCP ka.1 c, ka.2))).

(** [cloneConfigsAndGenerateMachine] as the two callers use it. *)
Definition generate (bootstrapSpec : ControlPlane → CK8sConfigSpec) (reason what : string) : body outcome :=
  c ← get;
  let cluster := cp_Cluster c in
  r ← on_kcp (cloneConfigsAndGenerateMachine cluster (bootstrapSpec c) (NextFailureDomainForScaleUp c));
  match r with
  | Some err =>
      call (Eventf (key_of (kcp_meta (KCP c))) EventWarning reason
        ("Failed to create " +:+ what +:+ " control plane Machine for cluster " +:+
         cl_Namespace cluster +:+ "/" +:+ cl_Name cluster +:+ " control plane: " +:+ error_text err)) ;;
      mret (Result0, Some err)
  | None => mret (RequeueNow, None)
  end.

Definition initializeControlPlane : ControlPlane → step :=
  func_on (
    c ← get;
    let cluster := cp_Cluster c in
    ownedMachines ← check (callp (GetMachinesForCluster (key_of (cl_meta cluster))
                                    [OwnedMachines (kcp_meta (KCP c))]))
      (λ e, (Result0, Some e));
    if bool_decide (0 < size ownedMachines) then
      return_ (Result0, Some (ErrNew
        ("control plane has already been initialized, found " +:+ pretty (size ownedMachines) +:+
         " owned machine for cluster " +:+ cl_Namespace cluster +:+ "/" +:+ cl_Name cluster +:+
         ": controller cache or management cluster is misbehaving. %!w(<nil>)")))
    else generate InitialControlPlaneConfig "FailedInitialization" "initial").

Definition scaleUpControlPlane : ControlPlane → step :=
  func_on (
    c ← get;
    r ← callp (preflightChecks c []);
    if bool_decide (r.2 ≠ None) || negb (Result_IsZero r.1) then return_ r
    else generate JoinControlPlaneConfig "FailedScaleUp" "additional").

(** ** Removing a machine *)

Definition selectMachineForScaleDown c (outdatedMachines : Machines) : gores Machine :=
  let machines := cp_Machines c in
  let machines :=
    if bool_decide (0 < size (MachineWithDeleteAnnotation c outdatedMachines))
    then MachineWithDeleteAnnotation c outdatedMachines
    else if bool_decide (0 < size (MachineWithDeleteAnnotation c machines))
    then MachineWithDeleteAnnotation c machines
    else if bool_decide (0 < size outdatedMachines) then outdatedMachines
    else machines in
  MachineInFailureDomainWithMostMachines c machines.

Definition delete_machine c (machineToDelete : Machine) : go unit outcome outcome :=
  let cluster := cp_Cluster c in
  r ← call (Delete KMachine (key_of (m_meta machineToDelete)));
  match r with
  | Err e =>
      if IsNotFound e then mret (RequeueNow, None)
      else
        call (Eventf (key_of (kcp_meta (KCP c))) EventWarning "FailedScaleDown"
          ("Failed to delete control plane Machine " +:+ m_Name machineToDelete +:+ " for cluster " +:+
           cl_Namespace cluster +:+ "/" +:+ cl_Name cluster +:+ " control plane: " +:+ error_text e)) ;;
        return_ (Result0, Some e)
  | Ok _ => mret (RequeueNow, None)
  end.

(** A selected machine is not nil. *)
Definition scaleDownControlPlane c (outdatedMachines : Machines) : prog outcome :=
  let cluster := cp_Cluster c in
  func (
    machineToDelete ← check (mret (selectMachineForScaleDown c outdatedMachines))
      (λ e, (Result0, Some (wrapf "failed to select machine for scale down" e)));
    r ← callp (preflightChecks c [machineToDelete]);
    if bool_decide (r.2 ≠ None) || negb (Result_IsZero r.1) then return_ r
    else
    workloadCluster ← check (callp (GetWorkloadCluster (key_of (cl_meta cluster))
        (GetMicroclusterPort (ControlPlaneConfig (kcp_CK8sConfigSpec (kcp_Spec (KCP c)))))))
      (λ e, (Result0, Some (wrapf "failed to create client to workload cluster" e)));
    when (bool_decide (m_NodeRef machineToDelete ≠ None))
      (check_err (callp (RemoveMachineFromCluster workloadCluster machineToDelete))
        (λ e, (Result0, Some (wrapf "failed to remove machine from microcluster" e)))) ;;
    delete_machine c machineToDelete).
End Scale.
End Scale.

Module ScaleSpec.
Import Scale.
Section ScaleSpec.
Context `{!ApiErrors, !ApiErrorsLaws, !CollectionsLib, !CollectionsLaws, !MetaLib, !SchemaLib,
          !ConditionsLib, !K8sdApi}.
Implicit Types (c : ControlPlane) (kcp : CK8sControlPlane) (cluster : Cluster) (t : trace).

(** ** What the creation of a machine does to the management cluster *)

(** [kcp] with the namespace of its infrastructure template. *)
Definition defaulted cluster kcp : CK8sControlPlane :=
  if bool_decide (ref_Namespace (mt_InfrastructureRef (MachineTemplate (kcp_Spec kcp))) = "")
  then set_infra_namespace (cl_Namespace cluster) kcp else kcp.

(** The writes of a creation, with its error.  Every object that has been created
    when a later step fails is deleted again. *)
Inductive generation kcp cluster spec fd : trace → option error → Prop :=
  | no_infrastructure e :
      generation kcp cluster spec fd
        [Obs (CreateFromTemplate (clone_input kcp cluster)) (Err e)]
        (Some (wrapf "failed to clone infrastructure template" e))
  | no_config infra name e x err :
      generation kcp cluster spec fd
        [Obs (CreateFromTemplate (clone_input kcp cluster)) (Ok infra);
         Obs (Create KCK8sConfig (bootstrap_config kcp cluster spec name)) (Err e);
         Obs (DeleteRef (cleanup_ref infra)) x] (Some err)
  | no_machine infra name config mname e x y err :
      generation kcp cluster spec fd
        [Obs (CreateFromTemplate (clone_input kcp cluster)) (Ok infra);
         Obs (Create KCK8sConfig (bootstrap_config kcp cluster spec name)) (Ok config);
         Obs (Create KMachine (new_machine kcp cluster infra (config_ref config) fd mname)) (Err e);
         Obs (DeleteRef (cleanup_ref infra)) x;
         Obs (DeleteRef (cleanup_ref (config_ref config))) y] (Some err)
  | generated infra name config mname machine :
      generation kcp cluster spec fd
        [Obs (CreateFromTemplate (clone_input kcp cluster)) (Ok infra);
         Obs (Create KCK8sConfig (bootstrap_config kcp cluster spec name)) (Ok config);
         Obs (Create KMachine (new_machine kcp cluster infra (config_ref config) fd mname)) (Ok machine)]
        None.

Definition deletions (refs : list (option ObjectReference)) (xs : list (gores unit)) : trace :=
  zip_with (λ r x, Obs (DeleteRef (cleanup_ref r)) x) (omap id refs) xs.

Lemma cleanup_wp refs t :
  wp (cleanupFromGeneration refs) t (λ t' _, extends t t' ∧
    ∃ xs, length xs = length (omap id refs) ∧ writes t' = writes t ++ deletions refs xs).
Proof.
  unfold cleanupFromGeneration. apply wp_func_with, gwp_bind.
  eapply (gwp_for_each _ _ (λ d _ t' _, extends t t' ∧ ∃ xs, length xs = length (omap id d) ∧
    writes t' = writes t ++ deletions d xs)).
  - split; [apply extends_refl|]. exists []. by rewrite app_nil_r.
  - intros d [ref|] rest t1 errs _ (He & xs & Hlen & Hw).
    2: { apply gwp_ret. split; [done|]. exists xs. unfold deletions. rewrite omap_app. simpl.
         rewrite app_nil_r. done. }
    apply gwp_bind, gwp_call; [done|]. intros x t2 _ ->.
    assert (extends t (t1 ++ [Obs (DeleteRef (cleanup_ref ref)) x]) ∧
      ∃ xs, length xs = length (omap id (d ++ [Some ref])) ∧
        writes (t1 ++ [Obs (DeleteRef (cleanup_ref ref)) x]) = writes t ++ deletions (d ++ [Some ref]) xs)
      as HI.
    { split; [by apply extends_snoc|]. exists (xs ++ [x]). unfold deletions in *.
      rewrite omap_app, !length_app, written. split; [simpl; lia|].
      rewrite Hw, zip_with_app by lia. simpl. by rewrite <- (assoc_L (++)). }
    destruct x as [u|e]; [by apply gwp_ret|].
    destruct (IsNotFound e); [by apply gwp_ret|by apply gwp_modify].
  - intros t1 errs HI. repeat wp_step. exact HI.
Qed.

Lemma NewAggregate_not_None e es : ∃ err, NewAggregate (e :: es) = Some err.
Proof. destruct (NewAggregate_cons e es) as [x Hx]. by exists x. Qed.

Lemma clone_wp cluster spec fd kcp t :
  wp (cloneConfigsAndGenerateMachine cluster spec fd kcp) t (λ t' r,
    extends t t' ∧ ∃ g, writes t' = writes t ++ g ∧
      generation (defaulted cluster kcp) cluster spec fd g r.2).
Proof.
  unfold cloneConfigsAndGenerateMachine. apply wp_func_on.
  apply gwp_bind, gwp_get, gwp_bind.
  assert (∀ g (K : trace → CK8sControlPlane → unit → Prop) Rt,
    K g (defaulted cluster kcp) tt →
    gwp (R:=option error) (when (bool_decide (ref_Namespace (mt_InfrastructureRef (MachineTemplate (kcp_Spec kcp))) = ""))
      (modify (set_infra_namespace (cl_Namespace cluster)))) kcp g K Rt) as Hdef.
  { intros g K Rt HK. unfold defaulted in HK. by case_bool_decide. }
  apply Hdef. generalize (defaulted cluster kcp). clear Hdef kcp. intros kcp.
  apply gwp_bind, gwp_get, gwp_bind, gwp_check, gwp_call; [done|].
  intros [infra|e] t1 _ ->.
  2: { split; [by apply extends_snoc, extends_refl|]. eexists. rewrite written.
       split; [done|]. constructor. }
  apply gwp_bind, gwp_callp. unfold generateCK8sConfig. wp_run.
  apply gwp_call; [done|]. intros name t1 _ ->. cbv beta. wp_run. apply gwp_call; [done|].
  intros [config|e] t2 _ ->; wp_run.
  - unfold generateMachine. wp_run. apply gwp_call; [done|]. intros mname t3 _ ->. cbv beta.
    wp_run. apply gwp_call; [done|]. intros [machine|e] t4 _ ->; wp_run.
    + split; [by repeat apply extends_snoc; apply extends_refl|]. eexists.
      rewrite !written. split; [by rewrite <- !(assoc_L (++))|]. constructor.
    + eapply wp_mono; [apply (cleanup_wp [Some infra; Some (config_ref config)])|].
      intros t5 r (He & xs & Hlen & Hw). wp_run.
      destruct xs as [|x [|y [|]]]; try done. split.
      { eapply extends_trans; [|exact He]. by repeat apply extends_snoc; apply extends_refl. }
      eexists. rewrite Hw, !written. split; [by rewrite <- !(assoc_L (++))|]. simpl.
      edestruct NewAggregate_not_None as [err ->]. constructor.
  - eapply wp_mono; [apply (cleanup_wp [Some infra; None])|].
    intros t5 r (He & xs & Hlen & Hw). wp_run.
    destruct xs as [|x [|]]; try done. split.
    { eapply extends_trans; [|exact He]. by repeat apply extends_snoc; apply extends_refl. }
    eexists. rewrite Hw, !written. split; [by rewrite <- !(assoc_L (++))|]. simpl.
    edestruct NewAggregate_not_None as [err ->]. constructor.
Qed.

(** C27: creating a control plane machine is all or nothing.  Either the
    infrastructure, the bootstrap configuration and the machine that refers to
    both are created, in this order and with the identity of the control plane,
    and there is no error; or an error is returned, no machine has been created,
    and the deletion of every object that was created has been attempted. *)
Theorem clone_all_or_nothing cluster spec fd kcp :
  wp (cloneConfigsAndGenerateMachine cluster spec fd kcp) ([] : trace) (λ t r,
    generation (defaulted cluster kcp) cluster spec fd (writes t) r.2).
Proof.
  eapply wp_mono; [apply clone_wp|]. simpl. intros t r (_ & g & -> & Hg). exact Hg.
Qed.

(** ** A new machine is up to date *)

Lemma defaulted_spec cluster kcp :
  kcp_Version (kcp_Spec (defaulted cluster kcp)) = kcp_Version (kcp_Spec kcp) ∧
  kcp_CK8sConfigSpec (kcp_Spec (defaulted cluster kcp)) = kcp_CK8sConfigSpec (kcp_Spec kcp).
Proof.
  unfold defaulted. case_bool_decide; [|done]. unfold set_infra_namespace.
  destruct kcp as [? [? ? ? ? [? ? [] ? ? ?] ? ?] ?]. done.
Qed.

(** The annotations that [external.CreateFromTemplate] leaves on a clone. *)
Definition cloned_from kcp (o : Unstructured) : Prop :=
  let ref := mt_InfrastructureRef (MachineTemplate (kcp_Spec kcp)) in
  ann (u_meta o) Clusterv1.TemplateClonedFromNameAnnotation = Some (ref_Name ref) ∧
  ann (u_meta o) Clusterv1.TemplateClonedFromGroupKindAnnotation = Some (GroupKindString ref).

(** A machine that has just been created from the specification of a
    control plane matches it: whatever version and configuration the control
    plane asks for, the reconciler that finds the new machine with the bootstrap
    configuration it was created with does not roll it out again. *)
Theorem new_machine_matches cluster kcp infra bootstrapRef fd name
    (infraConfigs : gmap string Unstructured) (configs : gmap string CK8sConfig) config cname :
  configs !! name = Some config →
  cfg_Spec config = cfg_Spec (bootstrap_config kcp cluster (kcp_CK8sConfigSpec (kcp_Spec kcp)) cname) →
  (∀ o, infraConfigs !! name = Some o → cloned_from kcp o) →
  MachineFilters.MatchesKCPConfiguration infraConfigs configs kcp
    (new_machine kcp cluster infra bootstrapRef fd name) = true.
Proof.
  intros Hc Hs Hi. unfold MachineFilters.MatchesKCPConfiguration.
  rewrite !andb_true_iff. split; [split|].
  - by apply bool_decide_eq_true.
  - unfold MachineFilters.MatchesCK8sBootstrapConfig, MachineFilters.clear_version, m_Name. simpl.
    rewrite Hc, lookup_insert_eq. destruct config. simpl in *. rewrite Hs. by apply bool_decide_eq_true.
  - unfold MachineFilters.MatchesTemplateClonedFrom, m_Name. simpl.
    destruct (infraConfigs !! name) as [o|] eqn:Ho; [|done]. destruct (Hi o eq_refl) as [-> ->].
    by rewrite !bool_decide_true.
Qed.

(** ** Preflight checks *)

Definition excluded (l : list Machine) (m : Machine) : Prop := ∃ e, e ∈ l ∧ m_Name m = m_Name e.

(** The agent of the machine is reported healthy. *)
Definition agent_healthy (m : Machine) : Prop :=
  cIsTrue (m_Conditions m) ControlPlaneConditions.MachineAgentHealthyCondition = true.

(** No machine is being deleted, and all but the excluded ones are healthy. *)
Definition stable c (l : list Machine) : Prop :=
  ∀ n m, cp_Machines c !! n = Some m →
    HasDeletionTimestamp m = false ∧ (excluded l m ∨ agent_healthy m).

Lemma preflightCheckCondition_spec k m ty :
  preflightCheckCondition k m ty = None ↔ cIsTrue (m_Conditions m) ty = true.
Proof.
  unfold preflightCheckCondition, cIsTrue. destruct (cGet _ _) as [cond|]; [|done].
  rewrite bool_decide_eq_true. by destruct (cond_Status cond).
Qed.

Lemma excluded_spec l m :
  existsb (λ e, bool_decide (m_Name m = m_Name e)) l = true ↔ excluded l m.
Proof.
  rewrite existsb_exists. unfold excluded. setoid_rewrite bool_decide_eq_true.
  by setoid_rewrite list_elem_of_In.
Qed.

Lemma HasDeletingMachine_false c :
  HasDeletingMachine c = false ↔ ∀ n m, cp_Machines c !! n = Some m → HasDeletionTimestamp m = false.
Proof.
  unfold HasDeletingMachine. rewrite bool_decide_eq_false, size_filter_pos. split.
  - intros Hn n m Hm. apply not_true_iff_false. intros Hd. apply Hn. eauto.
  - intros Ha (n & m & Hm & Hd). by rewrite (Ha _ _ Hm) in Hd.
Qed.

Lemma check_machine_gwp l m (t : trace) errs (K : trace → list error → unit → Prop) (Rt : trace → list error → outcome → Prop) :
  (∀ errs', (errs' = [] ↔ errs = [] ∧ (excluded l m ∨ agent_healthy m)) → K t errs' tt) →
  gwp (check_machine l m) errs t K Rt.
Proof.
  intros HK. unfold check_machine. destruct (existsb _ l) eqn:Hex.
  { apply excluded_spec in Hex. apply gwp_ret, HK. tauto. }
  assert (¬ excluded l m) as Hnex by (rewrite <- excluded_spec; by rewrite Hex).
  unfold allMachineHealthConditions. simpl. apply gwp_bind.
  pose proof (preflightCheckCondition_spec "machine" m
    ControlPlaneConditions.MachineAgentHealthyCondition) as Hc. fold (agent_healthy m) in Hc.
  destruct (preflightCheckCondition _ _ _) as [e|].
  - apply gwp_modify, gwp_ret, HK. split; [by intros []%app_nil|]. intros [_ [?|Hh]]; [done|]. by apply Hc in Hh.
  - apply gwp_ret, gwp_ret, HK. split; [|by intros []]. intros ->. split; [done|]. right. by apply Hc.
Qed.

Lemma check_machines_gwp l ms (t : trace) (K : trace → list error → unit → Prop) (Rt : trace → list error → outcome → Prop) :
  (∀ t' errs, extends t t' → writes t' = writes t →
     (errs = [] ↔ ∀ n m, ms !! n = Some m → excluded l m ∨ agent_healthy m) → K t' errs tt) →
  gwp (each_machine ms (check_machine l)) [] t K Rt.
Proof.
  intros HK. unfold each_machine. apply gwp_bind. unfold range. apply gwp_call; [done|].
  intros ks t1 Hks Ht1. simpl in Hks, Ht1. cbv beta. subst t1.
  apply (gwp_for_each _ _ (λ d _ t' errs, extends t t' ∧ writes t' = writes t ∧
    (errs = [] ↔ ∀ m, m ∈ d → excluded l m ∨ agent_healthy m))).
  - split; [by apply extends_snoc, extends_refl|]. rewrite written. simpl. rewrite app_nil_r.
    split; [done|]. split; [|done]. by intros _ m []%elem_of_nil.
  - intros d m rest t1 errs _ (He & Hw & Hi). apply check_machine_gwp. intros errs' Herrs.
    split; [done|]. split; [done|]. rewrite Herrs, Hi.
    setoid_rewrite elem_of_app. setoid_rewrite list_elem_of_singleton. naive_solver.
  - intros t1 errs (He & Hw & Hi). apply HK; [done|done|]. rewrite Hi. split.
    + intros Ha n m Hm. apply Ha. apply (lookup_range_elem ms ks m Hks). eauto.
    + intros Ha m Hm. apply (lookup_range_elem ms ks m Hks) in Hm as [n Hm]. by apply (Ha n).
Qed.

Lemma preflight_wp c l t :
  wp (preflightChecks c l) t (λ t' r, extends t t' ∧ writes t' = writes t ∧
    r.2 = None ∧ Requeue r.1 = false ∧ (Result_IsZero r.1 = true ↔ stable c l)).
Proof.
  unfold preflightChecks. apply wp_func_with. case_bool_decide as Hz.
  { apply gwp_return. split; [apply extends_refl|]. do 3 (split; [done|]).
    split; [|done]. intros _ n m Hm. apply map_size_empty_inv in Hz. by rewrite Hz, lookup_empty in Hm. }
  destruct (HasDeletingMachine c) eqn:Hd.
  { apply gwp_return. split; [apply extends_refl|]. do 3 (split; [done|]).
    split; [done|]. intros Hs. apply not_false_iff_true in Hd. destruct Hd. apply HasDeletingMachine_false.
    intros n m Hm. by destruct (Hs n m Hm). }
  pose proof (proj1 (HasDeletingMachine_false c) Hd) as Hdel.
  apply gwp_bind, check_machines_gwp. intros t1 errs He Hw Hi. apply gwp_bind, gwp_get.
  assert (errs = [] ↔ stable c l) as Hst.
  { rewrite Hi. unfold stable. split; [intros Ha n m Hm; split; eauto|]. intros Ha n m Hm. by apply (Ha n). }
  destruct errs as [|e errs].
  - rewrite NewAggregate_nil. apply gwp_ret. simpl. rewrite <- Hst. done.
  - destruct (NewAggregate_not_None e errs) as [err ->]. apply gwp_bind, gwp_call; [done|].
    intros u t2 _ ->. apply gwp_ret. split; [by apply extends_snoc|].
    split; [rewrite written; simpl; by rewrite app_nil_r|]. do 2 (split; [done|]). rewrite <- Hst. done.
Qed.

(** The preflight checks let a scaling operation proceed exactly when
    no machine of the control plane is being deleted and every machine that is
    not excluded reports a healthy agent; otherwise the reconciliation is
    delayed.  They never fail and write nothing. *)
Theorem preflight_spec c l :
  wp (preflightChecks c l) ([] : trace) (λ t r,
    writes t = [] ∧ r.2 = None ∧ (r.1 = Result0 ↔ stable c l)).
Proof.
  eapply wp_mono; [apply preflight_wp|]. simpl. intros t r (_ & Hw & Hn & _ & Hs).
  split; [done|]. split; [done|]. rewrite <- Hs. unfold Result_IsZero. by rewrite bool_decide_eq_true.
Qed.

Lemma proceed_spec (r : outcome) :
  r.2 = None → bool_decide (r.2 ≠ None) || negb (Result_IsZero r.1) = negb (Result_IsZero r.1).
Proof. intros ->. done. Qed.

(** ** Creating machines *)

Lemma generate_wp spec reason what c t (Q : trace → ControlPlane → outcome → Prop) Rt :
  (∀ t' c' r g err, extends t t' → writes t' = writes t ++ g →
     generation (defaulted (cp_Cluster c) (KCP c)) (cp_Cluster c) (spec c)
       (NextFailureDomainForScaleUp c) g err →
     r = match err with Some e => (Result0, Some e) | None => (RequeueNow, None) end → Q t' c' r) →
  gwp (generate spec reason what) c t Q Rt.
Proof.
  intros HQ. unfold generate, on_kcp. apply gwp_bind, gwp_get. cbv zeta. apply gwp_bind, gwp_calls, wp_bind.
  eapply wp_mono; [apply clone_wp|]. intros t1 [k' err] (He & g & Hw & Hg). simpl in Hg |- *.
  destruct err as [e|].
  - apply gwp_bind, gwp_call; [done|]. intros u t2 _ ->. apply gwp_ret.
    eapply HQ; [by apply extends_snoc| |exact Hg|done]. rewrite written. simpl. by rewrite app_nil_r.
  - apply gwp_ret. by eapply HQ.
Qed.

(** What [kcp] asks for when its initial machine is created. *)
Definition creates c (t : trace) (r : outcome) : Prop :=
  ∃ err, generation (defaulted (cp_Cluster c) (KCP c)) (cp_Cluster c)
      (kcp_CK8sConfigSpec (kcp_Spec (KCP c))) (NextFailureDomainForScaleUp c) (writes t) err ∧
    r = match err with Some e => (Result0, Some e) | None => (RequeueNow, None) end.

Lemma initialize_wp c :
  wp (initializeControlPlane c) ([] : trace) (λ t r,
    (creates c t r.2 ∧ ∃ ml,
       Obs (ListObj KMachine (cl_Namespace (cp_Cluster c))
              {[Clusterv1.ClusterNameLabel := cl_Name (cp_Cluster c)]}) (Ok ml) ∈ t ∧
       ∀ n m, FromMachineList ml !! n = Some m → OwnedMachines (kcp_meta (KCP c)) m = false) ∨
    writes t = [] ∧ r.2.2 ≠ None).
Proof.
  unfold initializeControlPlane. apply wp_func_on, gwp_bind, gwp_get. cbv zeta.
  apply gwp_bind, gwp_check, gwp_callp.
  eapply wp_mono; [apply GetMachinesForCluster_trace|]. intros t [ms|e] (He & Hw & Hms).
  2: { simpl. right. done. }
  destruct (Hms ms eq_refl) as (ml & Hin & Hms'). case_bool_decide as Hz.
  { apply gwp_return. simpl. right. done. }
  apply generate_wp. intros t' c' r g err He' Hw' Hg ->. simpl. left. split.
  - exists err. rewrite Hw', Hw. simpl. split; [exact Hg|done].
  - exists ml. split; [by apply He'|]. intros n m Hm. apply not_true_iff_false. intros Ho.
    apply Hz. rewrite Hms'. apply size_filter_pos. exists n, m. split; [done|]. simpl. by rewrite Ho.
Qed.

(** The control plane is initialised at most once: the reconciliation
    creates an initial machine only when an uncached list of the machines of the
    cluster showed none that the control plane owns, and otherwise writes
    nothing and returns an error. *)
Theorem initialize_once c :
  wp (initializeControlPlane c) ([] : trace) (λ t r,
    (creates c t r.2 ∧ ∃ ml,
       Obs (ListObj KMachine (cl_Namespace (cp_Cluster c))
              {[Clusterv1.ClusterNameLabel := cl_Name (cp_Cluster c)]}) (Ok ml) ∈ t ∧
       ∀ n m, FromMachineList ml !! n = Some m → OwnedMachines (kcp_meta (KCP c)) m = false) ∨
    writes t = [] ∧ r.2.2 ≠ None).
Proof. exact (initialize_wp c). Qed.

Lemma scaleUp_wp c t :
  wp (scaleUpControlPlane c) t (λ t' r, extends t t' ∧
    ((∃ g err, stable c [] ∧ writes t' = writes t ++ g ∧
        generation (defaulted (cp_Cluster c) (KCP c)) (cp_Cluster c)
          (kcp_CK8sConfigSpec (kcp_Spec (KCP c))) (NextFailureDomainForScaleUp c) g err ∧
        r.2 = match err with Some e => (Result0, Some e) | None => (RequeueNow, None) end) ∨
     (¬ stable c [] ∧ writes t' = writes t ∧ r.1 = c ∧ r.2.2 = None ∧ r.2.1 ≠ Result0))).
Proof.
  unfold scaleUpControlPlane. apply wp_func_on, gwp_bind, gwp_get, gwp_bind, gwp_callp.
  eapply wp_mono; [apply preflight_wp|]. intros t1 r (He & Hw & Hn & Hrq & Hs). rewrite proceed_spec by done.
  destruct (Result_IsZero r.1) eqn:Hz; simpl.
  - apply generate_wp. intros t' c' r' g err He' Hw' Hg ->. split; [by eapply extends_trans|].
    left. exists g, err. rewrite Hw', Hw. split; [by apply Hs|]. done.
  - apply gwp_return. simpl. split; [done|]. right.
    split; [rewrite <- Hs; done|]. split; [done|]. split; [done|]. split; [done|].
    intros Hr. unfold Result_IsZero in Hz. by rewrite Hr in Hz.
Qed.

(** ** Removing a machine *)

Lemma picked_elem c machines m :
  MachineInFailureDomainWithMostMachines c machines = Ok m → ∃ n, machines !! n = Some m.
Proof.
  unfold MachineInFailureDomainWithMostMachines. destruct (mOldest _) as [m'|] eqn:Ho; [|done].
  intros [= <-]. apply mOldest_elem in Ho as [n Hn]. apply mFilter_Some in Hn as [Hn _]. by exists n.
Qed.

Definition marked_for_deletion (m : Machine) : Prop :=
  HasAnnotationKey Clusterv1.DeleteMachineAnnotation m = true.

(** The machine is a preferred one to remove: an outdated machine that a user has
    marked, or else a marked one, or else an outdated one. *)
Definition preferred c (outdated : Machines) (m : Machine) : Prop :=
  let among (ms : Machines) := ∃ n, ms !! n = Some m in
  let some_marked (ms : Machines) := ∃ n m', ms !! n = Some m' ∧ marked_for_deletion m' in
  (some_marked outdated → among outdated ∧ marked_for_deletion m) ∧
  (¬ some_marked outdated → some_marked (cp_Machines c) →
     among (cp_Machines c) ∧ marked_for_deletion m) ∧
  (¬ some_marked outdated → ¬ some_marked (cp_Machines c) → outdated ≠ ∅ → among outdated) ∧
  (among outdated ∨ among (cp_Machines c)).

Lemma select_preferred c outdated m :
  selectMachineForScaleDown c outdated = Ok m → preferred c outdated m.
Proof.
  unfold selectMachineForScaleDown, preferred, MachineWithDeleteAnnotation, marked_for_deletion.
  intros Hs.
  repeat case_bool_decide; rewrite ?size_filter_pos in *; apply picked_elem in Hs as [n Hn];
    rewrite ?mFilter_Some in Hn.
  - naive_solver.
  - naive_solver.
  - naive_solver.
  - split; [naive_solver|]. split; [naive_solver|]. split; [|naive_solver].
    intros _ _ Hne. destruct (map_choose outdated Hne) as (n' & m' & Hm').
    match goal with H : ¬ 0 < size outdated |- _ => destruct H end.
    destruct (decide (size outdated = 0)) as [Hz|]; [|lia].
    apply map_size_empty_inv in Hz. by rewrite Hz, lookup_empty in Hm'.
Qed.

(** Some trace [t] ends with the deletion of [m], perhaps with an event after it,
    and the node of [m] had left the microcluster before.  Without an error in the
    result [r], the machine is gone. *)
Definition deleted_last (t : trace) (m : Machine) (r : outcome) : Prop :=
  ∃ t1 x t2, t = t1 ++ Obs (Delete KMachine (key_of (m_meta m))) x :: t2 ∧
    writes t1 = [] ∧ writes t2 = [] ∧ (m_NodeRef m ≠ None → removed t1 m) ∧
    (r.2 = None → match x with Ok _ => True | Err e => IsNotFound e = true end).

Lemma delete_machine_wp c m t :
  writes t = [] → (m_NodeRef m ≠ None → removed t m) →
  gwp (delete_machine c m) tt t (λ t _ r, deleted_last t m r) (λ t _ r, deleted_last t m r).
Proof.
  intros Hw Hr. unfold delete_machine. cbv zeta. apply gwp_bind, gwp_call; [done|]. intros x t1 _ ->.
  destruct x as [u|e]; [apply gwp_ret; by exists t, (Ok u), []|].
  destruct (IsNotFound e) eqn:He; [apply gwp_ret; by exists t, (Err e), []|].
  apply gwp_bind, gwp_call; [done|]. intros u t1 _ ->. apply gwp_return.
  exists t, (Err e). eexists. rewrite <- (assoc_L (++)). simpl. split; [done|]. done.
Qed.

(** What scaling down does: it deletes a preferred machine, or it leaves everything
    alone, for lack of stability when it reports no error. *)
Definition scales_down c outdated (t : trace) (r : outcome) : Prop :=
  (∃ m, preferred c outdated m ∧ stable c [m] ∧ deleted_last t m r) ∨
  writes t = [] ∧ r ≠ (RequeueNow, None) ∧ (r.2 = None → ¬ stable c []).

Lemma stable_more c l l' : (∀ m, m ∈ l → m ∈ l') → stable c l → stable c l'.
Proof.
  intros Hl Hs n m Hm. destruct (Hs n m Hm) as [Hd [(e & He & Hn)|Hh]]; (split; [done|]); [|by right].
  left. exists e. auto.
Qed.

Lemma scale_down_wp c outdated :
  wp (scaleDownControlPlane c outdated) ([] : trace) (scales_down c outdated).
Proof.
  unfold scaleDownControlPlane. cbv zeta. apply wp_func, gwp_bind, gwp_check, gwp_ret.
  destruct (selectMachineForScaleDown c outdated) as [m|e] eqn:Hm; [|by right].
  apply select_preferred in Hm. apply gwp_bind, gwp_callp.
  eapply wp_mono; [apply preflight_wp|]. intros t1 r (_ & Hw & Hn & Hrq & Hs). rewrite proceed_spec by done.
  destruct (Result_IsZero r.1) eqn:Hz; simpl.
  2: { apply gwp_return. right. split; [done|]. split; [by intros ->|]. intros _ Hst.
       by apply (stable_more c [] [m]), Hs in Hst; [|intros m' []%elem_of_nil]. }
  apply gwp_bind, gwp_check, gwp_callp.
  eapply wp_mono; [apply wp_trace_reads, GetWorkloadCluster_reads|].
  intros t2 [w|e] [_ Hw2]; [|right; by rewrite Hw2, Hw].
  apply gwp_bind.
  assert (∀ t3, writes t3 = [] → (m_NodeRef m ≠ None → removed t3 m) →
    gwp (delete_machine c m) tt t3 (λ t _ r, scales_down c outdated t r) (λ t _ r, scales_down c outdated t r)) as Hdel.
  { intros t3 Hw3 Hr3. eapply gwp_mono; [by apply delete_machine_wp| |]; simpl; intros t4 s4 r4 Hd;
      left; exists m; (split; [exact Hm|]); (split; [by apply Hs|exact Hd]). }
  apply gwp_when; intros Hr.
  - apply gwp_check_err, gwp_callp. eapply wp_mono; [apply RemoveMachineFromCluster_removed|].
    intros t3 [e|] (_ & Hw3 & Hrem); [right; by rewrite Hw3, Hw2, Hw|].
    apply Hdel; [by rewrite Hw3, Hw2, Hw|auto].
  - apply Hdel; [by rewrite Hw2, Hw|]. by apply bool_decide_eq_false in Hr.
Qed.

End ScaleSpec.
End ScaleSpec.

(** ** Witnesses *)

Module ScaleExamples.
Import CpExamples Scale ScaleSpec.

(** A healthy machine and an outdated one with a node. *)
Definition healthy (n : string) : Machine :=
  set_m_Conditions [mkCond ControlPlaneConditions.MachineAgentHealthyCondition ConditionTrue SeverityNone "" ""]
    (machine_named n).
Definition leaving : Machine :=
  mkMachine (meta_named "old") "c" (Some "v1.29.0") (ref_named "Infra" "old")
    (Some (ref_named "CK8sConfig" "old")) None None None None (Some (ref_named "Node" "n2")) [].
Definition pair : ControlPlane := set_cp_Machines {["a" := healthy "a"; "old" := leaving]} c.
Definition outdated_ms : Machines := {["old" := leaving]}.
Definition full : Store :=
  put KMachine (healthy "a") (put KMachine leaving
    (put KSecret (mkSecret (meta_named "c-token") (Some {["value" := "t"]}) "") empty_store)).
Definition world : handler Store :=
  friendly ["n1"; "n2"] (cluster_named "c") (λ r, k8sd_ok "").

(** The outdated machine is removed, the other one stays. *)
Example scale_down_runs :
  match run (serve world) (scaleDownControlPlane pair outdated_ms) full with
  | Some ((r, None), w) =>
      (Requeue r, look KMachine w (mkKey "ns" "old"), m_Name <$> look KMachine w (mkKey "ns" "a"))
  | _ => (false, None, None)
  end = (true, None, Some "a").
Proof. vm_compute. reflexivity. Qed.

Lemma clone_all_or_nothing_witness :
  wp (cloneConfigsAndGenerateMachine (cluster_named "c") empty_spec (Some "fd") kcp) ([] : trace) (λ t r,
    generation (defaulted (cluster_named "c") kcp) (cluster_named "c") empty_spec (Some "fd") (writes t) r.2).
Proof. exact (clone_all_or_nothing (cluster_named "c") empty_spec (Some "fd") kcp). Defined.

Lemma new_machine_matches_witness :
  MachineFilters.MatchesKCPConfiguration ∅ {["k-1" := config_named "k-2"]} kcp
    (new_machine kcp (cluster_named "c") (ref_named "Infra" "k-3") (ref_named "CK8sConfig" "k-2")
       None "k-1") = true.
Proof.
  apply (new_machine_matches (cluster_named "c") kcp (ref_named "Infra" "k-3")
    (ref_named "CK8sConfig" "k-2") None "k-1" ∅ {["k-1" := config_named "k-2"]} (config_named "k-2") "k-2").
  - vm_compute. reflexivity.
  - reflexivity.
  - intros o Ho. discriminate Ho.
Defined.

Lemma preflight_spec_witness :
  wp (preflightChecks pair [leaving]) ([] : trace) (λ t r,
    writes t = [] ∧ r.2 = None ∧ (r.1 = Result0 ↔ stable pair [leaving])).
Proof. exact (preflight_spec pair [leaving]). Defined.

Lemma initialize_once_witness :
  wp (initializeControlPlane c) ([] : trace) (λ t r,
    (creates c t r.2 ∧ ∃ ml,
       Obs (ListObj KMachine (cl_Namespace (cp_Cluster c))
              {[Clusterv1.ClusterNameLabel := cl_Name (cp_Cluster c)]}) (Ok ml) ∈ t ∧
       ∀ n m, FromMachineList ml !! n = Some m → OwnedMachines (kcp_meta (KCP c)) m = false) ∨
    writes t = [] ∧ r.2.2 ≠ None).
Proof. exact (initialize_once c). Defined.

End ScaleExamples.
