(* ===== verification/AgentConditions.v ===== *)
(** src/pkg/ck8s/workload_cluster.go, from [UpdateAgentConditions] on: the health
    conditions of the machines of a control plane, derived from the nodes of the
    workload cluster, and their aggregation on the control plane.

    The machines are mutated in place: the state of the bodies is the control
    plane with its machines, and a machine is addressed by its key in the
    collection. *)

From S2P Require Import Prelude Objects ApiTypes Effects Libs RefLibs ApiServer RefServer.
From S2P Require Import Token Workload ControlPlane.

Module AgentConditions.
Import ControlPlaneConditions.

(** [sets.String.List()]: the elements in byte order. *)
Definition sorted_list (l : gset string) : list string := foldr insert_sorted [] (elements l).

(** [type aggregateFromMachinesToKCPInput struct], without the control plane. *)
Record aggregateInput := mkAggregateInput {
  machineConditions : list ConditionType;
  kcpErrors : list string;
  ai_condition : ConditionType;
  unhealthyReason : string;
  unknownReason : string;
  note : string;
}.

Section Aggregate.
Context `{!ConditionsLib}.
Implicit Types (c : ControlPlane).

(** The names of the machines with one of the conditions in a given state. *)
Definition machines_with c (types : list ConditionType) (f : Condition → bool) : gset string :=
  list_to_set (m_Name <$> List.filter
    (λ m, existsb (λ t, match cGet (m_Conditions m) t with Some cond => f cond | None => false end) types)
    (map_to_list (cp_Machines c)).*2).

Definition is_false_with (s : ConditionSeverity) (cond : Condition) : bool :=
  bool_decide (cond_Status cond = ConditionFalse) && bool_decide (cond_Severity cond = s).
Definition has_status (s : ConditionStatus) (cond : Condition) : bool :=
  bool_decide (cond_Status cond = s).

Definition set_kcp_conditions (f : Conditions → Conditions) c : ControlPlane :=
  set_KCP (kcp_SetConditions (f (kcp_GetConditions (KCP c))) (KCP c)) c.

Definition joined (s : gset string) : string := GoStrings.Join (sorted_list s) ", ".

(** [func aggregateFromMachinesToKCP] *)
Definition aggregateFromMachinesToKCP (i : aggregateInput) c : ControlPlane :=
  let kcpMachinesWithErrors := machines_with c (machineConditions i) (is_false_with SeverityError) in
  let kcpMachinesWithWarnings := machines_with c (machineConditions i) (is_false_with SeverityWarning) in
  let kcpMachinesWithInfo := machines_with c (machineConditions i) (is_false_with SeverityInfo) in
  let kcpMachinesWithTrue := machines_with c (machineConditions i) (has_status ConditionTrue) in
  let kcpMachinesWithUnknown := machines_with c (machineConditions i) (has_status ConditionUnknown) in
  let errors :=
    if bool_decide (0 < size kcpMachinesWithErrors)
    then kcpErrors i ++ ["Following machines are reporting " +:+ note i +:+ " errors: " +:+
                         joined kcpMachinesWithErrors]
    else kcpErrors i in
  if bool_decide (0 < length errors) then
    set_kcp_conditions (MarkFalse (ai_condition i) (unhealthyReason i) SeverityError
      (GoStrings.Join errors "; ")) c
  else if bool_decide (0 < size kcpMachinesWithWarnings) then
    set_kcp_conditions (MarkFalse (ai_condition i) (unhealthyReason i) SeverityWarning
      ("Following machines are reporting " +:+ note i +:+ " warnings: " +:+
       joined kcpMachinesWithWarnings)) c
  else if bool_decide (0 < size kcpMachinesWithWarnings) then
    set_kcp_conditions (MarkFalse (ai_condition i) (unhealthyReason i) SeverityWarning
      ("Following machines are reporting " +:+ note i +:+ " info: " +:+
       joined kcpMachinesWithInfo)) c
  else if bool_decide (0 < size kcpMachinesWithTrue) then
    set_kcp_conditions (MarkTrue (ai_condition i)) c
  else if bool_decide (0 < size kcpMachinesWithUnknown) then
    set_kcp_conditions (MarkUnknown (ai_condition i) (unknownReason i)
      ("Following machines are reporting unknown " +:+ note i +:+ " status: " +:+
       joined kcpMachinesWithUnknown)) c
  else c.
End Aggregate.

Section Update.
Context `{!ApiErrors, !ConditionsLib}.
Implicit Types (c : ControlPlane) (w : Workload).

(** The machine with this key gets new conditions. *)
Definition mark_machine (n : string) (f : Conditions → Conditions) c : ControlPlane :=
  set_cp_Machines (alter (λ m, set_m_Conditions (f (m_Conditions m)) m) n (cp_Machines c)) c.

Abbreviation body := (go (ControlPlane * list string) unit).

Definition mark (n : string) (f : Conditions → Conditions) : body unit :=
  modify (λ s, (mark_machine n f s.1, s.2)).

(** [for i := range controlPlane.Machines { machine := controlPlane.Machines[i]; ... }] *)
Definition each_key (f : string → Machine → body unit) : body unit :=
  s ← get;
  ks ← range (cp_Machines s.1);
  for_each ks (λ n,
    s ← get;
    match cp_Machines s.1 !! n with
    | Some m => f n m
    | None => mret tt
    end).

(** The machine of a node, and its key: the first in the order of the map. *)
Definition runs_on (machines : Machines) (node : Node) (n : string) : bool :=
  match machines !! n with
  | Some m => match m_NodeRef m with
              | Some r => bool_decide (ref_Name r = n_Name node)
              | None => false
              end
  | None => false
  end.

(** The body of the loop over the control plane nodes. *)
Definition visit_node w (node : Node) : body unit :=
  s ← get;
  ks ← range (cp_Machines s.1);
  match List.find (runs_on (cp_Machines s.1) node) ks with
  | None =>
      if hasProvisioningMachine (cp_Machines s.1) then mret tt
      else modify (λ s, (s.1, s.2 ++ ["Control plane node " +:+ n_Name node +:+
                                      " does not have a corresponding machine"]))
  | Some n =>
      if (match cp_Machines s.1 !! n with Some m => deleting (m_meta m) | None => false end) then
        mark n (MarkFalse MachineAgentHealthyCondition Clusterv1.DeletingReason SeverityInfo "")
      else if nodeHasUnreachableTaint node then
        mark n (MarkUnknown MachineAgentHealthyCondition PodInspectionFailedReason "Node is unreachable")
      else
        r ← call (WGet (wk_Cluster w) KNode (mkKey NamespaceSystem (n_Name node)));
        match r with
        | Err e =>
            if IsNotFound e then
              mark n (MarkFalse MachineAgentHealthyCondition PodMissingReason SeverityError
                        ("Node " +:+ n_Name node +:+ " is missing")) ;;
              return_ tt
            else
              mark n (MarkUnknown MachineAgentHealthyCondition PodInspectionFailedReason
                        "Failed to get node status") ;;
              return_ tt
        | Ok targetnode =>
            for_each (n_Conditions targetnode) (λ cond,
              when (bool_decide (nc_Type cond = "Ready") && bool_decide (nc_Status cond = ConditionTrue))
                (mark n (MarkTrue MachineAgentHealthyCondition)))
        end
  end.

Definition agent_input (errors : list string) : aggregateInput :=
  mkAggregateInput [MachineAgentHealthyCondition] errors ControlPlaneComponentsHealthyCondition
    ControlPlaneComponentsUnhealthyReason ControlPlaneComponentsUnknownReason "control plane".

(** The loop over provisioned machines whose node is not listed. *)
Definition report_missing (nodes : list Node) : body unit :=
  each_key (λ n machine,
    match m_NodeRef machine with
    | None => mret tt
    | Some ref =>
        when (negb (existsb (λ node, bool_decide (ref_Name ref = n_Name node)) nodes))
          (mark n (MarkFalse MachineAgentHealthyCondition PodFailedReason SeverityError "Missing node"))
    end).

(** [func (w *Workload) UpdateAgentConditions] *)
Definition UpdateAgentConditions w c : prog ControlPlane :=
  prog_bind (func_on (
    r ← callp (getControlPlaneNodes w);
    match r with
    | Err _ =>
        each_key (λ n _,
          mark n (MarkUnknown MachineAgentHealthyCondition PodInspectionFailedReason
                    "Failed to get the node which is hosting this component")) ;;
        modify (λ s, (set_kcp_conditions
          (MarkUnknown ControlPlaneComponentsHealthyCondition
             ControlPlaneComponentsInspectionFailedReason
             "Failed to list nodes which are hosting control plane components") s.1, s.2)) ;;
        return_ tt
    | Ok controlPlaneNodes =>
        for_each controlPlaneNodes (visit_node w) ;;
        report_missing controlPlaneNodes ;;
        modify (λ s, (aggregateFromMachinesToKCP (agent_input s.2) s.1, s.2))
    end) (c, [])) (λ sr, Ret sr.1.1).
End Update.

(** ** The aggregation *)

Section AggregateSpec.
Context `{!ConditionsLib, !ConditionsLaws}.
Implicit Types (c : ControlPlane).

(** Some machine has one of the conditions of the group in a given state. *)
Definition some_machine c (i : aggregateInput) (f : Condition → bool) : Prop :=
  ∃ n m t cond, cp_Machines c !! n = Some m ∧ t ∈ machineConditions i ∧
    cGet (m_Conditions m) t = Some cond ∧ f cond = true.

Lemma machines_with_pos c i f :
  bool_decide (0 < size (machines_with c (machineConditions i) f)) = true ↔ some_machine c i f.
Proof.
  rewrite bool_decide_eq_true. unfold machines_with, some_machine.
  set (l := List.filter _ _).
  assert (0 < size (list_to_set (m_Name <$> l) : gset string) ↔ ∃ m, m ∈ l) as ->.
  { split.
    - intros Hs. destruct l as [|m l]; [vm_compute in Hs; lia|]. exists m. by left.
    - intros [m Hm]. destruct (decide (size (list_to_set (m_Name <$> l) : gset string) = 0)) as [Hz|]; [|lia].
      apply size_empty_inv in Hz. destruct (Hz (m_Name m)) as [Hin _].
      assert (m_Name m ∈ (∅ : gset string)) as He.
      { by apply Hin, elem_of_list_to_set, list_elem_of_fmap_2. }
      by apply not_elem_of_empty in He. }
  unfold l. split.
  - intros (m & [Hm Hf]%list_elem_of_In%List.filter_In). apply list_elem_of_In in Hm.
    apply list_elem_of_fmap in Hm as ([n m'] & -> & Hn%elem_of_map_to_list).
    apply existsb_exists in Hf as (t & Ht & Hf). destruct (cGet _ t) as [cond|] eqn:Hc; [|done].
    exists n, m', t, cond. split; [done|]. split; [by apply list_elem_of_In|done].
  - intros (n & m & t & cond & Hn & Ht & Hc & Hf). exists m.
    apply list_elem_of_In, List.filter_In. split.
    + apply list_elem_of_In, list_elem_of_fmap. exists (n, m). split; [done|]. by apply elem_of_map_to_list.
    + apply existsb_exists. exists t. split; [by apply list_elem_of_In|]. by rewrite Hc.
Qed.

Lemma kcp_conditions_set (f : Conditions → Conditions) c :
  kcp_GetConditions (KCP (set_kcp_conditions f c)) = f (kcp_GetConditions (KCP c)).
Proof. by destruct c as [[? ? []]]. Qed.

Lemma machines_set_kcp f c : cp_Machines (set_kcp_conditions f c) = cp_Machines c.
Proof. by destruct c. Qed.

(** The aggregated condition of the control plane.  Errors come first,
    of machines or of the control plane itself, then warnings, then health, then
    the unknown; a control plane none of whose machines has the conditions keeps
    what it had.  Machines and other conditions are left alone.  A failure of
    severity info counts for nothing: it neither makes the condition false nor
    keeps it from being true. *)
Theorem aggregate_spec i c :
  let c' := aggregateFromMachinesToKCP i c in
  let result := cGet (kcp_GetConditions (KCP c')) (ai_condition i) in
  let bad := kcpErrors i ≠ [] ∨ some_machine c i (is_false_with SeverityError) in
  let warned := some_machine c i (is_false_with SeverityWarning) in
  let healthy := some_machine c i (has_status ConditionTrue) in
  let unknown := some_machine c i (has_status ConditionUnknown) in
  cp_Machines c' = cp_Machines c ∧
  (∀ t, t ≠ ai_condition i →
     cGet (kcp_GetConditions (KCP c')) t = cGet (kcp_GetConditions (KCP c)) t) ∧
  (bad → ∃ msg, result = Some (mkCond (ai_condition i) ConditionFalse SeverityError (unhealthyReason i) msg)) ∧
  (¬ bad → warned →
     ∃ msg, result = Some (mkCond (ai_condition i) ConditionFalse SeverityWarning (unhealthyReason i) msg)) ∧
  (¬ bad → ¬ warned → healthy →
     result = Some (mkCond (ai_condition i) ConditionTrue SeverityNone EmptyString EmptyString)) ∧
  (¬ bad → ¬ warned → ¬ healthy → unknown →
     ∃ msg, result = Some (mkCond (ai_condition i) ConditionUnknown SeverityNone (unknownReason i) msg)) ∧
  (¬ bad → ¬ warned → ¬ healthy → ¬ unknown → c' = c).
Proof.
  cbv zeta. unfold aggregateFromMachinesToKCP.
  pose proof (machines_with_pos c i (is_false_with SeverityError)) as HE.
  pose proof (machines_with_pos c i (is_false_with SeverityWarning)) as HW.
  pose proof (machines_with_pos c i (has_status ConditionTrue)) as HT.
  pose proof (machines_with_pos c i (has_status ConditionUnknown)) as HU.
  set (errors := if bool_decide _ then kcpErrors i ++ _ else kcpErrors i).
  assert (bool_decide (0 < length errors) = true ↔
    kcpErrors i ≠ [] ∨ some_machine c i (is_false_with SeverityError)) as HB.
  { rewrite bool_decide_eq_true, <- HE. unfold errors. destruct (bool_decide (0 < size _)).
    - rewrite length_app. simpl. split; [by right|lia].
    - destruct (kcpErrors i); simpl; [split; [lia|naive_solver]|split; [by left|lia]]. }
  clearbody errors.
  destruct (bool_decide (0 < length errors)); [|destruct (bool_decide (0 < size (machines_with c _ (is_false_with SeverityWarning))));
    [|destruct (bool_decide (0 < size (machines_with c _ (has_status ConditionTrue))));
      [|destruct (bool_decide (0 < size (machines_with c _ (has_status ConditionUnknown))))]]];
    rewrite ?kcp_conditions_set, ?machines_set_kcp;
    (split; [done|]); (split; [intros t Ht; rewrite ?cGet_MarkFalse_ne, ?cGet_MarkTrue_ne, ?cGet_MarkUnknown_ne by done; done|]);
    rewrite ?cGet_MarkFalse, ?cGet_MarkTrue, ?cGet_MarkUnknown; naive_solver.
Qed.
End AggregateSpec.

(** ** What an update changes *)

(** Equal but for the condition of one type. *)
Definition same_conditions `{!ConditionsLib} (ty : ConditionType) (cs cs' : Conditions) : Prop :=
  ∀ t, t ≠ ty → cGet cs' t = cGet cs t.

(** Machines equal but for the health of the agent. *)
Definition same_machine `{!ConditionsLib} (m m' : Machine) : Prop :=
  m' = set_m_Conditions (m_Conditions m') m ∧
  same_conditions MachineAgentHealthyCondition (m_Conditions m) (m_Conditions m').

(** Control planes equal but for the health of the agents and of the components. *)
Record same_but_health `{!ConditionsLib} (c c' : ControlPlane) : Prop := {
  sb_meta : kcp_meta (KCP c') = kcp_meta (KCP c);
  sb_spec : kcp_Spec (KCP c') = kcp_Spec (KCP c);
  sb_conditions :
    same_conditions ControlPlaneComponentsHealthyCondition
      (kcp_GetConditions (KCP c)) (kcp_GetConditions (KCP c'));
  sb_helpers : machinesPatchHelpers c' = machinesPatchHelpers c;
  sb_machines n :
    option_Forall2 same_machine (cp_Machines c !! n) (cp_Machines c' !! n);
}.

Section UpdateSpec.
Context `{!ApiErrors, !ConditionsLib, !ConditionsLaws}.
Implicit Types (c : ControlPlane) (w : Workload).

#[export] Instance same_conditions_preorder ty : PreOrder (same_conditions ty).
Proof. split; [by intros cs t|]. intros c1 c2 c3 He1 He2 t Ht. by rewrite He2, He1. Qed.

#[export] Instance same_machine_preorder : PreOrder same_machine.
Proof.
  split.
  - intros m. split; [by destruct m|done].
  - intros m1 m2 m3 [E2 S2] [E3 S3]. split; [|by etrans].
    rewrite E3, E2. by destruct m1.
Qed.

#[export] Instance same_but_health_preorder : PreOrder same_but_health.
Proof.
  split; [by intros c; split|]. intros c1 c2 c3 [A1 A2 A3 A4 A5] [B1 B2 B3 B4 B5].
  split; [congruence|congruence|by etrans|congruence|].
  intros n. etrans; [apply A5|apply B5].
Qed.

(** The marks that the update uses. *)
Definition health_mark (f : Conditions → Conditions) : Prop :=
  ∀ cs, same_conditions MachineAgentHealthyCondition cs (f cs).

Lemma mark_machine_same n f c : health_mark f → same_but_health c (mark_machine n f c).
Proof.
  intros Hf. destruct c as [k cl ms h t cf inf]. split; try done. simpl. intros n'.
  destruct (decide (n = n')) as [<-|Hne].
  - rewrite lookup_alter_eq. destruct (ms !! n) as [m|]; simpl; constructor.
    split; [by destruct m|]. destruct m. apply Hf.
  - by rewrite lookup_alter_ne.
Qed.

Lemma health_marks :
  (∀ r sev msg, health_mark (MarkFalse MachineAgentHealthyCondition r sev msg)) ∧
  (∀ r msg, health_mark (MarkUnknown MachineAgentHealthyCondition r msg)) ∧
  health_mark (MarkTrue MachineAgentHealthyCondition).
Proof.
  split; [|split]; intros * cs ty Hty;
    [by apply cGet_MarkFalse_ne|by apply cGet_MarkUnknown_ne|by apply cGet_MarkTrue_ne].
Qed.

Lemma set_kcp_same f c :
  (∀ cs, same_conditions ControlPlaneComponentsHealthyCondition cs (f cs)) →
  same_but_health c (set_kcp_conditions f c).
Proof.
  intros Hf. split; by destruct c as [[? ? []]].
Qed.

(** The errors of the aggregation, whatever they are. *)
Ltac gen_errors :=
  cbn [kcpErrors agent_input];
  match goal with
  | |- context [if ?b then ?l ++ [?x] else ?l] => generalize (if b then l ++ [x] else l); intros ?
  end.

Lemma aggregate_same errors c : same_but_health c (aggregateFromMachinesToKCP (agent_input errors) c).
Proof.
  assert (∀ f, (∀ cs, same_conditions ControlPlaneComponentsHealthyCondition cs (f cs)) →
    same_but_health c (set_kcp_conditions f c)) as Hset by (intros; by apply set_kcp_same).
  unfold aggregateFromMachinesToKCP. cbv zeta.
  gen_errors.
  repeat (case_match; [apply Hset; intros cs ty Hty;
    first [by apply cGet_MarkFalse_ne|by apply cGet_MarkTrue_ne|by apply cGet_MarkUnknown_ne]|]).
  reflexivity.
Qed.

Section Loops.
Context (c0 : ControlPlane).
Abbreviation inv := (λ (_ : trace) (s : ControlPlane * list string), same_but_health c0 s.1).

Lemma mark_inv n f t s :
  health_mark f → same_but_health c0 s.1 →
  gwp (mark n f) s t (λ t s _, inv t s) (λ t s (_ : unit), inv t s).
Proof. intros Hf Hs. apply gwp_modify. etrans; [exact Hs|]. by apply mark_machine_same. Qed.

Lemma each_key_inv f t s :
  (∀ n m t s, same_but_health c0 s.1 → gwp (f n m) s t (λ t s _, inv t s) (λ t s _, inv t s)) →
  same_but_health c0 s.1 →
  gwp (each_key f) s t (λ t s _, inv t s) (λ t s _, inv t s).
Proof.
  intros Hf Hs. unfold each_key, range. apply gwp_bind, gwp_get, gwp_bind, gwp_call; [done|].
  intros ks t1 _ _. cbn beta. apply (gwp_for_each_inv _ _ inv); [done| |done].
  intros n t2 s2 _ Hs2. apply gwp_bind, gwp_get. cbn beta.
  destruct (cp_Machines s2.1 !! n) as [m|]; [by apply Hf|by apply gwp_ret].
Qed.

Lemma visit_node_inv w node t s :
  same_but_health c0 s.1 →
  gwp (visit_node w node) s t (λ t s _, inv t s) (λ t s _, inv t s).
Proof.
  intros Hs. destruct health_marks as (HF & HU & HT).
  unfold visit_node, range. apply gwp_bind, gwp_get, gwp_bind, gwp_call; [done|].
  intros ks t1 _ _. cbn beta. destruct (List.find _ ks) as [n|].
  2: { destruct (hasProvisioningMachine _); [by apply gwp_ret|by apply gwp_modify]. }
  destruct (match cp_Machines s.1 !! n with Some m => _ | None => _ end); [by apply mark_inv|].
  destruct (nodeHasUnreachableTaint node); [by apply mark_inv|].
  apply gwp_bind, gwp_call; [done|]. intros [target|e] t2 _ _; cbn beta.
  - apply (gwp_for_each_inv _ _ inv); [done| |done]. intros cond t3 s3 _ Hs3.
    apply gwp_when; intros _; [by apply mark_inv|done].
  - destruct (IsNotFound e); apply gwp_bind;
      (eapply gwp_mono; [by apply mark_inv| |done]; intros; by apply gwp_return).
Qed.
End Loops.

Lemma UpdateAgentConditions_same w c t :
  wp (UpdateAgentConditions w c) t (λ _ c', same_but_health c c').
Proof.
  destruct health_marks as (HF & HU & HT). unfold UpdateAgentConditions. apply wp_bind, wp_func_on.
  apply gwp_bind, gwp_callp. apply getControlPlaneNodes_wp.
  - intros nodes. apply gwp_bind.
    eapply (gwp_for_each_inv _ _ (λ _ s, same_but_health c s.1)); [done| |].
    { intros node t0 s _ Hs. by apply visit_node_inv. }
    intros t0 s Hs. apply gwp_bind. unfold report_missing.
    eapply gwp_mono; [apply (each_key_inv c)| |done].
    + intros n m t1 s1 Hs1. destruct (m_NodeRef m); [|by apply gwp_ret].
      apply gwp_when; intros _; [by apply mark_inv|done].
    + done.
    + intros t1 s1 u Hs1. apply gwp_modify.
      change (same_but_health c (aggregateFromMachinesToKCP (agent_input s1.2) s1.1)).
      etrans; [exact Hs1|]. apply aggregate_same.
  - intros e. apply gwp_bind. eapply gwp_mono; [apply (each_key_inv c)| |done].
    + intros n m t1 s1 Hs1. by apply mark_inv.
    + done.
    + intros t1 s1 u Hs1. apply gwp_bind, gwp_modify, gwp_return. cbn.
      etrans; [exact Hs1|]. apply set_kcp_same. intros cs ty Hty. by apply cGet_MarkUnknown_ne.
Qed.

(** Updating the agent conditions never panics, and changes nothing
    but the agent health of machines and the components health of the control
    plane: the machines stay the same machines, with the same references,
    versions and other conditions, so that patching them afterwards writes
    their health only. *)
Theorem UpdateAgentConditions_frame w c :
  wp (UpdateAgentConditions w c) ([] : trace) (λ _ c', same_but_health c c').
Proof. apply UpdateAgentConditions_same. Qed.

(** ** Machines without a node *)

(** What is reported on a machine whose node is not listed. *)
Definition missing_node : Condition :=
  mkCond MachineAgentHealthyCondition ConditionFalse SeverityError PodFailedReason "Missing node".

Definition lost (nodes : list Node) (m : Machine) : Prop :=
  ∃ ref, m_NodeRef m = Some ref ∧ ∀ node, node ∈ nodes → ref_Name ref ≠ n_Name node.

Definition reported c (n : string) : Prop :=
  ∃ m, cp_Machines c !! n = Some m ∧ cGet (m_Conditions m) MachineAgentHealthyCondition = Some missing_node.

Lemma lookup_mark n n' f c :
  cp_Machines (mark_machine n f c) !! n' =
  if decide (n = n') then (λ m, set_m_Conditions (f (m_Conditions m)) m) <$> cp_Machines c !! n'
  else cp_Machines c !! n'.
Proof.
  destruct c as [k cl ms h t cf inf]; simpl. case_decide as Hn.
  - subst. by rewrite lookup_alter_eq.
  - by rewrite lookup_alter_ne.
Qed.

Lemma same_lost c c' nodes n m :
  same_but_health c c' → cp_Machines c !! n = Some m → lost nodes m →
  ∃ m', cp_Machines c' !! n = Some m' ∧ lost nodes m'.
Proof.
  intros Hs Hm (ref & Href & Hl). pose proof (sb_machines _ _ Hs n) as Hn. rewrite Hm in Hn.
  inversion Hn as [? m' [Heq _]|]; subst. exists m'. split; [done|]. exists ref.
  split; [|done]. rewrite Heq. by destruct m.
Qed.

Lemma report_missing_wp nodes (s : ControlPlane * list string) (t : trace) :
  gwp (report_missing nodes) s t
    (λ t' s' _, (∃ o, t' = t ++ [o]) ∧ ∀ n m, cp_Machines s.1 !! n = Some m → lost nodes m → reported s'.1 n)
    (λ _ _ _, False).
Proof.
  unfold report_missing, each_key, range. apply gwp_bind, gwp_get, gwp_bind, gwp_call; [done|].
  intros ks t1 Hks Ht1. simpl in Hks, Ht1. cbn beta.
  eapply (gwp_for_each _ _ (λ d _ t2 s', t2 = t1 ∧ same_but_health s.1 s'.1 ∧
    ∀ n m, n ∈ d → cp_Machines s.1 !! n = Some m → lost nodes m → reported s'.1 n)).
  - split; [done|]. split; [done|]. by intros n m []%elem_of_nil.
  - intros d n rest t2 s2 _ (-> & Hs2 & Hd). apply gwp_bind, gwp_get. cbn beta.
    destruct (cp_Machines s2.1 !! n) as [m2|] eqn:Hm2.
    2: { apply gwp_ret. split; [done|]. split; [done|]. intros n' m' [Hn'| ->%list_elem_of_singleton]%elem_of_app Hm' Hl'; [eauto|].
         destruct (same_lost _ _ _ _ _ Hs2 Hm' Hl') as (m3 & Hm3 & _). congruence. }
    assert (∀ m, cp_Machines s.1 !! n = Some m → lost nodes m → lost nodes m2) as Hlost.
    { intros m Hm Hl. destruct (same_lost _ _ _ _ _ Hs2 Hm Hl) as (m3 & Hm3 & Hl3). congruence. }
    destruct (m_NodeRef m2) as [ref|] eqn:Href.
    2: { apply gwp_ret. split; [done|]. split; [done|]. intros n' m' [Hn'| ->%list_elem_of_singleton]%elem_of_app Hm' Hl'; [eauto|].
         destruct (Hlost _ Hm' Hl') as (ref & Hr & _). congruence. }
    apply gwp_when; intros Hb.
    + apply gwp_modify. split; [done|]. split.
      { etrans; [exact Hs2|]. apply mark_machine_same. apply health_marks. }
      intros n' m' Hn' Hm' Hl'. unfold reported. cbn [fst]. rewrite lookup_mark. case_decide as Hne.
      * subst n'. rewrite Hm2. simpl. eexists. split; [done|]. destruct m2. simpl. apply cGet_MarkFalse.
      * apply elem_of_app in Hn' as [Hn'|Hn'%list_elem_of_singleton]; [|congruence].
        by apply (Hd n' m').
    + split; [done|]. split; [done|]. intros n' m' [Hn'| ->%list_elem_of_singleton]%elem_of_app Hm' Hl'; [eauto|].
      destruct (Hlost _ Hm' Hl') as (ref' & Hr & Hnone). rewrite Href in Hr. injection Hr as <-.
      apply negb_false_iff, existsb_exists in Hb as (node & Hin%list_elem_of_In & Heq%bool_decide_eq_true).
      by apply Hnone in Hin.
  - intros t2 s2 (-> & _ & Hd). split; [by eexists|]. intros n m Hm. apply (Hd n m); [|done].
    rewrite Hks, list_elem_of_fmap. exists (n, m). split; [done|]. by apply elem_of_map_to_list.
Qed.

Lemma aggregate_error errors c n :
  reported c n →
  ∃ msg, cGet (kcp_GetConditions (KCP (aggregateFromMachinesToKCP (agent_input errors) c)))
    ControlPlaneComponentsHealthyCondition =
    Some (mkCond ControlPlaneComponentsHealthyCondition ConditionFalse SeverityError
            ControlPlaneComponentsUnhealthyReason msg).
Proof.
  intros (m & Hm & Hc). unfold aggregateFromMachinesToKCP. cbv zeta.
  assert (some_machine c (agent_input errors) (is_false_with SeverityError)) as Hs.
  { exists n, m, MachineAgentHealthyCondition, missing_node. split; [done|]. split; [by left|]. by split. }
  apply machines_with_pos in Hs. rewrite Hs.
  rewrite bool_decide_true by (rewrite length_app; simpl; lia).
  rewrite kcp_conditions_set. cbn [ai_condition unhealthyReason agent_input].
  rewrite cGet_MarkFalse. eauto.
Qed.

Lemma reported_aggregate errors c n :
  reported c n → reported (aggregateFromMachinesToKCP (agent_input errors) c) n.
Proof.
  assert (cp_Machines (aggregateFromMachinesToKCP (agent_input errors) c) = cp_Machines c) as Hm.
  { unfold aggregateFromMachinesToKCP. cbv zeta.
    gen_errors. repeat (case_match; [by rewrite machines_set_kcp|]). done. }
  unfold reported. by rewrite Hm.
Qed.

(** The trace after the listing: no lookup of a node has failed. *)
Definition listed_ok w (nodes : list Node) (t : trace) : Prop :=
  ∃ rest, t = Obs (WList (wk_Cluster w) KNode {[labelNodeRoleControlPlane := ""]}) (Ok nodes) :: rest.
Definition lookup_failed w (t : trace) : Prop :=
  ∃ key e, Obs (WGet (wk_Cluster w) KNode key) (Err e) ∈ t.

Lemma listed_ok_snoc w nodes t o : listed_ok w nodes t → listed_ok w nodes (t ++ [o]).
Proof. intros [rest ->]. by exists (rest ++ [o]). Qed.

Lemma visit_node_wp c0 w nodes node s (t : trace) :
  same_but_health c0 s.1 → listed_ok w nodes t →
  gwp (visit_node w node) s t
    (λ t s _, same_but_health c0 s.1 ∧ listed_ok w nodes t)
    (λ t _ _, listed_ok w nodes t ∧ lookup_failed w t).
Proof.
  intros Hs Hl. destruct health_marks as (HF & HU & HT).
  unfold visit_node, range. apply gwp_bind, gwp_get, gwp_bind, gwp_call; [done|].
  intros ks t1 _ ->. cbn beta. apply (listed_ok_snoc _ _ _ (Obs (RangeKeys (map_to_list (cp_Machines s.1)).*1) ks)) in Hl.
  assert (∀ n f t s, health_mark f → same_but_health c0 s.1 → listed_ok w nodes t →
    gwp (mark n f) s t (λ t s _, same_but_health c0 s.1 ∧ listed_ok w nodes t)
      (λ t _ (_ : unit), listed_ok w nodes t ∧ lookup_failed w t)) as Hmark.
  { intros n f t' s' Hf Hs' Hl'. apply gwp_modify. split; [|done].
    etrans; [exact Hs'|]. by apply mark_machine_same. }
  destruct (List.find _ ks) as [n|].
  2: { destruct (hasProvisioningMachine _); [by apply gwp_ret|by apply gwp_modify]. }
  destruct (match cp_Machines s.1 !! n with Some m => _ | None => _ end); [by apply Hmark|].
  destruct (nodeHasUnreachableTaint node); [by apply Hmark|].
  apply gwp_bind, gwp_call; [done|]. intros [target|e] t2 _ ->; cbn beta.
  - apply (gwp_for_each_inv _ _ (λ t s, same_but_health c0 s.1 ∧ listed_ok w nodes t));
      [split; [done|by apply listed_ok_snoc]| |done].
    intros cond t3 s3 _ [Hs3 Hl3]. apply gwp_when; intros _; [by apply Hmark|done].
  - destruct (IsNotFound e); apply gwp_bind, gwp_modify, gwp_return;
      (split; [by apply listed_ok_snoc|]); eexists _, e; apply elem_of_app; right; by left.
Qed.

(** A provisioned machine whose node is gone is reported.  When the
    nodes of the control plane could be listed, and no lookup of one of them
    failed, every machine with a node reference to a node that is not listed
    ends with a false agent health of severity error, and so does the health of
    the components of the control plane. *)
Theorem missing_node_reported w c :
  wp (UpdateAgentConditions w c) ([] : trace) (λ t c', ∀ nodes,
    listed_ok w nodes t → ¬ lookup_failed w t →
    ∀ n m, cp_Machines c !! n = Some m → lost nodes m →
    reported c' n ∧
    ∃ msg, cGet (kcp_GetConditions (KCP c')) ControlPlaneComponentsHealthyCondition =
      Some (mkCond ControlPlaneComponentsHealthyCondition ConditionFalse SeverityError
              ControlPlaneComponentsUnhealthyReason msg)).
Proof.
  unfold UpdateAgentConditions. apply wp_bind, wp_func_on, gwp_bind, gwp_callp.
  apply getControlPlaneNodes_wp.
  - intros nodes0. cbn [app].
    assert (∀ nodes t, listed_ok w nodes0 t → listed_ok w nodes t → nodes = nodes0) as Huniq.
    { intros nodes t [r1 ->] [r2 Heq]. apply (f_equal (λ l, head l ≫= nodes_of)) in Heq.
      by injection Heq. }
    apply gwp_bind.
    eapply (gwp_for_each_inv _ _ (λ t s, same_but_health c s.1 ∧ listed_ok w nodes0 t)).
    { split; [done|]. by eexists. }
    { intros node t s _ [Hs Hl]. eapply gwp_mono; [by apply visit_node_wp|done|].
      intros t' s' r [_ Hf] nodes _ Hn. done. }
    intros t s [Hs Hl]. apply gwp_bind.
    eapply gwp_mono; [apply report_missing_wp| |done].
    intros t1 s1 u [[o ->] Hr]. apply gwp_modify. intros nodes Hl1 Hnf n m Hm Hlost.
    apply Huniq in Hl1 as ->; [|by apply listed_ok_snoc].
    destruct (same_lost _ _ _ _ _ Hs Hm Hlost) as (m' & Hm' & Hlost').
    specialize (Hr n m' Hm' Hlost'). cbn [fst].
    split; [by apply reported_aggregate|by eapply aggregate_error].
  - intros e. cbn [app].
    assert (∀ nodes (t : trace), head t = Some (Obs (WList (wk_Cluster w) KNode
      {[labelNodeRoleControlPlane := EmptyString]}) (Err e)) → ¬ listed_ok w nodes t) as Hno.
    { intros nodes t Ht [rest ->].
      apply (f_equal (λ o, o ≫= nodes_of)) in Ht. discriminate Ht. }
    unfold each_key, range. apply gwp_bind, gwp_bind, gwp_get, gwp_bind, gwp_call; [done|].
    intros ks t1 _ ->. cbn beta.
    eapply (gwp_for_each_inv _ _ (λ t _, head t = Some _)); [done| |].
    + intros n t2 s2 _ Ht2. apply gwp_bind, gwp_get. cbn beta.
      destruct (cp_Machines s2.1 !! n); [by apply gwp_modify|by apply gwp_ret].
    + intros t2 s2 Ht2. apply gwp_bind, gwp_modify, gwp_return. intros nodes Hl.
      by apply (Hno _ _ Ht2) in Hl.
Qed.
End UpdateSpec.

(** ** Witnesses: a control plane with a machine whose node is gone *)

Module Examples.
Definition lost_machine : Machine := ex_noded "a".
Definition c : ControlPlane :=
  mkCP CpExamples.kcp (cluster_named "c") {["a" := lost_machine]} ∅ 0 ∅ ∅.
Definition info_machine : Machine :=
  set_m_Conditions [mkCond MachineAgentHealthyCondition ConditionFalse SeverityInfo "Deleting" ""]
    (machine_named "b").
Definition healthy_machine : Machine :=
  set_m_Conditions [mkCond MachineAgentHealthyCondition ConditionTrue SeverityNone "" ""]
    (machine_named "h").
Definition c_info : ControlPlane :=
  mkCP CpExamples.kcp (cluster_named "c") {["b" := info_machine; "h" := healthy_machine]} ∅ 0 ∅ ∅.
Definition world : handler Store := friendly [] (cluster_named "c") (λ r, k8sd_ok "").
End Examples.
Import Examples.

(** The condition of the components after the aggregation. *)
Definition components c : option Condition :=
  cGet (kcp_GetConditions (KCP c)) ControlPlaneComponentsHealthyCondition.

(** One machine fails with severity info, and the aggregate is true. *)
Lemma aggregate_spec_witness :
  components (aggregateFromMachinesToKCP (agent_input []) c_info) =
    Some (mkCond ControlPlaneComponentsHealthyCondition ConditionTrue SeverityNone "" "") ∧
  let i := agent_input [] in
  let c' := aggregateFromMachinesToKCP i c_info in
  let result := cGet (kcp_GetConditions (KCP c')) (ai_condition i) in
  let bad := kcpErrors i ≠ [] ∨ some_machine c_info i (is_false_with SeverityError) in
  let warned := some_machine c_info i (is_false_with SeverityWarning) in
  let healthy := some_machine c_info i (has_status ConditionTrue) in
  let unknown := some_machine c_info i (has_status ConditionUnknown) in
  cp_Machines c' = cp_Machines c_info ∧
  (∀ t, t ≠ ai_condition i →
     cGet (kcp_GetConditions (KCP c')) t = cGet (kcp_GetConditions (KCP c_info)) t) ∧
  (bad → ∃ msg, result = Some (mkCond (ai_condition i) ConditionFalse SeverityError (unhealthyReason i) msg)) ∧
  (¬ bad → warned →
     ∃ msg, result = Some (mkCond (ai_condition i) ConditionFalse SeverityWarning (unhealthyReason i) msg)) ∧
  (¬ bad → ¬ warned → healthy →
     result = Some (mkCond (ai_condition i) ConditionTrue SeverityNone EmptyString EmptyString)) ∧
  (¬ bad → ¬ warned → ¬ healthy → unknown →
     ∃ msg, result = Some (mkCond (ai_condition i) ConditionUnknown SeverityNone (unknownReason i) msg)) ∧
  (¬ bad → ¬ warned → ¬ healthy → ¬ unknown → c' = c_info).
Proof.
  split; [vm_compute; reflexivity|].
  pose proof (aggregate_spec (agent_input []) c_info) as Ha. exact Ha.
Defined.

Lemma UpdateAgentConditions_frame_witness :
  wp (UpdateAgentConditions ex_workload c) ([] : trace) (λ _ c', same_but_health c c').
Proof. pose proof (UpdateAgentConditions_frame ex_workload c) as Hf. exact Hf. Defined.

Lemma missing_node_reported_witness :
  (λ r : ControlPlane * Store,
     (λ m, cGet (m_Conditions m) MachineAgentHealthyCondition) <$> cp_Machines r.1 !! "a")
    <$> run (serve world) (UpdateAgentConditions ex_workload c) empty_store
    = Some (Some (Some missing_node)) ∧
  wp (UpdateAgentConditions ex_workload c) ([] : trace) (λ t c', ∀ nodes,
    listed_ok ex_workload nodes t → ¬ lookup_failed ex_workload t →
    ∀ n m, cp_Machines c !! n = Some m → lost nodes m →
    reported c' n ∧
    ∃ msg, cGet (kcp_GetConditions (KCP c')) ControlPlaneComponentsHealthyCondition =
      Some (mkCond ControlPlaneComponentsHealthyCondition ConditionFalse SeverityError
              ControlPlaneComponentsUnhealthyReason msg)).
Proof.
  split; [vm_compute; reflexivity|].
  pose proof (missing_node_reported ex_workload c) as Hm. exact Hm.
Defined.
End AgentConditions.
