(* ===== verification/Remediation.v ===== *)
(** src/controlplane/controllers/remediation.go: replacing unhealthy control plane
    machines, and the data that counts the retries. *)

From S2P Require Import Prelude Objects ApiTypes Effects Libs Duration RefLibs ApiServer RefServer.
From S2P Require Import Json JsonStruct Token Workload ControlPlane Scale AgentConditions.

(** ** Remediation data *)

(** [type RemediationData struct]; a zero time is [None]. *)
Record RemediationData := mkRemediationData {
  rd_Machine : string;
  rd_Timestamp : option Z;
  rd_RetryCount : Z;
}.

Definition maxDuration (x y : Z) : Z := if (x <? y)%Z then y else x.

Section Data.
Context `{!MetaTimeLib}.

(** The JSON tags of the struct; marshalling cannot fail. *)
Definition json_RemediationData (r : RemediationData) : Json.value :=
  Json.JObject [
    ("machine", Json.JString (rd_Machine r));
    ("timestamp", match rd_Timestamp r with
                  | Some t => Json.JString (MarshalTime t)
                  | None => Json.JNull
                  end);
    ("retryCount", Json.JNumber (pretty (rd_RetryCount r)))].

(** [func (r *RemediationData) Marshal] *)
Definition Marshal (r : RemediationData) : string := Json.print (json_RemediationData r).

(** [UnmarshalJSON] of the timestamp: [null] is the zero time. *)
Definition to_time (v : Json.value) : option (option Z) :=
  match v with
  | Json.JNull => Some None
  | Json.JString s => Some <$> UnmarshalTime s
  | _ => None
  end.

(** One member of the object: a field of another type is an error. *)
Definition set_field (r : RemediationData) (kv : string * Json.value) : option RemediationData :=
  match Json.select ["machine"; "timestamp"; "retryCount"] kv.1 with
  | Some "machine" =>
      (λ s, mkRemediationData s (rd_Timestamp r) (rd_RetryCount r)) <$> JsonStruct.to_string (rd_Machine r) kv.2
  | Some "timestamp" => (λ t, mkRemediationData (rd_Machine r) t (rd_RetryCount r)) <$> to_time kv.2
  | Some _ =>
      (λ n, mkRemediationData (rd_Machine r) (rd_Timestamp r) n) <$> JsonStruct.to_int (rd_RetryCount r) kv.2
  | None => Some r
  end.

Fixpoint set_fields (r : RemediationData) (l : list (string * Json.value)) : option RemediationData :=
  match l with
  | [] => Some r
  | kv :: l => r ← set_field r kv; set_fields r l
  end.

Definition zero_data : RemediationData := mkRemediationData "" None 0.

(** [json.Unmarshal(value, ret)] *)
Definition unmarshal_data (value : string) : option RemediationData :=
  match Json.parse_text value with
  | Some (Json.JObject l) => set_fields zero_data l
  | Some Json.JNull => Some zero_data
  | _ => None
  end.

Definition RemediationDataFromAnnotation (value : string) : gores RemediationData :=
  match unmarshal_data value with
  | Some r => Ok r
  | None => Err (wrapf ("failed to unmarshal value " +:+ value +:+ " for " +:+
                        Clusterv1.RemediationInProgressReason +:+ " annotation")
                   (ErrNew "json: cannot unmarshal"))
  end.

(** [func (r *RemediationData) ToStatus] *)
Definition ToStatus (r : RemediationData) : LastRemediationStatus :=
  mkLastRemediationStatus (rd_Machine r) (rd_Timestamp r) (wrap32 (rd_RetryCount r)).
End Data.

Module Remediation.
Section Remediation.
Context `{!ApiErrors, !CollectionsLib, !MetaLib, !ConditionsLib, !K8sdApi, !MetaTimeLib}.
Implicit Types (c : ControlPlane) (machine : Machine).

(** The oldest unhealthy machine without a node, or the oldest unhealthy machine. *)
Definition getMachineToBeRemediated (unhealthyMachines : Machines) : option Machine :=
  match mOldest (mFilter (λ m, negb (HasNode m)) unhealthyMachines) with
  | Some m => Some m
  | None => mOldest unhealthyMachines
  end.

(** [conditions.MarkFalse(m, MachineOwnerRemediatedCondition, WaitingForRemediation, Warning, msg)] *)
Definition waiting (msg : string) : Conditions → Conditions :=
  MarkFalse Clusterv1.MachineOwnerRemediatedCondition Clusterv1.WaitingForRemediationReason
    SeverityWarning msg.

(** ** Retry limits *)

Definition strategy_MinHealthyPeriod c : Z :=
  match kcp_RemediationStrategy (kcp_Spec (KCP c)) with
  | Some s => default DefaultMinHealthyPeriod (MinHealthyPeriod s)
  | None => DefaultMinHealthyPeriod
  end.
Definition strategy_RetryPeriod c : Z :=
  match kcp_RemediationStrategy (kcp_Spec (KCP c)) with Some s => RetryPeriod s | None => 0%Z end.
Definition strategy_MaxRetry c : option Z :=
  kcp_RemediationStrategy (kcp_Spec (KCP c)) ≫= MaxRetry.

(** The last remediation's data, from the machine's annotation. *)
Definition last_remediation machine : gores (option RemediationData) :=
  match ann (m_meta machine) RemediationForAnnotation with
  | None => Ok None
  | Some value =>
      match RemediationDataFromAnnotation value with
      | Ok l => Ok (Some l)
      | Err e => Err e
      end
  end.

(** The time of the last remediation. *)
Definition lastRemediationTime c (last : RemediationData) (reconciliationTime : Z) : Z :=
  match rd_Timestamp last with
  | Some t => t
  | None =>
      reconciliationTime +
      wrap64 (-2 * maxDuration (strategy_MinHealthyPeriod c) (strategy_RetryPeriod c))
  end%Z.

(** The data of the new remediation, whether it may start, and what becomes of the
    machine's conditions. *)
Definition checkRetryLimits machine c (reconciliationTime : Z)
    : gores (RemediationData * bool * (Conditions → Conditions)) :=
  match last_remediation machine with
  | Err e => Err e
  | Ok None => Ok (mkRemediationData (m_Name machine) (Some reconciliationTime) 0, true, id)
  | Ok (Some lastRemediationData) =>
      let minHealthyPeriod := strategy_MinHealthyPeriod c in
      let retryPeriod := strategy_RetryPeriod c in
      let last := lastRemediationTime c lastRemediationData reconciliationTime in
      if (last + minHealthyPeriod <=? reconciliationTime)%Z
      then Ok (mkRemediationData (m_Name machine) (Some reconciliationTime) 0, true, id)
      else
        let retryCount := rd_RetryCount lastRemediationData in
        let data := mkRemediationData (m_Name machine) (Some reconciliationTime) retryCount in
        if (reconciliationTime <? last + retryPeriod)%Z
        then Ok (data, false, waiting
               ("KCP can't remediate this machine because the operation already failed in the latest " +:+
                GoTime.Duration_String retryPeriod +:+ " (RetryPeriod)"))
        else
          let reached := match strategy_MaxRetry c with
                         | Some maxRetry => (maxRetry <=? retryCount)%Z
                         | None => false
                         end in
          if reached
          then Ok (data, false, waiting
                 ("KCP can't remediate this machine because the operation already failed " +:+
                  pretty (default 0%Z (strategy_MaxRetry c)) +:+ " times (MaxRetry)"))
          else Ok (mkRemediationData (m_Name machine) (Some reconciliationTime) (wrap64 (retryCount + 1)),
                   true, id)
  end.

(** ** Remediation *)

Abbreviation body := (go ControlPlane outcome).

(** The conditions of the machine with this name. *)
Definition mark (n : string) (f : Conditions → Conditions) : body unit :=
  modify (AgentConditions.mark_machine n f).

(** A healthy machine that is not deleted loses a pending remediation request. *)
Definition recovered machine : bool :=
  cIsTrue (m_Conditions machine) Clusterv1.MachineHealthCheckSucceededCondition &&
  cIsFalse (m_Conditions machine) Clusterv1.MachineOwnerRemediatedCondition &&
  negb (deleting (m_meta machine)).

(** The body of the loop over the healthy machines; the errors are collected. *)
Definition cleanup_healthy machine : go (ControlPlane * list error) outcome unit :=
  if recovered machine then
    r ← call (NewHelper KMachine machine);
    match r with
    | Err e => modify (λ s, (s.1, s.2 ++ [wrapf ("failed to get PatchHelper for machine " +:+ m_Name machine) e]))
    | Ok _ =>
        let f := cDelete Clusterv1.MachineOwnerRemediatedCondition in
        modify (λ s, (AgentConditions.mark_machine (m_Name machine) f s.1, s.2)) ;;
        r ← call (Patch KMachine machine (set_m_Conditions (f (m_Conditions machine)) machine));
        match r with
        | Err e => modify (λ s, (s.1, s.2 ++ [wrapf ("failed to patch machine " +:+ m_Name machine) e]))
        | Ok _ => mret tt
        end
    end
  else mret tt.

Definition cleanup_all : ControlPlane → prog (ControlPlane * option error) :=
  λ c, prog_bind (func_on (S := ControlPlane * list error) (R := outcome) (
    each_machine (HealthyMachines c) cleanup_healthy ;;
    s ← get;
    mret (Result0, NewAggregate s.2)) (c, [])) (λ r, Ret (r.1.1, r.2.2)).

(** [kcp.Annotations[key] = value] *)
Definition annotate_kcp (key value : string) (kcp : CK8sControlPlane) : CK8sControlPlane :=
  set_kcp_Annotations (Some (<[key:=value]> (default ∅ (om_Annotations (kcp_meta kcp))))) kcp.

(** Preconditions that need an initialised control plane. *)
Definition not_now c : option string :=
  if negb (st_Initialized (kcp_Status (KCP c))) then None
  else if bool_decide (size (cp_Machines c) ≤ 1)
  then Some "KCP can't remediate if current replicas are less or equal to 1"
  else if HasHealthyMachineStillProvisioning c
  then Some "KCP waiting for control plane machine provisioning to complete before triggering remediation"
  else if HasDeletingMachine c
  then Some "KCP waiting for control plane machine deletion to complete before triggering remediation"
  else None.

(** Deleting the machine and recording the remediation. *)
Definition delete_unhealthy machine (data : RemediationData) : body outcome :=
  let n := m_Name machine in
  r ← call (Delete KMachine (key_of (m_meta machine)));
  match r with
  | Err e =>
      mark n (MarkFalse Clusterv1.MachineOwnerRemediatedCondition Clusterv1.RemediationFailedReason
                SeverityError (error_text e)) ;;
      return_ (Result0, Some (wrapf ("failed to delete unhealthy machine " +:+ n) e))
  | Ok _ =>
      mark n (MarkFalse Clusterv1.MachineOwnerRemediatedCondition Clusterv1.RemediationInProgressReason
                SeverityWarning "") ;;
      modify (λ c, set_KCP (annotate_kcp RemediationInProgressAnnotation (Marshal data) (KCP c)) c) ;;
      mret (RequeueNow, None)
  end.

(** Between the creation of the patch helper and the deferred patch. *)
Definition remediate machine (reconciliationTime : Z) : body outcome :=
  let n := m_Name machine in
  c ← get;
  match checkRetryLimits machine c reconciliationTime with
  | Err e => return_ (Result0, Some e)
  | Ok (data, canRemediate, f) =>
      mark n f ;;
      if negb canRemediate then return_ (Result0, None)
      else match not_now c with
      | Some msg => mark n (waiting msg) ;; return_ (Result0, None)
      | None =>
          workloadCluster ← check (callp (GetWorkloadCluster (key_of (cl_meta (cp_Cluster c)))
              (GetMicroclusterPort (ControlPlaneConfig (kcp_CK8sConfigSpec (kcp_Spec (KCP c)))))))
            (λ e, (Result0, Some (wrapf "failed to create client to workload cluster" e)));
          when (bool_decide (m_NodeRef machine ≠ None))
            (check_err (callp (RemoveMachineFromCluster workloadCluster machine))
              (λ e, (Result0, Some (wrapf "failed to remove machine from microcluster" e)))) ;;
          delete_unhealthy machine data
      end
  end.

(** The deferred patch: its error is returned only if there is no other. *)
Definition patch_deferred machine (r : outcome) : body outcome :=
  c ← get;
  p ← call (Patch KMachine machine (default machine (cp_Machines c !! m_Name machine)));
  match p with
  | Ok _ => mret r
  | Err e =>
      mret (match r.2 with
            | None => (r.1, Some (wrapf ("failed to patch control plane Machine " +:+ m_Name machine) e))
            | Some _ => r
            end)
  end.

Definition reconcileUnhealthyMachines : ControlPlane → prog (ControlPlane * outcome) :=
  func_on (
    reconciliationTime ← call Now;
    check_err (calls cleanup_all) (λ e, (Result0, Some e)) ;;
    c ← get;
    match getMachineToBeRemediated (UnhealthyMachines c) with
    | None => return_ (Result0, None)
    | Some machine =>
        if deleting (m_meta machine) then return_ (Result0, None)
        else if bool_decide (ann (kcp_meta (KCP c)) RemediationInProgressAnnotation ≠ None)
        then return_ (Result0, None)
        else
          check (call (NewHelper KMachine machine)) (λ e, (Result0, Some e)) ;;
          r ← calls (func_on (remediate machine reconciliationTime));
          patch_deferred machine r
    end).
End Remediation.
End Remediation.

(** ** Round trip of the remediation data *)

Section RoundTrip.
Context `{!MetaTimeLib, !MetaTimeLaws}.

(** Times the annotation can hold. *)
Definition storable_time (t : option Z) : Prop :=
  match t with Some t => (0 ≤ t < 253402300800 * Time.Second)%Z | None => True end.

(** The data as the annotation keeps it. *)
Definition stored_data (r : RemediationData) : RemediationData :=
  mkRemediationData (rd_Machine r) (whole_seconds <$> rd_Timestamp r) (rd_RetryCount r).

Lemma pretty_nonneg (z : Z) : (0 ≤ z)%Z → (pretty z : string) = pretty (Z.to_N z).
Proof. destruct z as [|p|p]; [done|done|lia]. Qed.

Lemma set_fields_cons kv l d : set_fields d (kv :: l) = (d' ← set_field d kv; set_fields d' l).
Proof. done. Qed.

Lemma data_roundtrip (r : RemediationData) :
  (0 ≤ rd_RetryCount r)%Z → fits 64 (rd_RetryCount r) → storable_time (rd_Timestamp r) →
  unmarshal_data (Marshal r) = Some (stored_data r).
Proof.
  intros Hpos Hfits Ht. unfold unmarshal_data, Marshal, json_RemediationData.
  rewrite pretty_nonneg by done. rewrite JsonStruct.parse_text_print.
  2: { repeat constructor; simpl; [apply JsonStruct.reads_back_string| |apply JsonStruct.reads_back_number].
       destruct (rd_Timestamp r); [apply JsonStruct.reads_back_string|apply JsonStruct.reads_back_null]. }
  rewrite set_fields_cons. unfold set_field at 1. cbn [fst snd].
  change (Json.select _ "machine") with (Some "machine").
  cbn [JsonStruct.to_string fmap option_fmap option_map mbind option_bind].
  rewrite set_fields_cons. unfold set_field at 1. cbn [fst snd].
  change (Json.select _ "timestamp") with (Some "timestamp").
  assert (to_time (match rd_Timestamp r with
                   | Some t => Json.JString (MarshalTime t) | None => Json.JNull end) =
    Some (whole_seconds <$> rd_Timestamp r)) as ->.
  { destruct (rd_Timestamp r) as [t|]; [|done]. simpl. by rewrite UnmarshalTime_Marshal. }
  cbn [fmap option_fmap option_map mbind option_bind rd_Machine rd_Timestamp rd_RetryCount].
  rewrite set_fields_cons. unfold set_field at 1. cbn [fst snd].
  change (Json.select _ "retryCount") with (Some "retryCount").
  cbn iota. rewrite JsonStruct.to_int_number by (by rewrite Z2N.id). simpl.
  by rewrite Z2N.id.
Qed.

(** C29: the data of a remediation survives the annotations that carry it
    from the control plane to the replacement machine: what is read back is what
    was recorded, with the time in whole seconds. *)
Theorem remediation_data_roundtrip (r : RemediationData) :
  (0 ≤ rd_RetryCount r)%Z → fits 64 (rd_RetryCount r) → storable_time (rd_Timestamp r) →
  RemediationDataFromAnnotation (Marshal r) = Ok (stored_data r).
Proof. intros. unfold RemediationDataFromAnnotation. by rewrite data_roundtrip. Qed.
End RoundTrip.

Module RemediationSpec.
Import Remediation.

(** ** Retries *)

Section Retries.
Context `{!MetaTimeLib, !MetaTimeLaws, !ConditionsLib}.
Implicit Types (c : ControlPlane) (machine : Machine) (max t : Z).

(** The remediation of a machine that replaced another at [last] is a retry while
    the machine has not been healthy for long enough. *)
Definition is_retry c (last : RemediationData) t : Prop :=
  (t < lastRemediationTime c last t + strategy_MinHealthyPeriod c)%Z.

Lemma checkRetryLimits_allowed machine c t data f :
  checkRetryLimits machine c t = Ok (data, true, f) →
  f = id ∧ rd_Machine data = m_Name machine ∧ rd_Timestamp data = Some t ∧
  ∃ last, last_remediation machine = Ok last ∧
    match last with
    | Some l =>
        (is_retry c l t ∧ rd_RetryCount data = wrap64 (rd_RetryCount l + 1) ∧
         (∀ max, strategy_MaxRetry c = Some max → (rd_RetryCount l < max)%Z) ∧
         (lastRemediationTime c l t + strategy_RetryPeriod c ≤ t)%Z) ∨
        (¬ is_retry c l t ∧ rd_RetryCount data = 0%Z)
    | None => rd_RetryCount data = 0%Z
    end.
Proof.
  unfold checkRetryLimits, is_retry. destruct (last_remediation machine) as [[l|]|e]; [| |done].
  2: { intros [= <- <-]. do 3 (split; [done|]). by exists None. }
  cbv zeta. destruct (_ <=? t)%Z eqn:Hm.
  { apply Z.leb_le in Hm. intros [= <- <-]. do 3 (split; [done|]). exists (Some l). split; [done|].
    right. split; [lia|done]. }
  apply Z.leb_gt in Hm. destruct (t <? _)%Z eqn:Hp; [done|]. apply Z.ltb_ge in Hp.
  destruct (match strategy_MaxRetry c with Some max => (max <=? _)%Z | None => false end) eqn:Hx; [done|].
  intros [= <- <-]. do 3 (split; [done|]). exists (Some l). split; [done|]. left.
  split; [done|]. split; [done|]. split; [|done]. intros max Hmax. rewrite Hmax in Hx.
  by apply Z.leb_gt in Hx.
Qed.

Lemma count_fits (k : nat) : (Z.of_nat k ≤ 2 ^ 31)%Z → fits 64 (Z.of_nat k).
Proof. unfold fits. change (2 ^ (64 - 1))%Z with 9223372036854775808%Z. change (2 ^ 31)%Z with 2147483648%Z. lia. Qed.

Lemma small_count (k : nat) max : fits 32 max → (0 < k → (Z.of_nat k ≤ max)%Z) → (Z.of_nat k < 2 ^ 31)%Z.
Proof. unfold fits. change (2 ^ (32 - 1))%Z with 2147483648%Z. change (2 ^ 31)%Z with 2147483648%Z. lia. Qed.

(** A sequence of remediations: the first of a machine that is not a retry, and
    each later one of the machine that replaced the previous one and became
    unhealthy too early.  The replacement carries the data of the previous
    remediation in its annotation.  [k] counts the retries. *)
Inductive retry_sequence c : nat → RemediationData → Prop :=
  | first_try machine t data f :
      storable_time (Some t) →
      checkRetryLimits machine c t = Ok (data, true, f) → rd_RetryCount data = 0%Z →
      retry_sequence c 0 data
  | retry k prev machine t data f :
      retry_sequence c k prev →
      storable_time (Some t) →
      ann (m_meta machine) RemediationForAnnotation = Some (Marshal prev) →
      is_retry c (stored_data prev) t →
      checkRetryLimits machine c t = Ok (data, true, f) →
      retry_sequence c (S k) data.

(** C28: the number of retries is bounded.  Whatever happens in between, a
    machine and its replacements are remediated again at most [MaxRetry] times in
    a row, because the count that a replacement carries is the number of retries
    so far. *)
Theorem retries_bounded c max k data :
  strategy_MaxRetry c = Some max → fits 32 max →
  retry_sequence c k data → rd_RetryCount data = Z.of_nat k ∧ (0 < k → (Z.of_nat k ≤ max)%Z).
Proof.
  intros Hmax Hfits Hseq.
  assert (storable_time (rd_Timestamp data) ∧ rd_RetryCount data = Z.of_nat k ∧
    (0 < k → (Z.of_nat k ≤ max)%Z)) as (_ & Hgoal); [|exact Hgoal].
  induction Hseq as [machine t data f Ht Hc Hz|k prev machine t data f _ (Hpt & Hpk & Hpb) Ht Ha Hr Hc].
  - apply checkRetryLimits_allowed in Hc as (_ & _ & Hd & _). rewrite Hd. split; [done|].
    split; [done|lia].
  - apply checkRetryLimits_allowed in Hc as (_ & _ & Hd & l & Hl & Hcase). rewrite Hd. split; [done|].
    assert (Z.of_nat k < 2 ^ 31)%Z as Hk31.
    { apply small_count with max; [done|]. intros Hk. by apply Hpb. }
    unfold last_remediation, RemediationDataFromAnnotation in Hl.
    rewrite Ha, data_roundtrip in Hl; [|rewrite Hpk; lia|rewrite Hpk; apply count_fits; lia|done].
    injection Hl as <-. destruct Hcase as [(_ & Hcount & Hm & _)|[Hn _]]; [|done].
    specialize (Hm max Hmax). cbn [stored_data rd_RetryCount] in Hm, Hcount. rewrite Hpk in Hm.
    assert (rd_RetryCount data = Z.of_nat (S k)) as ->; [|split; [done|lia]].
    rewrite Hcount, Hpk. unfold wrap64. rewrite wrap_id; [lia|done|]. 
    replace (Z.of_nat k + 1)%Z with (Z.of_nat (S k)) by lia. apply count_fits. lia.
Qed.
End Retries.

(** ** Safety of a remediation *)

Section Safety.
Context `{!ApiErrors, !CollectionsLib, !CollectionsLaws, !MetaLib, !ConditionsLib, !K8sdApi, !MetaTimeLib}.
Implicit Types (c : ControlPlane) (m : Machine) (t : trace).

(** The same control plane, up to the conditions of its machines. *)
Definition reconditioned c c' : Prop :=
  KCP c' = KCP c ∧ cp_Cluster c' = cp_Cluster c ∧
  ∀ n, ∃ f, cp_Machines c' !! n = (λ m, set_m_Conditions (f m) m) <$> cp_Machines c !! n.

Lemma set_conditions_same m : set_m_Conditions (m_Conditions m) m = m.
Proof. by destruct m. Qed.

#[export] Instance reconditioned_preorder : PreOrder reconditioned.
Proof.
  split.
  - intros c. do 2 (split; [done|]). intros n. exists m_Conditions.
    destruct (cp_Machines c !! n); simpl; [by rewrite set_conditions_same|done].
  - intros c1 c2 c3 (Hk & Hc & Hm) (Hk' & Hc' & Hm'). do 2 (split; [congruence|]). intros n.
    destruct (Hm n) as [f Hf], (Hm' n) as [g Hg].
    exists (λ m, g (set_m_Conditions (f m) m)). rewrite Hg, Hf.
    destruct (cp_Machines c1 !! n) as [m|]; simpl; [by destruct m|done].
Qed.

Lemma mark_reconditioned n f c : reconditioned c (AgentConditions.mark_machine n f c).
Proof.
  unfold AgentConditions.mark_machine. destruct c as [k cl ms hs now cs infra]. do 2 (split; [done|]).
  cbn [set_cp_Machines cp_Machines]. intros n'. destruct (decide (n' = n)) as [->|Hn].
  - exists (λ m, f (m_Conditions m)). by rewrite lookup_alter_eq.
  - exists m_Conditions. rewrite lookup_alter_ne by done.
    destruct (ms !! n'); simpl; [by rewrite set_conditions_same|done].
Qed.

(** Between the two traces, only machines have been patched. *)
Definition is_patch (o : obs) : bool :=
  match o with Obs e _ => match e with Patch KMachine _ _ => true | _ => false end end.
Definition patched t t' : Prop :=
  extends t t' ∧ ∃ ps, writes t' = writes t ++ ps ∧ Forall (λ o, is_patch o = true) ps.

#[export] Instance patched_preorder : PreOrder patched.
Proof.
  split.
  - intros t. split; [apply extends_refl|]. exists []. by rewrite app_nil_r.
  - intros t1 t2 t3 (He & ps & Hw & Hp) (He' & ps' & Hw' & Hp'). split; [by eapply extends_trans|].
    exists (ps ++ ps'). rewrite Hw', Hw, (assoc_L (++)). split; [done|]. by apply Forall_app.
Qed.

Lemma patched_reads t t' : extends t t' → writes t' = writes t → patched t t'.
Proof. intros He Hw. split; [done|]. exists []. by rewrite app_nil_r. Qed.

Lemma patched_call {X} (e : sysE X) x t : quiet e → patched t (t ++ [Obs e x]).
Proof. intros He. apply patched_reads; [apply extends_snoc, extends_refl|by apply writes_quiet]. Qed.

Lemma patched_patch b a x t : patched t (t ++ [Obs (Patch KMachine b a) x]).
Proof.
  split; [apply extends_snoc, extends_refl|]. exists [Obs (Patch KMachine b a) x].
  rewrite written. split; [done|]. by repeat constructor.
Qed.

Lemma rem_cleanup_wp c t :
  wp (cleanup_all c) t (λ t' r, patched t t' ∧ reconditioned c r.1).
Proof.
  unfold cleanup_all. apply wp_bind, wp_func_on. unfold each_machine, range.
  apply gwp_bind, gwp_bind, gwp_call; [done|]. intros ks t1 _ Ht1. simpl in Ht1. subst t1. cbv beta.
  apply (gwp_for_each_inv _ _ (λ t' s, patched t t' ∧ reconditioned c s.1)).
  - split; [by apply patched_call|done].
  - intros m t1 s _ [Hp Hr]. unfold cleanup_healthy. destruct (recovered m); [|by apply gwp_ret].
    apply gwp_bind, gwp_call; [done|]. intros [u|e] t2 _ ->.
    2: { apply gwp_modify. split; [|done]. etrans; [exact Hp|]. by apply patched_call. }
    cbv zeta. apply gwp_bind, gwp_modify, gwp_bind, gwp_call; [done|]. intros x t3 _ ->.
    assert (patched t ((t1 ++ [Obs (NewHelper KMachine m) (Ok u)]) ++
      [Obs (Patch KMachine m (set_m_Conditions (cDelete Clusterv1.MachineOwnerRemediatedCondition
         (m_Conditions m)) m)) x])) as Hp'.
    { etrans; [|apply patched_patch]. etrans; [exact Hp|by apply patched_call]. }
    assert (reconditioned c (AgentConditions.mark_machine (m_Name m)
      (cDelete Clusterv1.MachineOwnerRemediatedCondition) s.1)) as Hr'.
    { etrans; [exact Hr|]. apply mark_reconditioned. }
    destruct x as [u'|e]; [by apply gwp_ret|by apply gwp_modify].
  - intros t1 s Hs. by wp_run.
Qed.

(** The machine may be remediated, with this data to record. *)
Record remediable c m (data : RemediationData) : Prop := {
  is_chosen : getMachineToBeRemediated (UnhealthyMachines c) = Some m;
  not_deleting : deleting (m_meta m) = false;
  none_pending : ann (kcp_meta (KCP c)) RemediationInProgressAnnotation = None;
  within_limits : ∃ now f, checkRetryLimits m c now = Ok (data, true, f);
  (* an initialised control plane keeps another machine and is not in transition *)
  stays_available : st_Initialized (kcp_Status (KCP c)) = true →
    1 < size (cp_Machines c) ∧ HasHealthyMachineStillProvisioning c = false ∧
    HasDeletingMachine c = false;
}.

Lemma not_now_None c :
  not_now c = None → st_Initialized (kcp_Status (KCP c)) = true →
  1 < size (cp_Machines c) ∧ HasHealthyMachineStillProvisioning c = false ∧ HasDeletingMachine c = false.
Proof.
  unfold not_now. intros Hn Hi. rewrite Hi in Hn. cbn [negb] in Hn.
  case_bool_decide; [done|]. destruct (HasHealthyMachineStillProvisioning c); [done|].
  destruct (HasDeletingMachine c); [done|]. split; [lia|done].
Qed.

(** The trace [t'] continues [t] with patches of machines and one deletion, of [m],
    which k8sd had removed from the microcluster if it had a node. *)
Definition deletes_one t t' m (x : gores unit) : Prop :=
  ∃ t1 t2, t' = t1 ++ Obs (Delete KMachine (key_of (m_meta m))) x :: t2 ∧
    patched t t1 ∧ Forall (λ o, is_patch o = true) (writes t2) ∧
    (m_NodeRef m ≠ None → removed t1 m).

(** What a remediation attempt on [m] leaves behind. *)
Definition attempt t c m t' c' (r : outcome) : Prop :=
  (patched t t' ∧ reconditioned c c' ∧ r ≠ (RequeueNow, None)) ∨
  ∃ data x, not_now c = None ∧ (∃ now f, checkRetryLimits m c now = Ok (data, true, f)) ∧
    deletes_one t t' m x ∧
    match x with
    | Ok _ => r.1 = RequeueNow ∧
              ann (kcp_meta (KCP c')) RemediationInProgressAnnotation = Some (Marshal data)
    | Err _ => r.2 ≠ None
    end.

Lemma delete_unhealthy_wp m data c0 c t t0 now f :
  checkRetryLimits m c0 now = Ok (data, true, f) → not_now c0 = None →
  patched t0 t → (m_NodeRef m ≠ None → removed t m) →
  wp (func_on (delete_unhealthy m data) c) t (λ t' r, attempt t0 c0 m t' r.1 r.2).
Proof.
  intros Hc Hn Hp Hr. unfold delete_unhealthy. cbv zeta. apply wp_func_on, gwp_bind, gwp_call; [done|].
  intros x t1 _ ->.
  assert (deletes_one t0 (t ++ [Obs (Delete KMachine (key_of (m_meta m))) x]) m x) as Hd.
  { exists t, []. split; [done|]. split; [done|]. by split. }
  destruct x as [u|e]; unfold mark; wp_run; right; exists data;
    [exists (Ok u)|exists (Err e)]; (split; [done|]); (split; [by eauto|]); (split; [exact Hd|]); [|done].
  split; [done|]. destruct c as [k ? ? ? ? ? ?]. destruct k as [[] ? ?].
  unfold annotate_kcp, set_kcp_Annotations, AgentConditions.mark_machine, ann. simpl.
  by rewrite lookup_insert_eq.
Qed.

Lemma remediate_wp m now c t :
  wp (func_on (remediate m now) c) t (λ t' r, attempt t c m t' r.1 r.2).
Proof.
  unfold remediate. cbv zeta. apply wp_func_on, gwp_bind, gwp_get.
  destruct (checkRetryLimits m c now) as [[[data can] f]|e] eqn:Hc.
  2: { apply gwp_return. by left. }
  unfold mark. apply gwp_bind, gwp_modify.
  pose proof (mark_reconditioned (m_Name m) f c) as Hr. set (c1 := AgentConditions.mark_machine _ f c) in *.
  destruct can; cbn [negb]; [|apply gwp_return; by left].
  destruct (not_now c) as [msg|] eqn:Hn.
  { apply gwp_bind, gwp_modify, gwp_return. left. split; [done|]. split; [|done].
    etrans; [exact Hr|]. apply mark_reconditioned. }
  apply gwp_bind, gwp_check, gwp_callp.
  eapply wp_mono; [apply wp_trace_reads, GetWorkloadCluster_reads|].
  intros t1 [w|e] [He Hw]; [|left; split; [by apply patched_reads|done]].
  pose proof (patched_reads _ _ He Hw) as Hp. apply gwp_bind.
  assert (∀ t2, patched t t2 → (m_NodeRef m ≠ None → removed t2 m) →
    gwp (delete_unhealthy m data) c1 t2 (λ t' s r, attempt t c m t' s r) (λ t' s r, attempt t c m t' s r)) as Hdel.
  { intros t2 Hp2 Hr2. pose proof (delete_unhealthy_wp m data c c1 t2 t now f Hc Hn Hp2 Hr2) as Hd.
    unfold func_on in Hd. apply wp_bind in Hd. eapply wp_mono; [exact Hd|]. by intros t3 [s [r|r]]. }
  apply gwp_when; intros Href.
  - apply gwp_check_err, gwp_callp. eapply wp_mono; [apply RemoveMachineFromCluster_removed|].
    intros t2 [e|] (He2 & Hw2 & Hrem); assert (patched t t2) as Hp2
      by (etrans; [exact Hp|by apply patched_reads]); [by left|]. by apply Hdel; [|auto].
  - apply Hdel; [done|]. by apply bool_decide_eq_false in Href.
Qed.

Lemma patch_deferred_wp m r c t0 c0 t :
  attempt t0 c0 m t c r →
  gwp (patch_deferred m r) c t (λ t' c' r', attempt t0 c0 m t' c' r') (λ _ _ _, False).
Proof.
  intros Ha. unfold patch_deferred. apply gwp_bind, gwp_get, gwp_bind, gwp_call; [done|].
  intros x t1 _ ->. assert (∀ r', (r' = r ∨ r.2 = None ∧ r'.1 = r.1 ∧ r'.2 ≠ None) →
    attempt t0 c0 m (t ++ [Obs (Patch KMachine m (default m (cp_Machines c !! m_Name m))) x]) c r') as Hr.
  { intros r' Hr. destruct Ha as [(Hp & Hc & Hne)|(data & y & Hn & Hl & Hd & Hy)].
    - left. split; [etrans; [exact Hp|apply patched_patch]|]. split; [done|].
      destruct Hr as [->|(_ & _ & Hr)]; [done|]. by intros ->.
    - right. exists data, y. split; [done|]. split; [done|]. split.
      + destruct Hd as (t1 & t2 & -> & Hp & Hw & Hrem). exists t1. eexists.
        rewrite <- (assoc_L (++)). simpl. split; [done|]. split; [done|]. split; [|done].
        rewrite written. apply Forall_app. split; [done|]. by repeat constructor.
      + destruct y as [u|e]; [|by destruct Hr as [->|(Hz & _)]].
        destruct Hy as [Hy Ha]. split; [|done]. by destruct Hr as [->|(_ & -> & _)]. }
  destruct x as [u|e]; apply gwp_ret; apply Hr; [by left|].
  destruct r as [res [err|]]; [by left|by right].
Qed.

(** C12: a reconciliation of unhealthy machines deletes at most one machine,
    and only one that may be remediated: it is the chosen unhealthy machine, no
    other remediation is pending, the retry limits allow it, and an initialised
    control plane has another machine and none that is being provisioned or
    deleted.  If it has a node, k8sd has removed the node from the microcluster
    before.  When the deletion succeeds, the control plane carries the data of the
    remediation.  Nothing else is written but patches of machines. *)
Theorem remediation_safe c :
  wp (reconcileUnhealthyMachines c) ([] : trace) (λ t r,
    patched [] t ∨
    ∃ c' m data x, reconditioned c c' ∧ remediable c' m data ∧ deletes_one [] t m x ∧
      match x with
      | Ok _ => r.2.1 = RequeueNow ∧
                ann (kcp_meta (KCP r.1)) RemediationInProgressAnnotation = Some (Marshal data)
      | Err _ => r.2.2 ≠ None
      end).
Proof.
  unfold reconcileUnhealthyMachines. apply wp_func_on, gwp_bind, gwp_call; [done|].
  intros now t1 _ ->. apply gwp_bind, gwp_check_err, gwp_calls.
  eapply wp_mono; [apply rem_cleanup_wp|]. intros t2 [c' [e|]] [Hp Hr]; simpl in Hr |- *;
    assert (patched [] t2) as Hp2 by (etrans; [|exact Hp]; by apply patched_call); [by left|].
  apply gwp_bind, gwp_get.
  destruct (getMachineToBeRemediated (UnhealthyMachines c')) as [m|] eqn:Hm; [|apply gwp_return; by left].
  destruct (deleting (m_meta m)) eqn:Hd; [apply gwp_return; by left|].
  case_bool_decide as Hann; [apply gwp_return; by left|].
  apply gwp_bind, gwp_check, gwp_call; [done|]. intros x t3 _ ->.
  assert (patched [] (t2 ++ [Obs (NewHelper KMachine m) x])) as Hp3
    by (etrans; [exact Hp2|by apply patched_call]).
  destruct x as [u|e]; [|by left]. apply gwp_bind, gwp_calls.
  eapply wp_mono; [apply remediate_wp|]. intros t4 [c4 r4] Ha. simpl in Ha |- *.
  eapply gwp_mono; [by apply patch_deferred_wp| |done]. simpl.
  intros t5 c5 r5 [(Hp5 & _)|(data & y & Hn & Hl & Hdel & Hy)].
  { left. by etrans. }
  right. exists c', m, data, y. split; [done|]. split.
  { split; [done|done|done|done|]. by apply not_now_None. }
  split; [|exact Hy]. destruct Hdel as (ta & tb & -> & Hpa & Hrest). exists ta, tb. split; [done|].
  split; [by etrans|done].
Qed.
End Safety.
End RemediationSpec.

(** ** Witnesses *)

Module RemediationExamples.
Import CpExamples ScaleExamples Remediation RemediationSpec.

(** Up to three retries, five seconds apart. *)
Definition strategy : RemediationStrategy := mkRemediationStrategy (Some 3%Z) (5 * Time.Second) None.
Definition kcp_retry : CK8sControlPlane :=
  mkControlPlane (meta_named "k")
    (mkControlPlaneSpec (Some 2%Z) "v1.30.0" empty_spec None
       (mkMachineTemplate ∅ ∅ (ref_named "InfraTemplate" "t") None None None) (Some strategy) None)
    (mkControlPlaneStatus "" 2 None 2 2 0 true true "" None 0 [] None).
Definition unhealthy (a : option strmap) : Machine :=
  mkMachine (mkMeta "bad" "ns" "bad" ∅ a [] [] 0 None) "c" (Some "v1.30.0") (ref_named "Infra" "bad")
    (Some (ref_named "CK8sConfig" "bad")) None None None None (Some (ref_named "Node" "n2"))
    [mkCond Clusterv1.MachineOwnerRemediatedCondition ConditionFalse SeverityWarning "" ""].
Definition noded (n : string) : Machine :=
  mkMachine (meta_named n) "c" (Some "v1.30.0") (ref_named "Infra" n)
    (Some (ref_named "CK8sConfig" n)) None None None None (Some (ref_named "Node" "n1")) [].
Definition sick (a : option strmap) : ControlPlane :=
  mkCP kcp_retry (cluster_named "c") {["a" := noded "a"; "bad" := unhealthy a]} ∅ 0 ∅ ∅.
Definition at_second (n : Z) : Z := (n * Time.Second)%Z.

Lemma remediation_data_roundtrip_witness :
  RemediationDataFromAnnotation (Marshal (mkRemediationData "bad" (Some 1500000000%Z) 2)) =
  Ok (mkRemediationData "bad" (Some 1000000000%Z) 2).
Proof.
  apply (remediation_data_roundtrip (mkRemediationData "bad" (Some 1500000000%Z) 2)).
  - discriminate.
  - vm_compute. split; [discriminate|reflexivity].
  - vm_compute. split; [discriminate|reflexivity].
Defined.

Definition data0 : RemediationData := mkRemediationData "bad" (Some (at_second 100)) 0.
Definition data1 : RemediationData := mkRemediationData "bad" (Some (at_second 200)) 1.
Definition replaced : option strmap := Some {[RemediationForAnnotation := Marshal data0]}.

Lemma one_retry : retry_sequence (sick None) 1 data1.
Proof.
  eapply (retry _ 0 data0 (unhealthy replaced) (at_second 200) data1 id).
  - eapply (first_try _ (unhealthy None) (at_second 100) data0 id);
      [vm_compute; split; [discriminate|reflexivity]|vm_compute; reflexivity|reflexivity].
  - vm_compute. split; [discriminate|reflexivity].
  - vm_compute. reflexivity.
  - vm_compute. reflexivity.
  - vm_compute. reflexivity.
Defined.

Lemma retries_bounded_witness : rd_RetryCount data1 = 1%Z ∧ (0 < 1 → (Z.of_nat 1 ≤ 3)%Z).
Proof.
  apply (retries_bounded (sick None) 3 1 data1); [reflexivity| |exact one_retry].
  vm_compute. split; [discriminate|reflexivity].
Defined.

Definition sick_store : Store := put KMachine (unhealthy None) (put KMachine (noded "a")
  (put KSecret (mkSecret (meta_named "c-token") (Some {["value" := "t"]}) "") empty_store)).

(** The unhealthy machine is deleted and the remediation is recorded. *)
Example remediation_runs :
  match run (serve world) (reconcileUnhealthyMachines (sick None)) sick_store with
  | Some (c, (r, _), w) =>
      (Requeue r, look KMachine w (mkKey "ns" "bad"),
       match ann (kcp_meta (KCP c)) RemediationInProgressAnnotation with
       | Some v => is_ok (RemediationDataFromAnnotation v)
       | None => false
       end)
  | _ => (false, None, false)
  end = (true, None, true).
Proof. vm_compute. reflexivity. Qed.

Lemma remediation_safe_witness :
  wp (reconcileUnhealthyMachines (sick None)) ([] : trace) (λ t r,
    patched [] t ∨
    ∃ c' m data x, reconditioned (sick None) c' ∧ remediable c' m data ∧ deletes_one [] t m x ∧
      match x with
      | Ok _ => r.2.1 = RequeueNow ∧
                ann (kcp_meta (KCP r.1)) RemediationInProgressAnnotation = Some (Marshal data)
      | Err _ => r.2.2 ≠ None
      end).
Proof. exact (remediation_safe (sick None)). Defined.
End RemediationExamples.
