(* ===== verification/OrchestratedCP.v ===== *)
(** src/controlplane/controllers/orchestrated_inplace_upgrade_controller.go: the
    in-place upgrade of the machines of a control plane, one at a time under the
    lock of [UpgradeLock]. *)

From S2P Require Import Prelude Objects ApiTypes Effects Libs RefLibs ApiServer RefServer.
From S2P Require Import Token Workload Inplace UpgradeLock MachineUpgrade Orchestrate.

Module OrchestratedCP.
Import Inplace UpgradeLock Orchestrate.

(** [type OrchestratedInPlaceUpgradeScope struct]; [ck8sPatcher] is the snapshot
    of the patch helper. *)
Record scope := mkScope {
  cluster : Cluster;
  ck8sControlPlane : CK8sControlPlane;
  ck8sPatcher : CK8sControlPlane;
  upgradeTo : string;
  ownedMachines : Machines;
}.

Definition machinesAreReady (kcp : CK8sControlPlane) : bool :=
  match Replicas (kcp_Spec kcp) with
  | None => false
  | Some r => (st_ReadyReplicas (kcp_Status kcp) =? r)%Z
  end.

Section Controller.
Context `{!ApiErrors, !CollectionsLib}.

Definition markUpgradeInProgress (s : scope) (upgradingMachine : Machine)
    : CK8sControlPlane → prog (CK8sControlPlane * option error) :=
  report KControlPlane (MarkUpgradeInProgress KControlPlane (ck8sPatcher s) (upgradeTo s))
    "failed to mark object with upgrade in-progress" EventNormal InPlaceUpgradeInProgressEvent
    ("In-place upgrade is in-progress for " +:+ quote (m_Name upgradingMachine)).

Definition markUpgradeDone (s : scope) : CK8sControlPlane → prog (CK8sControlPlane * option error) :=
  report KControlPlane (MarkUpgradeDone KControlPlane (ck8sPatcher s) (upgradeTo s))
    "failed to mark object with upgrade done" EventNormal InPlaceUpgradeDoneEvent
    "In-place upgrade is done".

Definition markUpgradeFailed (s : scope) (failedM : Machine)
    : CK8sControlPlane → prog (CK8sControlPlane * option error) :=
  report KControlPlane (MarkUpgradeFailed KControlPlane (ck8sPatcher s))
    "failed to mark object with upgrade failed" EventWarning InPlaceUpgradeFailedEvent
    ("In-place upgrade failed for machine " +:+ quote (m_Name failedM) +:+ ".").

Definition getControlPlaneMachines (c : Cluster) : prog (gores Machines) :=
  func (
    ms ← check (callp (GetMachinesForCluster (key_of (cl_meta c)) [ControlPlaneMachines (cl_Name c)]))
           (λ e, Err (wrapf "failed to get cluster machines" e));
    mret (Ok ms)).

(** [util.GetOwnerCluster] answers nil when the object has no owner cluster; the
    name of a nil cluster is a nil dereference. *)
Definition createScope (kcp : CK8sControlPlane) : prog (gores scope) :=
  func (
    check (call (NewHelper KControlPlane kcp))
      (λ e, Err (wrapf "failed to create new patch helper" e)) ;;
    owner ← check (call (GetOwnerCluster (kcp_meta kcp))) (λ e, Err (wrapf "failed to get cluster" e));
    c ← deref owner;
    machines ← check (callp (getControlPlaneMachines c))
                 (λ e, Err (wrapf "failed to get owned machines" e));
    mret (Ok (mkScope c kcp kcp (GetUpgradeInstructions (kcp_meta kcp)) machines))).

Definition markMachineToUpgrade (s : scope) : Machine → prog (Machine * option error) :=
  func_on (
    check_err (calls (MarkMachineToUpgrade (upgradeTo s)))
      (λ e, Some (wrapf "failed to mark machine to inplace upgrade" e)) ;;
    m ← get;
    call (Eventf (key_of (kcp_meta (ck8sControlPlane s))) EventNormal InPlaceUpgradeInProgressEvent
      ("Machine " +:+ quote (m_Name m) +:+ " is upgrading to " +:+ quote (upgradeTo s))) ;;
    mret None).

(** A call that mutates the control plane of the scope. *)
Definition on_kcp {A} (f : CK8sControlPlane → prog (CK8sControlPlane * A))
    : go (CK8sControlPlane * nat) outcome A :=
  zoom fst (λ kcp st, (kcp, st.2)) (calls f).

(** The branch for a held lock. *)
Definition locked (s : scope) (upgradingMachine : Machine) : go (CK8sControlPlane * nat) outcome unit :=
  if negb (bool_decide (GetUpgradeInstructions (m_meta upgradingMachine) = upgradeTo s)) then
    check_err (callp (UpgradeLock.Unlock (cluster s)))
      (λ e, (Result0, Some (wrapf "failed to unlock upgrade" e))) ;;
    return_ (RequeueNow, None)
  else if IsUpgraded (m_meta upgradingMachine) (upgradeTo s) then
    check_err (callp (UpgradeLock.Unlock (cluster s)))
      (λ e, (Result0, Some (wrapf "failed to unlock upgrade" e))) ;;
    return_ (RequeueNow, None)
  else if IsMachineUpgradeFailed upgradingMachine then
    check_err (on_kcp (markUpgradeFailed s upgradingMachine))
      (λ e, (Result0, Some (wrapf "failed to mark upgrade as failed" e))) ;;
    return_ requeue
  else return_ requeue.

(** The body of the loop over the owned machines. *)
Definition visit (s : scope) (m : Machine) : go (CK8sControlPlane * nat) outcome unit :=
  if IsUpgraded (m_meta m) (upgradeTo s) then modify (λ st, (st.1, S st.2))
  else if deleting (m_meta m) then return_ requeue
  else
    check_err (callp (UpgradeLock.Lock (cluster s) m))
      (λ e, (Result0, Some (wrapf ("failed to lock upgrade for machine " +:+ quote (m_Name m)) e))) ;;
    r ← callp (markMachineToUpgrade s m);
    check_err (mret r.2) (λ e, (Result0, Some (wrapf "failed to mark machine to upgrade" e))) ;;
    check_err (on_kcp (markUpgradeInProgress s r.1))
      (λ e, (Result0, Some (wrapf "failed to mark upgrade as in-progress" e))) ;;
    return_ requeue.

(** The part of [Reconcile] that works on the scope. *)
Definition upgrade_machines (s : scope) : prog (CK8sControlPlane * nat * outcome) :=
  func_on (
    upgradingMachine ← check (callp (UpgradeLock.IsLocked (cluster s)))
      (λ e, (Result0, Some (wrapf "failed to check if upgrade is locked" e)));
    match upgradingMachine with
    | Some m => locked s m
    | None => mret tt
    end ;;
    machines ← range_machines (ownedMachines s);
    for_each machines (visit s) ;;
    st ← get;
    if bool_decide (st.2 = size (ownedMachines s)) then
      check_err (on_kcp (markUpgradeDone s))
        (λ e, (Result0, Some (wrapf "failed to mark upgrade as done" e))) ;;
      mret (Result0, None)
    else mret requeue) (ck8sControlPlane s, 0).

(** [func (r *OrchestratedInPlaceUpgradeController) Reconcile] *)
Definition Reconcile (req : ObjectKey) : prog outcome :=
  func (
    kcp ← catch (call (Get KControlPlane req)) (λ e,
            if IsNotFound e then return_ (Result0, None)
            else return_ (Result0, Some (wrapf "failed to get CK8sControlPlane" e)));
    if bool_decide (GetUpgradeInstructions (kcp_meta kcp) = "") then return_ (Result0, None)
    else if deleting (kcp_meta kcp) then return_ (Result0, None)
    else if negb (machinesAreReady kcp) then return_ requeue
    else
      s ← check (callp (createScope kcp)) (λ e, (Result0, Some (wrapf "failed to create scope" e)));
      r ← callp (upgrade_machines s);
      mret r.2).
End Controller.

(** ** What a reconciliation does *)

(** Only the listed objects may have changed. *)
Definition only {W} `{!ApiErrors, !Env W, !ApiServer W} (l : list (kind * ObjectKey)) (w w' : W) : Prop :=
  ∀ k key, (k, key) ∉ l → view k w' key = view k w key.

Lemma only_frame {W} `{!ApiErrors, !Env W, !ApiServer W} k key l (w w' : W) :
  frame k key w w' → (k, key) ∈ l → only l w w'.
Proof. intros Hf Hl k' key' Hne. apply Hf. by intros Heq; rewrite Heq in Hne. Qed.

Lemma only_same {W} `{!ApiErrors, !Env W, !ApiServer W} l (w w' : W) : same_view w w' → only l w w'.
Proof. intros Hv k key _. apply Hv. Qed.

Lemma only_trans {W} `{!ApiErrors, !Env W, !ApiServer W} l (w1 w2 w3 : W) :
  only l w1 w2 → only l w2 w3 → only l w1 w3.
Proof. intros Ho1 Ho2 k key Hne. by rewrite Ho2, Ho1. Qed.

(** The choice among the machines in the order [range] visits them, once the
    lock is free. *)
Fixpoint next_free (to : string) (ms : list Machine) : action :=
  match ms with
  | [] => Finish
  | m :: ms =>
      if IsUpgraded (m_meta m) to then next_free to ms
      else if deleting (m_meta m) then Wait
      else Start m
  end.

Lemma next_free_skip to d ms :
  Forall (λ m, IsUpgraded (m_meta m) to = true) d → next_free to (d ++ ms) = next_free to ms.
Proof. induction 1 as [|m d Hm _ IH]; simpl; [done|]. by rewrite Hm. Qed.

Section Server.
Context {W : Type} `{!ApiErrors, !CollectionsLib, !CollectionsLaws, !Env W, !ApiServer W}.
Implicit Types (w : W) (kcp : CK8sControlPlane) (s : scope).

(** The cluster that owns the control plane. *)
Variable c : Cluster.
Hypothesis owner_cluster : ∀ m o w w', env_step (GetOwnerCluster m) (Ok o) w w' → o = Some c.

Abbreviation lock := (KConfigMap, UpgradeLock.lock_key c).
Abbreviation lock_of := (UpgradeLock.state_of c).

(** The machines of the control plane, in some order. *)
Definition controlled w (ms : list Machine) : Prop :=
  ∀ m, m ∈ ms ↔ view KMachine w (key_of (m_meta m)) = Some m ∧
                om_Namespace (m_meta m) = cl_Namespace c ∧
                om_Labels (m_meta m) !! Clusterv1.ClusterNameLabel = Some (cl_Name c) ∧
                ControlPlaneMachines (cl_Name c) m = true.

Definition kcp_status w kcp (st : string) : Prop :=
  ∃ kcp' : CK8sControlPlane, view KControlPlane w (key_of (kcp_meta kcp)) = Some kcp' ∧
    ann (kcp_meta kcp') InPlaceUpgradeStatusAnnotation = Some st.

(** The lock is held by the machine [m]. *)
Definition when_locked w w' kcp (to : string) (m : Machine) (r : outcome) : Prop :=
  if negb (bool_decide (GetUpgradeInstructions (m_meta m) = to)) || IsUpgraded (m_meta m) to then
    only [lock] w w' ∧ (lock_of w' = lock_of w ∨ lock_of w' = Free) ∧
    (r.2 = None → r.1 = RequeueNow ∧ lock_of w' = Free)
  else if IsMachineUpgradeFailed m then
    frame KControlPlane (key_of (kcp_meta kcp)) w w' ∧
    (r.2 = None → r = requeue ∧ kcp_status w' kcp InPlaceUpgradeFailedStatus)
  else same_view w w' ∧ r = requeue.

(** The lock is free, or was left by a machine that is gone. *)
Definition when_free w w' kcp (to : string) (ms : list Machine) (r : outcome) : Prop :=
  let kcp_ref := (KControlPlane, key_of (kcp_meta kcp)) in
  match next_free to ms with
  | Start m =>
      only [lock; kcp_ref; (KMachine, key_of (m_meta m))] w w' ∧
      (lock_of w' = Free ∧ view KMachine w' (key_of (m_meta m)) = Some m ∨
       lock_of w' = Held (key_of (m_meta m))) ∧
      (r.2 = None → r = requeue ∧ lock_of w' = Held (key_of (m_meta m)) ∧
         kcp_status w' kcp InPlaceUpgradeInProgressStatus ∧
         ∃ m', view KMachine w' (key_of (m_meta m)) = Some m' ∧ marks (m_meta m') = requested to)
  | Finish =>
      only [lock; kcp_ref] w w' ∧ lock_of w' = Free ∧
      (r.2 = None → r.1 = Result0 ∧ kcp_status w' kcp InPlaceUpgradeDoneStatus)
  | _ => only [lock] w w' ∧ lock_of w' = Free ∧ r = requeue
  end.

Definition performs w w' kcp (to : string) (r : outcome) : Prop :=
  (∃ m, lock_of w = Held (key_of (m_meta m)) ∧ view KMachine w (key_of (m_meta m)) = Some m ∧
        when_locked w w' kcp to m r) ∨
  ((lock_of w = Free ∨ ∃ h, lock_of w = Held h ∧ view KMachine w h = None) ∧
   ((∃ ms, controlled w ms ∧ when_free w w' kcp to ms r) ∨
    r.2 ≠ None ∧ only [lock] w w' ∧ lock_of w' = Free)) ∨
  r.2 ≠ None ∧ only [lock] w w' ∧ lock_of w' = lock_of w.

(** What happened after calls that changed nothing. *)
Section Prefix.
Context (w w1 w2 : W) (Hv : same_view w w1).

Lemma only_pre l : only l w1 w2 → only l w w2.
Proof. intros Ho. eapply only_trans; [by apply only_same|exact Ho]. Qed.

Lemma when_locked_pre kcp to m r : when_locked w1 w2 kcp to m r → when_locked w w2 kcp to m r.
Proof.
  unfold when_locked. rewrite (UpgradeLock.state_of_same c _ _ Hv).
  destruct (_ || _); [|destruct (IsMachineUpgradeFailed m)].
  - intros [Ho Hr]. split; [by apply only_pre|exact Hr].
  - intros [Hf Hr]. split; [by eapply frame_same|exact Hr].
  - intros [Hs Hr]. split; [by trans w1|exact Hr].
Qed.

Lemma when_free_pre kcp to ms r : when_free w1 w2 kcp to ms r → when_free w w2 kcp to ms r.
Proof.
  unfold when_free. destruct (next_free to ms); intros [Ho Hr];
    (split; [by apply only_pre|exact Hr]).
Qed.

Lemma performs_pre kcp to r : performs w1 w2 kcp to r → performs w w2 kcp to r.
Proof.
  unfold performs. rewrite (UpgradeLock.state_of_same c _ _ Hv).
  intros [(m & Hl & Hm & Hw)|[[Hst Hw]|(Hr & Ho & Hl)]].
  - left. exists m. rewrite <- Hv. split; [done|]. split; [done|]. by apply when_locked_pre.
  - right; left. split.
    { destruct Hst as [Hst|(h & Hh & Hn)]; [by left|right]. exists h. by rewrite <- Hv. }
    destruct Hw as [(ms & Hms & Hw)|(Hr & Ho & Hl)]; [left; exists ms|right].
    + split; [|by apply when_free_pre]. intros m. by rewrite (Hms m), Hv.
    + split; [done|]. split; [by apply only_pre|done].
  - right; right. split; [done|]. split; [by apply only_pre|done].
Qed.
End Prefix.

Lemma synced_kcp_status w kcp f st :
  synced KControlPlane w (annotate KControlPlane f kcp) →
  (∀ a, f a !! InPlaceUpgradeStatusAnnotation = Some st) → kcp_status w kcp st.
Proof.
  intros (kcp' & Hv & Ha) Hf. exists kcp'. rewrite key_annotate in Hv. split; [exact Hv|].
  specialize (Ha InPlaceUpgradeStatusAnnotation). rewrite ann_annotate, Hf in Ha. exact Ha.
Qed.

Lemma cp_marks_wp s kcp w :
  ck8sPatcher s = kcp → synced KControlPlane w kcp →
  (∀ m, wp (markUpgradeFailed s m kcp) w (λ w' r,
     frame KControlPlane (key_of (kcp_meta kcp)) w w' ∧
     (r.2 = None → kcp_status w' kcp InPlaceUpgradeFailedStatus))) ∧
  (∀ m, wp (markUpgradeInProgress s m kcp) w (λ w' r,
     frame KControlPlane (key_of (kcp_meta kcp)) w w' ∧
     (r.2 = None → kcp_status w' kcp InPlaceUpgradeInProgressStatus))) ∧
  wp (markUpgradeDone s kcp) w (λ w' r,
     frame KControlPlane (key_of (kcp_meta kcp)) w w' ∧
     (r.2 = None → kcp_status w' kcp InPlaceUpgradeDoneStatus)).
Proof.
  intros Hp Hs. unfold markUpgradeFailed, markUpgradeInProgress, markUpgradeDone. rewrite Hp.
  split; [intros m|split; [intros m|]];
    (eapply wp_mono; [apply (report_wp KControlPlane), (mark_wp KControlPlane), Hs|];
     intros w' r (_ & Hf & Hr); split; [exact Hf|]; intros Hn;
     eapply synced_kcp_status; [exact (Hr Hn)|]; intros a; cbv beta).
  - by rewrite lookup_insert_eq.
  - rewrite lookup_insert_ne, lookup_insert_eq by done. done.
  - rewrite lookup_insert_ne, lookup_insert_eq by done. done.
Qed.

Lemma cp_markMachineToUpgrade_wp s m w :
  synced KMachine w m →
  wp (markMachineToUpgrade s m) w (λ w' r,
    frame KMachine (key_of (m_meta m)) w w' ∧
    (r.2 = None → ∃ m', view KMachine w' (key_of (m_meta m)) = Some m' ∧
                        marks (m_meta m') = requested (upgradeTo s))).
Proof.
  intros Hs. unfold markMachineToUpgrade. repeat wp_step.
  eapply wp_mono; [by apply MarkMachineToUpgrade_wp|].
  intros w1 [m1 [e|]] (Hf & Hn & Hr); cbn [fst snd] in *; repeat wp_step; [done|].
  apply gwp_call; [by apply api_pre|]. intros [] w2 _ He. repeat wp_step.
  pose proof (api_quiet _ _ _ _ He I) as Hv. split; [by eapply same_frame|]. intros _.
  destruct (Hr eq_refl) as [(m' & Hm' & Ha) Hmk]. exists m'. rewrite Hv. split.
  - by rewrite <- Hm', Hn.
  - rewrite <- Hmk. unfold marks. cbn [meta_of] in Ha. by rewrite !Ha.
Qed.

Lemma lock_of_frame k key w w' :
  frame k key w w' → k ≠ KConfigMap → lock_of w' = lock_of w.
Proof. intros Hf Hne. unfold UpgradeLock.state_of. rewrite Hf; congruence. Qed.

Section Loop.
Context (s : scope) (w0 : W) (ms : list Machine).
Abbreviation kcp := (ck8sControlPlane s).
Hypothesis Hcluster : cluster s = c.
Hypothesis Hpatcher : ck8sPatcher s = kcp.
Hypothesis Hkcp : synced KControlPlane w0 kcp.
Hypothesis Hms : ∀ m, m ∈ ms → view KMachine w0 (key_of (m_meta m)) = Some m.

(** The lock is free and only it has changed. *)
Definition freed w : Prop := only [lock] w0 w ∧ lock_of w = Free.

Lemma freed_synced w : freed w → synced KControlPlane w kcp.
Proof.
  intros [Ho _]. unfold synced. rewrite Ho; [done|]. intros Hin%list_elem_of_singleton. discriminate.
Qed.

Lemma freed_machine w m : freed w → m ∈ ms → view KMachine w (key_of (m_meta m)) = Some m.
Proof.
  intros [Ho _] Hm. rewrite Ho; [by apply Hms|]. intros Hin%list_elem_of_singleton. discriminate.
Qed.

Lemma start_wp m n w :
  freed w → m ∈ ms → next_free (upgradeTo s) ms = Start m →
  IsUpgraded (m_meta m) (upgradeTo s) = false → deleting (m_meta m) = false →
  gwp (visit s m) (kcp, n) w (λ _ _ _, False) (λ w' _ r, when_free w0 w' kcp (upgradeTo s) ms r).
Proof.
  intros Hw Hm Hnext Hup Hdel. unfold when_free. rewrite Hnext.
  pose proof (freed_synced _ Hw) as Hs. pose proof (freed_machine _ _ Hw Hm) as Hvm.
  destruct Hw as [Ho Hfree]. set (l := [lock; _; _]).
  assert (only l w0 w) as Hl by (intros k key Hne; apply Ho; set_solver).
  unfold visit. rewrite Hup, Hdel. repeat wp_step. rewrite Hcluster.
  eapply wp_mono; [apply Lock_wp|]. intros w1 r [Hf1 Hr1]; repeat wp_step.
  assert (only l w0 w1) as Hl1.
  { eapply only_trans; [exact Hl|]. eapply only_frame; [exact Hf1|set_solver]. }
  assert (view KMachine w1 (key_of (m_meta m)) = Some m) as Hvm1 by (by rewrite Hf1).
  destruct r as [e|]; repeat wp_step.
  { split; [exact Hl1|]. split; [|done]. destruct Hr1 as [Hr1|[_ Hr1]]; [left|by right].
    split; [congruence|done]. }
  destruct Hr1 as [_ Hheld].
  eapply wp_mono; [apply cp_markMachineToUpgrade_wp; by exists m|].
  intros w2 [m2 r2] [Hf2 Hr2]; cbn [fst snd] in *; repeat wp_step.
  assert (only l w0 w2) as Hl2.
  { eapply only_trans; [exact Hl1|]. eapply only_frame; [exact Hf2|set_solver]. }
  assert (lock_of w2 = Held (key_of (m_meta m))) as Hheld2.
  { by rewrite (lock_of_frame _ _ _ _ Hf2). }
  destruct r2 as [e|]; repeat wp_step.
  { split; [exact Hl2|]. split; [by right|done]. }
  destruct (Hr2 eq_refl) as (m' & Hm' & Hmk). unfold on_kcp. repeat wp_step.
  assert (synced KControlPlane w2 kcp) as Hs2.
  { eapply synced_frame; [exact Hf2|discriminate|]. eapply synced_frame; [exact Hf1|discriminate|done]. }
  eapply wp_mono; [apply (cp_marks_wp s kcp w2 Hpatcher Hs2)|].
  intros w3 [kcp3 r3] [Hf3 Hr3]; cbn [fst snd] in *; repeat wp_step.
  assert (only l w0 w3) as Hl3.
  { eapply only_trans; [exact Hl2|]. eapply only_frame; [exact Hf3|set_solver]. }
  assert (lock_of w3 = Held (key_of (m_meta m))) as Hheld3.
  { by rewrite (lock_of_frame _ _ _ _ Hf3). }
  destruct r3 as [e|]; repeat wp_step; (split; [exact Hl3|]; split; [by right|]); [done|].
  intros _. split; [done|]. split; [done|]. split; [auto|]. exists m'. by rewrite Hf3.
Qed.

Lemma loop_wp w Q :
  freed w →
  (∀ w' st, freed w' → st = (kcp, length ms) → next_free (upgradeTo s) ms = Finish → Q w' st tt) →
  gwp (for_each ms (visit s)) (kcp, 0) w Q (λ w' _ r, when_free w0 w' kcp (upgradeTo s) ms r).
Proof.
  intros Hw HQ.
  eapply (gwp_for_each _ _ (λ d _ w st, freed w ∧ st = (kcp, length d) ∧
    Forall (λ m, IsUpgraded (m_meta m) (upgradeTo s) = true) d)).
  - done.
  - intros d m rest w1 st Hsplit (Hw1 & -> & Hd).
    assert (m ∈ ms) as Hm by (rewrite Hsplit, elem_of_app, elem_of_cons; auto).
    assert (next_free (upgradeTo s) ms = next_free (upgradeTo s) (m :: rest)) as Hnext
      by (by rewrite Hsplit, next_free_skip).
    cbn [next_free] in Hnext.
    destruct (IsUpgraded (m_meta m) (upgradeTo s)) eqn:Hup.
    { unfold visit. rewrite Hup. wp_step. split; [done|]. cbn [fst snd].
      rewrite length_app, Nat.add_1_r. split; [done|]. apply Forall_app. by split; [|constructor]. }
    destruct (deleting (m_meta m)) eqn:Hdel.
    { unfold visit. rewrite Hup, Hdel. wp_step. unfold when_free. rewrite Hnext.
      destruct Hw1 as [Ho1 Hf1]. done. }
    eapply gwp_mono; [by apply start_wp|done|done].
  - intros w1 st (Hw1 & -> & Hd). apply HQ; [done|done|].
    rewrite <- (app_nil_r ms). by rewrite next_free_skip.
Qed.

Lemma finish_wp w n :
  freed w → next_free (upgradeTo s) ms = Finish →
  gwp (check_err (on_kcp (markUpgradeDone s))
        (λ e, (Result0, Some (wrapf "failed to mark upgrade as done" e))) ;;
       mret (Result0, None)) (kcp, n) w
    (λ w' _ r, when_free w0 w' kcp (upgradeTo s) ms r)
    (λ w' _ r, when_free w0 w' kcp (upgradeTo s) ms r).
Proof.
  intros Hw Hnext. pose proof (freed_synced _ Hw) as Hs. destruct Hw as [Ho Hfree].
  unfold on_kcp, when_free. rewrite Hnext. repeat wp_step.
  eapply wp_mono; [apply (cp_marks_wp s kcp w Hpatcher Hs)|].
  intros w1 [kcp1 r] [Hf Hr]; cbn [fst snd] in *; repeat wp_step. set (l := [lock; _]).
  assert (only l w0 w1) as Hl.
  { eapply only_trans; [|eapply only_frame; [exact Hf|set_solver]].
    intros k key Hne. apply Ho. set_solver. }
  assert (lock_of w1 = Free) as Hfree1 by (by rewrite (lock_of_frame _ _ _ _ Hf)).
  destruct r as [e|]; repeat wp_step; (split; [exact Hl|]; split; [exact Hfree1|]); [done|auto].
Qed.
End Loop.

Lemma locked_wp s m w :
  cluster s = c → ck8sPatcher s = ck8sControlPlane s → synced KControlPlane w (ck8sControlPlane s) →
  gwp (locked s m) (ck8sControlPlane s, 0) w (λ _ _ _, False)
    (λ w' _ r, when_locked w w' (ck8sControlPlane s) (upgradeTo s) m r).
Proof.
  intros Hc Hp Hs. unfold locked, when_locked.
  destruct (negb _) eqn:Hi; [|simpl; destruct (IsUpgraded _ _) eqn:Hu];
    cbn [orb]; rewrite ?Hc.
  1, 2: repeat wp_step; eapply wp_mono; [apply Unlock_wp|];
    intros w1 r [Hf Hr]; repeat wp_step;
    assert (only [lock] w w1) as Ho by (eapply only_frame; [exact Hf|set_solver]);
    destruct r as [e|]; repeat wp_step; (split; [exact Ho|]);
    [by split|split; [by right|done]].
  destruct (IsMachineUpgradeFailed m); [|by wp_step]. unfold on_kcp. repeat wp_step.
  eapply wp_mono; [apply (cp_marks_wp s (ck8sControlPlane s) w Hp Hs)|].
  intros w1 [kcp1 r] [Hf Hr]; cbn [fst snd] in *; repeat wp_step.
  destruct r as [e|]; repeat wp_step; (split; [exact Hf|]); [done|auto].
Qed.

Lemma controlled_only w w' ms : only [lock] w w' → controlled w' ms → controlled w ms.
Proof.
  intros Ho Hms m. rewrite (Hms m), Ho; [done|]. intros Hin%list_elem_of_singleton. discriminate.
Qed.

Lemma cp_upgrade_machines_wp s w :
  cluster s = c → ck8sPatcher s = ck8sControlPlane s → synced KControlPlane w (ck8sControlPlane s) →
  (∀ ks, ks ≡ₚ (map_to_list (ownedMachines s)).*1 →
     controlled w (omap (λ n, ownedMachines s !! n) ks)) →
  wp (upgrade_machines s) w (λ w' r, performs w w' (ck8sControlPlane s) (upgradeTo s) r.2).
Proof.
  intros Hc Hp Hs Hms. unfold upgrade_machines. apply wp_func_on, gwp_bind, gwp_check, gwp_callp.
  rewrite Hc. eapply wp_mono; [apply IsLocked_wp|]. intros w1 [[m|]|e] [Hf1 Hr].
  - destruct Hr as (Hv & Hheld & Hm). apply gwp_bind.
    eapply gwp_mono; [apply locked_wp; [done|done|]|done|].
    { by eapply synced_same. }
    intros w2 st r Hwl. left. exists m. split; [done|]. split; [done|]. cbn [fst snd].
    by eapply when_locked_pre.
  - destruct Hr as [Hfree Hst].
    assert (only [lock] w w1) as Ho by (eapply only_frame; [exact Hf1|set_solver]).
    apply gwp_bind, gwp_ret, gwp_bind. unfold range_machines.
    apply gwp_bind, gwp_call; [by apply api_pre|]. intros ks w2 Hks He.
    pose proof (api_quiet _ _ _ _ He I) as Hv2. apply gwp_ret.
    specialize (Hms ks Hks). set (ms := omap _ ks) in *.
    assert (freed w w2) as Hw2.
    { split; [eapply only_trans; [exact Ho|by apply only_same]|].
      by rewrite (UpgradeLock.state_of_same c _ _ Hv2). }
    apply gwp_bind. eapply gwp_mono; [apply (loop_wp s w ms Hc Hp Hs) with
      (Q := λ w' st _, freed w w' ∧ st = (ck8sControlPlane s, length ms) ∧
                       next_free (upgradeTo s) ms = Finish)| |].
    + intros m Hm. by apply Hms in Hm as [? _].
    + exact Hw2.
    + done.
    + intros w3 st _ (Hw3 & -> & Hnext). apply gwp_bind, gwp_get. cbn [snd].
      rewrite bool_decide_true by (unfold ms; by apply lookup_range_length).
      eapply gwp_mono; [apply (finish_wp s w ms Hc Hp Hs); [intros m Hm; by apply Hms in Hm as [? _]|exact Hw3|exact Hnext]| |];
        intros w4 st r Hr; right; left; (split; [exact Hst|]); left; exists ms; done.
    + intros w3 st r Hr. right; left. split; [exact Hst|]. left. by exists ms.
  - repeat wp_step. right. destruct Hr as [Hr|[Hr Hst]].
    + right. split; [done|]. split; [|done]. eapply only_frame; [exact Hf1|set_solver].
    + left. split; [by right|]. right. split; [done|]. split; [|done].
      eapply only_frame; [exact Hf1|set_solver].
Qed.

Lemma cp_createScope_wp kcp w :
  wp (createScope kcp) w (λ w' r,
    same_view w w' ∧
    match r with
    | Ok s => cluster s = c ∧ ck8sControlPlane s = kcp ∧ ck8sPatcher s = kcp ∧
              upgradeTo s = GetUpgradeInstructions (kcp_meta kcp) ∧
              ∀ ks, ks ≡ₚ (map_to_list (ownedMachines s)).*1 →
                controlled w (omap (λ n, ownedMachines s !! n) ks)
    | Err _ => True
    end).
Proof.
  unfold createScope. repeat wp_step. apply gwp_call; [by apply api_pre|].
  intros [u|e] w1 _ Hn; pose proof (api_quiet _ _ _ _ Hn I) as Hv1; repeat wp_step; [|done].
  apply gwp_call; [by apply api_pre|].
  intros [o|e] w2 _ Ho; pose proof (api_quiet _ _ _ _ Ho I) as Hv2; repeat wp_step.
  2: { split; [by trans w1|done]. }
  apply owner_cluster in Ho as ->. apply gwp_deref; [|done]. intros c' [= <-].
  unfold getControlPlaneMachines. repeat wp_step.
  eapply wp_mono; [apply GetMachinesForCluster_wp|].
  intros w3 [ms|e] [Hv3 Hms]; repeat wp_step; (split; [trans w2; [by trans w1|done]|]); [|done].
  do 4 (split; [done|]). intros ks Hks m. rewrite lookup_range_elem by done.
  setoid_rewrite Hms. rewrite Hv2, Hv1. cbn [key_of key_ns key_name forallb ownedMachines].
  setoid_rewrite andb_true_r. naive_solver.
Qed.

Lemma cp_Reconcile_wp req w :
  wp (Reconcile req) w (λ w' r,
    same_view w w' ∧ r.2 ≠ None ∨
    match view KControlPlane w req with
    | None => same_view w w' ∧ r = (Result0, None)
    | Some kcp =>
        if bool_decide (GetUpgradeInstructions (kcp_meta kcp) = "") || deleting (kcp_meta kcp)
        then same_view w w' ∧ r = (Result0, None)
        else if negb (machinesAreReady kcp) then same_view w w' ∧ r = requeue
        else performs w w' kcp (GetUpgradeInstructions (kcp_meta kcp)) r
    end).
Proof.
  unfold Reconcile. repeat wp_step. apply gwp_call; [by apply api_pre|].
  intros r w1 _ [Hv1 Hr]%(api_get KControlPlane). destruct r as [kcp|e]; repeat wp_step.
  2: { destruct (IsNotFound e); repeat wp_step; [right|by left]. rewrite Hr by done. done. }
  rewrite Hr. destruct (bool_decide _); [wp_step; right; done|]. simpl.
  destruct (deleting (kcp_meta kcp)); [wp_step; right; done|].
  destruct (negb _); [wp_step; right; done|].
  repeat wp_step. eapply wp_mono; [apply cp_createScope_wp|].
  intros w2 [s|e] [Hv2 Hs]; repeat wp_step; [|left; split; [by trans w1|done]].
  destruct Hs as (Hc & Hkcp & Hp & Hto & Hown).
  assert (same_view w w2) as Hv by (by trans w1).
  eapply wp_mono.
  - apply (cp_upgrade_machines_wp s w2); [done|by rewrite Hkcp| |].
    + rewrite Hkcp. exists kcp. split; [|done]. rewrite Hv.
      pose proof (view_key _ _ _ _ Hr) as Hk. by rewrite Hk.
    + intros ks Hks m. rewrite (Hown ks Hks m), Hv2. done.
  - intros w3 [[kcp' n] r] Hperf. repeat wp_step. right. rewrite Hkcp, Hto in Hperf.
    by eapply performs_pre.
Qed.

(** C14: a reconciliation of a CK8sControlPlane without instructions,
    being deleted or with machines that are not ready changes nothing.
    Otherwise, when the upgrade lock is held by an existing machine, it only
    releases the lock (that machine is upgraded, or has other instructions),
    marks the control plane failed (its upgrade failed) or waits; when the lock
    is free, or was left by a machine that is gone, it marks the control plane
    done if every control plane machine is upgraded, waits for a machine that
    is being deleted, or requests the upgrade of one machine that is not
    upgraded, which then holds the lock.  No other machine is touched, and a
    machine is only touched when it holds the lock. *)
Theorem cp_reconcile_refines req w :
  wp (Reconcile req) w (λ w' r,
    same_view w w' ∧ r.2 ≠ None ∨
    match view KControlPlane w req with
    | None => same_view w w' ∧ r = (Result0, None)
    | Some kcp =>
        if bool_decide (GetUpgradeInstructions (kcp_meta kcp) = "") || deleting (kcp_meta kcp)
        then same_view w w' ∧ r = (Result0, None)
        else if negb (machinesAreReady kcp) then same_view w w' ∧ r = requeue
        else performs w w' kcp (GetUpgradeInstructions (kcp_meta kcp)) r
    end).
Proof. apply cp_Reconcile_wp. Qed.

(** ** The rolling upgrade of a control plane *)

Section Rollout.
Context `{!MetaLib, !K8sdApi, !TimeFormat} (req : ObjectKey) (to : string).

(** One successful reconciliation of the control plane, which is upgraded to [to],
    or of a machine. *)
Inductive turn : W → W → Prop :=
  | turn_control_plane w w' res :
      (∀ kcp, view KControlPlane w req = Some kcp → GetUpgradeInstructions (kcp_meta kcp) = to) →
      exec (Reconcile req) w w' (res, None) → turn w w'
  | turn_machine w w' key m res :
      view KMachine w key = Some m → is_Some (m_ConfigRef m) →
      exec (MachineUpgrade.Reconcile key) w w' (res, None) → turn w w'.

(** A machine with a request holds the lock. *)
Definition requests_locked w : Prop :=
  ∀ key m, view KMachine w key = Some m → pending (marks (m_meta m)) →
    mk_to (marks (m_meta m)) = Some to ∧ mk_release (marks (m_meta m)) = None ∧ lock_of w = Held key.

Lemma requests_same w w' :
  (∀ key, view KMachine w' key = view KMachine w key) → lock_of w' = lock_of w →
  requests_locked w → requests_locked w'.
Proof. intros Hv Hl Hi key m. rewrite Hv, Hl. apply Hi. Qed.

Lemma only_machines l w w' :
  only l w w' → (∀ key, (KMachine, key) ∉ l) → ∀ key, view KMachine w' key = view KMachine w key.
Proof. intros Ho Hl key. by apply Ho. Qed.

Lemma not_machine kcp : ∀ key, (KMachine, key) ∉ [lock; (KControlPlane, key_of (kcp_meta kcp))].
Proof. intros key. rewrite !elem_of_cons, elem_of_nil. naive_solver. Qed.

Lemma not_machine_lock : ∀ key, (KMachine, key) ∉ [lock].
Proof. intros key Hin%list_elem_of_singleton. discriminate. Qed.

Lemma requests_none w :
  requests_locked w → (lock_of w = Free ∨ ∃ h, lock_of w = Held h ∧ view KMachine w h = None) →
  ∀ key m, view KMachine w key = Some m → ¬ pending (marks (m_meta m)).
Proof.
  intros Hi Hst key m Hm Hp. destruct (Hi _ _ Hm Hp) as (_ & _ & Hl).
  destruct Hst as [Hst|(h & Hh & Hn)]; [congruence|]. rewrite Hl in Hh. injection Hh as <-. congruence.
Qed.

Lemma when_locked_keeps w w' kcp m res :
  to ≠ "" → requests_locked w → lock_of w = Held (key_of (m_meta m)) →
  view KMachine w (key_of (m_meta m)) = Some m →
  when_locked w w' kcp to m (res, None) → requests_locked w'.
Proof.
  intros Hto Hi Hl Hm. unfold when_locked.
  destruct (negb _ || _) eqn:Hb; [|destruct (IsMachineUpgradeFailed m)].
  - intros (Ho & _ & _) key m1 Hm1 Hp.
    rewrite (only_machines _ _ _ Ho not_machine_lock) in Hm1.
    destruct (Hi _ _ Hm1 Hp) as (Ht & Hrel & Hl1). rewrite Hl in Hl1. injection Hl1 as Hk.
    rewrite <- Hk, Hm in Hm1. injection Hm1 as <-. exfalso.
    unfold marks in Ht, Hrel; cbn [mk_to mk_release] in Ht, Hrel.
    apply orb_true_iff in Hb as [Hb|Hb].
    + apply negb_true_iff, bool_decide_eq_false in Hb. apply Hb.
      unfold GetUpgradeInstructions. by rewrite Ht.
    + apply bool_decide_eq_true in Hb. unfold ann0 in Hb. by rewrite Hrel in Hb.
  - intros [Hf _]. eapply requests_same; [|by eapply lock_of_frame|exact Hi].
    intros key. by apply Hf.
  - intros [Hv _]. eapply requests_same; [apply Hv|by apply UpgradeLock.state_of_same|exact Hi].
Qed.

Lemma when_free_keeps w w' kcp ms res :
  controlled w ms → (∀ key m, view KMachine w key = Some m → ¬ pending (marks (m_meta m))) →
  when_free w w' kcp to ms (res, None) → requests_locked w'.
Proof.
  intros Hms Hn. unfold when_free.
  assert ((∀ key, view KMachine w' key = view KMachine w key) → requests_locked w') as Hsame.
  { intros Hv key m Hm Hp. rewrite Hv in Hm. by destruct (Hn _ _ Hm). }
  destruct (next_free to ms) as [| | |m].
  - intros [Ho _]. by eapply Hsame, only_machines, not_machine.
  - intros [Ho _]. by eapply Hsame, only_machines, not_machine_lock.
  - intros [Ho _]. by eapply Hsame, only_machines, not_machine_lock.
  - intros (Ho & _ & Hr). destruct (Hr eq_refl) as (_ & Hl & _ & m' & Hm' & Hmk).
    intros key m1 Hm1 Hp. destruct (decide (key = key_of (m_meta m))) as [->|Hne].
    + rewrite Hm' in Hm1. injection Hm1 as <-. by rewrite Hmk.
    + rewrite Ho in Hm1; [by destruct (Hn _ _ Hm1)|].
      rewrite !elem_of_cons, elem_of_nil. naive_solver.
Qed.

Lemma turn_keeps w w' : to ≠ "" → turn w w' → requests_locked w → requests_locked w'.
Proof.
  intros Hto Ht Hi. destruct Ht as [w w' res Hinst He|w w' key m res Hm Href He].
  - pose proof (wp_sound _ _ _ _ _ (cp_Reconcile_wp req w) He) as Hw. cbn [fst snd] in Hw.
    assert (same_view w w' → requests_locked w') as Hsame.
    { intros Hv. eapply requests_same; [apply Hv|by apply UpgradeLock.state_of_same|exact Hi]. }
    destruct Hw as [[_ ?]|Hw]; [done|].
    destruct (view KControlPlane w req) as [kcp|]; [|by apply Hsame, Hw].
    rewrite (Hinst kcp eq_refl) in Hw.
    destruct (_ || _); [by apply Hsame, Hw|]. destruct (negb _); [by apply Hsame, Hw|].
    destruct Hw as [(m & Hl & Hm & Hw)|[[Hst [(ms & Hms & Hw)|(? & _)]]|(? & _)]]; [| |done|done].
    + by eapply when_locked_keeps.
    + eapply when_free_keeps; [exact Hms|by apply requests_none|exact Hw].
  - pose proof (exec_frame _ _ _ _ _ _ _ (MachineUpgrade.Reconcile_writes key) He) as Hf.
    assert (∀ m, view KMachine w key = Some m → is_Some (m_ConfigRef m)) as Hcfg.
    { intros m1 Hm1. rewrite Hm in Hm1. by injection Hm1 as <-. }
    pose proof (wp_sound _ _ _ _ _ (MachineUpgrade.Reconcile_wp key w Hcfg) He) as Hw.
    cbn [fst snd] in Hw. rewrite Hm in Hw.
    destruct (Hw eq_refl) as (k' & (o & Ho & Hk') & Hstep). apply step_pending with (to := to) in Hstep as [Hid Hst].
    intros key1 m1 Hm1 Hp. rewrite (lock_of_frame _ _ _ _ Hf) by done.
    destruct (decide (key1 = key)) as [->|Hne].
    2: { rewrite Hf in Hm1 by congruence. by apply Hi. }
    rewrite Ho in Hm1. injection Hm1 as <-. rewrite Hk' in Hp |- *.
    destruct (decide (mk_to (marks (m_meta m)) = None)) as [Hn|Hn].
    { rewrite Hid in Hp by (intros Hp'; by apply Hp'). by destruct Hp. }
    destruct (Hi _ _ Hm Hn) as (Ht & Hrel & Hl). destruct (Hst Ht Hrel) as [[? ?]|[? _]]; [|done].
    by rewrite Hl.
Qed.

(** C3: the machines of a control plane are upgraded one at a time.  From a
    store in which no machine has a request, after any sequence of successful
    reconciliations of the control plane and of machines, in any order, a
    machine with a pending request holds the upgrade lock; so there is at most
    one, whatever order the control plane's machines are visited in. *)
Theorem cp_rollout_exclusive w w' :
  to ≠ "" → (∀ key m, view KMachine w key = Some m → mk_to (marks (m_meta m)) = None) →
  rtc turn w w' →
  ∀ key m, view KMachine w' key = Some m → mk_to (marks (m_meta m)) ≠ None →
  lock_of w' = Held key ∧
  ∀ key' m', view KMachine w' key' = Some m' → mk_to (marks (m_meta m')) ≠ None → key' = key.
Proof.
  intros Hto Hnone Hturns.
  assert (requests_locked w') as Hi.
  { assert (requests_locked w) as Hi by (intros key m Hm Hp; by destruct Hp; eapply Hnone).
    clear Hnone. induction Hturns as [|w w1 w2 Hturn _ IH]; [done|]. apply IH. by eapply turn_keeps. }
  intros key m Hm Hp. destruct (Hi _ _ Hm Hp) as (_ & _ & Hl). split; [done|].
  intros key' m' Hm' Hp'. destruct (Hi _ _ Hm' Hp') as (_ & _ & Hl'). congruence.
Qed.
End Rollout.
End Server.

(** ** Witnesses: a control plane of two machines *)

Module Examples.
Definition to : string := "channel=1.31".
Definition kcp : CK8sControlPlane :=
  mkControlPlane (set_Annotations (Some {[InPlaceUpgradeToAnnotation := to]}) (meta_named "k"))
    (mkControlPlaneSpec (Some 2%Z) "v1.30.0" empty_spec None
       (mkMachineTemplate ∅ ∅ (ref_named "InfraTemplate" "t") None None None) None None)
    (mkControlPlaneStatus "" 2 None 2 2 0 true true "" None 0 [] None).
Definition machine (n : string) : Machine :=
  set_m_meta (mkMeta n "ns" n {[Clusterv1.ClusterNameLabel := "c"; Clusterv1.MachineControlPlaneLabel := EmptyString]}
    None [] [] 0 None) (machine_named n).
Definition store : Store :=
  put KControlPlane kcp (put KMachine (machine "b") (put KMachine (machine "a") empty_store)).
Definition world : handler Store := friendly [] (cluster_named "c") (λ r, k8sd_ok "").
Definition req : ObjectKey := mkKey "ns" "k".
End Examples.
Import Examples.
#[local] Instance the_env : Env Store := server_env world.

Lemma ex_owner m o (w w' : Store) :
  env_step (GetOwnerCluster m) (Ok o) w w' → o = Some (cluster_named "c").
Proof. intros Hs. unfold env_step in Hs. simpl in Hs. by injection Hs as <- _. Qed.

Lemma cp_reconcile_refines_witness :
  fst <$> run (serve world) (Reconcile req) store = Some requeue ∧
  wp (Reconcile req) store (λ w' r,
    same_view store w' ∧ r.2 ≠ None ∨
    match view KControlPlane store req with
    | None => same_view store w' ∧ r = (Result0, None)
    | Some kcp =>
        if bool_decide (GetUpgradeInstructions (kcp_meta kcp) = "") || deleting (kcp_meta kcp)
        then same_view store w' ∧ r = (Result0, None)
        else if negb (machinesAreReady kcp) then same_view store w' ∧ r = requeue
        else performs (cluster_named "c") store w' kcp (GetUpgradeInstructions (kcp_meta kcp)) r
    end).
Proof. split; [vm_compute; reflexivity|]. exact (cp_reconcile_refines (cluster_named "c") ex_owner req store). Defined.

Lemma cp_ex_turn : ∃ w', turn req to store w'.
Proof.
  assert (fst <$> run (serve world) (Reconcile req) store = Some requeue) as Hrun
    by (vm_compute; reflexivity).
  destruct (run (serve world) (Reconcile req) store) as [[r w']|] eqn:Hr; [|done].
  injection Hrun as ->. exists w'. apply turn_control_plane with (res := After (5 * Time.Second)).
  - intros kcp' Hk. assert (view KControlPlane store req = Some kcp) as Hk' by (vm_compute; reflexivity).
    rewrite Hk' in Hk. by injection Hk as <-.
  - eapply serve_exec; [|exact Hr]. apply friendly_lang.
Qed.

Lemma ex_none key m : view KMachine store key = Some m → mk_to (marks (m_meta m)) = None.
Proof.
  unfold store. intros Hm. change (look KMachine store key = Some m) in Hm. unfold store in Hm.
  rewrite look_put_ne in Hm by done.
  apply look_put_Some in Hm as [->|Hm]; [by vm_compute|].
  apply look_put_Some in Hm as [->|Hm]; [by vm_compute|]. by rewrite look_empty in Hm.
Qed.

Lemma cp_rollout_exclusive_witness :
  ∃ w', turn req to store w' ∧
    ∀ key m, view KMachine w' key = Some m → mk_to (marks (m_meta m)) ≠ None →
    UpgradeLock.state_of (cluster_named "c") w' = Held key ∧
    ∀ key' m', view KMachine w' key' = Some m' → mk_to (marks (m_meta m')) ≠ None → key' = key.
Proof.
  destruct cp_ex_turn as [w' Ht]. exists w'. split; [exact Ht|].
  exact (cp_rollout_exclusive (cluster_named "c") ex_owner req to store w'
    ltac:(done) ex_none (rtc_once _ _ Ht)).
Defined.
End OrchestratedCP.
