(* ===== verification/ControlPlaneLiveness.v ===== *)
(** Liveness of the in-place upgrade of a control plane: as for a deployment
    ([RolloutLiveness]), with the upgrade lock.  The lock that an upgraded machine
    leaves behind has to be released before the next machine is started; that
    release is a step of the measure. *)

From S2P Require Import Prelude Fairness Objects ApiTypes Effects Libs RefLibs ApiServer RefServer.
From S2P Require Import Token Workload Inplace UpgradeLock MachineUpgrade Orchestrate OrchestratedMD.
From S2P Require Import RolloutLiveness OrchestratedCP.

Module ControlPlaneLiveness.
Import Inplace Orchestrate RolloutLiveness OrchestratedCP UpgradeLock.

(** The choice among the machines, when the lock is free. *)
Lemma next_free_spec to ms :
  match next_free to ms with
  | Finish => ∀ m, m ∈ ms → upgraded to (marks (m_meta m))
  | Wait => ∃ m, m ∈ ms ∧ deleting (m_meta m) = true
  | Start m => m ∈ ms ∧ ¬ upgraded to (marks (m_meta m))
  | Fail _ => False
  end.
Proof.
  induction ms as [|m ms IH]; simpl; [by intros m ?%elem_of_nil|].
  destruct (IsUpgraded (m_meta m) to) eqn:Hu.
  - apply bool_decide_eq_true in Hu. destruct (next_free to ms) as [| |m'|m'].
    + intros m1 [->|Hm]%elem_of_cons; [exact Hu|by apply IH].
    + destruct IH as (m1 & Hm1 & Hd). exists m1. split; [by right|done].
    + done.
    + destruct IH as [Hm' Hn]. split; [by right|done].
  - apply bool_decide_eq_false in Hu. destruct (deleting (m_meta m)) eqn:Hd.
    + exists m. split; [by left|done].
    + split; [by left|exact Hu].
Qed.

Section Server.
Context {W : Type} `{!ApiErrors, !MetaLib, !CollectionsLib, !CollectionsLaws, !Env W, !ApiServer W}.
Context `{!K8sdApi, !TimeFormat} (req : ObjectKey) (to : string) (keys : list ObjectKey).
Implicit Types (w : W).

Variable c : Cluster.
Hypothesis owner_cluster : ∀ m o w w', env_step (GetOwnerCluster m) (Ok o) w w' → o = Some c.

Abbreviation lock_of := (UpgradeLock.state_of c).
Abbreviation all_marks w := (OrchestratedMD.marks_of w <$> keys).
Abbreviation marks_of := OrchestratedMD.marks_of.

(** The machines of the control plane are those of [keys]. *)
Definition has_machines w : Prop :=
  ∀ ms, controlled c w ms → ∀ key, key ∈ keys ↔ ∃ m, m ∈ ms ∧ key_of (m_meta m) = key.

Definition idle (k : upgrade_marks) : Prop := mk_to k = None.

#[export] Instance idle_dec k : Decision (idle k) := decide (_ = _).

(** The steps left: those of the machines, and the release of a lock that no
    upgrading machine holds. *)
Definition left_over (st : list upgrade_marks * LockState) : nat :=
  match st.2 with
  | Held _ => if decide (Forall idle st.1) then 1 else 0
  | _ => 0
  end.
Definition steps_left (st : list upgrade_marks * LockState) : nat := 2 * total to st.1 + left_over st.

Definition state w : list upgrade_marks * LockState := (all_marks w, lock_of w).

(** What holds throughout an upgrade: a machine with a request is one of the control
    plane and holds the lock, and all are on their way. *)
Record on_course w : Prop := {
  course_locked key : ¬ idle (marks_of w key) →
    mk_to (marks_of w key) = Some to ∧ mk_release (marks_of w key) = None ∧ lock_of w = Held key;
  course_keys key : lock_of w = Held key → key ∈ keys;
  course_track : Forall (on_track to) (all_marks w);
}.

Lemma marks_of_view w key m : view KMachine w key = Some m → marks_of w key = marks (m_meta m).
Proof. intros Hm. unfold OrchestratedMD.marks_of. by rewrite Hm. Qed.

Lemma all_marks_same w w' :
  (∀ key, view KMachine w' key = view KMachine w key) → all_marks w' = all_marks w.
Proof.
  intros Hv. apply list_fmap_ext. intros i key _. unfold OrchestratedMD.marks_of. by rewrite Hv.
Qed.

Lemma idle_all w :
  on_course w → (lock_of w = Free ∨ ∃ h, lock_of w = Held h ∧ idle (marks_of w h)) →
  ∀ key, idle (marks_of w key).
Proof.
  intros Hc Hl key. destruct (decide (idle (marks_of w key))) as [?|Hn]; [done|].
  destruct (course_locked w Hc key Hn) as (_ & _ & Hk).
  destruct Hl as [Hl|(h & Hl & Hi)]; [congruence|]. rewrite Hk in Hl. by injection Hl as <-.
Qed.

Lemma left_over_idle w h :
  (∀ key, idle (marks_of w key)) → lock_of w = Held h → left_over (state w) = 1.
Proof.
  intros Hi Hl. unfold left_over, state. cbn [fst snd]. rewrite Hl, decide_True; [done|].
  apply Forall_fmap, list.Forall_forall. intros key _. apply Hi.
Qed.

Lemma left_over_le st : left_over st ≤ 1.
Proof. unfold left_over. destruct st.2; [lia|case_decide; lia|lia]. Qed.

(** The course is kept by everything that keeps the marks and the lock, and by a
    release of the lock when no machine has a request. *)
Lemma on_course_same w w' :
  (∀ key, marks_of w' key = marks_of w key) → lock_of w' = lock_of w → on_course w → on_course w'.
Proof.
  intros Hm Hl [H1' H2' H3']. split.
  - intros key. rewrite Hm, Hl. apply H1'.
  - intros key. rewrite Hl. apply H2'.
  - erewrite list_fmap_ext; [exact H3'|]. intros i key _. apply Hm.
Qed.

Lemma on_course_released w w' :
  (∀ key, marks_of w' key = marks_of w key) → (∀ key, idle (marks_of w key)) → lock_of w' = Free →
  on_course w → on_course w'.
Proof.
  intros Hm Hi Hl [H1' H2' H3']. split.
  - intros key. rewrite Hm. intros Hn. by destruct Hn.
  - intros key. by rewrite Hl.
  - erewrite list_fmap_ext; [exact H3'|]. intros i key _. apply Hm.
Qed.

Lemma released_steps w w' h :
  (∀ key, marks_of w' key = marks_of w key) → (∀ key, idle (marks_of w key)) →
  lock_of w = Held h → lock_of w' = Free → steps_left (state w') < steps_left (state w).
Proof.
  intros Hm Hi Hl Hl'. pose proof (left_over_idle w h Hi Hl) as Hone.
  unfold steps_left. rewrite Hone. unfold left_over, state. cbn [fst snd]. rewrite Hl'.
  assert (all_marks w' = all_marks w) as -> by (apply list_fmap_ext; intros i key _; apply Hm). lia.
Qed.

(** *** A turn of the control plane *)

(** The control plane asks for the upgrade of its machines [keys] to [to]. *)
Definition asks w (kcp : CK8sControlPlane) : Prop :=
  view KControlPlane w req = Some kcp ∧ deleting (kcp_meta kcp) = false ∧
  machinesAreReady kcp = true ∧ GetUpgradeInstructions (kcp_meta kcp) = to ∧ has_machines w ∧
  ∀ key m, key ∈ keys → view KMachine w key = Some m → deleting (m_meta m) = false.

Definition progress w w' : Prop :=
  on_course w' ∧ (state w' = state w ∨ steps_left (state w') < steps_left (state w)).

Lemma progress_same w w' :
  on_course w → (∀ key, view KMachine w' key = view KMachine w key) → lock_of w' = lock_of w →
  progress w w'.
Proof.
  intros Hc Hv Hl. split.
  - eapply on_course_same; [|exact Hl|exact Hc]. intros key. unfold OrchestratedMD.marks_of. by rewrite Hv.
  - left. unfold state. by rewrite Hl, (all_marks_same w w' Hv).
Qed.

Lemma progress_release w w' :
  on_course w → (∀ key, view KMachine w' key = view KMachine w key) →
  (∀ key, idle (marks_of w key)) → lock_of w' = Free →
  (lock_of w = Free ∨ ∃ h, lock_of w = Held h) →
  progress w w' ∧ (lock_of w ≠ Free → steps_left (state w') < steps_left (state w)).
Proof.
  intros Hc Hv Hi Hl' Hl.
  assert (∀ key, marks_of w' key = marks_of w key) as Hm
    by (intros key; unfold OrchestratedMD.marks_of; by rewrite Hv).
  destruct Hl as [Hl|[h Hl]].
  - split; [|done]. apply progress_same; [done|done|congruence].
  - pose proof (released_steps w w' h Hm Hi Hl Hl') as Hlt. split; [|done].
    split; [by eapply on_course_released|by right].
Qed.

Lemma not_asked_idle w key m :
  view KMachine w key = Some m → to ≠ "" → on_course w →
  negb (bool_decide (GetUpgradeInstructions (m_meta m) = to)) || IsUpgraded (m_meta m) to = true →
  idle (marks_of w key).
Proof.
  intros Hm Hto Hc Hb. destruct (decide (idle (marks_of w key))) as [?|Hn]; [done|exfalso].
  destruct (course_locked w Hc key Hn) as (Ht & Hrel & _). rewrite (marks_of_view w key m Hm) in Ht, Hrel.
  unfold marks in Ht, Hrel; cbn [mk_to mk_release] in Ht, Hrel. apply orb_true_iff in Hb as [Hb|Hb].
  - apply negb_true_iff, bool_decide_eq_false in Hb. apply Hb. unfold GetUpgradeInstructions. by rewrite Ht.
  - apply bool_decide_eq_true in Hb. unfold ann0 in Hb. rewrite Hrel in Hb. by apply Hto.
Qed.

Lemma idle_not_asked w key m :
  view KMachine w key = Some m → idle (marks_of w key) →
  negb (bool_decide (GetUpgradeInstructions (m_meta m) = to)) || IsUpgraded (m_meta m) to = true.
Proof.
  intros Hm Hi. rewrite (marks_of_view w key m Hm) in Hi. unfold idle, marks in Hi. cbn [mk_to] in Hi.
  unfold GetUpgradeInstructions, IsUpgraded. rewrite Hi. by case_bool_decide.
Qed.

(** The next machine is started and holds the lock. *)
Lemma progress_start w w' kcp m m' :
  to ≠ "" → NoDup keys → on_course w → (∀ key, idle (marks_of w key)) →
  key_of (m_meta m) ∈ keys → view KMachine w (key_of (m_meta m)) = Some m →
  ¬ upgraded to (marks (m_meta m)) →
  only [(KConfigMap, lock_key c); (KControlPlane, key_of (kcp_meta kcp)); (KMachine, key_of (m_meta m))] w w' →
  lock_of w' = Held (key_of (m_meta m)) →
  view KMachine w' (key_of (m_meta m)) = Some m' → marks (m_meta m') = requested to →
  on_course w' ∧ steps_left (state w') < steps_left (state w).
Proof.
  intros Hto Hnd Hc Hi Hin Hm Hu Ho Hl Hm' Hmk.
  assert (∀ key, key ≠ key_of (m_meta m) → marks_of w' key = marks_of w key) as Hother.
  { intros key Hne. unfold OrchestratedMD.marks_of. rewrite Ho; [done|].
    rewrite !elem_of_cons, elem_of_nil. naive_solver. }
  assert (marks_of w' (key_of (m_meta m)) = requested to) as Hself by (by rewrite (marks_of_view _ _ _ Hm')).
  apply list_elem_of_lookup_1 in Hin as [i Hkey].
  pose proof (OrchestratedMD.marks_insert keys w w' i _ _ Hnd Hkey Hself Hother) as Hall.
  assert (all_marks w !! i = Some (marks (m_meta m))) as Hik
    by (by rewrite list_lookup_fmap, Hkey; simpl; rewrite (marks_of_view _ _ _ Hm)).
  pose proof (Forall_lookup_1 _ _ _ _ (course_track w Hc) Hik) as Htrack.
  pose proof (Hi (key_of (m_meta m))) as Hidle. rewrite (marks_of_view _ _ _ Hm) in Hidle.
  destruct (track_not_asked to _ Htrack Hidle) as [?|Hq]; [done|]. split; [split|].
  - intros key Hn. destruct (decide (key = key_of (m_meta m))) as [->|Hne]; [by rewrite Hself|].
    rewrite Hother in Hn by done. by destruct (Hn (Hi key)).
  - intros key Hk. rewrite Hl in Hk. injection Hk as <-. by eapply list_elem_of_lookup_2.
  - rewrite Hall. apply Forall_insert; [apply Hc|apply track_asked].
  - pose proof (total_insert to _ i _ (requested to) Hik) as Ht.
    pose proof (rank_requested to _ Hu Htrack Hq Hto). pose proof (left_over_le (state w')).
    unfold steps_left, state at 1 3. cbn [fst]. rewrite Hall. lia.
Qed.

Lemma finished_total ms w :
  controlled c w ms → has_machines w → (∀ m, m ∈ ms → upgraded to (marks (m_meta m))) →
  (∀ key, idle (marks_of w key)) → total to (all_marks w) = 0.
Proof.
  intros Hms Hk Hu Hi. assert (Forall (λ k, rank to k = 0) (all_marks w)) as Hz.
  { apply Forall_fmap, list.Forall_forall. intros key Hkey. cbv beta.
    apply (Hk ms Hms) in Hkey as (m & Hm & <-). simpl.
    pose proof Hm as (Hv & _)%Hms. specialize (Hi (key_of (m_meta m))).
    rewrite (marks_of_view _ _ _ Hv) in *. unfold rank. rewrite Hi. rewrite decide_True; [done|auto]. }
  clear -Hz. induction Hz as [|k ks Hk _ IH]; [done|]. unfold total in *. simpl. lia.
Qed.

Lemma performs_progress w w' kcp res :
  to ≠ "" → NoDup keys → on_course w → has_machines w → performs c w w' kcp to (res, None) →
  progress w w' ∧
  ((∀ key m, key ∈ keys → view KMachine w key = Some m → deleting (m_meta m) = false) →
   (∀ key, idle (marks_of w key)) → 0 < steps_left (state w) → steps_left (state w') < steps_left (state w)).
Proof.
  intros Hto Hnd Hc Hk [(m & Hl & Hm & Hw)|[[Hst [(ms & Hms & Hw)|(? & _)]]|(? & _)]]; [| |done|done].
  - unfold when_locked in Hw. destruct (_ || _) eqn:Hb.
    + destruct Hw as (Ho & _ & Hr). destruct (Hr eq_refl) as [_ Hfree].
      pose proof (not_asked_idle w _ m Hm Hto Hc Hb) as Hidle.
      assert (∀ key, idle (marks_of w key)) as Hi by (eapply idle_all; eauto).
      destruct (progress_release w w' Hc (only_machines _ _ _ Ho (not_machine_lock c)) Hi Hfree) as [Hp Hd]; [eauto|].
      split; [done|]. intros _ _ _. apply Hd. congruence.
    + assert (¬ idle (marks_of w (key_of (m_meta m)))) as Hn.
      { intros Hi. by rewrite (idle_not_asked w _ m Hm Hi) in Hb. }
      split; [|intros _ Hi; by destruct (Hn (Hi _))].
      destruct (IsMachineUpgradeFailed m).
      * destruct Hw as [Hf _]. apply progress_same; [done|intros key; by apply Hf|by eapply lock_of_frame].
      * destruct Hw as [Hv _]. apply progress_same; [done|apply Hv|by apply state_of_same].
  - assert (∀ key, idle (marks_of w key)) as Hi.
    { eapply idle_all; [done|]. destruct Hst as [?|(h & Hh & Hn)]; [by left|right]. exists h.
      split; [done|]. unfold idle, OrchestratedMD.marks_of. by rewrite Hn. }
    assert (lock_of w = Free ∨ ∃ h, lock_of w = Held h) as Hl by (destruct Hst as [?|(h & Hh & _)]; eauto).
    assert (lock_of w = Free → left_over (state w) = 0) as Hlo.
    { intros Hfree. unfold left_over, state. cbn [snd]. by rewrite Hfree. }
    unfold when_free in Hw. pose proof (next_free_spec to ms) as Hnext.
    destruct (next_free to ms) as [| | |m]; [| |done|].
    + destruct Hw as (Ho & Hfree & _).
      destruct (progress_release w w' Hc (only_machines _ _ _ Ho (not_machine c kcp)) Hi Hfree Hl) as [Hp Hd].
      split; [done|]. intros _ _ Hpos. apply Hd. intros Hf. unfold steps_left in Hpos.
      rewrite (Hlo Hf) in Hpos. unfold state in Hpos. cbn [fst] in Hpos.
      rewrite (finished_total ms w Hms Hk Hnext Hi) in Hpos. lia.
    + destruct Hw as (Ho & Hfree & _).
      destruct (progress_release w w' Hc (only_machines _ _ _ Ho (not_machine_lock c)) Hi Hfree Hl) as [Hp _].
      split; [done|]. intros Hdel. destruct Hnext as (m & Hm & Hd). pose proof Hm as (Hv & _)%Hms.
      rewrite (Hdel (key_of (m_meta m)) m) in Hd; [done| |done]. apply (Hk ms Hms). by exists m.
    + destruct Hw as (Ho & _ & Hr). destruct (Hr eq_refl) as (_ & Hheld & _ & m' & Hm' & Hmk).
      destruct Hnext as [Hin Hu]. pose proof Hin as (Hv & _)%Hms.
      destruct (progress_start w w' kcp m m') as [Hc' Hlt]; try done.
      { apply (Hk ms Hms). by exists m. }
      split; [by split; [|right]|done].
Qed.

(** *** A turn of a machine *)

(** What a reconciliation of a machine without error does. *)
Lemma machine_step w w' key m res :
  view KMachine w key = Some m → is_Some (m_ConfigRef m) →
  exec (MachineUpgrade.Reconcile key) w w' (res, None) →
  MachineUpgrade.step (marks_of w key) res (marks_of w' key) ∧
  (∀ key', key' ≠ key → marks_of w' key' = marks_of w key') ∧ lock_of w' = lock_of w.
Proof.
  intros Hm Href He.
  pose proof (exec_frame _ _ _ _ _ _ _ (MachineUpgrade.Reconcile_writes key) He) as Hf.
  assert (∀ m, view KMachine w key = Some m → is_Some (m_ConfigRef m)) as Hcfg.
  { intros m1 Hm1. rewrite Hm in Hm1. by injection Hm1 as <-. }
  pose proof (wp_sound _ _ _ _ _ (MachineUpgrade.Reconcile_wp key w Hcfg) He) as Hw.
  cbn [fst snd] in Hw. rewrite Hm in Hw. destruct (Hw eq_refl) as (k' & (o & Ho & <-) & Hstep).
  split; [by rewrite (marks_of_view w key m Hm), (marks_of_view w' key o Ho)|]. split.
  - intros key' Hne. unfold OrchestratedMD.marks_of. rewrite Hf; [done|]. congruence.
  - by eapply lock_of_frame.
Qed.

Lemma machine_on_course w w' key m res :
  on_course w → view KMachine w key = Some m → is_Some (m_ConfigRef m) →
  exec (MachineUpgrade.Reconcile key) w w' (res, None) → on_course w'.
Proof.
  intros Hc Hm Href He. destruct (machine_step w w' key m res Hm Href He) as (Hs & Hother & Hl).
  split.
  - intros key' Hn. rewrite Hl. destruct (decide (key' = key)) as [->|Hne].
    2: { rewrite Hother in * by done. by apply Hc. }
    apply step_pending with (to := to) in Hs as [Hid Hst]. unfold pending in *.
    destruct (decide (idle (marks_of w key))) as [Hi|Hn'].
    { rewrite Hid in Hn by (intros Hp; by apply Hp). by destruct Hn. }
    destruct (course_locked w Hc key Hn') as (Ht & Hrel & Hh).
    destruct (Hst Ht Hrel) as [[? ?]|[Hp _]]; [done|by destruct Hp].
  - intros key'. rewrite Hl. apply Hc.
  - apply Forall_fmap, list.Forall_forall. intros key' Hkey'. simpl.
    pose proof (course_track w Hc) as Htr. rewrite Forall_fmap, list.Forall_forall in Htr.
    specialize (Htr key' Hkey'). simpl in Htr. destruct (decide (key' = key)) as [->|Hne].
    + by apply (step_rank to _ _ _ Htr Hs).
    + by rewrite Hother.
Qed.

Lemma machine_progress w w' key m res :
  NoDup keys → on_course w → view KMachine w key = Some m → is_Some (m_ConfigRef m) →
  exec (MachineUpgrade.Reconcile key) w w' (res, None) →
  none_failed (all_marks w) (all_marks w') →
  progress w w' ∧
  (res = Result0 → ¬ idle (marks_of w key) → steps_left (state w') < steps_left (state w)).
Proof.
  intros Hnd Hc Hm Href He Hnf. pose proof (machine_on_course w w' key m res Hc Hm Href He) as Hc'.
  destruct (machine_step w w' key m res Hm Href He) as (Hs & Hother & Hl).
  assert (marks_of w' key = marks_of w key → state w' = state w) as Hsame.
  { intros Hk. unfold state. rewrite Hl. f_equal. apply list_fmap_ext. intros i key' _.
    destruct (decide (key' = key)) as [->|Hne]; [done|by apply Hother]. }
  destruct (decide (key ∈ keys)) as [Hkey|Hkey].
  2: { assert (idle (marks_of w key)) as Hi.
       { destruct (decide (idle (marks_of w key))) as [?|Hn]; [done|].
         destruct (course_locked w Hc key Hn) as (_ & _ & Hh). by destruct Hkey; apply Hc. }
       split; [split; [done|left; apply Hsame]|done].
       apply step_pending with (to := to) in Hs as [Hid _]. apply Hid. intros Hp. by apply Hp. }
  apply list_elem_of_lookup_1 in Hkey as [i Hi].
  pose proof (OrchestratedMD.marks_insert keys w w' i key _ Hnd Hi eq_refl Hother) as Hall.
  assert (all_marks w !! i = Some (marks_of w key)) as Hik by (by rewrite list_lookup_fmap, Hi).
  pose proof (Forall_lookup_1 _ _ _ _ (course_track w Hc) Hik) as Htrack.
  assert (rank to (marks_of w' key) < rank to (marks_of w key) → steps_left (state w') < steps_left (state w))
    as Hless.
  { intros Hlt. pose proof (total_insert to _ i _ (marks_of w' key) Hik) as Ht.
    pose proof (left_over_le (state w')). unfold steps_left, state at 1 3. cbn [fst]. rewrite Hall. lia. }
  destruct (step_rank to _ _ _ Htrack Hs) as [_ [[Hf Hnf']|[Hlt|[Hk Hres]]]].
  - destruct Hnf'. rewrite Hall in Hnf. apply (Hnf i _ (marks_of w' key) Hik); [|done].
    apply list_lookup_insert_eq. by eapply lookup_lt_Some.
  - split; [split; [done|right]|]; auto.
  - split; [split; [done|left; by apply Hsame]|]. intros -> Hn. by destruct Hres.
Qed.

(** *** Executions *)

Definition control_plane_turn w w' : Prop :=
  ∃ kcp res, asks w kcp ∧ exec (Reconcile req) w w' (res, None).

Definition machine_turn key w w' : Prop :=
  ∃ m, view KMachine w key = Some m ∧ is_Some (m_ConfigRef m) ∧
    exec (MachineUpgrade.Reconcile key) w w' (Result0, None).

(** A fair execution: in each step a controller takes a turn or something happens
    that changes neither the upgrade marks of the machines nor the lock; each
    controller takes its turn again and again. *)
Record fair_run (f : nat → W) : Prop := {
  run_machines n : has_machines (f n);
  run_step n :
    OrchestratedCP.turn req to (f n) (f (S n)) ∨
    (∀ key, marks_of (f (S n)) key = marks_of (f n) key) ∧ lock_of (f (S n)) = lock_of (f n);
  run_control_plane n : ∃ m, n ≤ m ∧ control_plane_turn (f m) (f (S m));
  run_machine n key : key ∈ keys → ∃ m, n ≤ m ∧ machine_turn key (f m) (f (S m));
}.

(** What a turn of the control plane did. *)
Lemma cp_turn_performs w w' res :
  (∀ kcp, view KControlPlane w req = Some kcp → GetUpgradeInstructions (kcp_meta kcp) = to) →
  exec (Reconcile req) w w' (res, None) →
  same_view w w' ∨ ∃ kcp, view KControlPlane w req = Some kcp ∧ performs c w w' kcp to (res, None).
Proof.
  intros Hinst He. apply (wp_sound _ _ _ _ _ (cp_Reconcile_wp c owner_cluster req w)) in He.
  destruct He as [[_ ?]|He]; [done|].
  destruct (view KControlPlane w req) as [kcp|]; [|by left; apply He].
  rewrite (Hinst kcp eq_refl) in He. destruct (_ || _); [by left; apply He|].
  destruct (negb _); [by left; apply He|]. right. by exists kcp.
Qed.

Lemma turn_on_course w w' :
  to ≠ "" → NoDup keys → on_course w → has_machines w → OrchestratedCP.turn req to w w' → on_course w'.
Proof.
  intros Hto Hnd Hc Hk Ht. destruct Ht as [w w' res Hinst He|w w' key m res Hm Href He].
  - destruct (cp_turn_performs w w' res Hinst He) as [Hv|(kcp & _ & Hp)].
    + by destruct (progress_same w w' Hc (Hv KMachine) (state_of_same c w w' Hv)).
    + by destruct (performs_progress w w' kcp res Hto Hnd Hc Hk Hp) as [[? _] _].
  - by eapply machine_on_course.
Qed.

Lemma turn_progress w w' :
  to ≠ "" → NoDup keys → on_course w → has_machines w → none_failed (all_marks w) (all_marks w') →
  OrchestratedCP.turn req to w w' → state w' = state w ∨ steps_left (state w') < steps_left (state w).
Proof.
  intros Hto Hnd Hc Hk Hnf Ht. destruct Ht as [w w' res Hinst He|w w' key m res Hm Href He].
  - destruct (cp_turn_performs w w' res Hinst He) as [Hv|(kcp & _ & Hp)].
    + apply (progress_same w w' Hc (Hv KMachine) (state_of_same c w w' Hv)).
    + by destruct (performs_progress w w' kcp res Hto Hnd Hc Hk Hp) as [[_ ?] _].
  - by destruct (machine_progress w w' key m res Hnd Hc Hm Href He Hnf) as [[_ ?] _].
Qed.

Section Run.
Context (f : nat → W).
Hypothesis Hto : to ≠ "".
Hypothesis Hnd : NoDup keys.
Hypothesis Hrun : fair_run f.
Hypothesis Hstart : on_course (f 0).

Lemma cp_run_on_course n : on_course (f n).
Proof.
  induction n as [|n IH]; [done|]. destruct (run_step f Hrun n) as [Ht|[Hm Hl]].
  - by eapply turn_on_course; [..|apply Hrun|exact Ht].
  - by eapply on_course_same.
Qed.

Lemma cp_run_descends n :
  none_failed (all_marks (f n)) (all_marks (f (S n))) →
  state (f (S n)) = state (f n) ∨ steps_left (state (f (S n))) < steps_left (state (f n)).
Proof.
  intros Hnf. destruct (run_step f Hrun n) as [Ht|[Hm Hl]].
  - by eapply turn_progress; [..|exact Hnf|exact Ht]; [done|done|apply cp_run_on_course|apply Hrun].
  - left. unfold state. rewrite Hl. f_equal. apply list_fmap_ext. intros i key _. apply Hm.
Qed.

(** The turn that decreases the measure. *)
Lemma cp_run_fair n :
  (∀ m, n ≤ m → none_failed (all_marks (f m)) (all_marks (f (S m)))) →
  0 < steps_left (state (f n)) →
  ∃ m, n ≤ m ∧ (state (f m) = state (f n) → steps_left (state (f (S m))) < steps_left (state (f m))).
Proof.
  intros Hnf Hpos. destruct (decide (Exists (λ k, ¬ idle k) (all_marks (f n)))) as [Hex|Hno].
  - apply list.Exists_exists in Hex as (k & (key & -> & Hkey)%list_elem_of_fmap & Hp).
    destruct (run_machine f Hrun n key Hkey) as (m & Hm & mach & Hv & Href & He). exists m. split; [done|].
    intros Heq. destruct (machine_progress (f m) (f (S m)) key mach Result0 Hnd (cp_run_on_course m)
      Hv Href He (Hnf m Hm)) as [_ Hlt]. apply Hlt; [done|].
    intros Hk. apply Hp. apply list_elem_of_lookup_1 in Hkey as [i Hi].
    assert (all_marks (f m) !! i = all_marks (f n) !! i) as Hl by (unfold state in Heq; congruence).
    rewrite !list_lookup_fmap, Hi in Hl. injection Hl as Hl. by rewrite <- Hl.
  - destruct (run_control_plane f Hrun n) as (m & Hm & kcp & res & Hasks & He). exists m. split; [done|].
    intros Heq. pose proof Hasks as (Hkcp & Hdel & Hready & Hin & Hk & Hlive).
    assert (∀ key, idle (marks_of (f m) key)) as Hi.
    { intros key. destruct (decide (idle (marks_of (f m) key))) as [?|Hn]; [done|].
      destruct (course_locked _ (cp_run_on_course m) key Hn) as (_ & _ & Hh).
      apply (course_keys _ (cp_run_on_course m)) in Hh. exfalso. apply Hno.
      assert (all_marks (f n) = all_marks (f m)) as -> by (unfold state in Heq; congruence).
      apply list.Exists_exists. exists (marks_of (f m) key). split; [|done].
      by apply list_elem_of_fmap_2. }
    apply (wp_sound _ _ _ _ _ (cp_Reconcile_wp c owner_cluster req (f m))) in He.
    destruct He as [[_ ?]|He]; [done|].
    rewrite Hkcp, Hin, Hdel, Hready, bool_decide_false in He by done. simpl in He.
    destruct (performs_progress _ _ kcp res Hto Hnd (cp_run_on_course m) Hk He) as [_ Hlt].
    apply Hlt; [done|done|by rewrite Heq].
Qed.
End Run.

Lemma done_steps w : steps_left (state w) = 0 →
  (∀ key, key ∈ keys → upgraded to (marks_of w key) ∧ idle (marks_of w key)) ∧ ∀ h, lock_of w ≠ Held h.
Proof.
  unfold steps_left. intros Hz. assert (total to (all_marks w) = 0) as Ht by (unfold state in Hz; simpl in Hz; lia).
  apply total_0 in Ht. split.
  - intros key Hkey. rewrite Forall_fmap, list.Forall_forall in Ht. by apply Ht.
  - intros h Hl. unfold left_over, state in Hz. cbn [fst snd] in Hz. rewrite Hl, decide_True in Hz; [lia|].
    eapply list.Forall_impl; [exact Ht|]. by intros k [_ ?].
Qed.

(** A turn of the control plane when all is done. *)
Lemma finish_turn w w' kcp res :
  to ≠ "" → asks w kcp → (∀ h, lock_of w ≠ Held h) →
  (∀ key, key ∈ keys → upgraded to (marks_of w key) ∧ idle (marks_of w key)) →
  exec (Reconcile req) w w' (res, None) → res = Result0 ∧ kcp_status w' kcp InPlaceUpgradeDoneStatus.
Proof.
  intros Hto (Hkcp & Hdel & Hready & Hin & Hk & Hlive) Hlock Hup He.
  apply (wp_sound _ _ _ _ _ (cp_Reconcile_wp c owner_cluster req w)) in He.
  destruct He as [[_ ?]|He]; [done|].
  rewrite Hkcp, Hin, Hdel, Hready, bool_decide_false in He by done. simpl in He.
  destruct He as [(m & Hl & _)|[[_ [(ms & Hms & Hw)|(? & _)]]|(? & _)]]; [by destruct (Hlock _ Hl)| |done|done].
  assert (∀ m, m ∈ ms → key_of (m_meta m) ∈ keys ∧ view KMachine w (key_of (m_meta m)) = Some m) as Hin'.
  { intros m Hm. split; [apply (Hk ms Hms); by exists m|]. by apply Hms in Hm as [? _]. }
  unfold when_free in Hw. pose proof (next_free_spec to ms) as Hnext.
  destruct (next_free to ms) as [| | |m]; [by apply Hw| |done|].
  - destruct Hnext as (m & Hm & Hd). destruct (Hin' m Hm) as [Hkey Hv]. by rewrite (Hlive _ m Hkey Hv) in Hd.
  - destruct Hnext as [Hm Hn]. destruct (Hin' m Hm) as [Hkey Hv].
    destruct (Hup _ Hkey) as [Hu _]. by rewrite (marks_of_view _ _ _ Hv) in Hu.
Qed.

(** C4: the in-place upgrade of a control plane completes.  In a fair execution
    that starts without requests and without the lock, from machines that are upgraded
    or can be, when only finitely many changes fail, from some point on every machine
    is upgraded to the requested release, no machine holds the upgrade lock, and every
    reconciliation of the control plane reports the upgrade as done. *)
Theorem cp_rollout_completes f :
  to ≠ "" → NoDup keys → fair_run f → lock_of (f 0) = Free →
  (∀ key, idle (marks_of (f 0) key)) →
  (∀ key, key ∈ keys → upgraded to (marks_of (f 0) key) ∨ quiescent (marks_of (f 0) key)) →
  (∃ N, ∀ n, N ≤ n → none_failed (all_marks (f n)) (all_marks (f (S n)))) →
  ∃ M, ∀ n, M ≤ n →
    (∀ key, key ∈ keys → upgraded to (marks_of (f n) key) ∧ mk_to (marks_of (f n) key) = None) ∧
    (∀ h, lock_of (f n) ≠ Held h) ∧
    (∀ kcp res, asks (f n) kcp → exec (Reconcile req) (f n) (f (S n)) (res, None) →
       res = Result0 ∧ kcp_status (f (S n)) kcp InPlaceUpgradeDoneStatus).
Proof.
  intros Hto Hnd Hrun Hfree Hidle Hinit [N Hnf].
  assert (on_course (f 0)) as Hc.
  { split.
    - intros key Hn. by destruct (Hn (Hidle key)).
    - intros key. by rewrite Hfree.
    - apply Forall_fmap, list.Forall_forall. intros key Hkey. simpl.
      destruct (Hinit key Hkey) as [Hu|Hq]; constructor; (done || apply Hidle). }
  destruct (fair_descent (λ n, state (f n)) steps_left N) as (M & HNM & HM).
  { intros n Hn. apply cp_run_descends; auto. }
  { intros n Hn Hpos. apply cp_run_fair; auto. intros m Hm. apply Hnf. lia. }
  exists M. intros n Hn. destruct (done_steps (f n) (HM n Hn)) as [Hup Hlock].
  split; [exact Hup|]. split; [exact Hlock|].
  intros kcp res Hasks He. by apply (finish_turn (f n) _ kcp res Hto Hasks).
Qed.
End Server.

(** ** Witness: the controllers take turns on a control plane of two machines *)

Module Examples.
Import OrchestratedCP.Examples.
Definition machine (n : string) : Machine :=
  set_m_meta (mkMeta n "ns" n
    {[Clusterv1.ClusterNameLabel := "c"; Clusterv1.MachineControlPlaneLabel := EmptyString]}
    None [] [] 0 None) (ex_noded n).
Definition store : Store :=
  put KControlPlane kcp (put KCK8sConfig (config_named "a") (put KCK8sConfig (config_named "b")
    (put KSecret RolloutLiveness.Examples.token_secret
      (put KMachine (machine "b") (put KMachine (machine "a") empty_store))))).
Definition world : handler Store := friendly ["a"; "b"] (cluster_named "c") (λ r, k8sd_ok "Done").
Definition keys : list ObjectKey := [mkKey "ns" "a"; mkKey "ns" "b"].
Definition turn_of (n : nat) : prog outcome :=
  match nth n [0; 1; 1; 1; 0; 0; 2; 2; 2; 0; 0] (n mod 3) with
  | 0 => Reconcile req
  | 1 => MachineUpgrade.Reconcile (mkKey "ns" "a")
  | _ => MachineUpgrade.Reconcile (mkKey "ns" "b")
  end.
Fixpoint execution (n : nat) : Store :=
  match n with 0 => store | S n => served world (turn_of n) (execution n) end.
End Examples.
Import Examples.
#[local] Instance the_env : Env Store := server_env world.

Abbreviation ex_cluster := (cluster_named "c").
Abbreviation ex_req := OrchestratedCP.Examples.req.
Abbreviation ex_to := OrchestratedCP.Examples.to.

Lemma cp_ex_owner m o (w w' : Store) : env_step (GetOwnerCluster m) (Ok o) w w' → o = Some ex_cluster.
Proof. intros Hs. unfold env_step in Hs. simpl in Hs. by injection Hs as <- _. Qed.

(** The stored machines are the two of the control plane, with their bootstrap
    configurations, and none is being deleted. *)
Definition own_machine (key : ObjectKey) (m : Machine) : bool :=
  bool_decide (key_of (m_meta m) = key) && bool_decide (om_Namespace (m_meta m) = cl_Namespace ex_cluster) &&
  bool_decide (om_Labels (m_meta m) !! Clusterv1.ClusterNameLabel = Some (cl_Name ex_cluster)) &&
  ControlPlaneMachines (cl_Name ex_cluster) m && bool_decide (m_ConfigRef m ≠ None) &&
  negb (deleting (m_meta m)).

Definition machines_ok (w : Store) : bool :=
  forallb (λ km : ObjectKey * Machine, bool_decide (km.1 ∈ keys)) (map_to_list (w KMachine)) &&
  forallb (λ key, match look KMachine w key with Some m => own_machine key m | None => false end) keys.

Lemma machines_ok_lookup w key :
  machines_ok w = true → key ∈ keys →
  ∃ m, view KMachine w key = Some m ∧ own_machine key m = true.
Proof.
  unfold machines_ok. rewrite andb_true_iff, !forallb_forall. intros [_ Hk] Hkey%list_elem_of_In%Hk.
  simpl. destruct (look KMachine w key) as [m|]; [|done]. by exists m.
Qed.

Lemma machines_ok_keys w key m :
  machines_ok w = true → view KMachine w key = Some m → key ∈ keys.
Proof.
  unfold machines_ok. rewrite andb_true_iff, forallb_forall. intros [Hall _] Hm%look_lookup.
  apply elem_of_map_to_list, list_elem_of_In, Hall in Hm. by apply bool_decide_eq_true_1 in Hm.
Qed.

Lemma machines_ok_has w : machines_ok w = true → has_machines keys ex_cluster w.
Proof.
  intros Hok ms Hms key. split.
  - intros Hkey. destruct (machines_ok_lookup w key Hok Hkey) as (m & Hm & Hown).
    unfold own_machine in Hown. rewrite !andb_true_iff, !bool_decide_eq_true in Hown.
    destruct Hown as (((((Hk & Hns) & Hl) & Hcp) & _) & _). exists m. split; [|done].
    apply Hms. by rewrite Hk.
  - intros (m & [Hm _]%Hms & <-). by eapply machines_ok_keys.
Qed.

(** The control plane asks for the upgrade. *)
Definition kcp_ok (w : Store) : bool :=
  match look KControlPlane w ex_req with
  | Some kcp => negb (deleting (kcp_meta kcp)) && machinesAreReady kcp &&
                bool_decide (GetUpgradeInstructions (kcp_meta kcp) = ex_to)
  | None => false
  end.

Definition fine (n : nat) : bool :=
  machines_ok (execution n) && kcp_ok (execution n) &&
  match answer_of world (turn_of n) (execution n) with Some (_, None) => true | _ => false end.

Lemma fine_asks w :
  machines_ok w = true → kcp_ok w = true → ∃ kcp, asks ex_req ex_to keys ex_cluster w kcp.
Proof.
  intros Hm Hk. unfold kcp_ok in Hk. destruct (look KControlPlane w ex_req) as [kcp|] eqn:Hkcp; [|done].
  rewrite !andb_true_iff, bool_decide_eq_true in Hk. destruct Hk as [[Hd%negb_true_iff Hr] Hin].
  exists kcp. split; [exact Hkcp|]. split; [done|]. split; [done|]. split; [done|].
  split; [by apply machines_ok_has|]. intros key m Hkey Hv.
  destruct (machines_ok_lookup w key Hm Hkey) as (m' & Hm' & Hown). rewrite Hm' in Hv. injection Hv as ->.
  unfold own_machine in Hown. rewrite !andb_true_iff in Hown. by apply negb_true_iff, Hown.
Qed.

(** After eleven turns nothing changes. *)
Lemma cp_ex_still n : 11 ≤ n → served world (turn_of n) (execution 11) = execution 11.
Proof.
  intros Hn. unfold turn_of. rewrite nth_overflow by exact Hn.
  destruct (n mod 3) as [|[|i]]; apply same_store_eq; vm_compute; reflexivity.
Qed.

Lemma cp_ex_execution n : 11 ≤ n → execution n = execution 11.
Proof.
  induction 1 as [|n Hn IH]; [reflexivity|].
  change (execution (S n)) with (served world (turn_of n) (execution n)). rewrite IH.
  exact (cp_ex_still n Hn).
Qed.

Lemma cp_ex_fine n : fine n = true.
Proof.
  destruct (decide (n < 11)) as [Hn|Hn].
  - assert (forallb fine (seq 0 11) = true) as Hf by (vm_compute; reflexivity).
    rewrite forallb_forall in Hf. apply Hf, in_seq. lia.
  - unfold fine, turn_of. rewrite cp_ex_execution, nth_overflow by (simpl; lia).
    destruct (n mod 3) as [|[|i]]; vm_compute; reflexivity.
Qed.

Lemma cp_ex_turns n :
  machines_ok (execution n) = true ∧ (∃ kcp, asks ex_req ex_to keys ex_cluster (execution n) kcp) ∧
  ∃ res, exec (turn_of n) (execution n) (execution (S n)) (res, None).
Proof.
  pose proof (cp_ex_fine n) as Hf. unfold fine in Hf. rewrite !andb_true_iff in Hf.
  destruct Hf as [[Hm Hk] Hr]. split; [done|]. split; [by apply fine_asks|].
  destruct (answer_of world (turn_of n) (execution n)) as [[res [e|]]|] eqn:Hrun; [done| |done].
  exists res. exact (served_exec _ _ _ _ _ _ Hrun).
Qed.

(** From then on the controllers take turns. *)
Lemma cp_ex_turn_of n i : i < 3 → turn_of (11 + (3 * n + 1) + i) = turn_of (11 + 1 + i).
Proof.
  intros Hi. unfold turn_of. rewrite !nth_overflow by (simpl; lia).
  replace (11 + (3 * n + 1) + i)%nat with (i + (4 + n) * 3)%nat by lia.
  replace (11 + 1 + i)%nat with (i + 4 * 3)%nat by lia. by rewrite !Nat.Div0.mod_add.
Qed.

Lemma cp_ex_machine n key m : 
  view KMachine (execution n) key = Some m → is_Some (m_ConfigRef m).
Proof.
  intros Hm. destruct (cp_ex_turns n) as (Hok & _ & _).
  destruct (machines_ok_lookup _ key Hok (machines_ok_keys _ _ _ Hok Hm)) as (m' & Hm' & Hown).
  rewrite Hm' in Hm. injection Hm as ->. unfold own_machine in Hown.
  rewrite !andb_true_iff, !bool_decide_eq_true in Hown. destruct Hown as ((_ & Href) & _).
  destruct (m_ConfigRef m); [by eexists|done].
Qed.

Lemma cp_ex_machine_turn n i key :
  i < 3 → key ∈ keys → turn_of (11 + 1 + i) = MachineUpgrade.Reconcile key →
  answer_of world (turn_of (11 + 1 + i)) (execution 11) = Some (Result0, None) →
  machine_turn key (execution (11 + (3 * n + 1) + i)) (execution (S (11 + (3 * n + 1) + i))).
Proof.
  intros Hi Hkey Hturn Hres. destruct (cp_ex_turns (11 + (3 * n + 1) + i)) as (Hok & _ & _).
  destruct (machines_ok_lookup _ key Hok Hkey) as (m & Hm & _). exists m.
  split; [done|]. split; [by eapply cp_ex_machine|].
  change (execution (S (11 + (3 * n + 1) + i)))
    with (served world (turn_of (11 + (3 * n + 1) + i)) (execution (11 + (3 * n + 1) + i))).
  rewrite (cp_ex_execution (11 + (3 * n + 1) + i)) by lia.
  rewrite (cp_ex_turn_of n i Hi), Hturn in *. exact (served_exec _ _ _ _ _ _ Hres).
Qed.

Lemma cp_ex_fair : fair_run ex_req ex_to keys ex_cluster execution.
Proof.
  split.
  - intros n. apply machines_ok_has, cp_ex_turns.
  - intros n. left. destruct (cp_ex_turns n) as (Hok & (kcp & Hkcp & _ & _ & Hin & _) & res & He).
    unfold turn_of in He. destruct (nth n _ _) as [|[|i]].
    + apply turn_control_plane with (res := res); [|exact He].
      intros kcp' Hkcp'. rewrite Hkcp in Hkcp'. by injection Hkcp' as <-.
    + destruct (machines_ok_lookup _ (mkKey "ns" "a") Hok) as (m & Hm & _); [by left|].
      by apply (turn_machine _ _ _ _ (mkKey "ns" "a") m res); [|eapply cp_ex_machine|].
    + destruct (machines_ok_lookup _ (mkKey "ns" "b") Hok) as (m & Hm & _); [by right; left|].
      by apply (turn_machine _ _ _ _ (mkKey "ns" "b") m res); [|eapply cp_ex_machine|].
  - intros n. exists (11 + (3 * n + 1) + 0)%nat. split; [lia|].
    destruct (cp_ex_turns (11 + (3 * n + 1) + 0)) as (_ & (kcp & Hkcp) & res & He). exists kcp, res.
    split; [done|]. rewrite (cp_ex_turn_of n 0) in He by lia. exact He.
  - intros n key. unfold keys. rewrite !elem_of_cons. intros [-> | [-> | []%elem_of_nil]].
    + exists (11 + (3 * n + 1) + 1)%nat. split; [lia|].
      apply cp_ex_machine_turn; [lia|by left|done|vm_compute; reflexivity].
    + exists (11 + (3 * n + 1) + 2)%nat. split; [lia|].
      apply cp_ex_machine_turn; [lia|by right; left|done|vm_compute; reflexivity].
Qed.

Lemma cp_rollout_completes_witness :
  (∀ key, key ∈ keys → ¬ upgraded ex_to (OrchestratedMD.marks_of (execution 0) key)) ∧
  ∃ M, ∀ n, M ≤ n →
    (∀ key, key ∈ keys → upgraded ex_to (OrchestratedMD.marks_of (execution n) key) ∧
       mk_to (OrchestratedMD.marks_of (execution n) key) = None) ∧
    (∀ h, state_of ex_cluster (execution n) ≠ Held h) ∧
    (∀ kcp res, asks ex_req ex_to keys ex_cluster (execution n) kcp →
       exec (Reconcile ex_req) (execution n) (execution (S n)) (res, None) →
       res = Result0 ∧ kcp_status (execution (S n)) kcp InPlaceUpgradeDoneStatus).
Proof.
  assert (∀ key, OrchestratedMD.marks_of (execution 0) key = mkMarks None None None None None) as Hstart.
  { intros key. destruct (view KMachine (execution 0) key) as [m|] eqn:Hm.
    - pose proof (machines_ok_keys _ _ _ (proj1 (cp_ex_turns 0)) Hm) as Hkey. revert Hkey. clear.
      unfold keys. rewrite !elem_of_cons. intros [-> | [-> | []%elem_of_nil]]; vm_compute; reflexivity.
    - unfold OrchestratedMD.marks_of. by rewrite Hm. }
  split; [intros key _; by rewrite Hstart|].
  apply (cp_rollout_completes ex_req ex_to keys ex_cluster cp_ex_owner execution).
  - discriminate.
  - repeat constructor; set_solver.
  - exact cp_ex_fair.
  - vm_compute. reflexivity.
  - intros key. by rewrite Hstart.
  - intros key _. rewrite Hstart. by right.
  - exists 11. intros n Hn i k k' Hk Hk'. rewrite (cp_ex_execution n Hn) in Hk.
    rewrite (cp_ex_execution (S n)) in Hk' by lia. congruence.
Defined.
End ControlPlaneLiveness.
