(* ===== verification/CertRefresh.v ===== *)
(** src/bootstrap/controllers/certificates_controller.go: refreshing the
    certificates of a machine on request, and recording their expiry date, both
    in the machine's annotations. *)

From S2P Require Import Prelude Objects ApiTypes Effects Libs RefLibs ApiServer RefServer.
From S2P Require Import Token Workload Duration.

Module CertRefresh.
(** [type CertificatesScope struct]; the machine is the state of the methods,
    [sc_Before] the snapshot of the patch helper. *)
Record CertificatesScope := mkCertificatesScope {
  sc_Cluster : Cluster;
  sc_Config : CK8sConfig;
  sc_Before : Machine;
  sc_Workload : Workload;
}.

Section Methods.
Context `{!ApiErrors, !MetaLib, !K8sdApi, !TimeFormat}.
Implicit Types (scope : CertificatesScope).

(** [createScope] *)
Definition createScope (m : Machine) : prog (gores CertificatesScope) :=
  func (
    ref ← deref (m_ConfigRef m);
    config ← check (call (Get KCK8sConfig (mkKey (om_Namespace (m_meta m)) (ref_Name ref))))
               (λ e, Err (wrapf "failed to get CK8sConfig" e));
    r ← call (GetConfigOwner config);
    match r with
    | Err e => return_ (Err (wrapf "failed to get config owner" e))
    | Ok None => return_ (Err (ErrNew "failed to get config owner: %!w(<nil>)"))
    | Ok (Some _) => mret tt
    end ;;
    cluster ← check (call (GetClusterByName (om_Namespace (m_meta m)) (m_ClusterName m)))
                (λ e, Err (wrapf "failed to get cluster" e));
    workload ← check (callp (GetWorkloadCluster (key_of (cl_meta cluster))
                        (GetMicroclusterPort (ControlPlaneConfig (cfg_Spec config)))))
                 (λ e, Err (wrapf "failed to get workload cluster" e));
    check (call (NewHelper KMachine m)) (λ e, Err (wrapf "failed to create patch helper" e)) ;;
    mret (Ok (mkCertificatesScope cluster config m workload))).

(** Writing to the annotation map of the machine: a nil map panics. *)
Definition write_annotations {R} (f : strmap → strmap) : go Machine R unit :=
  m ← get;
  match om_Annotations (m_meta m) with
  | Some a => modify (set_m_Annotations (Some (f a)))
  | None => panic "assignment to entry in nil map"
  end.

Definition node_token scope : go Machine (option error) string :=
  m ← get;
  check (callp (Token.LookupNodeToken (key_of (cl_meta (sc_Cluster scope))) (m_Name m)))
    (λ e, Some (wrapf "failed to lookup node token" e)).

Definition event (t : EventType) (reason msg : string) : go Machine (option error) unit :=
  m ← get;
  call (Eventf (key_of (m_meta m)) t reason msg).

Definition patch scope (h : error → error) : go Machine (option error) unit :=
  m ← get;
  check (call (Patch KMachine (sc_Before scope) m)) (λ e, Some (h e)) ;; mret tt.

(** The end of [refreshCertificates], after the refresh call. *)
Definition finish scope (r : gores Z) : go Machine (option error) (option error) :=
  match r with
  | Err e =>
      event EventWarning CertificatesRefreshFailedEvent
        ("Failed to refresh certificates: " +:+ error_text e) ;;
      return_ (Some (wrapf "failed to refresh certificates" e))
  | Ok expirySecondsUnix =>
      let expiryTime := (expirySecondsUnix * Time.Second)%Z in
      write_annotations (λ a,
        <[MachineCertificatesExpiryDateAnnotation := FormatRFC3339 expiryTime]>
        (<[CertificatesRefreshStatusAnnotation := CertificatesRefreshDoneStatus]>
        (delete CertificatesRefreshAnnotation a))) ;;
      patch scope (wrapf "failed to patch machine annotations") ;;
      event EventNormal CertificatesRefreshDoneEvent
        ("Certificates refreshed, will expire at " +:+ time_String expiryTime) ;;
      mret None
  end.

(** [refreshCertificates] *)
Definition refreshCertificates scope : Machine → prog (Machine * option error) :=
  func_on (
    nodeToken ← node_token scope;
    m ← get;
    match ann (m_meta m) CertificatesRefreshAnnotation with
    | None => return_ (Some (ErrNew "refresh annotation not found"))
    | Some refreshAnnotation =>
        write_annotations (<[CertificatesRefreshStatusAnnotation := CertificatesRefreshInProgressStatus]>) ;;
        patch scope (wrapf "failed to set in-progress status") ;;
        event EventNormal CertificatesRefreshInProgressEvent
          ("Certificates refresh in progress. TTL: " +:+ refreshAnnotation) ;;
        match TTLToSeconds refreshAnnotation with
        | Err e => return_ (Some (wrapf "failed to parse TTL" e))
        | Ok seconds =>
            r ← call (GetConfigOwner (sc_Config scope));
            configOwner ← deref (match r with Ok o => o | Err _ => None end);
            m ← get;
            r ← (if co_IsControlPlaneMachine configOwner then
                   let extraSANs := ExtraSANs (ControlPlaneConfig (cfg_Spec (sc_Config scope))) ++
                                    [ep_Host (cl_ControlPlaneEndpoint (sc_Cluster scope))] in
                   callp (RefreshControlPlaneCertificates (sc_Workload scope) m nodeToken seconds extraSANs)
                 else callp (RefreshWorkerCertificates (sc_Workload scope) m nodeToken seconds));
            finish scope r
        end
    end).

(** [updateExpiryDateAnnotation] *)
Definition updateExpiryDateAnnotation scope : Machine → prog (Machine * option error) :=
  func_on (
    nodeToken ← node_token scope;
    m ← get;
    expiryDateString ← check (callp (GetCertificatesExpiryDate (sc_Workload scope) m nodeToken))
                         (λ e, Some (wrapf "failed to get certificates expiry date" e));
    modify (annotate KMachine (<[MachineCertificatesExpiryDateAnnotation := expiryDateString]>)) ;;
    patch scope id ;;
    mret None).

(** The part of [Reconcile] after the machine has been read: it mutates the
    machine.  The map [mAnnotations] is the machine's, or a new one that is
    attached to it before every update. *)
Definition reconcile_machine : Machine → prog (Machine * outcome) :=
  func_on (
    m ← get;
    match m_NodeRef m with None => return_ (After (5 * Time.Second), None) | Some _ => mret tt end ;;
    when (deleting (m_meta m)) (return_ (Result0, None)) ;;
    let refreshCertificates_ :=
      match ann (m_meta m) CertificatesRefreshAnnotation with Some _ => true | None => false end in
    let hasExpiryDateAnnotation :=
      match ann (m_meta m) MachineCertificatesExpiryDateAnnotation with Some _ => true | None => false end in
    when (bool_decide (ann0 (m_meta m) CertificatesRefreshStatusAnnotation = CertificatesRefreshInProgressStatus)) (
      when (negb refreshCertificates_) (
        modify (annotate KMachine (delete CertificatesRefreshStatusAnnotation)) ;;
        m ← get;
        check (call (Update KMachine m))
          (λ e, (Result0, Some (wrapf "failed to clear status annotation" e))) ;;
        return_ (Result0, None)) ;;
      return_ (Result0, None)) ;;
    when (negb refreshCertificates_ && hasExpiryDateAnnotation) (return_ (Result0, None)) ;;
    scope ← check (callp (createScope m)) (λ e, (Result0, Some e));
    when (negb hasExpiryDateAnnotation)
      (check_err (calls (updateExpiryDateAnnotation scope)) (λ e, (Result0, Some e))) ;;
    when refreshCertificates_ (
      r ← calls (refreshCertificates scope);
      match r with
      | None => mret tt
      | Some err =>
          modify (annotate KMachine
            (<[CertificatesRefreshStatusAnnotation := CertificatesRefreshFailedStatus]>)) ;;
          m ← get;
          check (call (Update KMachine m))
            (λ e, (Result0, Some (wrapf "failed to clear status annotation after error" e))) ;;
          return_ (Result0, Some err)
      end) ;;
    mret (Result0, None)).

(** [func (r *CertificatesReconciler) Reconcile] *)
Definition Reconcile (req : ObjectKey) : prog outcome :=
  func (
    m ← catch (call (Get KMachine req)) (λ e,
          if IsNotFound e then return_ (Result0, None) else return_ (Result0, Some e));
    r ← callp (reconcile_machine m);
    mret r.2).
End Methods.

(** ** The annotations as a state *)

Record cert_marks := mkCertMarks {
  cm_refresh : option string;
  cm_status : option string;
  cm_expiry : option string;
}.

Definition marks (m : ObjectMeta) : cert_marks :=
  mkCertMarks (ann m CertificatesRefreshAnnotation) (ann m CertificatesRefreshStatusAnnotation)
    (ann m MachineCertificatesExpiryDateAnnotation).

Ltac read_marks :=
  unfold marks; rewrite ?ann_annotate;
  unfold CertificatesRefreshAnnotation, CertificatesRefreshStatusAnnotation,
    MachineCertificatesExpiryDateAnnotation;
  repeat first [rewrite lookup_insert_eq | rewrite lookup_insert_ne by done
               |rewrite lookup_delete_eq | rewrite lookup_delete_ne by done];
  rewrite ?ann_default.

(** One reconciliation without error that reached the API server, on the stored
    marks. *)
Inductive step : cert_marks → cert_marks → Prop :=
  | step_nothing k : step k k
  (* a finished or abandoned refresh: its status is cleared *)
  | step_clear e :
      step (mkCertMarks None (Some CertificatesRefreshInProgressStatus) e) (mkCertMarks None None e)
  (* no refresh asked for: the expiry date is recorded *)
  | step_expiry s d : step (mkCertMarks None s None) (mkCertMarks None s (Some d))
  (* a refresh: the request is removed and the new date recorded; the status
     stays "in-progress" when it was "done" before *)
  | step_refresh ttl s e d :
      s ≠ Some CertificatesRefreshInProgressStatus →
      step (mkCertMarks (Some ttl) s e)
           (mkCertMarks None (if decide (s = Some CertificatesRefreshDoneStatus)
                              then Some CertificatesRefreshInProgressStatus
                              else Some CertificatesRefreshDoneStatus) (Some d)).

Section Reads.
Context `{!ApiErrors, !MetaLib, !K8sdApi, !TimeFormat}.

Lemma createScope_reads m ref :
  m_ConfigRef m = Some ref → reads_post (createScope m) (λ r, ∀ sc, r = Ok sc → sc_Before sc = m).
Proof.
  intros Href. unfold reads_post, createScope. repeat wp_step.
  apply gwp_deref; [|congruence]. intros r0 _. cbn beta. repeat wp_step.
  apply gwp_call; [done|]. intros [c|e] [] _ _; repeat wp_step; [|done].
  apply gwp_call; [done|]. intros [[o|]|e] [] _ _; repeat wp_step; [|done..].
  apply gwp_call; [done|]. intros [cl|e] [] _ _; repeat wp_step; [|done].
  eapply wp_mono; [apply GetWorkloadCluster_reads|]. intros [] [wl|e] _; repeat wp_step; [|done].
  apply gwp_call; [done|]. intros [u|e] [] _ _; repeat wp_step; [|done]. by intros sc [= <-].
Qed.

(** Goroutines that only read, under every schedule. *)
Lemma par_reads {A B} (p : prog A) (q : prog B) : reads p → reads q → reads (par p q).
Proof.
  unfold reads, reads_post. revert q. induction p as [a|X e k IHp]; intros q Hp Hq.
  { apply wp_bind. eapply wp_mono; [exact Hq|]. done. }
  induction q as [b|Y f l IHq].
  { change (par (Vis e k) (Ret b)) with (prog_bind (Vis e k) (λ a, Ret (a, b, false))).
    apply wp_bind. eapply wp_mono; [exact Hp|]. done. }
  destruct Hp as [Hpe Hpk]. destruct Hq as [Hqe Hqk].
  split; [done|]. intros left [] _ _. destruct left.
  - split; [done|]. intros x [] Hx _. apply IHp; [by apply (Hpk x tt)|]. by split.
  - split; [done|]. intros y [] Hy _. apply IHq. by apply (Hqk y tt).
Qed.

Lemma RefreshWorkerCertificates_reads w m t s : reads (RefreshWorkerCertificates w m t s).
Proof.
  unfold reads, reads_post, RefreshWorkerCertificates, refreshCertificatesPlan. repeat wp_step.
  eapply wp_mono; [apply node_request_reads|]. intros [] [seed|e] _; repeat wp_step; [|done].
  cbv zeta. repeat wp_step. unfold refreshCertificatesRun, ApproveCertificates.
  eapply wp_mono; [apply par_reads; [apply node_request_reads|apply cluster_request_reads]|].
  intros [] r _. by destruct (group_error r); repeat wp_step.
Qed.

Lemma RefreshControlPlaneCertificates_reads w m t s l :
  reads (RefreshControlPlaneCertificates w m t s l).
Proof.
  unfold reads, reads_post, RefreshControlPlaneCertificates, refreshCertificatesPlan, refreshCertificatesRun.
  repeat wp_step.
  eapply wp_mono; [apply node_request_reads|]. intros [] [seed|e] _; repeat wp_step; [|done].
  eapply wp_mono; [apply node_request_reads|]. by intros [] [seed'|e] _; repeat wp_step.
Qed.
End Reads.

Lemma cert_marks_merged b a o o' :
  ann_merged b a o o' →
  marks o' = mkCertMarks
    (if decide (cm_refresh (marks a) = cm_refresh (marks b)) then cm_refresh (marks o)
     else cm_refresh (marks a))
    (if decide (cm_status (marks a) = cm_status (marks b)) then cm_status (marks o)
     else cm_status (marks a))
    (if decide (cm_expiry (marks a) = cm_expiry (marks b)) then cm_expiry (marks o)
     else cm_expiry (marks a)).
Proof. intros Hm. unfold marks. by rewrite !(Hm _). Qed.

Section Server.
Context {W : Type} `{!ApiErrors, !MetaLib, !K8sdApi, !TimeFormat, !Env W, !ApiServer W}.
Implicit Types (w : W) (scope : CertificatesScope) (m : Machine).

Definition stored w (key : ObjectKey) (k : cert_marks) : Prop :=
  ∃ o, view KMachine w key = Some o ∧ marks (m_meta o) = k.

Lemma cert_stored_same w w' key k :
  (∀ k key, view k w' key = view k w key) → stored w key k → stored w' key k.
Proof. unfold stored. by intros ->. Qed.

Lemma stored_reads {A} (p : prog A) w key k (Q : W → A → Prop) :
  reads p → stored w key k → (∀ w' x, stored w' key k → Q w' x) → wp p w Q.
Proof.
  intros Hp Hst HQ. eapply wp_mono; [by apply wp_reads|]. intros w' x Hv. apply HQ.
  exact (cert_stored_same _ _ _ _ Hv Hst).
Qed.

Lemma cert_patch_gwp scope h m w key k b a'
    (K : W → Machine → unit → Prop) (Rt : W → Machine → option error → Prop) :
  key_of (m_meta m) = key → stored w key k → marks (m_meta (sc_Before scope)) = b →
  marks (m_meta m) = a' →
  (∀ w', stored w' key (mkCertMarks
     (if decide (cm_refresh a' = cm_refresh b) then cm_refresh k else cm_refresh a')
     (if decide (cm_status a' = cm_status b) then cm_status k else cm_status a')
     (if decide (cm_expiry a' = cm_expiry b) then cm_expiry k else cm_expiry a')) → K w' m tt) →
  (∀ w' e, Rt w' m (Some (h e))) →
  gwp (patch scope h) m w K Rt.
Proof.
  intros Hk (o & Ho & Hm) <- <- HK HR. unfold patch. repeat wp_step.
  apply gwp_call; [by apply api_pre|]. intros r w' _ Hp.
  destruct r as [u|e]; repeat wp_step; [|apply HR]. apply HK.
  apply (api_patch KMachine) in Hp as [_ (o1 & o' & Ho1 & Ho' & Hmerge)].
  change (obj_key KMachine m) with (key_of (m_meta m)) in *. rewrite Hk in *.
  rewrite Ho in Ho1. injection Ho1 as <-. exists o'. split; [done|].
  rewrite <- Hm. by apply cert_marks_merged.
Qed.

Lemma cert_event_gwp t r msg m w key k (K : W → Machine → unit → Prop) (Rt : W → Machine → option error → Prop) :
  stored w key k → (∀ w', stored w' key k → K w' m tt) →
  gwp (event t r msg) m w K Rt.
Proof.
  intros Hst HK. unfold event. repeat wp_step. apply gwp_call; [by apply api_pre|].
  intros [] w' _ Hs. apply HK. exact (cert_stored_same _ _ _ _ (api_quiet _ _ _ _ Hs I) Hst).
Qed.

Lemma node_token_gwp scope m w key k
    (K : W → Machine → string → Prop) (Rt : W → Machine → option error → Prop) :
  stored w key k → (∀ w' t, stored w' key k → K w' m t) → (∀ w' e, Rt w' m (Some e)) →
  gwp (node_token scope) m w K Rt.
Proof.
  intros Hst HK HR. unfold node_token. repeat wp_step.
  eapply stored_reads; [apply LookupNodeToken_reads|exact Hst|]. intros w' [t|e] Hst'; auto.
Qed.

Lemma cert_write_gwp f m a w (K : W → Machine → unit → Prop) (Rt : W → Machine → option error → Prop) :
  om_Annotations (m_meta m) = Some a →
  K w (annotate KMachine f m) tt → gwp (write_annotations f) m w K Rt.
Proof.
  intros Ha HK. unfold write_annotations. repeat wp_step. rewrite Ha. wp_step.
  unfold annotate in HK. simpl in HK. by rewrite Ha in HK.
Qed.

Lemma annotations_annotate f m : is_Some (om_Annotations (m_meta (annotate KMachine f m))).
Proof. unfold annotate. simpl. rewrite meta_set_m, annotations_set. by eexists. Qed.

Lemma cert_key_annotate f m : key_of (m_meta (annotate KMachine f m)) = key_of (m_meta m).
Proof. exact (key_of_annotate KMachine f m). Qed.

Lemma cert_marks_in_progress m :
  marks (m_meta (annotate KMachine
    (<[CertificatesRefreshStatusAnnotation := CertificatesRefreshInProgressStatus]>) m)) =
  mkCertMarks (cm_refresh (marks (m_meta m))) (Some CertificatesRefreshInProgressStatus)
    (cm_expiry (marks (m_meta m))).
Proof. change m_meta with (meta_of KMachine). by read_marks. Qed.

Lemma cert_marks_done m d :
  marks (m_meta (annotate KMachine (λ a,
    <[MachineCertificatesExpiryDateAnnotation := d]>
    (<[CertificatesRefreshStatusAnnotation := CertificatesRefreshDoneStatus]>
    (delete CertificatesRefreshAnnotation a))) m)) =
  mkCertMarks None (Some CertificatesRefreshDoneStatus) (Some d).
Proof. change m_meta with (meta_of KMachine). by read_marks. Qed.

Lemma marks_expiry m d :
  marks (m_meta (annotate KMachine (<[MachineCertificatesExpiryDateAnnotation := d]>) m)) =
  mkCertMarks (cm_refresh (marks (m_meta m))) (cm_status (marks (m_meta m))) (Some d).
Proof. change m_meta with (meta_of KMachine). by read_marks. Qed.

Lemma marks_clear m :
  marks (m_meta (annotate KMachine (delete CertificatesRefreshStatusAnnotation) m)) =
  mkCertMarks (cm_refresh (marks (m_meta m))) None (cm_expiry (marks (m_meta m))).
Proof. change m_meta with (meta_of KMachine). by read_marks. Qed.

Lemma updateExpiry_wp scope m w key ref st :
  key_of (m_meta m) = key → stored w key (mkCertMarks ref st None) →
  marks (m_meta (sc_Before scope)) = mkCertMarks ref st None →
  marks (m_meta m) = mkCertMarks ref st None →
  wp (updateExpiryDateAnnotation scope m) w (λ w' r, r.2 = None → ∃ d,
    is_Some (om_Annotations (m_meta r.1)) ∧ key_of (m_meta r.1) = key ∧
    marks (m_meta r.1) = mkCertMarks ref st (Some d) ∧ stored w' key (mkCertMarks ref st (Some d))).
Proof.
  intros Hk Hst Hb Hm. unfold updateExpiryDateAnnotation. repeat wp_step.
  eapply node_token_gwp; [exact Hst| |done]. intros w1 tok Hst1. repeat wp_step.
  unfold GetCertificatesExpiryDate.
  eapply stored_reads; [apply node_request_reads|exact Hst1|].
  intros w2 [d|e] Hst2; repeat wp_step; [|done].
  eapply cert_patch_gwp; [by rewrite cert_key_annotate|exact Hst2|exact Hb|by rewrite marks_expiry, Hm| |done].
  intros w3 Hst3. repeat wp_step. intros _. cbn [fst snd cm_refresh cm_status cm_expiry] in *.
  exists d. split; [apply annotations_annotate|]. split; [by rewrite cert_key_annotate|].
  split; [by rewrite marks_expiry, Hm|]. destruct Hst3 as (o & Ho & Hst3). exists o. split; [done|].
  rewrite Hst3. f_equal; by repeat case_decide.
Qed.

(** The status after a refresh that was "done" before the reconciliation. *)
Definition final_status (s : option string) : option string :=
  if decide (s = Some CertificatesRefreshDoneStatus)
  then Some CertificatesRefreshInProgressStatus else Some CertificatesRefreshDoneStatus.

Lemma finish_gwp scope r m w key ttl s e eb :
  is_Some (om_Annotations (m_meta m)) → key_of (m_meta m) = key → eb = e ∨ eb = None →
  stored w key (mkCertMarks (Some ttl) (Some CertificatesRefreshInProgressStatus) e) →
  marks (m_meta (sc_Before scope)) = mkCertMarks (Some ttl) s eb →
  gwp (finish scope r) m w
    (λ w' m' r, r = None → ∃ d, stored w' key (mkCertMarks None (final_status s) (Some d)))
    (λ w' m' r, r = None → ∃ d, stored w' key (mkCertMarks None (final_status s) (Some d))).
Proof.
  intros [a Ha] Hk He Hst Hb. unfold finish. destruct r as [secs|e1]; repeat wp_step.
  2: { eapply cert_event_gwp; [exact Hst|]. intros w6 _. by repeat wp_step. }
  cbv zeta. repeat wp_step. eapply cert_write_gwp; [exact Ha|].
  set (m2 := annotate KMachine _ m). repeat wp_step.
  eapply cert_patch_gwp; [unfold m2; by rewrite cert_key_annotate|exact Hst|exact Hb
    |unfold m2; apply cert_marks_done| |done].
  intros w6 Hst6. repeat wp_step. eapply cert_event_gwp; [exact Hst6|]. intros w7 Hst7.
  repeat wp_step. intros _. exists (FormatRFC3339 (secs * Time.Second)%Z).
  cbn [cm_refresh cm_status cm_expiry] in Hst7.
  destruct Hst7 as (o' & Ho' & Hst7). exists o'. split; [done|]. rewrite Hst7.
  unfold final_status. f_equal; repeat case_decide; destruct He; congruence.
Qed.

Lemma refreshCertificates_wp scope m w key ttl s e eb :
  is_Some (om_Annotations (m_meta m)) → key_of (m_meta m) = key →
  s ≠ Some CertificatesRefreshInProgressStatus → eb = e ∨ eb = None →
  stored w key (mkCertMarks (Some ttl) s e) →
  marks (m_meta (sc_Before scope)) = mkCertMarks (Some ttl) s eb →
  marks (m_meta m) = mkCertMarks (Some ttl) s e →
  (∀ c w w' r, env_step (GetConfigOwner c) r w w' → ∃ o, r = Ok (Some o)) →
  wp (refreshCertificates scope m) w (λ w' r, r.2 = None → ∃ d,
    stored w' key (mkCertMarks None (final_status s) (Some d))).
Proof.
  intros [a Ha] Hk Hs He Hst Hb Hm Hown. unfold refreshCertificates. repeat wp_step.
  eapply node_token_gwp; [exact Hst| |done]. intros w1 tok Hst1. repeat wp_step.
  assert (ann (m_meta m) CertificatesRefreshAnnotation = Some ttl) as Httl
    by by injection Hm.
  rewrite Httl. repeat wp_step. eapply cert_write_gwp; [exact Ha|].
  set (m1 := annotate KMachine _ m). repeat wp_step.
  assert (marks (m_meta m1) = mkCertMarks (Some ttl) (Some CertificatesRefreshInProgressStatus) e)
    as Hm1 by (unfold m1; by rewrite cert_marks_in_progress, Hm).
  eapply cert_patch_gwp; [unfold m1; by rewrite cert_key_annotate|exact Hst1|exact Hb|exact Hm1| |done].
  intros w2 Hst2. cbn [cm_refresh cm_status cm_expiry] in Hst2.
  assert (stored w2 key (mkCertMarks (Some ttl) (Some CertificatesRefreshInProgressStatus) e)) as Hst2'.
  { destruct Hst2 as (o & Ho & Hst2). exists o. split; [done|]. rewrite Hst2. f_equal;
      repeat case_decide; congruence. }
  clear Hst2. repeat wp_step. eapply cert_event_gwp; [exact Hst2'|]. intros w3 Hst3. repeat wp_step.
  destruct (TTLToSeconds ttl) as [secs|e1]; repeat wp_step; [|done].
  apply gwp_call; [by apply api_pre|]. intros r w4 _ Hs4. destruct (Hown _ _ _ _ Hs4) as [o ->].
  pose proof (cert_stored_same _ _ _ _ (api_quiet _ _ _ _ Hs4 I) Hst3) as Hst4.
  repeat wp_step. apply gwp_deref; [|done]. intros o0 [= <-]. cbn beta. repeat wp_step.
  destruct (co_IsControlPlaneMachine o); repeat wp_step; cbv zeta; repeat wp_step.
  - eapply stored_reads; [apply RefreshControlPlaneCertificates_reads|exact Hst4|].
    intros w5 r Hst5. eapply finish_gwp;
      [apply annotations_annotate|unfold m1; by rewrite cert_key_annotate|exact He|exact Hst5|exact Hb].
  - eapply stored_reads; [apply RefreshWorkerCertificates_reads|exact Hst4|].
    intros w5 r Hst5. eapply finish_gwp;
      [apply annotations_annotate|unfold m1; by rewrite cert_key_annotate|exact He|exact Hst5|exact Hb].
Qed.

Lemma stored_update m w w' key o' :
  env_step (Update KMachine m) (Ok o') w w' → key_of (m_meta m) = key →
  stored w' key (marks (m_meta m)).
Proof.
  intros [_ (_ & Ho & Hm & _)]%(api_update KMachine) Hk. exists o'.
  change (obj_key KMachine m) with (key_of (m_meta m)) in Ho. rewrite Hk in Ho.
  split; [done|]. simpl in Hm. unfold marks, ann.
  assert (om_Annotations (m_meta o') = om_Annotations (m_meta m)) as ->; [|done].
  destruct (m_meta o'), (m_meta m). unfold erase in Hm. by injection Hm.
Qed.

(** The machine as read, with the annotations of the three keys. *)
Lemma cert_marks_ann m :
  ann (m_meta m) CertificatesRefreshAnnotation = cm_refresh (marks (m_meta m)) ∧
  ann (m_meta m) CertificatesRefreshStatusAnnotation = cm_status (marks (m_meta m)) ∧
  ann (m_meta m) MachineCertificatesExpiryDateAnnotation = cm_expiry (marks (m_meta m)).
Proof. done. Qed.

(** The machine after the expiry date has been recorded where it was missing. *)
Definition dated w m key rf st ex ex' : Prop :=
  key_of (m_meta m) = key ∧ marks (m_meta m) = mkCertMarks rf st ex' ∧ stored w key (mkCertMarks rf st ex') ∧
  (ex = ex' ∧ is_Some ex ∨ ex = None ∧ is_Some ex') ∧ is_Some (om_Annotations (m_meta m)).

Lemma record_expiry_gwp scope m w key rf st ex (K : W → Machine → unit → Prop) (Rt : W → Machine → outcome → Prop) :
  key_of (m_meta m) = key → stored w key (mkCertMarks rf st ex) → marks (m_meta m) = mkCertMarks rf st ex →
  marks (m_meta (sc_Before scope)) = mkCertMarks rf st ex →
  (∀ w' m' ex', dated w' m' key rf st ex ex' → K w' m' tt) →
  (∀ w' m' e, Rt w' m' (Result0, Some e)) →
  gwp (when (negb (match ex with Some _ => true | None => false end))
    (check_err (calls (updateExpiryDateAnnotation scope)) (λ e, (Result0, Some e)))) m w K Rt.
Proof.
  intros Hk Hst Hm Hb HK HRt. destruct ex as [ex|]; repeat wp_step; try done.
  - apply (HK _ _ (Some ex)). split_and!; eauto.
    assert (ann (m_meta m) MachineCertificatesExpiryDateAnnotation = Some ex) as Ha by by injection Hm.
    unfold ann in Ha. destruct (om_Annotations (m_meta m)); [by eexists|done].
  - eapply wp_mono; [eapply updateExpiry_wp; eauto|].
    intros w3 [m3 [e|]] Hr; cbn [fst snd] in *; [by apply HRt|].
    destruct (Hr eq_refl) as (d & Ha & Hk' & Hm3 & Hst3). apply (HK _ _ (Some d)). split_and!; eauto.
Qed.

Lemma reconcile_machine_wp m w key ref :
  m_ConfigRef m = Some ref → key_of (m_meta m) = key → stored w key (marks (m_meta m)) →
  (∀ c w w' r, env_step (GetConfigOwner c) r w w' → ∃ o, r = Ok (Some o)) →
  wp (reconcile_machine m) w (λ w' r,
    r.2.2 = None → ∃ k', stored w' key k' ∧ step (marks (m_meta m)) k').
Proof.
  intros Href Hkey Hst Hown.
  assert (∀ w2, stored w2 key (marks (m_meta m)) →
    ∃ k', stored w2 key k' ∧ step (marks (m_meta m)) k') as Hsame
    by (intros; eexists; split; [done|constructor]).
  unfold reconcile_machine. repeat wp_step.
  destruct (cert_marks_ann m) as (Har & Has & Hae). unfold ann0. rewrite Har, Has, Hae.
  destruct (marks (m_meta m)) as [rf st ex] eqn:Hmk. cbn [cm_refresh cm_status cm_expiry] in *.
  cbv zeta.
  destruct (m_NodeRef m) as [nr|]; [|repeat wp_step; intros _; by apply Hsame].
  set (in_progress := bool_decide (default "" st = CertificatesRefreshInProgressStatus)).
  assert (in_progress = true → st = Some CertificatesRefreshInProgressStatus) as Hin.
  { unfold in_progress. rewrite bool_decide_eq_true. destruct st as [st|]; simpl; [by intros ->|done]. }
  assert (in_progress = false → st ≠ Some CertificatesRefreshInProgressStatus) as Hns.
  { unfold in_progress. rewrite bool_decide_eq_false. by intros ? ->. }
  clearbody in_progress.
  repeat wp_step; [intros _; by apply Hsame|..|intros _; by apply Hsame|].
  { (* an abandoned status is cleared *)
    rewrite Hin in * by done.
    apply gwp_call; [by apply api_pre|]. intros r w2 _ Hu.
    destruct r as [o'|e]; repeat wp_step; [|done]. intros _.
    apply stored_update with (key := key) in Hu; [|by rewrite cert_key_annotate].
    rewrite marks_clear, Hmk in Hu. cbn [cm_refresh cm_expiry] in Hu.
    eexists. split; [exact Hu|]. destruct rf; [done|]. constructor. }
  { intros _. by apply Hsame. }
  eapply wp_mono; [by eapply wp_reads_post, createScope_reads|].
  intros w2 [scope|e] [Hv2 Hsc]; [|done].
  pose proof (cert_stored_same _ _ _ _ Hv2 Hst) as Hst2.
  assert (marks (m_meta (sc_Before scope)) = mkCertMarks rf st ex) as Hb
    by by rewrite (Hsc scope eq_refl).
  apply gwp_bind. eapply record_expiry_gwp; try done. intros w3 m3 ex' (Hk3 & Hm3 & Hst3 & Hex & Hann).
  repeat wp_step.
  - destruct rf as [ttl|]; [|done]. repeat wp_step.
    eapply wp_mono; [eapply (refreshCertificates_wp scope m3 w3 key ttl st ex' ex); eauto|].
    { destruct Hex as [[-> _]|[-> _]]; auto. }
    intros w4 [m4 [e|]] Hr; cbn [fst snd] in *; repeat wp_step.
    + apply gwp_call; [by apply api_pre|]. intros [o'|e'] w5 _ _; repeat wp_step; done.
    + intros _. destruct (Hr eq_refl) as [d Hd]. eexists. split; [exact Hd|].
      unfold final_status. constructor. auto.
  - intros _. destruct rf as [ttl|]; [done|]. eexists. split; [exact Hst3|].
    destruct Hex as [[<- _]|[-> [d ->]]]; constructor.
Qed.

(** C17: one reconciliation of a machine's certificates that returns no
    error moves the stored annotations along [step]: nothing, clearing an
    abandoned status, recording the expiry date, or a refresh, after which
    the request is gone and the new date recorded.  (The machine has a
    bootstrap config reference and its config an owner: the code
    dereferences both.) *)
Theorem cert_refresh_refines key w :
  (∀ m, view KMachine w key = Some m → is_Some (m_ConfigRef m)) →
  (∀ c w w' r, env_step (GetConfigOwner c) r w w' → ∃ o, r = Ok (Some o)) →
  wp (Reconcile key) w (λ w' r,
    r.2 = None → ∀ m, view KMachine w key = Some m →
    ∃ k', stored w' key k' ∧ step (marks (m_meta m)) k').
Proof.
  intros Hcfg Hown. unfold Reconcile. repeat wp_step. apply gwp_call; [by apply api_pre|].
  intros r w1 _ [Hv1 Hr]%(api_get KMachine). destruct r as [m|e]; repeat wp_step.
  2: { destruct (IsNotFound e); repeat wp_step; [|done]. by rewrite Hr. }
  rewrite Hr. destruct (Hcfg _ Hr) as [ref Href].
  eapply wp_mono; [eapply reconcile_machine_wp with (key := key); try done|].
  - exact (view_key _ _ _ _ Hr).
  - exists m. by rewrite Hv1.
  - intros w2 [m2 [res err]] H2'; cbn [fst snd] in *. repeat wp_step.
    intros Herr m0 [= <-]. by apply H2'.
Qed.
End Server.

(** ** The second refresh of a machine *)

Module Examples.
(** A machine whose certificates have been refreshed once and that is asked to
    refresh them again. *)
Definition m : Machine :=
  set_m_Annotations (Some {[CertificatesRefreshAnnotation := "1y";
                            CertificatesRefreshStatusAnnotation := CertificatesRefreshDoneStatus;
                            MachineCertificatesExpiryDateAnnotation := "t0"]}) (ex_noded "a").
Definition token_secret : Secret :=
  mkSecret (meta_named "c-token") (Some {["value" := "t"; "node-token-a" := "nt"]}) "".
Definition store : Store :=
  put KCK8sConfig (config_named "a") (put KSecret token_secret (put KMachine m empty_store)).
Definition owner : ConfigOwner := mkConfigOwner "Machine" "ns" "c" false None (Ok m).
Definition world : handler Store := λ X e w,
  match e in sysE X return option (X * Store) with
  | GetConfigOwner _ => Some (Ok (Some owner), w)
  | e => friendly ["a"] (cluster_named "c") (λ r, k8sd_ok "12345") _ e w
  end.
Definition key : ObjectKey := mkKey "ns" "a".
End Examples.
Import Examples.
#[local] Instance the_env : Env Store := server_env world.

Lemma world_lang X (e : sysE X) w x w' : world X e w = Some (x, w') → lang_ok e x.
Proof. destruct e; simpl; try done. by intros [= <- <-]. Qed.

Lemma cert_refresh_refines_witness :
  wp (Reconcile key) store (λ w' r,
    r.2 = None → ∀ m, view KMachine store key = Some m →
    ∃ k', stored w' key k' ∧ step (marks (m_meta m)) k').
Proof.
  apply (cert_refresh_refines key store).
  - intros m' Hm. assert (view KMachine store key = Some m) as Hm'' by (vm_compute; reflexivity).
    rewrite Hm'' in Hm. injection Hm as <-. by eexists.
  - intros c w w' r Hr. exists owner. by injection Hr as <- <-.
Defined.

(** The second refresh of a machine's certificates ends with the stored
    status "in-progress" although it succeeded: the patch helper compares with
    the snapshot taken before the first patch, whose status was "done" too, so
    the final "done" is not part of the last patch. *)
Theorem second_refresh_stays_in_progress :
  ∃ w', exec (Reconcile key) store w' (Result0, None) ∧
    stored w' key (mkCertMarks None (Some CertificatesRefreshInProgressStatus) (Some "t5000000000")).
Proof.
  destruct (run (serve world) (Reconcile key) store) as [[r w']|] eqn:Hrun.
  - exists w'. assert (r = (Result0, None) ∧
      (λ o, marks (m_meta o)) <$> look KMachine w' key =
      Some (mkCertMarks None (Some CertificatesRefreshInProgressStatus) (Some "t5000000000"))) as [-> Hm].
    { assert (match run (serve world) (Reconcile key) store with
              | Some (r, w') => r = (Result0, None) ∧ (λ o, marks (m_meta o)) <$> look KMachine w' key =
                  Some (mkCertMarks None (Some CertificatesRefreshInProgressStatus) (Some "t5000000000"))
              | None => False
              end) as H by (vm_compute; split; reflexivity).
      by rewrite Hrun in H. }
    split.
    + eapply serve_exec; [|exact Hrun]. apply world_lang.
    + destruct (look KMachine w' key) as [o|] eqn:Ho; [|done].
      exists o. split; [exact Ho|]. by apply Some_inj in Hm.
  - exfalso. assert (match run (serve world) (Reconcile key) store with Some _ => True | None => False end)
      as H by (vm_compute; exact I). by rewrite Hrun in H.
Qed.
End CertRefresh.
