(* ===== verification/KcpReconcile.v ===== *)
(** src/controlplane/controllers/ck8scontrolplane_controller.go: the reconciler of
    control planes.  [kcp] and the control plane that points to it are one
    object: a function that only assigns to [kcp] has the object as its state, and
    the part of [reconcile] that works on the control plane has the control plane. *)

From S2P Require Import Prelude Objects ApiTypes Effects Libs Duration RefLibs ApiServer RefServer.
From S2P Require Import Json Secrets Token Workload Kubeconfig MachineFilters ControlPlane Scale AgentConditions.
From S2P Require Import Remediation.

Module KcpReconcile.
Export ControlPlaneConditions.

(** Assignments to the fields of [kcp.Status]. *)
Definition on_status (f : CK8sControlPlaneStatus → CK8sControlPlaneStatus) (k : CK8sControlPlane)
    : CK8sControlPlane := set_kcp_Status (f (kcp_Status k)) k.

Definition st_set_Selector (x : string) (s : CK8sControlPlaneStatus) : CK8sControlPlaneStatus :=
  match s with mkControlPlaneStatus _ r v u rr ur i rd fr fm og c lr =>
    mkControlPlaneStatus x r v u rr ur i rd fr fm og c lr end.
Definition st_set_UpdatedReplicas (x : Z) (s : CK8sControlPlaneStatus) : CK8sControlPlaneStatus :=
  match s with mkControlPlaneStatus se r v _ rr ur i rd fr fm og c lr =>
    mkControlPlaneStatus se r v x rr ur i rd fr fm og c lr end.
(** [Replicas], [ReadyReplicas] and [UnavailableReplicas]. *)
Definition st_set_counts (replicas ready unavailable : Z) (s : CK8sControlPlaneStatus)
    : CK8sControlPlaneStatus :=
  match s with mkControlPlaneStatus se _ v u _ _ i rd fr fm og c lr =>
    mkControlPlaneStatus se replicas v u ready unavailable i rd fr fm og c lr end.
Definition st_set_Version (x : option string) (s : CK8sControlPlaneStatus) : CK8sControlPlaneStatus :=
  match s with mkControlPlaneStatus se r _ u rr ur i rd fr fm og c lr =>
    mkControlPlaneStatus se r x u rr ur i rd fr fm og c lr end.
Definition st_set_Initialized (s : CK8sControlPlaneStatus) : CK8sControlPlaneStatus :=
  match s with mkControlPlaneStatus se r v u rr ur _ rd fr fm og c lr =>
    mkControlPlaneStatus se r v u rr ur true rd fr fm og c lr end.
Definition st_set_Ready (s : CK8sControlPlaneStatus) : CK8sControlPlaneStatus :=
  match s with mkControlPlaneStatus se r v u rr ur i _ fr fm og c lr =>
    mkControlPlaneStatus se r v u rr ur i true fr fm og c lr end.
Definition st_set_LastRemediation (x : LastRemediationStatus) (s : CK8sControlPlaneStatus)
    : CK8sControlPlaneStatus :=
  match s with mkControlPlaneStatus se r v u rr ur i rd fr fm og c _ =>
    mkControlPlaneStatus se r v u rr ur i rd fr fm og c (Some x) end.

(** [time.Time.Before]; the zero time comes first. *)
Definition time_before (a b : option Z) : bool :=
  match a, b with
  | None, Some _ => true
  | Some a, Some b => (a <? b)%Z
  | _, None => false
  end.

Section Reconciler.
Context `{!ApiErrors, !CollectionsLib, !MetaLib, !SchemaLib, !ConditionsLib, !K8sdApi, !CertsLib,
          !ClientcmdLib, !MetaTimeLib}.
Implicit Types (c : ControlPlane) (kcp : CK8sControlPlane) (cluster : Cluster).

Abbreviation kcp_step := (prog (CK8sControlPlane * outcome)).

(** [conditions.MarkX(kcp, ...)], for the object and for the control plane's. *)
Definition on_conditions (f : Conditions → Conditions) (kcp : CK8sControlPlane) : CK8sControlPlane :=
  kcp_SetConditions (f (kcp_GetConditions kcp)) kcp.
Definition mark {R} (f : Conditions → Conditions) : go CK8sControlPlane R unit := modify (on_conditions f).
Definition mark_KCP {R} (f : Conditions → Conditions) : go ControlPlane R unit :=
  modify (λ c, set_KCP (on_conditions f (KCP c)) c).

Definition workload_of c : prog (gores Workload) :=
  GetWorkloadCluster (key_of (cl_meta (cp_Cluster c)))
    (GetMicroclusterPort (ControlPlaneConfig (kcp_CK8sConfigSpec (kcp_Spec (KCP c))))).

(** ** References, kubeconfig, conditions, machines *)

Definition reconcileExternalReference cluster (ref : ObjectReference) : prog (option error) :=
  func (
    if negb (GoStrings.HasSuffix (ref_Kind ref) Clusterv1.TemplateSuffix) then return_ None
    else
      let ref := if bool_decide (ref_Namespace ref = "")
                 then mkRef (ref_APIVersion ref) (ref_Kind ref) (cl_Namespace cluster) (ref_Name ref) (ref_UID ref)
                 else ref in
      obj ← check (call (ExternalGet ref)) Some;
      check (call (NewUnstructuredHelper obj)) Some ;;
      let obj' := mkUnstructured
        (set_OwnerReferences
           (EnsureOwnerRef (om_OwnerReferences (u_meta obj)) (Kubeconfig.cluster_owner cluster))
           (u_meta obj))
        (u_Kind obj) (u_APIVersion obj) in
      check (call (PatchUnstructured obj obj')) Some ;;
      mret None).

Definition controller_ref kcp : OwnerReference :=
  NewControllerRef (kcp_meta kcp) controlplane_GroupVersion "CK8sControlPlane".

Definition reconcileKubeconfig (clusterName : ObjectKey) (endpoint : APIEndpoint) kcp : prog outcome :=
  func (
    if ep_IsZero endpoint then return_ (Result0, None)
    else
      r ← callp (Secrets.GetFromNamespacedName clusterName Kubeconfig);
      match r with
      | Err e =>
          if IsNotFound e then
            createErr ← callp (Kubeconfig.CreateSecretWithOwner clusterName (ep_String endpoint)
                                 (controller_ref kcp));
            match createErr with
            | Some e => if errors_Is e "could not find secret ca"
                        then return_ (After dependentCertRequeueAfter, None)
                        else return_ (Result0, Some e)
            | None => return_ (Result0, None)
            end
          else return_ (Result0, Some (wrapf "failed to retrieve kubeconfig Secret" e))
      | Ok configSecret =>
          if negb (IsControlledBy (s_meta configSecret) (kcp_meta kcp)) then return_ (Result0, None)
          else mret (Result0, None)
      end).

Definition reconcileControlPlaneConditions : ControlPlane → prog (ControlPlane * option error) :=
  func_on (
    c ← get;
    if negb (st_Initialized (kcp_Status (KCP c))) then return_ None
    else
      workloadCluster ← check (callp (workload_of c))
        (λ e, Some (wrapf "cannot get remote client to workload cluster" e));
      calls (λ c, prog_bind (AgentConditions.UpdateAgentConditions workloadCluster c) (λ c, Ret (c, tt))) ;;
      c ← get;
      check_err (callp (PatchMachines c)) Some ;;
      mret None).

(** The machine with the annotations of the machine template. *)
Definition with_template_annotations kcp (m : Machine) : Machine :=
  set_m_Annotations
    (Some (mt_Annotations (MachineTemplate (kcp_Spec kcp)) ∪ default ∅ (om_Annotations (m_meta m)))) m.

(** [func syncMachines]: [kcp] is the control plane's object. *)
Definition syncMachines : ControlPlane → prog (ControlPlane * option error) :=
  func_on (
    c ← get;
    ks ← range (cp_Machines c);
    for_each ks (λ machineName,
      c ← get;
      match cp_Machines c !! machineName with
      | None => mret tt
      | Some m =>
          if deleting (m_meta m) then mret tt
          else
            check (call (NewHelper KMachine m))
              (λ e, Some (wrapf "failed to create patch helper for machine" e)) ;;
            let m' := with_template_annotations (KCP c) m in
            modify (set_cp_Machines (<[machineName := m']> (cp_Machines c))) ;;
            check (call (Patch KMachine m m'))
              (λ e, Some (wrapf "failed to patch machine annotations" e)) ;;
            mret tt
      end) ;;
    mret None).

(** ** Rolling out and scaling *)

Definition upgradeControlPlane (machinesRequireUpgrade : Machines)
    : ControlPlane → prog (ControlPlane * outcome) :=
  func_on (
    c ← get;
    match kcp_RolloutStrategy (kcp_Spec (KCP c)) with
    | None => return_ (Result0, None)
    | Some strategy =>
        replicas ← deref (Replicas (kcp_Spec (KCP c)));
        rollingUpdate ← deref (rs_RollingUpdate strategy);
        maxSurge ← deref (MaxSurge rollingUpdate);
        let maxNodes := wrap32 (replicas + wrap32 (IntValue maxSurge)) in
        if (wrap32 (Z.of_nat (size (cp_Machines c))) <? maxNodes)%Z
        then calls Scale.scaleUpControlPlane
        else callp (Scale.scaleDownControlPlane c machinesRequireUpgrade)
    end).

(** The last part of [reconcile]: rollout, or scaling of machines that are all up
    to date. *)
Definition scale_or_rollout : ControlPlane → prog (ControlPlane * outcome) :=
  func_on (
    c ← get;
    let needRollout := MachinesNeedingRollout c in
    let numMachines := Z.of_nat (size (cp_Machines c)) in
    if bool_decide (0 < size needRollout) then
      mark_KCP (MarkFalse MachinesSpecUpToDateCondition RollingUpdateInProgressReason SeverityWarning
        ("Rolling " +:+ pretty (Z.of_nat (size needRollout)) +:+ " replicas with outdated spec (" +:+
         pretty (numMachines - Z.of_nat (size needRollout))%Z +:+ " replicas up to date)")) ;;
      calls (upgradeControlPlane needRollout)
    else
      when (cHas (kcp_GetConditions (KCP c)) MachinesSpecUpToDateCondition)
        (mark_KCP (MarkTrue MachinesSpecUpToDateCondition)) ;;
      desiredReplicas ← deref (Replicas (kcp_Spec (KCP c)));
      if (numMachines <? desiredReplicas)%Z && (numMachines =? 0)%Z then
        mark_KCP (MarkFalse AvailableCondition WaitingForCK8sServerReason SeverityInfo "") ;;
        calls Scale.initializeControlPlane
      else if (numMachines <? desiredReplicas)%Z && (0 <? numMachines)%Z then
        calls Scale.scaleUpControlPlane
      else if (desiredReplicas <? numMachines)%Z then
        c ← get;
        callp (Scale.scaleDownControlPlane c ∅)
      else mret (Result0, None)).

(** [reconcile] from the moment there is a control plane. *)
Definition operate : ControlPlane → prog (ControlPlane * outcome) :=
  func_on (
    check_err (calls syncMachines) (λ e, (Result0, Some (wrapf "failed to sync Machines" e))) ;;
    c ← get;
    ms ← range_machines (cp_Machines c);
    mark_KCP (cSetAggregate MachinesReadyCondition (map (λ m, (m_Name m, m_Conditions m)) ms)) ;;
    check_err (calls reconcileControlPlaneConditions) (λ e, (Result0, Some e)) ;;
    r ← calls Remediation.reconcileUnhealthyMachines;
    if bool_decide (r.2 ≠ None) || negb (Result_IsZero r.1) then return_ r
    else calls scale_or_rollout).

Definition reconcile cluster : CK8sControlPlane → kcp_step :=
  func_on (
    kcp ← get;
    check_err (callp (reconcileExternalReference cluster
        (mt_InfrastructureRef (MachineTemplate (kcp_Spec kcp))))) (λ e, (Result0, Some e)) ;;
    r ← callp (Secrets.LookupOrGenerate
          (Secrets.NewCertificatesForInitialControlPlane (kcp_CK8sConfigSpec (kcp_Spec kcp)))
          (key_of (cl_meta cluster)) (controller_ref kcp));
    match r with
    | Err e =>
        mark (MarkFalse CertificatesAvailableCondition CertificatesGenerationFailedReason SeverityWarning
                (error_text e)) ;;
        return_ (Result0, Some e)
    | Ok _ => mark (MarkTrue CertificatesAvailableCondition)
    end ;;
    r ← callp (Token.Reconcile (key_of (cl_meta cluster))
          (Token.mkOwner (kcp_meta kcp) controlplane_GroupVersion "CK8sControlPlane"));
    match r with
    | Some e =>
        mark (MarkFalse TokenAvailableCondition TokenGenerationFailedReason SeverityWarning (error_text e)) ;;
        return_ (Result0, Some e)
    | None => mark (MarkTrue TokenAvailableCondition)
    end ;;
    if negb (ep_IsValid (cl_ControlPlaneEndpoint cluster)) then return_ (After (3 * Time.Second), None)
    else
    r ← callp (reconcileKubeconfig (key_of (cl_meta cluster)) (cl_ControlPlaneEndpoint cluster) kcp);
    when (bool_decide (r.2 ≠ None)) (return_ r) ;;
    controlPlaneMachines ← check (callp (GetMachinesForCluster (key_of (cl_meta cluster))
        [ControlPlaneMachines (cl_Name cluster)])) (λ e, (Result0, Some e));
    let adoptableMachines := mFilter (AdoptableControlPlaneMachines (cl_Name cluster)) controlPlaneMachines in
    if bool_decide (0 < size adoptableMachines) then return_ (Result0, None)
    else
    let ownedMachines := mFilter (OwnedMachines (kcp_meta kcp)) controlPlaneMachines in
    if negb (bool_decide (size ownedMachines = size controlPlaneMachines)) then return_ (Result0, None)
    else
    kcp ← get;
    controlPlane ← check (callp (NewControlPlane cluster kcp ownedMachines)) (λ e, (Result0, Some e));
    calls (λ kcp, prog_bind (operate controlPlane) (λ cr, Ret (KCP cr.1, cr.2)))).

(** ** Deletion *)

(** The loop that deletes the machines; the errors are the state. *)
Definition delete_machines (machinesToDelete : Machines) : prog (list error) :=
  func_with (
    each_machine machinesToDelete (λ m,
      r ← call (Delete KMachine (key_of (m_meta m)));
      match r with
      | Err e => if IsNotFound e then mret tt else modify (λ errs, errs ++ [e])
      | Ok _ => mret tt
      end) ;;
    get) [].

Definition reconcileDelete cluster : CK8sControlPlane → kcp_step :=
  func_on (
    kcp ← get;
    allMachines ← check (callp (GetMachinesForCluster (key_of (cl_meta cluster)) []))
      (λ e, (Result0, Some e));
    let ownedMachines := mFilter (OwnedMachines (kcp_meta kcp)) allMachines in
    if bool_decide (size ownedMachines = 0) then
      modify (λ kcp, set_kcp_meta (RemoveFinalizer (kcp_meta kcp) CK8sControlPlaneFinalizer) kcp) ;;
      return_ (Result0, None)
    else
    controlPlane ← check (callp (NewControlPlane cluster kcp ownedMachines)) (λ e, (Result0, Some e));
    c ← calls (λ kcp, prog_bind (reconcileControlPlaneConditions controlPlane)
                        (λ cr, Ret (KCP cr.1, cr.1)));
    ms ← range_machines (cp_Machines c);
    mark (cSetAggregate MachinesReadyCondition (map (λ m, (m_Name m, m_Conditions m)) ms)) ;;
    if negb (bool_decide (size allMachines = size ownedMachines)) then
      mark (MarkFalse ResizedCondition Clusterv1.DeletingReason SeverityInfo
              "Waiting for worker nodes to be deleted first") ;;
      return_ (After deleteRequeueAfter, None)
    else
    errs ← callp (delete_machines (mFilter (λ m, negb (HasDeletionTimestamp m)) (cp_Machines c)));
    match NewAggregate errs with
    | Some err =>
        call (Eventf (key_of (kcp_meta kcp)) EventWarning "FailedDelete"
          ("Failed to delete control plane Machines for cluster " +:+ cl_Namespace cluster +:+ "/" +:+
           cl_Name cluster +:+ " control plane: " +:+ error_text err)) ;;
        return_ (Result0, Some err)
    | None =>
        mark (MarkFalse ResizedCondition Clusterv1.DeletingReason SeverityInfo "") ;;
        mret (After deleteRequeueAfter, None)
    end).

(** ** Status *)

(** The remediation in progress, or the most recent one of a machine. *)
Definition newest_remediation (machines : Machines) : prog (gores (option RemediationData)) :=
  func_with (
    each_machine machines (λ m,
      match ann (m_meta m) RemediationForAnnotation with
      | None => mret tt
      | Some v =>
          remediationData ← check (mret (RemediationDataFromAnnotation v)) Err;
          modify (λ last : option RemediationData,
            match last with
            | None => Some remediationData
            | Some l => if time_before (rd_Timestamp l) (rd_Timestamp remediationData)
                        then Some remediationData else last
            end)
      end) ;;
    last ← get;
    mret (Ok last)) None.

Definition lastRemediation c : prog (gores (option RemediationData)) :=
  match ann (kcp_meta (KCP c)) RemediationInProgressAnnotation with
  | Some v => Ret (res_map Some (RemediationDataFromAnnotation v))
  | None => newest_remediation (cp_Machines c)
  end.

(** The condition that reports the size of the control plane. *)
Definition resized (replicas desiredReplicas : Z) (ownedMachines : Machines) : Conditions → Conditions :=
  let message what := what +:+ " control plane to " +:+ pretty desiredReplicas +:+ " replicas (actual " +:+
                      pretty replicas +:+ ")" in
  if (replicas <? desiredReplicas)%Z then
    MarkFalse ResizedCondition ScalingUpReason SeverityWarning (message "Scaling up")
  else if (desiredReplicas <? replicas)%Z then
    MarkFalse ResizedCondition ScalingDownReason SeverityWarning (message "Scaling down")
  else if (wrap32 (Z.of_nat (size (mFilter IsReady ownedMachines))) =? replicas)%Z then
    MarkTrue ResizedCondition
  else id.

Definition updateStatus cluster : CK8sControlPlane → prog (CK8sControlPlane * option error) :=
  func_on (
    modify (on_status (st_set_Selector (ControlPlaneSelector (cl_Name cluster)))) ;;
    kcp ← get;
    ownedMachines ← check (callp (GetMachinesForCluster (key_of (cl_meta cluster))
        [OwnedMachines (kcp_meta kcp)])) (λ e, Some (wrapf "failed to get list of owned machines" e));
    controlPlane ← check (callp (NewControlPlane cluster kcp ownedMachines)) Some;
    modify (on_status (st_set_UpdatedReplicas (wrap32 (Z.of_nat (size (UpToDateMachines controlPlane)))))) ;;
    let replicas := wrap32 (Z.of_nat (size ownedMachines)) in
    desiredReplicas ← deref (Replicas (kcp_Spec kcp));
    modify (on_status (st_set_counts replicas 0 replicas)) ;;
    when (bool_decide (mLowestVersion ownedMachines ≠ None))
      (modify (on_status (st_set_Version (mLowestVersion ownedMachines)))) ;;
    if deleting (kcp_meta kcp) then return_ None
    else
    mark (resized replicas desiredReplicas ownedMachines) ;;
    workloadCluster ← check (callp (workload_of controlPlane))
      (λ e, Some (wrapf "failed to create remote cluster client" e));
    status ← check (callp (ClusterStatus_ workloadCluster)) Some;
    modify (on_status (st_set_counts replicas (cs_ReadyNodes status) (wrap32 (replicas - cs_ReadyNodes status)))) ;;
    when (HasK8sdConfigMap status) (modify (on_status st_set_Initialized)) ;;
    when (bool_decide (0 < cs_ReadyNodes status)%Z)
      (modify (on_status st_set_Ready) ;; mark (MarkTrue AvailableCondition)) ;;
    last ← check (callp (lastRemediation controlPlane)) Some;
    match last with
    | Some data => modify (on_status (st_set_LastRemediation (ToStatus data)))
    | None => mret tt
    end ;;
    mret None).

(** ** The reconciliation *)

Definition summary_conditions : list ConditionType :=
  [MachinesSpecUpToDateCondition; ResizedCondition; MachinesReadyCondition; AvailableCondition;
   CertificatesAvailableCondition; TokenAvailableCondition].

(** [before] is the snapshot of the patch helper. *)
Definition patchCK8sControlPlane (before : CK8sControlPlane)
    : CK8sControlPlane → prog (CK8sControlPlane * option error) :=
  func_on (
    modify (on_conditions (cSetSummary summary_conditions)) ;;
    kcp ← get;
    check (call (Patch KControlPlane before kcp)) Some ;;
    mret None).

(** [kerrors.NewAggregate] of two errors: nil ones are skipped. *)
Definition aggregate2 (err : option error) (e : error) : option error :=
  NewAggregate (match err with Some err => [err] | None => [] end ++ [e]).

(** [Reconcile] of an object that carries the finalizer. *)
Definition reconcile_and_patch cluster (before : CK8sControlPlane) : prog outcome :=
  func_with (
    r ← calls (if deleting (kcp_meta before) then reconcileDelete cluster else reconcile cluster);
    updateErr ← calls (updateStatus cluster);
    let err := match updateErr with
               | Some e => if errors_As_Remote e then r.2 else aggregate2 r.2 e
               | None => r.2
               end in
    patchErr ← calls (patchCK8sControlPlane before);
    let err := match patchErr with Some e => aggregate2 err e | None => err end in
    kcp ← get;
    if bool_decide (err = None) && negb (Requeue r.1) && (RequeueAfter r.1 <=? 0)%Z &&
       negb (deleting (kcp_meta kcp)) && negb (st_Ready (kcp_Status kcp))
    then mret (After (20 * Time.Second), None)
    else mret (r.1, err)) before.

Definition Reconcile (req : ObjectKey) : prog outcome :=
  func (
    r ← call (Get KControlPlane req);
    match r with
    | Err e => if IsNotFound e then return_ (Result0, None) else return_ (RequeueNow, None)
    | Ok kcp =>
        owner ← check (call (GetOwnerCluster (kcp_meta kcp))) (λ e, (Result0, Some e));
        match owner with
        | None => return_ (RequeueNow, None)
        | Some cluster =>
            if IsPaused cluster (kcp_meta kcp) then return_ (Result0, None)
            else if negb (cl_InfrastructureReady cluster) then return_ (Result0, None)
            else
              check (call (NewHelper KControlPlane kcp)) (λ _, (RequeueNow, None)) ;;
              if negb (ContainsFinalizer (kcp_meta kcp) CK8sControlPlaneFinalizer) then
                let kcp' := set_kcp_meta (AddFinalizer (kcp_meta kcp) CK8sControlPlaneFinalizer) kcp in
                check (call (Patch KControlPlane kcp kcp')) (λ e, (Result0, Some e)) ;;
                return_ (Result0, None)
              else callp (reconcile_and_patch cluster kcp)
        end
    end).
End Reconciler.

(** [func ClusterToCK8sControlPlane], of a cluster: what to reconcile when it
    changes. *)
Definition ClusterToCK8sControlPlane (c : Cluster) : list ObjectKey :=
  match cl_ControlPlaneRef c with
  | Some ref => if bool_decide (ref_Kind ref = "CK8sControlPlane")
                then [mkKey (ref_Namespace ref) (ref_Name ref)] else []
  | None => []
  end.
End KcpReconcile.
