(* ===== verification/KcpSpec.v ===== *)
(** What the reconciler of control planes guarantees: how much it changes in one
    reconciliation, what it does before the finalizer is stored and while the
    control plane is deleted, and what the status says. *)

From S2P Require Import Prelude Objects ApiTypes Effects Libs Duration RefLibs ApiServer RefServer.
From S2P Require Import Json Secrets Token Workload Kubeconfig MachineFilters ControlPlane Scale AgentConditions.
From S2P Require Import Remediation KcpReconcile.

(** ** Programs that make none of the counted calls *)

Create HintDb only.

(** Symbolic execution towards a postcondition that always holds. *)
Ltac only_run :=
  repeat first
    [ progress wp_run
    | lazymatch goal with
      | |- True => exact I
      | |- gwp (call _) _ _ _ _ => apply gwp_call; [done|intros ? [] _ _; cbv beta]
      | |- gwp (deref _) _ _ _ _ => apply gwp_deref; [intros ? _; cbv beta|intros _; done]
      | |- gwp (panic _) _ _ _ _ => apply gwp_panic; done
      | |- gwp (for_each _ _) _ _ _ _ =>
          apply (gwp_for_each_inv _ _ (λ _ _, True));
          [exact I|intros ? [] ? _ _; cbv beta|intros [] ? _; cbv beta]
      | |- wp (prog_bind _ _) _ _ => apply wp_bind
      | |- wp (match ?x with _ => _ end) _ _ => destruct x
      | |- @wp unit (only_env ?P) _ ?p _ _ =>
          apply (wp_mono p tt (λ _ _, True)); [change (only P p); solve [eauto with only]|intros [] ? _; cbv beta]
      | |- gwp (match ?x with _ => _ end) _ _ _ _ => destruct x
      | |- match ?x with _ => _ end => destruct x
      end ].

(** Case analysis on the test that comes next. *)
Ltac head_case :=
  lazymatch goal with
  | |- gwp (match ?x with _ => _ end) _ _ _ _ => destruct x eqn:?
  end.

(** Creating or deleting a machine. *)
Definition machine_change (X : Type) (e : sysE X) : bool :=
  match e with Create KMachine _ | Delete KMachine _ => true | _ => false end.

Abbreviation keeps_machines := (only (λ X e, machine_change X e = false)).

(** Reading, or patching a machine. *)
Definition benign (X : Type) (e : sysE X) : Prop :=
  match e with Patch KMachine _ _ => True | Panic _ => False | e => quiet e end.

Lemma benign_keep X (e : sysE X) : benign X e → machine_change X e = false.
Proof. by destruct e. Qed.

Lemma benign_keeps {A} (p : prog A) : only benign p → keeps_machines p.
Proof.
  unfold only. induction p as [a|X e k IH]; simpl; [done|]. intros [He Hk].
  split; [by apply benign_keep|]. intros x [] Hx _. by apply IH, (Hk x tt).
Qed.
Hint Extern 5 (keeps_machines _) => apply benign_keeps : only.

Module KcpSpec.
Import KcpReconcile RemediationSpec.

(** Benign calls leave machine patches only. *)
Lemma benign_patched {A} (p : prog A) t : only benign p → wp p t (λ t' _, patched t t').
Proof.
  unfold only. revert t. induction p as [a|X e k IH]; intros t; simpl; [done|]. intros [He Hk].
  split; [by destruct e|]. intros x t' Hx ->. eapply wp_mono; [by apply IH, (Hk x tt)|].
  simpl. intros t2 a Hp. etrans; [|exact Hp].
  destruct e; try done; try by apply patched_call.
  match goal with |- patched _ (_ ++ [Obs (Patch ?k _ _) _]) => destruct k; try done; apply patched_patch end.
Qed.

Lemma benign_reads {A} (p : prog A) Q : reads_post p Q → only benign p.
Proof.
  unfold reads_post, only. induction p as [a|X e k IH]; simpl; [done|].
  intros [[Hq Hp] Hk]. split; [by destruct e|]. intros x [] Hx _. by apply IH, (Hk x tt).
Qed.

Section Keeps.
Context `{!ApiErrors, !CollectionsLib, !MetaLib, !SchemaLib, !ConditionsLib, !K8sdApi, !CertsLib,
          !ClientcmdLib, !MetaTimeLib}.
Implicit Types (c : ControlPlane) (kcp : CK8sControlPlane) (cluster : Cluster).

Lemma keeps_external cluster ref : keeps_machines (reconcileExternalReference cluster ref).
Proof. unfold only, reconcileExternalReference. only_run. Qed.

Lemma keeps_generate_one x : keeps_machines (Secrets.Generate_one x).
Proof. eapply benign_keeps, benign_reads, Secrets.Generate_one_reads. Qed.
#[local] Hint Resolve keeps_external keeps_generate_one : only.

Lemma keeps_certificates cs ck owner : keeps_machines (Secrets.LookupOrGenerate cs ck owner).
Proof.
  unfold only, Secrets.LookupOrGenerate, Secrets.Lookup, Secrets.Generate, Secrets.each_certificate,
    Secrets.SaveGenerated, Secrets.Lookup_one.
  only_run.
Qed.

Lemma keeps_token ck owner : keeps_machines (Token.Reconcile ck owner).
Proof.
  unfold only, Token.Reconcile, Token.getSecret, Token.generateAndStore, Token.randomB64. only_run.
Qed.

Lemma keeps_kubeconfig ck endpoint kcp : keeps_machines (reconcileKubeconfig ck endpoint kcp).
Proof.
  unfold only, reconcileKubeconfig, Kubeconfig.CreateSecretWithOwner, Kubeconfig.generateKubeconfig,
    Kubeconfig.dependency, Kubeconfig.decoded, Kubeconfig.New, Secrets.GetFromNamespacedName.
  only_run.
Qed.

Lemma benign_machine_list ck filters : only benign (GetMachinesForCluster ck filters).
Proof. unfold only, GetMachinesForCluster. only_run. Qed.

Lemma benign_workload c : only benign (workload_of c).
Proof. unfold workload_of. eapply benign_reads, GetWorkloadCluster_reads. Qed.

Lemma benign_control_plane cluster kcp ms : only benign (NewControlPlane cluster kcp ms).
Proof.
  unfold only, NewControlPlane, getInfraResources, getCK8sConfigs, each_machine. only_run.
Qed.
#[local] Hint Resolve keeps_certificates keeps_token keeps_kubeconfig benign_machine_list benign_workload
  benign_control_plane : only.

Lemma benign_sync c : only benign (syncMachines c).
Proof. unfold only, syncMachines. only_run. Qed.

Lemma benign_agent w c : only benign (AgentConditions.UpdateAgentConditions w c).
Proof.
  unfold only, AgentConditions.UpdateAgentConditions, AgentConditions.report_missing, AgentConditions.visit_node,
    AgentConditions.each_key, AgentConditions.mark, getControlPlaneNodes. only_run.
Qed.

Lemma benign_patches c : only benign (PatchMachines c).
Proof. unfold only, PatchMachines, each_machine. only_run. Qed.
#[local] Hint Resolve benign_sync benign_agent benign_patches : only.

Lemma benign_conditions c : only benign (reconcileControlPlaneConditions c).
Proof. unfold only, reconcileControlPlaneConditions. only_run. Qed.

Lemma benign_preflight c l : only benign (Scale.preflightChecks c l).
Proof. unfold only, Scale.preflightChecks, Scale.check_machine, each_machine. only_run. Qed.

Lemma benign_removal w m : only benign (RemoveMachineFromCluster w m).
Proof.
  assert (∀ ignore endpoint what request (zero : unit) decode,
    only benign (cluster_request w ignore endpoint what request zero decode)) as Hc
    by (intros; eapply benign_reads, cluster_request_reads).
  unfold only, RemoveMachineFromCluster. only_run.
Qed.

Lemma keeps_cleanup refs : keeps_machines (Scale.cleanupFromGeneration refs).
Proof. unfold only, Scale.cleanupFromGeneration. only_run. Qed.

Lemma keeps_config kcp cluster spec : keeps_machines (Scale.generateCK8sConfig kcp cluster spec).
Proof. unfold only, Scale.generateCK8sConfig. only_run. Qed.

Lemma benign_rem_cleanup c : only benign (Remediation.cleanup_all c).
Proof. unfold only, Remediation.cleanup_all, Remediation.cleanup_healthy, each_machine. only_run. Qed.

(** ** At most one machine changes *)

(** [changes p n Q]: after [p], which has made [n' - n] machine changes. *)
Abbreviation changes p n Q := (@wp nat (count_env machine_change) _ p n Q).

(** The same of a body, whichever way it ends. *)
Abbreviation gchanges m s n Q := (@gwp nat (count_env machine_change) _ _ _ m s n Q Q).

Lemma changes_keeps {A} (p : prog A) n (Q : nat → A → Prop) :
  keeps_machines p → (∀ a, Q n a) → changes p n Q.
Proof. apply only_count. Qed.

(** A call of a function that changes no machine. *)
Ltac keep := apply changes_keeps; [solve [eauto with only]|intros ?; cbv beta].

#[local] Hint Resolve benign_conditions benign_preflight benign_removal keeps_cleanup keeps_config
  benign_rem_cleanup : only.

Lemma clone_changes cluster spec fd kcp n :
  changes (Scale.cloneConfigsAndGenerateMachine cluster spec fd kcp) n (λ n' _, n' ≤ S n).
Proof.
  unfold Scale.cloneConfigsAndGenerateMachine. wp_run.
  1,2: apply gwp_call; [done|]; intros [infra|e] n1 _ ->; wp_run; [|simpl; lia]; keep;
    (destruct a as [ref|e]; wp_run; [|keep; wp_run; simpl; lia]);
    unfold Scale.generateMachine; wp_run; apply gwp_call; [done|]; intros name n2 _ ->; wp_run;
    apply gwp_call; [done|]; intros [m|e] n3 _ ->; wp_run; [simpl; lia|keep; wp_run; simpl; lia].
Qed.

Lemma generate_changes spec reason what c n :
  changes (func_on (Scale.generate spec reason what) c) n (λ n' _, n' ≤ S n).
Proof.
  unfold Scale.generate, Scale.on_kcp. wp_run. apply wp_bind.
  eapply wp_mono; [apply clone_changes|]. intros n1 [k [e|]] Hn; wp_run; [|exact Hn].
  apply gwp_call; [done|]. intros [] n2 _ ->. wp_run. exact Hn.
Qed.

Lemma gwp_func_on {G} `{!Env G} {S R} (body : go S R R) s g (Q : G → S → R → Prop) :
  wp (func_on body s) g (λ g r, Q g r.1 r.2) → gwp body s g Q Q.
Proof.
  unfold func_on, gwp. rewrite wp_bind. intros Hw. eapply wp_mono; [exact Hw|].
  by intros g' [s' [r|r]].
Qed.

Lemma initialize_changes c n : changes (Scale.initializeControlPlane c) n (λ n' _, n' ≤ S n).
Proof.
  unfold Scale.initializeControlPlane. wp_run. keep. destruct a as [ms|e]; wp_run; [|lia].
  case_bool_decide; wp_run; [lia|]. apply (gwp_func_on _ _ _ (λ n' _ _, n' ≤ S n)), generate_changes.
Qed.

Lemma scale_up_changes c n : changes (Scale.scaleUpControlPlane c) n (λ n' _, n' ≤ S n).
Proof.
  unfold Scale.scaleUpControlPlane. wp_run. keep. destruct (_ || _); wp_run; [lia|].
  apply (gwp_func_on _ _ _ (λ n' _ _, n' ≤ S n)), generate_changes.
Qed.

Lemma scale_down_changes c ms n : changes (Scale.scaleDownControlPlane c ms) n (λ n' _, n' ≤ S n).
Proof.
  unfold Scale.scaleDownControlPlane. wp_run.
  destruct (Scale.selectMachineForScaleDown c ms) as [m|e]; wp_run; [|lia]. keep.
  destruct (_ || _); wp_run; [lia|]. change (GetWorkloadCluster _ _) with (workload_of c). keep.
  assert (∀ s, gchanges (Scale.delete_machine c m) s n (λ n' _ _, n' ≤ S n)) as Hd.
  { intros s. unfold Scale.delete_machine. wp_run. apply gwp_call; [done|]. intros [u|e] n1 _ ->; wp_run; [simpl; lia|].
    destruct (IsNotFound e); wp_run; [simpl; lia|]. apply gwp_call; [done|]. intros [] n2 _ ->. wp_run. simpl; lia. }
  destruct a0 as [w|e]; wp_run; [|exact (Hd tt)|lia].
  keep. destruct a0 as [e|]; [lia|exact (Hd tt)].
Qed.

(** A reconciliation of unhealthy machines that lets the rest go on has deleted
    nothing. *)
Definition at_most_one (n n' : nat) (r : outcome) : Prop := n' ≤ S n ∧ (r = (Result0, None) → n' = n).

Lemma none_changed n r : at_most_one n n r.
Proof. split; [lia|done]. Qed.

Lemma one_changed n n' r : n' ≤ S n → r ≠ (Result0, None) → at_most_one n n' r.
Proof. by split. Qed.
#[local] Hint Resolve none_changed : core.

Lemma remediate_changes m now c n :
  gchanges (Remediation.remediate m now) c n (λ n' _, at_most_one n n').
Proof.
  unfold Remediation.remediate, Remediation.mark. wp_run.
  destruct (Remediation.checkRetryLimits _ _ _) as [[[data can] f]|e]; wp_run; [|done].
  destruct can; cbn [negb]; wp_run; [|done]. destruct (Remediation.not_now c); wp_run; [done|].
  change (GetWorkloadCluster _ _) with (workload_of c).
  assert (∀ s, gchanges (Remediation.delete_unhealthy m data) s n (λ n' _, at_most_one n n')) as Hd.
  { intros s. unfold Remediation.delete_unhealthy, Remediation.mark. wp_run. apply gwp_call; [done|].
    intros [u1|e] n3 _ ->; wp_run; by apply one_changed. }
  set (c1 := AgentConditions.mark_machine _ _ _) in *.
  keep. destruct a as [w|e]; wp_run; [|exact (Hd c1)|done].
  keep. destruct a as [e|]; [done|exact (Hd c1)].
Qed.

Lemma patch_changes m r c n n' :
  at_most_one n n' r → gchanges (Remediation.patch_deferred m r) c n' (λ n'' _, at_most_one n n'').
Proof.
  intros Hr. unfold Remediation.patch_deferred. wp_run. apply gwp_call; [done|].
  intros [u|e] n3 _ ->; wp_run; [exact Hr|]. destruct r as [r [e'|]]; [exact Hr|].
  apply one_changed; [by apply Hr|done].
Qed.

Lemma remediation_changes c n :
  changes (Remediation.reconcileUnhealthyMachines c) n (λ n' r, at_most_one n n' r.2).
Proof.
  unfold Remediation.reconcileUnhealthyMachines. wp_run. apply gwp_call; [done|].
  intros now n1 _ Hn; simpl in Hn; subst n1. wp_run. keep. destruct a as [c' [e|]]; wp_run; [done|].
  destruct (Remediation.getMachineToBeRemediated _) as [m|]; wp_run; [|done].
  destruct (deleting (m_meta m)); wp_run; [done|]. case_bool_decide; wp_run; [done|].
  apply gwp_call; [done|]. intros [u|e] n2 _ Hn; simpl in Hn; subst n2; wp_run; [|done].
  eapply gwp_mono; [apply remediate_changes|..]; intros n' s r Hr; by apply (patch_changes m r s n n').
Qed.

Lemma scale_changes c n : changes (scale_or_rollout c) n (λ n' _, n' ≤ S n).
Proof.
  unfold scale_or_rollout, mark_KCP, upgradeControlPlane. wp_run. case_bool_decide; wp_run.
  1: { destruct (kcp_RolloutStrategy _) as [strategy|]; wp_run; [|lia].
    apply gwp_deref; [|done]. intros replicas _. cbv beta. wp_run.
    apply gwp_deref; [|done]. intros update _. cbv beta. wp_run.
    apply gwp_deref; [|done]. intros surge _. cbv beta. destruct (_ <? _)%Z; wp_run;
      [apply scale_up_changes|apply scale_down_changes]. }
  all: (apply gwp_deref; [|done]); intros replicas _; cbv beta;
      (destruct (_ && _); wp_run; [apply initialize_changes|]);
      (destruct (_ && _); wp_run; [apply scale_up_changes|]);
      (destruct (_ <? _)%Z; wp_run; [apply scale_down_changes|lia]).
Qed.

Lemma operate_changes c n : changes (operate c) n (λ n' _, n' ≤ S n).
Proof.
  unfold operate, range_machines, mark_KCP. wp_run. keep. destruct a as [c1 [e|]]; wp_run; [simpl; lia|].
  apply gwp_call; [done|]. intros ks n1 _ Hn1; simpl in Hn1; subst n1. wp_run. keep. destruct a as [c2 [e|]]; wp_run; [simpl; lia|].
  eapply wp_mono; [apply remediation_changes|]. intros n2 [c3 r] [Hn Hr]; cbn [fst snd] in *.
  destruct r as [res [e|]]; cbn [fst snd] in *; [rewrite bool_decide_true by done; wp_run; exact Hn|].
  rewrite bool_decide_false by tauto. destruct (Result_IsZero res) eqn:Hz; wp_run; [|exact Hn].
  unfold Result_IsZero in Hz. apply bool_decide_eq_true in Hz as ->. rewrite (Hr eq_refl).
  cbn [negb orb]. wp_run. apply scale_changes.
Qed.

(** C10: a reconciliation of a control plane that is not deleted creates
    or deletes at most one machine, whatever the environment answers: a
    remediation that has deleted a machine ends the reconciliation, and a rollout
    or a scaling operation handles a single machine. *)
Theorem reconcile_one_machine cluster kcp :
  @wp nat (count_env machine_change) _ (reconcile cluster kcp) 0 (λ n _, n ≤ 1).
Proof.
  unfold reconcile, mark. wp_run. keep. destruct a as [e|]; wp_run; [lia|]. keep.
  destruct a as [cs|e]; wp_run; [|lia]. keep. destruct a as [e|]; wp_run; [lia|].
  head_case; wp_run; [lia|]. keep. wp_run; [lia|]. keep. destruct a0 as [ms|e]; wp_run; [|lia].
  head_case; wp_run; [lia|]. head_case; wp_run; [lia|]. keep. destruct a0 as [c|e]; wp_run; [|lia].
  apply wp_bind. eapply wp_mono; [apply operate_changes|]. by intros n [c' r] Hn.
Qed.
End Keeps.

(** ** Machines follow the machine template *)

Section Sync.
Context `{!ApiErrors, !CollectionsLib}.
Implicit Types (c : ControlPlane) (kcp : CK8sControlPlane) (m : Machine) (t : trace).

(** The machine after a synchronisation. *)
Definition synced_machine kcp m : Machine :=
  if deleting (m_meta m) then m else with_template_annotations kcp m.

(** The machines [done] are synchronised in [c'], the others are as in [c]. *)
Definition syncing c (visited : list string) c' t : Prop :=
  KCP c' = KCP c ∧ cp_Cluster c' = cp_Cluster c ∧
  (∀ n, cp_Machines c' !! n =
     (if decide (n ∈ visited) then synced_machine (KCP c) else id) <$> cp_Machines c !! n) ∧
  (∀ n m, n ∈ visited → cp_Machines c !! n = Some m → deleting (m_meta m) = false →
     Obs (Patch KMachine m (with_template_annotations (KCP c) m)) (Ok tt) ∈ t).

Lemma syncing_step c d n c2 c3 t2 t3 :
  syncing c d c2 t2 → n ∉ d → KCP c3 = KCP c2 → cp_Cluster c3 = cp_Cluster c2 →
  cp_Machines c3 !! n = synced_machine (KCP c) <$> cp_Machines c !! n →
  (∀ n', n' ≠ n → cp_Machines c3 !! n' = cp_Machines c2 !! n') → extends t2 t3 →
  (∀ m, cp_Machines c !! n = Some m → deleting (m_meta m) = false →
     Obs (Patch KMachine m (with_template_annotations (KCP c) m)) (Ok tt) ∈ t3) →
  syncing c (d ++ [n]) c3 t3.
Proof.
  intros (Hk & Hc & Hm & Ho) Hnd Hk3 Hc3 Hn Hne He Hp.
  split; [congruence|]. split; [congruence|]. split.
  - intros n'. destruct (decide (n' = n)) as [->|Hn']; [by rewrite decide_True by set_solver|].
    rewrite (Hne n' Hn'), Hm. repeat case_decide; set_solver.
  - intros n' m [Hin|Hin%list_elem_of_singleton]%elem_of_app Hm' Hd; [by apply He, (Ho n')|].
    subst n'. by apply Hp.
Qed.

(** [syncMachines] gives every machine that is not being deleted the
    annotations of the machine template: a machine keeps its other annotations,
    and an annotation of the template replaces the machine's.  Machines that are
    being deleted are left alone, and when there is no error every change has been
    stored by a patch. *)
Theorem syncMachines_spec c :
  wp (syncMachines c) ([] : trace) (λ t r,
    (r.2 = None → (∀ n, cp_Machines r.1 !! n = synced_machine (KCP c) <$> cp_Machines c !! n) ∧
       ∀ n m, cp_Machines c !! n = Some m → deleting (m_meta m) = false →
         Obs (Patch KMachine m (with_template_annotations (KCP c) m)) (Ok tt) ∈ t) ∧
    (∀ kcp m k, ann (m_meta (with_template_annotations kcp m)) k =
       match mt_Annotations (MachineTemplate (kcp_Spec kcp)) !! k with
       | Some v => Some v
       | None => ann (m_meta m) k
       end) ∧
    Forall (λ o, is_patch o = true) (writes t)).
Proof.
  assert (∀ kcp m k, ann (m_meta (with_template_annotations kcp m)) k =
       match mt_Annotations (MachineTemplate (kcp_Spec kcp)) !! k with
       | Some v => Some v
       | None => ann (m_meta m) k
       end) as Hann.
  { intros kcp m k. unfold with_template_annotations, set_m_Annotations. rewrite meta_set_m, ann_set, lookup_union.
    rewrite ann_default. by destruct (_ !! k), (ann (m_meta m) k). }
  assert (∀ t', patched [] t' → Forall (λ o, is_patch o = true) (writes t')) as Hfinal
    by (by intros t' (_ & ps & -> & Hp)).
  unfold syncMachines. wp_run. apply gwp_call; [done|]. intros ks t1 Hks ->. wp_run. simpl in Hks.
  apply (gwp_for_each _ _ (λ d _ t' c', syncing c d c' t' ∧ patched [] t')).
  - split; [|by apply patched_call]. split; [done|]. split; [done|]. split; [|by intros n m Hn%elem_of_nil].
    intros n. rewrite decide_False by apply not_elem_of_nil. by rewrite option_fmap_id.
  - intros d n rest t2 c2 Hl [(Hk & Hc & Hm & Ho) Hp].
    assert (n ∉ d) as Hnd.
    { assert (NoDup ks) as Hnd by (rewrite Hks; apply NoDup_fst_map_to_list). rewrite Hl in Hnd.
      apply list.NoDup_app in Hnd as (_ & Hnd & _). intros Hin. apply (Hnd n Hin). by left. }
    pose proof (λ c3 t3, syncing_step c d n c2 c3 t2 t3 (conj Hk (conj Hc (conj Hm Ho))) Hnd) as Hstep.
    wp_run. rewrite (Hm n), decide_False, option_fmap_id by done.
    destruct (cp_Machines c !! n) as [m|] eqn:Hn; wp_run.
    2: { split; [|done]. apply Hstep; try done. rewrite Hm, Hn. done. }
    unfold synced_machine in Hstep. destruct (deleting (m_meta m)) eqn:Hd; wp_run.
    { split; [|done]. apply Hstep; try done; [|congruence].
      rewrite Hm, decide_False, Hn by done. simpl. by rewrite Hd. }
    apply gwp_call; [done|]. intros [u|e] t3 _ ->; wp_run.
    2: { split; [done|]. split; [done|]. apply Hfinal. etrans; [exact Hp|by apply patched_call]. }
    rewrite Hk. apply gwp_call; [done|]. intros x t4 _ ->.
    assert (patched [] ((t2 ++ [Obs (NewHelper KMachine m) (Ok u)]) ++
      [Obs (Patch KMachine m (with_template_annotations (KCP c) m)) x])) as Hp4.
    { etrans; [|apply patched_patch]. etrans; [exact Hp|by apply patched_call]. }
    destruct x as [[]|e]; wp_run; [|split; [done|split; [done|by apply Hfinal]]]. split; [|done].
    apply Hstep; destruct c2; try done; simpl.
    + rewrite lookup_insert_eq. by rewrite Hd.
    + intros n' Hne. by rewrite lookup_insert_ne.
    + by repeat apply extends_snoc; apply extends_refl.
    + intros m' [= <-] _. apply elem_of_app. right. by left.
  - intros t2 c2 [(Hk & Hc & Hm & Ho) Hp]. wp_run. split; [|split; [done|by apply Hfinal]].
    assert (∀ n m, cp_Machines c !! n = Some m → n ∈ ks) as Hin.
    { intros n m Hn. rewrite Hks, list_elem_of_fmap. exists (n, m). split; [done|]. by apply elem_of_map_to_list. }
    intros _. split; [|eauto]. intros n. rewrite Hm. destruct (cp_Machines c !! n) as [m|] eqn:Hn; [|done].
    by rewrite decide_True by eauto.
Qed.
End Sync.

(** ** Reading the control plane *)

Section Reading.
Context `{!ApiErrors, !CollectionsLib, !MetaLib, !SchemaLib, !MetaTimeLib, !K8sdApi}.
Implicit Types (c : ControlPlane) (kcp : CK8sControlPlane) (cluster : Cluster) (t : trace).

Lemma getCK8sConfigs_reads (ms : Machines) : reads (getCK8sConfigs ms).
Proof.
  unfold reads, reads_post, getCK8sConfigs, each_machine, range. wp_run. apply gwp_call; [done|].
  intros ks [] _ _. apply (gwp_for_each_inv _ _ (λ _ _, True)); [done| |by intros; wp_run].
  intros m [] s _ _. destruct (m_ConfigRef m); wp_run; [|done]. apply gwp_call; [done|].
  intros [u|e] [] _ _; wp_run; [done|]. destruct (IsNotFound e); by wp_run.
Qed.

Lemma NewControlPlane_reads cluster kcp ms :
  reads_post (NewControlPlane cluster kcp ms) (λ r, ∀ c, r = Ok c →
    KCP c = kcp ∧ cp_Cluster c = cluster ∧ cp_Machines c = ms).
Proof.
  unfold reads_post, NewControlPlane, each_machine, range. wp_run.
  eapply wp_mono; [apply getInfraResources_reads|]. intros [] [infra|e] _; wp_run; [|done].
  eapply wp_mono; [apply getCK8sConfigs_reads|]. intros [] [configs|e] _; wp_run; [|done].
  apply gwp_call; [done|]. intros ks [] _ _.
  apply (gwp_for_each_inv _ _ (λ _ _, True)); [done| |].
  - intros m [] s _ _. wp_run. apply gwp_call; [done|]. by intros [u|e] [] _ _; wp_run.
  - intros [] s _. wp_run. apply gwp_call; [done|]. intros now [] _ _. wp_run. by intros c [= <-].
Qed.

Lemma lastRemediation_reads c : reads (lastRemediation c).
Proof.
  unfold reads, reads_post, lastRemediation, newest_remediation, each_machine, range.
  destruct (ann _ _); wp_run; [done|]. apply gwp_call; [done|]. intros ks [] _ _.
  apply (gwp_for_each_inv _ _ (λ _ _, True)); [done| |by intros; wp_run].
  intros m [] s _ _. destruct (ann _ _) as [v|]; wp_run; [|done].
  by destruct (RemediationDataFromAnnotation v); wp_run.
Qed.

Lemma ClusterStatus_reads w : reads (ClusterStatus_ w).
Proof.
  unfold reads, reads_post, ClusterStatus_, getControlPlaneNodes. wp_run. apply gwp_call; [done|].
  intros [nodes|e] [] _ _; wp_run; [|done]. apply gwp_call; [done|]. by intros r [] _ _; wp_run.
Qed.
End Reading.

(** ** Status *)

Section Status.
Context `{!ApiErrors, !CollectionsLib, !MetaLib, !SchemaLib, !ConditionsLib, !K8sdApi, !MetaTimeLib}.
Implicit Types (c : ControlPlane) (kcp : CK8sControlPlane) (cluster : Cluster) (t : trace).

(** The list of the machines of the cluster has been read, and [ms] are the ones the
    control plane owns. *)
Definition owned_list cluster kcp (ms : Machines) t : Prop :=
  ∃ ml, Obs (ListObj KMachine (cl_Namespace cluster) {[Clusterv1.ClusterNameLabel := cl_Name cluster]}) (Ok ml) ∈ t ∧
    ms = mFilter (λ m, forallb (λ f, f m) [OwnedMachines (kcp_meta kcp)]) (FromMachineList ml).

(** [updateStatus] reads only, and assigns to the status only.  A control
    plane that has been initialised or ready stays so.  When it succeeds, the
    status counts the owned machines that were listed; unless the control plane
    is being deleted, the unavailable replicas are the ones that are not ready,
    and the control plane is ready if it was or if a replica is. *)
Theorem updateStatus_spec cluster kcp d :
  Replicas (kcp_Spec kcp) = Some d →
  wp (updateStatus cluster kcp) ([] : trace) (λ t r,
    writes t = [] ∧ kcp_meta r.1 = kcp_meta kcp ∧ kcp_Spec r.1 = kcp_Spec kcp ∧
    (st_Initialized (kcp_Status kcp) = true → st_Initialized (kcp_Status r.1) = true) ∧
    (st_Ready (kcp_Status kcp) = true → st_Ready (kcp_Status r.1) = true) ∧
    (r.2 = None → ∃ ms, owned_list cluster kcp ms t ∧
       st_Replicas (kcp_Status r.1) = wrap32 (Z.of_nat (size ms)) ∧
       (deleting (kcp_meta kcp) = false →
          st_UnavailableReplicas (kcp_Status r.1) =
            wrap32 (st_Replicas (kcp_Status r.1) - st_ReadyReplicas (kcp_Status r.1)) ∧
          (st_Ready (kcp_Status r.1) = true ↔
             st_Ready (kcp_Status kcp) = true ∨ (0 < st_ReadyReplicas (kcp_Status r.1))%Z)))).
Proof.
  intros Hd. unfold updateStatus, mark. destruct kcp as [meta spec []]. cbn [kcp_Spec] in Hd. wp_run.
  eapply wp_mono; [apply GetMachinesForCluster_trace|]. intros t1 [ms|e] (He1 & Hw1 & Hms); wp_run; [|by rewrite Hw1].
  destruct (Hms ms eq_refl) as (ml & Hml & Hms'). clear Hms. cbn [on_status kcp_Status set_kcp_Status st_set_Selector kcp_meta kcp_Spec] in *.
  eapply wp_mono; [apply wp_trace_reads_post, NewControlPlane_reads|].
  intros t2 [c|e] (He2 & Hw2 & Hc); wp_run; [|by rewrite Hw2, Hw1].
  rewrite Hd. apply gwp_deref; [|done]. intros d' [= <-].
  assert (∀ t', extends t2 t' → owned_list cluster
    (mkControlPlane meta spec (mkControlPlaneStatus st_Selector st_Replicas st_Version st_UpdatedReplicas
      st_ReadyReplicas st_UnavailableReplicas st_Initialized st_Ready st_FailureReason st_FailureMessage
      st_ObservedGeneration st_Conditions st_LastRemediation)) ms t') as Hown.
  { intros t' He. exists ml. split; [by apply He, He2|done]. }
  rewrite Hw1 in Hw2. change (writes []) with ([] : trace) in Hw2.
  wp_run.
  all: head_case; rename Heqb into Hdel; simpl in Hdel; wp_run;
    [by split_and!; try done; intros _; exists ms; split_and!; [apply Hown, extends_refl|done|congruence]|].
  all: unfold workload_of; (eapply wp_mono; [apply wp_trace_reads, GetWorkloadCluster_reads|]);
    intros t3 [w|e] [He3 Hw3]; wp_run; [|by rewrite Hw3, Hw2].
  all: (eapply wp_mono; [apply wp_trace_reads, ClusterStatus_reads|]);
    intros t4 [status|e] [He4 Hw4]; [|wp_run; by rewrite Hw4, Hw3, Hw2]; wp_run.
  all: (eapply wp_mono; [apply wp_trace_reads, lastRemediation_reads|]);
    intros t5 [last|e] [He5 Hw5]; wp_run; [|by rewrite Hw5, Hw4, Hw3, Hw2].
  all: destruct last as [data|]; wp_run.
  all: rewrite Hw5, Hw4, Hw3, Hw2; split_and!; try done.
  all: intros _; exists ms; (split; [apply Hown; intros o Ho; by apply He5, He4, He3|]).
  all: (split; [done|]); intros _; (split; [done|]).
  all: lazymatch goal with
       | Hr : bool_decide (0 < cs_ReadyNodes _)%Z = true |- _ =>
           apply bool_decide_eq_true in Hr; split; [intros _; right; exact Hr|done]
       | Hr : bool_decide (0 < cs_ReadyNodes _)%Z = false |- _ =>
           apply bool_decide_eq_false in Hr; split; [by left|intros [?|?]; done]
       end.
Qed.
End Status.

(** ** Deletion *)

Section Deletion.
Context `{!ApiErrors, !ApiErrorsLaws, !CollectionsLib, !CollectionsLaws, !MetaLib, !SchemaLib, !ConditionsLib,
          !ConditionsLaws, !K8sdApi, !MetaTimeLib}.
Implicit Types (c : ControlPlane) (kcp : CK8sControlPlane) (cluster : Cluster) (t : trace) (m : Machine).

#[local] Existing Instance AgentConditions.same_but_health_preorder.

(** The answer of a deletion after which the machine is gone, or going. *)
Definition gone (x : gores unit) : Prop := match x with Ok _ => True | Err e => IsNotFound e = true end.

(** The deletion of a machine of the collection. *)
Definition deletes_from (ms : Machines) (o : obs) : Prop :=
  ∃ n m x, ms !! n = Some m ∧ o = Obs (Delete KMachine (key_of (m_meta m))) x.

Lemma delete_machines_wp ms t :
  wp (delete_machines ms) t (λ t' errs, extends t t' ∧
    (∃ ds, writes t' = writes t ++ ds ∧ Forall (deletes_from ms) ds) ∧
    (errs = [] → ∀ n m, ms !! n = Some m →
       ∃ x, Obs (Delete KMachine (key_of (m_meta m))) x ∈ t' ∧ gone x)).
Proof.
  unfold delete_machines, each_machine, range. wp_run. apply gwp_call; [done|]. intros ks t1 Hks ->.
  apply (gwp_for_each _ _ (λ d _ t' errs, extends t t' ∧
    (∃ ds, writes t' = writes t ++ ds ∧ Forall (deletes_from ms) ds) ∧
    (errs = [] → ∀ m, m ∈ d → ∃ x, Obs (Delete KMachine (key_of (m_meta m))) x ∈ t' ∧ gone x))).
  - split; [by apply extends_snoc, extends_refl|]. split; [|by intros _ m []%elem_of_nil].
    exists []. rewrite written. simpl. by rewrite !app_nil_r.
  - intros d m rest t2 errs Hl (He & (ds & Hw & Hds) & Hg). wp_run. apply gwp_call; [done|]. intros x t3 _ ->.
    assert (∃ n, ms !! n = Some m) as [n Hn].
    { apply (lookup_range_elem ms ks m Hks). rewrite Hl. set_solver. }
    set (o := Obs (Delete KMachine (key_of (m_meta m))) x).
    assert (extends t (t2 ++ [o])) as He' by by apply extends_snoc.
    assert (∃ ds, writes (t2 ++ [o]) = writes t ++ ds ∧ Forall (deletes_from ms) ds) as Hds'.
    { exists (ds ++ [o]). unfold o at 1. rewrite written, Hw. simpl. rewrite (assoc_L (++)). split; [done|].
      apply Forall_app. split; [done|]. constructor; [|done]. by exists n, m, x. }
    assert (gone x → errs = [] → ∀ m', m' ∈ d ++ [m] →
      ∃ x, Obs (Delete KMachine (key_of (m_meta m'))) x ∈ t2 ++ [o] ∧ gone x) as Hg'.
    { intros Hx He0 m' [Hm'|Hm'%list_elem_of_singleton]%elem_of_app.
      - destruct (Hg He0 m' Hm') as (y & Hy & Hy'). exists y. split; [|done]. apply elem_of_app. by left.
      - subst m'. exists x. split; [|done]. apply elem_of_app. right. by left. }
    destruct x as [u|e]; [|destruct (IsNotFound e) eqn:Hnf]; wp_run;
      (split; [done|]); (split; [done|]); [by apply Hg'|by apply Hg'|]. by intros []%app_nil.
  - intros t2 errs (He & Hds & Hg). wp_run. split; [done|]. split; [done|]. intros He0 n m Hn. apply Hg; [done|].
    apply (lookup_range_elem ms ks m Hks). eauto.
Qed.

Lemma reconcileControlPlaneConditions_wp c t :
  wp (reconcileControlPlaneConditions c) t (λ t' r, patched t t' ∧ AgentConditions.same_but_health c r.1).
Proof.
  apply wp_and; [by apply benign_patched, benign_conditions|].
  unfold reconcileControlPlaneConditions. wp_run. destruct (negb _); wp_run; [reflexivity|].
  unfold workload_of. eapply wp_mono; [apply wp_trace_reads, GetWorkloadCluster_reads|].
  intros t1 [w|e] _; wp_run; [|reflexivity]. apply wp_bind.
  eapply wp_mono; [apply AgentConditions.UpdateAgentConditions_same|]. intros t2 c' Hc. wp_run.
  eapply wp_mono; [apply benign_patched, benign_patches|]. by intros t3 [e|] _; wp_run.
Qed.

Lemma filter_same (f : Machine → bool) (ms : Machines) : size ms = size (mFilter f ms) → mFilter f ms = ms.
Proof. intros Hs. apply map_subseteq_size_eq; [apply mFilter_subseteq|lia]. Qed.

Lemma filter_all (f : Machine → bool) (ms : Machines) :
  size ms = size (mFilter f ms) → ∀ n m, ms !! n = Some m → f m = true.
Proof. intros Hs%filter_same n m Hn. rewrite <- Hs in Hn. by apply mFilter_Some in Hn as [_ Hf]. Qed.

Lemma on_conditions_meta f kcp : kcp_meta (on_conditions f kcp) = kcp_meta kcp.
Proof. unfold on_conditions, kcp_SetConditions. by destruct kcp as [? ? []]. Qed.

(** The machines of [ms] that are not being deleted are those of [all], when the
    one is the other with conditions updated. *)
Lemma live_machines (all ms : Machines) n m' :
  option_Forall2 AgentConditions.same_machine (all !! n) (ms !! n) →
  mFilter (λ m, negb (HasDeletionTimestamp m)) ms !! n = Some m' →
  ∃ m, all !! n = Some m ∧ m_meta m' = m_meta m.
Proof.
  intros Hms [Hn _]%mFilter_Some. rewrite Hn in Hms. inversion Hms as [m ? [Heq _] Hm|]; subst.
  exists m. split; [done|]. rewrite Heq. by destruct m.
Qed.

Lemma machines_live (all ms : Machines) n m :
  option_Forall2 AgentConditions.same_machine (all !! n) (ms !! n) → all !! n = Some m →
  deleting (m_meta m) = false →
  ∃ m', mFilter (λ m, negb (HasDeletionTimestamp m)) ms !! n = Some m' ∧ m_meta m' = m_meta m.
Proof.
  intros Hms Hn Hd. rewrite Hn in Hms. inversion Hms as [? m' [Heq _] Hm Hm'|]; subst.
  assert (m_meta m' = m_meta m) as Hmm by (rewrite Heq; by destruct m).
  exists m'. split; [|done]. by rewrite mFilter_Some, HasDeletionTimestamp_spec, Hmm, Hd.
Qed.

Lemma delete_live_wp (all ms : Machines) t :
  (∀ n, option_Forall2 AgentConditions.same_machine (all !! n) (ms !! n)) →
  wp (delete_machines (mFilter (λ m, negb (HasDeletionTimestamp m)) ms)) t (λ t' errs, extends t t' ∧
    (∃ ds, writes t' = writes t ++ ds ∧ Forall (deletes_from all) ds) ∧
    (errs = [] → ∀ n m, all !! n = Some m → deleting (m_meta m) = false →
       ∃ x, Obs (Delete KMachine (key_of (m_meta m))) x ∈ t' ∧ gone x)).
Proof.
  intros Hms. eapply wp_mono; [apply delete_machines_wp|]. intros t' errs (He & (ds & Hw & Hds) & Hg).
  split; [done|]. split.
  - exists ds. split; [done|]. eapply list.Forall_impl; [exact Hds|]. intros o (n & m' & x & Hn & ->).
    destruct (live_machines _ _ _ _ (Hms n) Hn) as (m & Hm & Hmm). exists n, m, x. by rewrite Hmm.
  - intros He0 n m Hn Hd. destruct (machines_live _ _ _ _ (Hms n) Hn Hd) as (m' & Hm' & <-). by apply (Hg He0 n).
Qed.

(** Whether the control plane owns some of the machines, or all. *)
Lemma owned_none (f : Machine → bool) (ms : Machines) :
  size (mFilter f ms) = 0 → ∀ n m, ms !! n = Some m → f m ≠ true.
Proof.
  intros Hz%map_size_empty_inv n m Hn Ho. assert (mFilter f ms !! n = Some m) as Hm by (by apply mFilter_Some).
  by rewrite Hz, lookup_empty in Hm.
Qed.

Lemma owned_some (f : Machine → bool) (ms : Machines) :
  size (mFilter f ms) ≠ 0 → ∃ n m, ms !! n = Some m ∧ f m = true.
Proof.
  intros Hz. destruct (map_choose (mFilter f ms)) as (n & m & Hm); [by intros He; apply Hz; rewrite He, map_size_empty|].
  exists n, m. by apply mFilter_Some in Hm.
Qed.

Lemma owned_all (f : Machine → bool) (ms : Machines) :
  size ms ≠ size (mFilter f ms) → ¬ (∀ n m, ms !! n = Some m → f m = true).
Proof.
  intros Hne Hall. apply Hne. f_equal. apply map_eq. intros n. rewrite mFilter_lookup.
  destruct (ms !! n) as [m|] eqn:Hn; [|done]. by rewrite (Hall n m Hn).
Qed.

Lemma mFilter_all (ms : Machines) : mFilter (λ _, true) ms = ms.
Proof. apply map_eq. intros n. rewrite mFilter_lookup. by destruct (ms !! n). Qed.

(** C26: a control plane is deleted in order.  The finalizer goes only when a
    list of the cluster's machines shows none that the control plane owns.  As
    long as it owns some, it stays, machines are deleted only if it owns every
    machine of the cluster - the workers are gone -, and then, unless an error is
    returned, every machine that is not being deleted already is deleted.  Nothing
    else is written but patches of machines. *)
Theorem reconcileDelete_spec cluster kcp :
  let owned m := OwnedMachines (kcp_meta kcp) m = true in
  wp (reconcileDelete cluster kcp) ([] : trace) (λ t r,
    ∃ x, Obs (ListObj KMachine (cl_Namespace cluster) {[Clusterv1.ClusterNameLabel := cl_Name cluster]}) x ∈ t ∧
    match x with
    | Err _ => writes t = [] ∧ r.1 = kcp ∧ r.2.2 ≠ None
    | Ok ml =>
        ((∀ n m, FromMachineList ml !! n = Some m → ¬ owned m) ∧ writes t = [] ∧
         r = (set_kcp_meta (RemoveFinalizer (kcp_meta kcp) CK8sControlPlaneFinalizer) kcp, (Result0, None))) ∨
        ((∃ n m, FromMachineList ml !! n = Some m ∧ owned m) ∧ kcp_meta r.1 = kcp_meta kcp ∧
         (∃ ps ds, writes t = ps ++ ds ∧ Forall (λ o, is_patch o = true) ps ∧
            Forall (deletes_from (FromMachineList ml)) ds ∧
            (ds ≠ [] → ∀ n m, FromMachineList ml !! n = Some m → owned m)) ∧
         (r.2.2 = None → (∀ n m, FromMachineList ml !! n = Some m → owned m) →
          ∀ n m, FromMachineList ml !! n = Some m → deleting (m_meta m) = false →
            ∃ y, Obs (Delete KMachine (key_of (m_meta m))) y ∈ t ∧ gone y))
    end).
Proof.
  cbv zeta. unfold reconcileDelete, mark, GetMachinesForCluster. wp_run.
  apply gwp_call; [done|]. intros x t1 _ Ht1; simpl in Ht1. assert (Obs (ListObj KMachine (cl_Namespace cluster)
    {[Clusterv1.ClusterNameLabel := cl_Name cluster]}) x ∈ t1) as Hx by (subst t1; by left).
  assert (writes t1 = []) as Hw1 by (by subst t1). clear Ht1. destruct x as [ml|e]; wp_run.
  2: { exists (Err e). by rewrite Hw1. }
  cbn [forallb]. rewrite mFilter_all. set (all := FromMachineList ml).
  assert (∀ (t : trace) (P : gores (list (obj KMachine)) → Prop), extends t1 t → P (Ok ml) → ∃ x,
    Obs (ListObj KMachine (cl_Namespace cluster) {[Clusterv1.ClusterNameLabel := cl_Name cluster]}) x ∈ t ∧ P x) as Hex.
  { intros t P He HP. exists (Ok ml). split; [by apply He|done]. }
  head_case; rename Heqb into Hz; wp_run.
  { apply bool_decide_eq_true in Hz. apply Hex; [apply extends_refl|]. left. split; [|done]. by apply owned_none. }
  apply bool_decide_eq_false in Hz. apply owned_some in Hz as Howned.
  eapply wp_mono; [apply wp_trace_reads_post, NewControlPlane_reads|].
  intros t2 [c|e] (He2 & Hw2 & Hc); wp_run; rewrite Hw1 in Hw2.
  2: { apply Hex; [done|]. right. do 2 (split; [done|]). split; [|done]. by exists [], []. }
  destruct (Hc c eq_refl) as (Hck & _ & Hcm). clear Hc.
  apply wp_bind. eapply wp_mono; [apply reconcileControlPlaneConditions_wp|].
  intros t3 [c3 err] [(He3 & ps & Hw3 & Hps) [Hmeta _ _ _ Hms]]. cbn [fst snd] in *. wp_run.
  rewrite Hck in Hmeta. rewrite Hw2 in Hw3. simpl in Hw3.
  unfold range_machines. wp_run. apply gwp_call; [done|]. intros ks t4 _ Ht4; simpl in Ht4. wp_run.
  assert (extends t1 t4) as He4 by (subst t4; apply extends_snoc; intros o Ho; by apply He3, He2).
  assert (writes t4 = ps) as Hw4 by (subst t4; rewrite written, Hw3; simpl; apply app_nil_r).
  head_case; rename Heqb into Hsz; wp_run.
  { apply Hex; [done|]. right. rewrite !on_conditions_meta. do 2 (split; [done|]).
    split; [exists ps, []; rewrite app_nil_r; by split_and!|].
    intros _ Hallo. by apply negb_true_iff, bool_decide_eq_false, owned_all in Hsz. }
  apply negb_false_iff, bool_decide_eq_true in Hsz. pose proof (filter_all _ _ Hsz) as Hallo.
  rewrite Hcm, (filter_same _ _ Hsz) in Hms.
  eapply wp_mono; [by apply (delete_live_wp all)|].
  intros t5 errs (He5 & (ds & Hw5 & Hds) & Hg). rewrite Hw4 in Hw5.
  assert (extends t1 t5) as He1 by (intros o Ho; by apply He5, He4).
  destruct errs as [|err1 errs].
  - rewrite NewAggregate_nil. wp_run. apply Hex; [done|]. right. rewrite !on_conditions_meta. do 2 (split; [done|]).
    split; [by exists ps, ds|]. intros _ _. by apply Hg.
  - destruct (ScaleSpec.NewAggregate_not_None err1 errs) as [e ->]. wp_run. apply gwp_call; [done|].
    intros [] t6 _ ->. wp_run. apply Hex; [by apply extends_snoc|]. right. rewrite on_conditions_meta.
    do 2 (split; [done|]). split; [|done]. exists ps, ds. rewrite written. simpl. rewrite app_nil_r. by split_and!.
Qed.
End Deletion.

(** ** The finalizer comes first *)

Section Finalizer.
Context `{!ApiErrors, !CollectionsLib, !MetaLib, !SchemaLib, !ConditionsLib, !K8sdApi, !CertsLib,
          !ClientcmdLib, !MetaTimeLib}.
Implicit Types (kcp : CK8sControlPlane) (cluster : Cluster) (t : trace).

(** The object has been read, and may be worked on: its cluster is known, not
    paused, and has its infrastructure. *)
Definition workable req kcp t : Prop :=
  Obs (Get KControlPlane req) (Ok kcp) ∈ t ∧ ∃ cluster,
    Obs (GetOwnerCluster (kcp_meta kcp)) (Ok (Some cluster)) ∈ t ∧
    IsPaused cluster (kcp_meta kcp) = false ∧ cl_InfrastructureReady cluster = true.

(** A reconciliation writes nothing for a control plane that is gone,
    paused, or whose cluster has no infrastructure yet.  The first thing it writes
    for another one is the finalizer, alone; everything else, creation of machines
    included, happens only for a control plane that was read with the finalizer. *)
Theorem Reconcile_finalizer_first req :
  @wp trace panic_env _ (Reconcile req) [] (λ t r,
    writes t = [] ∨
    ∃ kcp, workable req kcp t ∧
      (ContainsFinalizer (kcp_meta kcp) CK8sControlPlaneFinalizer = true ∨
       ∃ x, writes t = [Obs (Patch KControlPlane kcp
              (set_kcp_meta (AddFinalizer (kcp_meta kcp) CK8sControlPlaneFinalizer) kcp)) x])).
Proof.
  unfold Reconcile. wp_run. apply gwp_call; [done|]. intros [kcp|e] t1 _ Ht1; simpl in Ht1.
  2: { destruct (IsNotFound e); wp_run; subst t1; by left. }
  wp_run. apply gwp_call; [done|]. intros [[cluster|]|e] t2 _ Ht2; simpl in Ht2; subst t1 t2; wp_run; [|by left..].
  destruct (IsPaused _ _) eqn:Hp; wp_run; [by left|].
  destruct (cl_InfrastructureReady cluster) eqn:Hi; cbn [negb]; wp_run; [|by left].
  apply gwp_call; [done|]. intros x t _ Ht; simpl in Ht.
  assert (workable req kcp t) as Hw.
  { subst t. split; [by left|]. exists cluster. split; [by right; left|done]. }
  assert (writes t = []) as Hwt by (by subst t). clear Ht. destruct x as [u|e]; wp_run; [|by left].
  assert (∀ t', extends t t' → workable req kcp t') as Hwe.
  { intros t' He. destruct Hw as (Hg & cl & Hc & Hrest). split; [by apply He|]. exists cl.
    split; [by apply He|done]. }
  destruct (ContainsFinalizer _ _) eqn:Hf; cbn [negb]; wp_run.
  - eapply wp_mono; [apply trace_extends|]. intros t' r He. right. exists kcp. split; [by apply Hwe|by left].
  - apply gwp_call; [done|]. intros x t4 _ Ht4; simpl in Ht4. subst t4.
    destruct x as [v|e]; wp_run; right; exists kcp;
      (split; [apply Hwe, extends_snoc, extends_refl|]); right; eexists; by rewrite written, Hwt.
Qed.

Lemma aggregate2_Some `{!ApiErrorsLaws} err e : aggregate2 err e = None → False.
Proof. unfold aggregate2. by destruct err; simpl; edestruct ScaleSpec.NewAggregate_not_None as [? ->]. Qed.

(** A control plane that is not ready is not forgotten: a reconciliation
    that reports no error asks to be called again, at once or after a while,
    unless the object that it has just patched is ready or being deleted. *)
Theorem Reconcile_watches `{!ApiErrorsLaws} cluster kcp :
  @wp trace panic_env _ (reconcile_and_patch cluster kcp) [] (λ t r,
    r.2 = None → Requeue r.1 = true ∨ (0 < RequeueAfter r.1)%Z ∨
    ∃ kcp', Obs (Patch KControlPlane kcp kcp') (Ok tt) ∈ t ∧
      (deleting (kcp_meta kcp') = true ∨ st_Ready (kcp_Status kcp') = true)).
Proof.
  unfold reconcile_and_patch, patchCK8sControlPlane. wp_run.
  eapply wp_mono; [apply trace_extends|]. intros t1 [k1 r] _. wp_run.
  eapply wp_mono; [apply trace_extends|]. intros t2 [k2 updateErr] _. wp_run.
  apply gwp_call; [done|]. intros x t3 _ Ht3; simpl in Ht3. set (k3 := on_conditions _ k2) in *.
  assert (Obs (Patch KControlPlane kcp k3) x ∈ t3) as Hx by (subst t3; apply elem_of_app; right; by left).
  clear Ht3. destruct x as [[]|e]; wp_run.
  - set (err := match updateErr with Some _ => _ | None => _ end). destruct (_ && _) eqn:Hc; wp_run.
    + intros _. right; left. done.
    + intros He. simpl in He. rewrite He, bool_decide_true in Hc by done. simpl in Hc.
      destruct (Requeue r.1); [by left|]. right. destruct (0 <? RequeueAfter r.1)%Z eqn:Hr.
      { left. by apply Z.ltb_lt. }
      right. exists k3. split; [done|]. apply Z.ltb_ge in Hr. apply Z.leb_le in Hr. rewrite Hr in Hc. simpl in Hc.
      destruct (deleting _); [by left|]. right. by destruct (st_Ready _).
  - destruct (_ && _) eqn:Hc; wp_run; [intros _; by right; left|]. intros He. by apply aggregate2_Some in He.
Qed.
End Finalizer.
End KcpSpec.

(** ** A reconciliation of a new control plane *)

Module KcpExamples.
Import CpExamples KcpReconcile RemediationSpec KcpSpec.

(** Templates are cloned, certificates are constants, and the rest is as in
    [ScaleExamples.world]. *)
Definition crypto : handler Store := λ X e w,
  match e in sysE X return option (X * Store) with
  | NewPrivateKey => Some (Ok "key", w)
  | CreateCertificate _ _ => Some (Ok "crt", w)
  | NewSignedCert _ _ _ _ => Some (Ok "signed", w)
  | GenerateName base => Some (base +:+ "1", w)
  | RandRead n => Some (Ok (replicate n "000"%char), w)
  | ExternalGet r => Some (Ok (mkUnstructured (meta_named (ref_Name r)) (ref_Kind r) (ref_APIVersion r)), w)
  | e => ScaleExamples.world _ e w
  end.
Definition management : handler Store := λ X e w,
  match e in sysE X return option (X * Store) with
  | CreateFromTemplate i => Some (Ok (ref_named "Infra" "clone"), w)
  | PatchUnstructured _ _ => Some (Ok tt, w)
  | e => serve crypto _ e w
  end.

Definition new_kcp : CK8sControlPlane :=
  mkControlPlane
    (mkMeta "k" "ns" "uid" ∅ None [] [CK8sControlPlaneFinalizer] 0 None)
    (mkControlPlaneSpec (Some 1%Z) "v1.30.0" empty_spec None
       (mkMachineTemplate ∅ ∅ (ref_named "InfraTemplate" "t") None None None) None None)
    (mkControlPlaneStatus "" 0 None 0 0 0 false false "" None 0 [] None).
Definition new_store : Store := put KControlPlane new_kcp empty_store.

(** The certificates, the token, the kubeconfig and the first machine exist after
    one reconciliation. *)
Example first_reconciliation :
  match run management (Reconcile (mkKey "ns" "k")) new_store with
  | Some ((r, err), w) =>
      (r, err, length (listed KMachine "ns" ∅ w), om_Name <$> (s_meta <$> listed KSecret "ns" ∅ w))
  | None => (Result0, None, 0, [])
  end = (RequeueNow, None, 1, ["c-kubeconfig"; "c-cca"; "c-ca"; "c-token"]).
Proof. vm_compute. reflexivity. Qed.

Lemma updateStatus_spec_witness :
  wp (updateStatus (cluster_named "c") new_kcp) ([] : trace) (λ t r,
    writes t = [] ∧ kcp_meta r.1 = kcp_meta new_kcp ∧ kcp_Spec r.1 = kcp_Spec new_kcp ∧
    (st_Initialized (kcp_Status new_kcp) = true → st_Initialized (kcp_Status r.1) = true) ∧
    (st_Ready (kcp_Status new_kcp) = true → st_Ready (kcp_Status r.1) = true) ∧
    (r.2 = None → ∃ ms, owned_list (cluster_named "c") new_kcp ms t ∧
       st_Replicas (kcp_Status r.1) = wrap32 (Z.of_nat (size ms)) ∧
       (deleting (kcp_meta new_kcp) = false →
          st_UnavailableReplicas (kcp_Status r.1) =
            wrap32 (st_Replicas (kcp_Status r.1) - st_ReadyReplicas (kcp_Status r.1)) ∧
          (st_Ready (kcp_Status r.1) = true ↔
             st_Ready (kcp_Status new_kcp) = true ∨ (0 < st_ReadyReplicas (kcp_Status r.1))%Z)))).
Proof. apply (updateStatus_spec (cluster_named "c") new_kcp 1). reflexivity. Defined.

Lemma reconcile_one_machine_witness :
  @wp nat (count_env machine_change) _ (reconcile (cluster_named "c") new_kcp) 0 (λ n _, n ≤ 1).
Proof. exact (reconcile_one_machine (cluster_named "c") new_kcp). Defined.

Lemma syncMachines_spec_witness :
  wp (syncMachines c) ([] : trace) (λ t r,
    (r.2 = None → (∀ n, cp_Machines r.1 !! n = synced_machine (KCP c) <$> cp_Machines c !! n) ∧
       ∀ n m, cp_Machines c !! n = Some m → deleting (m_meta m) = false →
         Obs (Patch KMachine m (with_template_annotations (KCP c) m)) (Ok tt) ∈ t) ∧
    (∀ kcp m k, ann (m_meta (with_template_annotations kcp m)) k =
       match mt_Annotations (MachineTemplate (kcp_Spec kcp)) !! k with
       | Some v => Some v
       | None => ann (m_meta m) k
       end) ∧
    Forall (λ o, is_patch o = true) (writes t)).
Proof. exact (syncMachines_spec c). Defined.

Lemma reconcileDelete_spec_witness :
  wp (reconcileDelete (cluster_named "c") new_kcp) ([] : trace) (λ t r,
    ∃ x, Obs (ListObj KMachine "ns" {[Clusterv1.ClusterNameLabel := "c"]}) x ∈ t ∧
    match x with
    | Err _ => writes t = [] ∧ r.1 = new_kcp ∧ r.2.2 ≠ None
    | Ok ml =>
        ((∀ n m, FromMachineList ml !! n = Some m → ¬ OwnedMachines (kcp_meta new_kcp) m = true) ∧ writes t = [] ∧
         r = (set_kcp_meta (RemoveFinalizer (kcp_meta new_kcp) CK8sControlPlaneFinalizer) new_kcp, (Result0, None))) ∨
        ((∃ n m, FromMachineList ml !! n = Some m ∧ OwnedMachines (kcp_meta new_kcp) m = true) ∧
         kcp_meta r.1 = kcp_meta new_kcp ∧
         (∃ ps ds, writes t = ps ++ ds ∧ Forall (λ o, is_patch o = true) ps ∧
            Forall (deletes_from (FromMachineList ml)) ds ∧
            (ds ≠ [] → ∀ n m, FromMachineList ml !! n = Some m → OwnedMachines (kcp_meta new_kcp) m = true)) ∧
         (r.2.2 = None → (∀ n m, FromMachineList ml !! n = Some m → OwnedMachines (kcp_meta new_kcp) m = true) →
          ∀ n m, FromMachineList ml !! n = Some m → deleting (m_meta m) = false →
            ∃ y, Obs (Delete KMachine (key_of (m_meta m))) y ∈ t ∧ gone y))
    end).
Proof. exact (reconcileDelete_spec (cluster_named "c") new_kcp). Defined.

Lemma Reconcile_finalizer_first_witness :
  @wp trace panic_env _ (Reconcile (mkKey "ns" "k")) [] (λ t r,
    writes t = [] ∨
    ∃ kcp, workable (mkKey "ns" "k") kcp t ∧
      (ContainsFinalizer (kcp_meta kcp) CK8sControlPlaneFinalizer = true ∨
       ∃ x, writes t = [Obs (Patch KControlPlane kcp
              (set_kcp_meta (AddFinalizer (kcp_meta kcp) CK8sControlPlaneFinalizer) kcp)) x])).
Proof. exact (Reconcile_finalizer_first (mkKey "ns" "k")). Defined.

Lemma Reconcile_watches_witness :
  @wp trace panic_env _ (reconcile_and_patch (cluster_named "c") new_kcp) [] (λ t r,
    r.2 = None → Requeue r.1 = true ∨ (0 < RequeueAfter r.1)%Z ∨
    ∃ kcp', Obs (Patch KControlPlane new_kcp kcp') (Ok tt) ∈ t ∧
      (deleting (kcp_meta kcp') = true ∨ st_Ready (kcp_Status kcp') = true)).
Proof. exact (Reconcile_watches (cluster_named "c") new_kcp). Defined.
End KcpExamples.
