(* ===== verification/Rollout.v ===== *)
(** The rollout of a control plane as a whole: what one reconciliation decides, and
    that a sequence of them replaces every outdated machine and comes to rest.
    [plan] is the abstract decision, without machine integers; [scale_or_rollout]
    of src/controlplane/controllers/ck8scontrolplane_controller.go implements it. *)

From S2P Require Import Prelude Objects ApiTypes Effects Libs Duration RefLibs ApiServer RefServer.
From S2P Require Import Json Secrets Token Workload Kubeconfig MachineFilters ControlPlane Scale AgentConditions.
From S2P Require Import Remediation KcpReconcile KcpSpec.
From Stdlib Require Import Relations.Relation_Operators Wellfounded.Lexicographic_Product.

Module Rollout.
Import KcpReconcile ScaleSpec.

(** ** The abstract decision *)

(** How many machines there should be, and how many more during a rollout, if there
    is a rollout strategy. *)
Record Target := mkTarget { desired : Z; surge : option Z }.

Inductive action := Initialize | ScaleUp | ScaleDown (outdated : Machines) | Steady.

Section Rollout.
Context `{!ApiErrors, !ApiErrorsLaws, !CollectionsLib, !CollectionsLaws, !MetaLib, !SchemaLib, !ConditionsLib,
          !K8sdApi}.
Implicit Types (c : ControlPlane) (tg : Target) (t : trace) (m : Machine).

(** The target of a specification; nil fields that the reconciler dereferences have
    none. *)
Definition target_of (spec : CK8sControlPlaneSpec) : option Target :=
  d ← Replicas spec;
  match kcp_RolloutStrategy spec with
  | None => Some (mkTarget d None)
  | Some strategy =>
      rollingUpdate ← rs_RollingUpdate strategy;
      maxSurge ← MaxSurge rollingUpdate;
      Some (mkTarget d (Some (IntValue maxSurge)))
  end.

Definition total c : Z := Z.of_nat (size (cp_Machines c)).

Definition plan tg c : action :=
  if decide (MachinesNeedingRollout c = ∅) then
    if decide (total c = desired tg) then Steady
    else if decide (desired tg < total c)%Z then ScaleDown ∅
    else if decide (total c = 0)%Z then Initialize else ScaleUp
  else
    match surge tg with
    | None => Steady
    | Some s => if decide (total c < desired tg + s)%Z then ScaleUp
                else ScaleDown (MachinesNeedingRollout c)
    end.

(** The target makes sense, and it and the number of machines fit in 32 bits. *)
Definition sensible tg : Prop :=
  (0 ≤ desired tg)%Z ∧ (0 ≤ default 0 (surge tg))%Z ∧ (desired tg + default 0 (surge tg) < 2 ^ 31)%Z.
Definition few c : Prop := (total c < 2 ^ 31)%Z.

(** ** The reconciler implements the decision *)

(** The same but for the conditions of the object. *)
Definition reported c c' : Prop :=
  ∃ cs, c' = set_KCP (kcp_SetConditions cs (KCP c)) c.

Lemma reported_refl c : reported c c.
Proof. exists (kcp_GetConditions (KCP c)). by destruct c as [[? ? []]]. Qed.

Lemma reported_mark f c c' : reported c c' → reported c (set_KCP (on_conditions f (KCP c')) c').
Proof.
  intros [cs ->]. exists (f cs). unfold on_conditions, kcp_SetConditions, kcp_GetConditions.
  by destruct c as [[? ? []]].
Qed.
#[local] Hint Resolve reported_refl reported_mark : core.

(** What a reconciliation that has decided for an action does: the machine that it
    creates or deletes, and the result. *)
Definition performs c (a : action) t (r : outcome) : Prop :=
  ∃ c', reported c c' ∧
    match a with
    | Initialize => creates c' t r ∨ writes t = [] ∧ r.2 ≠ None
    | ScaleUp => stable c' [] ∧ creates c' t r ∨
                 ¬ stable c' [] ∧ writes t = [] ∧ r.2 = None ∧ r.1 ≠ Result0
    | ScaleDown o => scales_down c' o t r
    | Steady => writes t = [] ∧ r = (Result0, None)
    end.

Lemma scaleUp_performs c c' :
  reported c c' → wp (Scale.scaleUpControlPlane c') ([] : trace) (λ t r, performs c ScaleUp t r.2).
Proof.
  intros Hr. eapply wp_mono; [apply scaleUp_wp|]. cbv beta. intros t [c2 r] (_ & Hcase). cbn [snd fst] in *.
  exists c'. split; [done|]. destruct Hcase as [(g & err & Hs & Hw & Hg & ->)|(Hs & Hw & _ & Hn & Hz)].
  - left. split; [done|]. exists err. rewrite Hw. by split.
  - right. split_and!; done.
Qed.

Lemma initialize_performs c c' :
  reported c c' → wp (Scale.initializeControlPlane c') ([] : trace) (λ t r, performs c Initialize t r.2).
Proof.
  intros Hr. eapply wp_mono; [apply initialize_wp|]. cbv beta. intros t [c2 r] Hcase. cbn [snd fst] in *.
  exists c'. split; [done|]. destruct Hcase as [[Hc _]|[Hw Hn]]; [by left|by right].
Qed.

Lemma scaleDown_performs c c' o :
  reported c c' → wp (Scale.scaleDownControlPlane c' o) ([] : trace) (λ t r, performs c (ScaleDown o) t r).
Proof. intros Hr. eapply wp_mono; [apply scale_down_wp|]. intros t r Hcase. by exists c'. Qed.

Lemma steady_performs c c' t : reported c c' → writes t = [] → performs c Steady t (Result0, None).
Proof. intros Hr Hw. by exists c'. Qed.

Lemma no_rollout c : bool_decide (0 < size (MachinesNeedingRollout c)) = bool_decide (MachinesNeedingRollout c ≠ ∅).
Proof.
  apply bool_decide_ext. rewrite <- (map_size_empty_iff (MachinesNeedingRollout c)). lia.
Qed.

Lemma wrap32_small z : (0 ≤ z < 2 ^ 31)%Z → wrap32 z = z.
Proof. intros Hz. apply wrap_id; [lia|]. unfold fits. lia. Qed.

Lemma upgrade_performs tg c c' :
  target_of (kcp_Spec (KCP c)) = Some tg → sensible tg → few c → MachinesNeedingRollout c ≠ ∅ → reported c c' →
  wp (upgradeControlPlane (MachinesNeedingRollout c) c') ([] : trace) (λ t r, performs c (plan tg c) t r.2).
Proof.
  intros Htg (Hd & Hs & Hb) Hf Hne Hr. pose proof Hr as [cs Hc'].
  assert (kcp_Spec (KCP c') = kcp_Spec (KCP c)) as Hspec.
  { subst c'. unfold kcp_SetConditions. by destruct c as [[? ? []]]. }
  assert (cp_Machines c' = cp_Machines c) as Hms by (subst c'; by destruct c).
  unfold upgradeControlPlane, plan. rewrite decide_False by done. wp_run. rewrite Hspec.
  unfold target_of in Htg. destruct (Replicas (kcp_Spec (KCP c))) as [d|]; [|done]. simpl in Htg.
  destruct (kcp_RolloutStrategy _) as [strategy|]; [|injection Htg as <-; wp_run; by eapply steady_performs].
  wp_run.
  apply gwp_deref; [|done]. intros d' [= <-]. wp_run.
  destruct (rs_RollingUpdate strategy) as [update|]; [|done]. apply gwp_deref; [|done]. intros u [= <-]. wp_run.
  simpl in Htg. destruct (MaxSurge update) as [ms|]; [|done]. apply gwp_deref; [|done]. intros s [= <-].
  injection Htg as <-. simpl in *. unfold few, total in *. rewrite Hms.
  rewrite (wrap32_small (IntValue ms)), !wrap32_small by lia.
  destruct (_ <? _)%Z eqn:Hlt; wp_run.
  - apply Z.ltb_lt in Hlt. rewrite decide_True by done. by apply scaleUp_performs.
  - apply Z.ltb_ge in Hlt. rewrite decide_False by lia. by apply scaleDown_performs.
Qed.

Lemma scale_or_rollout_wp tg c :
  target_of (kcp_Spec (KCP c)) = Some tg → sensible tg → few c →
  wp (scale_or_rollout c) ([] : trace) (λ t r, performs c (plan tg c) t r.2).
Proof.
  intros Htg Hs Hf.
  assert (Replicas (kcp_Spec (KCP c)) = Some (desired tg)) as Hd.
  { unfold target_of in Htg. destruct (Replicas _); [|done]. simpl in Htg.
    destruct (kcp_RolloutStrategy _) as [[[[[ms|]]|]]|]; naive_solver. }
  unfold scale_or_rollout, mark_KCP. wp_run. rewrite no_rollout. case_bool_decide as Hne; wp_run.
  1: by apply upgrade_performs; auto.
  all: unfold plan; rewrite decide_True by done; rewrite Hd.
  all: lazymatch goal with |- gwp _ ?c1 _ _ _ => assert (reported c c1) as Hr by auto; revert Hr; generalize c1 end.
  all: intros c1 Hr; apply gwp_deref; [|done]; intros d [= <-].
  all: unfold total; head_case; [|head_case; [|head_case]].
  all: repeat case_decide; try lia; wp_run.
  all: first [ apply initialize_performs; by auto | by apply scaleUp_performs | by apply scaleDown_performs
             | by eapply steady_performs ].
Qed.

(** C9: a reconciliation of a control plane performs exactly the action that
    the abstract plan decides on. *)
Theorem scale_or_rollout_refines tg c :
  target_of (kcp_Spec (KCP c)) = Some tg → sensible tg → few c →
  wp (scale_or_rollout c) ([] : trace) (λ t r, performs c (plan tg c) t r.2).
Proof. exact (scale_or_rollout_wp tg c). Qed.

(** ** Rollouts come to rest *)

(** A machine that somebody has marked for deletion. *)
Definition marked m : bool := HasAnnotationKey Clusterv1.DeleteMachineAnnotation m.

(** Everything else stays: the specification, and whether a machine that stays is
    outdated. *)
Definition keeps c c' : Prop :=
  kcp_Spec (KCP c') = kcp_Spec (KCP c) ∧
  ∀ n m, cp_Machines c !! n = Some m → cp_Machines c' !! n = Some m → outdated c' m = outdated c m.

(** The effect of the planned action once it has succeeded, deletions included: a
    new machine, which matches the specification and is not marked, or one of the
    preferred machines less. *)
Inductive rollout_step tg c c' : Prop :=
  | step_create n m :
      plan tg c = Initialize ∨ plan tg c = ScaleUp →
      cp_Machines c !! n = None → cp_Machines c' = <[n := m]> (cp_Machines c) →
      deleting (m_meta m) = false → outdated c' m = false → marked m = false →
      keeps c c' → rollout_step tg c c'
  | step_delete o n m :
      plan tg c = ScaleDown o → preferred c o m →
      cp_Machines c !! n = Some m → cp_Machines c' = delete n (cp_Machines c) →
      keeps c c' → rollout_step tg c c'.

(** No machine is being deleted. *)
Definition settled c : Prop := ∀ n m, cp_Machines c !! n = Some m → deleting (m_meta m) = false.

(** Every machine matches the specification, and there are as many as desired. *)
Definition converged tg c : Prop := total c = desired tg ∧ MachinesNeedingRollout c = ∅.

(** The machines that are outdated or marked. *)
Definition leaving c : Machines := mFilter (λ m, outdated c m || marked m) (cp_Machines c).

(** The number of machines to go, and the distance to the size that the plan aims
    at. *)
Definition measure tg c : nat * nat :=
  (size (leaving c),
   if decide (MachinesNeedingRollout c = ∅) then Z.to_nat (Z.abs (desired tg - total c))
   else Z.to_nat (desired tg + default 0%Z (surge tg) - total c)).

Lemma settled_step tg c c' : settled c → rollout_step tg c c' → settled c'.
Proof.
  intros Hs [n m _ _ Hc' Hd _ _ _|o n m _ _ _ Hc' _] n' m'; rewrite Hc'.
  - intros [[<- <-]|[_ Hm]]%lookup_insert_Some; [done|by eapply Hs].
  - intros [_ Hm]%lookup_delete_Some. by eapply Hs.
Qed.

Lemma needing_rollout_empty c :
  settled c → MachinesNeedingRollout c = ∅ ↔ ∀ n m, cp_Machines c !! n = Some m → outdated c m = false.
Proof.
  intros Hs. rewrite map_empty. split.
  - intros He n m Hm. apply not_true_iff_false. intros Ho. specialize (He n).
    assert (MachinesNeedingRollout c !! n = Some m) by (apply MachinesNeedingRollout_Some; eauto). congruence.
  - intros Ha n. apply eq_None_not_Some. intros [m (Hm & _ & Ho)%MachinesNeedingRollout_Some].
    by rewrite (Ha n m Hm) in Ho.
Qed.

Lemma step_size tg c c' :
  rollout_step tg c c' →
  (plan tg c = Initialize ∨ plan tg c = ScaleUp) ∧ total c' = (total c + 1)%Z ∨
  (∃ o, plan tg c = ScaleDown o) ∧ total c' = (total c - 1)%Z.
Proof.
  unfold total. intros [n m Hp Hn Hc' _ _ _ _|o n m Hp _ Hn Hc' _]; rewrite Hc'.
  - left. split; [done|]. rewrite map_size_insert_None by done. lia.
  - right. split; [by exists o|].
    assert (size (cp_Machines c) ≠ 0) by (eapply map_size_ne_0_lookup_2; by exists m).
    rewrite map_size_delete, Hn. lia.
Qed.

(** What the plan says about the machines. *)
Lemma plan_spec tg c :
  match plan tg c with
  | Initialize | ScaleUp =>
      if decide (MachinesNeedingRollout c = ∅) then (total c < desired tg)%Z
      else ∃ s, surge tg = Some s ∧ (total c < desired tg + s)%Z
  | ScaleDown o =>
      o = MachinesNeedingRollout c ∧
      if decide (MachinesNeedingRollout c = ∅) then (desired tg < total c)%Z
      else ∃ s, surge tg = Some s ∧ (desired tg + s ≤ total c)%Z
  | Steady => if decide (MachinesNeedingRollout c = ∅) then total c = desired tg else surge tg = None
  end.
Proof.
  unfold plan. destruct (decide (MachinesNeedingRollout c = ∅)) as [He|He].
  - repeat case_decide; try done; lia.
  - destruct (surge tg) as [s|] eqn:Hs; [|done]. case_decide; [by exists s|].
    split; [done|]. exists s. split; [done|lia].
Qed.

Lemma leaving_lookup c n :
  leaving c !! n = match cp_Machines c !! n with
                   | Some m => if outdated c m || marked m then Some m else None
                   | None => None
                   end.
Proof. apply mFilter_lookup. Qed.

Lemma leaving_create tg c c' n m :
  cp_Machines c !! n = None → cp_Machines c' = <[n := m]> (cp_Machines c) → outdated c' m = false →
  marked m = false → keeps c c' → leaving c' = leaving c.
Proof.
  intros Hn Hc' Ho Hm [_ Hk]. apply map_eq. intros n'. rewrite !leaving_lookup, Hc'.
  destruct (decide (n' = n)) as [->|Hne]; [by rewrite lookup_insert_eq, Hn, Ho, Hm|].
  rewrite lookup_insert_ne by done. destruct (cp_Machines c !! n') as [m'|] eqn:Hn'; [|done].
  rewrite (Hk n' m'); [done|done|]. by rewrite Hc', lookup_insert_ne.
Qed.

Lemma leaving_delete c c' n :
  cp_Machines c' = delete n (cp_Machines c) → keeps c c' → leaving c' = delete n (leaving c).
Proof.
  intros Hc' [_ Hk]. apply map_eq. intros n'. rewrite leaving_lookup, Hc'.
  destruct (decide (n' = n)) as [->|Hne]; [by rewrite !lookup_delete_eq|].
  rewrite !lookup_delete_ne by done. rewrite leaving_lookup.
  destruct (cp_Machines c !! n') as [m'|] eqn:Hn'; [|done].
  rewrite (Hk n' m'); [done|done|]. by rewrite Hc', lookup_delete_ne.
Qed.

Lemma needing_create c c' n m :
  settled c → settled c' → cp_Machines c !! n = None → cp_Machines c' = <[n := m]> (cp_Machines c) →
  outdated c' m = false → keeps c c' → (MachinesNeedingRollout c' = ∅ ↔ MachinesNeedingRollout c = ∅).
Proof.
  intros Hs Hs' Hn Hc' Ho [_ Hk]. rewrite !needing_rollout_empty, Hc' by done. split; intros Ha n' m'.
  - intros Hn'. assert (n' ≠ n) by (by intros ->; rewrite Hn in Hn').
    assert (<[n := m]> (cp_Machines c) !! n' = Some m') as Hm' by by rewrite lookup_insert_ne.
    rewrite <- (Hk n' m'), (Ha n' m') by (try rewrite Hc'; done). done.
  - intros Hm'. pose proof Hm' as [[<- <-]|[Hne Hn']]%lookup_insert_Some; [done|].
    rewrite (Hk n' m'); [by eapply Ha|done|by rewrite Hc'].
Qed.

Lemma needing_delete c c' n :
  settled c → settled c' → cp_Machines c' = delete n (cp_Machines c) → keeps c c' →
  MachinesNeedingRollout c = ∅ → MachinesNeedingRollout c' = ∅.
Proof.
  intros Hs Hs' Hc' [_ Hk]. rewrite !needing_rollout_empty by done. intros Ha n' m' Hm'.
  rewrite (Hk n' m'); [|rewrite Hc' in Hm'; by apply lookup_delete_Some in Hm' as [_ ?]|done].
  rewrite Hc' in Hm'. apply lookup_delete_Some in Hm' as [_ Hm']. by eapply Ha.
Qed.

(** During a rollout, a preferred machine is outdated or marked. *)
Lemma preferred_leaving c n m :
  MachinesNeedingRollout c ≠ ∅ → preferred c (MachinesNeedingRollout c) m → cp_Machines c !! n = Some m →
  outdated c m || marked m = true.
Proof.
  intros Hne (H1' & H2' & H3' & _) Hn. apply orb_true_iff. unfold marked.
  destruct (map_choose _ Hne) as (n0 & m0 & Hm0).
  destruct (decide (0 < size (MachineWithDeleteAnnotation c (MachinesNeedingRollout c)))) as [Ho|Ho].
  { right. apply size_filter_pos in Ho as (n1 & m1 & Hm1 & Hd). apply H1'. by exists n1, m1. }
  assert (¬ ∃ n m', MachinesNeedingRollout c !! n = Some m' ∧ marked_for_deletion m') as Hno.
  { intros (n1 & m1 & Hm1). apply Ho, size_filter_pos. by exists n1, m1. }
  destruct (decide (0 < size (MachineWithDeleteAnnotation c (cp_Machines c)))) as [Hc|Hc].
  { right. apply size_filter_pos in Hc as (n1 & m1 & Hm1 & Hd). apply H2'; [done|]. by exists n1, m1. }
  left. destruct H3' as (n1 & (_ & _ & Hout)%MachinesNeedingRollout_Some); [done| |done|done].
  intros (n1 & m1 & Hm1). apply Hc, size_filter_pos. by exists n1, m1.
Qed.

Definition smaller : relation (nat * nat) := slexprod nat nat lt lt.

Lemma measure_decreases tg c c' : settled c → rollout_step tg c c' → smaller (measure tg c') (measure tg c).
Proof.
  intros Hs Hstep. pose proof (settled_step _ _ _ Hs Hstep) as Hs'. pose proof (step_size _ _ _ Hstep) as Hsz.
  pose proof (plan_spec tg c) as Hplan. unfold measure.
  destruct Hstep as [n m Hp Hn Hc' Hd Ho Hm Hk|o n m Hp Hpr Hn Hc' Hk].
  - rewrite (leaving_create tg c c' n m) by done. apply right_slex.
    destruct Hsz as [[_ Hsz]|[[o Ho'] _]]; [|destruct Hp; congruence].
    pose proof (needing_create c c' n m Hs Hs' Hn Hc' Ho Hk) as Hne.
    destruct (decide (MachinesNeedingRollout c = ∅)) as [He|He].
    + rewrite decide_True by tauto. destruct Hp as [Hp|Hp]; rewrite Hp in Hplan; lia.
    + rewrite decide_False by tauto. destruct Hp as [Hp|Hp]; rewrite Hp in Hplan;
        destruct Hplan as (s & -> & Hlt); simpl; lia.
  - destruct Hsz as [[[|] _]|[_ Hsz]]; [congruence..|]. rewrite Hp in Hplan. destruct Hplan as [-> Hplan].
    rewrite (leaving_delete c c' n) by done.
    destruct (leaving c !! n) as [m'|] eqn:Hl.
    + apply left_slex. rewrite map_size_delete, Hl.
      assert (size (leaving c) ≠ 0) by (eapply map_size_ne_0_lookup_2; by exists m'). lia.
    + rewrite leaving_lookup, Hn in Hl. rewrite (delete_id (leaving c)) by (by rewrite leaving_lookup, Hn).
      destruct (decide (MachinesNeedingRollout c = ∅)) as [He|He].
      * apply right_slex. rewrite decide_True by by apply (needing_delete c c' n). lia.
      * by rewrite (preferred_leaving c n m) in Hl.
Qed.

Lemma step_wf tg : well_founded (λ c' c, settled c ∧ rollout_step tg c c').
Proof.
  apply (wf_projected smaller (measure tg)); [|apply wf_slexprod; apply lt_wf].
  intros c' c [Hs Hstep]. by apply measure_decreases.
Qed.

Lemma settled_rtc tg c c' : settled c → rtc (rollout_step tg) c c' → settled c'.
Proof. intros Hs. induction 1; eauto using settled_step. Qed.

(** The number of machines stays within bounds. *)
Definition between tg s (n : Z) c : Prop :=
  (Z.min n (desired tg + Z.min s 1 - 1) ≤ total c ≤ Z.max n (desired tg + s))%Z.

Lemma between_step tg s n c c' :
  surge tg = Some s → sensible tg → between tg s n c → rollout_step tg c c' → between tg s n c'.
Proof.
  intros Hs (Hd & Hs0 & _) Hb Hstep. pose proof (step_size _ _ _ Hstep) as Hsz.
  pose proof (plan_spec tg c) as Hplan. rewrite Hs in *. simpl in Hs0. unfold between in *.
  destruct Hsz as [[[Hp|Hp] Hsz]|[[o Hp] Hsz]]; rewrite Hp in Hplan; [| |destruct Hplan as [_ Hplan]];
    destruct (decide _); try (destruct Hplan as (s' & [= <-] & Hplan)); lia.
Qed.

(** C8: a rollout terminates.  While nothing else changes, the control
    plane goes through finitely many steps, each the planned action of a
    reconciliation, whichever machines they create and delete; the reconciler only
    stops planning when every machine matches the specification and there are as
    many as desired.  On the way the number of machines never exceeds the desired
    one and the surge, unless it did at the start, and with a surge it never drops
    below the desired number, unless it was below. *)
Theorem rollout_terminates tg s c :
  surge tg = Some s → sensible tg → settled c →
  sn (rollout_step tg) c ∧
  ∀ c', rtc (rollout_step tg) c c' →
    (plan tg c' = Steady ↔ converged tg c') ∧
    (Z.min (total c) (desired tg + Z.min s 1 - 1) ≤ total c' ≤ Z.max (total c) (desired tg + s))%Z.
Proof.
  intros Hsu Htg Hs. split.
  - revert Hs. induction (step_wf tg c) as [c _ IH]. intros Hs. constructor. intros c' Hstep.
    apply IH; [done|]. by eapply settled_step.
  - intros c' Hr. split.
    + pose proof (plan_spec tg c') as Hp. unfold converged. split.
      * intros Hst. rewrite Hst in Hp. case_decide; [done|congruence].
      * intros [Ht He]. unfold plan. by rewrite decide_True, decide_True.
    + assert (between tg s (total c) c) as Hb by (destruct Htg; unfold between; lia).
      change (between tg s (total c) c'). revert Hb. generalize (total c). intros n Hb.
      induction Hr as [c|c c1 c2 Hstep _ IH]; [done|].
      apply IH; [by eapply settled_step|by eapply between_step].
Qed.
End Rollout.
End Rollout.

(** ** Witnesses *)

Module RolloutExamples.
Import CpExamples Rollout.

Definition two_and_one : Target := mkTarget 2 (Some 1%Z).

(** One outdated and one up-to-date machine: a third is created first. *)
Example plan_up : plan two_and_one c = ScaleUp.
Proof. vm_compute. reflexivity. Qed.

Lemma settled_c : settled c.
Proof.
  intros n m Hm. change (cp_Machines c) with ms in Hm. unfold ms in Hm.
  apply lookup_insert_Some in Hm as [[_ <-]|[_ Hm]]; [reflexivity|].
  apply lookup_singleton_Some in Hm as [_ <-]. reflexivity.
Qed.

Lemma rollout_terminates_witness :
  sn (rollout_step two_and_one) c ∧
  ∀ c', rtc (rollout_step two_and_one) c c' →
    (plan two_and_one c' = Steady ↔ converged two_and_one c') ∧
    (Z.min (total c) (desired two_and_one + Z.min 1 1 - 1) ≤ total c' ≤
     Z.max (total c) (desired two_and_one + 1))%Z.
Proof.
  apply rollout_terminates; [reflexivity| |exact settled_c].
  split; [|split]; vm_compute; [discriminate..|reflexivity].
Defined.

Definition surging : ControlPlane :=
  set_KCP (mkControlPlane (kcp_meta kcp)
    (mkControlPlaneSpec (Some 2%Z) "v1.30.0" empty_spec None
       (mkMachineTemplate ∅ ∅ (ref_named "InfraTemplate" "t") None None None) None
       (Some (mkRolloutStrategy (Some (mkRollingUpdate (Some (IntVal 1))))))) (kcp_Status kcp)) c.

Lemma scale_or_rollout_refines_witness :
  wp (KcpReconcile.scale_or_rollout surging) ([] : trace) (λ t r, performs surging (plan two_and_one surging) t r.2).
Proof.
  apply scale_or_rollout_refines; [reflexivity| |reflexivity].
  split; [|split]; vm_compute; [discriminate..|reflexivity].
Defined.

(** Without a surge, the only machine of a control plane is deleted before there
    is another one. *)
Definition alone : ControlPlane := set_cp_Machines {["old" := old]} c.

Lemma no_surge_empties :
  rollout_step (mkTarget 1 (Some 0%Z)) alone (set_cp_Machines ∅ alone) ∧
  plan (mkTarget 1 (Some 0%Z)) (set_cp_Machines ∅ alone) = Initialize.
Proof.
  split; [|reflexivity].
  eapply (step_delete _ _ _ _ "old" old); [vm_compute; reflexivity| |reflexivity|reflexivity|].
  - apply (ScaleSpec.select_preferred alone). vm_compute. reflexivity.
  - by split.
Qed.
End RolloutExamples.
