(* ===== verification/KcpLiveness.v ===== *)
(** The rollout of a control plane against the API server.  The control plane's
    reconciler ([KcpReconcile.scale_or_rollout]) takes turns with everybody else on
    one server; if it is heard again and again while the control plane is healthy, the
    rollout completes.  [Rollout] says what one turn decides and why a sequence of
    decisions ends; here the decisions act on stored machines. *)

From S2P Require Import Prelude Fairness Objects ApiTypes Effects Libs Duration RefLibs ApiServer RefServer.
From S2P Require Import Json Secrets Token Workload Kubeconfig MachineFilters ControlPlane Scale AgentConditions.
From S2P Require Import Orchestrate Remediation KcpReconcile KcpSpec Rollout.
From Stdlib Require Import Relations.Relation_Operators Wellfounded.Lexicographic_Product.

(** ** What the rollout relies on *)

(** [collections.OwnedMachines] compares group, kind and name of the owner,
    [collections.ControlPlaneMachines] is a label selector, and without a time after
    which to roll out no machine is too old. *)
Class OwnershipLaws `{!CollectionsLib, !MetaLib} : Prop := {
  OwnedMachines_controller o o' m :
    key_of o' = key_of o → om_UID o' = om_UID o →
    NewControllerRef o' controlplane_GroupVersion "CK8sControlPlane" ∈ om_OwnerReferences (m_meta m) →
    OwnedMachines o m = true;
  ControlPlaneMachines_labels cluster m :
    ControlPlaneMachines cluster m = true ↔
    om_Labels (m_meta m) !! Clusterv1.ClusterNameLabel = Some cluster ∧
    is_Some (om_Labels (m_meta m) !! Clusterv1.MachineControlPlaneLabel);
  ShouldRolloutAfter_never now m : ShouldRolloutAfter now None m = false;
}.

(** The infrastructure objects by reference, as [external.Get] reads them.
    [external.CreateFromTemplate] notes on a clone which template it was made from, and
    touches nothing else. *)
Class Infrastructure (W : Type) `{!ApiErrors, !SchemaLib, !Env W, !ApiServer W} := {
  infra : ObjectReference → option Unstructured;
  infra_get ref r w w' :
    env_step (ExternalGet ref) r w w' →
    match r with
    | Ok o => infra ref = Some o
    | Err e => IsNotFound e = true → infra ref = None
    end;
  infra_clone i r w w' :
    env_step (CreateFromTemplate i) r w w' →
    same_view w w' ∧
    match r with
    | Ok ref => ∀ o, infra ref = Some o →
        ann (u_meta o) Clusterv1.TemplateClonedFromNameAnnotation = Some (ref_Name (ci_TemplateRef i)) ∧
        ann (u_meta o) Clusterv1.TemplateClonedFromGroupKindAnnotation =
          Some (GroupKindString (ci_TemplateRef i))
    | Err _ => True
    end;
}.

#[export] Instance slexprod_trans {A B} (R : relation A) (S : relation B) :
  Transitive R → Transitive S → Transitive (slexprod A B R S).
Proof.
  intros HR HS [x1 y1] [x2 y2] [x3 y3] H12 H23. inversion H12; inversion H23; subst.
  - apply left_slex. by trans x2.
  - by apply left_slex.
  - by apply left_slex.
  - apply right_slex. by trans y2.
Qed.

Module KcpLiveness.
Import KcpReconcile ScaleSpec Rollout.

Section Server.
Context {W : Type} `{!ApiErrors, !ApiErrorsLaws, !CollectionsLib, !CollectionsLaws, !MetaLib, !SchemaLib,
  !ConditionsLib, !K8sdApi, !OwnershipLaws, !Env W, !ApiServer W, !Infrastructure W}.
Implicit Types (c : ControlPlane) (m : Machine) (w : W).

(** The control plane object and its cluster; the specification does not change.  The
    webhook has given the infrastructure template a namespace and, as it encodes the
    object again, left out slices and maps of the bootstrap configuration that are
    empty; no rollout is scheduled for a time. *)
Context (kcp : CK8sControlPlane) (cluster : Cluster) (tg : Target) (s : Z).
Hypothesis template_namespace : ref_Namespace (mt_InfrastructureRef (MachineTemplate (kcp_Spec kcp))) ≠ "".
Hypothesis webhook_encoded : tidy (kcp_CK8sConfigSpec (kcp_Spec kcp)).
Hypothesis unscheduled : RolloutAfter (kcp_Spec kcp) = None.
Hypothesis target : target_of (kcp_Spec kcp) = Some tg.
Hypothesis surges : surge tg = Some s.
Hypothesis sense : sensible tg.

(** ** The machines as stored *)

Definition belongs m : bool := ControlPlaneMachines (cl_Name cluster) m && OwnedMachines (kcp_meta kcp) m.
Definition at_name (n : string) : ObjectKey := mkKey (kcp_Namespace kcp) n.

Definition stored w (n : string) : option Machine :=
  match view KMachine w (at_name n) with
  | Some m => if belongs m then Some m else None
  | None => None
  end.

(** What a rollout looks at. *)
Definition facts w m :=
  (m_Name m, m_Version m, m_ConfigRef m, m_InfrastructureRef m, deleting (m_meta m), marked m,
   cfg_Spec <$> config_of w m).

(** Every bootstrap configuration that a machine refers to exists. *)
Definition configured w : Prop :=
  ∀ n m, stored w n = Some m → m_ConfigRef m ≠ None → is_Some (config_of w m).

(** The control plane is the one that a reconciliation builds from what is stored. *)
Record sees w c : Prop := {
  sees_key : key_of (kcp_meta (KCP c)) = key_of (kcp_meta kcp);
  sees_uid : om_UID (kcp_meta (KCP c)) = om_UID (kcp_meta kcp);
  sees_spec : kcp_Spec (KCP c) = kcp_Spec kcp;
  sees_cluster : cl_Name (cp_Cluster c) = cl_Name cluster;
  sees_machines n : cp_Machines c !! n = stored w n;
  sees_configs n m : cp_Machines c !! n = Some m → ck8sConfigs c !! n = config_of w m;
  sees_infra n m : cp_Machines c !! n = Some m → infraResources c !! n = infra (m_InfrastructureRef m);
}.

(** *** It is the one that a reconciliation builds *)

Lemma stored_Some w n m :
  stored w n = Some m → view KMachine w (at_name n) = Some m ∧ belongs m = true ∧ m_Name m = n.
Proof.
  unfold stored. destruct (view KMachine w (at_name n)) as [m'|] eqn:Hv; [|done].
  destruct (belongs m') eqn:Hb; [|done]. intros [= ->]. split; [done|]. split; [done|].
  apply view_key in Hv. by injection Hv.
Qed.

Lemma getInfraResources_wp (ms : Machines) w :
  named ms →
  wp (getInfraResources ms) w (λ w' r,
    same_view w w' ∧
    match r with
    | Ok objects => ∀ n m, ms !! n = Some m → objects !! n = infra (m_InfrastructureRef m)
    | Err _ => True
    end).
Proof.
  intros Hnames. unfold getInfraResources. apply wp_func_with, gwp_bind.
  apply (each_machine_builds (λ m, infra (m_InfrastructureRef m))); [done| |].
  - intros m w1 s1 Hv1. apply gwp_bind, gwp_call; [by apply api_pre|]. intros r w2 _ Hr.
    pose proof (infra_get _ _ _ _ Hr) as Hi. pose proof (api_quiet _ _ _ _ Hr I) as Hv2.
    assert (same_view w w2) as Hv by (intros k key; by rewrite Hv2).
    destruct r as [o|e]; [apply gwp_modify; by rewrite Hi|].
    destruct (IsNotFound e); [apply gwp_ret; by rewrite Hi|by apply gwp_return].
  - intros w1 s1 Hv Hs. repeat wp_step. done.
Qed.

Lemma NewControlPlane_infra cl k (ms : Machines) w :
  named ms →
  wp (NewControlPlane cl k ms) w (λ _ r,
    match r with
    | Ok c => ∀ n m, ms !! n = Some m → infraResources c !! n = infra (m_InfrastructureRef m)
    | Err _ => True
    end).
Proof.
  intros Hnames. unfold NewControlPlane. apply wp_func_with, gwp_bind, gwp_check, gwp_callp.
  eapply wp_mono; [by apply getInfraResources_wp|]. intros w1 [objects|e] [_ Hi]; [|done].
  apply gwp_bind, gwp_check, gwp_callp.
  eapply wp_mono; [by apply getCK8sConfigs_wp|]. intros w2 [configs|e] _; [|done].
  unfold each_machine, range. apply gwp_bind, gwp_bind, gwp_call; [by apply api_pre|]. intros ks w3 _ _.
  apply (gwp_for_each_inv _ _ (λ _ _, True)); [done| |].
  - intros m w4 s1 _ _. apply gwp_bind, gwp_call; [by apply api_pre|]. intros [u|e] w5 _ _; by repeat wp_step.
  - intros w4 s1 _. apply gwp_bind, gwp_get, gwp_bind, gwp_call; [by apply api_pre|]. intros now w5 _ _.
    by apply gwp_ret.
Qed.

(** How [reconcile] builds the control plane: from the machines of the cluster that are
    control plane machines and owned. *)
Definition observe (cl : Cluster) (k : CK8sControlPlane) : prog (gores ControlPlane) :=
  func (
    controlPlaneMachines ← check (callp (GetMachinesForCluster (key_of (cl_meta cl))
        [ControlPlaneMachines (cl_Name cl)])) Err;
    callp (NewControlPlane cl k (mFilter (OwnedMachines (kcp_meta k)) controlPlaneMachines))).

Lemma observe_sees cl k w :
  kcp_meta k = kcp_meta kcp → kcp_Spec k = kcp_Spec kcp → cl_Name cl = cl_Name cluster →
  cl_Namespace cl = kcp_Namespace kcp →
  wp (observe cl k) w (λ w' r, same_view w w' ∧ ∀ c, r = Ok c → sees w' c).
Proof using Type*.
  intros Hk Hsp Hn Hns. unfold observe. apply wp_func, gwp_bind, gwp_check, gwp_callp.
  eapply wp_mono; [apply Orchestrate.GetMachinesForCluster_wp|]. intros w1 [all|e] [Hv Hall]; [|done].
  set (ms := mFilter (OwnedMachines (kcp_meta k)) all).
  assert (∀ n, ms !! n = stored w1 n) as Hms.
  { intros n. apply option_eq. intros m. unfold ms. rewrite mFilter_Some, Hall, Hk. simpl. rewrite andb_true_r, Hn.
    unfold stored. split.
    - intros [(Hname & Hvm & Hnsm & _ & Hcp) Ho].
      assert (at_name n = key_of (m_meta m)) as ->.
      { unfold at_name, key_of. rewrite Hnsm. f_equal; [symmetry; exact Hns|symmetry; exact Hname]. }
      rewrite Hv, Hvm. unfold belongs. by rewrite Hcp, Ho.
    - rewrite Hv. destruct (view KMachine w (at_name n)) as [m'|] eqn:Hvm; [|done].
      destruct (belongs m') eqn:Hb; [|done]. intros [= ->]. apply andb_true_iff in Hb as [Hcp Ho].
      pose proof (view_key _ _ _ _ Hvm) as Hkey. change (key_of (m_meta m) = at_name n) in Hkey.
      pose proof (proj1 (ControlPlaneMachines_labels _ _) Hcp) as [Hl _].
      rewrite Hkey, Hvm. unfold key_of, at_name in Hkey. injection Hkey as Hmns Hmn.
      split_and!; try done.
      + rewrite Hmns. symmetry. exact Hns.
      + rewrite Hl. f_equal. symmetry. exact Hn. }
  assert (named ms) as Hnames by (intros n m Hm; rewrite Hms in Hm; by apply stored_Some in Hm as (_ & _ & ?)).
  apply gwp_callp. eapply wp_mono;
    [apply wp_and; [apply NewControlPlane_spec; exact Hnames|by apply NewControlPlane_infra]|].
  intros w2 r [[Hv2 Hspec] Hinf]. simpl. split; [intros kd key; by rewrite Hv2, Hv|]. intros c ->.
  destruct Hspec as (HK & HC & HM & _ & Hcfg).
  split; rewrite ?HK, ?HC, ?HM, ?Hk; try done.
  - intros n. rewrite Hms. unfold stored. by rewrite Hv2.
  - intros n m Hm. rewrite (Hcfg n m Hm). unfold config_of. destruct (m_ConfigRef m); simpl; [|done]. by rewrite Hv2.
Qed.

(** ** Steps *)

(** A turn of the reconciler that reports no error. *)
Definition turn w c w' : Prop := ∃ r : ControlPlane * outcome, exec (scale_or_rollout c) w w' r ∧ r.2.2 = None.

(** What everybody else does: the health and the status of machines change, machines
    that are being deleted disappear. *)
Definition others w w' : Prop := ∀ n,
  match stored w n, stored w' n with
  | Some m, Some m' => facts w' m' = facts w m
  | Some m, None => deleting (m_meta m) = true
  | None, Some _ => False
  | None, None => True
  end.

(** Nothing that a rollout looks at changes. *)
Definition alike w w' : Prop := ∀ n,
  match stored w n, stored w' n with
  | Some m, Some m' => facts w' m' = facts w m
  | None, None => True
  | _, _ => False
  end.

Lemma same_view_alike w w' : same_view w w' → alike w w'.
Proof.
  intros Hv n. assert (stored w' n = stored w n) as -> by (unfold stored; by rewrite Hv).
  destruct (stored w n) as [m|]; [|done]. unfold facts, config_of. destruct (m_ConfigRef m); simpl; [|done].
  by rewrite Hv.
Qed.

Lemma alike_others w w' : alike w w' → others w w'.
Proof. intros Ha n. specialize (Ha n). destruct (stored w n), (stored w' n); done. Qed.

Lemma configured_others w w' : others w w' → configured w → configured w'.
Proof.
  intros Ho Hc n m' Hm' Hr. specialize (Ho n). rewrite Hm' in Ho. destruct (stored w n) as [m|] eqn:Hm; [|done].
  unfold facts in Ho. simplify_eq/=. destruct (Hc n m) as [cfg Hcfg]; [done|congruence|].
  destruct (config_of w' m'); [done|]. by rewrite Hcfg in *.
Qed.

(** *** Whether a machine is outdated depends on its facts *)

Lemma outdated_sees w c n m :
  sees w c → cp_Machines c !! n = Some m →
  outdated c m = negb (MachineFilters.MatchesKubernetesVersion (kcp_Version (kcp_Spec kcp)) m &&
    match m_ConfigRef m, config_of w m with
    | Some _, Some cfg =>
        bool_decide (set_Version "" (cfg_Spec cfg) = set_Version "" (kcp_CK8sConfigSpec (kcp_Spec kcp)))
    | _, _ => true
    end && MachineFilters.MatchesTemplateClonedFrom
             (from_option (λ o, {[m_Name m := o]}) ∅ (infra (m_InfrastructureRef m))) kcp m).
Proof using Type*.
  intros Hs Hm. pose proof Hm as Hst. rewrite (sees_machines _ _ Hs) in Hst.
  apply stored_Some in Hst as (_ & _ & Hn).
  unfold outdated. rewrite (sees_spec _ _ Hs), unscheduled, ShouldRolloutAfter_never. simpl. f_equal.
  unfold MachineFilters.MatchesKCPConfiguration. rewrite MachineFilters.MatchesCK8sBootstrapConfig_eq.
  rewrite Hn, (sees_configs _ _ Hs n m Hm), (sees_spec _ _ Hs). f_equal.
  unfold MachineFilters.MatchesTemplateClonedFrom. rewrite Hn, (sees_infra _ _ Hs n m Hm), (sees_spec _ _ Hs).
  destruct (infra (m_InfrastructureRef m)); simpl; [by rewrite lookup_singleton_eq|done].
Qed.

Lemma outdated_facts w c n m w' c' m' :
  sees w c → sees w' c' → cp_Machines c !! n = Some m → cp_Machines c' !! n = Some m' →
  facts w' m' = facts w m → outdated c' m' = outdated c m.
Proof using Type*.
  intros Hs Hs' Hm Hm' Hf. rewrite (outdated_sees w c n m Hs Hm), (outdated_sees w' c' n m' Hs' Hm').
  unfold facts in Hf. injection Hf as Hn Hv Hr Hi _ _ Hc. f_equal.
  unfold MachineFilters.MatchesKubernetesVersion, MachineFilters.MatchesTemplateClonedFrom.
  rewrite Hn, Hv, Hr, Hi. f_equal. f_equal. destruct (m_ConfigRef m); [|done].
  destruct (config_of w m), (config_of w' m'); simpl in Hc; try done. by injection Hc as ->.
Qed.

(** *** A turn that creates a machine *)

(** A new machine, which matches the specification, and its configuration. *)
Record created w w' (n : string) m : Prop := {
  created_fresh : view KMachine w (at_name n) = None;
  created_machine : stored w' n = Some m;
  created_frame n' : n' ≠ n → view KMachine w' (at_name n') = view KMachine w (at_name n');
  created_config : ∃ ref cfg,
    m_ConfigRef m = Some ref ∧ view KCK8sConfig w (at_name (ref_Name ref)) = None ∧
    view KCK8sConfig w' (at_name (ref_Name ref)) = Some cfg ∧
    cfg_Spec cfg = kcp_CK8sConfigSpec (kcp_Spec kcp) ∧
    ∀ key, key ≠ at_name (ref_Name ref) → view KCK8sConfig w' key = view KCK8sConfig w key;
  created_version : m_Version m = Some (kcp_Version (kcp_Spec kcp));
  created_infra o : infra (m_InfrastructureRef m) = Some o → cloned_from kcp o;
  created_live : deleting (m_meta m) = false;
  created_unmarked : marked m = false;
}.

Lemma erase_fields a b :
  erase a = erase b →
  key_of a = key_of b ∧ om_Labels a = om_Labels b ∧ om_Annotations a = om_Annotations b ∧
  om_OwnerReferences a = om_OwnerReferences b ∧ om_DeletionTimestamp a = om_DeletionTimestamp b.
Proof. destruct a, b. unfold erase, key_of. simpl. intros He. injection He as -> -> -> -> -> _ ->. done. Qed.

(** The machine that is created belongs to the control plane. *)
Lemma new_machine_belongs c infraRef ref fd n m :
  key_of (kcp_meta (KCP c)) = key_of (kcp_meta kcp) → om_UID (kcp_meta (KCP c)) = om_UID (kcp_meta kcp) →
  cl_Name (cp_Cluster c) = cl_Name cluster →
  erase (m_meta (Scale.new_machine (KCP c) (cp_Cluster c) infraRef ref fd n)) = erase (m_meta m) →
  belongs m = true.
Proof using Type*.
  intros Hk Hu Hc (_ & Hl & _ & Ho & _)%erase_fields. apply andb_true_iff. split.
  - apply ControlPlaneMachines_labels. rewrite <- Hl; simpl; unfold Scale.labels_for, ControlPlaneLabelsForCluster. split.
    + rewrite !lookup_insert_ne by discriminate. by rewrite lookup_insert_eq, Hc.
    + rewrite lookup_insert_eq. by eexists.
  - apply (OwnedMachines_controller (kcp_meta kcp) (kcp_meta (KCP c))); [done|done|].
    rewrite <- Ho. simpl. by apply list_elem_of_singleton.
Qed.

Lemma new_machine_unmarked k cl infraRef ref fd n m :
  erase (m_meta (Scale.new_machine k cl infraRef ref fd n)) = erase (m_meta m) →
  deleting (m_meta m) = false ∧ marked m = false.
Proof using Type*.
  intros (_ & _ & Ha & _ & Hd)%erase_fields. unfold deleting, marked. rewrite HasAnnotationKey_spec. unfold ann.
  rewrite <- Ha, <- Hd. split; [done|]. simpl. unfold Scale.machine_annotations. cbv zeta.
  destruct (ann (kcp_meta k) _); simpl; rewrite ?lookup_insert_ne, ?lookup_singleton_ne by discriminate; done.
Qed.

Lemma generation_created w w' c fd g :
  key_of (kcp_meta (KCP c)) = key_of (kcp_meta kcp) → om_UID (kcp_meta (KCP c)) = om_UID (kcp_meta kcp) →
  kcp_Spec (KCP c) = kcp_Spec kcp → cl_Name (cp_Cluster c) = cl_Name cluster →
  generation (defaulted (cp_Cluster c) (KCP c)) (cp_Cluster c) (kcp_CK8sConfigSpec (kcp_Spec (KCP c))) fd g None →
  write_chain g w w' → ∃ n m, created w w' n m.
Proof using Type*.
  intros Hk Hu Hsp Hcl Hg. unfold defaulted in Hg. rewrite Hsp, bool_decide_false in Hg by done.
  inversion Hg as [| | |infraRef cname config mname machine]; subst. simpl.
  intros (w2 & w3 & Hv2 & [Hv3 Hinf]%infra_clone & w4 & w5 & Hv4 & [Hf5 (Hno5 & Hc5 & Hst5)]%(api_create KCK8sConfig) &
    w6 & w7 & Hv6 & [Hf7 (Hno7 & Hm7 & Hst7)]%(api_create KMachine) & Hv').
  assert (kcp_Namespace (KCP c) = kcp_Namespace kcp) as Hns by (unfold key_of in Hk; by injection Hk).
  destruct Hst5 as [Hcm Hcs], Hst7 as (Hmm & Hmv & Hmr & Hmi).
  assert (obj_key KCK8sConfig (Scale.bootstrap_config (KCP c) (cp_Cluster c) (kcp_CK8sConfigSpec (kcp_Spec kcp)) cname)
    = at_name (cfg_Name config)) as Hck.
  { pose proof (proj1 (erase_fields _ _ Hcm)) as Hkc. unfold key_of in Hkc. injection Hkc as _ Hn.
    unfold obj_key, at_name, cfg_Name. simpl. rewrite <- Hn, <- Hns. done. }
  assert (obj_key KMachine (Scale.new_machine (KCP c) (cp_Cluster c) infraRef (Scale.config_ref config) fd mname)
    = at_name mname) as Hmk by (unfold obj_key, at_name, key_of; simpl; by rewrite Hns).
  rewrite Hck in *. rewrite Hmk in *.
  assert (∀ k key, view k w4 key = view k w key) as Hv by (intros; by rewrite Hv4, Hv3, Hv2).
  pose proof (new_machine_belongs _ _ _ _ _ _ Hk Hu Hcl Hmm) as Hb.
  destruct (new_machine_unmarked _ _ _ _ _ _ _ Hmm) as [Hd Hun].
  exists mname, machine. split; try done.
  - by rewrite <- Hv, <- (Hf5 KMachine), <- Hv6 by done.
  - unfold stored. by rewrite Hv', Hm7, Hb.
  - intros n Hn. rewrite Hv', (Hf7 KMachine), Hv6, (Hf5 KMachine), Hv by (unfold at_name; intros [=]; done). done.
  - exists (Scale.config_ref config), config. split_and!; try done.
    + by rewrite <- Hv.
    + by rewrite Hv', (Hf7 KCK8sConfig), Hv6 by congruence.
    + simpl in Hcs. by destruct Hcs as [-> | ->].
    + simpl. intros key Hkey. by rewrite Hv', (Hf7 KCK8sConfig), Hv6, (Hf5 KCK8sConfig), Hv by congruence.
  - rewrite <- Hmv. simpl. by rewrite Hsp.
  - intros o Ho. rewrite <- Hmi in Ho. simpl in Ho. destruct (Hinf o Ho) as [Ha1 Ha2].
    unfold cloned_from. rewrite <- Hsp. done.
Qed.

(** A created machine joins the others, and is up to date. *)
Lemma config_of_created w w' n m n' m' :
  configured w → created w w' n m → stored w n' = Some m' → config_of w' m' = config_of w m'.
Proof.
  intros Hcf Hc Hm'. destruct (created_config _ _ _ _ Hc) as (ref & cfg & _ & Hno & _ & _ & Hf).
  specialize (Hcf n' m' Hm'). unfold config_of in *. destruct (m_ConfigRef m') as [ref'|]; simpl in *; [|done].
  apply Hf. intros Heq. rewrite Heq, Hno in Hcf. by destruct Hcf.
Qed.

Lemma created_stored w w' n m :
  created w w' n m → stored w n = None ∧ ∀ n', stored w' n' = if decide (n' = n) then Some m else stored w n'.
Proof.
  intros Hc. split.
  - unfold stored. by rewrite (created_fresh _ _ _ _ Hc).
  - intros n'. case_decide as Hn; [subst; apply (created_machine _ _ _ _ Hc)|].
    unfold stored. by rewrite (created_frame _ _ _ _ Hc).
Qed.

Lemma created_configured w w' n m : configured w → created w w' n m → configured w'.
Proof.
  intros Hcf Hc n' m' Hm' Hr. rewrite (proj2 (created_stored _ _ _ _ Hc)) in Hm'. case_decide as Hn.
  - simplify_eq. destruct (created_config _ _ _ _ Hc) as (ref & cfg & Hmr & _ & Hcfg & _).
    unfold config_of. rewrite Hmr. simpl. unfold at_name in Hcfg.
    pose proof (stored_Some _ _ _ (created_machine _ _ _ _ Hc)) as (Hv & _ & _).
    apply view_key in Hv. unfold obj_key, key_of in Hv. injection Hv as -> _. by exists cfg.
  - rewrite (config_of_created w w' n m n' m') by done. by eapply Hcf.
Qed.

(** *** What a turn does *)

(** A machine is gone, and nothing else has changed. *)
Definition gone w w' (n : string) : Prop :=
  view KMachine w' (at_name n) = None ∧
  ∀ k key, (k, key) ≠ (KMachine, at_name n) → view k w' key = view k w key.

Inductive turned w c w' : Prop :=
  | turned_quiet : alike w w' → (stable c [] → plan tg c = Steady) → turned w c w'
  | turned_created n m :
      settled c → plan tg c = Initialize ∨ plan tg c = ScaleUp → created w w' n m → turned w c w'
  | turned_deleted o n m :
      settled c → plan tg c = ScaleDown o → preferred c o m → stored w n = Some m → gone w w' n →
      turned w c w'.

Lemma stable_settled c l : stable c l → settled c.
Proof. intros Hs n m Hm. rewrite <- HasDeletionTimestamp_spec. by destruct (Hs n m Hm). Qed.

Lemma initialize_settled c : plan tg c = Initialize → settled c.
Proof using Type*.
  unfold plan, total. repeat case_decide; repeat case_match; try done. intros _ n m Hm.
  assert (size (cp_Machines c) = 0) as He%map_size_empty_inv by lia. by rewrite He, lookup_empty in Hm.
Qed.

Lemma deletion_gone w w' n m t r :
  stored w n = Some m → deleted_last t m r → r.2 = None → write_chain (writes t) w w' → gone w w' n.
Proof.
  intros Hm (t1 & x & t2 & -> & Hw1 & Hw2 & _ & Hx) Hr Hc.
  assert (key_of (m_meta m) = at_name n) as Hk by (by apply stored_Some in Hm as (Hv%view_key & _)).
  rewrite writes_app, Hw1 in Hc. unfold writes in Hc, Hw2. simpl in Hc. rewrite Hw2, Hk in Hc. simpl in Hc.
  destruct Hc as (w1 & w2 & Hv1 & [Hf Hd]%(api_delete KMachine) & Hv2). split.
  - rewrite Hv2. destruct x as [u|e]; [apply Hd|]. specialize (Hx Hr).
    destruct Hd as [[Hsame Hnf]|[Hnf _]]; [|congruence]. by rewrite Hsame, Hnf.
  - intros k key Hne. by rewrite Hv2, Hf, Hv1.
Qed.

Lemma preferred_stored w c o m :
  sees w c → plan tg c = ScaleDown o → preferred c o m → ∃ n, stored w n = Some m.
Proof using Type*.
  intros Hs Hp (_ & _ & _ & Hin). pose proof (plan_spec tg c) as Hspec. rewrite Hp in Hspec.
  destruct Hspec as [-> _].
  assert (∃ n, cp_Machines c !! n = Some m) as [n Hn].
  { destruct Hin as [[n Hn]|Hin]; [|done]. exists n. by apply MachinesNeedingRollout_Some in Hn as [? _]. }
  exists n. by rewrite <- (sees_machines _ _ Hs).
Qed.

Lemma turn_turned w c w' : sees w c → few c → turn w c w' → turned w c w'.
Proof using Type*.
  intros Hs Hf (r & He & Hr).
  destruct (exec_trace _ _ _ _ _ (scale_or_rollout_wp tg c ltac:(by rewrite (sees_spec _ _ Hs)) sense Hf) He)
    as (t & (c' & [cs Hrep] & Hp) & Hc%chain_writes).
  assert (cp_Machines c' = cp_Machines c ∧ cp_Cluster c' = cp_Cluster c ∧ kcp_meta (KCP c') = kcp_meta (KCP c) ∧
    kcp_Spec (KCP c') = kcp_Spec (KCP c)) as (Hms & Hcl & Hme & Hsp) by (subst c'; by destruct c as [[? ? []]]).
  clear Hrep.
  assert (∀ l, stable c' l ↔ stable c l) as Hst by (intros l; unfold stable; by rewrite Hms).
  assert (creates c' t r.2 → ∃ n m, created w w' n m) as Hcr.
  { intros (err & Hg & Heq). destruct err as [e|]; [by rewrite Heq in Hr|].
    eapply generation_created; [| | | |exact Hg|exact Hc];
      rewrite ?Hme, ?Hsp, ?Hcl; by destruct Hs. }
  assert (writes t = [] → alike w w') as Hquiet.
  { intros Hw. rewrite Hw in Hc. by apply same_view_alike. }
  destruct (plan tg c) as [| |o|] eqn:Hplan.
  - destruct Hp as [(n & m & Hm)%Hcr|[_ Hn]]; [|by rewrite Hr in Hn].
    eapply turned_created; [by apply initialize_settled|by left|exact Hm].
  - destruct Hp as [[Hs' (n & m & Hm)%Hcr]|(Hn & Hw & _)].
    + apply Hst, stable_settled in Hs'. eapply turned_created; [done|by right|exact Hm].
    + apply turned_quiet; [by apply Hquiet|]. intros Hs'. by apply Hst in Hs'.
  - destruct Hp as [(m & Hpr & Hs' & Hd)|(Hw & _ & Hn)].
    + apply Hst, stable_settled in Hs'.
      assert (preferred c o m) as Hpr' by (unfold preferred in *; by rewrite Hms in Hpr).
      destruct (preferred_stored w c o m) as [n Hn]; [done..|].
      eapply turned_deleted; [done|done|done|exact Hn|]. by eapply deletion_gone.
    + apply turned_quiet; [by apply Hquiet|]. intros Hs'%Hst. by destruct (Hn Hr).
  - destruct Hp as [Hw _]. apply turned_quiet; [by apply Hquiet|done].
Qed.

(** *** The planned action takes place *)

Lemma sees_keeps w c w' c' :
  sees w c → sees w' c' → (∀ n m, stored w n = Some m → stored w' n = Some m → facts w' m = facts w m) →
  keeps c c'.
Proof using Type*.
  intros Hs Hs' Hf. split; [by rewrite (sees_spec _ _ Hs), (sees_spec _ _ Hs')|].
  intros n m Hm Hm'. apply (outdated_facts w c n m w' c' m); [done..|].
  apply (Hf n); by rewrite <- ?(sees_machines _ _ Hs), <- ?(sees_machines _ _ Hs').
Qed.

Lemma facts_config w w' m : config_of w' m = config_of w m → facts w' m = facts w m.
Proof. intros Hc. unfold facts. by rewrite Hc. Qed.

Lemma gone_config w w' n m : gone w w' n → config_of w' m = config_of w m.
Proof. intros [_ Hf]. unfold config_of. destruct (m_ConfigRef m); simpl; [|done]. by apply (Hf KCK8sConfig). Qed.

Lemma gone_stored w w' n n' : gone w w' n → stored w' n' = if decide (n' = n) then None else stored w n'.
Proof.
  intros [Hn Hf]. unfold stored. case_decide as Hd; [subst; by rewrite Hn|].
  rewrite (Hf KMachine); [done|]. unfold at_name. intros [=]. done.
Qed.

Lemma created_up_to_date w w' n m c' :
  sees w' c' → created w w' n m → outdated c' m = false.
Proof using Type*.
  intros Hs Hc. pose proof (created_machine _ _ _ _ Hc) as Hm.
  assert (cp_Machines c' !! n = Some m) as Hn by (by rewrite (sees_machines _ _ Hs)).
  rewrite (outdated_sees w' c' n m Hs Hn). apply negb_false_iff. rewrite !andb_true_iff. split; [split|].
  - unfold MachineFilters.MatchesKubernetesVersion. rewrite (created_version _ _ _ _ Hc). by apply bool_decide_eq_true.
  - destruct (created_config _ _ _ _ Hc) as (ref & cfg & Hr & _ & Hcfg & Hsp & _).
    unfold config_of. rewrite Hr. simpl.
    apply stored_Some in Hm as (Hv & _ & _). apply view_key in Hv. unfold obj_key, key_of in Hv. injection Hv as -> _.
    change (mkKey _ _) with (at_name (ref_Name ref)). rewrite Hcfg, Hsp. by apply bool_decide_eq_true.
  - unfold MachineFilters.MatchesTemplateClonedFrom.
    destruct (infra (m_InfrastructureRef m)) as [o|] eqn:Ho; simpl; [|by rewrite lookup_empty].
    rewrite lookup_singleton_eq. destruct (created_infra _ _ _ _ Hc o Ho) as [-> ->]. by rewrite !bool_decide_true.
Qed.

Lemma turned_step w c w' c' :
  sees w c → sees w' c' → configured w → turned w c w' →
  configured w' ∧ (alike w w' ∧ (stable c [] → plan tg c = Steady) ∨ settled c ∧ rollout_step tg c c').
Proof using Type*.
  intros Hs Hs' Hcf Ht. destruct Ht as [Ha Hst|n m Hse Hp Hc|o n m Hse Hp Hpr Hm Hg].
  - split; [by apply (configured_others w), Hcf; apply alike_others|by left].
  - split; [by eapply created_configured|]. right. split; [done|].
    destruct (created_stored _ _ _ _ Hc) as [Hn Hst].
    apply (step_create tg c c' n m); [done| | |apply (created_live _ _ _ _ Hc)|by eapply created_up_to_date|
      apply (created_unmarked _ _ _ _ Hc)|].
    + by rewrite (sees_machines _ _ Hs).
    + apply map_eq. intros n'. rewrite (sees_machines _ _ Hs'), Hst.
      case_decide as Hd; [subst; by rewrite lookup_insert_eq|].
      by rewrite lookup_insert_ne, (sees_machines _ _ Hs).
    + apply (sees_keeps w c w' c'); [done..|]. intros n' m' Hm' _. by eapply facts_config, config_of_created.
  - split.
    + intros n' m' Hm' Hr. rewrite (gone_stored _ _ _ _ Hg) in Hm'. case_decide; [done|].
      rewrite (gone_config _ _ _ _ Hg). by eapply Hcf.
    + right. split; [done|]. apply (step_delete tg c c' o n m); [done|done| | |].
      * by rewrite (sees_machines _ _ Hs).
      * apply map_eq. intros n'. rewrite (sees_machines _ _ Hs'), (gone_stored _ _ _ _ Hg).
        case_decide as Hd; [subst; by rewrite lookup_delete_eq|].
        by rewrite lookup_delete_ne, (sees_machines _ _ Hs).
      * apply (sees_keeps w c w' c'); [done..|]. intros n' m' _ _. by eapply facts_config, gone_config.
Qed.

(** ** What is left to do *)

(** The machines that are being deleted, then the measure of the rollout. *)
Definition left_to_do c : nat * (nat * nat) :=
  (size (mFilter HasDeletionTimestamp (cp_Machines c)), measure tg c).
Definition less : relation (nat * (nat * nat)) := slexprod nat (nat * nat) lt smaller.

#[local] Instance smaller_trans : Transitive smaller.
Proof. unfold smaller. apply slexprod_trans; intros x y z; lia. Qed.
#[local] Instance less_trans : Transitive less.
Proof. apply slexprod_trans; [intros x y z; lia|apply _]. Qed.

Lemma less_wf : well_founded less.
Proof. apply wf_slexprod; [apply lt_wf|]. apply wf_slexprod; apply lt_wf. Qed.

Lemma size_doms {A B} (m1 : gmap string A) (m2 : gmap string B) :
  (∀ n, is_Some (m1 !! n) ↔ is_Some (m2 !! n)) → size m1 = size m2.
Proof.
  intros Hd. rewrite <- !size_dom. f_equal. apply set_eq. intros n. by rewrite !elem_of_dom.
Qed.

Lemma size_mFilter_same f g (ms ms' : Machines) :
  (∀ n, match ms !! n, ms' !! n with
        | Some m, Some m' => f m = g m'
        | None, None => True
        | _, _ => False
        end) → size (mFilter f ms) = size (mFilter g ms').
Proof.
  intros Ha. apply size_doms. intros n. specialize (Ha n). rewrite !mFilter_lookup.
  destruct (ms !! n) as [m|], (ms' !! n) as [m'|]; try done. rewrite Ha. by destruct (g m').
Qed.

Lemma needing_empty c :
  MachinesNeedingRollout c = ∅ ↔
  ∀ n m, cp_Machines c !! n = Some m → deleting (m_meta m) = false → outdated c m = false.
Proof.
  rewrite map_empty. split.
  - intros He n m Hm Hd. apply not_true_iff_false. intros Ho.
    assert (MachinesNeedingRollout c !! n = Some m) as Hn by (by apply MachinesNeedingRollout_Some).
    by rewrite He in Hn.
  - intros Ha n. apply eq_None_not_Some. intros [m (Hm & Hd & Ho)%MachinesNeedingRollout_Some].
    by rewrite (Ha n m Hm Hd) in Ho.
Qed.

(** *** Steps that change nothing the rollout looks at *)

(** Two control planes with the same machines, as far as the rollout is concerned. *)
Definition matching c c' : Prop := ∀ n,
  match cp_Machines c !! n, cp_Machines c' !! n with
  | Some m, Some m' =>
      outdated c' m' = outdated c m ∧ deleting (m_meta m') = deleting (m_meta m) ∧ marked m' = marked m
  | None, None => True
  | _, _ => False
  end.

Lemma alike_matching w c w' c' : sees w c → sees w' c' → alike w w' → matching c c'.
Proof using Type*.
  intros Hs Hs' Ha n. specialize (Ha n). rewrite <- (sees_machines _ _ Hs), <- (sees_machines _ _ Hs') in Ha.
  destruct (cp_Machines c !! n) as [m|] eqn:Hm, (cp_Machines c' !! n) as [m'|] eqn:Hm'; try done.
  split; [by apply (outdated_facts w c n m w' c' m')|]. unfold facts in Ha. by injection Ha.
Qed.

Lemma matching_sym c c' : matching c c' → matching c' c.
Proof.
  intros Ha n. specialize (Ha n). destruct (cp_Machines c !! n), (cp_Machines c' !! n); try done.
  by destruct Ha as (-> & -> & ->).
Qed.

Lemma matching_total c c' : matching c c' → total c' = total c.
Proof.
  intros Ha. unfold total. f_equal. apply size_doms. intros n. specialize (Ha n).
  rewrite !is_Some_alt. by destruct (cp_Machines c !! n), (cp_Machines c' !! n).
Qed.

Lemma matching_needing c c' : matching c c' → MachinesNeedingRollout c = ∅ → MachinesNeedingRollout c' = ∅.
Proof.
  rewrite !needing_empty. intros Ha He n m' Hm' Hd. specialize (Ha n). rewrite Hm' in Ha.
  destruct (cp_Machines c !! n) as [m|] eqn:Hm; [|done]. destruct Ha as (-> & Hd' & _).
  apply (He n m Hm). congruence.
Qed.

Lemma matching_settled c c' : matching c c' → settled c → settled c'.
Proof.
  intros Ha Hs n m' Hm'. specialize (Ha n). rewrite Hm' in Ha.
  destruct (cp_Machines c !! n) as [m|] eqn:Hm; [|done]. destruct Ha as (_ & -> & _). by apply (Hs n).
Qed.

Lemma matching_converged c c' : matching c c' → converged tg c → converged tg c'.
Proof.
  intros Ha [Ht He]. split; [by rewrite (matching_total _ _ Ha)|by apply (matching_needing c)].
Qed.

Lemma matching_left c c' : matching c c' → left_to_do c' = left_to_do c.
Proof.
  intros Ha. unfold left_to_do, measure. rewrite (matching_total _ _ Ha).
  assert (size (mFilter HasDeletionTimestamp (cp_Machines c')) = size (mFilter HasDeletionTimestamp (cp_Machines c)))
    as ->.
  { apply size_mFilter_same. intros n. specialize (Ha n).
    destruct (cp_Machines c !! n), (cp_Machines c' !! n); try done.
    rewrite !HasDeletionTimestamp_spec. by destruct Ha as (_ & ? & _). }
  assert (size (leaving c') = size (leaving c)) as ->.
  { unfold leaving. apply size_mFilter_same. intros n. specialize (Ha n).
    destruct (cp_Machines c !! n), (cp_Machines c' !! n); try done. by destruct Ha as (-> & _ & ->). }
  do 2 f_equal. destruct (decide (MachinesNeedingRollout c = ∅)) as [He|He].
  - by rewrite decide_True by (by apply (matching_needing c)).
  - rewrite decide_False; [done|]. intros He'. by apply He, (matching_needing c'); [apply matching_sym|].
Qed.

(** *** The steps of everybody else *)

Lemma others_alike w w' : others w w' → (∀ n, is_Some (stored w n) → is_Some (stored w' n)) → alike w w'.
Proof.
  intros Ho Hk n. specialize (Ho n). destruct (stored w n) as [m|] eqn:Hm, (stored w' n) as [m'|] eqn:Hm'; try done.
  destruct (Hk n) as [? ?]; [by rewrite Hm|congruence].
Qed.

Lemma others_left w c w' c' :
  sees w c → sees w' c' → others w w' →
  matching c c' ∨ less (left_to_do c') (left_to_do c) ∧ ¬ settled c.
Proof using Type*.
  intros Hs Hs' Ho.
  destruct (decide (dom (cp_Machines c) ⊆ dom (cp_Machines c'))) as [Hd|Hd].
  - left. apply (alike_matching w c w' c'); [done..|]. apply others_alike; [done|]. intros n.
    rewrite <- (sees_machines _ _ Hs), <- (sees_machines _ _ Hs'), <- !elem_of_dom. by apply Hd.
  - right. split.
    2: { intros Hse. apply Hd. intros n [m Hm]%elem_of_dom. rewrite elem_of_dom, (sees_machines _ _ Hs').
         pose proof (Hse n m Hm) as Hdel. rewrite (sees_machines _ _ Hs) in Hm. specialize (Ho n). rewrite Hm in Ho.
         destruct (stored w' n) as [m'|]; [by eexists|congruence]. }
    apply left_slex. rewrite <- !size_dom. apply subset_size. split.
    + intros n. rewrite !elem_of_dom, !mFilter_lookup, (sees_machines _ _ Hs), (sees_machines _ _ Hs').
      specialize (Ho n). intros [m Hm]. destruct (stored w' n) as [m'|]; [|done].
      destruct (stored w n) as [m0|]; [|done]. unfold facts in Ho. injection Ho as _ _ _ _ Hdel _ _.
      rewrite !HasDeletionTimestamp_spec in *. rewrite Hdel in Hm. destruct (deleting (m_meta m0)); [by eexists|done].
    + intros Hsub. apply Hd. intros n [m Hm]%elem_of_dom. rewrite (sees_machines _ _ Hs) in Hm.
      specialize (Ho n). rewrite Hm in Ho. rewrite elem_of_dom, (sees_machines _ _ Hs').
      destruct (stored w' n) as [m'|] eqn:Hm'; [by eexists|]. exfalso.
      assert (n ∈ dom (mFilter HasDeletionTimestamp (cp_Machines c'))) as [m' Hn]%elem_of_dom.
      { apply Hsub, elem_of_dom. exists m. apply mFilter_Some. rewrite (sees_machines _ _ Hs), HasDeletionTimestamp_spec. done. }
      apply mFilter_Some in Hn as [Hn _]. rewrite (sees_machines _ _ Hs') in Hn. congruence.
Qed.

(** *** The steps together *)

Lemma settled_none c : settled c → size (mFilter HasDeletionTimestamp (cp_Machines c)) = 0.
Proof.
  intros Hs. apply map_size_empty_iff, map_empty. intros n. rewrite mFilter_lookup.
  destruct (cp_Machines c !! n) as [m|] eqn:Hm; [|done]. by rewrite HasDeletionTimestamp_spec, (Hs n m Hm).
Qed.

Lemma rollout_less c c' : settled c → rollout_step tg c c' → less (left_to_do c') (left_to_do c).
Proof.
  intros Hs Hr. unfold left_to_do. rewrite (settled_none c Hs), (settled_none c' (settled_step _ _ _ Hs Hr)).
  apply right_slex. by apply measure_decreases.
Qed.

Lemma rollout_few c c' : few c → rollout_step tg c c' → few c'.
Proof using Type*.
  unfold few. intros Hf Hr. pose proof (plan_spec tg c) as Hp. destruct sense as (Hd & Hs0 & Hb).
  rewrite surges in *. simpl in Hs0, Hb.
  destruct (step_size _ _ _ Hr) as [[[Hi|Hi] ->]|[[o Hi] ->]]; [..|lia]; rewrite Hi in Hp;
    destruct (decide _); try (destruct Hp as (s' & [= <-] & Hp)); lia.
Qed.

Lemma steady_converged c : plan tg c = Steady ↔ converged tg c.
Proof using Type*.
  pose proof (plan_spec tg c) as Hp. unfold converged. split.
  - intros Hst. rewrite Hst in Hp. case_decide; [done|]. by rewrite surges in Hp.
  - intros [Ht He]. unfold plan. by rewrite decide_True, decide_True.
Qed.

Lemma rollout_not_converged c c' : rollout_step tg c c' → ¬ converged tg c.
Proof using Type*.
  intros Hr Hc%steady_converged. destruct (step_size _ _ _ Hr) as [[[Hi|Hi] _]|[[o Hi] _]]; congruence.
Qed.

Lemma turn_moves w c w' c' :
  sees w c → sees w' c' → configured w → few c → turn w c w' →
  configured w' ∧ few c' ∧ (matching c c' ∧ (stable c [] → plan tg c = Steady) ∨ settled c ∧ rollout_step tg c c').
Proof using Type*.
  intros Hs Hs' Hc Hf Ht. pose proof (turn_turned w c w' Hs Hf Ht) as Ht'.
  destruct (turned_step w c w' c' Hs Hs' Hc Ht') as [Hc' [[Ha Hst]|[Hse Hr]]]; (split; [done|]).
  - pose proof (alike_matching w c w' c' Hs Hs' Ha) as Hm.
    split; [unfold few; by rewrite (matching_total _ _ Hm)|by left].
  - split; [by eapply rollout_few|by right].
Qed.

Lemma others_moves w c w' c' :
  sees w c → sees w' c' → configured w → few c → others w w' →
  configured w' ∧ few c' ∧ (matching c c' ∨ less (left_to_do c') (left_to_do c) ∧ ¬ settled c).
Proof using Type*.
  intros Hs Hs' Hc Hf Ho. split; [by eapply configured_others|]. split.
  - assert (total c' ≤ total c)%Z as Hle; [|unfold few in *; lia].
    unfold total. apply inj_le. rewrite <- !size_dom. apply subseteq_size. intros n.
    rewrite !elem_of_dom, (sees_machines _ _ Hs), (sees_machines _ _ Hs'). specialize (Ho n).
    intros [m' Hm']. rewrite Hm' in Ho. by destruct (stored w n).
  - by apply (others_left w c w' c').
Qed.

(** ** Rollouts complete *)

(** Everybody takes turns on one server, the reconciler again and again while the
    control plane is stable; from [N] on its turns report no error. *)
Record fair_rollout (f : nat → W) (c : nat → ControlPlane) (N : nat) : Prop := {
  rollout_sees n : N ≤ n → sees (f n) (c n);
  rollout_turns n : N ≤ n → turn (f n) (c n) (f (S n)) ∨ others (f n) (f (S n));
  rollout_heard n : N ≤ n → ∃ k, n ≤ k ∧ turn (f k) (c k) (f (S k)) ∧ stable (c k) [];
}.

Section Run.
Context (f : nat → W) (c : nat → ControlPlane) (N : nat) (Hrun : fair_rollout f c N).
Context (Hconf : configured (f N)) (Hfew : few (c N)).

Definition complete n : Prop := converged tg (c n) ∧ settled (c n).

Lemma run_invariant n : N ≤ n → configured (f n) ∧ few (c n).
Proof using Type*.
  induction 1 as [|n Hn [IHc IHf]]; [done|].
  pose proof (rollout_sees _ _ _ Hrun n Hn) as Hs. pose proof (rollout_sees _ _ _ Hrun (S n) ltac:(lia)) as Hs'.
  destruct (rollout_turns _ _ _ Hrun n Hn) as [Ht|Ho].
  - by destruct (turn_moves _ _ _ _ Hs Hs' IHc IHf Ht) as (? & ? & _).
  - by destruct (others_moves _ _ _ _ Hs Hs' IHc IHf Ho) as (? & ? & _).
Qed.

(** A step does nothing to the rollout, or it performs the planned action, or it
    removes machines that are being deleted. *)
Lemma run_step n :
  N ≤ n →
  matching (c n) (c (S n)) ∨ settled (c n) ∧ rollout_step tg (c n) (c (S n)) ∨
  less (left_to_do (c (S n))) (left_to_do (c n)) ∧ ¬ settled (c n).
Proof using Type*.
  intros Hn. destruct (run_invariant n Hn) as [Hc Hf].
  pose proof (rollout_sees _ _ _ Hrun n Hn) as Hs. pose proof (rollout_sees _ _ _ Hrun (S n) ltac:(lia)) as Hs'.
  destruct (rollout_turns _ _ _ Hrun n Hn) as [Ht|Ho].
  - destruct (turn_moves _ _ _ _ Hs Hs' Hc Hf Ht) as (_ & _ & [[Hm _]|Hr]); auto.
  - destruct (others_moves _ _ _ _ Hs Hs' Hc Hf Ho) as (_ & _ & [Hm|Hl]); auto.
Qed.

Lemma run_descends n :
  N ≤ n → left_to_do (c (S n)) = left_to_do (c n) ∨ less (left_to_do (c (S n))) (left_to_do (c n)).
Proof using Type*.
  intros Hn. destruct (run_step n Hn) as [Hm|[[Hs Hr]|[Hl _]]].
  - left. by apply matching_left.
  - right. by apply rollout_less.
  - by right.
Qed.

Lemma run_heard n :
  N ≤ n → ∃ k, n ≤ k ∧ (complete k ∨ less (left_to_do (c (S k))) (left_to_do (c k))).
Proof using Type*.
  intros Hn. destruct (rollout_heard _ _ _ Hrun n Hn) as (k & Hm & Ht & Hst). exists k. split; [done|].
  assert (N ≤ k) as HNk by lia. destruct (run_invariant k HNk) as [Hc Hf].
  pose proof (rollout_sees _ _ _ Hrun k HNk) as Hs. pose proof (rollout_sees _ _ _ Hrun (S k) ltac:(lia)) as Hs'.
  destruct (turn_moves _ _ _ _ Hs Hs' Hc Hf Ht) as (_ & _ & [[_ Hp]|[Hse Hr]]).
  - left. split; [by apply steady_converged, Hp|by eapply stable_settled].
  - right. by apply rollout_less.
Qed.

Lemma complete_stays n k : N ≤ n → n ≤ k → complete n → complete k.
Proof using Type*.
  intros Hn. induction 1 as [|k Hk IH]; [done|]. intros [Hc Hs]%IH.
  destruct (run_step k ltac:(lia)) as [Ha|[[_ Hr]|[_ Hns]]]; [| |done].
  - split; [by apply (matching_converged (c k))|by apply (matching_settled (c k))].
  - by destruct (rollout_not_converged _ _ Hr).
Qed.

Lemma run_between n : settled (c N) → N ≤ n → settled (c n) ∧ between tg s (total (c N)) (c n).
Proof using Type*.
  intros Hs. induction 1 as [|n Hn [IHs IHb]].
  { split; [done|]. destruct sense as (? & Hs0 & _). rewrite surges in Hs0. simpl in Hs0. unfold between. lia. }
  destruct (run_step n Hn) as [Ha|[[_ Hr]|[_ Hns]]]; [| |done].
  - split; [by apply (matching_settled (c n))|]. unfold between in *. by rewrite (matching_total _ _ Ha).
  - split; [by eapply settled_step|by eapply between_step].
Qed.
End Run.

End Server.

(** ** Witness: a control plane of one outdated machine *)

(** Infrastructure objects are named after their template. *)
Module Examples.
Definition infra_of (ref : ObjectReference) : Unstructured :=
  mkUnstructured (mkMeta (ref_Name ref) "ns" "" ∅
    (Some {[Clusterv1.TemplateClonedFromNameAnnotation := ref_UID ref;
            Clusterv1.TemplateClonedFromGroupKindAnnotation := ref_APIVersion ref]}) [] [] 0 None)
    (ref_Kind ref) "v1".
Definition rolling : handler Store := λ X e w,
  match e in sysE X return option (X * Store) with
  | CreateFromTemplate i =>
      Some (Ok (mkRef (GroupKindString (ci_TemplateRef i)) "Infra" "ns" "k-new" (ref_Name (ci_TemplateRef i))), w)
  | ExternalGet ref => Some (Ok (infra_of ref), w)
  | GenerateName base => Some (base +:+ "new", w)
  | e => friendly [] (cluster_named "c") (λ r, k8sd_ok "") _ e w
  end.

End Examples.
Import Examples.

#[local] Instance the_env : Env Store := server_env rolling.

#[local] Program Instance rolling_infra : Infrastructure Store := {| infra ref := Some (infra_of ref) |}.
Next Obligation. intros ref r w w' Hs. unfold env_step in Hs. simpl in Hs. by injection Hs as <- <-. Qed.
Next Obligation.
  intros i r w w' Hs. unfold env_step in Hs. simpl in Hs. injection Hs as <- <-. split; [done|].
  intros o [= <-]. split; vm_compute; reflexivity.
Qed.

#[local] Instance ref_ownership : OwnershipLaws.
Proof.
  split; simpl; [| |done].
  - intros o o' m _ Hu Hin. apply existsb_exists. eexists. split; [by apply list_elem_of_In|].
    apply bool_decide_eq_true. by split.
  - intros cl m. by rewrite bool_decide_eq_true.
Qed.

Lemma rolling_exec {A} (p : prog A) w a :
  answer_of rolling p w = Some a → exec p w (served rolling p w) a.
Proof.
  unfold answer_of, served. destruct (run _ p w) as [[a' w']|] eqn:Hr; simpl; [|done].
  intros [= ->]. eapply serve_exec; [|exact Hr]. intros X e w1 x w2 He.
  destruct e; try done; eapply (friendly_lang [] (cluster_named "c") (λ r, k8sd_ok "")); exact He.
Qed.

Definition ex_kcp : CK8sControlPlane :=
  mkControlPlane (meta_named "k")
    (mkControlPlaneSpec (Some 1%Z) "v1.30.0" empty_spec None
       (mkMachineTemplate ∅ ∅ (ref_named "InfraTemplate" "t") None None None) None
       (Some (mkRolloutStrategy (Some (mkRollingUpdate (Some (IntVal 1)))))))
    (mkControlPlaneStatus "" 1 None 1 1 0 true true "" None 0 [] None).
Definition ex_target : Target := mkTarget 1 (Some 1%Z).

(** *** The control plane that a reconciliation sees *)

Abbreviation ex_cluster := (cluster_named "c").
Abbreviation ex_belongs := (belongs ex_kcp ex_cluster).
Abbreviation ex_stored := (stored ex_kcp ex_cluster).

Definition own_machines (w : Store) : Machines :=
  FromMachineList (filter (λ m, Is_true (ex_belongs m)) (listed KMachine "ns" ∅ w)).
Definition seen (w : Store) : ControlPlane :=
  mkCP ex_kcp ex_cluster (own_machines w) ∅ 0 (omap (config_of w) (own_machines w))
    (omap (λ m, infra (m_InfrastructureRef m)) (own_machines w)).

Lemma own_machines_stored w n : own_machines w !! n = ex_stored w n.
Proof.
  pose proof (listed_spec KMachine "ns" ∅ w) as [Hnd Hin].
  assert (NoDup (m_Name <$> filter (λ m, Is_true (ex_belongs m)) (listed KMachine "ns" ∅ w))) as Hnd'.
  { assert (∀ l, NoDup (obj_key KMachine <$> l) → (∀ m, m ∈ l → om_Namespace (m_meta m) = "ns") →
      NoDup (m_Name <$> filter (λ m, Is_true (ex_belongs m)) l)) as Hgen; [|apply Hgen; [done|intros m Hm; by apply Hin in Hm as (_ & ? & _)]].
    induction l as [|m l IH]; simpl; [constructor|]. intros Hml Hns. inversion_clear Hml as [|? ? Hm Hl]. rewrite filter_cons.
    case_decide; simpl; [|apply IH; set_solver]. constructor; [|apply IH; set_solver].
    intros (m' & Heq & [_ Hm']%list_elem_of_filter)%list_elem_of_fmap. apply Hm, list_elem_of_fmap. exists m'.
    split; [|done]. unfold obj_key, key_of. simpl. unfold m_Name in Heq. rewrite Heq.
    by rewrite (Hns m), (Hns m') by set_solver. }
  apply option_eq. intros m. unfold own_machines. rewrite (FromMachineList_lookup _ n m Hnd'), list_elem_of_filter, Hin.
  unfold stored. change (view KMachine w (at_name ex_kcp n)) with (look KMachine w (mkKey "ns" n)). split.
  - intros [[Hb (Hv & Hns & _)] Hn]. assert (obj_key KMachine m = mkKey "ns" n) as Hk.
    { unfold obj_key, key_of. simpl in *. by rewrite Hns, <- Hn. }
    rewrite Hk in Hv. rewrite Hv. by destruct (ex_belongs m).
  - destruct (look KMachine w (mkKey "ns" n)) as [m'|] eqn:Hv; [|done]. destruct (ex_belongs m') eqn:Hb; [|done].
    intros [= ->]. pose proof (look_key _ _ _ _ Hv) as Hk. unfold obj_key, key_of in Hk. simpl in Hk.
    injection Hk as Hns Hn. split_and!; try done.
    + by rewrite Hb.
    + unfold obj_key, key_of. simpl. by rewrite Hns, Hn.
    + apply map_empty_subseteq.
Qed.

Lemma ex_sees w : sees ex_kcp ex_cluster w (seen w).
Proof.
  split; try done.
  - intros n. apply own_machines_stored.
  - intros n m Hm. change (own_machines w !! n = Some m) in Hm.
    change (omap (config_of w) (own_machines w) !! n = config_of w m). by rewrite lookup_omap, Hm.
  - intros n m Hm. change (own_machines w !! n = Some m) in Hm.
    change (omap (λ m, infra (m_InfrastructureRef m)) (own_machines w) !! n = infra (m_InfrastructureRef m)).
    by rewrite lookup_omap, Hm.
Qed.

(** A test of all machines. *)
Definition all_own (P : Machine → bool) (w : Store) : bool :=
  forallb (λ p : string * Machine, P p.2) (map_to_list (own_machines w)).

Lemma all_own_stored P w n m : all_own P w = true → ex_stored w n = Some m → P m = true.
Proof.
  unfold all_own. rewrite forallb_forall. intros Ha Hm. rewrite <- own_machines_stored in Hm.
  apply elem_of_map_to_list, list_elem_of_In in Hm. exact (Ha _ Hm).
Qed.

(** *** The run *)

Definition healthy_conditions : Conditions :=
  [mkCond ControlPlaneConditions.MachineAgentHealthyCondition ConditionTrue SeverityNone "" ""].

Definition ex_old : Machine :=
  mkMachine (mkMeta "old" "ns" "old"
      {[Clusterv1.ClusterNameLabel := "c"; Clusterv1.MachineControlPlaneLabel := ""]} None
      [NewControllerRef (meta_named "k") controlplane_GroupVersion "CK8sControlPlane"] [] 0 None)
    "c" (Some "v1.29.0") (ref_named "Infra" "old") (Some (ref_named "CK8sConfig" "old")) None None None None None
    healthy_conditions.

Definition ex_start : Store :=
  put KMachine ex_old (put KCK8sConfig (config_named "old")
    (put KSecret (mkSecret (meta_named "c-token") (Some {["value" := "t"]}) "") empty_store)).

(** The new machine becomes healthy. *)
Definition get_healthy (n : string) (w : Store) : Store :=
  match look KMachine w (mkKey "ns" n) with
  | Some m => put KMachine (set_m_Conditions healthy_conditions m) w
  | None => w
  end.

Definition after_turn (w : Store) : Store := served rolling (scale_or_rollout (seen w)) w.

(** A machine is created, becomes healthy, and the old one is deleted. *)
Definition execution (n : nat) : Store :=
  match n with
  | 0 => ex_start
  | 1 => after_turn ex_start
  | 2 => get_healthy "k-new" (after_turn ex_start)
  | _ => after_turn (get_healthy "k-new" (after_turn ex_start))
  end.

Example run_outcome :
  map (λ n, (map fst (map_to_list (own_machines (execution n))),
             match plan ex_target (seen (execution n)) with Steady => true | _ => false end)) [0; 1; 2; 3] =
  [(["old"], false); (["old"; "k-new"], false); (["old"; "k-new"], false); (["k-new"], true)].
Proof. vm_compute. reflexivity. Qed.

Lemma kr_turn w :
  match answer_of rolling (scale_or_rollout (seen w)) w with Some (_, (_, None)) => true | _ => false end = true →
  turn w (seen w) (after_turn w).
Proof.
  destruct (answer_of rolling (scale_or_rollout (seen w)) w) as [[c [res [e|]]]|] eqn:Hr; try done. intros _.
  exists (c, (res, None)). split; [by apply rolling_exec|done].
Qed.

(** After three steps nothing changes. *)
Lemma kr_still : after_turn (execution 3) = execution 3.
Proof. apply same_store_eq. vm_compute. reflexivity. Qed.

Lemma kr_execution n : 3 ≤ n → execution n = execution 3.
Proof. intros Hn. destruct n as [|[|[|n]]]; [lia..|done]. Qed.

Lemma ex_last_turn n : 3 ≤ n → turn (execution n) (seen (execution n)) (execution (S n)).
Proof.
  intros Hn. rewrite (kr_execution n Hn), (kr_execution (S n)) by lia. rewrite <- kr_still at 3.
  apply kr_turn. vm_compute. reflexivity.
Qed.

Lemma get_healthy_others n w : others ex_kcp ex_cluster w (get_healthy n w).
Proof.
  apply alike_others. intros n'. unfold get_healthy.
  destruct (look KMachine w (mkKey "ns" n)) as [m|] eqn:Hm.
  2: { by destruct (ex_stored w n'). }
  set (m' := set_m_Conditions healthy_conditions m). set (w' := put KMachine m' w).
  assert (∀ m1, config_of w' m1 = config_of w m1) as Hc.
  { intros m1. unfold config_of. destruct (m_ConfigRef m1); simpl; [|done]. by apply (look_put_ne KCK8sConfig KMachine). }
  assert (obj_key KMachine m' = mkKey "ns" n) as Hk by (rewrite <- (look_key _ _ _ _ Hm); by destruct m).
  unfold stored. change (view KMachine ?x (at_name ex_kcp n')) with (look KMachine x (mkKey "ns" n')).
  destruct (decide (n' = n)) as [->|Hne].
  - assert (look KMachine w' (mkKey "ns" n) = Some m') as ->.
    { unfold w', put. by rewrite Hk, look_upd_eq, decide_True. }
    rewrite Hm. assert (ex_belongs m' = ex_belongs m) as -> by (by destruct m).
    destruct (ex_belongs m); [|done]. unfold facts. rewrite Hc. by destruct m.
  - assert (look KMachine w' (mkKey "ns" n') = look KMachine w (mkKey "ns" n')) as ->.
    { unfold w', put. apply look_upd_ne. rewrite Hk. congruence. }
    destruct (look KMachine w (mkKey "ns" n')) as [m1|]; [|done]. destruct (ex_belongs m1); [|done].
    unfold facts. by rewrite Hc.
Qed.

Lemma ex_stable : stable (seen (execution 3)) [].
Proof.
  intros n m Hm. rewrite (sees_machines _ _ _ _ (ex_sees (execution 3))) in Hm.
  pose proof (all_own_stored (λ m, negb (HasDeletionTimestamp m) &&
    cIsTrue (m_Conditions m) ControlPlaneConditions.MachineAgentHealthyCondition) (execution 3) n m) as Ha.
  rewrite andb_true_iff, negb_true_iff in Ha. destruct Ha as [Hd Hh]; [vm_compute; reflexivity|exact Hm|].
  split; [done|by right].
Qed.

Lemma kr_fair : fair_rollout ex_kcp ex_cluster execution (λ n, seen (execution n)) 0.
Proof.
  split.
  - intros n _. apply ex_sees.
  - intros n _. destruct (decide (3 ≤ n)) as [Hn|Hn]; [left; by apply ex_last_turn|].
    destruct n as [|[|[|n]]]; [| | |lia].
    + left. apply (kr_turn (execution 0)). vm_compute. reflexivity.
    + right. apply (get_healthy_others "k-new" (execution 1)).
    + left. apply (kr_turn (execution 2)). vm_compute. reflexivity.
  - intros n _. exists (3 + n). split; [lia|]. split; [apply ex_last_turn; lia|].
    rewrite (kr_execution (3 + n)) by lia. exact ex_stable.
Qed.

Lemma ex_sensible : sensible ex_target.
Proof. split_and!; vm_compute; [discriminate..|reflexivity]. Qed.

End KcpLiveness.
