(* ===== verification/ConfigReconcile.v ===== *)
(** src/bootstrap/controllers/ck8sconfig_controller.go: the reconciler that turns a
    bootstrap configuration into the user data of its machine.  The objects of
    its [Scope] are the configuration, which it assigns to and which is the state
    here, and the owner and the cluster, which are arguments. *)

From S2P Require Import Prelude Objects ApiTypes Effects Libs RefLibs ApiServer RefServer.
From S2P Require Import Json Secrets InitLock Token Workload NodeConfig CloudInit ControlPlane.
From S2P Require Import Scale KcpSpec.

Module ConfigReconcile.
Import BootstrapConditions.

(** sigs.k8s.io/yaml for the three configurations. *)
Class RenderLib := {
  Marshal_bootstrap : NodeConfig.BootstrapConfig → gores string;
  Marshal_join : NodeConfig.ControlPlaneJoinConfig → gores string;
  Marshal_worker : NodeConfig.WorkerJoinConfig → gores string;
}.

Definition ErrInvalidRef : error := ErrSentinel "invalid reference".
Definition ErrFailedUnlock : error := ErrSentinel "failed to unlock the init lock".

(** The identity of [util.ErrNoCluster]. *)
Definition ErrNoCluster : string := "no " +:+ quote Clusterv1.ClusterNameLabel +:+ " label present".

(** Assignments to the fields of the configuration. *)
Definition set_ready (name : option string) (config : CK8sConfig) : CK8sConfig :=
  match cfg_Status config with
  | mkConfigStatus _ d _ r m o c => set_cfg_Status (mkConfigStatus true d name r m o c) config
  end.
Definition add_san (san : string) (c : CK8sControlPlaneConfig) : CK8sControlPlaneConfig :=
  match c with
  | mkControlPlaneConfig sans a b d e f g h i j k l (mkControlPlaneConfigEmpties _ e2 e3 e4 e5) =>
      mkControlPlaneConfig (sans ++ [san]) a b d e f g h i j k l (mkControlPlaneConfigEmpties false e2 e3 e4 e5)
  end.

Section Reconciler.
Context `{!ApiErrors, !MetaLib, !ConditionsLib, !K8sdApi, !CertsLib, !CloudInit.CloudInitLib, !RenderLib}.
Implicit Types (config : CK8sConfig) (owner : ConfigOwner) (cluster : Cluster) (machine : Machine).

Abbreviation body := (go CK8sConfig).

Definition mark {R} (f : Conditions → Conditions) : body R unit :=
  modify (λ config, cfg_SetConditions (f (cfg_GetConditions config)) config).
Definition generation_failed (e : error) : Conditions → Conditions :=
  MarkFalse DataSecretAvailableCondition DataSecretGenerationFailedReason SeverityWarning (error_text e).

(** ** What the specification refers to *)

(** [resolveSecretFileContent] and [resolveSecretReference]. *)
Definition secret_content (ns name key : string) : prog (gores string) :=
  func (
    r ← call (Get KSecret (mkKey ns name));
    match r with
    | Err e =>
        if IsNotFound e then return_ (Err (wrapf ("secret not found " +:+ ns +:+ "/" +:+ name) e))
        else return_ (Err (wrapf ("failed to retrieve Secret " +:+ quote (ns +:+ "/" +:+ name)) e))
    | Ok secret =>
        match s_Data secret ≫= (!!) key with
        | None => mret (Err (wrapf ("secret references non-existent secret key " +:+ quote key) ErrInvalidRef))
        | Some data => mret (Ok data)
        end
    end).

Definition resolveSecretFileContent (ns : string) (source : FileSource) : prog (gores string) :=
  secret_content ns (sfs_Name (fs_Secret source)) (sfs_Key (fs_Secret source)).
Definition resolveSecretReference (ns : string) (secretRef : SecretRef) : prog (gores string) :=
  secret_content ns (sr_Name secretRef) (sr_Key secretRef).

Definition resolveUserBootstrapConfig config : prog (gores string) :=
  func (
    match spec_BootstrapConfig (cfg_Spec config) with
    | None => return_ (Ok "")
    | Some b =>
        if negb (bool_decide (bc_Content b = "")) then return_ (Ok (bc_Content b))
        else
          match bc_ContentFrom b with
          | None => return_ (Ok "")
          | Some source =>
              data ← check (callp (resolveSecretFileContent (cfg_Namespace config) source))
                (λ e, Err (wrapf ("failed to read bootstrap configuration from secret " +:+
                                  quote (sfs_Name (fs_Secret source))) e));
              mret (Ok data)
          end
    end).

Definition with_content (f : File) (data : string) : File :=
  mkFile (f_Path f) (f_Owner f) (f_Permissions f) (f_Encoding f) data None.

Definition resolveFiles config : prog (gores (list File)) :=
  func_with (
    for_each (Files (cfg_Spec config)) (λ f,
      match f_ContentFrom f with
      | None => modify (λ collected, collected ++ [f])
      | Some source =>
          data ← check (callp (resolveSecretFileContent (cfg_Namespace config) source))
            (λ e, Err (wrapf "failed to resolve file source" e));
          modify (λ collected, collected ++ [with_content f data])
      end) ;;
    collected ← get;
    mret (Ok collected)) [].

(** ** The snap to install *)

Definition resolveInPlaceUpgradeRelease machine : option CloudInit.SnapInstallData :=
  match ann (m_meta machine) InPlaceUpgradeReleaseAnnotation with
  | None => None
  | Some val =>
      match GoStrings.Split val "=" with
      | [option; value] =>
          if bool_decide (option = "channel") then
            Some (CloudInit.mkSnapInstall CloudInit.InstallOptionChannel value)
          else if bool_decide (option = "revision") then
            Some (CloudInit.mkSnapInstall CloudInit.InstallOptionRevision value)
          else if bool_decide (option = "localPath") then
            Some (CloudInit.mkSnapInstall CloudInit.InstallOptionLocalPath value)
          else None
      | _ => None
      end
  end.

Definition getSnapInstallDataFromSpec (spec : CK8sConfigSpec) : gores CloudInit.SnapInstallData :=
  let set s := if bool_decide (s = "") then 0 else 1 in
  if bool_decide (1 < set (Channel spec) + set (Revision spec) + set (LocalPath spec)) then
    Err (ErrNew "only one of Channel, Revision, or LocalPath can be set, but multiple were provided")
  else if negb (bool_decide (Channel spec = "")) then
    Ok (CloudInit.mkSnapInstall CloudInit.InstallOptionChannel (Channel spec))
  else if negb (bool_decide (Revision spec = "")) then
    Ok (CloudInit.mkSnapInstall CloudInit.InstallOptionRevision (Revision spec))
  else if negb (bool_decide (LocalPath spec = "")) then
    Ok (CloudInit.mkSnapInstall CloudInit.InstallOptionLocalPath (LocalPath spec))
  else Ok (CloudInit.mkSnapInstall "" "").

(** ** Storing the data *)

Definition bootstrap_secret cluster config (data : string) : Secret :=
  mkSecret
    (mkMeta (cfg_Name config) (cfg_Namespace config) "" {[Clusterv1.ClusterNameLabel := cl_Name cluster]} None
       [mkOwnerRef bootstrap_GroupVersion "CK8sConfig" (cfg_Name config) (om_UID (cfg_meta config)) (Some true)]
       [] 0 None)
    (Some {["value" := data]}) Clusterv1.ClusterSecretType.

Definition storeBootstrapData cluster (data : string) : CK8sConfig → prog (CK8sConfig * option error) :=
  func_on (
    config ← get;
    let secret := bootstrap_secret cluster config data in
    let name := cfg_Namespace config +:+ "/" +:+ cfg_Name config in
    r ← call (Create KSecret secret);
    match r with
    | Err e =>
        if negb (IsAlreadyExists e) then
          return_ (Some (wrapf ("failed to create bootstrap data secret for CK8sConfig " +:+ name) e))
        else
          check (call (Update KSecret secret))
            (λ e, Some (wrapf ("failed to update bootstrap data secret for CK8sConfig " +:+ name) e)) ;;
          mret tt
    | Ok _ => mret tt
    end ;;
    modify (set_ready (Some (cfg_Name config))) ;;
    mark (MarkTrue DataSecretAvailableCondition) ;;
    mret None).

(** [reconcileTopLevelObjectSettings] *)
Definition reconcileTopLevelObjectSettings machine config : CK8sConfig :=
  match m_Version machine with
  | Some v => if bool_decide (Version (cfg_Spec config) = "")
              then set_cfg_Spec (set_Version v (cfg_Spec config)) config else config
  | None => config
  end.

(** [cloudinit.BaseUserData] as the three callers fill it in; the ones that join
    have no bootstrap configuration of the user. *)
Definition base_user_data (spec : CK8sConfigSpec) (snap : CloudInit.SnapInstallData) (files : list File)
    (contents bootstrapConfig nodeToken : string) : CloudInit.BaseUserData :=
  CloudInit.mkBaseUserData (Version spec) (Some snap) (BootCommands spec) (PreRunCommands spec)
    (PostRunCommands spec) (AdditionalUserData spec) bootstrapConfig (CloudInit.FilesFromAPI files) contents
    (AirGapped spec) (SnapstoreProxyScheme spec) (SnapstoreProxyDomain spec) (SnapstoreProxyID spec)
    (HTTPProxy spec) (HTTPSProxy spec) (NoProxy spec) (MicroclusterAddress (ControlPlaneConfig spec))
    (GetMicroclusterPort (ControlPlaneConfig spec)) (NodeName spec) nodeToken.

(** The release of an in-place upgrade takes precedence over the specification. *)
Definition snap_for_join machine (spec : CK8sConfigSpec) : gores CloudInit.SnapInstallData :=
  res_map (λ snap, default snap (resolveInPlaceUpgradeRelease machine)) (getSnapInstallDataFromSpec spec).

(** The last steps of the three: the user data is generated and stored. *)
Definition generate_and_store cluster (cloudConfig : prog (gores (CloudInit.CloudConfig CloudInit.any)))
    : CK8sConfig → prog (CK8sConfig * option error) :=
  func_on (
    cloudConfig ← check (callp cloudConfig) Some;
    cloudInitData ← check (mret (CloudInit.GenerateCloudConfig cloudConfig))
      (λ e, Some (wrapf "failed to generate cloud-init" e));
    check_err (calls (storeBootstrapData cluster cloudInitData)) Some ;;
    mret None).

Definition to_machine {R} owner (h : error → R) : body R Machine :=
  check (mret (co_AsMachine owner)) (λ e, h (wrapf ("cannot convert " +:+ co_Kind owner +:+ " to Machine") e)).

(** A failed resolution of the files is reported in a condition. *)
Definition or_report {A R} (p : CK8sConfig → prog (gores A)) (h : error → R) : body R A :=
  config ← get;
  r ← callp (p config);
  match r with
  | Ok a => mret a
  | Err e => mark (generation_failed e) ;; return_ (h e)
  end.

(** ** Joining *)

Definition joinControlplane owner cluster : CK8sConfig → prog (CK8sConfig * option error) :=
  func_on (
    machine ← to_machine owner Some;
    modify (reconcileTopLevelObjectSettings machine) ;;
    nodeToken ← check (callp (Token.EnsureNodeToken (key_of (cl_meta cluster)) (m_Name machine)))
      (λ e, Some (wrapf "failed to generate node token" e));
    config ← get;
    let spec := cfg_Spec config in
    workloadCluster ← check (callp (GetWorkloadCluster (key_of (cl_meta cluster))
        (GetMicroclusterPort (ControlPlaneConfig spec))))
      (λ e, Some (wrapf "failed to create remote cluster client" e));
    joinToken ← check (callp (NewControlPlaneJoinToken workloadCluster (cfg_Name config)))
      (λ e, Some (wrapf "failed to request join token" e));
    let configStruct := NodeConfig.GenerateJoinControlPlaneConfig (NodeConfig.mkJoinInput
      (ep_Host (cl_ControlPlaneEndpoint cluster)) (add_san (cfg_Name config) (ControlPlaneConfig spec))
      (ExtraKubeProxyArgs spec) (ExtraKubeletArgs spec) (ExtraContainerdArgs spec)) in
    joinConfig ← check (mret (Marshal_join configStruct)) Some;
    files ← or_report resolveFiles Some;
    snapInstallData ← check (mret (snap_for_join machine spec))
      (λ e, Some (wrapf "failed to get snap install data from spec" e));
    calls (generate_and_store cluster (CloudInit.NewJoinControlPlane (CloudInit.mkJoinControlPlane
      (base_user_data spec snapInstallData files joinConfig "" nodeToken) joinToken)))).

Definition joinWorker owner cluster : CK8sConfig → prog (CK8sConfig * option error) :=
  func_on (
    machine ← to_machine owner Some;
    modify (reconcileTopLevelObjectSettings machine) ;;
    or_report (λ _, Token.Lookup (key_of (cl_meta cluster))) Some ;;
    nodeToken ← check (callp (Token.EnsureNodeToken (key_of (cl_meta cluster)) (m_Name machine)))
      (λ e, Some (wrapf "failed to generate node token" e));
    config ← get;
    let spec := cfg_Spec config in
    workloadCluster ← check (callp (GetWorkloadCluster (key_of (cl_meta cluster))
        (GetMicroclusterPort (ControlPlaneConfig spec))))
      (λ e, Some (wrapf "failed to create remote cluster client" e));
    joinToken ← check (callp (NewWorkerJoinToken workloadCluster))
      (λ e, Some (wrapf "failed to request join token" e));
    let configStruct := NodeConfig.GenerateJoinWorkerConfig (NodeConfig.mkWorkerInput
      (ExtraKubeProxyArgs spec) (ExtraKubeletArgs spec) (ExtraContainerdArgs spec)
      (ExtraK8sAPIServerProxyArgs spec)) in
    joinConfig ← check (mret (Marshal_worker configStruct)) Some;
    files ← or_report resolveFiles Some;
    snapInstallData ← check (mret (snap_for_join machine spec))
      (λ e, Some (wrapf "failed to get snap install data from spec" e));
    calls (generate_and_store cluster (CloudInit.NewJoinWorker (CloudInit.mkJoinWorker
      (base_user_data spec snapInstallData files joinConfig "" nodeToken) joinToken)))).

(** ** Initialising *)

(** The input of the bootstrap configuration, without the datastore. *)
Definition init_input cluster (spec : CK8sConfigSpec) (certificates : Secrets.Certificates)
    (datastoreType : string) (servers : list string) : NodeConfig.InitControlPlaneConfig :=
  NodeConfig.mkInitInput (ep_Host (cl_ControlPlaneEndpoint cluster)) (ControlPlaneConfig spec) (InitConfig spec)
    certificates datastoreType servers (cl_ClusterNetwork cluster)
    (ExtraKubeProxyArgs spec) (ExtraKubeletArgs spec) (ExtraContainerdArgs spec) (ExtraK8sAPIServerProxyArgs spec).

(** The body of [handleClusterNotInitialized] once the lock is held. *)
Definition initialize cluster machine : CK8sConfig → prog (CK8sConfig * outcome) :=
  let fail e : outcome := (Result0, Some e) in
  func_on (
    modify (reconcileTopLevelObjectSettings machine) ;;
    config ← get;
    let spec := cfg_Spec config in
    r ← callp (Secrets.LookupOrGenerate (Secrets.NewCertificatesForInitialControlPlane spec)
          (key_of (cl_meta cluster)) (NewControllerRef (cfg_meta config) bootstrap_GroupVersion "CK8sConfig"));
    certificates ← match r with
      | Err e => mark (MarkFalse CertificatesAvailableCondition CertificatesGenerationFailedReason
                         SeverityWarning (error_text e)) ;; return_ (fail e)
      | Ok cs => mark (MarkTrue CertificatesAvailableCondition) ;; mret cs
      end;
    authToken ← check (callp (Token.Lookup (key_of (cl_meta cluster)))) fail;
    nodeToken ← check (callp (Token.EnsureNodeToken (key_of (cl_meta cluster)) (m_Name machine)))
      (λ e, fail (wrapf "failed to generate node token" e));
    clusterInitConfig ← (if negb (IsEtcdManaged spec) then
        datastoreServers ← check (callp (resolveSecretReference (cfg_Namespace config)
            (DatastoreServersSecretRef (ControlPlaneConfig spec)))) fail;
        mret (init_input cluster spec certificates (DatastoreType (ControlPlaneConfig spec))
                (GoStrings.Split datastoreServers ","))
      else mret (init_input cluster spec certificates "" []));
    configStruct ← check (mret (NodeConfig.GenerateInitControlPlaneConfig clusterInitConfig)) fail;
    initConfig ← check (mret (Marshal_bootstrap configStruct)) fail;
    files ← or_report resolveFiles fail;
    userSuppliedBootstrapConfig ← or_report resolveUserBootstrapConfig fail;
    ds ← check (mret (K8sdProxy.RenderK8sdProxyDaemonSetManifest
        (K8sdProxy.mkProxyInput (GetMicroclusterPort (ControlPlaneConfig spec)))))
      (λ e, fail (wrapf "failed to render k8sd-proxy daemonset" e));
    snapInstallData ← match getSnapInstallDataFromSpec spec with
      | Err e =>
          mark (MarkFalse SnapInstallDataValidatedCondition SnapInstallValidationFailedReason SeverityError
                  (error_text e)) ;;
          return_ (RequeueNow, Some (wrapf "failed to get snap install data from spec" e))
      | Ok snap => mret snap
      end;
    check_err (calls (generate_and_store cluster (CloudInit.NewInitControlPlane (CloudInit.mkInitControlPlane
      (base_user_data spec snapInstallData files initConfig userSuppliedBootstrapConfig nodeToken)
      authToken ds)))) fail ;;
    mret (Result0, None)).

Definition handleClusterNotInitialized owner cluster : CK8sConfig → prog (CK8sConfig * outcome) :=
  func_on (
    config ← get;
    when (negb (bool_decide (cGetReason (cfg_GetConditions config) DataSecretAvailableCondition =
                             DataSecretGenerationFailedReason)))
      (mark (MarkFalse DataSecretAvailableCondition Clusterv1.WaitingForControlPlaneAvailableReason
               SeverityInfo "")) ;;
    if negb (co_IsControlPlaneMachine owner) then return_ (After (30 * Time.Second), None)
    else
    machine ← to_machine owner (λ e, (Result0, Some e));
    locked ← callp (InitLock.Lock cluster machine);
    if negb locked then return_ (After (30 * Time.Second), None)
    else
    r ← calls (initialize cluster machine);
    match r.2 with
    | None => mret r
    | Some reterr =>
        unlocked ← callp (InitLock.Unlock cluster);
        if (unlocked : bool) then mret r else mret (r.1, NewAggregate [reterr; ErrFailedUnlock])
    end).

(** ** The reconciliation *)

(** The part of [Reconcile] that works on the configuration. *)
Definition reconcile owner cluster : CK8sConfig → prog (CK8sConfig * outcome) :=
  func_on (
    config ← get;
    if negb (cl_InfrastructureReady cluster) then
      mark (MarkFalse DataSecretAvailableCondition WaitingForClusterInfrastructureReason SeverityInfo "") ;;
      return_ (After (1 * Time.Minute), None)
    else if bool_decide (co_DataSecretName owner ≠ None) &&
            (negb (cs_Ready (cfg_Status config)) || bool_decide (cs_DataSecretName (cfg_Status config) = None)) then
      modify (set_ready (co_DataSecretName owner)) ;;
      mark (MarkTrue DataSecretAvailableCondition) ;;
      return_ (Result0, None)
    else if cs_Ready (cfg_Status config) then return_ (Result0, None)
    else if negb (cIsTrue (cl_Conditions cluster) Clusterv1.ControlPlaneInitializedCondition) then
      calls (handleClusterNotInitialized owner cluster)
    else
      callp (InitLock.Unlock cluster) ;;
      err ← calls (if co_IsControlPlaneMachine owner then joinControlplane owner cluster
                   else joinWorker owner cluster);
      mret (Result0, err)).

(** The deferred summary and patch; [before] is the snapshot of the patch helper. *)
Definition reconcile_and_patch owner cluster (before : CK8sConfig) : prog outcome :=
  func_with (
    r ← calls (reconcile owner cluster);
    mark (cSetSummary [DataSecretAvailableCondition; CertificatesAvailableCondition]) ;;
    config ← get;
    p ← call (Patch KCK8sConfig before config);
    match p, r.2 with
    | Err e, None => mret (r.1, Some e)
    | _, _ => mret r
    end) before.

Definition Reconcile (req : ObjectKey) : prog outcome :=
  let fail e : outcome := (Result0, Some e) in
  func (
    r ← call (Get KCK8sConfig req);
    match r with
    | Err e => if IsNotFound e then return_ (Result0, None) else return_ (fail e)
    | Ok config =>
        r ← call (GetConfigOwner config);
        match r with
        | Err e => if IsNotFound e then return_ (Result0, None) else return_ (fail e)
        | Ok None => return_ (Result0, None)
        | Ok (Some owner) =>
            r ← call (GetClusterByName (co_Namespace owner) (co_ClusterName owner));
            match r with
            | Err e => if errors_Is e ErrNoCluster || IsNotFound e then return_ (Result0, None)
                       else return_ (fail e)
            | Ok cluster =>
                if IsPaused cluster (cfg_meta config) then return_ (Result0, None)
                else
                  check (call (NewHelper KCK8sConfig config)) fail ;;
                  callp (reconcile_and_patch owner cluster config)
            end
        end
    end).
End Reconciler.
End ConfigReconcile.

Module ConfigSpec.
Import ConfigReconcile BootstrapConditions.

Section ConfigSpec.
Context `{!ApiErrors, !MetaLib, !ConditionsLib, !K8sdApi, !CertsLib, !CloudInit.CloudInitLib, !RenderLib}.
Implicit Types (config : CK8sConfig) (owner : ConfigOwner) (cluster : Cluster) (machine : Machine) (t : trace).

(** Programs in an environment that answers anything. *)
Abbreviation runs p t Q := (@wp trace panic_env _ p t Q).

(** ** The init lock *)

(** Creating and deleting config maps. *)
Definition on_lock (o : obs) : Prop :=
  match o with Obs (Create KConfigMap _) _ | Obs (Delete KConfigMap _) _ => True | _ => False end.

(** The machine holds the init lock: it has created it, or has read it as its own. *)
Definition acquired cluster machine t : Prop :=
  (∃ cm, Obs (Create KConfigMap (InitLock.setInformation (InitLock.mkInformation (m_Name machine))
           (InitLock.setMetadata cluster InitLock.newSemaphore))) (Ok cm) ∈ t) ∨
  (∃ cm, Obs (Get KConfigMap (InitLock.lock_key cluster)) (Ok cm) ∈ t ∧
     InitLock.meaning (Some cm) = InitLock.Held (m_Name machine)).

(** [t'] goes on from [t] with writes on the lock only. *)
Definition locking t t' : Prop := ∃ d, t' = t ++ d ∧ Forall on_lock (writes d).

Lemma locking_refl t : locking t t.
Proof. exists []. by rewrite app_nil_r. Qed.

Lemma locking_snoc {X} t t' (e : sysE X) x :
  locking t t' → quiet e ∨ on_lock (Obs e x) → locking t (t' ++ [Obs e x]).
Proof.
  intros (d & -> & Hd) Ho. exists (d ++ [Obs e x]). split; [by rewrite (assoc_L (++))|].
  rewrite written. apply Forall_app. split; [done|]. case_decide; [done|].
  destruct Ho as [?|Ho]; [done|]. by constructor.
Qed.

Lemma Unlock_runs cluster t :
  runs (InitLock.Unlock cluster) t (λ t' _, ∃ x d,
    t' = t ++ Obs (Get KConfigMap (InitLock.lock_key cluster)) x :: d ∧ Forall on_lock (writes d)).
Proof.
  unfold InitLock.Unlock. wp_run. apply gwp_call; [done|]. intros x t1 _ Ht1; simpl in Ht1; subst t1.
  destruct x as [cm|e]; wp_run; [|by exists (Err e), []]. apply gwp_call; [done|].
  intros y t1 _ Ht1; simpl in Ht1; subst t1. rewrite <- (assoc_L (++)).
  destruct y as [u|e]; wp_run; exists (Ok cm); eexists; (split; [done|]); by repeat constructor.
Qed.

Lemma locking_trans t t1 t2 : locking t t1 → locking t1 t2 → locking t t2.
Proof.
  intros (d1 & -> & H1') (d2 & -> & H2'). exists (d1 ++ d2). split; [by rewrite (assoc_L (++))|].
  rewrite writes_app. by apply Forall_app.
Qed.

Lemma Unlock_locking cluster t : runs (InitLock.Unlock cluster) t (λ t' _, locking t t').
Proof.
  eapply wp_mono; [apply Unlock_runs|]. intros t' b (x & d & -> & Hd). by exists (Obs (Get KConfigMap (InitLock.lock_key cluster)) x :: d).
Qed.

Lemma Lock_runs cluster machine t :
  runs (InitLock.Lock cluster machine) t (λ t' b, locking t t' ∧ (b = true → acquired cluster machine t')).
Proof.
  unfold InitLock.Lock. wp_run. apply gwp_call; [done|]. intros x t1 _ Ht1; simpl in Ht1; subst t1.
  assert (locking t (t ++ [Obs (Get KConfigMap (InitLock.lock_key cluster)) x])) as Hl
    by (apply locking_snoc; [apply locking_refl|by left]).
  assert (∀ t1, locking t t1 → gwp (S:=unit) (R:=bool) (r ← call (Create KConfigMap
    (InitLock.setInformation (InitLock.mkInformation (m_Name machine))
       (InitLock.setMetadata cluster InitLock.newSemaphore))); mret (is_ok r)) tt t1
    (λ t' _ b, locking t t' ∧ (b = true → acquired cluster machine t'))
    (λ t' _ b, locking t t' ∧ (b = true → acquired cluster machine t'))) as Hc.
  { intros t1 Hl1. wp_run. apply gwp_call; [done|]. intros y t2 _ Ht2; simpl in Ht2; subst t2. wp_run.
    split; [apply locking_snoc; [done|by right]|]. intros Hy. left. destruct y as [cm|e]; [|done].
    exists cm. apply elem_of_app. right. by left. }
  destruct x as [cm|e].
  2: { destruct (IsNotFound e); wp_run; [|done]. by apply Hc. }
  wp_run. destruct (InitLock.information_ cm) as [info|e] eqn:Hi; wp_run; [|done].
  case_bool_decide as Hn; wp_run.
  { split; [done|]. intros _. right. exists cm. split; [apply elem_of_app; right; by left|].
    simpl. by rewrite Hi, Hn. }
  apply gwp_call; [done|]. intros y t1 _ Ht1; simpl in Ht1; subst t1.
  assert (locking t ((t ++ [Obs (Get KConfigMap (InitLock.lock_key cluster)) (Ok cm)]) ++
    [Obs (Get KMachine (mkKey (cl_Namespace cluster) (InitLock.MachineName info))) y])) as Hl1
    by (apply locking_snoc; [done|by left]).
  destruct y as [m|e]; wp_run; [done|..].
  2: done. eapply wp_mono; [apply Unlock_locking|].
  intros t2 b Hl2. wp_run. split; [by eapply locking_trans|done].
Qed.

(** ** What readiness means *)

(** The object is as ready as before, and the same. *)
Record same_readiness config config' : Prop := mkSameReadiness {
  same_meta : cfg_meta config' = cfg_meta config;
  same_ready : cs_Ready (cfg_Status config') = cs_Ready (cfg_Status config);
  same_data : cs_DataSecretName (cfg_Status config') = cs_DataSecretName (cfg_Status config);
}.

#[local] Instance same_readiness_preorder : PreOrder same_readiness.
Proof. split; [by split|]. intros c1 c2 c3 [] []. split; congruence. Qed.

Lemma same_mark f config : same_readiness config (cfg_SetConditions (f (cfg_GetConditions config)) config).
Proof. by destruct config as [? ? []]. Qed.

Lemma same_settings machine config : same_readiness config (reconcileTopLevelObjectSettings machine config).
Proof.
  unfold reconcileTopLevelObjectSettings. destruct (m_Version machine); [|reflexivity].
  case_bool_decide; [|reflexivity]. by destruct config.
Qed.
#[local] Hint Resolve same_mark same_settings : core.

(** The user data is in the secret of the configuration. *)
Definition stored cluster config (data : string) t : Prop :=
  let secret := bootstrap_secret cluster config data in
  (∃ x, Obs (Create KSecret secret) (Ok x) ∈ t) ∨ (∃ x, Obs (Update KSecret secret) (Ok x) ∈ t).

(** The configuration refers to its secret, which holds the user data of an allowed
    node. *)
Definition bootstrapped (allowed : CloudInit.node → Prop) cluster config config' t : Prop :=
  cfg_meta config' = cfg_meta config ∧ cs_DataSecretName (cfg_Status config') = Some (cfg_Name config) ∧
  ∃ n cc data, allowed n ∧ CloudInit.follows n cc ∧ CloudInit.GenerateCloudConfig cc = Ok data ∧
    stored cluster config data t.

Definition same_or_bootstrapped allowed cluster config config' t : Prop :=
  same_readiness config config' ∨ bootstrapped allowed cluster config config' t.

Lemma stored_meta cluster config config' data t :
  cfg_meta config' = cfg_meta config → stored cluster config' data t → stored cluster config data t.
Proof.
  intros Hm. unfold stored, bootstrap_secret, cfg_Name, cfg_Namespace. by rewrite Hm.
Qed.

Lemma same_then allowed cluster config config1 config' t :
  same_readiness config config1 → same_or_bootstrapped allowed cluster config1 config' t →
  same_or_bootstrapped allowed cluster config config' t.
Proof.
  intros Hs [Hs'|(Hm & Hd & n & cc & data & Ha & Hf & Hg & Hst)]; [left; by etrans|right].
  destruct Hs as [Hm1 _ _]. split; [congruence|]. unfold cfg_Name in *. rewrite Hm1 in Hd. split; [done|].
  exists n, cc, data. repeat (split; [done|]). by eapply stored_meta.
Qed.

Lemma storeBootstrapData_runs cluster data config t :
  runs (storeBootstrapData cluster data config) t (λ t' r,
    (r.2 ≠ None ∧ same_readiness config r.1) ∨
    (r.2 = None ∧ cfg_meta r.1 = cfg_meta config ∧ cs_DataSecretName (cfg_Status r.1) = Some (cfg_Name config) ∧
     stored cluster config data t')).
Proof.
  unfold storeBootstrapData, mark. wp_run. apply gwp_call; [done|]. intros x t1 _ Ht1; simpl in Ht1; subst t1.
  destruct x as [u|e]; [|destruct (IsAlreadyExists e); cbn [negb]]; wp_run.
  - right. split; [done|]. split; [by destruct config as [? ? []]|]. split; [by destruct config as [? ? []]|].
    left. exists u. apply elem_of_app. right. by left.
  - apply gwp_call; [done|]. intros x t1 _ Ht1; simpl in Ht1; subst t1. destruct x as [u|e']; wp_run.
    + right. split; [done|]. split; [by destruct config as [? ? []]|]. split; [by destruct config as [? ? []]|].
      right. exists u. apply elem_of_app. right. by left.
    + left. by split.
  - left. by split.
Qed.

(** An attempt at the bootstrap data of an allowed node: on an error the
    configuration is as ready as before. *)
Definition attempted allowed cluster config t config' (err : option error) : Prop :=
  same_or_bootstrapped allowed cluster config config' t ∧ (err ≠ None → same_readiness config config').

Lemma attempted_same allowed cluster config t config' err :
  same_readiness config config' → attempted allowed cluster config t config' err.
Proof. intros Hs. split; [by left|done]. Qed.

Lemma attempted_then allowed cluster config config1 t config' err :
  same_readiness config config1 → attempted allowed cluster config1 t config' err →
  attempted allowed cluster config t config' err.
Proof. intros Hs [Hc He]. split; [by eapply same_then|]. intros Hn. etrans; [done|by apply He]. Qed.

Lemma generate_and_store_runs (allowed : CloudInit.node → Prop) cluster n config t :
  allowed n →
  runs (generate_and_store cluster (CloudInit.cloud_config n) config) t (λ t' r,
    attempted allowed cluster config t' r.1 r.2).
Proof.
  intros Ha. unfold generate_and_store. wp_run.
  eapply wp_mono; [apply panic_reads_post, CloudInit.cloud_config_spec|].
  intros t1 [cc|e] (_ & _ & Hcc); wp_run; [|apply attempted_same; reflexivity].
  destruct (CloudInit.GenerateCloudConfig cc) as [data|e] eqn:Hg; wp_run; [|apply attempted_same; reflexivity].
  eapply wp_mono; [apply storeBootstrapData_runs|].
  intros t2 [c2 err] [[Hn Hs]|(He & Hm & Hd & Hst)]; cbn [fst snd] in *.
  - destruct err as [e|]; [|done]. wp_run. by apply attempted_same.
  - subst err. wp_run. split; [|done]. right. split; [done|]. split; [done|]. by exists n, cc, data.
Qed.

Lemma or_report_runs {A R} (p : CK8sConfig → prog (gores A)) (h : error → R) config t
    (K : trace → CK8sConfig → A → Prop) (Rt : trace → CK8sConfig → R → Prop) :
  (∀ t' a, K t' config a) → (∀ t' config' e, same_readiness config config' → Rt t' config' (h e)) →
  @gwp trace panic_env _ _ _ (or_report p h) config t K Rt.
Proof.
  intros HK HR. unfold or_report, mark. wp_run. eapply wp_mono; [apply trace_extends|].
  intros t1 [a|e] _; wp_run; [apply HK|]. by apply HR.
Qed.

(** A call whose effects on the trace do not matter. *)
Ltac any_answer := eapply wp_mono; [apply trace_extends|]; intros ? [?|?] _; wp_run.

Lemma joinControlplane_runs owner cluster config t :
  runs (joinControlplane owner cluster config) t (λ t' r,
    same_or_bootstrapped (λ n, ∃ i, n = CloudInit.JoinNode i) cluster config r.1 t').
Proof.
  unfold joinControlplane, to_machine. wp_run. destruct (co_AsMachine owner) as [machine|e]; wp_run;
    [|left; reflexivity].
  pose proof (same_settings machine config) as Hs. set (c1 := reconcileTopLevelObjectSettings _ _) in *.
  any_answer; [|by left]. any_answer; [|by left]. any_answer; [|by left].
  destruct (Marshal_join _) as [contents|e]; wp_run; [|by left].
  apply or_report_runs; [|intros t' c' e Hc; left; by etrans]. intros t' files.
  wp_run. destruct (snap_for_join _ _) as [snap|e]; wp_run; [|by left].
  match goal with |- context [CloudInit.NewJoinControlPlane ?i] =>
    change (CloudInit.NewJoinControlPlane i) with (CloudInit.cloud_config (CloudInit.JoinNode i)) end.
  eapply wp_mono; [eapply (generate_and_store_runs (λ n, ∃ i, n = CloudInit.JoinNode i)); eauto|].
  intros t2 [c2 err] [Hc _]. by eapply same_then.
Qed.

Lemma joinWorker_runs owner cluster config t :
  runs (joinWorker owner cluster config) t (λ t' r,
    same_or_bootstrapped (λ n, ∃ i, n = CloudInit.WorkerNode i) cluster config r.1 t').
Proof.
  unfold joinWorker, to_machine. wp_run. destruct (co_AsMachine owner) as [machine|e]; wp_run;
    [|left; reflexivity].
  pose proof (same_settings machine config) as Hs. set (c1 := reconcileTopLevelObjectSettings _ _) in *.
  apply or_report_runs; [|intros t' c' e Hc; left; by etrans]. intros t1 auth. wp_run.
  any_answer; [|by left]. any_answer; [|by left]. any_answer; [|by left].
  destruct (Marshal_worker _) as [contents|e]; wp_run; [|by left].
  apply or_report_runs; [|intros t' c' e Hc; left; by etrans]. intros t' files.
  wp_run. destruct (snap_for_join _ _) as [snap|e]; wp_run; [|by left].
  match goal with |- context [CloudInit.NewJoinWorker ?i] =>
    change (CloudInit.NewJoinWorker i) with (CloudInit.cloud_config (CloudInit.WorkerNode i)) end.
  eapply wp_mono; [eapply (generate_and_store_runs (λ n, ∃ i, n = CloudInit.WorkerNode i)); eauto|].
  intros t2 [c2 err] [Hc _]. by eapply same_then.
Qed.

Lemma initialize_runs cluster machine config t :
  runs (initialize cluster machine config) t (λ t' r,
    attempted (λ n, ∃ i, n = CloudInit.InitNode i) cluster config t' r.1 r.2.2).
Proof.
  unfold initialize. wp_run.
  pose proof (same_settings machine config) as Hs. set (c1 := reconcileTopLevelObjectSettings _ _) in *.
  eapply wp_mono; [apply trace_extends|]. intros t1 [certificates|e] _; unfold mark; wp_run;
    [|apply attempted_same; etrans; [exact Hs|apply same_mark]].
  assert (same_readiness config (cfg_SetConditions (MarkTrue CertificatesAvailableCondition (cfg_GetConditions c1)) c1))
    as Hs2 by (etrans; [exact Hs|apply same_mark]).
  revert Hs2. generalize (cfg_SetConditions (MarkTrue CertificatesAvailableCondition (cfg_GetConditions c1)) c1).
  intros c2 Hs2. any_answer; [|by apply attempted_same]. any_answer; [|by apply attempted_same].
  apply (gwp_mono _ _ _ (λ _ c _, c = c2) _ (λ t' c r,
    attempted (λ n, ∃ i, n = CloudInit.InitNode i) cluster config t' c r.2)).
  { destruct (negb _); wp_run; [|done]. any_answer; [done|by apply attempted_same]. }
  2: done.
  intros t2 ? input ->. wp_run. destruct (NodeConfig.GenerateInitControlPlaneConfig input) as [cfg|e]; wp_run; [|by apply attempted_same].
  destruct (Marshal_bootstrap cfg) as [contents|e]; wp_run; [|by apply attempted_same].
  apply or_report_runs; [|intros t' c' e Hc; apply attempted_same; by etrans]. intros t3 files. wp_run.
  apply or_report_runs; [|intros t' c' e Hc; apply attempted_same; by etrans]. intros t4 user. wp_run.
  destruct (K8sdProxy.RenderK8sdProxyDaemonSetManifest _) as [ds|e]; wp_run; [|by apply attempted_same].
  destruct (getSnapInstallDataFromSpec _) as [snap|e]; wp_run; [|apply attempted_same; etrans; [exact Hs2|apply same_mark]].
  match goal with |- context [CloudInit.NewInitControlPlane ?i] =>
    change (CloudInit.NewInitControlPlane i) with (CloudInit.cloud_config (CloudInit.InitNode i)) end.
  eapply wp_mono; [eapply (generate_and_store_runs (λ n, ∃ i, n = CloudInit.InitNode i)); eauto|].
  intros t5 [c5 [e|]] Hc; wp_run; by eapply attempted_then.
Qed.

(** The trace goes on. *)
Lemma trace_app {A} (p : prog A) t : runs p t (λ t' _, ∃ d, t' = t ++ d).
Proof.
  revert t. induction p as [a|X e k IH]; intros t; simpl; [exists []; by rewrite app_nil_r|].
  split; [done|]. intros x t' _ ->. eapply wp_mono; [apply IH|]. intros t2 a [d ->].
  eexists. by rewrite <- (assoc_L (++)).
Qed.

(** The init lock has been released, or that was the last thing tried. *)
Definition released cluster t : Prop :=
  ∃ d x d', t = d ++ Obs (Get KConfigMap (InitLock.lock_key cluster)) x :: d' ∧ Forall on_lock (writes d').

(** What [handleClusterNotInitialized] does: nothing but contend for the lock, or,
    for a control plane machine that holds it, the initialisation, after which an
    error releases it. *)
Definition initialises owner cluster config config' t (err : option error) : Prop :=
  (same_readiness config config' ∧ Forall on_lock (writes t)) ∨
  ∃ machine t1 t2, t = t1 ++ t2 ∧ co_IsControlPlaneMachine owner = true ∧ co_AsMachine owner = Ok machine ∧
    Forall on_lock (writes t1) ∧ acquired cluster machine t1 ∧ (err ≠ None → released cluster t2) ∧
    same_or_bootstrapped (λ n, ∃ i, n = CloudInit.InitNode i) cluster config config' t.

Lemma outcome_grows allowed cluster config config' t t' :
  extends t t' → same_or_bootstrapped allowed cluster config config' t →
  same_or_bootstrapped allowed cluster config config' t'.
Proof.
  intros He [Hs|(Hm & Hd & n & cc & data & Ha & Hf & Hg & Hst)]; [by left|right].
  split; [done|]. split; [done|]. exists n, cc, data. repeat (split; [done|]).
  destruct Hst as [[x Hx]|[x Hx]]; [left|right]; exists x; by apply He.
Qed.

Lemma initialised owner cluster machine config config0 config' (d d2 d3 : trace) err :
  same_readiness config config0 → co_IsControlPlaneMachine owner = true → co_AsMachine owner = Ok machine →
  Forall on_lock (writes d) → acquired cluster machine d →
  same_or_bootstrapped (λ n, ∃ i, n = CloudInit.InitNode i) cluster config0 config' (d ++ d2) →
  (err ≠ None → released cluster (d2 ++ d3)) →
  initialises owner cluster config config' ((d ++ d2) ++ d3) err.
Proof.
  intros Hs Hcp Hm Hd Ha Hc Hr. right. exists machine, d, (d2 ++ d3).
  split; [by rewrite (assoc_L (++))|]. do 5 (split; [done|]). eapply outcome_grows; [|by eapply same_then].
  intros o Ho. apply elem_of_app. by left.
Qed.

Lemma handleClusterNotInitialized_runs owner cluster config :
  runs (handleClusterNotInitialized owner cluster config) [] (λ t r,
    initialises owner cluster config r.1 t r.2.2).
Proof.
  unfold handleClusterNotInitialized, mark, to_machine. apply wp_func_on, gwp_bind, gwp_get, gwp_bind.
  apply (gwp_mono _ _ _ (λ t c _, t = [] ∧ same_readiness config c) _ (λ _ _ _, False)).
  { destruct (negb _); wp_run; split; first [done|apply same_mark]. }
  2: done.
  intros t c0 _ [-> Hs]. destruct (co_IsControlPlaneMachine owner) eqn:Hcp; cbn [negb]; wp_run; [|by left].
  destruct (co_AsMachine owner) as [machine|e] eqn:Hm; wp_run; [|by left].
  eapply wp_mono; [apply Lock_runs|]. intros t1 [] [(d & -> & Hd) Ha]; cbn [negb]; wp_run; [|by left].
  specialize (Ha eq_refl). eapply wp_mono; [apply wp_and; [apply initialize_runs|apply trace_app]|].
  intros t2 [c2 [res err]] [[Hc _] [d2 ->]]; cbn [fst snd] in *.
  pose proof (λ d3 err, initialised owner cluster machine config c0 c2 d d2 d3 err Hs Hcp Hm Hd Ha Hc) as Hi.
  destruct err as [e|]; wp_run; [|specialize (Hi [] None); rewrite !app_nil_r in Hi; by apply Hi].
  eapply wp_mono; [apply Unlock_runs|]. intros t3 unlocked (x & d3 & -> & Hd3); wp_run.
  destruct unlocked; wp_run; apply Hi; intros _; by exists d2, x, d3.
Qed.

(** C5: the cluster is initialised under the init lock.  As long as the
    control plane is not initialised, a reconciliation writes nothing but the lock
    unless its machine is a control plane machine that holds the lock; only then
    are certificates, tokens and user data written.  When an error is returned
    afterwards, releasing the lock is the last thing that has been tried. *)
Theorem init_under_lock owner cluster config :
  runs (handleClusterNotInitialized owner cluster config) [] (λ t r,
    Forall on_lock (writes t) ∨
    ∃ machine t1 t2, t = t1 ++ t2 ∧ co_IsControlPlaneMachine owner = true ∧ co_AsMachine owner = Ok machine ∧
      Forall on_lock (writes t1) ∧ acquired cluster machine t1 ∧ (r.2.2 ≠ None → released cluster t2)).
Proof.
  eapply wp_mono; [apply handleClusterNotInitialized_runs|].
  intros t r [[_ Hw]|(machine & t1 & t2 & H1' & H2' & H3' & H4' & H5' & H6' & _)]; [by left|right].
  by exists machine, t1, t2.
Qed.

(** The nodes that an owner may become. *)
Definition allowed_node owner cluster t (n : CloudInit.node) : Prop :=
  let initialised := cIsTrue (cl_Conditions cluster) Clusterv1.ControlPlaneInitializedCondition in
  cl_InfrastructureReady cluster = true ∧
  match n with
  | CloudInit.InitNode _ => initialised = false ∧ co_IsControlPlaneMachine owner = true ∧
      ∃ machine, co_AsMachine owner = Ok machine ∧ acquired cluster machine t
  | CloudInit.JoinNode _ => initialised = true ∧ co_IsControlPlaneMachine owner = true
  | CloudInit.WorkerNode _ => initialised = true ∧ co_IsControlPlaneMachine owner = false
  end.

Lemma bootstrapped_weaken (P P' : CloudInit.node → Prop) cluster config config' t :
  (∀ n, P n → P' n) → same_or_bootstrapped P cluster config config' t →
  same_or_bootstrapped P' cluster config config' t.
Proof.
  intros HP [Hs|(Hm & Hd & n & cc & data & Ha & Hf & Hg & Hst)]; [by left|right].
  split; [done|]. split; [done|]. exists n, cc, data. split; [by apply HP|done].
Qed.

(** The object becomes ready with the secret that its owner already has, or with the
    user data of an allowed node. *)
Definition readiness owner cluster config config' t : Prop :=
  (cfg_meta config' = cfg_meta config ∧ co_DataSecretName owner ≠ None ∧
   cs_DataSecretName (cfg_Status config') = co_DataSecretName owner) ∨
  same_or_bootstrapped (allowed_node owner cluster t) cluster config config' t.

Lemma reconcile_runs owner cluster config :
  runs (reconcile owner cluster config) [] (λ t r, readiness owner cluster config r.1 t).
Proof.
  unfold reconcile, mark. wp_run. destruct (cl_InfrastructureReady cluster) eqn:Hi; cbn [negb]; wp_run;
    [|right; left; apply same_mark].
  match goal with |- gwp (match ?x with _ => _ end) _ _ _ _ => destruct x eqn:Heqb end; wp_run.
  { left. apply andb_true_iff in Heqb as [Ho _]. apply bool_decide_eq_true in Ho.
    destruct config as [? ? []]. by split_and!. }
  destruct (cs_Ready (cfg_Status config)); wp_run; [right; left; reflexivity|].
  destruct (cIsTrue _ _) eqn:Hc; cbn [negb]; wp_run.
  - eapply wp_mono; [apply trace_extends|]. intros t1 unlocked _. wp_run.
    destruct (co_IsControlPlaneMachine owner) eqn:Hcp.
    + eapply wp_mono; [apply joinControlplane_runs|]. intros t2 [c2 err] Hr. wp_run. right.
      eapply bootstrapped_weaken; [|exact Hr]. intros n [i ->]. by split_and!.
    + eapply wp_mono; [apply joinWorker_runs|]. intros t2 [c2 err] Hr. wp_run. right.
      eapply bootstrapped_weaken; [|exact Hr]. intros n [i ->]. by split_and!.
  - eapply wp_mono; [apply handleClusterNotInitialized_runs|].
    intros t [c2 r] [[Hs _]|(machine & t1 & t2 & -> & Hcp & Hm & _ & Ha & _ & Hr)]; right; [by left|].
    eapply bootstrapped_weaken; [|exact Hr]. intros n [i ->]. split_and!; try done. exists machine. split; [done|].
    destruct Ha as [[cm Ha]|(cm & Ha & Hh)]; [left|right]; exists cm; [|split; [|done]]; apply elem_of_app; by left.
Qed.

(** C6: a bootstrap configuration is only reported ready when its machine can
    boot.  Each reconciliation patches the object once; when the patched object is
    ready, it was ready before, or its owner already had a data secret, to which it
    now refers, or the secret of its name has been stored with user data that
    follows the kind of node that the machine may become: the first control plane
    node only while the control plane is not initialised and under the init lock, a
    joining one afterwards. *)
Theorem ready_means_bootstrapped owner cluster config :
  runs (reconcile_and_patch owner cluster config) [] (λ t r,
    ∃ config' x, Obs (Patch KCK8sConfig config config') x ∈ t ∧
      (cs_Ready (cfg_Status config') = true → readiness owner cluster config config' t)).
Proof.
  unfold reconcile_and_patch, mark. wp_run. eapply wp_mono; [apply reconcile_runs|].
  intros t1 [c1 r] Hr. cbn [fst snd] in *. wp_run. apply gwp_call; [done|]. intros x t2 _ Ht2; simpl in Ht2.
  set (c2 := cfg_SetConditions _ c1) in *.
  assert (same_readiness c1 c2) as [Hm Hrd Hd] by apply same_mark.
  assert (readiness owner cluster config c2 t2) as Hready.
  { assert (extends t1 t2) as He by (subst t2; apply extends_snoc, extends_refl).
    destruct Hr as [(Hm1 & Ho & Hd1)|[[Hm1 Hr1 Hd1]|(Hm1 & Hd1 & n & cc & data & Ha & Hf & Hg & Hst)]].
    - left. split_and!; congruence.
    - right; left. split; congruence.
    - right; right. split; [congruence|]. split; [congruence|]. exists n, cc, data. split.
      { destruct Ha as [Hi Ha]. split; [done|]. destruct n; try done. destruct Ha as (? & ? & machine & Hma & Ha).
        split_and!; try done. exists machine. split; [done|].
        destruct Ha as [[cm Ha]|(cm & Ha & Hh)]; [left|right]; exists cm; [|split; [|done]]; by apply He. }
      split; [done|]. split; [done|]. destruct Hst as [[y Hy]|[y Hy]]; [left|right]; exists y; by apply He. }
  assert (Obs (Patch KCK8sConfig config c2) x ∈ t2) as Hx by (subst t2; apply elem_of_app; right; by left).
  destruct x as [u|e], r as [res [e'|]]; wp_run; by exists c2, (Ok u) || by exists c2, (Err e).
Qed.

(** ** Releases *)

(** The snap of an accepted request. *)
Definition request_of (snap : CloudInit.SnapInstallData) : k8sd_request :=
  let v := CloudInit.Value snap in
  if bool_decide (CloudInit.Option snap = CloudInit.InstallOptionChannel) then SnapRefreshRequest v "" ""
  else if bool_decide (CloudInit.Option snap = CloudInit.InstallOptionRevision) then SnapRefreshRequest "" v ""
  else SnapRefreshRequest "" "" v.

(** C32: the in-place upgrade and the bootstrap of a joining machine understand
    the same releases.  For a machine with a recorded release and a specification
    whose own snap options are valid: [RefreshMachine] accepts the release as a
    refresh request exactly if the annotation resolves to a snap when the machine
    joins again, and the machine then installs the very snap of the request - the
    same kind of option with the same value - in place of the specification's. *)
Theorem release_equivalence machine spec release request :
  ann (m_meta machine) InPlaceUpgradeReleaseAnnotation = Some release →
  is_ok (getSnapInstallDataFromSpec spec) = true →
  refresh_option release = Ok request ↔
  ∃ snap, resolveInPlaceUpgradeRelease machine = Some snap ∧ snap_for_join machine spec = Ok snap ∧
    request_of snap = request.
Proof.
  intros Ha Hs. unfold snap_for_join, resolveInPlaceUpgradeRelease, refresh_option. rewrite Ha.
  destruct (getSnapInstallDataFromSpec spec) as [snap|e]; [|done].
  destruct (GoStrings.Split release "=") as [|k [|v [|]]]; try (split; [done|by intros (? & ? & _)]).
  repeat case_bool_decide; simpl; split; try (intros [= <-]; by eexists); try (by intros (? & [= <-] & _ & <-)).
Qed.
End ConfigSpec.
End ConfigSpec.

(** ** The first node of a cluster *)

Module ConfigExamples.
Import ConfigReconcile ConfigSpec.

#[local] Instance RefCloudInit : CloudInit.CloudInitLib := {|
  CloudInit.any := string;
  CloudInit.any_string := id;
  CloudInit.yaml_Unmarshal := Ok;
  CloudInit.yaml_Encode c := Ok (pretty (length (CloudInit.RunCommands c)) +:+ " commands");
  CloudInit.ParseSemantic v := if bool_decide (v = "v1.30.0") then Ok (1, 30)%Z else Err (ErrNew "version");
  CloudInit.embedded_script s := "#!/bin/bash";
|}.
#[local] Instance RefRender : RenderLib := {|
  Marshal_bootstrap b := Ok "bootstrap";
  Marshal_join j := Ok "join";
  Marshal_worker w := Ok "worker";
|}.

Definition machine : Machine := machine_named "m".
Definition owner : ConfigOwner := mkConfigOwner "Machine" "ns" "c" true None (Ok machine).
Definition config : CK8sConfig := config_named "m".
Definition token : Secret := mkSecret (meta_named "c-token") (Some {["value" := "t"]}) "".
Definition store : Store := put KCK8sConfig config (put KMachine machine (put KSecret token empty_store)).
Definition world : handler Store := λ X e w,
  match e in sysE X return option (X * Store) with
  | GetConfigOwner _ => Some (Ok (Some owner), w)
  | GetClusterByName _ _ => Some (Ok (cluster_named "c"), w)
  | e => KcpExamples.management _ e w
  end.

Definition secret_value (s : obj KSecret) : string := default "" (Token.data s "value").

(** The first control plane machine gets its user data, and the lock stays with it. *)
Example first_node :
  match run world (Reconcile (mkKey "ns" "m")) store with
  | Some ((r, err), w) =>
      (r, err, secret_value <$> look KSecret w (mkKey "ns" "m"),
       InitLock.meaning (look KConfigMap w (InitLock.lock_key (cluster_named "c"))))
  | None => (Result0, None, None, InitLock.Free)
  end = (Result0, None, Some ("## template: jinja" +:+ CloudInit.newline +:+ "#cloud-config" +:+
           CloudInit.newline +:+ "10 commands"), InitLock.Held "m").
Proof. vm_compute. reflexivity. Qed.

Lemma release_equivalence_witness :
  refresh_option "channel=1.31/stable" = Ok (SnapRefreshRequest "1.31/stable" "" "") ↔
  ∃ snap, resolveInPlaceUpgradeRelease
      (set_m_Annotations (Some {[InPlaceUpgradeReleaseAnnotation := "channel=1.31/stable"]}) machine) = Some snap ∧
    snap_for_join (set_m_Annotations (Some {[InPlaceUpgradeReleaseAnnotation := "channel=1.31/stable"]}) machine)
      empty_spec = Ok snap ∧
    request_of snap = SnapRefreshRequest "1.31/stable" "" "".
Proof. apply release_equivalence; [vm_compute; reflexivity|reflexivity]. Defined.
End ConfigExamples.
