(* ===== verification/ClusterInit.v ===== *)
(** The initialisation of a cluster as a whole: the bootstrap reconciler
    ([ConfigReconcile]) of all control plane machines composed with the init lock
    ([InitLock]).  Every machine is reconciled any number of times, concurrently
    with the others; at most one becomes the first node. *)

From S2P Require Import Prelude Objects ApiTypes Effects Libs RefLibs ApiServer RefServer.
From S2P Require Import Json Secrets InitLock Token Workload NodeConfig CloudInit ControlPlane.
From S2P Require Import Scale KcpSpec ConfigReconcile.

Module ClusterInit.
Import ConfigReconcile ConfigSpec BootstrapConditions InitLock.

(** ** Programs in any environment *)

(** What a program returns in the environment that answers anything, it returns in
    every environment in which it may run. *)
Lemma wp_result {G} `{!Env G} {A} (p : prog A) (Q : A → Prop) t g :
  @wp trace panic_env A p t (λ _ a, Q a) → wp p g (λ _ _, True) → wp p g (λ _ a, Q a).
Proof.
  revert t g. induction p as [a|X e k IH]; intros t g; simpl; [done|].
  intros [_ HQ] [Hp Hk]. split; [done|]. intros x g' Hx Hs.
  by apply (IH x (t ++ [Obs e x])); [apply HQ|apply Hk].
Qed.

(** A program that makes only calls of [P], which keep the invariant [I], keeps it
    whatever the others do. *)
Lemma only_rely_guar {W} `{!Env W} {A} (P : ∀ X, sysE X → Prop) (R Gu : W → W → Prop) (I : W → Prop)
    (p : prog A) w :
  (∀ w w1, I w → R w w1 → I w1) →
  (∀ X (e : sysE X) x w w1, P X e → env_step e x w w1 → I w → I w1 ∧ Gu w w1) →
  only P p → I w → @wp W (rg_env R Gu) A p w (λ w' _, I w').
Proof.
  intros HR HP. unfold only. revert w. induction p as [a|X e k IH]; intros w; simpl; [done|].
  intros [He Hk] Hw. split.
  - intros w1 x w2 H1 _ H2. by eapply HP; [|done|eapply HR].
  - intros x w' Hx (w1 & H1 & H2). apply (IH x w'); [by apply (Hk x tt)|].
    eapply HP; [done|exact H2|]. by eapply HR.
Qed.

(** ** The initialisation writes secrets only *)

Definition secrets_only (X : Type) (e : sysE X) : Prop :=
  match e with
  | Create k _ | Update k _ | MergePatch k _ _ => k = KSecret
  | e => quiet e
  end.

Section Only.
Context `{!ApiErrors, !MetaLib, !ConditionsLib, !K8sdApi, !CertsLib, !CloudInit.CloudInitLib, !RenderLib}.
Implicit Types (config : CK8sConfig) (owner : ConfigOwner) (cluster : Cluster) (machine : Machine).

Lemma reads_secrets_only {A} (p : prog A) Q : reads_post p Q → only secrets_only p.
Proof. apply only_reads. by intros X []. Qed.

Lemma only_generate_one x : only secrets_only (Secrets.Generate_one x).
Proof. eapply reads_secrets_only, Secrets.Generate_one_reads. Qed.
Lemma only_cloud_config n : only secrets_only (CloudInit.cloud_config n).
Proof. eapply reads_secrets_only, CloudInit.cloud_config_spec. Qed.
Lemma only_new_init i : only secrets_only (CloudInit.NewInitControlPlane i).
Proof. apply (only_cloud_config (CloudInit.InitNode i)). Qed.
#[local] Hint Resolve only_generate_one only_new_init : only.

Lemma only_certificates cs ck o : only secrets_only (Secrets.LookupOrGenerate cs ck o).
Proof.
  unfold only, Secrets.LookupOrGenerate, Secrets.Lookup, Secrets.Generate, Secrets.each_certificate,
    Secrets.SaveGenerated, Secrets.Lookup_one. only_run.
Qed.
Lemma only_lookup_token ck : only secrets_only (Token.Lookup ck).
Proof. unfold only, Token.Lookup, Token.getSecret. only_run. Qed.
Lemma only_node_token ck m : only secrets_only (Token.EnsureNodeToken ck m).
Proof.
  unfold only, Token.EnsureNodeToken, Token.LookupNodeToken, Token.getSecret, Token.randomB64. only_run.
Qed.
Lemma only_content ns n k : only secrets_only (secret_content ns n k).
Proof. unfold only, secret_content. only_run. Qed.
Lemma only_secret_reference ns r : only secrets_only (resolveSecretReference ns r).
Proof. apply only_content. Qed.
Lemma only_source ns s : only secrets_only (resolveSecretFileContent ns s).
Proof. apply only_content. Qed.
#[local] Hint Resolve only_source : only.
Lemma only_files config : only secrets_only (resolveFiles config).
Proof. unfold only, resolveFiles. only_run. Qed.
Lemma only_user_config config : only secrets_only (resolveUserBootstrapConfig config).
Proof. unfold only, resolveUserBootstrapConfig. only_run. Qed.
Lemma only_store cluster data config : only secrets_only (storeBootstrapData cluster data config).
Proof. unfold only, storeBootstrapData, ConfigReconcile.mark. only_run. Qed.
#[local] Hint Resolve only_certificates only_lookup_token only_node_token only_secret_reference only_files
  only_user_config only_store : only.

Lemma only_initialize cluster machine config : only secrets_only (initialize cluster machine config).
Proof.
  unfold only, initialize, generate_and_store, or_report, ConfigReconcile.mark. only_run.
Qed.
End Only.

(** ** One machine among the others *)

(** The machines of a cluster that is being initialised: an owner with the
    successive states of its configuration. *)
Abbreviation candidate := (ConfigOwner * list CK8sConfig)%type.

Section Composition.
Context {W : Type} `{!ApiErrors, !MetaLib, !ConditionsLib, !K8sdApi, !CertsLib, !CloudInit.CloudInitLib, !RenderLib,
          !Env W, !ApiServer W}.
Context (cluster : Cluster).
Implicit Types (config : CK8sConfig) (owner : ConfigOwner) (machine : Machine) (w : W).

(** The successive reconciliations of the configuration of one machine, as long as
    it is not ready; between them the object may have changed. *)
Fixpoint attempts owner (configs : list CK8sConfig) : prog bool :=
  match configs with
  | [] => Ret false
  | config :: configs =>
      prog_bind (reconcile owner cluster config) (λ r,
        if cs_Ready (cfg_Status r.1) then Ret true else attempts owner configs)
  end.

(** Calls on secrets, and reads, leave the other objects alone. *)
Lemma secrets_only_frame X (e : sysE X) x w w' :
  secrets_only X e → env_step e x w w' → ∀ k key, k ≠ KSecret → view k w' key = view k w key.
Proof.
  intros He Hs k key Hk. destruct e; simpl in He; try done; try (by eapply api_quiet; [exact Hs|done]).
  all: subst. 1: apply (api_create KSecret) in Hs as [Hs _]. 2: apply (api_update KSecret) in Hs as [Hs _].
  3: apply (api_merge_patch KSecret) in Hs as [Hs _]. all: apply Hs; congruence.
Qed.

Lemma frame_keeps w w' :
  (∀ k key, k ≠ KSecret → view k w' key = view k w key) →
  keeps cluster w w' ∧ state_of cluster w' = state_of cluster w.
Proof.
  intros Hv. assert (state_of cluster w' = state_of cluster w) as Hs by (unfold state_of; by rewrite Hv).
  split; [|done]. unfold keeps, fresh, exists_in. setoid_rewrite Hs. split.
  - intros m. by rewrite Hv.
  - intros Hf. split; [|done]. intros h Hh. rewrite Hv by done. by apply Hf.
Qed.

Lemma rg_env_weaken {A} (R Gu Gu' : W → W → Prop) (p : prog A) w Q :
  (∀ w w', Gu w w' → Gu' w w') → @wp W (rg_env R Gu) A p w Q → @wp W (rg_env R Gu') A p w Q.
Proof.
  intros HG. revert w. induction p as [a|X e k IH]; intros w; simpl; [done|].
  intros [Hp Hk]. split; [eauto|]. intros x w' Hx Hs. apply IH, Hk; done.
Qed.

Section Own.
Context (own : string).

(** The others keep the lock of this machine, and it keeps theirs. *)
Abbreviation relies := (kept cluster (λ h, h = own)).
Abbreviation guarantees := (kept cluster (λ h, h ≠ own)).
Abbreviation among p w Q := (@wp W (rg_env relies guarantees) _ p w Q).

(** The lock is not stale and the machine exists; and the machine holds the lock. *)
Definition sound w : Prop := fresh cluster w ∧ exists_in cluster w own.
Definition holds w : Prop := sound w ∧ state_of cluster w = Held own.

Lemma sound_relies w w' : sound w → relies w w' → sound w'.
Proof. intros [Hf Hm] [He Hk]. destruct (Hk Hf). split; auto. Qed.

Lemma holds_relies w w' : holds w → relies w w' → holds w'.
Proof.
  intros [Hw Hs] Hr. split; [by eapply sound_relies|]. destruct Hw as [Hf _], Hr as [_ Hk].
  by apply (proj2 (Hk Hf)).
Qed.

Lemma holds_secrets X (e : sysE X) x w w' :
  secrets_only X e → env_step e x w w' → holds w → holds w' ∧ guarantees w w'.
Proof.
  intros He Hs [[Hf Hm] Hh]. destruct (frame_keeps w w') as [Hk Hst]; [by eapply secrets_only_frame|].
  split; [|by apply keeps_kept]. destruct Hk as [Hex Hk]. destruct (Hk Hf) as [Hf' _].
  split; [split; auto|]. by rewrite Hst.
Qed.

(** Everything that such a program does keeps the lock from becoming stale. *)
Lemma among_sound {A} (p : prog A) w Q : sound w → among p w Q → among p w (λ w' a, sound w' ∧ Q w' a).
Proof.
  revert w. induction p as [a|X e k IH]; intros w Hw; simpl; [done|]. intros [Hp Hk]. split; [done|].
  intros x w' Hx (w1 & Hr1 & Hs2). pose proof (Hp w1 x w' Hr1 Hx Hs2) as [He Hg].
  destruct (sound_relies _ _ Hw Hr1) as [Hf Hm]. apply IH; [|by apply Hk; [|exists w1]].
  destruct (Hg Hf). split; auto.
Qed.

Lemma Lock_among machine w :
  m_Name machine = own → sound w →
  among (InitLock.Lock cluster machine) w (λ w' b, sound w' ∧ (b = true → holds w')).
Proof.
  intros Hn Hw. destruct Hw as [Hf Hm].
  assert (among (InitLock.Lock cluster machine) w (λ w' b, b = true → state_of cluster w' = Held own)) as Hl.
  { eapply rg_env_weaken; [by apply keeps_kept|]. rewrite <- Hn in Hm.
    eapply wp_mono; [by apply (init_Lock_rg cluster (λ h, h = own))|]. intros w' b Hb. rewrite <- Hn.
    apply Hb. reflexivity. }
  eapply wp_mono; [by apply among_sound, Hl|]. intros w' b [Hs Hb]. split; [done|]. by split; [|apply Hb].
Qed.

Lemma Unlock_among w : holds w → among (InitLock.Unlock cluster) w (λ w' _, sound w').
Proof.
  intros Hw. eapply wp_mono; [apply (among_sound _ _ (λ _ _, True)); [by apply Hw|]|by intros w' b [Hs _]].
  unfold InitLock.Unlock. apply wp_func, gwp_bind, gwp_call.
  { intros w1 x w2 Hr1 _ Hs2. by eapply (holds_secrets _ (Get KConfigMap _)); [|exact Hs2|by eapply holds_relies]. }
  intros x w2 _ (w1 & Hr1 & Hs2). pose proof (proj2 (api_get KConfigMap _ _ _ _ Hs2)) as Hx.
  assert (holds w2) as Hw2
    by (by eapply (holds_secrets _ (Get KConfigMap _)); [|exact Hs2|by eapply holds_relies]).
  destruct x as [cm|e]; [|by apply gwp_ret]. rewrite (view_key _ _ _ _ Hx). apply gwp_bind, gwp_call.
  2: { intros y w4 _ _. by destruct y; apply gwp_ret. }
  intros w3 y w4 Hr3 _ Hs4. destruct (holds_relies _ _ Hw2 Hr3) as [[Hf Hm] Hh].
  pose proof (proj1 (api_delete KConfigMap _ _ _ _ Hs4)) as Hne. apply delete_state in Hs4.
  assert (∀ m, exists_in cluster w3 m → exists_in cluster w4 m) as He
    by (intros m; unfold exists_in; by rewrite Hne).
  split; [done|]. intros _. split.
  - intros h Hh4. destruct Hs4 as [Hs4|[Hs4 _]]; [congruence|]. apply He, Hf. congruence.
  - intros h Hho Hh3. congruence.
Qed.
Lemma initialize_among machine config w :
  holds w → among (initialize cluster machine config) w (λ w' r,
    holds w' ∧ (r.2.2 ≠ None → same_readiness config r.1)).
Proof.
  intros Hw. assert (among (initialize cluster machine config) w (λ w' _, holds w')) as Hi.
  { eapply only_rely_guar; [intros; by eapply holds_relies| |apply only_initialize|done].
    intros X e x w1 w2 He Hs Hh. by eapply holds_secrets. }
  apply wp_and; [done|]. apply (wp_result _ _ []); [|by eapply wp_mono].
  eapply wp_mono; [apply initialize_runs|]. by intros t r [_ He].
Qed.

(** A reconciliation of a machine that is not ready: it is sound to go on afterwards,
    and if the machine has become ready, it holds the lock. *)
Abbreviation first_or_not p w :=
  (among p w (λ w' r, sound w' ∧ (cs_Ready (cfg_Status r.1) = true → holds w'))).

Lemma handle_among owner config w :
  (∀ machine, co_AsMachine owner = Ok machine → m_Name machine = own) → sound w →
  cs_Ready (cfg_Status config) = false →
  first_or_not (handleClusterNotInitialized owner cluster config) w.
Proof.
  intros Hown Hw Hc. unfold handleClusterNotInitialized, ConfigReconcile.mark, to_machine.
  apply wp_func_on, gwp_bind, gwp_get, gwp_bind.
  apply (gwp_mono _ _ _ (λ w' c _, w' = w ∧ same_readiness config c) _ (λ _ _ _, False)).
  { destruct (negb _); wp_run; split; first [done|apply same_mark]. }
  2: done.
  intros w0 c0 _ [-> [_ Hr _]]. assert (cs_Ready (cfg_Status c0) = false) as Hc0 by congruence. clear Hr.
  destruct (co_IsControlPlaneMachine owner); cbn [negb]; wp_run; [|split; [done|congruence]].
  destruct (co_AsMachine owner) as [machine|e] eqn:Hm; wp_run; [|split; [done|congruence]].
  eapply wp_mono; [by apply Lock_among; [apply Hown|]|]. intros w1 [] [Hs1 Hh]; cbn [negb]; wp_run; [|split; [done|congruence]].
  eapply wp_mono; [by apply initialize_among, Hh|]. intros w2 [c2 [res err]] [Hh2 He]; cbn [fst snd] in *.
  destruct err as [e|]; wp_run; [|split; [apply Hh2|done]].
  assert (cs_Ready (cfg_Status c2) = false) as Hc2 by (destruct He as [_ Hr _]; congruence).
  eapply wp_mono; [by apply Unlock_among|]. intros w3 b Hs3; wp_run. destruct b; wp_run; by split; [|congruence].
Qed.

Lemma reconcile_among owner config w :
  (∀ machine, co_AsMachine owner = Ok machine → m_Name machine = own) → sound w →
  cIsTrue (cl_Conditions cluster) Clusterv1.ControlPlaneInitializedCondition = false →
  co_DataSecretName owner = None → cs_Ready (cfg_Status config) = false →
  first_or_not (reconcile owner cluster config) w.
Proof.
  intros Hown Hw Hcl Ho Hc. unfold reconcile, ConfigReconcile.mark. apply wp_func_on, gwp_bind, gwp_get.
  destruct (cl_InfrastructureReady cluster); cbn [negb].
  2: { wp_run. destruct config as [? ? []]. simpl in *. split; [done|congruence]. }
  rewrite bool_decide_false by (rewrite Ho; tauto). cbn [andb]. rewrite Hc, Hcl. cbn [negb].
  apply gwp_calls. eapply wp_mono; [by apply handle_among|]. by intros w1 [c1 r].
Qed.

Lemma attempts_among owner configs w :
  (∀ machine, co_AsMachine owner = Ok machine → m_Name machine = own) → sound w →
  cIsTrue (cl_Conditions cluster) Clusterv1.ControlPlaneInitializedCondition = false →
  co_DataSecretName owner = None → (∀ config, config ∈ configs → cs_Ready (cfg_Status config) = false) →
  among (attempts owner configs) w (λ w' b, sound w' ∧ (b = true → holds w')).
Proof.
  intros Hown Hw Hcl Ho. revert w Hw. induction configs as [|c cs IH]; intros w Hw Hcs; simpl; [done|].
  apply wp_bind. eapply wp_mono; [apply reconcile_among; try done; apply Hcs; by left|].
  intros w1 r [Hs1 Hh]. destruct (cs_Ready (cfg_Status r.1)); [split; [done|]; by intros _; apply Hh|].
  apply IH; [done|]. intros c' Hc'. apply Hcs. by right.
Qed.
End Own.

(** ** The first node *)

Definition named (p : candidate) (m : string) : Prop := ∃ machine, co_AsMachine p.1 = Ok machine ∧ m_Name machine = m.

(** A candidate whose machine exists and that has no user data yet. *)
Record eligible w (p : candidate) : Prop := mkEligible {
  has_machine : ∃ m, named p m ∧ exists_in cluster w m;
  no_data : co_DataSecretName p.1 = None;
  not_ready : ∀ config, config ∈ p.2 → cs_Ready (cfg_Status config) = false;
}.

(** Candidates of different machines. *)
Definition distinct (ps : list candidate) : Prop :=
  ∀ i j p q m, ps !! i = Some p → ps !! j = Some q → named p m → named q m → i = j.

(** The name of the machine of a candidate. *)
Definition name_of (ps : list candidate) (i : nat) : string :=
  match ps !! i with
  | Some p => match co_AsMachine p.1 with Ok machine => m_Name machine | Err _ => "" end
  | None => ""
  end.

Lemma name_of_own ps i p machine :
  ps !! i = Some p → co_AsMachine p.1 = Ok machine → m_Name machine = name_of ps i.
Proof. intros Hp Hm. unfold name_of. by rewrite Hp, Hm. Qed.

Lemma name_of_named ps i p w :
  ps !! i = Some p → eligible w p → named p (name_of ps i) ∧ exists_in cluster w (name_of ps i).
Proof.
  intros Hp [(m & (machine & Hm & Hn) & He) _ _]. pose proof (name_of_own _ _ _ _ Hp Hm) as Ho.
  split; [by exists machine|]. by rewrite <- Ho, Hn.
Qed.

(** A candidate that has become ready holds the lock, whatever the others do. *)
Lemma ready_holds (interf : W → W → Prop) (ps : list candidate) w w' ts' :
  cIsTrue (cl_Conditions cluster) Clusterv1.ControlPlaneInitializedCondition = false →
  (∀ w w', interf w w' → keeps cluster w w') → fresh cluster w →
  (∀ p, p ∈ ps → eligible w p) → distinct ps →
  psteps interf (w, (λ p, attempts p.1 p.2) <$> ps) (w', ts') →
  ∀ i b, ts' !! i = Some (Ret b) → b = true → state_of cluster w' = Held (name_of ps i).
Proof.
  intros Hcl Hi Hf Hps Hdist Hsteps.
  assert (∀ i p, ps !! i = Some p → eligible w p) as Hel
    by (intros i p Hp; by eapply Hps, list_elem_of_lookup_2).
  refine (psteps_rely_guar interf (λ i, kept cluster (λ h, h = name_of ps i)) (λ i, kept cluster (λ h, h ≠ name_of ps i))
    (λ i b w', b = true → state_of cluster w' = Held (name_of ps i)) w _ w' ts' _ _ _ Hsteps).
  - intros i w1 w2 Hw. by apply keeps_kept, Hi.
  - intros i j w1 w2 Hli Hlj Hne [He Hk]. split; [done|]. intros Hf1. destruct (Hk Hf1) as [Hf2 Hh].
    split; [done|]. intros h ->. apply Hh. intros Heq. rewrite length_fmap in Hli, Hlj.
    apply lookup_lt_is_Some in Hli as [p Hp]. apply lookup_lt_is_Some in Hlj as [q Hq].
    destruct (name_of_named _ _ _ _ Hp (Hel _ _ Hp)) as [Hnp _].
    destruct (name_of_named _ _ _ _ Hq (Hel _ _ Hq)) as [Hnq _].
    apply Hne. eapply (Hdist i j p q); [done..|]. by rewrite Heq.
  - intros i t Ht. apply list_lookup_fmap_Some in Ht as (p & -> & Hp).
    destruct (name_of_named _ _ _ _ Hp (Hel _ _ Hp)) as [_ He]. destruct (Hel _ _ Hp) as [_ Hnd Hnr].
    eapply wp_mono; [apply (attempts_among (name_of ps i)); try done; intros machine; by apply name_of_own|].
    intros wk b [_ Hb] w1 Hr1 Hbt. by destruct (holds_relies _ _ _ (Hb Hbt) Hr1).
Qed.

(** C2: a cluster gets one first node.  The machines of a cluster that is not
    initialised are reconciled concurrently, each any number of times and with
    any errors, while nothing else deletes machines or disturbs a held lock, and
    the lock was not stale at the start.  In every interleaving at most one of
    them becomes ready, and that one holds the lock from then on. *)
Theorem one_first_node (interf : W → W → Prop) (ps : list candidate) w w' ts' :
  cIsTrue (cl_Conditions cluster) Clusterv1.ControlPlaneInitializedCondition = false →
  (∀ w w', interf w w' → keeps cluster w w') → fresh cluster w →
  (∀ p, p ∈ ps → eligible w p) → distinct ps →
  psteps interf (w, (λ p, attempts p.1 p.2) <$> ps) (w', ts') →
  ∀ i p, ps !! i = Some p → ts' !! i = Some (Ret true) →
    (∃ m, named p m ∧ state_of cluster w' = Held m) ∧
    ∀ j, ts' !! j = Some (Ret true) → j = i.
Proof.
  intros Hcl Hi Hf Hps Hdist Hsteps i p Hp Ht.
  assert (∀ i p, ps !! i = Some p → named p (name_of ps i)) as Hname.
  { intros i' p' Hp'. by eapply name_of_named, Hps, list_elem_of_lookup_2. }
  pose proof (ready_holds _ _ _ _ _ Hcl Hi Hf Hps Hdist Hsteps) as Hheld.
  pose proof (Hheld i true Ht eq_refl) as Hs. split; [exists (name_of ps i); by split; [apply Hname|]|].
  intros j Hj. pose proof (Hheld j true Hj eq_refl) as Hs'.
  assert (is_Some (ps !! j)) as [q Hq].
  { pose proof (psteps_length _ _ _ _ _ Hsteps) as Hl. rewrite length_fmap in Hl.
    apply lookup_lt_is_Some. rewrite <- Hl. by eapply lookup_lt_Some. }
  eapply (Hdist j i q p (name_of ps j)); [done..|by apply Hname|].
  replace (name_of ps j) with (name_of ps i) by congruence. by apply Hname.
Qed.
End Composition.
End ClusterInit.

(** ** Two machines *)

Module ClusterInitExamples.
Import ConfigReconcile ConfigSpec ClusterInit InitLock.

#[local] Existing Instances ConfigExamples.RefCloudInit ConfigExamples.RefRender.

Definition candidate_named (n : string) : candidate :=
  (mkConfigOwner "Machine" "ns" "c" true None (Ok (machine_named n)), [config_named n; config_named n]).
Definition candidates : list candidate := [candidate_named "a"; candidate_named "b"].
Definition store : Store :=
  put KMachine (machine_named "a") (put KMachine (machine_named "b") (put KSecret ConfigExamples.token empty_store)).
Definition pool : list (prog bool) := (λ p, attempts (cluster_named "c") p.1 p.2) <$> candidates.

(** Both look for the lock; [b] creates it first and goes on to its user data, while
    [a] tries twice in vain. *)
Definition schedule : list nat := [0; 1; 1; 0] ++ [0; 0] ++ replicate 17 1.

#[local] Instance the_env : Env Store := server_env KcpExamples.crypto.

Lemma crypto_ok X (e : sysE X) w x w' : KcpExamples.crypto X e w = Some (x, w') → lang_ok e x.
Proof. destruct e; try done. cbn. by intros [= <- _]. Qed.

Lemma one_first_node_witness :
  outcomes KcpExamples.crypto schedule store pool = Some [Some false; Some true] ∧
  ∃ w' ts', psteps (λ w w', w' = w) (store, pool) (w', ts') ∧ ts' !! 1 = Some (Ret true) ∧
    (∃ m, named (candidate_named "b") m ∧ state_of (cluster_named "c") w' = Held m) ∧
    ∀ j, ts' !! j = Some (Ret true) → j = 1.
Proof.
  assert (outcomes KcpExamples.crypto schedule store pool = Some [Some false; Some true]) as Ho
    by (vm_compute; reflexivity).
  split; [done|]. destruct (outcomes_psteps _ crypto_ok _ _ _ _ (λ w w', w' = w) Ho) as (w' & ts' & Hs & _ & Ht).
  exists w', ts'. split; [done|]. split; [by apply Ht|].
  eapply (one_first_node (cluster_named "c") (λ w w', w' = w) candidates store w' ts'); [..|exact Hs|reflexivity|by apply Ht].
  - reflexivity.
  - intros w1 w2 ->. apply keeps_refl.
  - intros h. assert (state_of (cluster_named "c") store = Free) as -> by (vm_compute; reflexivity). discriminate.
  - intros p Hp. apply elem_of_cons in Hp as [->|Hp]; [|apply list_elem_of_singleton in Hp as ->];
      (split; [|done|intros config [->|[->|[]%elem_of_nil]%elem_of_cons]%elem_of_cons; done]).
    + exists "a". split; [exists (machine_named "a"); split; reflexivity|]. exists (machine_named "a"). vm_compute. reflexivity.
    + exists "b". split; [exists (machine_named "b"); split; reflexivity|]. exists (machine_named "b"). vm_compute. reflexivity.
  - intros [|[|i]] [|[|j]] p q m; simpl; intros [= <-] [= <-] (ma & [= <-] & <-) (mb & [= <-] & Hb); done.
Defined.
End ClusterInitExamples.
