(* ===== verification/MachineHook.v ===== *)
(** src/controlplane/controllers/machine_controller.go: the pre-terminate hook of a
    control plane machine, which keeps Cluster API from terminating the machine
    until this controller removes it. *)

From S2P Require Import Prelude Objects ApiTypes Effects Libs RefLibs ApiServer RefServer Inplace Scale.

Module MachineHook.
Import Clusterv1.

(** The machine carries the hook of this provider. *)
Definition hooked `{!MetaLib} (m : Machine) : bool :=
  HasWithPrefix PreTerminateDeleteHookAnnotationPrefix (om_Annotations (m_meta m)) &&
  bool_decide (ann0 (m_meta m) PreTerminateDeleteHookAnnotationPrefix = ck8sHookName).

(** [delete(mAnnotations, ...)] and [m.SetAnnotations(mAnnotations)] *)
Definition unhook (m : Machine) : Machine :=
  set_m_Annotations (delete PreTerminateDeleteHookAnnotationPrefix <$> om_Annotations (m_meta m)) m.

(** [func (r *MachineReconciler) Reconcile] *)
Definition Reconcile `{!ApiErrors, !MetaLib} (req : ObjectKey) : prog outcome :=
  func (
    m ← catch (call (Get KMachine req))
          (λ err, if IsNotFound err then return_ (Result0, None) else return_ (Result0, Some err));
    if negb (deleting (m_meta m)) then return_ (Result0, None)
    else
      when (hooked m) (
        when (negb (cIsFalse (m_Conditions m) PreTerminateDeleteHookSucceededCondition))
          (return_ (Result0, None)) ;;
        check (call (NewHelper KMachine m))
          (λ e, (Result0, Some (wrapf "failed to create patch helper for machine" e))) ;;
        check (call (Patch KMachine m (unhook m)))
          (λ e, (Result0, Some (wrapf "failed to patch machine" e))) ;;
        mret tt) ;;
      mret (Result0, None)).

Section Spec.
Context {W : Type} `{!ApiErrors, !MetaLib, !Env W, !ApiServer W}.
Implicit Types (m : Machine) (w : W).

(** Cluster API has drained the machine and waits for its hooks. *)
Definition awaited m : bool :=
  deleting (m_meta m) && hooked m && cIsFalse (m_Conditions m) PreTerminateDeleteHookSucceededCondition.

Lemma ann_unhook m key :
  ann (m_meta (unhook m)) key =
  if decide (key = PreTerminateDeleteHookAnnotationPrefix) then None else ann (m_meta m) key.
Proof.
  unfold unhook, set_m_Annotations, ann. rewrite meta_set_m, annotations_set.
  destruct (om_Annotations (m_meta m)) as [a|]; simpl; case_decide as Hk; try done.
  - subst. apply lookup_delete_eq.
  - by apply lookup_delete_ne.
Qed.

Lemma key_unhook m : obj_key KMachine (unhook m) = obj_key KMachine m.
Proof. by destruct m as [[]]. Qed.

(** The hook is removed when and only when Cluster API waits for it.  A
    reconciliation touches the requested machine only; without error it leaves
    everything as it is unless the machine is being deleted, carries this
    provider's hook and waits for its hooks, and then the stored machine has
    lost the hook and kept every other annotation. *)
Theorem hook_released req w :
  wp (Reconcile req) w (λ w' r,
    frame KMachine req w w' ∧ r.1 = Result0 ∧
    (r.2 = None →
     match view KMachine w req with
     | Some m =>
         if awaited m then
           ∃ m', view KMachine w' req = Some m' ∧ ∀ key,
             ann (m_meta m') key =
             if decide (key = PreTerminateDeleteHookAnnotationPrefix) then None else ann (m_meta m) key
         else same_view w w'
     | None => same_view w w'
     end)).
Proof.
  unfold Reconcile. wp_run. apply gwp_call; [by apply api_pre|]. intros x w1 _ Hg.
  apply (api_get KMachine) in Hg as [Hv Hx]. assert (frame KMachine req w w1) as Hf by (intros k key _; apply Hv).
  assert (same_view w w1) as Hsame by exact Hv.
  destruct x as [m|e]; wp_run.
  2: { destruct (IsNotFound e) eqn:He; wp_run; [|done]. by rewrite (Hx eq_refl). }
  rewrite Hx. unfold awaited.
  destruct (deleting (m_meta m)); cbn [negb andb]; [|by wp_run].
  destruct (hooked m) eqn:Hh; cbn [andb]; [|by wp_run].
  destruct (cIsFalse _ _); cbn [negb]; wp_run; try done.
  apply gwp_call; [by apply api_pre|]. intros x w2 _ Hq. pose proof (api_quiet _ _ _ _ Hq I) as Hv2.
  assert (frame KMachine req w w2) as Hf2 by (intros k key _; by rewrite Hv2, Hv).
  destruct x as [u|e]; wp_run; [|done]. apply gwp_call; [by apply api_pre|]. intros x w3 _ Hp.
  apply (api_patch KMachine) in Hp as [Hf3 Hp]. pose proof (view_key _ _ _ _ Hx) as Hk.
  rewrite key_unhook, Hk in Hf3, Hp.
  assert (frame KMachine req w w3) as Hf4 by (intros k key Hne; by rewrite Hf3, Hf2).
  destruct x as [[]|e]; wp_run; [|done]. split_and!; [done|done|]. intros _.
  destruct Hp as (o & o' & Ho & Ho' & Hm). rewrite Hv2, Hv, Hx in Ho. injection Ho as <-.
  exists o'. split; [done|]. intros key. pose proof (Hm key) as Hkey. simpl in Hkey. rewrite Hkey, ann_unhook.
  repeat case_decide; try done; congruence.
Qed.
End Spec.
End MachineHook.

Module MachineHookExamples.
Import MachineHook.

(** A machine that is drained and only waits for the hook, and one that still is
    being drained. *)
Definition hooked_machine (conditions : Conditions) : Machine :=
  mkMachine (mkMeta "m" "ns" "u" ∅ (Some {[Clusterv1.PreTerminateDeleteHookAnnotationPrefix := "ck8s"; "a" := "b"]})
    [] [] 0 (Some 5%Z)) "c" None (mkRef "" "" "" "" "") None None None None None None conditions.
Definition drained : Machine :=
  hooked_machine (MarkFalse Clusterv1.PreTerminateDeleteHookSucceededCondition "WaitingExternalHook" SeverityInfo "" []).

Definition server : handler Store := serve (λ X e w,
  match e in sysE X return option (X * Store) with
  | NewHelper _ _ => Some (Ok tt, w)
  | _ => None
  end).

Definition annotations_after (m : Machine) : option (list (string * string)) :=
  match run server (Reconcile (mkKey "ns" "m"))
          (upd KMachine (mkKey "ns" "m") (Some m) (λ _, ∅)) with
  | Some (_, w) => m' ← look KMachine w (mkKey "ns" "m"); map_to_list <$> om_Annotations (m_meta m')
  | None => None
  end.

Example hook_removed : annotations_after drained = Some [("a", "b")].
Proof. vm_compute. reflexivity. Qed.
Example hook_kept :
  annotations_after (hooked_machine []) =
  map_to_list <$> om_Annotations (m_meta (hooked_machine [])).
Proof. vm_compute. reflexivity. Qed.
End MachineHookExamples.
