(* ===== verification/Webhook.v ===== *)
(** The admission webhooks: src/controlplane/api/v1beta2/ck8scontrolplane_webhook.go and
    src/bootstrap/api/v1beta2/ck8sconfig_webhook.go and ck8sconfigtemplate_webhook.go.
    A webhook is given a [runtime.Object], which may be of any type, and changes it
    in place. *)

From S2P Require Import Prelude Objects ApiTypes Effects Libs RefLibs Duration.
From S2P Require Import Secrets Kubeconfig Workload MachineFilters ControlPlane Scale KcpReconcile Rollout.

(** [runtime.Object] and its dynamic type, as [%T] prints it. *)
Definition Object : Type := sigT obj.
Definition go_type (k : kind) : string :=
  match k with
  | KMachine => "*v1beta1.Machine"
  | KCluster => "*v1beta1.Cluster"
  | KSecret => "*v1.Secret"
  | KConfigMap => "*v1.ConfigMap"
  | KCK8sConfig => "*v1beta2.CK8sConfig"
  | KControlPlane => "*v1beta2.CK8sControlPlane"
  | KMachineDeployment => "*v1beta1.MachineDeployment"
  | KMachineSet => "*v1beta1.MachineSet"
  | KNode => "*v1.Node"
  end.

Module ControlPlaneWebhook.
(** [func defaultRolloutStrategy]; the argument is [s.RolloutStrategy], changed in
    place when it is set. *)
Definition defaultRolloutStrategy (rolloutStrategy : option RolloutStrategy) : RolloutStrategy :=
  let ios1 := IntVal 1 in
  let rolloutStrategy := default (mkRolloutStrategy None) rolloutStrategy in
  match rs_RollingUpdate rolloutStrategy with
  | None =>
      let update := mkRollingUpdate None in
      mkRolloutStrategy (Some (mkRollingUpdate (Some (default ios1 (MaxSurge update)))))
  | Some _ => rolloutStrategy
  end.

Definition set_ref_Namespace (ns : string) (r : ObjectReference) : ObjectReference :=
  match r with mkRef a k _ n u => mkRef a k ns n u end.

(** [s.MachineTemplate.InfrastructureRef.Namespace = namespace] *)
Definition default_namespace (namespace : string) (t : CK8sControlPlaneMachineTemplate)
    : CK8sControlPlaneMachineTemplate :=
  match t with
  | mkMachineTemplate l a ref d v n =>
      mkMachineTemplate l a
        (if bool_decide (ref_Namespace ref = "") then set_ref_Namespace namespace ref else ref) d v n
  end.

(** [func defaultCK8sControlPlaneSpec] *)
Definition defaultCK8sControlPlaneSpec (s : CK8sControlPlaneSpec) (namespace : string) : CK8sControlPlaneSpec :=
  mkControlPlaneSpec (Some (default 1%Z (Replicas s))) (kcp_Version s) (kcp_CK8sConfigSpec s) (RolloutAfter s)
    (default_namespace namespace (MachineTemplate s)) (kcp_RemediationStrategy s)
    (Some (defaultRolloutStrategy (kcp_RolloutStrategy s))).

(** [func (in *CK8sControlPlane) Default]; the [BadRequest] status error carries this
    message. *)
Definition Default (o : Object) : Object * option error :=
  match o with
  | existT KControlPlane c =>
      (existT KControlPlane (set_kcp_Spec (defaultCK8sControlPlaneSpec (kcp_Spec c) (kcp_Namespace c)) c), None)
  | existT k _ =>
      (o, Some (ErrStatus (OtherReason "BadRequest") ("expected a KubeadmConfig but got a " +:+ go_type k)))
  end.

Definition ValidateCreate (o : Object) : list string * option error := ([], None).
Definition ValidateUpdate (old new : Object) : list string * option error := ([], None).
Definition ValidateDelete (o : Object) : list string * option error := ([], None).

Section Spec.
Context `{!ApiErrors, !CollectionsLib, !MetaLib, !SchemaLib, !ConditionsLib, !K8sdApi}.
Implicit Types (c : CK8sControlPlane) (s : CK8sControlPlaneSpec).

Definition defaulted c : CK8sControlPlane :=
  set_kcp_Spec (defaultCK8sControlPlaneSpec (kcp_Spec c) (kcp_Namespace c)) c.

(** The user's rolling update has no maximal surge. *)
Definition surge_missing s : Prop :=
  kcp_RolloutStrategy s = Some (mkRolloutStrategy (Some (mkRollingUpdate None))).

(** The surge that the user asked for. *)
Definition wanted_surge s : option IntOrString :=
  strategy ← kcp_RolloutStrategy s; update ← rs_RollingUpdate strategy; MaxSurge update.

(** The same infrastructure, in a namespace that is set. *)
Definition same_infrastructure (ns : string) (t t' : CK8sControlPlaneMachineTemplate) : Prop :=
  let ref := mt_InfrastructureRef t in
  let ref' := mt_InfrastructureRef t' in
  t' = default_namespace ns t ∧
  (ref_APIVersion ref', ref_Kind ref', ref_Name ref', ref_UID ref') =
    (ref_APIVersion ref, ref_Kind ref, ref_Name ref, ref_UID ref) ∧
  ref_Namespace ref' = (if decide (ref_Namespace ref = "") then ns else ref_Namespace ref).

Lemma default_namespace_same ns t : same_infrastructure ns t (default_namespace ns t).
Proof.
  destruct t as [l a [ra k n nm u] d v nd]. unfold same_infrastructure, default_namespace; simpl.
  case_bool_decide as Hn; case_decide; done.
Qed.

Lemma default_namespace_idemp ns t : default_namespace ns (default_namespace ns t) = default_namespace ns t.
Proof.
  destruct t as [l a [ra k n nm u] d v nd]. unfold default_namespace; simpl.
  repeat (case_bool_decide; simpl in * ); congruence.
Qed.

Lemma defaultRolloutStrategy_idemp o :
  defaultRolloutStrategy (Some (defaultRolloutStrategy o)) = defaultRolloutStrategy o.
Proof. by destruct o as [[[u|]]|]. Qed.

Lemma defaulted_idemp c : defaulted (defaulted c) = defaulted c.
Proof.
  unfold defaulted, defaultCK8sControlPlaneSpec. destruct c as [mt [r v cs ra t rs ro] st]; simpl.
  by rewrite default_namespace_idemp, defaultRolloutStrategy_idemp.
Qed.

(** C35: a defaulted control plane is well formed.  The webhook accepts
    every control plane and changes a second time nothing; it sets one replica
    and a surge of one machine where the user gave none, puts the infrastructure
    into the namespace of the control plane, and keeps everything that the user
    set.  Every field that a rollout dereferences is then set, unless the user
    gave a rolling update without a surge. *)
Theorem defaults_complete c :
  let s := kcp_Spec c in
  let s' := kcp_Spec (defaulted c) in
  Default (existT KControlPlane c) = (existT KControlPlane (defaulted c), None) ∧
  Default (existT KControlPlane (defaulted c)) = (existT KControlPlane (defaulted c), None) ∧
  kcp_meta (defaulted c) = kcp_meta c ∧ kcp_Status (defaulted c) = kcp_Status c ∧
  (kcp_Version s', kcp_CK8sConfigSpec s', RolloutAfter s', kcp_RemediationStrategy s') =
    (kcp_Version s, kcp_CK8sConfigSpec s, RolloutAfter s, kcp_RemediationStrategy s) ∧
  same_infrastructure (kcp_Namespace c) (MachineTemplate s) (MachineTemplate s') ∧
  (surge_missing s ↔ Rollout.target_of s' = None) ∧
  (¬ surge_missing s → Rollout.target_of s' =
     Some (Rollout.mkTarget (default 1%Z (Replicas s))
             (Some (IntValue (default (IntVal 1) (wanted_surge s)))))).
Proof.
  cbv zeta. split; [done|]. split; [exact (f_equal (λ c, (existT KControlPlane c, None)) (defaulted_idemp c))|].
  unfold surge_missing, wanted_surge, Rollout.target_of.
  destruct c as [mt [r v cs ra t rs ro] st]; simpl. split_and!; try done.
  - apply default_namespace_same.
  - destruct ro as [[[[[[z|z]|]]|]]|]; naive_solver.
  - destruct ro as [[[[[[z|z]|]]|]]|]; naive_solver.
Qed.

(** A rolling update without a surge is kept as it is, and the rollout of such a
    control plane panics. *)
Lemma surge_missing_panics outdated (c : ControlPlane) :
  surge_missing (kcp_Spec (KCP c)) →
  ∃ k, KcpReconcile.upgradeControlPlane outdated (set_KCP (defaulted (KCP c)) c) =
       Vis (Panic "nil pointer dereference") k.
Proof.
  intros Hs. unfold KcpReconcile.upgradeControlPlane, surge_missing, defaulted in *.
  destruct c as [[mt [r v cs ra t rs ro] st]]; simpl in *; subst ro. by eexists.
Qed.
End Spec.
End ControlPlaneWebhook.

(** The webhooks of the bootstrap configurations accept everything and change
    nothing. *)
Module ConfigWebhook.
Definition ValidateCreate (o : Object) : list string * option error := ([], None).
Definition ValidateUpdate (old new : Object) : list string * option error := ([], None).
Definition ValidateDelete (o : Object) : list string * option error := ([], None).
Definition Default (o : Object) : Object * option error := (o, None).
End ConfigWebhook.

Module ConfigTemplateWebhook.
Definition ValidateCreate (o : Object) : list string * option error := ([], None).
Definition ValidateUpdate (old new : Object) : list string * option error := ([], None).
Definition ValidateDelete (o : Object) : list string * option error := ([], None).
Definition Default (o : Object) : Object * option error := (o, None).
End ConfigTemplateWebhook.
