(* ===== verification/Managers.v ===== *)
(** The two programs, src/bootstrap/main.go and src/controlplane/main.go, and the
    [SetupWithManager] methods of the controllers: which controllers a manager runs,
    with what, and which changes wake them. *)

From S2P Require Import Prelude Objects ApiTypes Effects Libs RefLibs ApiServer RefServer ControlPlane Scale KcpReconcile.

Module Managers.

(** ** Flags, options and schemes *)

(** The variables of [main] that flags set, and their defaults. *)
Record Flags := mkFlags {
  metricsAddr : string;
  enableLeaderElection : bool;
  syncPeriod : Z;
  k8sdDialTimeout : Z;
}.
Definition default_flags : Flags := mkFlags ":8080" false (10 * Time.Minute) (60 * Time.Second).

(** The packages whose types a manager knows. *)
Inductive api_package := ClientGo | ClusterV1beta1 | ExpV1beta1 | BootstrapV1 | ControlPlaneV1.
Definition bootstrap_scheme : list api_package := [ClientGo; ClusterV1beta1; ExpV1beta1; BootstrapV1].
Definition controlplane_scheme : list api_package :=
  [ClientGo; ClusterV1beta1; ExpV1beta1; BootstrapV1; ControlPlaneV1].

(** [ctrl.Options], as far as they are set. *)
Record Options := mkOptions {
  Scheme : list api_package;
  Metrics_BindAddress : string;
  WebhookServer_Port : Z;
  LeaderElection : bool;
  LeaderElectionID : string;
  Cache_SyncPeriod : Z;
  SkipNameValidation : bool;
}.

(** ** Controllers *)

(** What [ctrl.NewControllerManagedBy] is told: the kind that is reconciled, the kinds
    that it owns, and whether clusters are watched through [ClusterToCK8sControlPlane]. *)
Record Builder := mkBuilder {
  b_For : kind;
  b_Owns : list kind;
  b_WatchesCluster : bool;
}.

(** [type Management struct] *)
Record Management := mkManagement { mg_K8sdDialTimeout : Z }.

Inductive reconciler_type :=
  | CK8sConfigReconciler | InPlaceUpgradeReconciler | CertificatesReconciler
  | MDOrchestratedInPlaceUpgradeController | CK8sControlPlaneReconciler | MachineReconciler
  | CPOrchestratedInPlaceUpgradeController.

(** The fields that the reconcilers depend on; a struct has those that it uses. *)
Record Reconciler := mkReconciler {
  r_type : reconciler_type;
  r_K8sdDialTimeout : Z;
  r_recorder : option string;
  r_managementCluster : option Management;
  r_managementClusterUncached : option Management;
  r_machineGetter : option Management;
  r_CK8sInitLock : bool;
  r_lock : bool;
}.

(** [&controllers.X{...}]: absent fields are zero. *)
Definition new_reconciler (t : reconciler_type) (timeout : Z) : Reconciler :=
  mkReconciler t timeout None None None None false false.

Definition set_recorder (x : string) (r : Reconciler) : Reconciler :=
  match r with mkReconciler t d _ a b c e f => mkReconciler t d (Some x) a b c e f end.
Definition set_machineGetter (x : Management) (r : Reconciler) : Reconciler :=
  match r with mkReconciler t d r a b _ e f => mkReconciler t d r a b (Some x) e f end.
Definition set_CK8sInitLock (r : Reconciler) : Reconciler :=
  match r with mkReconciler t d r a b c _ f => mkReconciler t d r a b c true f end.
Definition set_lock (r : Reconciler) : Reconciler :=
  match r with mkReconciler t d r a b c e _ => mkReconciler t d r a b c e true end.

(** [if r.managementCluster == nil { r.managementCluster = &ck8s.Management{...} }] and
    the same for the uncached one. *)
Definition default_managementCluster (r : Reconciler) : Reconciler :=
  match r with
  | mkReconciler t d r None b c e f => mkReconciler t d r (Some (mkManagement d)) b c e f
  | r => r
  end.
Definition default_managementClusterUncached (r : Reconciler) : Reconciler :=
  match r with
  | mkReconciler t d r a None c e f => mkReconciler t d r a (Some (mkManagement d)) c e f
  | r => r
  end.

Definition machine_builder : Builder := mkBuilder KMachine [] false.
Definition CK8sConfig_builder : Builder := mkBuilder KCK8sConfig [] false.
Definition MDOrchestrated_builder : Builder := mkBuilder KMachineDeployment [KMachine] false.
Definition CK8sControlPlane_builder : Builder := mkBuilder KControlPlane [KMachine] true.
Definition CPOrchestrated_builder : Builder := mkBuilder KControlPlane [KMachine] false.

(** The kinds that have webhooks. *)
Inductive webhook_kind := WCK8sConfig | WCK8sConfigTemplate | WCK8sControlPlane.

(** A change of a stored object that the manager is told of. *)
Inductive event := Changed (k : kind) (o : obj k).

(** The calls of controller-runtime that may fail, with their errors, and the
    requests that an event leads to. *)
Class ControllerRuntime := {
  NewManager : Options → option error;
  Complete : Builder → option error;
  WebhookComplete : webhook_kind → option error;
  StartManager : option error;
  ParseGroup : string → string;
  requests : Builder → event → list ObjectKey;
}.

Section Setup.
Context `{!ControllerRuntime}.

(** The methods have the reconciler with the fields that they set, and what has been
    registered unless there was an error. *)
Abbreviation setup := (Reconciler * option error)%type.

(** [if err := ...; err != nil { return err }] *)
Definition completed (b : Builder) (wrap : error → error) (r : Reconciler) (k : Reconciler → Reconciler) : setup :=
  match Complete b with Some e => (r, Some (wrap e)) | None => (k r, None) end.

Definition CK8sConfigReconciler_SetupWithManager (r : Reconciler) : setup :=
  let r := if r_CK8sInitLock r then r else set_CK8sInitLock r in
  let r := default_managementCluster r in
  (r, Complete CK8sConfig_builder).

Definition InPlaceUpgradeReconciler_SetupWithManager (r : Reconciler) : setup :=
  completed machine_builder (wrapf "failed setting up with a controller manager") r (λ r,
    let r := set_recorder "ck8s-in-place-upgrade-controller" r in
    default_managementCluster r).

Definition CertificatesReconciler_SetupWithManager (r : Reconciler) : setup :=
  completed machine_builder id r (λ r,
    let r := set_recorder "ck8s-certificates-controller" r in
    default_managementCluster r).

Definition MDOrchestrated_SetupWithManager (r : Reconciler) : setup :=
  let r := set_recorder "ck8s-md-orchestrated-inplace-upgrade-controller" r in
  let r := match r_machineGetter r with None => set_machineGetter (mkManagement 0) r | Some _ => r end in
  completed MDOrchestrated_builder (wrapf "failed to get new controller builder") r id.

Definition CK8sControlPlaneReconciler_SetupWithManager (r : Reconciler) : setup :=
  completed CK8sControlPlane_builder (wrapf "failed setting up with a controller manager") r (λ r,
    let r := set_recorder "ck8s-control-plane-controller" r in
    let r := default_managementCluster r in
    default_managementClusterUncached r).

Definition MachineReconciler_SetupWithManager (r : Reconciler) : setup :=
  let err := Complete machine_builder in
  (default_managementCluster r, err).

Definition CPOrchestrated_SetupWithManager (r : Reconciler) : setup :=
  let r := set_recorder "ck8s-cp-orchestrated-inplace-upgrade-controller" r in
  let r := set_machineGetter (mkManagement 0) r in
  let r := set_lock r in
  completed CPOrchestrated_builder (wrapf "failed to get new controller builder") r id.

(** [SetupWebhookWithManager]: a defaulter and a validator. *)
Definition SetupWebhookWithManager (k : webhook_kind) : option error := WebhookComplete k.

(** ** The programs *)

(** What has been set up, and whether the manager has been started. *)
Record Process := mkProcess {
  controllers : list (Builder * Reconciler);
  webhooks : list webhook_kind;
  running : bool;
}.

(** Statements of [main]: they go on, or the process exits with a code. *)
Definition boot (A : Type) : Type := Process → Process * (A + Z).
#[global] Instance boot_ret : MRet boot := λ A a p, (p, inl a).
#[global] Instance boot_bind : MBind boot := λ A B f m p,
  match m p with (p, inl a) => f a p | (p, inr code) => (p, inr code) end.

(** [os.Exit(code)] *)
Definition exit {A} (code : Z) : boot A := λ p, (p, inr code).
Definition skip : boot unit := mret tt.

(** [if err := ...; err != nil { setupLog.Error(...); body }] *)
Definition on_error (err : option error) (body : boot unit) : boot unit :=
  match err with Some _ => body | None => skip end.

(** A reconciler that has been set up without an error is run by the manager. *)
Definition register (b : Builder) (s : setup) (failed : boot unit) : boot unit := λ p,
  match s with
  | (r, None) => (mkProcess (controllers p ++ [(b, r)]) (webhooks p) (running p), inl tt)
  | (_, Some _) => failed p
  end.

Definition register_webhook (k : webhook_kind) (failed : boot unit) : boot unit := λ p,
  match SetupWebhookWithManager k with
  | None => (mkProcess (controllers p) (webhooks p ++ [k]) (running p), inl tt)
  | Some _ => failed p
  end.

(** [mgr.Start(ctx)], which returns when the manager stops. *)
Definition start : boot unit := λ p,
  on_error StartManager (exit 1) (mkProcess (controllers p) (webhooks p) true).

Definition manager_options (scheme : list api_package) (id : string) (f : Flags) : Options :=
  mkOptions scheme (metricsAddr f) 9443 (enableLeaderElection f) id (syncPeriod f) true.

(** The exit code is 0 when [main] returns. *)
Definition run_main (main : boot unit) : Process * Z :=
  match main (mkProcess [] [] false) with (p, inl _) => (p, 0%Z) | (p, inr code) => (p, code) end.

Definition bootstrap_main (f : Flags) (ENABLE_WEBHOOKS : string) : Process * Z := run_main (
  on_error (NewManager (manager_options bootstrap_scheme "6b2b21b1.k8s.io" f)) (exit 1) ;;
  register CK8sConfig_builder
    (CK8sConfigReconciler_SetupWithManager (new_reconciler CK8sConfigReconciler 0)) (exit 1) ;;
  register machine_builder
    (InPlaceUpgradeReconciler_SetupWithManager
       (new_reconciler InPlaceUpgradeReconciler (k8sdDialTimeout f))) (exit 1) ;;
  register machine_builder
    (CertificatesReconciler_SetupWithManager (new_reconciler CertificatesReconciler 0)) (exit 1) ;;
  register MDOrchestrated_builder
    (MDOrchestrated_SetupWithManager (new_reconciler MDOrchestratedInPlaceUpgradeController 0)) (exit 1) ;;
  (if bool_decide (ENABLE_WEBHOOKS = "false") then skip
   else register_webhook WCK8sConfig (exit 1) ;; register_webhook WCK8sConfigTemplate (exit 1)) ;;
  start).

(** A failure to set up the last controller is only logged. *)
Definition controlplane_main (f : Flags) (ENABLE_WEBHOOKS : string) : Process * Z := run_main (
  on_error (NewManager (manager_options controlplane_scheme "148fa072.controlplane.cluster.x-k8s.io" f)) (exit 1) ;;
  register CK8sControlPlane_builder
    (CK8sControlPlaneReconciler_SetupWithManager
       (new_reconciler CK8sControlPlaneReconciler (k8sdDialTimeout f))) (exit 1) ;;
  register machine_builder
    (MachineReconciler_SetupWithManager (new_reconciler MachineReconciler (k8sdDialTimeout f))) (exit 1) ;;
  register CPOrchestrated_builder
    (CPOrchestrated_SetupWithManager (new_reconciler CPOrchestratedInPlaceUpgradeController 0)) skip ;;
  (if bool_decide (ENABLE_WEBHOOKS = "false") then skip else register_webhook WCK8sControlPlane (exit 1)) ;;
  start).

(** ** What runs *)

(** The fields that the methods of a reconciler dereference. *)
Definition equipped (r : Reconciler) : Prop :=
  match r_type r with
  | CK8sConfigReconciler => is_Some (r_managementCluster r) ∧ r_CK8sInitLock r = true
  | InPlaceUpgradeReconciler | CertificatesReconciler => is_Some (r_managementCluster r) ∧ is_Some (r_recorder r)
  | MDOrchestratedInPlaceUpgradeController => is_Some (r_machineGetter r) ∧ is_Some (r_recorder r)
  | CK8sControlPlaneReconciler =>
      is_Some (r_managementCluster r) ∧ is_Some (r_managementClusterUncached r) ∧ is_Some (r_recorder r)
  | MachineReconciler => is_Some (r_managementCluster r)
  | CPOrchestratedInPlaceUpgradeController =>
      is_Some (r_machineGetter r) ∧ is_Some (r_recorder r) ∧ r_lock r = true
  end.

(** The longest that a request to k8sd may take; 0 is no limit. *)
Definition k8sd_timeout (r : Reconciler) : option Z := mg_K8sdDialTimeout <$> r_managementCluster r.

Definition types (p : Process) : list reconciler_type := r_type ∘ snd <$> controllers p.

Ltac step_main :=
  repeat (simpl; lazymatch goal with
          | |- context [match ?x with Some _ => _ | None => _ end] => destruct x eqn:?
          | |- context [bool_decide ?P] => destruct (bool_decide P) eqn:?
          end); simpl.

Ltac unfold_setup :=
  unfold run_main, register, register_webhook, start, on_error, exit, skip, SetupWebhookWithManager,
    CK8sConfigReconciler_SetupWithManager, InPlaceUpgradeReconciler_SetupWithManager, MDOrchestrated_SetupWithManager,
    CertificatesReconciler_SetupWithManager, CK8sControlPlaneReconciler_SetupWithManager,
    MachineReconciler_SetupWithManager, CPOrchestrated_SetupWithManager, completed, mbind, boot_bind, mret, boot_ret.

(** All ways in which the set-up can go. *)
Ltac run_setup :=
  unfold_setup; step_main; try done; (split; [done|]; split; [|done]); repeat constructor;
  unfold equipped; simpl; split_and?; by eauto.

(** The bootstrap manager runs exactly when nothing fails, with its four controllers,
    each with all that it needs; otherwise the process exits with code 1. *)
Theorem bootstrap_main_spec f e :
  let '(p, code) := bootstrap_main f e in
  if running p
  then types p = [CK8sConfigReconciler; InPlaceUpgradeReconciler; CertificatesReconciler;
                  MDOrchestratedInPlaceUpgradeController] ∧
       Forall (λ br, equipped br.2) (controllers p) ∧
       webhooks p = (if bool_decide (e = "false") then [] else [WCK8sConfig; WCK8sConfigTemplate]) ∧
       code = (match StartManager with Some _ => 1 | None => 0 end)%Z
  else code = 1%Z.
Proof. unfold bootstrap_main. run_setup. Qed.

(** The control plane manager runs when nothing but the set-up of the last controller
    fails.  That failure is only logged: the manager then runs without the controller
    of in-place upgrades, and the exit code is 0. *)
Theorem controlplane_main_spec f e :
  let '(p, code) := controlplane_main f e in
  if running p
  then types p = [CK8sControlPlaneReconciler; MachineReconciler] ++
                 (match Complete CPOrchestrated_builder with
                  | Some _ => []
                  | None => [CPOrchestratedInPlaceUpgradeController]
                  end) ∧
       Forall (λ br, equipped br.2) (controllers p) ∧
       webhooks p = (if bool_decide (e = "false") then [] else [WCK8sControlPlane]) ∧
       code = (match StartManager with Some _ => 1 | None => 0 end)%Z
  else code = 1%Z.
Proof. unfold controlplane_main. run_setup. Qed.

(** The flag limits the requests to k8sd of both controllers of the control plane
    manager, but only those of the in-place upgrades in the bootstrap manager: the
    controllers of configurations and of certificates wait without a limit. *)
Theorem dial_timeouts f e :
  let limits p := (λ br : Builder * Reconciler, (r_type br.2, k8sd_timeout br.2)) <$> controllers p in
  let b := (bootstrap_main f e).1 in
  let c := (controlplane_main f e).1 in
  (running b = true →
   limits b = [(CK8sConfigReconciler, Some 0%Z); (InPlaceUpgradeReconciler, Some (k8sdDialTimeout f));
               (CertificatesReconciler, Some 0%Z); (MDOrchestratedInPlaceUpgradeController, None)]) ∧
  (running c = true → ∃ rest,
   limits c = (CK8sControlPlaneReconciler, Some (k8sdDialTimeout f)) ::
              (MachineReconciler, Some (k8sdDialTimeout f)) :: rest).
Proof.
  cbv zeta. split; unfold bootstrap_main, controlplane_main; unfold_setup; step_main; try done; intros _; eauto.
Qed.
End Setup.

(** ** What wakes a controller *)

(** Kinds as owner references name them. *)
Definition group_kind (k : kind) : string * string :=
  match k with
  | KMachine => ("cluster.x-k8s.io", "Machine")
  | KCluster => ("cluster.x-k8s.io", "Cluster")
  | KMachineDeployment => ("cluster.x-k8s.io", "MachineDeployment")
  | KMachineSet => ("cluster.x-k8s.io", "MachineSet")
  | KCK8sConfig => ("bootstrap.cluster.x-k8s.io", "CK8sConfig")
  | KControlPlane => ("controlplane.cluster.x-k8s.io", "CK8sControlPlane")
  | KSecret => ("", "Secret") | KConfigMap => ("", "ConfigMap") | KNode => ("", "Node")
  end.

(** [metav1.GetControllerOf] *)
Definition controller_ref_of (m : ObjectMeta) : option OwnerReference :=
  List.find (λ r, bool_decide (or_Controller r = Some true)) (om_OwnerReferences m).

(** A changed object leads to a request for itself if it is of the reconciled kind;
    one of an owned kind leads to a request for its controller if that is of the
    reconciled kind; a watched cluster to those of the map function. *)
Inductive asks_for `{!ControllerRuntime} (b : Builder) (k : kind) (o : obj k) : ObjectKey → Prop :=
  | asks_itself : k = b_For b → asks_for b k o (obj_key k o)
  | asks_owner r :
      k ∈ b_Owns b → controller_ref_of (meta_of k o) = Some r →
      (ParseGroup (or_APIVersion r), or_Kind r) = group_kind (b_For b) →
      asks_for b k o (mkKey (om_Namespace (meta_of k o)) (or_Name r)).

Class ControllerRuntimeLaws `{!ControllerRuntime} : Prop := {
  requests_spec b k (o : obj k) key :
    b_WatchesCluster b = false ∨ k ≠ KCluster → key ∈ requests b (Changed k o) ↔ asks_for b k o key;
  (* with predicates on the clusters, some of what the map function answers *)
  requests_cluster b (c : obj KCluster) key :
    b_WatchesCluster b = true → b_For b ≠ KCluster → KCluster ∉ b_Owns b → key ∈ requests b (Changed KCluster c) →
    key ∈ KcpReconcile.ClusterToCK8sControlPlane c;
  ParseGroup_spec g v : GoStrings.contains "/" g = false → GoStrings.contains "/" v = false →
    ParseGroup (g +:+ "/" +:+ v) = g;
}.

(** [metav1.NewControllerRef] names its owner. *)
Class OwnerRefLaws `{!MetaLib} : Prop := {
  NewControllerRef_Name m a k : or_Name (NewControllerRef m a k) = om_Name m;
  NewControllerRef_APIVersion m a k : or_APIVersion (NewControllerRef m a k) = a;
  NewControllerRef_Kind m a k : or_Kind (NewControllerRef m a k) = k;
}.

Section Wakes.
Context `{!ControllerRuntime, !ControllerRuntimeLaws, !MetaLib, !MetaLaws, !OwnerRefLaws}.

(** Every change of a machine that the control plane has created leads to a request
    for the control plane, in both of its controllers. *)
Theorem own_machine_wakes kcp cluster infraRef ref fd name (m : Machine) b :
  b = CK8sControlPlane_builder ∨ b = CPOrchestrated_builder →
  om_Namespace (m_meta m) = kcp_Namespace kcp →
  om_OwnerReferences (m_meta m) = om_OwnerReferences (m_meta (Scale.new_machine kcp cluster infraRef ref fd name)) →
  ∀ key, key ∈ requests b (Changed KMachine m) ↔ key = key_of (kcp_meta kcp).
Proof.
  intros Hb Hns Ho key. rewrite requests_spec by by right.
  assert (controller_ref_of (m_meta m) =
          Some (NewControllerRef (kcp_meta kcp) controlplane_GroupVersion "CK8sControlPlane")) as Hc.
  { unfold controller_ref_of. rewrite Ho. simpl. by rewrite NewControllerRef_controller, bool_decide_true. }
  assert (b_For b = KControlPlane ∧ b_Owns b = [KMachine]) as [Hfor Howns] by (by destruct Hb as [-> | ->]).
  split.
  - intros [Hk|r _ Hr Hg]; [congruence|]. change (meta_of KMachine m) with (m_meta m) in *. simplify_eq.
    by rewrite NewControllerRef_Name, Hns.
  - intros ->. pose proof (asks_owner b KMachine m _ ltac:(rewrite Howns; by left) Hc) as Ha.
    rewrite NewControllerRef_Name, NewControllerRef_APIVersion, NewControllerRef_Kind, Hfor in Ha.
    change (meta_of KMachine m) with (m_meta m) in Ha. rewrite Hns in Ha. apply Ha.
    change controlplane_GroupVersion with ("controlplane.cluster.x-k8s.io" +:+ "/" +:+ "v1beta2").
    by rewrite ParseGroup_spec by done.
Qed.

(** The machines of a machine deployment are controlled by machine sets, so that their
    changes never wake the controller of its in-place upgrade, which declares that it
    owns machines: it depends on the requeues that it asks for itself. *)
Theorem deployment_machines_do_not_wake m r :
  controller_ref_of (m_meta m) = Some r → or_Kind r = "MachineSet" →
  requests MDOrchestrated_builder (Changed KMachine m) = [].
Proof.
  intros Hr Hk. destruct (requests MDOrchestrated_builder (Changed KMachine m)) as [|key l] eqn:He; [done|].
  assert (key ∈ requests MDOrchestrated_builder (Changed KMachine m)) as Hin by (rewrite He; by left).
  apply requests_spec in Hin; [|by left]. inversion Hin as [Hk'|r' _ Hr' Hg]; [done|].
  change (meta_of KMachine m) with (m_meta m) in Hr'. rewrite Hr in Hr'. injection Hr' as <-.
  rewrite Hk in Hg. simpl in Hg. by injection Hg.
Qed.

(** A cluster leads at most to the control plane that it refers to. *)
Theorem cluster_wakes (c : Cluster) key :
  key ∈ requests CK8sControlPlane_builder (Changed KCluster c) →
  ∃ ref, cl_ControlPlaneRef c = Some ref ∧ ref_Kind ref = "CK8sControlPlane" ∧
         key = mkKey (ref_Namespace ref) (ref_Name ref).
Proof.
  intros Hin%requests_cluster; [|set_solver..]. unfold KcpReconcile.ClusterToCK8sControlPlane in Hin.
  destruct (cl_ControlPlaneRef c) as [ref|]; [|by apply elem_of_nil in Hin]. exists ref.
  case_bool_decide as Hk; [|by apply elem_of_nil in Hin]. by apply list_elem_of_singleton in Hin.
Qed.
End Wakes.

(** ** A runtime that satisfies the laws *)

Module Examples.
Definition owner_requests (b : Builder) (k : kind) (o : obj k) : list ObjectKey :=
  match controller_ref_of (meta_of k o) with
  | Some r =>
      if decide (k ∈ b_Owns b ∧ (hd "" (GoStrings.Split (or_APIVersion r) "/"), or_Kind r) = group_kind (b_For b))
      then [mkKey (om_Namespace (meta_of k o)) (or_Name r)] else []
  | None => []
  end.

Definition cluster_requests (k : kind) : obj k → list ObjectKey :=
  match k return obj k → list ObjectKey with
  | KCluster => KcpReconcile.ClusterToCK8sControlPlane
  | _ => λ _, []
  end.

(** Everything succeeds but the set-up of the given builder. *)
Definition runtime (failing : option Builder) : ControllerRuntime := {|
  NewManager _ := None;
  Complete b := if failing is Some b' then
      (if decide (b_For b = b_For b' ∧ b_WatchesCluster b = b_WatchesCluster b') then Some (ErrNew "failed") else None)
    else None;
  WebhookComplete _ := None;
  StartManager := None;
  ParseGroup s := hd "" (GoStrings.Split s "/");
  requests b e := match e with
    | Changed k o =>
        (if decide (k = b_For b) then [obj_key k o] else []) ++ owner_requests b k o ++
        (if b_WatchesCluster b then cluster_requests k o else [])
    end;
|}.

Lemma Split_hd g v : GoStrings.contains "/" g = false → hd "" (GoStrings.Split (g +:+ "/" +:+ v) "/") = g.
Proof.
  induction g as [|c g IH]; [done|]. simpl. rewrite orb_false_iff, bool_decide_eq_false. intros [Hc Hg].
  rewrite bool_decide_false by done. specialize (IH Hg).
  change (String.append g (String "/" v)) with (g +:+ "/" +:+ v).
  destruct (GoStrings.Split (g +:+ "/" +:+ v) "/") as [|x l] eqn:Hs; simpl in *; [|by rewrite IH].
  by subst g.
Qed.

Lemma runtime_laws failing : @ControllerRuntimeLaws (runtime failing).
Proof.
  split.
  - intros b k o key Hw. simpl.
    assert ((if b_WatchesCluster b then cluster_requests k o else []) = []) as ->
      by (destruct Hw as [-> | Hw]; [done|]; destruct (b_WatchesCluster b); by destruct k).
    rewrite app_nil_r, elem_of_app. unfold owner_requests. split.
    + intros [Hin|Hin].
      * case_decide as Hk; [|by apply elem_of_nil in Hin]. apply list_elem_of_singleton in Hin as ->. by left.
      * destruct (controller_ref_of (meta_of k o)) as [r|] eqn:Hr; [|by apply elem_of_nil in Hin].
        case_decide as Hk; [|by apply elem_of_nil in Hin]. apply list_elem_of_singleton in Hin as ->.
        destruct Hk. by eapply asks_owner.
    + intros [Hk|r Ho Hr Hg]; [left; rewrite decide_True by done; by left|].
      right. rewrite Hr, decide_True by done. by left.
  - intros b c key Hw Hf Ho. simpl. rewrite decide_False, Hw by congruence. unfold owner_requests. simpl.
    destruct (controller_ref_of _); [rewrite decide_False by tauto|]; done.
  - intros g v Hg _. by apply Split_hd.
Qed.

#[export] Instance ref_owner : OwnerRefLaws.
Proof. by split. Qed.

(** The control plane manager runs although its last controller is missing. *)
Example runs_without_upgrades :
  let '(p, code) := @controlplane_main (runtime (Some CPOrchestrated_builder)) default_flags "" in
  (running p, @types p, code) = (true, [CK8sControlPlaneReconciler; MachineReconciler], 0%Z).
Proof. reflexivity. Qed.
End Examples.

Lemma own_machine_wakes_witness :
  ∀ key, key ∈ @requests (Examples.runtime None) CK8sControlPlane_builder (Changed KMachine
      (Scale.new_machine CpExamples.kcp (cluster_named "c") (ref_named "Infra" "i") (ref_named "CK8sConfig" "n") None "n"))
    ↔ key = key_of (kcp_meta CpExamples.kcp).
Proof.
  pose proof (Examples.runtime_laws None) as Hlaws.
  apply (@own_machine_wakes (Examples.runtime None) Hlaws _ _ Examples.ref_owner CpExamples.kcp (cluster_named "c")
    (ref_named "Infra" "i") (ref_named "CK8sConfig" "n") None "n"); [by left|reflexivity|reflexivity].
Defined.
End Managers.
