(* ===== verification/ReleaseNotes.v ===== *)
(** src/hack/tools/release/notes.go: the generator of the release notes.

    The commands it runs and the tables of the [unicode] package are parameters;
    one run sees one state of the repository and of GitHub, so a command is a
    function of its arguments.  Text is valid UTF-8.  A Go panic is [None].  The
    goroutines that process the commits are the steps of [pipe_step]. *)

From stdpp Require Import sorting.
From S2P Require Import Prelude Objects Calendar Json.

Module ReleaseNotes.
Import GoStrings.

(** ** Parameters *)

Class Tools := {
  (* [exec.LookPath(cmd)] gives no error *)
  LookPath : string → bool;
  (* [exec.Command(name, args...)], then [Output] or [CombinedOutput]: the
     output and the text of the error *)
  Output : list string → string * option string;
  CombinedOutput : list string → string * option string;
  (* [strings.ToLower] and [strings.ToUpper] *)
  strings_ToLower : string → string;
  strings_ToUpper : string → string;
  (* [sort.Slice(l, less)], which is not stable *)
  sort_Slice : (string → string → bool) → list string → list string;
}.

(** Sorting permutes; nothing is followed by something less than it, when the order
    is that of the values of a function. *)
Class ToolsLaws `{!Tools} : Prop := {
  sort_Slice_perm less l : sort_Slice less l ≡ₚ l;
  sort_Slice_sorted (f : string → string) l :
    StronglySorted (λ x y, String.ltb (f y) (f x) = false)
      (sort_Slice (λ x y, String.ltb (f x) (f y)) l);
}.

(** ** Constants *)

Definition features : string := ":sparkles: New Features".
Definition bugs : string := ":bug: Bug Fixes".
Definition documentation : string := ":book: Documentation".
Definition proposals : string := ":memo: Proposals".
Definition warning : string := ":warning: Breaking Changes".
Definition other : string := ":seedling: Others".
Definition unknown : string := ":question: Sort these by hand".

Definition outputOrder : list string :=
  [proposals; warning; features; bugs; other; documentation; unknown].

Record flags := mkFlags {
  repo : string;
  fromTag : string;
  since : string;
  until : string;
  numWorkers : Z;
  prefixAreaLabel : bool;
  addKubernetesVersionSupport : bool;
}.

Definition userFriendlyAreas : gmap string string := list_to_map [
  ("e2e-testing", "e2e");
  ("provider/control-plane-kubeadm", "KCP");
  ("provider/infrastructure-docker", "CAPD");
  ("dependency", "Dependency");
  ("devtools", "Devtools");
  ("machine", "Machine");
  ("api", "API");
  ("machinepool", "MachinePool");
  ("clustercachetracker", "ClusterCacheTracker");
  ("clusterclass", "ClusterClass");
  ("testing", "Testing");
  ("release", "Release");
  ("machineset", "MachineSet");
  ("clusterresourceset", "ClusterResourceSet");
  ("machinedeployment", "MachineDeployment");
  ("ipam", "IPAM");
  ("provider/bootstrap-kubeadm", "CAPBK");
  ("provider/infrastructure-in-memory", "CAPIM");
  ("provider/core", "Core");
  ("runtime-sdk", "Runtime SDK");
  ("ci", "CI")].

Definition missingAreaLabelPrefix : string := "MISSING_AREA".
Definition areaLabelPrefix : string := "area/".
Definition multipleAreaLabelsPrefix : string := "MULTIPLE_AREAS[".
Definition documentationAreaLabel : string := "documentation".

Record githubLabel := mkLabel { Name : string }.
Record githubPullRequest := mkPullRequest { Labels : list githubLabel }.

Record commit := mkCommit { merge : string; body : string }.

#[export] Instance commit_eq_dec : EqDecision commit.
Proof. solve_decision. Defined.

Record releaseNoteEntry := mkEntry { title : string; section : string; prNumber : string }.

Record releaseNoteEntryResult := mkEntryResult {
  prEntry : option releaseNoteEntry;
  err : option error;
}.

(** ** The parts of the standard library that the tool uses *)

(** The white space of Unicode, encoded. *)
Definition white : list string :=
  Json.encode_rune <$> [9; 10; 11; 12; 13; 32; 133; 160; 5760; 8192; 8193; 8194; 8195; 8196; 8197;
    8198; 8199; 8200; 8201; 8202; 8232; 8233; 8239; 8287; 12288]%N.

(** Without the white space at the start, and at the end. *)
Fixpoint trim_left (fuel : nat) (s : string) : string :=
  match fuel with
  | 0 => s
  | S fuel => match find (HasPrefix s) white with
              | Some w => trim_left fuel (drop (String.length w) s)
              | None => s
              end
  end.

Fixpoint trim_right (fuel : nat) (s : string) : string :=
  match fuel with
  | 0 => s
  | S fuel => match find (HasSuffix s) white with
              | Some w => trim_right fuel (take (String.length s - String.length w) s)
              | None => s
              end
  end.

(** [strings.TrimSpace] *)
Definition TrimSpace (s : string) : string :=
  let s := trim_left (String.length s) s in trim_right (String.length s) s.

(** [strings.TrimLeft(s, " ")] *)
Fixpoint TrimLeft_space (s : string) : string :=
  match s with String " " s => TrimLeft_space s | _ => s end.

(** [strings.Replace(s, "#", "", -1)] *)
Fixpoint without_hash (s : string) : string :=
  match s with
  | EmptyString => EmptyString
  | String "#" s => without_hash s
  | String c s => String c (without_hash s)
  end.

(** [strings.Contains] *)
Fixpoint Contains (s sub : string) : bool :=
  HasPrefix s sub || match s with String _ s => Contains s sub | EmptyString => false end.

(** *** Regular expressions *)

Definition in_range (a b c : ascii) : bool :=
  (N_of_ascii a <=? N_of_ascii c)%N && (N_of_ascii c <=? N_of_ascii b)%N.
Definition word_char (c : ascii) : bool :=
  in_range "0" "9" c || in_range "A" "Z" c || in_range "a" "z" c || bool_decide (c = "_"%char).

(** What follows a match of the start with the expression of [tagRegex]. *)
Definition tag_rest (s : string) : option string :=
  if HasPrefix s "[release-" then
    match (Json.span (λ c, word_char c || bool_decide (c = "-"%char) || bool_decide (c = "."%char))
             (drop 9 s)).2 with
    | String "]" s => Some s
    | _ => None
    end
  else None.

(** [tagRegex.ReplaceAllString(title, "")] *)
Definition drop_tag (title : string) : string := default title (tag_rest title).

Definition newline : ascii := "010".
Definition re_space (c : ascii) : bool :=
  bool_decide (c ∈ ["009"; "010"; "012"; "013"; " "]%char).

(** What follows a match of the start with the expression of
    [releaseBackportMarker], and whether a line begins there. *)
Definition marker_rest (s : string) : option (string * bool) :=
  if HasPrefix s "[release-" then
    match drop 9 s with
    | String d1 (String "." (String d2 (String "]" s))) =>
        if in_range "0" "9" d1 && in_range "0" "9" d2 then
          let '(sp, s) := Json.span re_space s in Some (s, HasSuffix sp (String newline ""))
        else None
    | _ => None
    end
  else None.

(** [releaseBackportMarker.ReplaceAllString(s, "${1}")]: there is no first group. *)
Fixpoint drop_markers (fuel : nat) (line_start : bool) (s : string) : string :=
  match fuel, s with
  | S fuel, String c s' =>
      match (if line_start then marker_rest s else None) with
      | Some (s, line_start) => drop_markers fuel line_start s
      | None => String c (drop_markers fuel (bool_decide (c = newline)) s')
      end
  | _, _ => s
  end.
(** *** [json.Unmarshal] into a pull request *)

Definition assign_name (cur : string * bool) (kv : string * Json.value) : string * bool :=
  match Json.select ["name"] kv.1, kv.2 with
  | None, _ => cur
  | Some _, Json.JString s => (s, cur.2)
  | Some _, Json.JNull => cur
  | Some _, _ => (cur.1, false)
  end.

Definition decode_label (old : string) (v : Json.value) : string * bool :=
  match v with
  | Json.JObject l => foldl assign_name (old, true) l
  | Json.JNull => (old, true)
  | _ => (old, false)
  end.

(** An array is decoded into the elements of the slice that are there. *)
Fixpoint decode_labels (memory : list string) (l : list Json.value) : list string * bool :=
  match l with
  | [] => ([], true)
  | v :: l =>
      let '(s, ok) := decode_label (default "" (head memory)) v in
      let '(ss, oks) := decode_labels (tail memory) l in (s :: ss, ok && oks)
  end.

(** The elements of the slice, the elements its array holds beyond these, and
    whether every value had the right type. *)
Definition assign_labels (cur : list string * list string * bool) (kv : string * Json.value)
    : list string * list string * bool :=
  let '(labels, spare, ok) := cur in
  match Json.select ["labels"] kv.1, kv.2 with
  | None, _ => cur
  | Some _, Json.JNull => ([], [], ok)
  | Some _, Json.JArray [] => ([], [], ok)
  | Some _, Json.JArray l =>
      let memory := labels ++ spare in
      let '(labels, oks) := decode_labels memory l in
      (labels, skipn (length l) memory, ok && oks)
  | Some _, _ => (labels, spare, false)
  end.

Definition UnmarshalPullRequest (text : string) : gores githubPullRequest :=
  match Json.parse_text text with
  | None => Err (ErrNew "json: syntax error")
  | Some Json.JNull => Ok (mkPullRequest [])
  | Some (Json.JObject l) =>
      let '(labels, _, ok) := foldl assign_labels ([], [], true) l in
      if ok then Ok (mkPullRequest (mkLabel <$> labels))
      else Err (ErrNew "json: cannot unmarshal into Go value")
  | Some _ => Err (ErrNew "json: cannot unmarshal into Go value of struct type")
  end.

(** *** [fmt.Sscanf(s, "Merge pull request %s from %s", &prNumber, &fork)] *)

Definition expect (word s : string) : option string :=
  if HasPrefix s word then Some (drop (String.length word) s) else None.

(** A space of the format matches at least one in the input, or its end. *)
Definition expect_space (s : string) : option string :=
  if bool_decide (s = "") then Some ""
  else if existsb (HasPrefix s) white then Some (trim_left (String.length s) s)
  else None.

Fixpoint until_space (s : string) : string :=
  match s with
  | EmptyString => EmptyString
  | String c s' => if existsb (HasPrefix s) white then EmptyString else String c (until_space s')
  end.

(** The first operand; it stays empty when the scan fails before it. *)
Definition Sscanf_prNumber (s : string) : string :=
  default "" (
    s ← expect "Merge" s; s ← expect_space s;
    s ← expect "pull" s; s ← expect_space s;
    s ← expect "request" s; s ← expect_space s;
    Some (until_space (trim_left (String.length s) s))).

(** ** The entries *)

Section Tool.
Context `{!Tools} (fl : flags).

(** [func lastTag] and [func firstCommit] *)
Definition firstCommit : string :=
  match Output ["git"; "rev-list"; "--max-parents=0"; "HEAD"] with
  | (_, Some _) => "UNKNOWN"
  | (out, None) => TrimSpace out
  end.

Definition lastTag : string :=
  if bool_decide (fromTag fl ≠ "") then fromTag fl
  else match Output ["git"; "describe"; "--tags"; "--abbrev=0"] with
       | (_, Some _) => firstCommit
       | (out, None) => TrimSpace out
       end.

(** [func increaseDateByOneDay] *)
Definition increaseDateByOneDay (date : string) : gores string :=
  match Calendar.ParseDate date with
  | None => Err (ErrNew ("parsing time " +:+ quote date))
  | Some (y, m, d) =>
      let datetime := (Calendar.day_number y m d * Calendar.Day)%Z in
      let datetime := (datetime + Time.Hour * 24)%Z in
      Ok (Calendar.FormatDate (Calendar.date_of (datetime / Calendar.Day)%Z))
  end.

(** [func trimAreaLabel] *)
Definition trimAreaLabel (label : string) : string * bool :=
  let trimmed := TrimPrefix label areaLabelPrefix in
  if String.length trimmed <? String.length label then (trimmed, true) else (label, false).

(** The areas of the labels of a pull request. *)
Definition areas (pr : githubPullRequest) : list string :=
  omap (λ label, match trimAreaLabel (Name label) with
                 | (area, true) => Some (default area (userFriendlyAreas !! area))
                 | (_, false) => None
                 end) (Labels pr).

(** [func getAreaLabel]; indexing the fields of the merge can panic. *)
Definition getAreaLabel (merge : string) : option (gores string) :=
  field ← Split merge " " !! 3;
  let prID := without_hash (TrimSpace field) in
  let '(out, err) := CombinedOutput ["gh"; "api"; "repos/" +:+ repo fl +:+ "/pulls/" +:+ prID] in
  Some match err with
  | Some e => Err (ErrNew (out +:+ ": " +:+ e))
  | None =>
      match UnmarshalPullRequest out with
      | Err e => Err e
      | Ok pr =>
          Ok match areas pr with
             | [] => missingAreaLabelPrefix
             | [area] => area
             | areaLabels => multipleAreaLabelsPrefix +:+ Join areaLabels "/" +:+ "]"
             end
      end
  end.

(** [func trimTitle] *)
Definition trimTitle (title : string) : string := TrimSpace (drop_tag title).

(** [func trimReleaseBackportMarker] *)
Definition trimReleaseBackportMarker (title : string) : string :=
  drop_markers (String.length title) true title.

(** [func formatMerge] *)
Definition formatMerge (line prNumber : string) : string :=
  if bool_decide (prNumber = "") then line else line +:+ " (" +:+ prNumber +:+ ")".

(** [func modifyEntryTitle]: the first byte is taken for a rune; an empty title has
    none, and the index panics. *)
Definition modifyEntryTitle (title : string) (prefixes : list string) : option string :=
  match foldl (λ t prefix, TrimLeft_space (TrimPrefix t prefix)) title prefixes with
  | EmptyString => None
  | String c rest => Some (strings_ToUpper (Json.encode_rune (N_of_ascii c)) +:+ rest)
  end.

(** The prefixes of the cases of the [switch], with their sections. *)
Definition kinds : list (list string * string) :=
  [([":sparkles:"; "✨"], features); ([":bug:"; "🐛"], bugs); ([":book:"; "📖"], documentation);
   ([":seedling:"; "🌱"], other); ([":warning:"; "⚠️"], warning)].

(** The [switch] of [generateReleaseNoteEntry]: the title and the section. *)
Definition classify (title : string) : option (string * string) :=
  match find (λ k, existsb (HasPrefix title) k.1) kinds with
  | None => Some (title, unknown)
  | Some (prefixes, section) =>
      title ← modifyEntryTitle title prefixes;
      Some (title,
        if bool_decide (section = documentation) && (Contains title "CAEP" || Contains title "proposal")
        then proposals else section)
  end.

(** [func generateReleaseNoteEntry] *)
Definition generateReleaseNoteEntry (c : commit) : option releaseNoteEntryResult :=
  let body := if bool_decide (body c = "") then "ERROR: BODY MISSING. FIX MANUALLY" else body c in
  let title := trimTitle body in
  area ← (if prefixAreaLabel fl then getAreaLabel (merge c) else Some (Ok ""));
  match area with
  | Err e => Some (mkEntryResult None (Some e))
  | Ok area =>
      '(title, section) ← classify title;
      let section := if bool_decide (area = documentationAreaLabel) then documentation else section in
      let title := trimReleaseBackportMarker (TrimSpace title) in
      if bool_decide (title = "") then Some (mkEntryResult (Some (mkEntry title section "")) None)
      else
        let title := if prefixAreaLabel fl then "- " +:+ area +:+ ": " +:+ title
                     else "- " +:+ title in
        let prNumber := Sscanf_prNumber (merge c) in
        Some (mkEntryResult (Some (mkEntry (formatMerge title prNumber) section prNumber)) None)
  end.
End Tool.

Lemma classify_panics `{!Tools} t :
  classify t = None →
  ∃ prefixes section t, (prefixes, section) ∈ kinds ∧ existsb (HasPrefix t) prefixes = true ∧
    foldl (λ t prefix, TrimLeft_space (TrimPrefix t prefix)) t prefixes = "".
Proof.
  unfold classify. destruct (find _ kinds) as [[prefixes section]|] eqn:Hf; [|done].
  apply find_some in Hf as [Hin Hpre]. unfold modifyEntryTitle.
  destruct (foldl _ t prefixes) eqn:He; [|done]. intros _. exists prefixes, section, t.
  split; [by apply list_elem_of_In|done].
Qed.

(** ** The run *)

Section Run.
Context `{!Tools} (fl : flags).

(** [func ensureInstalledDependencies] *)
Definition ensureInstalledDependencies : option error :=
  if negb (LookPath "git") then
    Some (ErrNew "git not available. Git is required to be present in the PATH")
  else if negb (LookPath "gh") then
    Some (ErrNew "gh GitHub CLI not available. GitHub CLI is required to be present in the PATH. Refer to https://cli.github.com/ for installation")
  else None.

(** The range of the commits and the command that lists them. *)
Definition commit_range : gores (string * list string) :=
  if bool_decide (since fl ≠ "") && bool_decide (until fl ≠ "") then
    match increaseDateByOneDay (until fl) with
    | Err e => Err e
    | Ok lastDay =>
        Ok (since fl +:+ " - " +:+ until fl,
            ["git"; "rev-list"; "HEAD"; "--since=" +:+ quote (since fl);
             "--until=" +:+ quote lastDay; "--merges"; "--pretty=format:%B"])
    end
  else if bool_decide (since fl ≠ "") || bool_decide (until fl ≠ "") then
    Err (ErrNew "--since and --until are required together or both unset")
  else
    let commitRange := lastTag fl in
    Ok (commitRange, ["git"; "rev-list"; commitRange +:+ "..HEAD"; "--merges"; "--pretty=format:%B"]).

(** Writing to the last commit; without one, the index panics. *)
Definition to_last (f : commit → commit) (commits : list commit) : option (list commit) :=
  match commits with [] => None | _ => Some (alter f (pred (length commits)) commits) end.

(** The loop over the lines that git prints. *)
Definition add_line (commits : list commit) (line : string) : option (list commit) :=
  let line := TrimSpace line in
  if HasPrefix line "commit" then Some (commits ++ [mkCommit "" ""])
  else if HasPrefix line "Merge" then to_last (λ c, mkCommit line (body c)) commits
  else if bool_decide (line = "") then Some commits
  else to_last (λ c, mkCommit (merge c) line) commits.

Fixpoint add_lines (commits : list commit) (lines : list string) : option (list commit) :=
  match lines with
  | [] => Some commits
  | line :: lines => commits ← add_line commits line; add_lines commits lines
  end.

Definition parse_commits (out : string) : option (list commit) := add_lines [] (Split out newline).

(** *** The goroutines *)

(** A worker waits for a commit, has one to process, or has returned. *)
Inductive worker := Idle | Busy (c : commit) | Returned.

#[export] Instance worker_eq_dec : EqDecision worker.
Proof. solve_decision. Defined.

Record pipe := mkPipe {
  queue : list commit;
  workers : list worker;
  received : list releaseNoteEntryResult;
}.

Definition start (n : nat) (commits : list commit) : pipe := mkPipe commits (replicate n Idle) [].

Inductive pipe_step : pipe → pipe → Prop :=
  (* a worker takes the next commit *)
  | pipe_take i c q ws rs :
      ws !! i = Some Idle → pipe_step (mkPipe (c :: q) ws rs) (mkPipe q (<[i := Busy c]> ws) rs)
  (* it hands its result to the loop that collects the results *)
  | pipe_send i c r q ws rs :
      ws !! i = Some (Busy c) → generateReleaseNoteEntry fl c = Some r →
      pipe_step (mkPipe q ws rs) (mkPipe q (<[i := Idle]> ws) (rs ++ [r]))
  (* it returns when the channel of the commits is closed *)
  | pipe_return i ws rs :
      ws !! i = Some Idle → pipe_step (mkPipe [] ws rs) (mkPipe [] (<[i := Returned]> ws) rs).

(** The channel of the results is closed when all workers have returned. *)
Definition closed (p : pipe) : Prop := Forall (λ w, w = Returned) (workers p).

(** *** Collecting *)

(** What is listed for an entry. *)
Definition listed (e : releaseNoteEntry) : string :=
  if bool_decide (section e = documentation) then prNumber e else title e.

Definition collect_one (merges : gmap string (list string)) (r : releaseNoteEntryResult)
    : gmap string (list string) :=
  match prEntry r with
  | Some e =>
      if bool_decide (title e = "") then merges
      else <[section e := default [] (merges !! section e) ++ [listed e]]> merges
  | None => merges
  end.

Definition collect (rs : list releaseNoteEntryResult) : gmap string (list string) :=
  foldl collect_one
    (list_to_map ((λ s, (s, [])) <$> [features; bugs; documentation; warning; other; unknown])) rs.

(** *** Printing *)

Definition println (s : string) : string := s +:+ String newline "".

(** One line for a number of things, none for zero. *)
Definition count_line (n : nat) (one : string) (many : string → string) : list string :=
  match n with
  | 0 => []
  | 1 => [println one]
  | n => [println (many (pretty n))]
  end.

Definition overview (commitRange : string) (commits : nat) (merges : gmap string (list string))
    : list string :=
  let count s := length (default [] (merges !! s)) in
  [println ("## Changes since " +:+ commitRange) +:+ println "---";
   println "## :chart_with_upwards_trend: Overview"] ++
  count_line commits "- 1 new commit merged" (λ n, "- " +:+ n +:+ " new commits merged") ++
  count_line (count warning) "- 1 breaking change :warning:"
    (λ n, "- " +:+ n +:+ " breaking changes :warning:") ++
  count_line (count features) "- 1 feature addition ✨" (λ n, "- " +:+ n +:+ " feature additions ✨") ++
  count_line (count bugs) "- 1 bug fixed 🐛" (λ n, "- " +:+ n +:+ " bugs fixed 🐛") ++
  [println ""].

Definition sort_lines (l : list string) : list string :=
  sort_Slice (λ str1 str2, String.ltb (strings_ToLower str1) (strings_ToLower str2)) l.

Definition print_section (merges : gmap string (list string)) (key : string) : list string :=
  match default [] (merges !! key) with
  | [] => []
  | mergeslice =>
      if bool_decide (key = documentation) then
        match mergeslice with
        | [m] => [println (":book: Additionally, there has been 1 contribution to our documentation and book. (" +:+ m +:+ ") ")
                  +:+ println ""]
        | _ => [println (":book: Additionally, there have been " +:+ pretty (length mergeslice) +:+
                         " contributions to our documentation and book. (" +:+ Join mergeslice ", " +:+ ") ")
                +:+ println ""]
        end
      else [println ("## " +:+ key)] ++ (println <$> sort_lines mergeslice) ++ [println ""]
  end.

Definition versions_header : list string :=
  if addKubernetesVersionSupport fl then
    [println "## 👌 Kubernetes version support" +:+ println "" +:+
     println "- Management Cluster: v1.**X**.x -> v1.**X**.x" +:+
     println "- Workload Cluster: v1.**X**.x -> v1.**X**.x" +:+ println "" +:+
     println "[More information about version support can be found here](https://cluster-api.sigs.k8s.io/reference/versions.html)"
     +:+ println ""]
  else [].

Definition print_notes (commitRange : string) (commits : nat) (merges : gmap string (list string))
    : list string :=
  versions_header ++ overview commitRange commits merges ++
  mjoin (print_section merges <$> outputOrder) ++
  [println ""; println "_Thanks to all our contributors!_ 😊"].

(** *** [func run] *)

(** How a run ends: with an exit code and what it has printed, or a panic. *)
Inductive ending := Exit (code : Z) (printed : list string) | Crash.

Definition failed (p : pipe) (e : error) : Prop :=
  ∃ rs r, received p = rs ++ [r] ∧ Forall (λ r, err r = None) rs ∧ err r = Some e.

(** The text of an error, as [fmt.Println] prints it. *)
Context (Error : error → string).

Inductive run : ending → Prop :=
  | run_no_tools e :
      ensureInstalledDependencies = Some e → run (Exit 1 [println (Error e)])
  | run_bad_range e :
      ensureInstalledDependencies = None → commit_range = Err e → run (Exit 1 [println (Error e)])
  | run_git_fails range cmd out e :
      ensureInstalledDependencies = None → commit_range = Ok (range, cmd) →
      CombinedOutput cmd = (out, Some e) → run (Exit 1 [println "Error"; println out])
  | run_bad_output range cmd out :
      ensureInstalledDependencies = None → commit_range = Ok (range, cmd) →
      CombinedOutput cmd = (out, None) → parse_commits out = None → run Crash
  | run_bad_workers range cmd out commits :
      ensureInstalledDependencies = None → commit_range = Ok (range, cmd) →
      CombinedOutput cmd = (out, None) → parse_commits out = Some commits →
      (numWorkers fl < 0)%Z → run Crash
  (* a worker panics *)
  | run_panics range cmd out commits p i c :
      ensureInstalledDependencies = None → commit_range = Ok (range, cmd) →
      CombinedOutput cmd = (out, None) → parse_commits out = Some commits →
      (0 ≤ numWorkers fl)%Z → rtc pipe_step (start (Z.to_nat (numWorkers fl)) commits) p →
      workers p !! i = Some (Busy c) → generateReleaseNoteEntry fl c = None → run Crash
  (* the first error that is received *)
  | run_entry_fails range cmd out commits p e :
      ensureInstalledDependencies = None → commit_range = Ok (range, cmd) →
      CombinedOutput cmd = (out, None) → parse_commits out = Some commits →
      (0 ≤ numWorkers fl)%Z → rtc pipe_step (start (Z.to_nat (numWorkers fl)) commits) p →
      failed p e → run (Exit 0 [println (Error e)])
  | run_prints range cmd out commits p :
      ensureInstalledDependencies = None → commit_range = Ok (range, cmd) →
      CombinedOutput cmd = (out, None) → parse_commits out = Some commits →
      (0 ≤ numWorkers fl)%Z → rtc pipe_step (start (Z.to_nat (numWorkers fl)) commits) p → closed p →
      Forall (λ r, err r = None) (received p) →
      run (Exit 0 (print_notes range (length commits) (collect (received p)))).
End Run.

(** ** The goroutines process every commit once *)

Section Pipe.
Context `{!Tools} (fl : flags).

Definition in_work (ws : list worker) : list commit :=
  omap (λ w, match w with Busy c => Some c | _ => None end) ws.

(** The commits are the processed ones, those in work and those that wait; a worker
    returns only when none waits. *)
Definition accounted (commits : list commit) (p : pipe) : Prop :=
  (∃ cs, Forall2 (λ c r, generateReleaseNoteEntry fl c = Some r) cs (received p) ∧
         cs ++ in_work (workers p) ++ queue p ≡ₚ commits) ∧
  (Returned ∈ workers p → queue p = []).

Lemma in_work_insert ws i w w' :
  ws !! i = Some w →
  option_list (match w with Busy c => Some c | _ => None end) ++ in_work (<[i := w']> ws) ≡ₚ
  option_list (match w' with Busy c => Some c | _ => None end) ++ in_work ws.
Proof.
  revert i. induction ws as [|w0 ws IH]; intros [|i]; simpl; [done|done|intros [= ->]|intros Hi].
  - destruct w, w'; simpl; try done. apply Permutation_swap.
  - specialize (IH i Hi). destruct w0 as [|c0|]; simpl; [exact IH| |exact IH].
    destruct w, w'; simpl in *; by rewrite ?(Permutation_swap c0), ?IH.
Qed.

Lemma start_accounted n commits : accounted commits (start n commits).
Proof.
  split; [|intros Hr%elem_of_replicate; by destruct Hr].
  exists []. split; [constructor|]. simpl. assert (in_work (replicate n Idle) = []) as ->; [|done].
  induction n; simpl; auto.
Qed.

Lemma returned_insert (ws : list worker) i w : Returned ∈ <[i := w]> ws → w ≠ Returned → Returned ∈ ws.
Proof.
  rewrite !list_elem_of_lookup. intros [j Hj] Hw. exists j. apply list_lookup_insert_Some in Hj as [(_ & ? & _)|[_ Hj]]; done.
Qed.

Lemma step_accounted commits p p' : accounted commits p → pipe_step fl p p' → accounted commits p'.
Proof.
  intros [(cs & Hcs & Hperm) Hret] Hs.
  destruct Hs as [i c q ws rs Hi|i c r q ws rs Hi Hg|i ws rs Hi]; simpl in *.
  - pose proof (in_work_insert _ _ _ (Busy c) Hi) as Hw. simpl in Hw. split.
    + exists cs. split; [done|]. rewrite <- Hperm, Hw. simpl. by rewrite <- (Permutation_middle (in_work ws)).
    + intros Hr%returned_insert; [|done]. by apply Hret in Hr.
  - pose proof (in_work_insert _ _ _ Idle Hi) as Hw. simpl in Hw. split.
    + exists (cs ++ [c]). split; [by apply Forall2_app; [|constructor]|].
      rewrite <- Hperm, <- Hw. simpl. by rewrite <- !assoc_L by apply _.
    + intros Hr%returned_insert; [|done]. by apply Hret in Hr.
  - pose proof (in_work_insert _ _ _ Returned Hi) as Hw. simpl in Hw. split; [|done].
    exists cs. split; [done|]. by rewrite <- Hperm, Hw.
Qed.

Lemma steps_accounted commits n p : rtc (pipe_step fl) (start n commits) p → accounted commits p.
Proof.
  intros Hsteps. pose proof (start_accounted n commits) as Ha.
  induction Hsteps as [|p p1 p2 Hs _ IH]; [done|]. apply IH. by eapply step_accounted.
Qed.

Lemma step_workers p p' : pipe_step fl p p' → length (workers p') = length (workers p).
Proof. intros []; simpl; apply length_insert. Qed.

Lemma steps_workers commits n p : rtc (pipe_step fl) (start n commits) p → length (workers p) = n.
Proof.
  intros Hsteps. assert (length (workers (start n commits)) = n) as <- by apply length_replicate.
  induction Hsteps as [|p p1 p2 Hs _ IH]; [done|]. by rewrite IH, (step_workers _ _ Hs).
Qed.

(** When the results are closed, every commit was processed, once. *)
Lemma closed_received commits n p :
  0 < n → rtc (pipe_step fl) (start n commits) p → closed p →
  ∃ cs, cs ≡ₚ commits ∧ Forall2 (λ c r, generateReleaseNoteEntry fl c = Some r) cs (received p).
Proof.
  intros Hn Hsteps Hcl. destruct (steps_accounted _ _ _ Hsteps) as [(cs & Hcs & Hperm) Hret].
  pose proof (steps_workers _ _ _ Hsteps) as Hlen. exists cs. split; [|done].
  assert (in_work (workers p) = []) as Hw.
  { unfold closed in Hcl. clear -Hcl. induction Hcl as [|w ws -> _ IH]; simpl; auto. }
  rewrite Hret, Hw, !List.app_nil_r in Hperm; [done|].
  unfold closed in Hcl. destruct (workers p) as [|w ws]; [simpl in Hlen; lia|].
  apply list.Forall_cons in Hcl as [-> _]. by left.
Qed.

Lemma generated_perm cs1 cs2 rs1 rs2 :
  cs1 ≡ₚ cs2 → Forall2 (λ c r, generateReleaseNoteEntry fl c = Some r) cs1 rs1 →
  Forall2 (λ c r, generateReleaseNoteEntry fl c = Some r) cs2 rs2 → rs1 ≡ₚ rs2.
Proof.
  intros Hp H1 H2.
  assert (∀ cs rs, Forall2 (λ c r, generateReleaseNoteEntry fl c = Some r) cs rs →
    rs = omap (generateReleaseNoteEntry fl) cs) as Hom.
  { induction 1 as [|c r cs rs Hg _ IH]; simpl; [done|]. by rewrite Hg, IH. }
  rewrite (Hom _ _ H1), (Hom _ _ H2). by rewrite Hp.
Qed.

(** *** They do not block, and finish *)

(** The steps that a pipe can still take. *)
Definition worker_work (w : worker) : nat := match w with Idle => 1 | Busy _ => 2 | Returned => 0 end.
Definition work (p : pipe) : nat := 2 * length (queue p) + sum_list_with worker_work (workers p).

Lemma sum_insert ws i w w' :
  ws !! i = Some w →
  sum_list_with worker_work (<[i := w']> ws) + worker_work w =
  sum_list_with worker_work ws + worker_work w'.
Proof.
  revert i. induction ws as [|w0 ws IH]; intros [|i]; simpl; [done|done|intros [= ->]; lia|].
  intros Hi%IH. lia.
Qed.

Lemma step_work p p' : pipe_step fl p p' → work p' < work p.
Proof.
  intros [i c q ws rs Hi|i c r q ws rs Hi Hg|i ws rs Hi]; unfold work; simpl.
  - pose proof (sum_insert _ _ _ (Busy c) Hi). simpl in *. lia.
  - pose proof (sum_insert _ _ _ Idle Hi). simpl in *. lia.
  - pose proof (sum_insert _ _ _ Returned Hi). simpl in *. lia.
Qed.

(** The goroutines finish: every step reduces the work, and as long as the results
    are not closed some goroutine can go on, unless a worker panics. *)
Theorem workers_finish n commits p :
  rtc (pipe_step fl) (start n commits) p →
  (∀ p', pipe_step fl p p' → work p' < work p) ∧
  (closed p ∨ (∃ p', pipe_step fl p p') ∨
   ∃ i c, workers p !! i = Some (Busy c) ∧ generateReleaseNoteEntry fl c = None).
Proof.
  intros Hsteps. split; [apply step_work|].
  destruct (decide (Forall (λ w, w = Returned) (workers p))) as [Hc|Hc]; [by left|]. right.
  apply list.not_Forall_Exists in Hc; [|apply _].
  apply list.Exists_exists in Hc as (w & [i Hi]%list_elem_of_lookup & Hw).
  destruct p as [q ws rs]; simpl in *. destruct w as [|c|]; [| |done].
  - left. destruct q as [|c q]; [by eexists; eapply pipe_return|by eexists; eapply pipe_take].
  - destruct (generateReleaseNoteEntry fl c) as [r|] eqn:Hg; [left|right; by exists i, c].
    eexists. by eapply pipe_send.
Qed.
End Pipe.

(** ** The notes do not depend on the schedule *)

Section Notes.
Context `{!Tools} (fl : flags).

(** The lines of a section, in the order in which the results arrived. *)
Definition lines_of (rs : list releaseNoteEntryResult) (s : string) : list string :=
  omap (λ r, match prEntry r with
             | Some e => if bool_decide (title e ≠ "" ∧ section e = s) then Some (listed e) else None
             | None => None
             end) rs.

Lemma collect_from m rs s :
  default [] (foldl collect_one m rs !! s) = default [] (m !! s) ++ lines_of rs s.
Proof.
  revert m. induction rs as [|r rs IH]; intros m; simpl; [by rewrite List.app_nil_r|].
  rewrite IH. unfold collect_one. destruct (prEntry r) as [e|]; simpl; [|done].
  destruct (decide (title e = "")) as [Ht|Ht].
  { rewrite bool_decide_true, (bool_decide_false (_ ∧ _)) by tauto. done. }
  rewrite (bool_decide_false (title e = "")) by done.
  destruct (decide (section e = s)) as [<-|Hs].
  - rewrite bool_decide_true by done. rewrite lookup_insert_eq. simpl. by rewrite <- List.app_assoc.
  - rewrite bool_decide_false by tauto. by rewrite lookup_insert_ne.
Qed.

Lemma collect_lines rs s : default [] (collect rs !! s) = lines_of rs s.
Proof.
  unfold collect. rewrite collect_from. set (m := list_to_map _ : gmap string (list string)).
  destruct (m !! s) as [l|] eqn:Hl; [|done]. apply elem_of_list_to_map_2 in Hl.
  apply list_elem_of_fmap in Hl as (s' & [= _ ->] & _). done.
Qed.

Lemma lines_perm rs1 rs2 s : rs1 ≡ₚ rs2 → lines_of rs1 s ≡ₚ lines_of rs2 s.
Proof. intros Hp. unfold lines_of. by rewrite Hp. Qed.

Lemma ltb_antisym x y : String.ltb x y = false → String.ltb y x = false → x = y.
Proof.
  unfold String.ltb. rewrite (String.compare_antisym y x).
  destruct (String.compare x y) eqn:Hc; [|done|done]. intros _ _. by apply String.compare_eq_iff.
Qed.

(** Lines that agree only if they are equal, letter case aside. *)
Definition distinct (l : list string) : Prop :=
  ∀ x y, x ∈ l → y ∈ l → strings_ToLower x = strings_ToLower y → x = y.

Lemma sort_lines_unique `{!ToolsLaws} l1 l2 :
  l1 ≡ₚ l2 → distinct l1 → sort_lines l1 = sort_lines l2.
Proof.
  intros Hp Hd. unfold sort_lines. eapply StronglySorted_unique_strong;
    [|apply (sort_Slice_sorted strings_ToLower)..|].
  - intros x y Hx Hy Hxy Hyx. rewrite sort_Slice_perm in Hx. rewrite sort_Slice_perm, <- Hp in Hy.
    apply Hd; [done|done|]. by apply ltb_antisym.
  - rewrite (sort_Slice_perm _ l1), (sort_Slice_perm _ l2). exact Hp.
Qed.

Lemma print_section_perm `{!ToolsLaws} m1 m2 key :
  default [] (m1 !! key) ≡ₚ default [] (m2 !! key) →
  (if decide (key = documentation) then length (default [] (m1 !! key)) ≤ 1
   else distinct (default [] (m1 !! key))) →
  print_section m1 key = print_section m2 key.
Proof.
  unfold print_section. generalize (default [] (m1 !! key)), (default [] (m2 !! key)).
  intros l1 l2 Hp Hd. pose proof (Permutation_length Hp) as Hlen.
  destruct (decide (key = documentation)) as [->|Hk].
  - destruct l1 as [|x [|x' l1]], l2 as [|y [|y' l2]]; simpl in *; try lia; [done|].
    apply Permutation_singleton_inj in Hp as ->. done.
  - rewrite bool_decide_false by done. pose proof (sort_lines_unique _ _ Hp Hd) as Hs.
    destruct l1, l2; simpl in Hlen; try lia; [done|]. by rewrite Hs.
Qed.

(** C37: every commit is listed once whatever the number of workers and their
    schedule: two runs of the goroutines that end collect, section by section, the
    same lines in some order.  If no two lines of a section differ in letter case
    only, the overview and the printed sections are the same, but for the
    documentation; and the whole text is the same if besides at most one contribution
    is to the documentation, whose pull requests the tool joins in the order of their
    arrival ([documentation_order_varies]). *)
Theorem notes_schedule_independent `{!ToolsLaws} n1 n2 commits p1 p2 range :
  0 < n1 → 0 < n2 →
  rtc (pipe_step fl) (start n1 commits) p1 → closed p1 →
  rtc (pipe_step fl) (start n2 commits) p2 → closed p2 →
  let m1 := collect (received p1) in
  let m2 := collect (received p2) in
  (Some <$> received p1) ≡ₚ (generateReleaseNoteEntry fl <$> commits) ∧
  (∀ key, default [] (m1 !! key) ≡ₚ default [] (m2 !! key)) ∧
  ((∀ key, key ≠ documentation → distinct (default [] (m1 !! key))) →
   overview range (length commits) m1 = overview range (length commits) m2 ∧
   (∀ key, key ≠ documentation → print_section m1 key = print_section m2 key) ∧
   (length (default [] (m1 !! documentation)) ≤ 1 →
    print_notes fl range (length commits) m1 = print_notes fl range (length commits) m2)).
Proof.
  intros Hn1 Hn2 Hs1 Hc1 Hs2 Hc2. cbv zeta.
  destruct (closed_received fl _ _ _ Hn1 Hs1 Hc1) as (cs1 & Hp1 & Hg1).
  destruct (closed_received fl _ _ _ Hn2 Hs2 Hc2) as (cs2 & Hp2 & Hg2).
  pose proof (generated_perm fl cs1 cs2 _ _ ltac:(by rewrite Hp1, Hp2) Hg1 Hg2) as Hrs.
  assert (∀ key, default [] (collect (received p1) !! key) ≡ₚ default [] (collect (received p2) !! key))
    as Hlines by (intros key; rewrite !collect_lines; by apply lines_perm).
  split; [|split; [done|]].
  - rewrite <- Hp1. clear -Hg1. induction Hg1 as [|c r cs rs Hg _ IH]; simpl; [done|]. by rewrite Hg, IH.
  - intros Hd.
    assert (overview range (length commits) (collect (received p1)) =
            overview range (length commits) (collect (received p2))) as Hov
      by (unfold overview; by rewrite !(Permutation_length (Hlines _))).
    assert (∀ key, key ≠ documentation ∨ length (default [] (collect (received p1) !! documentation)) ≤ 1 →
      print_section (collect (received p1)) key = print_section (collect (received p2)) key) as Hsec.
    { intros key Hk. apply print_section_perm; [done|].
      destruct (decide (key = documentation)) as [->|Hn]; [naive_solver|by apply Hd]. }
    split; [done|]. split; [intros key Hk; apply Hsec; by left|]. intros Hdoc. unfold print_notes. rewrite Hov.
    do 4 f_equal. apply list_fmap_ext. intros i key _. apply Hsec. by right.
Qed.
End Notes.

(** ** Errors *)

Section Errors.
Context `{!Tools} (fl : flags).

(** A worker panics only on a merge of less than four words, when the area label is
    wanted, and on a title that is nothing but prefixes. *)
Theorem generate_panics c :
  generateReleaseNoteEntry fl c = None →
  (prefixAreaLabel fl = true ∧ length (Split (merge c) " ") ≤ 3) ∨
  ∃ prefixes section t, (prefixes, section) ∈ kinds ∧ existsb (HasPrefix t) prefixes = true ∧
    foldl (λ t prefix, TrimLeft_space (TrimPrefix t prefix)) t prefixes = "".
Proof.
  unfold generateReleaseNoteEntry. intros Hg. destruct (prefixAreaLabel fl) eqn:Hp.
  - unfold getAreaLabel in Hg. destruct (Split (merge c) " " !! 3) as [w|] eqn:Hw.
    2: { left. split; [done|]. by apply lookup_ge_None in Hw. }
    right. simpl in Hg. destruct (CombinedOutput _) as [out [e|]]; [done|].
    destruct (UnmarshalPullRequest out) as [pr|e]; [|done].
    destruct (classify _) as [[? ?]|] eqn:Hc; simpl in Hg; [by repeat case_match|].
    by apply classify_panics in Hc.
  - right. simpl in Hg. destruct (classify _) as [[? ?]|] eqn:Hc; simpl in Hg; [by repeat case_match|].
    by apply classify_panics in Hc.
Qed.

(** Without workers the results are closed at once: no commit is listed. *)
Lemma no_workers commits : closed (start 0 commits) ∧ received (start 0 commits) = [].
Proof. by repeat constructor. Qed.

(** The last day of the range is the day after the one that is given. *)
Theorem increaseDateByOneDay_spec y m d :
  (0 ≤ y < 10000)%Z → Calendar.valid y m d = true →
  increaseDateByOneDay (Calendar.FormatDate (y, m, d)) =
  Ok (Calendar.FormatDate
        (if (d <? Calendar.days_in y m)%Z then (y, m, d + 1)
         else if (m <? 12)%Z then (y, m + 1, 1) else (y + 1, 1, 1))%Z).
Proof.
  intros Hy Hv. unfold increaseDateByOneDay. rewrite Calendar.ParseDate_Format by done.
  rewrite <- (Calendar.next_date_spec y m d Hv). unfold Calendar.next_date.
  change (Time.Hour * 24)%Z with (1 * Calendar.Day)%Z.
  rewrite <- Z.mul_add_distr_r, Z.div_mul by done. done.
Qed.
End Errors.

(** ** Witness: three pull requests *)

Module Examples.

Definition upper (c : ascii) : ascii :=
  if in_range "a" "z" c then ascii_of_N (N_of_ascii c - 32) else c.
Fixpoint upper_all (s : string) : string :=
  match s with EmptyString => EmptyString | String c s => String (upper c) (upper_all s) end.

Fixpoint insert_by (less : string → string → bool) (x : string) (l : list string) : list string :=
  match l with
  | [] => [x]
  | y :: l => if less y x then y :: insert_by less x l else x :: y :: l
  end.

(** What git and GitHub answer. *)
Definition log : string :=
  Join ["commit c1"; "Merge pull request #11 from a/fix"; ""; ":bug: fix the leak"; "";
        "commit c2"; "Merge pull request #12 from b/docs"; ""; "📖 Describe the release"; "";
        "commit c3"; "Merge pull request #13 from c/port"; ""; "[release-1.2] 🐛 [release-1.2] Avoid a race"; ""]
    (String newline "").
Definition pull_request (labels : list string) : string :=
  Json.print (Json.JObject [("labels",
    Json.JArray ((λ l, Json.JObject [("name", Json.JString l)]) <$> labels))]).
Definition answer (args : list string) : string * option string :=
  match args with
  | [_; _; url] =>
      if HasSuffix url "/11" then (pull_request ["kind/bug"; "area/api"], None)
      else if HasSuffix url "/12" then (pull_request ["area/documentation"], None)
      else if HasSuffix url "/13" then (pull_request ["area/ci"; "area/new"], None)
      else ("Not Found", Some "exit status 1")
  | _ => (log, None)
  end.
End Examples.
Import Examples.

#[local] Instance ex_tools : Tools := {|
  LookPath _ := true;
  Output _ := ("v1.0.0" +:+ String newline "", None);
  CombinedOutput := answer;
  strings_ToLower := ToLower;
  strings_ToUpper := upper_all;
  sort_Slice less l := foldr (insert_by less) [] l;
|}.

Definition ex_flags (workers : Z) : flags :=
  mkFlags "kubernetes-sigs/cluster-api" "" "" "" workers true false.

(** The worker [i] goes on. *)
Definition pipe_turn fl (i : nat) (p : pipe) : option pipe :=
  match workers p !! i with
  | Some Idle =>
      match queue p with
      | c :: q => Some (mkPipe q (<[i := Busy c]> (workers p)) (received p))
      | [] => Some (mkPipe [] (<[i := Returned]> (workers p)) (received p))
      end
  | Some (Busy c) =>
      r ← generateReleaseNoteEntry fl c;
      Some (mkPipe (queue p) (<[i := Idle]> (workers p)) (received p ++ [r]))
  | _ => None
  end.

Definition pipe_turns fl (schedule : list nat) (p : pipe) : option pipe :=
  foldl (λ p i, p ≫= pipe_turn fl i) (Some p) schedule.

Lemma pipe_turn_step fl i p p' : pipe_turn fl i p = Some p' → pipe_step fl p p'.
Proof.
  unfold pipe_turn. destruct p as [q ws rs]; simpl. destruct (ws !! i) as [[|c|]|] eqn:Hi; [| |done..].
  - destruct q; intros [= <-]; by constructor.
  - destruct (generateReleaseNoteEntry fl c) as [r|] eqn:Hg; [|done]. intros [= <-].
    by eapply pipe_send.
Qed.

Lemma pipe_turns_steps fl schedule p p' :
  pipe_turns fl schedule p = Some p' → rtc (pipe_step fl) p p'.
Proof.
  unfold pipe_turns. revert p. induction schedule as [|i l IH]; intros p; simpl; [by intros [= ->]|].
  destruct (pipe_turn fl i p) as [p1|] eqn:Ht.
  - intros Hl. eapply rtc_l; [by eapply pipe_turn_step|by apply IH].
  - assert (foldl (λ p i, p ≫= pipe_turn fl i) None l = None) as -> by (clear; by induction l). done.
Qed.

Definition ex_commits : list commit := default [] (parse_commits log).
Definition ex_one : pipe :=
  default (start 0 []) (pipe_turns (ex_flags 1) [0; 0; 0; 0; 0; 0; 0] (start 1 ex_commits)).
Definition ex_two : pipe :=
  default (start 0 []) (pipe_turns (ex_flags 1) [0; 1; 1; 1; 1; 1; 0; 0] (start 2 ex_commits)).

Lemma insert_by_perm less x l : insert_by less x l ≡ₚ x :: l.
Proof.
  induction l as [|y l IH]; simpl; [done|]. destruct (less y x); [|done].
  rewrite IH. apply Permutation_swap.
Qed.

Lemma insert_by_sorted (f : string → string) x l :
  StronglySorted (λ x y, String.ltb (f y) (f x) = false) l →
  StronglySorted (λ x y, String.ltb (f y) (f x) = false) (insert_by (λ x y, String.ltb (f x) (f y)) x l).
Proof.
  assert (Transitive (λ x y, String.ltb (f y) (f x) = false)) as Htrans.
  { assert (∀ x y, String.ltb y x = false ↔ String.le x y) as Hle.
    { intros u v. unfold String.le, String.leb, String.ltb. rewrite (String.compare_antisym v u).
      by destruct (String.compare u v). }
    intros u v w. rewrite !Hle. apply transitivity. }
  induction 1 as [|y l Hl IH Hy]; simpl; [by repeat constructor|].
  destruct (String.ltb (f y) (f x)) eqn:Hlt.
  - constructor; [done|]. rewrite insert_by_perm. constructor; [|done].
    cbv beta. unfold String.ltb in *. rewrite (String.compare_antisym (f x)).
    by destruct (String.compare (f y) (f x)).
  - constructor; [by constructor|]. constructor; [done|].
    eapply list.Forall_impl; [exact Hy|]. intros z Hz. by apply (Htrans x y z).
Qed.

#[local] Instance ex_tools_laws : ToolsLaws.
Proof.
  split.
  - intros less l. simpl. induction l as [|x l IH]; simpl; [done|]. by rewrite insert_by_perm, IH.
  - intros f l. simpl. induction l as [|x l IH]; simpl; [constructor|]. by apply insert_by_sorted.
Qed.

Lemma notes_schedule_independent_witness :
  received ex_one ≠ received ex_two ∧
  print_notes (ex_flags 1) "v1.0.0" 3 (collect (received ex_one)) =
  print_notes (ex_flags 1) "v1.0.0" 3 (collect (received ex_two)).
Proof.
  split; [vm_compute; discriminate|].
  assert (rtc (pipe_step (ex_flags 1)) (start 1 ex_commits) ex_one) as H1.
  { apply pipe_turns_steps with (schedule := [0; 0; 0; 0; 0; 0; 0]). vm_compute; reflexivity. }
  assert (rtc (pipe_step (ex_flags 1)) (start 2 ex_commits) ex_two) as H2.
  { apply pipe_turns_steps with (schedule := [0; 1; 1; 1; 1; 1; 0; 0]). vm_compute; reflexivity. }
  apply (notes_schedule_independent (ex_flags 1) 1 2 ex_commits ex_one ex_two "v1.0.0");
    [lia|lia|exact H1|vm_compute; by repeat constructor|exact H2|vm_compute; by repeat constructor| |].
  - intros key Hkey x y. rewrite collect_lines.
    assert (lines_of (received ex_one) key = if decide (key = bugs)
      then ["- API: Fix the leak (#11)"; "- MULTIPLE_AREAS[CI/new]: Avoid a race (#13)"] else []) as ->.
    { destruct (decide (key = bugs)) as [->|Hb]; [vm_compute; reflexivity|].
      assert (received ex_one = [
        mkEntryResult (Some (mkEntry "- API: Fix the leak (#11)" bugs "#11")) None;
        mkEntryResult (Some (mkEntry "- documentation: Describe the release (#12)" documentation "#12")) None;
        mkEntryResult (Some (mkEntry "- MULTIPLE_AREAS[CI/new]: Avoid a race (#13)" bugs "#13")) None])
        as -> by (vm_compute; reflexivity).
      unfold lines_of. simpl. rewrite !bool_decide_false by (intros [_ ?]; congruence). done. }
    destruct (decide (key = bugs)); [|by intros ?%elem_of_nil].
    rewrite !elem_of_cons, !elem_of_nil.
    intros [-> |[-> | []]] [-> |[-> | []]]; vm_compute; congruence.
  - vm_compute. lia.
Defined.

(** Two contributions to the documentation are listed in the order in which the
    workers finish: the text of the notes depends on the schedule. *)
Definition docs_flags : flags := mkFlags "kubernetes-sigs/cluster-api" "" "" "" 2 false false.
Definition docs_commits : list commit :=
  [mkCommit "Merge pull request #12 from b/docs" "📖 Describe the release";
   mkCommit "Merge pull request #14 from b/book" "📖 Describe the book"].
Definition docs_run (schedule : list nat) : pipe :=
  default (start 0 []) (pipe_turns docs_flags schedule (start 2 docs_commits)).

Lemma docs_run_steps schedule :
  is_Some (pipe_turns docs_flags schedule (start 2 docs_commits)) →
  rtc (pipe_step docs_flags) (start 2 docs_commits) (docs_run schedule).
Proof. intros [p Hp]. apply pipe_turns_steps with (schedule := schedule). unfold docs_run. by rewrite Hp. Qed.

Theorem documentation_order_varies : ∃ p1 p2,
  rtc (pipe_step docs_flags) (start 2 docs_commits) p1 ∧ closed p1 ∧
  rtc (pipe_step docs_flags) (start 2 docs_commits) p2 ∧ closed p2 ∧
  print_section (collect (received p1)) documentation =
    [println ":book: Additionally, there have been 2 contributions to our documentation and book. (#12, #14) " +:+
     println ""] ∧
  print_section (collect (received p2)) documentation =
    [println ":book: Additionally, there have been 2 contributions to our documentation and book. (#14, #12) " +:+
     println ""].
Proof.
  exists (docs_run [0; 1; 0; 1; 0; 1]), (docs_run [0; 1; 1; 0; 0; 1]).
  split; [apply docs_run_steps; vm_compute; by eexists|]. split; [vm_compute; by repeat constructor|].
  split; [apply docs_run_steps; vm_compute; by eexists|]. split; [vm_compute; by repeat constructor|].
  split; vm_compute; reflexivity.
Qed.

(** A merge of three words and a title without text make a worker panic. *)
Example short_merge_panics :
  generateReleaseNoteEntry (ex_flags 1) (mkCommit "Merge branch 'main'" ":bug: fix") = None.
Proof. vm_compute. reflexivity. Qed.
Example empty_title_panics :
  generateReleaseNoteEntry (ex_flags 1) (mkCommit "Merge pull request #11 from a/b" ":bug:") = None.
Proof. vm_compute. reflexivity. Qed.

(** The first byte of a title is taken for a rune: the two bytes of é become three. *)
Example title_corrupted :
  modifyEntryTitle ":bug: état" [":bug:"; "🐛"] =
  Some (String "195" (String "131" (String "169" "tat"))).
Proof. vm_compute. reflexivity. Qed.

(** A line of a message that starts with "commit" is taken for another commit. *)
Example commit_line_splits :
  length (default [] (parse_commits (Join ["commit c1"; "Merge pull request #11 from a/b"; "";
    "commit the lock before use"] (String newline "")))) = 2.
Proof. vm_compute. reflexivity. Qed.

(** The merged text is listed for every shape of the generated titles. *)
Example entry_title :
  (λ r, prEntry r ≫= λ e, Some (title e, section e)) <$>
    generateReleaseNoteEntry (ex_flags 1) (mkCommit "Merge pull request #12 from a/b" "[release-1.2] :seedling: bump   ") =
  Some (Some ("- documentation: Bump (#12)", documentation)).
Proof. vm_compute. reflexivity. Qed.
End ReleaseNotes.
